(* ===== verification/_CoqProject ===== *)
-Q . S2P
Prelude.v
PyNum.v
Mersenne.v
PyText.v
Host.v
Json.v
Loopback.v
Blake2b.v
Wire.v
Console.v
Events.v
Diagnostics.v
Stats.v
Calibration.v
Latency.v
AuthTest.v
LoadGen.v
Paths.v
Argparse.v
Utils.v
ScriptLogic.v
UtilsSpec.v
Processes.v
BuildScripts.v
SdkScripts.v
YoctoScript.v
Scripts.v
Completion.v
VmManager.v
FileSys.v
DiskScripts.v
Waiting.v
Testbed.v
Documents.v
Series.v
Bench.v
Bt06.v
Pacing.v
Bt06Spec.v
Volume.v
Bt05.v
Bt05Spec.v
Bt05Suite.v
