(* ===== verification/Prelude.v ===== *)
(** * Blank Chat: a verification development of its scripts and benchmark programs

    Blank Chat is a chat system in C++ that runs over Tor on Yocto images.  The
    repository's Python programs build it, install its tool chain and measure it.  This
    development models those programs and proves what they promise.

    ** The programs

    - src/scripts: the developers' scripts.  Each enters the project root, loads the
      [.env] file into [os.environ] (utils.py), and runs other programs: CMake and CTest
      (build, test, format, coverage, valgrind), the built server or client (run), the
      GitHub command line (download_sdk, upload_sdk), git and docker (build_yocto);
      clean removes the build directory.  Those that build first take over the
      environment of the Yocto SDK, by sourcing its script in a shell and reading what
      [env] prints.
    - src/benchmarks: vm_manager.py makes the machines of the benchmarks from the Yocto
      images.  BT-01 tests the server's proof-of-work authentication over SOCKS5;
      BT-03 fills the server's quota; BT-04 compares inter-arrival times; BT-05 and
      BT-06 drive virtual machines over their consoles, read the events the client logs
      and compute latencies on corrected clocks; the apply_diagnostics scripts put the
      logging statements into the client's C++ sources.

    ** How programs are modelled

    A program is a function of type [M St A], from fuel and a state to a result and a
    state; a result is a value, a Python exception or lack of fuel (this file).  Calls
    with an outside effect are the constructors of [eff] (Host.v): a host is any handler
    of them, over a world of its own, and may answer or raise anything.  The state keeps
    the list of calls made with their outcomes, and theorems speak of that list.  Laws
    assumed of a host are classes with named fields, and Loopback.v is a concrete host
    that satisfies them, on which programs are evaluated.  The scripts' state has
    [os.environ] beside it, as a map of strings, and a process is started with the map
    as it then is.

    ** The files

    - This file: exceptions, results, the monad, loops with fuel, the judgements
      [wp], [keeps], [raises], [total] with their rules, tactics and the hint
      database [py].
    - PyNum.v, Mersenne.v, PyText.v, Json.v, Paths.v, Argparse.v: Python's numbers (floats
      are rationals rounded to binary64), its random number generator, text methods, regular expressions and shell
      quoting, JSON documents, pure paths, and the argument parser.
    - Host.v, Loopback.v: hosts.  Blake2b.v: the hash of the proof of work.
    - Utils.v: every function of scripts/utils.py under its own name; UtilsSpec.v: what
      they guarantee.
    - ScriptLogic.v, Processes.v: the logic of scripts.  [tw] relates a script to the
      calls it makes, [fail_stop] says that a failing command is the last thing a
      script does, [on_return] what was called if it returns.
    - BuildScripts.v (build, run, test, format, coverage, valgrind, clean),
      SdkScripts.v (download_sdk, upload_sdk), YoctoScript.v (build_yocto): one
      [<script>_main] per script, from [sys.argv] to its end, and its parts.
    - Scripts.v, Completion.v: properties of all scripts.
    - FileSys.v, DiskScripts.v: hosts with a file system.  A tree of files, directories
      and links, the laws of the calls on it (class [FileSystem]), a judgement [fw] that
      follows the tree through a script, and a disk that satisfies the laws; the effect
      of scripts on the tree, and of one script on the next.
    - VmManager.v: benchmarks/vm_manager.py, function by function.
    - Wire.v: frames and the SOCKS5 client that BT-01/auth_test.py and
      BT-03/loadgen.py share; AuthTest.v and LoadGen.v: these two programs.
    - Console.v, Events.v, Calibration.v: BT-05/orchestrator.py (host side, consoles,
      events, clocks) and the event documents of BT-06/orchestrator.py.  Testbed.v: what
      BT-05 and BT-06 do around their modes.  Waiting.v: that their waiting loops end.
    - Documents.v: observations of a trace, the documents written ([saved]) and the whole
      record with tables and monitored traffic ([logged]), with the rules for programs
      that leave them unchanged.  Bench.v: a simulated testbed.
    - Diagnostics.v: the apply_diagnostics.py scripts of BT-02, BT-04 and BT-05.
    - Stats.v: BT-04/analyze.py.  Latency.v: BT-06/analyze.py.  Volume.v:
      BT-05/analyze.py.
    - Series.v: from the events of a series, as the orchestrator checks them, to the
      document the analysis checks.
    - Bt06.v: BT-06/orchestrator.py, a series ([run_ack_gated_series]), a mode
      ([run_mode]: [connect_mode], [calibrate_mode], [record_passed], [mode_finally]) and
      the run ([bt06_main]: [bring_up], [main_try], [main_finally]); the locals that a
      [finally] reads are a record beside the host's state.  Bt06Spec.v: its properties,
      and a whole run evaluated on the testbed.
    - Bt05.v: the rest of BT-05/orchestrator.py: the monitor of the Tor connections
      ([monitor_start], [monitor_mark], [monitor_since], [monitor_stop]), the capture, the
      series, a mode ([bt05_run_mode]: [volume_body] with [start_measuring],
      [measured_series], [stop_measuring], [conclude]; [volume_failed],
      [volume_finally]) and the run ([bt05_main]).  The monitor's thread is not a process of
      its own: what it has read is an answer of the host whenever the monitor is looked at.
      Bt05Spec.v: the monitor and a mode, with a mode evaluated on the testbed.
      Bt05Suite.v: the analysis of the modes' documents, and the whole run.

    ** What is proved

    - Shared functions (UtilsSpec.v): the contract of each on every branch and host: the
      [.env] file is merged below the environment and never overrides a variable; the
      SDK's variables are taken over on success and none is touched on failure;
      [run_command] ends in one of four ways; files and printed environments are read
      back; the newest file is the first of the latest.
    - Each script: if it returns, exactly which commands ran, in which order, directory
      and environment, and which files were changed, on any host.
    - All scripts: they end; they stop at the first command that fails, with its status
      (Scripts.v); and they return unless hindered by a cause among their calls or
      arguments (Completion.v), so the statements about returning are not empty.
    - Scripts on a disk (DiskScripts.v): clean.py removes the build directory and nothing
      else; build.py leaves the compilation database; what download_sdk.py installs is
      what it downloaded, and build.py after it uses that SDK.  The programs the scripts
      start are assumed to do what is documented of them, as named hypotheses:
      [gh_downloads], [installer_makes], [programs_keep].
    - vm_manager.py: it ends, stops at a failing command, and if it returns made the
      three machines in the right order from fresh copies of the images.  The XML reader
      is a parameter [findtext].
    - Arguments: what is written on the command line is what a script sees; other
      arguments are refused before anything is done.
    - The wire: frames are read back under any cutting of the stream; the handshake reads
      and writes exactly its bytes; sockets are closed on every path.
    - The test client and the load generator: their loops end, the solution found is the
      least, counters are exact, and the exit status is the verdict.
    - Diagnostics: sources are written complete or not at all, and what the inserted
      statements log is what the orchestrators parse.
    - Statistics: the two-pointer loop computes the Kolmogorov-Smirnov distance.
      Calibration and latency: errors are bounded by the recorded round trips.
    - BT-06: a payload has the size asked for; a series ends, and its waits are a
      function of the seed; a mode ends, and the documents it leaves when it passed are
      accepted by the analysis, while a mode that failed is never recorded as passed;
      the exit status is 0 only if all modes passed and the analysis succeeded.
    - BT-05: the monitor records what the Tor node reports, however the reading is cut; a
      mode ends, and one that passed leaves a consistent series, the table of the relay
      connections and a summary whose volumes are the sums over that table, while one that
      failed is never recorded as passed; the analysis accepts the summaries of two modes
      that passed; the exit status and the suite's document agree, and 0 means that all
      modes passed and the analysis succeeded.
    - The whole runs of BT-05 and BT-06 end.

    Examples in UtilsSpec.v, SdkScripts.v, VmManager.v, LoadGen.v and Bt05Spec.v show
    behaviour that is probably not intended: [empty_name_misreported],
    [multi_line_value_splits], [bare_installer_name], [removal_failure_silent],
    [establish_protocol_error_leaks], [capture_failure_skips_cleanup].

    ** Fuel and bounds

    Fuel bounds the loops that are not over a list or a range.  [returns m s r s'] says
    that [m] ends with [r] for all sufficiently large fuel, and [total m] that it always
    ends; the scripts and analyses are proved total.  The receive loops end once the fuel
    exceeds the bytes that arrive, the proof-of-work search once it reaches a solution,
    and the waiting loops by the laws of the clock (class [Clock]).  Loops that read a
    reply line by line end because a peer sends finitely many lines (class [LineStream]),
    and the login loop of a console because a prompt takes time (class [Prompts]); with
    these laws the whole runs of BT-05 and BT-06 end.  [isinstance] walks at most five
    classes up, the depth of the hierarchy.

    ** Not modelled

    - Text that is not ASCII; floats beyond the range of binary64 and NaN.
    - What a process that is started does.  The shell text that build_yocto.py gives to
      the container is modelled as text.
    - The scripts' [if __name__ == "__main__"] lines, imports and docstrings.
    - The orchestrators of BT-01 to BT-04, which repeat most of BT-05's helpers, and
      final_analysis, numerical analysis with third-party packages.  Drawing plots is one
      call of the host.
    - The declaration of the options of BT-05 and BT-06: their arguments are those
      [parse_args] returns.  The steps of the monitor's thread between two looks at it.
    - The C++ programs, the Yocto layer, the CMake, Docker and shell files: not Python,
      and only run, read or patched by what is modelled. *)

From stdpp Require Import base list strings.
From Stdlib Require Import ZArith Lia.

(** ** Python exception classes

    [parent] is the direct base class in Python's hierarchy (built-in classes
    and the classes the repository declares); [isinstance] walks it upwards. *)

Inductive pyclass : Set :=
| BaseException | KeyboardInterrupt | SystemExit | Exception_
| RuntimeError | OSError | ValueError | LookupError | TypeError
| AttributeError | AssertionError | ArithmeticError | ZeroDivisionError
| KeyError | IndexError | StructError | UnicodeError | JSONDecodeError
| ConnectionError | ConnectionResetError | ConnectionAbortedError
| BrokenPipeError | TimeoutError | FileNotFoundError
| SubprocessError | CalledProcessError | TimeoutExpired
| ExceptionPexpect | PexpectTIMEOUT | PexpectEOF
| SyntaxError | XmlParseError
| TestError | AuthProtocolError | AuthSocksError
| LoadGenError | LoadProtocolError | LoadSocksError
| BenchmarkError | Bt02Error | StressError | Bt04Error | Bt05Error
| Bt06Error | AnalysisError | FinalSummaryError.

#[global] Instance pyclass_eq_dec : EqDecision pyclass.
Proof. solve_decision. Defined.

Definition parent (c : pyclass) : option pyclass :=
  match c with
  | BaseException => None
  | KeyboardInterrupt | SystemExit | Exception_ => Some BaseException
  | RuntimeError | OSError | ValueError | LookupError | TypeError
  | AttributeError | AssertionError | ArithmeticError | StructError
  | SubprocessError | ExceptionPexpect | SyntaxError => Some Exception_
  | KeyError | IndexError => Some LookupError
  | ZeroDivisionError => Some ArithmeticError
  | UnicodeError | JSONDecodeError => Some ValueError
  | ConnectionError | TimeoutError | FileNotFoundError => Some OSError
  | ConnectionResetError | ConnectionAbortedError | BrokenPipeError =>
      Some ConnectionError
  | CalledProcessError | TimeoutExpired => Some SubprocessError
  | PexpectTIMEOUT | PexpectEOF => Some ExceptionPexpect
  | XmlParseError => Some SyntaxError
  | TestError | LoadGenError | BenchmarkError | Bt02Error | StressError
  | Bt04Error | Bt05Error | Bt06Error | AnalysisError | FinalSummaryError =>
      Some RuntimeError
  | AuthProtocolError | AuthSocksError => Some TestError
  | LoadProtocolError | LoadSocksError => Some LoadGenError
  end.

Fixpoint subclass_fuel (n : nat) (c d : pyclass) : bool :=
  bool_decide (c = d) ||
  match n, parent c with
  | S n', Some p => subclass_fuel n' p d
  | _, _ => false
  end.

(** The hierarchy above has depth 4 below [BaseException]. *)
Definition subclass (c d : pyclass) : bool := subclass_fuel 5 c d.

Record exn : Set := Exn { ex_cls : pyclass; ex_msg : string }.

Definition isinstance (e : exn) (c : pyclass) : bool := subclass (ex_cls e) c.
Definition isinstance_any (e : exn) (cs : list pyclass) : bool :=
  existsb (isinstance e) cs.

(** ** Outcomes and the state-and-exception monad

    A Python function with effects is a function of an ambient loop bound and
    of the state; it returns a value, raises, or gives up because a [while]
    loop used up the bound.  Totality theorems show the last case away. *)

Inductive res (A : Type) : Type :=
| Ok (a : A)
| Raise (e : exn)
| NoFuel.
Arguments Ok {A} _.
Arguments Raise {A} _.
Arguments NoFuel {A}.

Definition M (St A : Type) : Type := nat → St → res A * St.

Definition m_ret {St A} (a : A) : M St A := λ _ s, (Ok a, s).

Definition m_bind {St A B} (k : A → M St B) (m : M St A) : M St B := λ n s,
  match m n s with
  | (Ok a, s') => k a n s'
  | (Raise e, s') => (Raise e, s')
  | (NoFuel, s') => (NoFuel, s')
  end.

#[global] Instance M_mret St : MRet (M St) := λ A a, m_ret a.
#[global] Instance M_mbind St : MBind (M St) := λ A B k m, m_bind k m.
#[global] Instance M_fmap St : FMap (M St) :=
  λ A B g m, m_bind (λ a, m_ret (g a)) m.

Definition throw {St A} (c : pyclass) (msg : string) : M St A :=
  λ _ s, (Raise (Exn c msg), s).
Definition rethrow {St A} (e : exn) : M St A := λ _ s, (Raise e, s).

Definition m_get {St} : M St St := λ _ s, (Ok s, s).
Definition m_put {St} (s : St) : M St unit := λ _ _, (Ok tt, s).
Definition m_modify {St} (g : St → St) : M St unit := λ _ s, (Ok tt, g s).

(** [try: m except <classes matched by h>]: [h e = None] lets [e] through. *)
Definition try_except {St A} (m : M St A) (h : exn → option (M St A)) : M St A :=
  λ n s,
    match m n s with
    | (Raise e, s') =>
        match h e with Some k => k n s' | None => (Raise e, s') end
    | r => r
    end.

(** [except (C1, C2, ...) as exc: k exc] *)
Definition except {St A} (cs : list pyclass) (k : exn → M St A)
  (e : exn) : option (M St A) :=
  if isinstance_any e cs then Some (k e) else None.

(** [try: m finally: fin]: an exception of [fin] replaces the outcome of [m]. *)
Definition try_finally {St A} (m : M St A) (fin : M St unit) : M St A :=
  λ n s,
    match m n s with
    | (NoFuel, s') => (NoFuel, s')
    | (r, s') =>
        match fin n s' with
        | (Ok _, s'') => (r, s'')
        | (Raise e, s'') => (Raise e, s'')
        | (NoFuel, s'') => (NoFuel, s'')
        end
    end.

(** Loops.  [iter step a] runs [step] from [a] until it answers [inr]; the
    ambient bound limits the number of iterations. *)
Fixpoint iter_go {St A B} (k : nat) (step : A → M St (A + B)) (a : A)
  : M St B := λ n s,
  match k with
  | O => (NoFuel, s)
  | S k' =>
      m_bind (λ r, match r with
                   | inl a' => iter_go k' step a'
                   | inr b => m_ret b
                   end) (step a) n s
  end.

Definition iter {St A B} (step : A → M St (A + B)) (a : A) : M St B :=
  λ n s, iter_go n step a n s.

(** [for x in l: ...] with a loop-carried value and an early exit ([inr]). *)
Fixpoint for_each {St X A B} (l : list X) (body : X → A → M St (A + B)) (a : A)
  : M St (A + B) :=
  match l with
  | [] => m_ret (inl a)
  | x :: l' =>
      m_bind (λ r, match r with
                   | inl a' => for_each l' body a'
                   | inr b => m_ret (inr b)
                   end) (body x a)
  end.

(** [for x in l: f x], no loop-carried value. *)
Fixpoint for_unit {St X} (l : list X) (body : X → M St unit) : M St unit :=
  match l with
  | [] => m_ret tt
  | x :: l' => m_bind (λ _, for_unit l' body) (body x)
  end.

(** [for x in l: a = f x a], a loop-carried value and no early exit. *)
Fixpoint for_acc {St X A} (l : list X) (body : X → A → M St A) (a : A) : M St A :=
  match l with
  | [] => m_ret a
  | x :: l' => m_bind (λ a', for_acc l' body a') (body x a)
  end.

(** [if b: raise C(msg)] *)
Definition raise_if {St} (b : bool) (c : pyclass) (msg : string) : M St unit :=
  if b then throw c msg else m_ret tt.

(** Pure code that can raise uses [res] directly. *)
Definition r_bind {A B} (k : A → res B) (m : res A) : res B :=
  match m with Ok a => k a | Raise e => Raise e | NoFuel => NoFuel end.
#[global] Instance res_mret : MRet res := λ A a, Ok a.
#[global] Instance res_mbind : MBind res := λ A B k m, r_bind k m.
#[global] Instance res_fmap : FMap res := λ A B g m, r_bind (λ a, Ok (g a)) m.

Definition fail {A} (c : pyclass) (msg : string) : res A := Raise (Exn c msg).
Definition fail_if (b : bool) (c : pyclass) (msg : string) : res unit :=
  if b then fail c msg else Ok tt.

(** A pure computation that may raise, as a statement of an effectful function. *)
Definition of_res {St A} (r : res A) : M St A := λ _ s, (r, s).

Definition is_ok {A} (r : res A) : bool :=
  match r with Ok _ => true | _ => false end.

Fixpoint map_res {A B} (g : A → res B) (l : list A) : res (list B) :=
  match l with
  | [] => Ok []
  | x :: l' => y ← g x; ys ← map_res g l'; mret (y :: ys)
  end.

Open Scope Z_scope.
(** [range(lo, hi)] *)
Definition zrange (lo hi : Z) : list Z :=
  map (λ i, lo + Z.of_nat i) (seq 0 (Z.to_nat (hi - lo))).

Close Scope Z_scope.

(** ** Weakest preconditions

    [wp N m Q E n s]: run with bound [n] from [s], [m] returns in [Q] or raises
    in [E]; [N] is what running out of the bound stands for ([False] makes the
    triple a total-correctness one, [True] a partial one). *)

Definition wp {St A} (N : Prop) (m : M St A)
  (Q : A → St → Prop) (E : exn → St → Prop) (n : nat) (s : St) : Prop :=
  match m n s with
  | (Ok a, s') => Q a s'
  | (Raise e, s') => E e s'
  | (NoFuel, _) => N
  end.

Section wp_rules.
Context {St : Type} (N : Prop).
Implicit Types (n : nat) (s : St).

Lemma wp_mono {A} (m : M St A) (Q Q' : A → St → Prop) (E E' : exn → St → Prop) n s :
  (∀ a s', Q a s' → Q' a s') → (∀ e s', E e s' → E' e s') →
  wp N m Q E n s → wp N m Q' E' n s.
Proof. unfold wp. destruct (m n s) as [[] ?]; auto. Qed.

Lemma wp_trivial {A} (m : M St A) n s : wp True m (λ _ _, True) (λ _ _, True) n s.
Proof. unfold wp. by destruct (m n s) as [[] ?]. Qed.

Lemma wp_ret {A} (a : A) Q E n s : wp N (mret a) Q E n s ↔ Q a s.
Proof. done. Qed.

Lemma wp_throw {A} c msg (Q : A → St → Prop) E n s :
  wp N (throw c msg) Q E n s ↔ E (Exn c msg) s.
Proof. done. Qed.

Lemma wp_bind {A B} (m : M St A) (k : A → M St B) Q E n s :
  wp N (m ≫= k) Q E n s ↔ wp N m (λ a s', wp N (k a) Q E n s') E n s.
Proof.
  unfold wp, mbind, M_mbind, m_bind. by destruct (m n s) as [[] ?].
Qed.

Lemma wp_raise_if b c msg Q E n s :
  wp N (raise_if b c msg) Q E n s ↔ if b then E (Exn c msg) s else Q tt s.
Proof. by destruct b. Qed.

Lemma wp_of_res {A} (r : res A) (Q : A → St → Prop) E n s :
  wp N (of_res r) Q E n s ↔
  match r with Ok a => Q a s | Raise e => E e s | NoFuel => N end.
Proof. by destruct r. Qed.

Lemma wp_try_except {A} (m : M St A) h Q E n s :
  wp N (try_except m h) Q E n s ↔
  wp N m Q (λ e s', match h e with
                    | Some k => wp N k Q E n s'
                    | None => E e s' end) n s.
Proof.
  unfold wp, try_except. destruct (m n s) as [[|e|] s']; [done| |done].
  by destruct (h e).
Qed.

Lemma wp_try_finally {A} (m : M St A) fin Q E n s :
  wp N (try_finally m fin) Q E n s ↔
  wp N m (λ a s', wp N fin (λ _ s'', Q a s'') E n s')
         (λ e s', wp N fin (λ _ s'', E e s'') E n s') n s.
Proof.
  unfold wp, try_finally.
  destruct (m n s) as [[|e|] s']; [| |done]; by destruct (fin n s') as [[] ?].
Qed.

(** Loop rule: an invariant and a measure that every repetition decreases. *)
Lemma wp_iter {A B} (I : A → St → Prop) (mu : A → St → nat)
  (step : A → M St (A + B)) Q E n :
  (∀ a s, I a s →
     wp N (step a) (λ r s', match r with
                            | inl a' => I a' s' ∧ mu a' s' < mu a s
                            | inr b => Q b s' end) E n s) →
  ∀ a s, I a s → mu a s < n → wp N (iter step a) Q E n s.
Proof.
  intros Hstep a s HI Hlt. unfold iter, wp.
  enough (∀ k a s, I a s → mu a s < k →
    match iter_go k step a n s with
    | (Ok b, s') => Q b s' | (Raise e, s') => E e s' | (NoFuel, _) => N end)
    as HH by (apply HH; done).
  clear a s HI Hlt. induction k as [|k IH]; intros a s HI Hlt; [lia|].
  cbn [iter_go]. specialize (Hstep a s HI). unfold wp, m_bind in *.
  destruct (step a n s) as [[[a'|b]|e|] s']; try done.
  destruct Hstep as [HI' Hmu]. apply IH; [done|lia].
Qed.

(** Partial version: no measure when running out of the bound is allowed. *)
Lemma wp_iter_partial {A B} (I : A → St → Prop)
  (step : A → M St (A + B)) Q E n :
  N →
  (∀ a s, I a s →
     wp N (step a) (λ r s', match r with
                            | inl a' => I a' s' | inr b => Q b s' end) E n s) →
  ∀ a s, I a s → wp N (iter step a) Q E n s.
Proof.
  intros HN Hstep a s HI. unfold iter, wp.
  enough (∀ k a s, I a s →
    match iter_go k step a n s with
    | (Ok b, s') => Q b s' | (Raise e, s') => E e s' | (NoFuel, _) => N end)
    as HH by (apply HH; done).
  clear a s HI. induction k as [|k IH]; intros a s HI; [done|].
  cbn [iter_go]. specialize (Hstep a s HI). unfold wp, m_bind in *.
  destruct (step a n s) as [[[a'|b]|e|] s']; try done. by apply IH.
Qed.

(** [for] rule: the invariant speaks of the part of the list already done. *)
Lemma wp_for_each {X A B} (I : list X → A → St → Prop) (R : B → St → Prop)
  (l : list X) (body : X → A → M St (A + B)) E n :
  (∀ pre x post a s, l = pre ++ x :: post → I pre a s →
     wp N (body x a) (λ r s', match r with
                              | inl a' => I (pre ++ [x]) a' s'
                              | inr b => R b s' end) E n s) →
  ∀ a s, I [] a s →
    wp N (for_each l body a) (λ r s', match r with
                                      | inl a' => I l a' s'
                                      | inr b => R b s' end) E n s.
Proof.
  intros Hbody.
  enough (∀ post pre a s, l = pre ++ post → I pre a s →
    wp N (for_each post body a) (λ r s', match r with
                                      | inl a' => I l a' s'
                                      | inr b => R b s' end) E n s) as HH
    by (intros; by apply (HH l [])).
  induction post as [|x post IH]; intros pre a s -> HI; cbn [for_each].
  - rewrite app_nil_r in *. done.
  - apply wp_bind. eapply wp_mono; [| |by eapply Hbody]; [|done].
    intros [a'|b] s' HQ; [|done].
    apply (IH (pre ++ [x])); [by rewrite <- app_assoc|done].
Qed.

Lemma wp_for_unit {X} (I : list X → St → Prop) (l : list X)
  (body : X → M St unit) E n :
  (∀ pre x post s, l = pre ++ x :: post → I pre s →
     wp N (body x) (λ _ s', I (pre ++ [x]) s') E n s) →
  ∀ s, I [] s → wp N (for_unit l body) (λ _ s', I l s') E n s.
Proof.
  intros Hbody.
  enough (∀ post pre s, l = pre ++ post → I pre s →
    wp N (for_unit post body) (λ _ s', I l s') E n s) as HH
    by (intros; by apply (HH l [])).
  induction post as [|x post IH]; intros pre s -> HI; cbn [for_unit].
  - rewrite app_nil_r in *. done.
  - apply wp_bind. eapply wp_mono; [| |by eapply Hbody]; [|done].
    intros ? s' HQ. apply (IH (pre ++ [x])); [by rewrite <- app_assoc|done].
Qed.

Lemma wp_for_acc {X A} (I : list X → A → St → Prop) (l : list X)
  (body : X → A → M St A) E n :
  (∀ pre x post a s, l = pre ++ x :: post → I pre a s →
     wp N (body x a) (λ a' s', I (pre ++ [x]) a' s') E n s) →
  ∀ a s, I [] a s → wp N (for_acc l body a) (λ a' s', I l a' s') E n s.
Proof.
  intros Hbody.
  enough (∀ post pre a s, l = pre ++ post → I pre a s →
    wp N (for_acc post body a) (λ a' s', I l a' s') E n s) as HH
    by (intros; by apply (HH l [])).
  induction post as [|x post IH]; intros pre a s -> HI; cbn [for_acc].
  - rewrite app_nil_r in *. done.
  - apply wp_bind. eapply wp_mono; [| |by eapply Hbody]; [|done].
    intros a' s' HQ. apply (IH (pre ++ [x])); [by rewrite <- app_assoc|done].
Qed.
End wp_rules.

(** ** Relations between the states before and after

    [keeps R m]: whatever the outcome of [m], the state it leaves is [R]-related
    to the state it started from.  For a preorder [R] (the clock does not go
    back, the trace only grows by calls of some kind) this follows from the
    calls [m] makes. *)

Definition keeps {St A} (R : St → St → Prop) (m : M St A) : Prop :=
  ∀ n s, R s (m n s).2.

Section keeps_rules.
Context {St : Type} {R : St → St → Prop} `{!PreOrder R}.

Lemma keeps_ret {A} (a : A) : keeps R (mret a).
Proof. intros n s. cbn. reflexivity. Qed.
Lemma keeps_m_ret {A} (a : A) : keeps R (m_ret a).
Proof. apply keeps_ret. Qed.
Lemma keeps_throw {A} c msg : keeps R (throw c msg : M St A).
Proof. intros n s. cbn. reflexivity. Qed.
Lemma keeps_rethrow {A} e : keeps R (rethrow e : M St A).
Proof. intros n s. cbn. reflexivity. Qed.
Lemma keeps_raise_if b c msg : keeps R (raise_if b c msg).
Proof. destruct b; [apply keeps_throw|apply keeps_ret]. Qed.

Lemma keeps_of_res {A} (r : res A) : keeps R (of_res r).
Proof. intros n s. cbn. reflexivity. Qed.

Lemma keeps_m_bind {A B} (k : A → M St B) (m : M St A) :
  keeps R m → (∀ a, keeps R (k a)) → keeps R (m_bind k m).
Proof.
  intros Hm Hk n s. unfold m_bind. specialize (Hm n s).
  destruct (m n s) as [[a|e|] s']; cbn in *; [|done|done].
  etransitivity; [apply Hm|apply Hk].
Qed.
Lemma keeps_bind {A B} (m : M St A) (k : A → M St B) :
  keeps R m → (∀ a, keeps R (k a)) → keeps R (m ≫= k).
Proof. apply keeps_m_bind. Qed.

Lemma keeps_try_except {A} (m : M St A) h :
  keeps R m → (∀ e k, h e = Some k → keeps R k) → keeps R (try_except m h).
Proof.
  intros Hm Hh n s. unfold try_except. specialize (Hm n s).
  destruct (m n s) as [[a|e|] s']; cbn in *; [done| |done].
  destruct (h e) as [k|] eqn:E; [|done]. etransitivity; [apply Hm|by eapply Hh].
Qed.
Lemma keeps_try {A} (m : M St A) cs k :
  keeps R m → (∀ e, keeps R (k e)) → keeps R (try_except m (except cs k)).
Proof.
  intros Hm Hk. apply keeps_try_except; [done|]. intros e k'. unfold except.
  destruct (isinstance_any e cs); [intros [= <-]; apply Hk|done].
Qed.
Lemma keeps_try_finally {A} (m : M St A) fin :
  keeps R m → keeps R fin → keeps R (try_finally m fin).
Proof.
  intros Hm Hf n s. unfold try_finally. specialize (Hm n s).
  destruct (m n s) as [[a|e|] s']; cbn in *; [| |done];
    specialize (Hf n s'); destruct (fin n s') as [[]]; cbn in *; by etransitivity.
Qed.

Lemma keeps_iter {A B} (step : A → M St (A + B)) a :
  (∀ a, keeps R (step a)) → keeps R (iter step a).
Proof.
  intros Hs n. unfold iter. generalize n at 1 as k. intros k. revert a.
  induction k as [|k IH]; intros a s; cbn [iter_go]; [cbn; reflexivity|].
  unfold m_bind. specialize (Hs a n s). destruct (step a n s) as [[[a'|b]|e|] s']; cbn in *;
    try done. etransitivity; [apply Hs|apply IH].
Qed.

Lemma keeps_for_each {X A B} (l : list X) (body : X → A → M St (A + B)) a :
  (∀ x a, keeps R (body x a)) → keeps R (for_each l body a).
Proof.
  intros Hb. revert a. induction l as [|x l IH]; intros a; cbn [for_each].
  - apply keeps_ret.
  - apply keeps_m_bind; [apply Hb|]. intros [a'|b]; [apply IH|apply keeps_ret].
Qed.
Lemma keeps_for_acc {X A} (l : list X) (body : X → A → M St A) a :
  (∀ x a, keeps R (body x a)) → keeps R (for_acc l body a).
Proof.
  intros Hb. revert a. induction l as [|x l IH]; intros a; cbn [for_acc]; [apply keeps_ret|].
  apply keeps_m_bind; [apply Hb|done].
Qed.
Lemma keeps_for_unit {X} (l : list X) (body : X → M St unit) :
  (∀ x, keeps R (body x)) → keeps R (for_unit l body).
Proof.
  intros Hb. induction l as [|x l IH]; cbn [for_unit]; [apply keeps_ret|].
  apply keeps_m_bind; [apply Hb|done].
Qed.

(** A postcondition and a relation proved apart hold together. *)
Lemma wp_keeps {A} N (m : M St A) Q E n s :
  keeps R m → wp N m Q E n s →
  wp N m (λ a s', Q a s' ∧ R s s') (λ e s', E e s' ∧ R s s') n s.
Proof.
  intros Hk. specialize (Hk n s). unfold wp. destruct (m n s) as [[] ?]; naive_solver.
Qed.
End keeps_rules.

(** [raises P m]: every exception that leaves [m] satisfies [P]. *)
Definition raises {St A} (P : exn → Prop) (m : M St A) : Prop :=
  ∀ n s e s', m n s = (Raise e, s') → P e.

Section raises_rules.
Context {St : Type} (P : exn → Prop).

Lemma raises_ret {A} (a : A) : raises P (mret a : M St A).
Proof. by intros n s e s'. Qed.
Lemma raises_throw {A} c msg : P (Exn c msg) → raises P (throw c msg : M St A).
Proof. intros HP n s e s' [= <- _]. done. Qed.
Lemma raises_raise_if b c msg : P (Exn c msg) → raises P (raise_if b c msg : M St unit).
Proof. destruct b; [apply raises_throw|intros _; apply raises_ret]. Qed.
Lemma raises_rethrow {A} e : P e → raises P (rethrow e : M St A).
Proof. intros HP n s e' s' [= <- _]. done. Qed.

Lemma raises_of_res {A} (r : res A) :
  (∀ e, r = Raise e → P e) → raises P (of_res r : M St A).
Proof. intros Hr n s e s' [= -> _]. by apply Hr. Qed.

Lemma raises_m_bind {A B} (k : A → M St B) (m : M St A) :
  raises P m → (∀ a, raises P (k a)) → raises P (m_bind k m).
Proof.
  intros Hm Hk n s e s'. unfold m_bind. destruct (m n s) as [[a|x|] s1] eqn:E; [|by intros [= <- _]; eapply Hm|done].
  apply Hk.
Qed.
Lemma raises_bind {A B} (m : M St A) (k : A → M St B) :
  raises P m → (∀ a, raises P (k a)) → raises P (m ≫= k).
Proof. apply raises_m_bind. Qed.

Lemma raises_try {A} (m : M St A) cs k :
  raises P m → (∀ e, P e → raises P (k e)) → raises P (try_except m (except cs k)).
Proof.
  intros Hm Hk n s e s'. unfold try_except, except.
  destruct (m n s) as [[a|x|] s1] eqn:E; [done| |done].
  destruct (isinstance_any x cs); [apply Hk; by eapply Hm|intros [= <- _]; by eapply Hm].
Qed.
Lemma raises_try_except {A} (m : M St A) h :
  raises P m → (∀ e k, h e = Some k → raises P k) → raises P (try_except m h).
Proof.
  intros Hm Hh n s e s'. unfold try_except.
  destruct (m n s) as [[a|x|] s1] eqn:E; [done| |done].
  destruct (h x) as [k|] eqn:Ex; [by eapply Hh|intros [= <- _]; by eapply Hm].
Qed.
Lemma raises_try_finally {A} (m : M St A) fin :
  raises P m → raises P fin → raises P (try_finally m fin).
Proof.
  intros Hm Hf n s e s'. unfold try_finally.
  destruct (m n s) as [[a|x|] s1] eqn:E; [| |done];
    destruct (fin n s1) as [[]] eqn:E'; intros [= <- _]; eauto.
Qed.
Lemma raises_iter {A B} (step : A → M St (A + B)) a :
  (∀ a, raises P (step a)) → raises P (iter step a).
Proof.
  intros Hs n. unfold iter. generalize n at 1 as k. intros k. revert a.
  induction k as [|k IH]; intros a s e s'; cbn [iter_go]; [done|].
  unfold m_bind. destruct (step a n s) as [[[a'|b]|x|] s1] eqn:E; [apply IH|done| |done].
  intros [= <- _]. by eapply Hs.
Qed.
Lemma raises_for_each {X A B} (l : list X) (body : X → A → M St (A + B)) a :
  (∀ x a, raises P (body x a)) → raises P (for_each l body a).
Proof.
  intros Hb. revert a. induction l as [|x l IH]; intros a; cbn [for_each].
  - apply raises_ret.
  - apply raises_m_bind; [apply Hb|]. intros [a'|b]; [apply IH|apply raises_ret].
Qed.
Lemma raises_for_acc {X A} (l : list X) (body : X → A → M St A) a :
  (∀ x a, raises P (body x a)) → raises P (for_acc l body a).
Proof.
  intros Hb. revert a. induction l as [|x l IH]; intros a; cbn [for_acc]; [apply raises_ret|].
  apply raises_m_bind; [apply Hb|done].
Qed.
Lemma raises_for_unit {X} (l : list X) (body : X → M St unit) :
  (∀ x, raises P (body x)) → raises P (for_unit l body).
Proof.
  intros Hb. induction l as [|x l IH]; cbn [for_unit]; [apply raises_ret|].
  apply raises_m_bind; [apply Hb|done].
Qed.

Lemma wp_raises {A} N (m : M St A) Q E n s :
  raises P m → wp N m Q E n s → wp N m Q (λ e s', E e s' ∧ P e) n s.
Proof.
  intros Hr. unfold wp. destruct (m n s) as [[] ?] eqn:Em; try done. split; [done|by eapply Hr].
Qed.
Lemma wp_of_keeps {A} (R : St → St → Prop) (m : M St A) n s :
  keeps R m → raises P m → wp True m (λ _ s', R s s') (λ e s', R s s' ∧ P e) n s.
Proof.
  intros Hk Hr. specialize (Hk n s). unfold wp. destruct (m n s) as [[] ?] eqn:Em; try done.
  split; [done|by eapply Hr].
Qed.
End raises_rules.

(** From a triple to the outcome of the run, and back. *)
Lemma wp_total_ok {St A} (m : M St A) Q E n s :
  wp False m Q E n s →
  (∃ a s', m n s = (Ok a, s') ∧ Q a s') ∨ (∃ e s', m n s = (Raise e, s') ∧ E e s').
Proof. unfold wp. destruct (m n s) as [[] ?]; naive_solver. Qed.

Lemma wp_run {St A} (N : Prop) (m : M St A) (Q : A → St → Prop) E n s r s' :
  wp N m Q E n s → m n s = (r, s') →
  match r with Ok a => Q a s' | Raise e => E e s' | NoFuel => N end.
Proof. unfold wp. intros H Hr. rewrite Hr in H. by destruct r. Qed.

(** The run ends, for every large enough bound. *)
Definition terminates {St A} (m : M St A) (s : St) : Prop :=
  ∃ k, ∀ n, (k <= n)%nat → (m n s).1 ≠ NoFuel.

Lemma terminates_wp {St A} (m : M St A) s k :
  (∀ n, (k <= n)%nat → wp False m (λ _ _, True) (λ _ _, True) n s) → terminates m s.
Proof.
  intros Hm. exists k. intros n Hn E. specialize (Hm n Hn). unfold wp in Hm.
  by destruct (m n s) as [[] ?].
Qed.

(** [returns m s r s']: every large enough bound gives the outcome [r], which is
    a value or an exception.  [total m]: so it is from every state. *)
Definition returns {St A} (m : M St A) (s : St) (r : res A) (s' : St) : Prop :=
  r ≠ NoFuel ∧ ∃ k, ∀ n, (k <= n)%nat → m n s = (r, s').

Definition total {St A} (m : M St A) : Prop := ∀ s, ∃ r s', returns m s r s'.

Section total_rules.
Context {St : Type}.

Lemma returns_const {A} (m : M St A) s r s' :
  (∀ n, m n s = (r, s')) → r ≠ NoFuel → returns m s r s'.
Proof. intros Hm Hr. split; [done|]. by exists 0. Qed.
(** There is one result. *)
Lemma returns_det {A} (m : M St A) s r1 s1 r2 s2 :
  returns m s r1 s1 → returns m s r2 s2 → r1 = r2 ∧ s1 = s2.
Proof.
  intros [_ [k1 H1]] [_ [k2 H2]]. specialize (H1 (k1 + k2)%nat ltac:(lia)). rewrite H2 in H1 by lia.
  by injection H1.
Qed.
(** The run with the bound [n] returns, and [P] holds of the result: evaluated for all bounds
    from [k] on, it tells what a run returns. *)
Definition returns_at {A} (m : M St A) (P : A → St → bool) (n : nat) (s : St) : bool :=
  match m n s with (Ok a, s') => P a s' | _ => false end.
Lemma returns_evaluated {A} k (m : M St A) (P : nat → A → St → bool) s r s' :
  returns m s r s' → (∀ n i, returns_at m (P i) (k + n) s = true) → ∃ a, r = Ok a ∧ ∀ i, P i a s' = true.
Proof.
  intros [_ [k' Hk]] HP. unfold returns_at in HP. specialize (HP k'). rewrite Hk in HP by lia.
  destruct r as [a|e|]; [by exists a|specialize (HP 0); discriminate..].
Qed.

Lemma total_ret {A} (a : A) : total (mret a : M St A).
Proof. intros s. exists (Ok a), s. by apply returns_const. Qed.
Lemma total_m_ret {A} (a : A) : total (m_ret a : M St A).
Proof. apply total_ret. Qed.
Lemma total_throw {A} c msg : total (throw c msg : M St A).
Proof. intros s. exists (Raise (Exn c msg)), s. by apply returns_const. Qed.
Lemma total_rethrow {A} e : total (rethrow e : M St A).
Proof. intros s. exists (Raise e), s. by apply returns_const. Qed.
Lemma total_raise_if b c msg : total (raise_if b c msg : M St unit).
Proof. destruct b; [apply total_throw|apply total_ret]. Qed.
Lemma total_of_res {A} (r : res A) : r ≠ NoFuel → total (of_res r : M St A).
Proof. intros Hr s. exists r, s. by apply returns_const. Qed.

Lemma total_m_bind {A B} (k : A → M St B) (m : M St A) :
  total m → (∀ a, total (k a)) → total (m_bind k m).
Proof.
  intros Hm Hk s. destruct (Hm s) as ([a|e|] & s1 & Hr & n1 & H1); [| |done].
  - destruct (Hk a s1) as (r & s2 & Hr2 & n2 & H2). exists r, s2. split; [done|].
    exists (n1 + n2). intros n Hn. unfold m_bind. rewrite H1 by lia. apply H2. lia.
  - exists (Raise e), s1. split; [done|]. exists n1. intros n Hn. unfold m_bind. by rewrite H1.
Qed.
Lemma total_bind {A B} (m : M St A) (k : A → M St B) :
  total m → (∀ a, total (k a)) → total (m ≫= k).
Proof. apply total_m_bind. Qed.

Lemma total_try_except {A} (m : M St A) h :
  total m → (∀ e k, h e = Some k → total k) → total (try_except m h).
Proof.
  intros Hm Hk s. destruct (Hm s) as ([a|e|] & s1 & Hr & n1 & H1); [| |done]; unfold try_except.
  - exists (Ok a), s1. split; [done|]. exists n1. intros n Hn. by rewrite H1.
  - destruct (h e) as [k|] eqn:He.
    + destruct (Hk e k He s1) as (r & s2 & Hr2 & n2 & H2). exists r, s2. split; [done|].
      exists (n1 + n2). intros n Hn. rewrite H1, He by lia. apply H2. lia.
    + exists (Raise e), s1. split; [done|]. exists n1. intros n Hn. by rewrite H1, He by lia.
Qed.
Lemma total_try {A} (m : M St A) cs k :
  total m → (∀ e, total (k e)) → total (try_except m (except cs k)).
Proof.
  intros Hm Hk. apply total_try_except; [done|]. intros e k' He. unfold except in He.
  destruct (isinstance_any e cs); [|done]. injection He as <-. apply Hk.
Qed.
Lemma total_try_finally {A} (m : M St A) fin :
  total m → total fin → total (try_finally m fin).
Proof.
  intros Hm Hf s. destruct (Hm s) as (r & s1 & Hr & n1 & H1).
  destruct (Hf s1) as (rf & s2 & Hrf & n2 & H2).
  exists (match rf with Ok _ => r | Raise e => Raise e | NoFuel => NoFuel end), s2. split.
  - by destruct rf.
  - exists (n1 + n2). intros n Hn. unfold try_finally. rewrite H1, H2 by lia. by destruct r, rf.
Qed.

Lemma total_for_each {X A B} (l : list X) (body : X → A → M St (A + B)) a :
  (∀ x a, total (body x a)) → total (for_each l body a).
Proof.
  intros Hb. revert a. induction l as [|x l IH]; intros a; cbn [for_each].
  - apply total_ret.
  - apply total_m_bind; [apply Hb|]. intros [a'|b]; [apply IH|apply total_ret].
Qed.
Lemma total_for_acc {X A} (l : list X) (body : X → A → M St A) a :
  (∀ x a, total (body x a)) → total (for_acc l body a).
Proof.
  intros Hb. revert a. induction l as [|x l IH]; intros a; cbn [for_acc]; [apply total_ret|].
  apply total_m_bind; [apply Hb|done].
Qed.
Lemma total_for_unit {X} (l : list X) (body : X → M St unit) :
  (∀ x, total (body x)) → total (for_unit l body).
Proof.
  intros Hb. induction l as [|x l IH]; cbn [for_unit]; [apply total_ret|].
  apply total_m_bind; [apply Hb|done].
Qed.

(** A loop ends when its body does and a measure falls with every repetition. *)
Lemma total_iter {A B} (mu : A → St → nat) (step : A → M St (A + B)) a :
  (∀ a, total (step a)) →
  (∀ a n s, wp True (step a) (λ r s', match r with
                                      | inl a' => mu a' s' < mu a s
                                      | inr _ => True end) (λ _ _, True) n s) →
  total (iter step a).
Proof.
  intros Ht Hmu s.
  enough (∀ m a s, mu a s < m → ∃ r s', r ≠ NoFuel ∧ ∃ k0, ∀ k n, k0 <= k → k0 <= n →
    iter_go k step a n s = (r, s')) as HH.
  { destruct (HH (S (mu a s)) a s) as (r & s' & Hr & k0 & Hk); [lia|].
    exists r, s'. split; [done|]. exists k0. intros n Hn. by apply Hk. }
  clear a s. induction m as [|m IH]; intros a s Hlt; [lia|].
  destruct (Ht a s) as (r & s1 & Hr & n1 & H1).
  specialize (Hmu a n1 s). unfold wp in Hmu. rewrite H1 in Hmu by lia.
  destruct r as [[a'|b]|e|]; [| | |done].
  - destruct (IH a' s1 ltac:(lia)) as (r & s2 & Hr2 & n2 & H2). exists r, s2.
    split; [done|]. exists (S (n1 + n2)). intros [|k] n Hk Hn; [lia|]. cbn [iter_go].
    unfold m_bind. rewrite H1 by lia. apply H2; lia.
  - exists (Ok b), s1. split; [done|]. exists (S n1). intros [|k] n Hk Hn; [lia|].
    cbn [iter_go]. unfold m_bind. by rewrite H1 by lia.
  - exists (Raise e), s1. split; [done|]. exists (S n1). intros [|k] n Hk Hn; [lia|].
    cbn [iter_go]. unfold m_bind. by rewrite H1 by lia.
Qed.

(** What holds whenever a function ends, of a function that ends. *)
Lemma total_post {A} (m : M St A) (Q : A → St → Prop) (E : exn → St → Prop) s :
  total m → (∀ n, wp True m Q E n s) →
  ∃ r s', returns m s r s' ∧
    match r with Ok a => Q a s' | Raise e => E e s' | NoFuel => False end.
Proof.
  intros Ht Hwp. destruct (Ht s) as (r & s' & Hr & k & Hk). exists r, s'.
  split; [by split; [|exists k]|]. specialize (Hwp k). unfold wp in Hwp.
  rewrite Hk in Hwp by lia. by destruct r.
Qed.
End total_rules.

Lemma m_bind_ok {St A B} (m : M St A) (k : A → M St B) n s b s' :
  (m ≫= k) n s = (Ok b, s') ↔ ∃ a s1, m n s = (Ok a, s1) ∧ k a n s1 = (Ok b, s').
Proof.
  unfold mbind, M_mbind, m_bind.
  destruct (m n s) as [[a|e|] s1]; naive_solver.
Qed.

Lemma r_bind_ok {A B} (m : res A) (k : A → res B) b :
  m ≫= k = Ok b ↔ ∃ a, m = Ok a ∧ k a = Ok b.
Proof. destruct m; cbn; naive_solver. Qed.

Lemma fail_if_ok b c msg u : fail_if b c msg = Ok u ↔ b = false.
Proof. destruct b, u; cbn; naive_solver. Qed.

Lemma fail_if_bind_ok {B} b c msg (k : unit → res B) (v : B) :
  fail_if b c msg ≫= k = Ok v ↔ b = false ∧ k tt = Ok v.
Proof. destruct b; cbn; naive_solver. Qed.

Lemma fail_if_bind_raise {B} b c msg (k : unit → res B) e :
  fail_if b c msg ≫= k = Raise e ↔
  (b = true ∧ e = Exn c msg) ∨ (b = false ∧ k tt = Raise e).
Proof. destruct b; cbn; naive_solver. Qed.

Lemma r_bind_raise {A B} (m : res A) (k : A → res B) e :
  m ≫= k = Raise e ↔ m = Raise e ∨ ∃ a, m = Ok a ∧ k a = Raise e.
Proof. destruct m; cbn; naive_solver. Qed.

Lemma map_res_ok {A B} (g : A → res B) l l' :
  map_res g l = Ok l' ↔ Forall2 (λ x y, g x = Ok y) l l'.
Proof.
  revert l'; induction l as [|x l IH]; intros l'; cbn [map_res].
  - split; [intros [= <-]; constructor|by inversion 1].
  - rewrite r_bind_ok. setoid_rewrite r_bind_ok. setoid_rewrite IH. split.
    + intros (y & Hy & ys & Hys & [= <-]). by constructor.
    + inversion 1; subst. eauto 6.
Qed.

(** Pure code has no loop bound to run out of. *)
Lemma ends_bind {A B} (m : res A) (k : A → res B) :
  m ≠ NoFuel → (∀ a, k a ≠ NoFuel) → m ≫= k ≠ NoFuel.
Proof. destruct m; cbn; auto. Qed.
Lemma ends_fail_if b c msg : fail_if b c msg ≠ NoFuel.
Proof. by destruct b. Qed.
Lemma ends_map_res {A B} (g : A → res B) l : (∀ x, g x ≠ NoFuel) → map_res g l ≠ NoFuel.
Proof.
  intros Hg. induction l as [|x l IH]; cbn [map_res]; [done|].
  apply ends_bind; [done|]. intros y. apply ends_bind; [done|]. done.
Qed.

(** ** Automation *)

Create HintDb py.

Ltac inv H := inversion H; clear H; subst.

(** Take a run of guards and binds that ended in [Ok] apart. *)
Ltac res_inv :=
  repeat match goal with
  | H : fail_if _ _ _ ≫= _ = Ok _ |- _ =>
      apply fail_if_bind_ok in H; destruct H as [? H]
  | H : ?m ≫= _ = Ok _ |- _ =>
      apply r_bind_ok in H; destruct H as (? & ? & H)
  | H : Ok _ = Ok _ |- _ => injection H as H; try subst
  | H : mret _ = Ok _ |- _ => injection H as H; try subst
  | H : Raise _ = Ok _ |- _ => discriminate H
  | H : fail _ _ = Ok _ |- _ => discriminate H
  | H : NoFuel = Ok _ |- _ => discriminate H
  | H : negb _ = false |- _ => apply negb_false_iff in H
  | H : _ || _ = false |- _ => apply orb_false_iff in H; destruct H
  | H : _ && _ = true |- _ => apply andb_true_iff in H; destruct H
  end.

Ltac wp_step :=
  first
    [ apply wp_bind | apply wp_ret | apply wp_throw | apply wp_raise_if
    | apply wp_try_except | apply wp_try_finally ]; cbn beta iota.

(** Reduce [keeps R m] to the calls [m] makes. *)
Ltac keeps_step :=
  lazymatch goal with
  | |- keeps _ (mbind _ _) => apply keeps_bind; [|intros]
  | |- keeps _ (m_bind _ _) => apply keeps_m_bind; [|intros]
  | |- keeps _ (mret _) => apply keeps_ret
  | |- keeps _ (m_ret _) => apply keeps_m_ret
  | |- keeps _ (throw _ _) => apply keeps_throw
  | |- keeps _ (rethrow _) => apply keeps_rethrow
  | |- keeps _ (raise_if _ _ _) => apply keeps_raise_if
  | |- keeps _ (of_res _) => apply keeps_of_res
  | |- keeps _ (try_except _ (except _ _)) => apply keeps_try; [|intros]
  | |- keeps _ (try_finally _ _) => apply keeps_try_finally
  | |- keeps _ (iter _ _) => apply keeps_iter; intros
  | |- keeps _ (for_each _ _ _) => apply keeps_for_each; intros
  | |- keeps _ (for_acc _ _ _) => apply keeps_for_acc; intros
  | |- keeps _ (for_unit _ _) => apply keeps_for_unit; intros
  | |- keeps _ (match ?x with _ => _ end) => destruct x
  | |- keeps _ _ => solve [eauto with py]
  end.
Ltac keeps_tac := repeat keeps_step.

(** Reduce [raises P m] to the calls [m] makes and the classes it raises. *)
Ltac raises_step :=
  lazymatch goal with
  | |- raises _ (mbind _ _) => apply raises_bind; [|intros]
  | |- raises _ (m_bind _ _) => apply raises_m_bind; [|intros]
  | |- raises _ (mret _) => apply raises_ret
  | |- raises _ (throw _ _) => apply raises_throw; try reflexivity
  | |- raises _ (rethrow _) => apply raises_rethrow; try assumption
  | |- raises _ (raise_if _ _ _) => apply raises_raise_if; try reflexivity
  | |- raises _ (of_res _) => apply raises_of_res; eauto with py
  | |- raises _ (try_except _ (except _ _)) => apply raises_try; [|intros]
  | |- raises _ (try_finally _ _) => apply raises_try_finally
  | |- raises _ (iter _ _) => apply raises_iter; intros
  | |- raises _ (for_each _ _ _) => apply raises_for_each; intros
  | |- raises _ (for_acc _ _ _) => apply raises_for_acc; intros
  | |- raises _ (for_unit _ _) => apply raises_for_unit; intros
  | |- raises _ (match ?x with _ => _ end) => destruct x
  | |- raises _ _ => solve [eauto with py]
  end.
Ltac raises_tac := repeat raises_step.

(** Reduce [total m] to the calls [m] makes and the loops it runs. *)
Ltac total_step :=
  lazymatch goal with
  | |- total (mbind _ _) => apply total_bind; [|intros]
  | |- total (m_bind _ _) => apply total_m_bind; [|intros]
  | |- total (mret _) => apply total_ret
  | |- total (m_ret _) => apply total_m_ret
  | |- total (throw _ _) => apply total_throw
  | |- total (rethrow _) => apply total_rethrow
  | |- total (raise_if _ _ _) => apply total_raise_if
  | |- total (of_res _) => apply total_of_res; eauto with py
  | |- total (try_except _ (except _ _)) => apply total_try; [|intros]
  | |- total (try_except _ _) =>
      apply total_try_except; [|intros ? ? ?; simplify_option_eq; repeat case_match; simplify_eq]
  | |- total (try_finally _ _) => apply total_try_finally
  | |- total (for_each _ _ _) => apply total_for_each; intros
  | |- total (for_acc _ _ _) => apply total_for_acc; intros
  | |- total (for_unit _ _) => apply total_for_unit; intros
  | |- total (match ?x with _ => _ end) => destruct x
  | |- total _ => solve [eauto with py]
  end.
Ltac total_tac := repeat total_step.

(** The same, opening the functions called. *)
Ltac head_of m := lazymatch m with ?f _ => head_of f | _ => m end.
Ltac open_head m :=
  let h := head_of m in
  lazymatch h with
  | @iter => fail
  | _ => unfold h; cbv beta
  end.
Ltac total_deep :=
  repeat first [total_step | lazymatch goal with |- total ?m => open_head m end].
Ltac keeps_deep :=
  repeat first [keeps_step | lazymatch goal with |- keeps _ ?m => open_head m end].

(** Pure code ends: reduce [r ≠ NoFuel] to the recursive functions it calls. *)
Ltac ends_tac :=
  repeat lazymatch goal with
  | |- mbind _ _ ≠ NoFuel => apply ends_bind; [|intros]
  | |- fail_if _ _ _ ≠ NoFuel => apply ends_fail_if
  | |- map_res _ _ ≠ NoFuel => apply ends_map_res; intros
  | |- (match ?x with _ => _ end) ≠ NoFuel => destruct x
  | |- Ok _ ≠ NoFuel => discriminate
  | |- mret _ ≠ NoFuel => discriminate
  | |- fail _ _ ≠ NoFuel => discriminate
  | |- Raise _ ≠ NoFuel => discriminate
  | |- ?r ≠ NoFuel => first [solve [eauto with py] | open_head r; cbv zeta]
  end.
