(* ===== verification/PyNum.v ===== *)
(** * Python numbers: integers, binary64 floats, float formatting

    Python [int] is [Z].  A finite Python [float] is the rational it denotes,
    and every float operation rounds its exact result to binary64, nearest with
    ties to even ([fl]).  The exponent range is bounded below (subnormals) but
    not above: overflow to infinity and NaN are not modelled, the quantities of
    these programs (seconds, milliseconds, nanoseconds, byte counts, ratios)
    stay far below 2^1023. *)

From Stdlib Require Import ZArith QArith Qpower Qabs Qround Qreduction Qminmax Lia Lqa.
From stdpp Require Import base strings.
From S2P Require Import Prelude.

Open Scope Q_scope.

(** ** Rounding to an integer, ties to even: Python's [round(x)] *)

Definition rne (a d : Z) : Z :=
  let q := (a / d)%Z in
  let r := (a mod d)%Z in
  match (2 * r ?= d)%Z with
  | Lt => q
  | Gt => q + 1
  | Eq => if Z.even q then q else q + 1
  end%Z.

Definition round_half_even (x : Q) : Z := rne (Qnum x) (QDen x).

(** ** Rounding to binary64 *)

Definition two : Q := 2 # 1.

(** floor of the base-2 logarithm of a positive rational *)
Definition ilog2 (x : Q) : Z :=
  let t := (Z.log2 (Qnum x) - Z.log2 (QDen x))%Z in
  if Qle_bool (two ^ t) x then t else (t - 1)%Z.

Definition fexp (x : Q) : Z := Z.max (-1074) (ilog2 (Qabs x) - 52).

Definition fl_red (x : Q) : Q :=
  if (Qnum x =? 0)%Z then 0
  else Qred (inject_Z (round_half_even (x / two ^ fexp x)) * two ^ fexp x).

Definition fl (x : Q) : Q := fl_red (Qred x).

(** Float operators: the exact result, rounded. *)
Definition fadd (x y : Q) : Q := fl (x + y).
Definition fsub (x y : Q) : Q := fl (x - y).
Definition fmul (x y : Q) : Q := fl (x * y).
Definition fdiv (x y : Q) : Q := fl (x / y).
(** [float(n)], the conversion of an [int] operand *)
Definition fint (n : Z) : Q := fl (inject_Z n).
(** [a / b] on two [int]s: correctly rounded quotient *)
Definition idiv (a b : Z) : Q := fl (inject_Z a / inject_Z b).

(** [round(x, 3)] on a float *)
Definition round3 (x : Q) : Q := fl (inject_Z (round_half_even (x * 1000)) / 1000).

(** ** Laws of [round_half_even] *)

Definition rounds_to (x : Q) (z : Z) : Prop :=
  Qabs (x - inject_Z z) < 1 # 2 ∨
  (Qabs (x - inject_Z z) == 1 # 2 ∧ Z.even z = true).

Lemma Q_num_den (x : Q) : inject_Z (Qnum x) == x * inject_Z (QDen x).
Proof. destruct x as [a d]. unfold Qeq, Qmult, inject_Z; simpl. lia. Qed.

Lemma round_half_even_spec x : rounds_to x (round_half_even x).
Proof.
  destruct x as [a d]. unfold rounds_to, round_half_even, rne. cbn [Qnum Qden].
  pose proof (Z.div_mod a (Z.pos d) ltac:(lia)) as Hdm.
  pose proof (Z.mod_pos_bound a (Z.pos d) ltac:(lia)) as Hr.
  set (q := (a / Z.pos d)%Z) in *. set (r := (a mod Z.pos d)%Z) in *.
  assert (Hdiff : ∀ z, (a # d) - inject_Z z == (a - z * Z.pos d) # d).
  { intros z. unfold Qeq, Qminus, Qplus, Qopp, inject_Z; cbn. lia. }
  assert (Hlt : ∀ z, (2 * Z.abs (a - z * Z.pos d) < Z.pos d)%Z →
            Qabs ((a # d) - inject_Z z) < 1 # 2).
  { intros z Hz. rewrite Hdiff. unfold Qabs, Qlt; cbn. lia. }
  assert (Heq : ∀ z, (2 * Z.abs (a - z * Z.pos d) = Z.pos d)%Z →
            Qabs ((a # d) - inject_Z z) == 1 # 2).
  { intros z Hz. rewrite Hdiff. unfold Qabs, Qeq; cbn. lia. }
  destruct (Z.compare_spec (2 * r) (Z.pos d)) as [H|H|H].
  - destruct (Z.even q) eqn:Ev.
    + right. split; [apply Heq; lia|done].
    + right. split; [apply Heq; lia|].
      rewrite Z.add_1_r, Z.even_succ, <- Z.negb_even, Ev. done.
  - left. apply Hlt. lia.
  - left. apply Hlt. lia.
Qed.

Lemma Qabs_lt_iff x y : Qabs x < y ↔ - y < x ∧ x < y.
Proof. rewrite Qabs_Qlt_condition. tauto. Qed.

Lemma Qle_lteq_eq x y : x == y → x <= y.
Proof. intros. lra. Qed.

Lemma rounds_to_bound x z :
  rounds_to x z → inject_Z z - (1 # 2) <= x ∧ x <= inject_Z z + (1 # 2).
Proof.
  intros [H|[H _]].
  - apply Qabs_lt_iff in H. split; lra.
  - apply Qle_lteq_eq in H. apply Qabs_Qle_condition in H. split; lra.
Qed.

Lemma inject_Z_lt a b : (a < b)%Z → inject_Z a + 1 <= inject_Z b.
Proof.
  intros H. change 1 with (inject_Z 1). rewrite <- inject_Z_plus, <- Zle_Qle. lia.
Qed.

Lemma rounds_to_mono x y a b : rounds_to x a → rounds_to y b → x <= y → (a <= b)%Z.
Proof.
  intros Ha Hb Hxy. destruct (Z.le_gt_cases a b) as [|Hgt]; [done|exfalso].
  assert (inject_Z b + 1 <= inject_Z a) as Hgt' by (apply inject_Z_lt; lia).
  pose proof (rounds_to_bound _ _ Ha) as [Ha1 _].
  pose proof (rounds_to_bound _ _ Hb) as [_ Hb2].
  destruct Ha as [Ha|[_ Ea]]; [apply Qabs_lt_iff in Ha; lra|].
  destruct Hb as [Hb|[_ Eb]]; [apply Qabs_lt_iff in Hb; lra|].
  assert (inject_Z a == inject_Z b + 1) as Heq by lra.
  change 1 with (inject_Z 1) in Heq. rewrite <- inject_Z_plus in Heq.
  assert (a = b + 1)%Z as -> by (by apply inject_Z_injective).
  rewrite Z.add_1_r, Z.even_succ, <- Z.negb_even, Eb in Ea. done.
Qed.

Lemma rounds_to_unique x a b : rounds_to x a → rounds_to x b → a = b.
Proof.
  intros Ha Hb. apply Z.le_antisymm; eapply rounds_to_mono; eauto; lra.
Qed.

Lemma round_half_even_mono x y :
  x <= y → (round_half_even x <= round_half_even y)%Z.
Proof. intros. eapply rounds_to_mono; eauto using round_half_even_spec. Qed.

#[global] Instance round_half_even_proper : Proper (Qeq ==> eq) round_half_even.
Proof.
  intros x y Hxy. apply Z.le_antisymm; apply round_half_even_mono; lra.
Qed.

Lemma round_half_even_int z : round_half_even (inject_Z z) = z.
Proof.
  eapply rounds_to_unique; [apply round_half_even_spec|]. left.
  assert (inject_Z z - inject_Z z == 0) as -> by lra. reflexivity.
Qed.

Lemma round_half_even_opp x : round_half_even (- x) = (- round_half_even x)%Z.
Proof.
  eapply rounds_to_unique; [apply round_half_even_spec|].
  assert (- x - inject_Z (- round_half_even x) == - (x - inject_Z (round_half_even x)))
    as Heq by (rewrite inject_Z_opp; lra).
  destruct (round_half_even_spec x) as [H|[H Hev]].
  - left. by rewrite Heq, Qabs_opp.
  - right. rewrite Heq, Qabs_opp, Z.even_opp. done.
Qed.

(** ** Laws of [fl] *)

Lemma two_pos k : 0 < two ^ k.
Proof. apply Qpower_0_lt. reflexivity. Qed.

Lemma two_plus a b : two ^ (a + b) == two ^ a * two ^ b.
Proof. apply Qpower_plus. discriminate. Qed.

Lemma two_S a : two ^ (a + 1) == 2 * two ^ a.
Proof. rewrite two_plus. change (two ^ 1) with two. unfold two. ring. Qed.

Lemma two_mono a b : (a <= b)%Z → two ^ a <= two ^ b.
Proof. intros. apply Qpower_le_compat_l; [done|discriminate]. Qed.

Lemma two_inject k : (0 <= k)%Z → two ^ k == inject_Z (2 ^ k).
Proof. intros. unfold two. change (2 # 1) with (inject_Z 2). symmetry. by apply Zpower_Qpower. Qed.

Lemma ilog2_spec x : 0 < x → two ^ ilog2 x <= x ∧ x < two ^ (ilog2 x + 1).
Proof.
  intros Hx. unfold ilog2.
  set (la := Z.log2 (Qnum x)). set (ld := Z.log2 (QDen x)).
  assert (0 < Qnum x)%Z as Hn by (unfold Qlt in Hx; cbn in Hx; lia).
  pose proof (Z.log2_spec _ Hn) as [Ha1 Ha2].
  pose proof (Z.log2_spec (QDen x) ltac:(lia)) as [Hd1 Hd2].
  pose proof (Z.log2_nonneg (Qnum x)). pose proof (Z.log2_nonneg (QDen x)).
  fold la in Ha1, Ha2, H. fold ld in Hd1, Hd2, H0.
  rewrite Zle_Qle in Ha1, Hd1. rewrite Zlt_Qlt in Ha2, Hd2.
  rewrite <- two_inject in Ha1, Ha2, Hd1, Hd2 by lia.
  rewrite Q_num_den in Ha1, Ha2.
  rewrite <- Z.add_1_r, two_S in Ha2, Hd2.
  assert (two ^ la == two ^ (la - ld) * two ^ ld) as Hsplit
    by (rewrite <- two_plus; by replace (la - ld + ld)%Z with la by lia).
  pose proof (two_pos ld). pose proof (two_pos (la - ld)).
  assert (x < 2 * two ^ (la - ld)) as Hhi.
  { apply (Qmult_lt_r _ _ (two ^ ld)); [done|]. nra. }
  assert (two ^ (la - ld) < 2 * x) as Hlo.
  { apply (Qmult_lt_r _ _ (two ^ ld)); [done|]. nra. }
  destruct (Qle_bool (two ^ (la - ld)) x) eqn:E.
  - apply Qle_bool_iff in E. rewrite two_S. done.
  - assert (¬ two ^ (la - ld) <= x) by (by rewrite <- Qle_bool_iff, E).
    replace (la - ld - 1 + 1)%Z with (la - ld)%Z by lia.
    assert (two ^ (la - ld) == 2 * two ^ (la - ld - 1)) as Hs
      by (rewrite <- two_S; by replace (la - ld - 1 + 1)%Z with (la - ld)%Z by lia).
    split; [lra|]. by apply Qnot_le_lt.
Qed.

Lemma ilog2_mono x y : 0 < x → x <= y → (ilog2 x <= ilog2 y)%Z.
Proof.
  intros Hx Hxy. pose proof (ilog2_spec x Hx) as [Hx1 _].
  pose proof (ilog2_spec y ltac:(lra)) as [_ Hy2].
  destruct (Z.le_gt_cases (ilog2 x) (ilog2 y)) as [|Hgt]; [done|exfalso].
  pose proof (two_mono (ilog2 y + 1) (ilog2 x) ltac:(lia)). lra.
Qed.

Lemma Qabs_pos_lt x : ¬ x == 0 → 0 < Qabs x.
Proof. intros H. apply Qabs_case; intros; destruct (Qlt_le_dec 0 x); lra. Qed.

Lemma fexp_mono x y : ¬ x == 0 → Qabs x <= Qabs y → (fexp x <= fexp y)%Z.
Proof.
  intros Hx Hxy. unfold fexp.
  pose proof (ilog2_mono (Qabs x) (Qabs y) (Qabs_pos_lt _ Hx) Hxy). lia.
Qed.

Lemma fl_zero : fl 0 = 0.
Proof. reflexivity. Qed.

#[global] Instance fl_proper : Proper (Qeq ==> eq) fl.
Proof. intros x y Hxy. unfold fl. by rewrite (Qred_complete _ _ Hxy). Qed.

#[global] Instance fl_proper_Qeq : Proper (Qeq ==> Qeq) fl.
Proof. intros x y Hxy. by rewrite (fl_proper _ _ Hxy). Qed.

Lemma fl_unfold x :
  ¬ x == 0 → fl x == inject_Z (round_half_even (x / two ^ fexp x)) * two ^ fexp x.
Proof.
  intros Hx. unfold fl, fl_red.
  pose proof (Qred_correct x) as Hr.
  destruct (Z.eqb_spec (Qnum (Qred x)) 0) as [E|_].
  { exfalso. apply Hx. rewrite <- Hr. unfold Qeq. rewrite E. reflexivity. }
  rewrite Qred_correct.
  assert (fexp (Qred x) = fexp x) as ->.
  { apply Z.le_antisymm; apply fexp_mono; rewrite ?Hr; auto; lra. }
  by rewrite Hr.
Qed.

(** The scaled significand is below 2^53, and at least 2^52 unless subnormal. *)
Lemma fexp_spec x :
  ¬ x == 0 →
  Qabs x < two ^ 53 * two ^ fexp x ∧
  ((-1074 < fexp x)%Z → two ^ 52 * two ^ fexp x <= Qabs x).
Proof.
  intros Hx. pose proof (ilog2_spec _ (Qabs_pos_lt _ Hx)) as [H1 H2].
  unfold fexp in *. set (e := ilog2 (Qabs x)) in *. rewrite <- !two_plus. split.
  - eapply Qlt_le_trans; [done|]. apply two_mono. lia.
  - intros. replace (52 + Z.max (-1074) (e - 52))%Z with e by lia. done.
Qed.

Lemma fl_opp x : fl (- x) == - fl x.
Proof.
  destruct (Qeq_dec x 0) as [E|E].
  - assert (- x == 0) as -> by lra. rewrite E, fl_zero. lra.
  - rewrite !fl_unfold by lra.
    assert (fexp (- x) = fexp x) as -> by (unfold fexp; by setoid_rewrite Qabs_opp || idtac;
      apply Z.le_antisymm; apply fexp_mono; rewrite ?Qabs_opp; lra).
    assert (- x / two ^ fexp x == - (x / two ^ fexp x)) as -> by (unfold Qdiv; ring).
    rewrite round_half_even_opp, inject_Z_opp. ring.
Qed.

Lemma Qmult_lt_compat_r_iff x y z : 0 < z → x < y → x * z < y * z.
Proof. intros. by apply Qmult_lt_r. Qed.

Lemma rhe_scaled_le x k z :
  x <= inject_Z z * two ^ k →
  inject_Z (round_half_even (x / two ^ k)) * two ^ k <= inject_Z z * two ^ k.
Proof.
  intros H. apply Qmult_le_compat_r; [|apply Qlt_le_weak, two_pos].
  rewrite <- Zle_Qle. rewrite <- (round_half_even_int z).
  apply round_half_even_mono. apply Qle_shift_div_r; [apply two_pos|done].
Qed.

Lemma rhe_scaled_ge x k z :
  inject_Z z * two ^ k <= x →
  inject_Z z * two ^ k <= inject_Z (round_half_even (x / two ^ k)) * two ^ k.
Proof.
  intros H. apply Qmult_le_compat_r; [|apply Qlt_le_weak, two_pos].
  rewrite <- Zle_Qle. rewrite <- (round_half_even_int z).
  apply round_half_even_mono. apply Qle_shift_div_l; [apply two_pos|done].
Qed.

Lemma two_53 : two ^ 53 == inject_Z (2 ^ 53).
Proof. reflexivity. Qed.
Lemma two_52 : two ^ 52 == inject_Z (2 ^ 52).
Proof. reflexivity. Qed.

Lemma fl_nonneg x : 0 <= x → 0 <= fl x.
Proof.
  intros Hx. destruct (Qeq_dec x 0) as [E|E]; [rewrite E; discriminate|].
  rewrite fl_unfold by done.
  pose proof (rhe_scaled_ge x (fexp x) 0%Z) as H. change (inject_Z 0) with 0 in H.
  rewrite Qmult_0_l in H. auto.
Qed.

Lemma fl_mono_pos x y : 0 < x → x <= y → fl x <= fl y.
Proof.
  intros Hx Hxy.
  assert (¬ x == 0) as Ex by lra. assert (¬ y == 0) as Ey by lra.
  rewrite !fl_unfold by done.
  pose proof (fexp_spec x Ex) as [Hx1 _]. pose proof (fexp_spec y Ey) as [_ Hy2].
  assert (Qabs x <= Qabs y) as Habs by (rewrite !Qabs_pos; lra).
  pose proof (fexp_mono x y Ex Habs) as He.
  rewrite Qabs_pos in Hx1, Hy2 by lra.
  destruct (Z.eq_dec (fexp x) (fexp y)) as [->|Hne].
  - apply Qmult_le_compat_r; [|apply Qlt_le_weak, two_pos].
    rewrite <- Zle_Qle. apply round_half_even_mono.
    apply Qmult_le_compat_r; [done|]. apply Qinv_le_0_compat, Qlt_le_weak, two_pos.
  - assert (-1074 < fexp y)%Z as Hlt by (unfold fexp in *; lia).
    specialize (Hy2 Hlt). rewrite two_53 in Hx1. rewrite two_52 in Hy2.
    eapply Qle_trans; [apply rhe_scaled_le, Qlt_le_weak, Hx1|].
    eapply Qle_trans; [|apply rhe_scaled_ge, Hy2].
    rewrite <- two_52, <- two_53, <- !two_plus. apply two_mono. lia.
Qed.

Lemma fl_mono x y : x <= y → fl x <= fl y.
Proof.
  intros Hxy. destruct (Qlt_le_dec 0 x) as [Hx|Hx]; [by apply fl_mono_pos|].
  destruct (Qlt_le_dec y 0) as [Hy|Hy].
  - pose proof (fl_mono_pos (- y) (- x) ltac:(lra) ltac:(lra)) as H.
    rewrite !fl_opp in H. lra.
  - pose proof (fl_nonneg y Hy). pose proof (fl_nonneg (- x) ltac:(lra)) as H'.
    rewrite fl_opp in H'. lra.
Qed.

(** Every number with a 53-bit significand and an exponent in range is a float. *)
Lemma fl_exact m e :
  (Z.abs m <= 2 ^ 53)%Z → (-1074 <= e)%Z →
  fl (inject_Z m * two ^ e) == inject_Z m * two ^ e.
Proof.
  intros Hm He. set (x := inject_Z m * two ^ e).
  destruct (Z.eq_dec m 0%Z) as [->|Hm0].
  { assert (x == 0) as E0 by (unfold x; apply Qmult_0_l).
    rewrite (fl_proper _ _ E0), E0. reflexivity. }
  pose proof (two_pos e) as H2e.
  assert (¬ x == 0) as Ex.
  { intros E. unfold x in E. apply Qmult_integral in E as [E|E]; [|lra].
    apply Hm0. by apply inject_Z_injective. }
  assert (Qabs x == inject_Z (Z.abs m) * two ^ e) as Habs.
  { unfold x. rewrite Qabs_Qmult, (Qabs_pos (two ^ e)) by lra. reflexivity. }
  rewrite fl_unfold by done.
  assert (∃ z, x == inject_Z z * two ^ fexp x) as [z Hz].
  { destruct (Z.le_gt_cases (fexp x) e) as [Hk|Hk].
    - exists (m * 2 ^ (e - fexp x))%Z. rewrite inject_Z_mult, <- two_inject by lia.
      unfold x at 1. rewrite <- Qmult_assoc, <- two_plus.
      by replace (e - fexp x + fexp x)%Z with e by lia.
    - (* the significand is exactly 2^53 *)
      pose proof (fexp_spec x Ex) as [_ H52]. specialize (H52 ltac:(lia)).
      assert (two ^ 52 * two ^ fexp x <= inject_Z (2 ^ 53) * two ^ e) as Hle.
      { eapply Qle_trans; [apply H52|]. rewrite Habs.
        apply Qmult_le_compat_r; [by rewrite <- Zle_Qle|lra]. }
      rewrite <- two_53, <- !two_plus in Hle.
      assert (fexp x = e + 1)%Z as Hfe.
      { enough (52 + fexp x <= 53 + e)%Z by lia.
        destruct (Z.le_gt_cases (52 + fexp x) (53 + e)) as [|Hgt]; [done|exfalso].
        pose proof (two_mono (53 + e + 1) (52 + fexp x) ltac:(lia)) as H'.
        rewrite two_S in H'. pose proof (two_pos (53 + e)). lra. }
      rewrite Hfe, two_plus in H52. change (two ^ 1) with 2 in H52.
      exists (m / 2)%Z. rewrite Hfe, two_S. unfold x. rewrite Habs in H52.
      assert (2 ^ 53 <= Z.abs m)%Z as Hge.
      { rewrite Zle_Qle. apply (Qmult_le_r _ _ (two ^ e)); [done|].
        rewrite <- two_53. change (two ^ 53) with (two ^ 52 * 2). lra. }
      assert (m = 2 * (m / 2))%Z as Hev.
      { assert (m = 2 ^ 53 ∨ m = - 2 ^ 53)%Z as [-> | ->] by lia; reflexivity. }
      rewrite Hev at 1. rewrite inject_Z_mult. change (inject_Z 2) with 2. ring. }
  assert (x / two ^ fexp x == inject_Z z) as ->.
  { rewrite Hz at 1. field. pose proof (two_pos (fexp x)). lra. }
  by rewrite round_half_even_int, <- Hz.
Qed.

Lemma fint_exact z : (Z.abs z <= 2 ^ 53)%Z → fint z == inject_Z z.
Proof.
  intros H. unfold fint. pose proof (fl_exact z 0 H ltac:(lia)) as E.
  assert (inject_Z z * two ^ 0 == inject_Z z) as H0 by apply Qmult_1_r.
  by rewrite (fl_proper _ _ H0), H0 in E.
Qed.

(** The rounding error: half a unit of the 53rd bit, or of the last subnormal bit. *)
Lemma fl_error x : Qabs (fl x - x) <= two ^ (-53) * Qabs x + two ^ (-1075).
Proof.
  pose proof (two_pos (-53)). pose proof (two_pos (-1075)). pose proof (Qabs_nonneg x).
  destruct (Qeq_dec x 0) as [E|E].
  { rewrite E. change (Qabs (fl 0 - 0)) with 0. change (Qabs 0) with 0. lra. }
  rewrite fl_unfold by done. set (k := fexp x). set (r := round_half_even (x / two ^ k)).
  pose proof (two_pos k) as Hk.
  assert (Qabs (x / two ^ k - inject_Z r) <= 1 # 2) as Hr.
  { destruct (round_half_even_spec (x / two ^ k)) as [Hr|[Hr _]]; fold r in Hr; lra. }
  assert (inject_Z r * two ^ k - x == - ((x / two ^ k - inject_Z r) * two ^ k)) as ->
    by (field; lra).
  rewrite Qabs_opp, Qabs_Qmult, (Qabs_pos (two ^ k)) by lra.
  assert (Qabs (x / two ^ k - inject_Z r) * two ^ k <= (1 # 2) * two ^ k) as Hle
    by (apply Qmult_le_compat_r; lra).
  eapply Qle_trans; [apply Hle|]. change (1 # 2) with (two ^ (-1)). rewrite <- two_plus.
  pose proof (fexp_spec x E) as [_ H52]. fold k in H52.
  destruct (Z.le_gt_cases k (-1074)) as [Hk'|Hk'].
  - pose proof (two_mono (-1 + k) (-1075) ltac:(lia)).
    assert (0 <= two ^ (-53) * Qabs x) by (apply Qmult_le_0_compat; lra). lra.
  - assert (two ^ (-53) * (two ^ 52 * two ^ k) <= two ^ (-53) * Qabs x) as H'.
    { apply Qmult_le_l; [done|]. apply H52. lia. }
    rewrite <- !two_plus in H'. replace (-53 + (52 + k))%Z with (-1 + k)%Z in H' by lia. lra.
Qed.

(** A rounded number is a float: rounding it again changes nothing. *)
Lemma fl_idem x : fl (fl x) == fl x.
Proof.
  destruct (Qeq_dec x 0) as [E|E]; [by rewrite E|].
  pose proof (fl_unfold x E) as Hx. rewrite Hx at 1. rewrite Hx.
  apply fl_exact; [|unfold fexp; lia].
  set (k := fexp x). pose proof (two_pos k) as Hk.
  pose proof (fexp_spec x E) as [Hlt _]. fold k in Hlt.
  rewrite two_53 in Hlt.
  apply Qabs_Qlt_condition in Hlt as [Hlo Hhi].
  pose proof (rhe_scaled_le x k (2 ^ 53) ltac:(lra)) as H1.
  pose proof (rhe_scaled_ge x k (- 2 ^ 53)) as H2.
  rewrite inject_Z_opp in H2. specialize (H2 ltac:(lra)).
  apply Qmult_le_r in H1; [|done]. rewrite <- inject_Z_opp in H2.
  apply Qmult_le_r in H2; [|done]. rewrite <- Zle_Qle in H1, H2. lia.
Qed.

Definition ulp : Q := two ^ (-53).
Definition eta : Q := two ^ (-1075).

Lemma ulp_small : 0 < ulp ∧ ulp <= 1 # 100000.
Proof. split; by vm_compute. Qed.
Lemma eta_small : 0 < eta ∧ eta <= ulp.
Proof. unfold eta, ulp. split; [apply two_pos|]. apply two_mono. lia. Qed.

Lemma fl_up x : 0 <= x → fl x <= x * (1 + ulp) + eta.
Proof.
  intros Hx. pose proof (fl_error x) as He. rewrite (Qabs_pos x Hx) in He.
  apply Qabs_Qle_condition in He as [_ He]. fold ulp eta in He. lra.
Qed.
Lemma fl_down x : 0 <= x → x * (1 - ulp) - eta <= fl x.
Proof.
  intros Hx. pose proof (fl_error x) as He. rewrite (Qabs_pos x Hx) in He.
  apply Qabs_Qle_condition in He as [He _]. fold ulp eta in He. lra.
Qed.

Lemma fl_unit x : 0 <= x <= 1 → 0 <= fl x <= 1.
Proof.
  intros [H0 H1]. split; [by apply fl_nonneg|].
  apply fl_mono in H1. assert (fl 1 == 1) as E by (by vm_compute). lra.
Qed.

Lemma Qmult_le_l_le x y z : 0 <= z → x <= y → z * x <= z * y.
Proof. intros. rewrite !(Qmult_comm z). by apply Qmult_le_compat_r. Qed.

Lemma fl_within x B : Qabs x <= B → Qabs (fl x - x) <= B * ulp + eta.
Proof.
  intros Hx. pose proof (fl_error x) as He. fold ulp eta in He.
  pose proof (Qmult_le_l_le (Qabs x) B ulp) as Hm. pose proof ulp_small. lra.
Qed.
