(* ===== verification/Mersenne.v ===== *)
(** * [random.Random(seed).random()]: the generator of the BT-06 phase jitter

    CPython's generator for an integer seed: the Mersenne Twister MT19937, seeded from the
    32-bit words of the seed's absolute value, and 53 bits of two of its outputs as a
    float.  The words are kept at 32 bits. *)

From Stdlib Require Import ZArith QArith Lia Lqa.
From stdpp Require Import base list.
From S2P Require Import Prelude PyNum.

Open Scope Z_scope.

Definition w32 (x : Z) : Z := Z.land x (Z.ones 32).
Definition MT_N : nat := 624.
Definition MT_M : nat := 397.

Definition word (mt : list Z) (i : nat) : Z := nth i mt 0.
(** [x ^ (x >> 30)] *)
Definition fold30 (x : Z) : Z := Z.lxor x (Z.shiftr x 30).

(** [init_genrand]: the words in reverse. *)
Fixpoint init_words (n : nat) (s : Z) : list Z :=
  match n with
  | O => []
  | S O => [w32 s]
  | S i => let ws := init_words i s in w32 (1812433253 * fold30 (hd 0 ws) + Z.of_nat i) :: ws
  end.
Definition init_genrand (s : Z) : list Z := rev (init_words MT_N s).

(** One step of the two loops of [init_by_array] at index [i], which runs from 1 to 623
    and then starts again with word 0 set to word 623. *)
Definition mix (mult : Z) (extra : Z) (st : list Z * nat) : list Z * nat :=
  let '(mt, i) := st in
  let x := w32 (Z.lxor (word mt i) (fold30 (word mt (i - 1)) * mult) + extra) in
  let mt := <[i := x]> mt in
  if (S i <? MT_N)%nat then (mt, S i) else (<[0%nat := word mt (MT_N - 1)]> mt, 1%nat).

Definition init_by_array (key : list Z) : list Z :=
  let k := length key in
  let st1 := foldl (λ st n, let j := (n mod k)%nat in mix 1664525 (word key j + Z.of_nat j) st)
               (init_genrand 19650218, 1%nat) (seq 0 (Nat.max MT_N k)) in
  let st2 := foldl (λ st _, mix 1566083941 (- Z.of_nat st.2) st) st1 (seq 0 (MT_N - 1)) in
  <[0%nat := 2 ^ 31]> st2.1.

(** The 32-bit words of a number, the lowest first; none for zero. *)
Fixpoint words_of (n : nat) (x : Z) : list Z :=
  match n with
  | O => []
  | S n' => if x =? 0 then [] else w32 x :: words_of n' (Z.shiftr x 32)
  end.
(** The key of a seed: at least one word. *)
Definition seed_key (seed : Z) : list Z :=
  let a := Z.abs seed in
  match words_of (S (Z.to_nat (Z.log2 a / 32))) a with [] => [0] | ws => ws end.

(** The generator: its words and the index of the next one. *)
Record mt_state : Type := MT { mt_words : list Z; mt_index : nat }.
Definition mt_seed (seed : Z) : mt_state := MT (init_by_array (seed_key seed)) MT_N.

Definition twist_word (mt : list Z) (k : nat) : Z :=
  let y := Z.lor (Z.land (word mt k) (2 ^ 31)) (Z.land (word mt ((k + 1) mod MT_N)) (2 ^ 31 - 1)) in
  Z.lxor (Z.lxor (word mt ((k + MT_M) mod MT_N)) (Z.shiftr y 1)) (if Z.odd y then 2567483615 else 0).
Definition twist (mt : list Z) : list Z :=
  foldl (λ mt k, <[k := twist_word mt k]> mt) mt (seq 0 MT_N).

Definition temper (y : Z) : Z :=
  let y := Z.lxor y (Z.shiftr y 11) in
  let y := Z.lxor y (Z.land (Z.shiftl y 7) 2636928640) in
  let y := Z.lxor y (Z.land (Z.shiftl y 15) 4022730752) in
  w32 (Z.lxor y (Z.shiftr y 18)).

Definition genrand (s : mt_state) : Z * mt_state :=
  let s := if (MT_N <=? mt_index s)%nat then MT (twist (mt_words s)) 0 else s in
  (temper (word (mt_words s) (mt_index s)), MT (mt_words s) (S (mt_index s))).

(** [random()] *)
Definition mt_random (s : mt_state) : Q * mt_state :=
  let '(x, s) := genrand s in
  let '(y, s) := genrand s in
  let a := Z.shiftr x 5 in
  let b := Z.shiftr y 6 in
  ((a * 2 ^ 26 + b) # (2 ^ 53), s).

(** The first [n] numbers. *)
Fixpoint mt_stream (n : nat) (s : mt_state) : list Q :=
  match n with
  | O => []
  | S n' => let '(x, s') := mt_random s in x :: mt_stream n' s'
  end.

(** The numbers CPython gives for the default seed of the CBR and of the Poisson series. *)
Example mt_known_answers :
  mt_stream 3 (mt_seed 260925) =
    [6753092750186916 # 2 ^ 53; 2705977336978139 # 2 ^ 53; 5907245550457025 # 2 ^ 53]%Q ∧
  mt_stream 3 (mt_seed (260925 + 1000003)) =
    [8455853551892842 # 2 ^ 53; 1773639720248852 # 2 ^ 53; 44773613297044 # 2 ^ 53]%Q.
Proof. vm_compute. done. Qed.

Lemma w32_range x : 0 <= w32 x < 2 ^ 32.
Proof. unfold w32. rewrite Z.land_ones by lia. apply Z.mod_pos_bound. lia. Qed.

Lemma genrand_range s x s' : genrand s = (x, s') → 0 <= x < 2 ^ 32.
Proof. unfold genrand, temper. intros [= <- _]. apply w32_range. Qed.

(** [random()] is in the half-open unit interval. *)
Lemma mt_random_range s x s' : mt_random s = (x, s') → (0 <= x < 1)%Q.
Proof.
  unfold mt_random. destruct (genrand s) as [u s1] eqn:E1. destruct (genrand s1) as [v s2] eqn:E2.
  apply genrand_range in E1, E2. intros [= <- _]. rewrite !Z.shiftr_div_pow2 by lia.
  assert (0 <= u / 2 ^ 5 < 2 ^ 27) by (split; [apply Z.div_pos; lia|apply Z.div_lt_upper_bound; lia]).
  assert (0 <= v / 2 ^ 6 < 2 ^ 26) by (split; [apply Z.div_pos; lia|apply Z.div_lt_upper_bound; lia]).
  unfold Qle, Qlt. cbn [Qnum Qden]. lia.
Qed.
