(* ===== verification/PyText.v ===== *)
(** * Python text: [str] methods, decimal rendering, a regular-expression engine

    A Python [str] is a [string] of ASCII characters.  The [str] methods, the
    [re] functions and [shlex.quote] are modelled as the benchmarks use them;
    the class of an escape such as [\d], [\s] or [\w] is its ASCII part. *)

From Stdlib Require Import Ascii DecimalString DecimalN DecimalFacts NArith ZArith Lia.
From stdpp Require Import base list strings.
From S2P Require Import Prelude.

(** ** Characters *)

Definition chr (n : nat) : string := String (ascii_of_nat n) EmptyString.
Definition dq : string := chr 34.
Definition nl : string := chr 10.

Definition between (lo hi : nat) (c : ascii) : bool :=
  (lo <=? nat_of_ascii c) && (nat_of_ascii c <=? hi).

Definition is_digit (c : ascii) : bool := between 48 57 c.
Definition is_lower (c : ascii) : bool := between 97 122 c.
Definition is_upper (c : ascii) : bool := between 65 90 c.
Definition is_hex (c : ascii) : bool :=
  is_digit c || between 97 102 c || between 65 70 c.
Definition is_word (c : ascii) : bool :=
  is_digit c || is_lower c || is_upper c || (nat_of_ascii c =? 95).
Definition is_space (c : ascii) : bool :=
  between 9 13 c || between 28 31 c || (nat_of_ascii c =? 32).
Definition is_eq (d c : ascii) : bool := (nat_of_ascii c =? nat_of_ascii d).
Definition one_of (cs : string) (c : ascii) : bool :=
  existsb (is_eq c) (String.list_ascii_of_string cs).

Fixpoint all_chars (p : ascii → bool) (s : string) : bool :=
  match s with EmptyString => true | String c t => p c && all_chars p t end.

(** ** Searching and replacing *)

Fixpoint strip_prefix (p s : string) : option string :=
  match p with
  | EmptyString => Some s
  | String c p' =>
      match s with
      | String d s' => if Ascii.eqb c d then strip_prefix p' s' else None
      | EmptyString => None
      end
  end.

(** [s.startswith(p)], [s.removeprefix(p)] *)
Definition starts_with (p s : string) : bool :=
  match strip_prefix p s with Some _ => true | None => false end.

(** The text before and after the first occurrence. *)
Fixpoint partition (needle hay : string) : option (string * string) :=
  match strip_prefix needle hay with
  | Some rest => Some (EmptyString, rest)
  | None =>
      match hay with
      | EmptyString => None
      | String c t =>
          match partition needle t with
          | Some (a, b) => Some (String c a, b)
          | None => None
          end
      end
  end.

(** [needle in hay] *)
Definition contains (needle hay : string) : bool :=
  match partition needle hay with Some _ => true | None => false end.

(** [hay.count(needle)]: occurrences that do not overlap, from the left. *)
Fixpoint count_go (fuel : nat) (needle hay : string) : nat :=
  match fuel with
  | O => 0
  | S fuel' =>
      match partition needle hay with
      | Some (_, rest) => S (count_go fuel' needle rest)
      | None => 0
      end
  end.
Definition count (needle hay : string) : nat :=
  count_go (S (String.length hay)) needle hay.

(** [s.replace(old, new, 1)] *)
Definition replace_first (old new s : string) : string :=
  match partition old s with
  | Some (a, b) => a +:+ new +:+ b
  | None => s
  end.

(** [s.replace(old, new)] *)
Fixpoint replace_go (fuel : nat) (old new s : string) : string :=
  match fuel with
  | O => s
  | S fuel' =>
      match partition old s with
      | Some (a, b) => a +:+ new +:+ replace_go fuel' old new b
      | None => s
      end
  end.
Definition replace (old new s : string) : string :=
  replace_go (S (String.length s)) old new s.

(** [s.splitlines()]: a line ends at LF, CR LF, CR, VT, FF, FS, GS or RS. *)
Definition is_linebreak (c : ascii) : bool := between 10 13 c || between 28 30 c.

Fixpoint splitlines_go (acc s : string) : list string :=
  match s with
  | EmptyString => match acc with EmptyString => [] | _ => [acc] end
  | String c t =>
      if is_linebreak c then
        match t with
        | String d t' =>
            if (nat_of_ascii c =? 13) && (nat_of_ascii d =? 10)
            then acc :: splitlines_go EmptyString t'
            else acc :: splitlines_go EmptyString t
        | EmptyString => [acc]
        end
      else splitlines_go (acc +:+ String c EmptyString) t
  end.
Definition splitlines (s : string) : list string := splitlines_go EmptyString s.

(** [s.split()]: maximal runs of non-blank characters. *)
Fixpoint split_go (acc s : string) : list string :=
  match s with
  | EmptyString => match acc with EmptyString => [] | _ => [acc] end
  | String c t =>
      if is_space c
      then match acc with
           | EmptyString => split_go EmptyString t
           | _ => acc :: split_go EmptyString t
           end
      else split_go (acc +:+ String c EmptyString) t
  end.
Definition split_ws (s : string) : list string := split_go EmptyString s.

(** [s.strip()] *)
Fixpoint lstrip (s : string) : string :=
  match s with
  | String c t => if is_space c then lstrip t else s
  | EmptyString => EmptyString
  end.
Fixpoint rstrip (s : string) : string :=
  match s with
  | String c t =>
      match rstrip t with
      | EmptyString => if is_space c then EmptyString else String c EmptyString
      | t' => String c t'
      end
  | EmptyString => EmptyString
  end.
Definition strip (s : string) : string := rstrip (lstrip s).

(** [s.lower()] *)
Definition lower_char (c : ascii) : ascii :=
  if is_upper c then ascii_of_nat (nat_of_ascii c + 32) else c.
Fixpoint lower (s : string) : string :=
  match s with
  | EmptyString => EmptyString
  | String c t => String (lower_char c) (lower t)
  end.

(** [sep.join(l)] *)
Definition join (sep : string) (l : list string) : string := String.concat sep l.

(** Lines, each with its newline. *)
Definition lines_text (l : list string) : string := foldr (λ x acc, x +:+ nl +:+ acc) EmptyString l.

Fixpoint repeat_str (n : nat) (s : string) : string :=
  match n with O => EmptyString | S n' => s +:+ repeat_str n' s end.

(** ** Integers as text *)

Definition str_N (n : N) : string := NilZero.string_of_uint (N.to_uint n).
Definition str_nat (n : nat) : string := str_N (N.of_nat n).
Definition str_Z (z : Z) : string :=
  match z with
  | Z.neg p => "-" +:+ str_N (N.pos p)
  | _ => str_N (Z.to_N z)
  end.
Definition str_bool (b : bool) : string := if b then "True" else "False".

(** [f"{n:0wd}"] for a natural number *)
Definition zfill (w : nat) (n : nat) : string :=
  let s := str_nat n in repeat_str (w - String.length s) "0" +:+ s.

(** [int(s)] on a string of decimal digits; [None] stands for [ValueError]. *)
Definition int_digits (s : string) : option N :=
  match NilZero.uint_of_string s with
  | Some u => Some (N.of_uint u)
  | None => None
  end.

(** ** Regular expressions

    The constructs the benchmarks' patterns use, matched by backtracking as
    Python's [re] does: [Many] is a greedy repetition of one character class,
    [Grp] a capturing group, and captures are listed in the order of the
    groups. *)

Inductive re : Type :=
| Lit (s : string)
| Many (lo : nat) (hi : option nat) (p : ascii → bool)
| Cat (r1 r2 : re)
| Opt (r : re)
| Times (n : nat) (r : re)
| Grp (r : re)
| WordB
| Bol
| Eol.

Definition Cls (p : ascii → bool) : re := Many 1 (Some 1) p.
Definition Plus (p : ascii → bool) : re := Many 1 None p.
Definition Star (p : ascii → bool) : re := Many 0 None p.
Fixpoint cats (rs : list re) : re :=
  match rs with [] => Lit EmptyString | [r] => r | r :: rs' => Cat r (cats rs') end.

Definition re_result : Type := string * list string.
(** previous character, remaining text, captures so far *)
Definition re_cont : Type := option ascii → string → list string → option re_result.
Definition matcher : Type := option ascii → string → list string → re_cont → option re_result.

Fixpoint last_char (prev : option ascii) (s : string) : option ascii :=
  match s with EmptyString => prev | String c t => last_char (Some c) t end.

Fixpoint many_go (p : ascii → bool) (lo : nat) (hi : option nat)
  (prev : option ascii) (s : string) (caps : list string) (k : re_cont)
  {struct s} : option re_result :=
  let stop := if lo =? 0 then k prev s caps else None in
  match s with
  | String c t =>
      if p c && match hi with Some O => false | _ => true end then
        match many_go p (pred lo) (option_map pred hi) (Some c) t caps k with
        | Some x => Some x
        | None => stop
        end
      else stop
  | EmptyString => stop
  end.

Fixpoint times_go (n : nat) (m : matcher) : matcher :=
  match n with
  | O => λ prev s caps k, k prev s caps
  | S n' => λ prev s caps k, m prev s caps (λ p' s' c', times_go n' m p' s' c' k)
  end.

Definition opt_word (c : option ascii) : bool :=
  match c with Some c => is_word c | None => false end.
Definition head_char (s : string) : option ascii :=
  match s with String c _ => Some c | EmptyString => None end.

Fixpoint take_str (n : nat) (s : string) : string :=
  match n, s with
  | S n', String c t => String c (take_str n' t)
  | _, _ => EmptyString
  end.

(** The text consumed between two suffixes of the same string. *)
Definition consumed (s s' : string) : string :=
  take_str (String.length s - String.length s') s.

Fixpoint re_match (r : re) : matcher :=
  match r with
  | Lit l => λ prev s caps k,
      match strip_prefix l s with
      | Some s' => k (last_char prev l) s' caps
      | None => None
      end
  | Many lo hi p => λ prev s caps k, many_go p lo hi prev s caps k
  | Cat r1 r2 => λ prev s caps k,
      re_match r1 prev s caps (λ p' s' c', re_match r2 p' s' c' k)
  | Opt r1 => λ prev s caps k,
      match re_match r1 prev s caps k with
      | Some x => Some x
      | None => k prev s caps
      end
  | Times n r1 => times_go n (re_match r1)
  | Grp r1 => λ prev s caps k,
      re_match r1 prev s caps (λ p' s' c', k p' s' (c' ++ [consumed s s']))
  | WordB => λ prev s caps k,
      if xorb (opt_word prev) (opt_word (head_char s)) then k prev s caps else None
  | Bol => λ prev s caps k,
      match prev with None => k prev s caps | Some _ => None end
  | Eol => λ prev s caps k,
      if bool_decide (s = EmptyString) || bool_decide (s = nl)
      then k prev s caps else None
  end.

Definition re_accept : re_cont := λ _ s caps, Some (s, caps).

(** [re.match] and [re.search]: captures of the leftmost match. *)
Definition re_match_at (r : re) (prev : option ascii) (s : string) : option re_result :=
  re_match r prev s [] re_accept.

Fixpoint search_go (r : re) (prev : option ascii) (s : string)
  : option (string * string * re_result) :=
  match re_match_at r prev s with
  | Some (s', caps) => Some (EmptyString, consumed s s', (s', caps))
  | None =>
      match s with
      | EmptyString => None
      | String c t =>
          match search_go r (Some c) t with
          | Some (a, m, x) => Some (String c a, m, x)
          | None => None
          end
      end
  end.

Definition re_matches (r : re) (s : string) : option (list string) :=
  option_map snd (re_match_at r None s).
Definition re_search (r : re) (s : string) : option (list string) :=
  option_map (snd ∘ snd) (search_go r None s).

(** [re.findall] / [re.sub] for patterns that never match the empty string:
    the captures (preceded by the whole match), and the text between. *)
Fixpoint scan_go (fuel : nat) (r : re) (prev : option ascii) (s : string)
  : list (string * (string * list string)) * string :=
  match fuel with
  | O => ([], s)
  | S fuel' =>
      match search_go r prev s with
      | Some (a, m, (s', caps)) =>
          let '(l, tail) := scan_go fuel' r (last_char (last_char prev a) m) s' in
          ((a, (m, caps)) :: l, tail)
      | None => ([], s)
      end
  end.
Definition re_scan (r : re) (s : string) := scan_go (S (String.length s)) r None s.
Definition re_findall (r : re) (s : string) : list (string * list string) :=
  map snd (fst (re_scan r s)).
Definition re_sub (r : re) (f : list string → string) (s : string) : string :=
  let '(l, tail) := re_scan r s in
  foldr (λ '(a, (_, caps)) acc, a +:+ f caps +:+ acc) tail l.

(** ** [shlex.quote] *)

Definition shell_safe (c : ascii) : bool := is_word c || one_of "@%+=:,./-" c.
Definition sq : string := "'".
Definition shlex_quote (s : string) : string :=
  match s with
  | EmptyString => sq +:+ sq
  | _ => if all_chars shell_safe s then s
         else sq +:+ replace sq (sq +:+ dq +:+ sq +:+ dq +:+ sq) s +:+ sq
  end.

(** ** Laws of strings *)

Lemma app_str_nil_l s : EmptyString +:+ s = s.
Proof. done. Qed.
Lemma app_str_cons c s t : String c s +:+ t = String c (s +:+ t).
Proof. done. Qed.
Lemma app_str_nil_r s : s +:+ EmptyString = s.
Proof. induction s as [|c s IH]; [done|]. rewrite app_str_cons. by rewrite IH. Qed.
Lemma app_str_assoc s t u : (s +:+ t) +:+ u = s +:+ t +:+ u.
Proof. induction s as [|c s IH]; [done|]. rewrite !app_str_cons. by rewrite IH. Qed.
Lemma length_app_str s t :
  String.length (s +:+ t) = (String.length s + String.length t)%nat.
Proof. induction s as [|c s IH]; [done|]. rewrite app_str_cons. cbn. by rewrite IH. Qed.
Lemma app_str_inj_l s t u : s +:+ t = s +:+ u → t = u.
Proof. induction s as [|c s IH]; [done|]. rewrite !app_str_cons. naive_solver. Qed.
Lemma app_str_nil_inv s t : s +:+ t = EmptyString → s = EmptyString ∧ t = EmptyString.
Proof. by destruct s. Qed.

Hint Rewrite app_str_assoc app_str_nil_l app_str_nil_r app_str_cons length_app_str : str.
Ltac str_simpl := autorewrite with str in *.

(** Two ways of cutting one string: one cut is inside the other. *)
Lemma app_str_eq_app a x b y :
  a +:+ x = b +:+ y →
  (∃ d, b = a +:+ d ∧ x = d +:+ y) ∨ (∃ d, a = b +:+ d ∧ d ≠ EmptyString ∧ y = d +:+ x).
Proof.
  revert b. induction a as [|c a IH]; intros b H.
  - left. exists b. done.
  - destruct b as [|d b].
    + right. exists (String c a). done.
    + rewrite !app_str_cons in H. injection H as -> H.
      destruct (IH _ H) as [(d' & -> & ->)|(d' & -> & ? & ->)].
      * left. by exists d'.
      * right. by exists d'.
Qed.

Lemma strip_prefix_Some p s r : strip_prefix p s = Some r ↔ s = p +:+ r.
Proof.
  revert s; induction p as [|c p IH]; intros s; cbn.
  - rewrite app_str_nil_l. naive_solver.
  - rewrite app_str_cons. destruct s as [|d s]; [naive_solver|].
    destruct (Ascii.eqb_spec c d) as [->|]; [rewrite IH|]; naive_solver.
Qed.

Lemma strip_prefix_app p r : strip_prefix p (p +:+ r) = Some r.
Proof. by apply strip_prefix_Some. Qed.

Lemma starts_with_iff p s : starts_with p s = true ↔ ∃ r, s = p +:+ r.
Proof.
  unfold starts_with. destruct (strip_prefix p s) as [r|] eqn:E.
  - apply strip_prefix_Some in E. naive_solver.
  - split; [done|]. intros [r ->]. by rewrite strip_prefix_app in E.
Qed.

Lemma partition_unfold needle c t :
  partition needle (String c t) =
  match strip_prefix needle (String c t) with
  | Some rest => Some (EmptyString, rest)
  | None => match partition needle t with
            | Some (a, b) => Some (String c a, b) | None => None end
  end.
Proof. done. Qed.

Lemma partition_Some needle hay a b :
  partition needle hay = Some (a, b) → hay = a +:+ needle +:+ b.
Proof.
  revert a b. induction hay as [|c t IH]; intros a b.
  - cbn. destruct (strip_prefix needle "") eqn:E; [|done]. intros [= <- <-].
    by apply strip_prefix_Some in E.
  - rewrite partition_unfold. destruct (strip_prefix needle (String c t)) eqn:E.
    + intros [= <- <-]. by apply strip_prefix_Some in E.
    + destruct (partition needle t) as [[a' b']|]; [|done]. intros [= <- <-].
      rewrite app_str_cons. by rewrite <- (IH a' b').
Qed.

(** [partition] finds the leftmost occurrence. *)
Lemma partition_leftmost needle a b :
  ∃ a' b', partition needle (a +:+ needle +:+ b) = Some (a', b') ∧
           (String.length a' <= String.length a)%nat.
Proof.
  induction a as [|c a IH].
  - exists EmptyString, b. split; [|done]. rewrite app_str_nil_l.
    destruct (needle +:+ b) eqn:E; cbn; rewrite <- ?E, strip_prefix_app; done.
  - rewrite app_str_cons, partition_unfold.
    destruct (strip_prefix needle _) as [r|].
    + exists EmptyString, r. split; [done|]. cbn. lia.
    + destruct IH as (a' & b' & -> & ?). exists (String c a'), b'. split; [done|]. cbn. lia.
Qed.

Lemma contains_iff needle hay :
  contains needle hay = true ↔ ∃ a b, hay = a +:+ needle +:+ b.
Proof.
  unfold contains. destruct (partition needle hay) as [[a b]|] eqn:E.
  - apply partition_Some in E. naive_solver.
  - split; [done|]. intros (a & b & ->).
    destruct (partition_leftmost needle a b) as (? & ? & E' & _). congruence.
Qed.

Lemma contains_false needle hay :
  contains needle hay = false ↔ partition needle hay = None.
Proof. unfold contains. by destruct (partition needle hay). Qed.

Lemma contains_app_l needle s t : contains needle s = true → contains needle (s +:+ t) = true.
Proof.
  rewrite !contains_iff. intros (a & b & ->). exists a, (b +:+ t). by str_simpl.
Qed.
Lemma contains_app_r needle s t : contains needle t = true → contains needle (s +:+ t) = true.
Proof.
  rewrite !contains_iff. intros (a & b & ->). exists (s +:+ a), b. by str_simpl.
Qed.

(** Exactly one occurrence: the part after it has none. *)
Lemma count_one needle hay :
  count needle hay = 1%nat →
  ∃ a b, hay = a +:+ needle +:+ b ∧ partition needle hay = Some (a, b) ∧
         (b = EmptyString ∨ contains needle b = false).
Proof.
  unfold count. cbn [count_go]. destruct (partition needle hay) as [[a b]|] eqn:E; [|done].
  intros [= Hc]. exists a, b. split_and!; [by apply partition_Some|done|].
  destruct (String.length hay) as [|n] eqn:Hn.
  - left. apply partition_Some in E. subst hay. str_simpl.
    destruct b; [done|cbn in Hn; lia].
  - right. cbn [count_go] in Hc. unfold contains. by destruct (partition needle b) as [[]|].
Qed.

Lemma count_zero needle hay : count needle hay = 0%nat ↔ contains needle hay = false.
Proof.
  unfold count, contains. cbn [count_go]. by destruct (partition needle hay) as [[]|].
Qed.

(** ** Overlaps

    [disjointable m old]: no text has an occurrence of [m] and one of [old] that
    share a character. *)

Definition agree (x y : string) : bool := starts_with x y || starts_with y x.
Fixpoint no_agree_suffix (m s : string) : bool :=
  match s with
  | EmptyString => true
  | String _ t => negb (agree m s) && no_agree_suffix m t
  end.
Definition disjointable (m old : string) : bool :=
  no_agree_suffix m old && no_agree_suffix old m.

Lemma no_agree_suffix_spec m s d e :
  no_agree_suffix m s = true → s = d +:+ e → e ≠ EmptyString → agree m e = false.
Proof.
  revert s. induction d as [|c d IH]; intros s Hs -> He.
  - rewrite app_str_nil_l in Hs. destruct e; [done|]. cbn [no_agree_suffix] in Hs.
    by apply andb_true_iff in Hs as [?%negb_true_iff _].
  - rewrite app_str_cons in Hs. cbn [no_agree_suffix] in Hs.
    apply andb_true_iff in Hs as [_ Hs]. by eapply IH.
Qed.

Lemma agree_app x y u v : x +:+ u = y +:+ v → agree x y = true.
Proof.
  intros H. unfold agree. apply orb_true_iff. rewrite !starts_with_iff.
  apply app_str_eq_app in H as [(d & -> & _)|(d & -> & _ & _)]; [left|right]; eauto.
Qed.

(** An occurrence of [m] survives the replacement of an occurrence of [old]. *)
Lemma contains_replaced m old new a b :
  disjointable m old = true →
  contains m (a +:+ old +:+ b) = true →
  contains m (a +:+ new +:+ b) = true.
Proof.
  unfold disjointable. rewrite andb_true_iff. intros [Hmo Hom].
  rewrite contains_iff. intros (p & q & H).
  apply app_str_eq_app in H as [(d & -> & H)|(d & -> & Hd & H)].
  - (* m starts after a *)
    apply app_str_eq_app in H as [(d' & -> & ->)|(d' & -> & Hd' & H)].
    + do 2 apply contains_app_r. apply contains_iff. eauto.
    + pose proof (no_agree_suffix_spec m (d +:+ d') d d' Hmo eq_refl Hd') as Ha.
      by rewrite (agree_app m d' q b) in Ha.
  - (* m starts inside a *)
    apply app_str_eq_app in H as [(d' & -> & H)|(d' & -> & Hd' & H)].
    + apply contains_app_l. apply contains_app_r. apply contains_iff.
      exists EmptyString, d'. done.
    + pose proof (no_agree_suffix_spec old (d +:+ d') d d' Hom eq_refl Hd') as Ha.
      by rewrite (agree_app old d' b q) in Ha.
Qed.

(** A needle that does not overlap itself is first found where it is put, after a
    text without it. *)
Definition unbordered (l : string) : bool :=
  match l with EmptyString => false | String _ t => no_agree_suffix l t end.

Lemma partition_at l pre t :
  unbordered l = true → contains l pre = false → partition l (pre +:+ l +:+ t) = Some (pre, t).
Proof.
  intros Hu. induction pre as [|c pre IH]; intros Hc.
  - rewrite app_str_nil_l. destruct (l +:+ t) eqn:E; cbn; rewrite <- E, strip_prefix_app; done.
  - rewrite app_str_cons, partition_unfold.
    destruct (strip_prefix l _) as [r|] eqn:E.
    + exfalso. apply strip_prefix_Some in E. rewrite <- (app_str_cons c pre) in E. symmetry in E.
      apply app_str_eq_app in E as [(d & Hd & _)|(d & El & Hd & E)].
      * assert (contains l (String c pre) = true) as E'; [|congruence].
        apply contains_iff. by exists EmptyString, d.
      * destruct l as [|c' l']; [done|]. injection El as -> El. cbn [unbordered] in Hu.
        pose proof (no_agree_suffix_spec _ _ _ _ Hu El Hd) as Ha. by rewrite (agree_app _ _ _ _ E) in Ha.
    + rewrite IH; [done|]. destruct (contains l pre) eqn:E'; [|done].
      pose proof (contains_app_r l (String c EmptyString) pre E') as E''.
      rewrite app_str_cons, app_str_nil_l in E''. congruence.
Qed.

(** ** Laws of decimal rendering *)

Lemma int_digits_str_N n : int_digits (str_N n) = Some n.
Proof.
  unfold int_digits, str_N. rewrite NilZero.usu.
  - by rewrite DecimalN.Unsigned.of_to.
  - intros E. pose proof (f_equal N.of_uint E) as E'. rewrite DecimalN.Unsigned.of_to in E'.
    cbn in E'. subst n. discriminate E.
Qed.

Lemma all_digits_uint u : all_chars is_digit (NilEmpty.string_of_uint u) = true.
Proof. induction u; cbn; auto. Qed.

Lemma all_digits_str_N n : all_chars is_digit (str_N n) = true.
Proof.
  unfold str_N, NilZero.string_of_uint.
  destruct (N.to_uint n) as [|u|u|u|u|u|u|u|u|u|u] eqn:E; try apply all_digits_uint; done.
Qed.

Lemma str_N_nonempty n : str_N n ≠ EmptyString.
Proof.
  intros E. pose proof (int_digits_str_N n) as H. rewrite E in H. discriminate H.
Qed.

Lemma str_N_inj m n : str_N m = str_N n → m = n.
Proof.
  intros H. apply (f_equal int_digits) in H. rewrite !int_digits_str_N in H. congruence.
Qed.

Lemma all_chars_app p s t : all_chars p (s +:+ t) = all_chars p s && all_chars p t.
Proof. induction s as [|c s IH]; [done|]. rewrite app_str_cons. cbn. by rewrite IH, andb_assoc. Qed.

Lemma all_chars_mono (p q : ascii → bool) s :
  (∀ c, p c = true → q c = true) → all_chars p s = true → all_chars q s = true.
Proof.
  intros Hpq. induction s as [|c s IH]; [done|]. cbn. rewrite !andb_true_iff. naive_solver.
Qed.

Lemma is_digit_hex c : is_digit c = true → is_hex c = true.
Proof. unfold is_hex. by intros ->. Qed.

(** ** Laws of the regular-expression engine *)

Lemma last_char_app prev s t : last_char prev (s +:+ t) = last_char (last_char prev s) t.
Proof. revert prev. induction s as [|c s IH]; intros prev; [done|]. rewrite app_str_cons. apply IH. Qed.

Lemma re_match_lit l prev t caps k :
  re_match (Lit l) prev (l +:+ t) caps k = k (last_char prev l) t caps.
Proof. cbn. by rewrite strip_prefix_app. Qed.

Definition stops (p : ascii → bool) (t : string) : Prop :=
  match t with String c _ => p c = false | EmptyString => True end.

(** Greedy repetition takes the whole run when the continuation accepts there. *)
Lemma many_go_run p lo d t prev caps k x :
  all_chars p d = true → stops p t → (lo <= String.length d)%nat →
  k (last_char prev d) t caps = Some x →
  many_go p lo None prev (d +:+ t) caps k = Some x.
Proof.
  revert lo prev. induction d as [|c d IH]; intros lo prev Hd Ht Hlo Hk.
  - rewrite app_str_nil_l. cbn in Hlo. assert (lo = 0)%nat as -> by lia.
    destruct t as [|c t]; cbn; [done|]. cbn in Ht. by rewrite Ht.
  - cbn in Hd. apply andb_true_iff in Hd as [Hc Hd].
    rewrite app_str_cons. cbn [many_go option_map]. rewrite Hc. cbn [andb].
    rewrite (IH (pred lo)); [done|done|done|cbn in Hlo; lia|done].
Qed.

Lemma consumed_app d t : consumed (d +:+ t) t = d.
Proof.
  unfold consumed. rewrite length_app_str.
  replace (String.length d + String.length t - String.length t)%nat with (String.length d) by lia.
  induction d as [|c d IH]; [by destruct t|]. rewrite app_str_cons. cbn. by rewrite IH.
Qed.

Lemma re_match_grp_run p lo d t prev caps k x :
  all_chars p d = true → stops p t → (lo <= String.length d)%nat →
  k (last_char prev d) t (caps ++ [d]) = Some x →
  re_match (Grp (Many lo None p)) prev (d +:+ t) caps k = Some x.
Proof.
  intros. cbn [re_match]. apply many_go_run; try done. by rewrite consumed_app.
Qed.

Lemma re_match_cat r1 r2 prev s caps k :
  re_match (Cat r1 r2) prev s caps k =
  re_match r1 prev s caps (λ p' s' c', re_match r2 p' s' c' k).
Proof. done. Qed.

(** A pattern that starts with a literal matches first where the literal first
    occurs, if it matches there. *)
Lemma search_go_lit l r pre t prev x :
  partition l (pre +:+ l +:+ t) = Some (pre, t) →
  re_match r (last_char (last_char prev pre) l) t [] re_accept = Some x →
  ∃ a m, search_go (Cat (Lit l) r) prev (pre +:+ l +:+ t) = Some (a, m, x).
Proof.
  revert prev. induction pre as [|c pre IH]; intros prev Hp Hr.
  - rewrite app_str_nil_l. destruct x as [s' caps].
    assert (re_match_at (Cat (Lit l) r) prev (l +:+ t) = Some (s', caps)) as E.
    { unfold re_match_at. rewrite re_match_cat, re_match_lit. done. }
    destruct (l +:+ t) eqn:Elt; cbn [search_go]; rewrite E; eauto.
  - rewrite app_str_cons in *. rewrite partition_unfold in Hp. cbn [search_go].
    destruct (strip_prefix l (String c _)) as [|] eqn:Es; [congruence|].
    unfold re_match_at at 1. rewrite re_match_cat.
    unfold re_match at 1. fold re_match. rewrite Es.
    destruct (partition l (pre +:+ l +:+ t)) as [[a b]|] eqn:E; [|done].
    injection Hp as -> ->.
    destruct (IH (Some c) eq_refl Hr) as (a & m & ->). eauto.
Qed.

Lemma re_search_lit l r pre t rest caps :
  partition l (pre +:+ l +:+ t) = Some (pre, t) →
  re_match r (last_char (last_char None pre) l) t [] re_accept = Some (rest, caps) →
  re_search (Cat (Lit l) r) (pre +:+ l +:+ t) = Some caps.
Proof.
  intros Hp Hr. destruct (search_go_lit l r pre t None (rest, caps) Hp Hr) as (a & m & E).
  unfold re_search. by rewrite E.
Qed.

(** Patterns made of literals, each followed by a captured run of characters. *)
Definition fields : Type := list (string * (ascii → bool)).

Fixpoint fields_re (fs : fields) : re :=
  match fs with
  | [] => Lit EmptyString
  | [(l, p)] => Cat (Lit l) (Grp (Plus p))
  | (l, p) :: fs' => Cat (Lit l) (Cat (Grp (Plus p)) (fields_re fs'))
  end.
Fixpoint fields_text (fs : fields) (vs : list string) : string :=
  match fs, vs with
  | (l, _) :: fs', v :: vs' => l +:+ v +:+ fields_text fs' vs'
  | _, _ => EmptyString
  end.

(** A literal after a captured run begins with a character the run cannot have. *)
Fixpoint separated (fs : fields) : bool :=
  match fs with
  | (_, p) :: (((String c _, _) :: _) as fs') => negb (p c) && separated fs'
  | [_] => true
  | _ => false
  end.

Definition field_ok (f : string * (ascii → bool)) (v : string) : Prop :=
  v ≠ EmptyString ∧ all_chars f.2 v = true.

Lemma fields_match fs vs prev caps :
  separated fs = true → Forall2 field_ok fs vs →
  re_match (fields_re fs) prev (fields_text fs vs) caps re_accept = Some (EmptyString, caps ++ vs).
Proof.
  revert vs prev caps. induction fs as [|[l p] fs IH]; intros vs prev caps Hs Hv; [done|].
  inversion Hv as [|? v ? vs' [Hne Hall] Hv']; subst. cbn [fields_text].
  assert (1 <= String.length v)%nat as Hlen by (destruct v; [done|cbn; lia]).
  destruct fs as [|[l' p'] fs].
  - inversion Hv'; subst. cbn [fields_re fields_text].
    rewrite re_match_cat, re_match_lit. by apply re_match_grp_run.
  - destruct l' as [|c l']; [done|]. cbn [separated] in Hs. apply andb_true_iff in Hs as [Hc Hs].
    change (fields_re ((l, p) :: (String c l', p') :: fs)) with
      (Cat (Lit l) (Cat (Grp (Plus p)) (fields_re ((String c l', p') :: fs)))).
    rewrite re_match_cat, re_match_lit, re_match_cat. inversion Hv' as [|? v' ? vs'' Hv1 Hv2]; subst.
    apply re_match_grp_run; [done|cbn; by apply negb_true_iff|done|].
    rewrite (IH (v' :: vs'')) by done. by rewrite <- app_assoc.
Qed.

(** Such a line of a log, after a prefix without the first literal. *)
Lemma fields_search l p fs pre vs :
  unbordered l = true → contains l pre = false → separated ((l, p) :: fs) = true →
  Forall2 field_ok ((l, p) :: fs) vs →
  re_search (fields_re ((l, p) :: fs)) (pre +:+ fields_text ((l, p) :: fs) vs) = Some vs.
Proof.
  intros Hu Hc Hs Hv. inversion Hv as [|? v ? vs' Hv1 Hv2]; subst.
  pose proof (fields_match _ _ (last_char None pre) [] Hs Hv) as Hm.
  set (t := v +:+ fields_text fs vs').
  change (fields_text ((l, p) :: fs) (v :: vs')) with (l +:+ t) in *.
  assert (∃ r, fields_re ((l, p) :: fs) = Cat (Lit l) r) as [r Hr] by (destruct fs; eauto).
  rewrite Hr in *. rewrite re_match_cat, re_match_lit in Hm.
  apply (re_search_lit l r pre t EmptyString); [by apply partition_at|exact Hm].
Qed.

Lemma search_go_absent l r prev s :
  contains l s = false → search_go (Cat (Lit l) r) prev s = None.
Proof.
  revert prev. induction s as [|c s IH]; intros prev Hc; apply contains_false in Hc; cbn [search_go];
    unfold re_match_at; rewrite re_match_cat; cbn [re_match].
  - cbn in Hc. destruct (strip_prefix l EmptyString); [done|done].
  - rewrite partition_unfold in Hc. destruct (strip_prefix l _); [done|].
    rewrite IH; [done|]. apply contains_false. by destruct (partition l s) as [[]|].
Qed.

Lemma re_search_absent l r s : contains l s = false → re_search (Cat (Lit l) r) s = None.
Proof. intros Hc. unfold re_search. by rewrite search_go_absent. Qed.

Lemma re_sub_absent l r f s : contains l s = false → re_sub (Cat (Lit l) r) f s = s.
Proof. intros Hc. unfold re_sub, re_scan. cbn [scan_go]. by rewrite search_go_absent. Qed.

(** ** Lines *)

Definition no_break (s : string) : bool := all_chars (λ c, negb (is_linebreak c)) s.

Lemma splitlines_line acc l t :
  no_break l = true → splitlines_go acc (l +:+ nl +:+ t) = (acc +:+ l) :: splitlines_go EmptyString t.
Proof.
  revert acc. induction l as [|c l IH]; intros acc Hl.
  - rewrite app_str_nil_l, app_str_nil_r. cbn. by destruct t.
  - cbn in Hl. apply andb_true_iff in Hl as [Hc%negb_true_iff Hl].
    rewrite app_str_cons. cbn [splitlines_go]. rewrite Hc, IH by done.
    by rewrite app_str_assoc, app_str_cons, app_str_nil_l.
Qed.

Lemma splitlines_lines_text ls : Forall (λ l, no_break l = true) ls → splitlines (lines_text ls) = ls.
Proof.
  induction 1 as [|l ls Hl _ IH]; [done|]. unfold splitlines in *. cbn [lines_text foldr].
  fold (lines_text ls). by rewrite splitlines_line, IH.
Qed.

(** ** [shlex.quote]: a POSIX shell reads the quoted word back

    [sh_word] is the shell's reading of one word made of unquoted safe
    characters, single-quoted text, and double-quoted text without expansions. *)

Inductive sh_mode := ShPlain | ShSingle | ShDouble.

Fixpoint sh_word (m : sh_mode) (s : string) : option string :=
  match s with
  | EmptyString => match m with ShPlain => Some EmptyString | _ => None end
  | String c t =>
      let keep m' := option_map (String c) (sh_word m' t) in
      match m with
      | ShPlain =>
          if is_eq "'"%char c then sh_word ShSingle t
          else if nat_of_ascii c =? 34 then sh_word ShDouble t
          else if shell_safe c then keep ShPlain else None
      | ShSingle => if is_eq "'"%char c then sh_word ShPlain t else keep ShSingle
      | ShDouble =>
          if nat_of_ascii c =? 34 then sh_word ShPlain t
          else if one_of "$`\!" c then None else keep ShDouble
      end
  end.

Definition not_sq (c : ascii) : bool := negb (is_eq "'"%char c).

Lemma is_eq_iff d c : is_eq d c = true ↔ c = d.
Proof.
  unfold is_eq. rewrite Nat.eqb_eq. split; [|congruence]. intros H.
  by rewrite <- (ascii_nat_embedding c), <- (ascii_nat_embedding d), H.
Qed.

Lemma partition_sq s :
  match partition sq s with
  | Some (a, _) => all_chars not_sq a = true
  | None => all_chars not_sq s = true
  end.
Proof.
  induction s as [|c t IH]; [done|]. rewrite partition_unfold.
  destruct (strip_prefix sq (String c t)) as [r|] eqn:E; [done|].
  assert (not_sq c = true) as Hc.
  { unfold not_sq. apply negb_true_iff, not_true_is_false. rewrite is_eq_iff. intros ->.
    discriminate E. }
  destruct (partition sq t) as [[a b]|]; cbn; by rewrite Hc.
Qed.

Lemma sh_single_run a t :
  all_chars not_sq a = true →
  sh_word ShSingle (a +:+ t) = option_map (String.append a) (sh_word ShSingle t).
Proof.
  induction a as [|c a IH]; cbn [all_chars].
  - intros _. rewrite app_str_nil_l. by destruct (sh_word ShSingle t).
  - rewrite andb_true_iff. intros [Hc Ha]. rewrite app_str_cons. cbn [sh_word].
    unfold not_sq in Hc. apply negb_true_iff in Hc. rewrite Hc, IH by done.
    by destruct (sh_word ShSingle t).
Qed.

Lemma sh_single_replace fuel s :
  (String.length s < fuel)%nat →
  sh_word ShSingle (replace_go fuel sq (sq +:+ dq +:+ sq +:+ dq +:+ sq) s +:+ sq) = Some s.
Proof.
  revert s. induction fuel as [|fuel IH]; intros s Hlen; [lia|]. cbn [replace_go].
  pose proof (partition_sq s) as Hp.
  destruct (partition sq s) as [[a b]|] eqn:E.
  - apply partition_Some in E. subst s. rewrite !app_str_assoc, sh_single_run by done.
    assert (String.length b < fuel)%nat as Hb by (rewrite !length_app_str in Hlen; cbn in Hlen; lia).
    specialize (IH b Hb). revert IH. generalize (replace_go fuel sq
      (sq +:+ dq +:+ sq +:+ dq +:+ sq) b +:+ sq) as rb. intros rb IH.
    change (sh_word ShSingle (sq +:+ dq +:+ sq +:+ dq +:+ sq +:+ rb))
      with (option_map (String "'") (sh_word ShSingle rb)).
    by rewrite IH.
  - rewrite sh_single_run by done. change (sh_word ShSingle sq) with (Some EmptyString).
    cbn [option_map]. by rewrite app_str_nil_r.
Qed.

Lemma sh_plain_safe s : all_chars shell_safe s = true → sh_word ShPlain s = Some s.
Proof.
  induction s as [|c s IH]; [done|]. cbn [all_chars sh_word]. rewrite andb_true_iff.
  intros [Hc Hs]. rewrite IH, Hc by done.
  destruct (is_eq "'" c) eqn:E; [apply is_eq_iff in E; subst c; discriminate Hc|].
  destruct (nat_of_ascii c =? 34)%nat eqn:E'; [|done].
  apply Nat.eqb_eq in E'. rewrite <- (ascii_nat_embedding c), E' in Hc. discriminate Hc.
Qed.

Lemma sh_word_shlex_quote s : sh_word ShPlain (shlex_quote s) = Some s.
Proof.
  destruct s as [|c t] eqn:Es; [done|]. rewrite <- Es. unfold shlex_quote.
  rewrite Es at 1. destruct (all_chars shell_safe s) eqn:E; [by apply sh_plain_safe|].
  apply (sh_single_replace (S (String.length s))). lia.
Qed.
