(* ===== verification/Host.v ===== *)
(** * The host: everything a script asks of the outside world

    One constructor of [eff] per library call with an outside effect.  A host is
    any handler of these calls over a world of its own; a program runs over a
    host and keeps the list of calls made with their outcomes, so theorems can
    speak of what was asked (sockets closed, files written, processes stopped)
    whatever the host answers.  Any call may raise, [KeyboardInterrupt]
    included.  What is assumed of a host beyond that is a class of named laws:
    [Clock], [ByteStream], [Completes], [SocketTimeout], [OrdinaryCalls]. *)

From Stdlib Require Import ZArith QArith Qabs Qround Lia Lqa.
From Stdlib Require Import Init.Byte.
From stdpp Require Import base list strings gmap.
From S2P Require Import Prelude PyNum PyText.

(** JSON documents, as [json.dumps] is given them and [json.loads] returns them. *)
Inductive json : Type :=
| JNull
| JBool (b : bool)
| JInt (z : Z)
| JFloat (q : Q)
| JStr (s : string)
| JList (l : list json)
| JObj (fields : list (string * json)).

Definition bytes : Type := list byte.
Definition sock : Type := nat.
Definition path : Type := string.
Definition pid : Type := nat.

(** [subprocess.CompletedProcess] *)
Record completed : Type := Completed {
  returncode : Z; stdout : string; stderr : string }.

(** [os.stat_result], the fields the scripts read *)
Record stat_result : Type := Stat { st_uid : Z; st_gid : Z; st_size : Z }.

(** What one [readline] of a background reader thread gave, with the wall clock
    just after it: the thread's share of the program's inputs. *)
Inductive read_item : Type :=
| RLine (ns : Z) (raw : bytes)
| RFail (x : exn).

Inductive eff : Type → Type :=
(* time, datetime *)
| EMonotonic : eff Q
| ETimeNs : eff Z
| ESleep (d : Q) : eff unit
| EStrftime : eff string
| EIsoNow : eff string
(* os, secrets, uuid, sys *)
| EUrandom (n : nat) : eff bytes
| EPrint (to_stderr : bool) (s : string) : eff unit
| EUuidHex : eff string
| EOwner : eff (Z * Z * string)
| EUid : eff Z
| EGid : eff Z
| EPwName (uid : Z) : eff string
| EGrName (gid : Z) : eff string
| EIsatty : eff bool
| EChdir (p : path) : eff unit
(* argparse: the help text, or the usage and an error line *)
| EUsage (help : bool) (message : string) : eff unit
(* socket *)
| EConnect (host : string) (port : Z) (timeout : Q) : eff sock
| ESetTimeout (s : sock) (t : option Q) : eff unit
| EGetTimeout (s : sock) : eff (option Q)
| ESendAll (s : sock) (data : bytes) : eff unit
| ERecv (s : sock) (n : nat) : eff bytes
| EReadLine (s : sock) : eff bytes
| EShutdown (s : sock) : eff unit
| EClose (s : sock) : eff unit
(* threads: the order in which [n] submitted calls complete; what the thread
   reading lines of socket [s] has read since it was last asked *)
| ECompletionOrder (n : nat) : eff (list nat)
| EReaderThread (s : sock) : eff (list read_item)
(* pathlib, csv, json *)
| EExists (p : path) : eff bool
| EIsDir (p : path) : eff bool
| EIsFile (p : path) : eff bool
| EIsSymlink (p : path) : eff bool
| EIterdir (p : path) : eff (list string)
(* the names [glob] finds in a directory: none where there is no such directory *)
| EScandir (p : path) : eff (list string)
| EGetmtime (p : path) : eff Q
| ERglob (p : path) : eff (list path)
| EStat (p : path) : eff stat_result
| EResolve (p : path) : eff path
| EReadText (p : path) : eff string
| EWriteText (p : path) (s : string) : eff unit
| EReadJson (p : path) : eff json
| EWriteJson (p : path) (j : json) : eff unit
| EWriteCsv (p : path) (rows : list (list json)) : eff unit
(* a file open for reading: the text of the lines read, and what cut the reading short *)
| EOpenR (p : path) : eff nat
| EFileText (h : nat) : eff (string * option exn)
| EOpenW (p : path) : eff nat
| ECloseFile (h : nat) : eff unit
| EMkdir (p : path) : eff unit
| EMkdirParent (p : path) : eff unit
| EMkdirNew (p : path) : eff unit
| EUnlink (p : path) : eff unit
(* [unlink(missing_ok=True)], [replace] *)
| EUnlinkMissing (p : path) : eff unit
| EReplace (src dst : path) : eff unit
| EChmod (p : path) (mode : Z) : eff unit
(* subprocess, shutil; [ESubprocess] is [subprocess.run] with the environment and the
   directory the child gets *)
| ERmtree (p : path) : eff unit
| ECopy2 (src dst : path) : eff unit
| ESubprocess (cwd : option path) (env : gmap string string) (argv : list string) : eff completed
| ERun (argv : list string) (timeout : option Q) : eff completed
| ERunEnv (cwd : path) (env : list (string * string)) (argv : list string) : eff completed
| EPopen (argv : list string) (out : option nat) : eff pid
| EStdoutLines (p : pid) : eff (list string)
| EStderrText (p : pid) : eff string
| EPoll (p : pid) : eff (option Z)
| ESigint (p : pid) : eff unit
| ETerminate (p : pid) : eff unit
| EKill (p : pid) : eff unit
| EWaitProc (p : pid) (timeout : option Q) : eff Z
| EWhich (program : string) : eff bool
(* pexpect; [EExpect] returns the text before the match and the captures *)
| ESpawn (argv : list string) (timeout : Q) : eff pid
| ESendLine (c : pid) (s : string) : eff unit
| ESend (c : pid) (s : string) : eff unit
| ESendControl (c : pid) (s : string) : eff unit
| EExpect (c : pid) (pattern : string) (timeout : Q) : eff (string * list string)
| EExpectList (c : pid) (patterns : list string) (timeout : Q) : eff nat
| ECloseChild (c : pid) (force : bool) : eff unit
(* matplotlib: the plots a script saves under a directory *)
| ESavePlots (p : path) : eff unit.

(** The calls that may change what socket [s] has to read; the calls that set a
    socket's timeout. *)
Definition changes_inbox {A} (s : sock) (e : eff A) : bool :=
  match e with
  | ERecv s' _ | EReadLine s' | EReaderThread s' => (s' =? s)%nat
  | EConnect _ _ _ => true
  | _ => false
  end.
Definition sets_timeout {A} (e : eff A) : bool :=
  match e with ESetTimeout _ _ | EConnect _ _ _ => true | _ => false end.

Class Host (W : Type) : Type :=
  handle : ∀ A : Type, eff A → W → (A + exn) * W.
Arguments handle {W _ A} _ _.

(** A call that was made, with its outcome. *)
Record event : Type := Ev { ev_type : Type; ev_eff : eff ev_type; ev_out : ev_type + exn }.
Arguments Ev {_} _ _.

Record hst (W : Type) : Type := HSt { world : W; trace : list event }.
Arguments HSt {W} _ _.
Arguments world {W} _.
Arguments trace {W} _.

Definition call {W} `{Host W} {A} (e : eff A) : M (hst W) A := λ _ s,
  let '(r, w') := handle e (world s) in
  (match r with inl a => Ok a | inr x => Raise x end,
   HSt w' (trace s ++ [Ev e r])).

(** Python locals that a [finally] or an [except] reads after the [try] block
    changed them: the state is a pair of the locals and the host's state. *)
Definition lift {L St A} (m : M St A) : M (L * St) A := λ n s,
  let '(r, s') := m n s.2 in (r, (s.1, s')).
Definition get_local {L St} : M (L * St) L := λ _ s, (Ok s.1, s).
Definition set_local {L St} (f : L → L) : M (L * St) unit := λ _ s, (Ok tt, (f s.1, s.2)).
(** A function body with its locals: they are dropped when it ends. *)
Definition with_locals {L St A} (l : L) (m : M (L * St) A) : M St A := λ n s,
  let '(r, s') := m n (l, s) in (r, s'.2).

Definition Qlt_bool (x y : Q) : bool := negb (Qle_bool y x).
Definition Qmax_py (x y : Q) : Q := if Qlt_bool x y then y else x.
Definition Qmin_py (x y : Q) : Q := if Qlt_bool y x then y else x.

(** [f"{x:.1f}"] on a non-negative float *)
Definition fmt1 (x : Q) : string :=
  let t := round_half_even (x * 10) in
  str_Z (t / 10) +:+ "." +:+ str_Z (t mod 10).

Lemma Qmax_py_ge x y : (y <= Qmax_py x y)%Q.
Proof.
  unfold Qmax_py, Qlt_bool. destruct (Qle_bool y x) eqn:E; cbn; [by apply Qle_bool_iff|].
  apply Qle_refl.
Qed.
Lemma Qmin_py_ge x y z : (z <= x → z <= y → z <= Qmin_py x y)%Q.
Proof. unfold Qmin_py, Qlt_bool. by destruct (Qle_bool x y). Qed.

Section effects.
Context {W : Type} `{Host W}.

Definition monotonic : M (hst W) Q := call EMonotonic.
Definition time_ns : M (hst W) Z := call ETimeNs.
Definition sleep (d : Q) : M (hst W) unit := call (ESleep d).
Definition print (s : string) : M (hst W) unit := call (EPrint false s).
Definition eprint (s : string) : M (hst W) unit := call (EPrint true s).

(** [while time.monotonic() < deadline: body(); time.sleep(d)] with the loop's variables;
    the body's [inr] leaves the loop, [None] for the whole means the deadline passed. *)
Definition poll_from {S A} (deadline d : Q) (body : S → M (hst W) (S + A)) (s0 : S) : M (hst W) (option A) :=
  iter (λ s,
    t ← monotonic;
    if Qlt_bool t deadline then
      r ← body s;
      match r with
      | inr a => mret (inr (Some a))
      | inl s' => sleep d;; mret (inl s')
      end
    else mret (inr None)) s0.
(** The same without a state. *)
Definition poll_until {A} (deadline d : Q) (body : M (hst W) (option A)) : M (hst W) (option A) :=
  poll_from deadline d (λ _ : unit, r ← body; mret (match r with Some a => inr a | None => inl tt end)) tt.

End effects.

(** ** Laws of hosts *)

(** [time.monotonic]: [now] is the clock's value as a real; it never goes
    backwards, a reading is the float of a value it has during the call, and
    [time.sleep(d)] returns no earlier than [d] seconds later. *)
Class Clock (W : Type) `{Host W} : Type := {
  now : W → Q;
  now_mono : ∀ A (e : eff A) w, now w <= now (snd (handle e w));
  now_read : ∀ w t w', handle EMonotonic w = (inl t, w') →
    fl (now w) <= t <= fl (now w');
  now_sleep : ∀ d w w', handle (ESleep d) w = (inl tt, w') → now w + d <= now w' }.

(** A connected socket is a byte stream: [inbox w s] is what the peer sends on
    [s] from here on and is not read yet.  Only [recv] on [s] takes from it, from
    the front (a new connection may reuse the number of a closed one); [recv] returns no bytes only at the end of the stream. *)
Class ByteStream (W : Type) `{Host W} : Type := {
  inbox : W → sock → bytes;
  recv_bytes : ∀ w s n b w', handle (ERecv s n) w = (inl b, w') → (0 < n)%nat →
    inbox w s = b ++ inbox w' s ∧ (length b <= n)%nat ∧ (b = [] → inbox w s = []);
  recv_error : ∀ w s n x w', handle (ERecv s n) w = (inr x, w') → inbox w' s = inbox w s;
  inbox_frame : ∀ A (e : eff A) w s, changes_inbox s e = false →
    inbox (snd (handle e w)) s = inbox w s }.

(** [as_completed] yields every submitted call once. *)
Class Completes (W : Type) `{Host W} : Prop :=
  completion_order : ∀ n w l w',
    handle (ECompletionOrder n) w = (inl l, w') → l ≡ₚ seq 0 n.

(** [socket.timeout] from [recv] comes after the socket's timeout has passed. *)
Class SocketTimeout (W : Type) `{Clock W} : Type := {
  sock_timeout : W → sock → option Q;
  settimeout_law : ∀ w s t w', handle (ESetTimeout s t) w = (inl tt, w') →
    sock_timeout w' s = t;
  timeout_frame : ∀ A (e : eff A) w s, sets_timeout e = false →
    sock_timeout (snd (handle e w)) s = sock_timeout w s;
  recv_timeout_law : ∀ w s n x w' t, handle (ERecv s n) w = (inr x, w') →
    isinstance x TimeoutError = true → sock_timeout w s = Some t →
    now w + t <= now w' }.

(** ** Reasoning about calls *)

Section calls.
Context {W : Type} `{Host W}.

Lemma wp_call {A} N (e : eff A) Q E n (s : hst W) :
  wp N (call e) Q E n s ↔
  match handle e (world s) with
  | (inl a, w') => Q a (HSt w' (trace s ++ [Ev e (inl a)]))
  | (inr x, w') => E x (HSt w' (trace s ++ [Ev e (inr x)]))
  end.
Proof. unfold wp, call. by destruct (handle e (world s)) as [[] ?]. Qed.

Lemma wp_call_cases {A} N (e : eff A) (Q : A → hst W → Prop) E n (s : hst W) :
  (∀ a w', handle e (world s) = (inl a, w') → Q a (HSt w' (trace s ++ [Ev e (inl a)]))) →
  (∀ x w', handle e (world s) = (inr x, w') → E x (HSt w' (trace s ++ [Ev e (inr x)]))) →
  wp N (call e) Q E n s.
Proof. rewrite wp_call. destruct (handle e (world s)) as [[] ?]; auto. Qed.

Lemma wp_lift {L A} N (m : M (hst W) A) Q E n (l : L) s :
  wp N (lift m) Q E n (l, s) ↔
  wp N m (λ a s', Q a (l, s')) (λ e s', E e (l, s')) n s.
Proof. unfold wp, lift. cbn. by destruct (m n s) as [[] ?]. Qed.

Lemma wp_with_locals {L A} N (l : L) (m : M (L * hst W) A) Q E n s :
  wp N (with_locals l m) Q E n s ↔
  wp N m (λ a s', Q a s'.2) (λ e s', E e s'.2) n (l, s).
Proof. unfold wp, with_locals. by destruct (m n (l, s)) as [[] ?]. Qed.

Lemma wp_get_local {L A} N (k : L → M (L * hst W) A) Q E n l st :
  wp N (k l) Q E n (l, st) → wp N (get_local ≫= k) Q E n (l, st).
Proof. intros Hk. by apply wp_bind. Qed.
Lemma wp_set_local {L A} N f (k : unit → M (L * hst W) A) Q E n l st :
  wp N (k tt) Q E n (f l, st) → wp N (set_local f ≫= k) Q E n (l, st).
Proof. intros Hk. by apply wp_bind. Qed.

(** The trace only grows, by calls that satisfy [P]. *)
Definition extends (P : event → Prop) (s s' : hst W) : Prop :=
  ∃ l, trace s' = trace s ++ l ∧ Forall P l.

#[global] Instance extends_preorder P : PreOrder (extends P).
Proof.
  split.
  - intros s. exists []. by rewrite app_nil_r.
  - intros s1 s2 s3 (l & E1 & Hl) (l' & E2 & Hl'). exists (l ++ l'). split.
    + by rewrite E2, E1, app_assoc.
    + by apply Forall_app.
Qed.

Lemma keeps_call_extends {A} (P : event → Prop) (e : eff A) :
  (∀ r, P (Ev e r)) → keeps (extends P) (call e).
Proof.
  intros HP n s. unfold call. destruct (handle e (world s)) as [r w']. cbn.
  exists [Ev e r]. split; [done|]. by constructor.
Qed.

(** When [m] returns [a] it has made calls [l] with [Q l a]. *)
Definition calls {A} (m : M (hst W) A) (Q : list event → A → Prop) : Prop :=
  ∀ n s, wp True m (λ a s', ∃ l, trace s' = trace s ++ l ∧ Q l a) (λ _ _, True) n s.

Lemma calls_mono {A} (m : M (hst W) A) (Q Q' : list event → A → Prop) :
  (∀ l a, Q l a → Q' l a) → calls m Q → calls m Q'.
Proof.
  intros HQ Hm n s. eapply wp_mono; [| |apply Hm]; [|done]. intros a s' (l & Hl & Ha). exists l. auto.
Qed.
Lemma calls_ret {A} (a : A) (Q : list event → A → Prop) : Q [] a → calls (mret a) Q.
Proof. intros HQ n s. apply wp_ret. exists []. by rewrite app_nil_r. Qed.
Lemma calls_call {A} (e : eff A) (Q : list event → A → Prop) : (∀ a, Q [Ev e (inl a)] a) → calls (call e) Q.
Proof. intros HQ n s. apply wp_call_cases; [|done]. intros a w' _. by exists [Ev e (inl a)]. Qed.
Lemma calls_bind {A B} (m : M (hst W) A) (k : A → M (hst W) B) (Q1 : list event → A → Prop) Q :
  calls m Q1 → (∀ l a, Q1 l a → calls (k a) (λ l' b, Q (l ++ l') b)) → calls (m ≫= k) Q.
Proof.
  intros Hm Hk n s. apply wp_bind. eapply wp_mono; [| |apply Hm]; [|done].
  intros a s' (l & Hl & Ha). eapply wp_mono; [| |by apply (Hk l a)]; [|done].
  intros b s'' (l' & Hl' & Hb). exists (l ++ l'). by rewrite Hl', Hl, app_assoc.
Qed.
(** The form that runs a program call by call. *)
Lemma calls_call_bind {A B} (e : eff A) (k : A → M (hst W) B) Q :
  (∀ a, calls (k a) (λ l' b, Q (Ev e (inl a) :: l') b)) → calls (call e ≫= k) Q.
Proof.
  intros Hk. eapply calls_bind; [apply (calls_call e (λ l a, l = [Ev e (inl a)])); reflexivity|].
  by intros l a ->.
Qed.
Lemma calls_throw {A} c msg (Q : list event → A → Prop) : calls (throw c msg) Q.
Proof. intros n s. by apply wp_throw. Qed.
Lemma calls_of_res {A} (r : res A) (Q : list event → A → Prop) : (∀ a, r = Ok a → Q [] a) → calls (of_res r) Q.
Proof.
  intros HQ n s. apply wp_of_res. destruct r as [a| |]; [|done..]. exists []. rewrite app_nil_r. auto.
Qed.
Lemma calls_raise_if b c msg (Q : list event → unit → Prop) : (b = false → Q [] tt) → calls (raise_if b c msg) Q.
Proof.
  intros HQ n s. apply wp_raise_if. destruct b; [done|]. exists []. rewrite app_nil_r. auto.
Qed.
(** A handler that does not return. *)
Lemma calls_try_except {A} (m : M (hst W) A) h Q :
  calls m Q → (∀ e k, h e = Some k → calls k (λ _ _, False)) → calls (try_except m h) Q.
Proof.
  intros Hm Hh n s. apply wp_try_except. eapply wp_mono; [| |apply Hm]; [done|].
  intros e s' _. destruct (h e) as [k|] eqn:E; [|done]. eapply wp_mono; [| |by apply (Hh e k)]; [|done].
  by intros a s'' (l & _ & []).
Qed.
Lemma calls_for_acc {X A} (I : list X → list event → A → Prop) (xs : list X) (body : X → A → M (hst W) A) a0 :
  (∀ pre x post l a, xs = pre ++ x :: post → I pre l a → calls (body x a) (λ l' a', I (pre ++ [x]) (l ++ l') a')) →
  I [] [] a0 → calls (for_acc xs body a0) (I xs).
Proof.
  intros Hb H0 n s0. apply (wp_for_acc True (λ pre a s, ∃ l, trace s = trace s0 ++ l ∧ I pre l a)).
  - intros pre x post a s Hxs (l & Hl & Hi). eapply wp_mono; [| |by apply (Hb pre x post l a)]; [|done].
    intros a' s' (l' & Hl' & Hi'). exists (l ++ l'). by rewrite Hl', Hl, app_assoc.
  - exists []. by rewrite app_nil_r.
Qed.
(** Polling: what was called before is what the rounds call that do not end it. *)
Lemma calls_poll_until {A} deadline d (body : M (hst W) (option A)) (P : event → Prop) Q :
  (∀ o, P (Ev EMonotonic o)) → (∀ o, P (Ev (ESleep d) o)) →
  calls body (λ l r, match r with Some a => Q l a | None => Forall P l end) →
  calls (poll_until deadline d body)
    (λ l r, match r with Some a => ∃ l1 l2, l = l1 ++ l2 ∧ Forall P l1 ∧ Q l2 a | None => True end).
Proof.
  intros Pm Ps Hb n s0. unfold poll_until, poll_from.
  apply (wp_iter_partial True (λ _ s, ∃ l, trace s = trace s0 ++ l ∧ Forall P l)); [done| |exists []; by rewrite app_nil_r].
  intros _ s (l & Hl & HP). unfold monotonic. apply wp_bind, wp_call_cases; [|done]. intros t w' _.
  destruct (Qlt_bool t deadline); [|apply wp_ret; eexists; split; [cbn; by rewrite Hl, <- app_assoc|done]].
  apply wp_bind, wp_bind. eapply wp_mono; [| |apply Hb]; [|done]. cbn [trace].
  intros r s' (l' & Hl' & Hr). apply wp_ret. destruct r as [a|].
  - apply wp_ret. exists ((l ++ [Ev EMonotonic (inl t)]) ++ l'). rewrite Hl', Hl, !app_assoc. split; [done|].
    exists (l ++ [Ev EMonotonic (inl t)]), l'. split_and!; [done| |done]. apply Forall_app. by split; [|repeat constructor].
  - unfold sleep. apply wp_bind, wp_call_cases; [|done]. intros [] w'' _. apply wp_ret. cbn [trace].
    exists (l ++ [Ev EMonotonic (inl t)] ++ l' ++ [Ev (ESleep d) (inl tt)]). rewrite Hl', Hl, !app_assoc. split; [done|].
    rewrite <- !app_assoc. repeat (apply Forall_app; split); try done; repeat constructor; auto.
Qed.

(** The clock does not go backwards over any sequence of calls. *)
Definition later `{!Clock W} (s s' : hst W) : Prop := now (world s) <= now (world s').

#[global] Instance later_preorder `{!Clock W} : PreOrder later.
Proof. split; unfold later; [intros s|intros s1 s2 s3]; lra. Qed.

Lemma keeps_call_later `{!Clock W} {A} (e : eff A) : keeps later (call e).
Proof.
  intros n s. unfold call, later. pose proof (now_mono A e (world s)) as Hm.
  by destruct (handle e (world s)) as [r w'].
Qed.

End calls.
#[export] Hint Resolve keeps_call_later : py.

Lemma terminates_call_bind {W A B} `{Host W} (e : eff A) (k : A → M (hst W) B) s :
  (∀ a w', handle e (world s) = (inl a, w') →
     terminates (k a) (HSt w' (trace s ++ [Ev e (inl a)]))) →
  terminates (call e ≫= k) s.
Proof.
  intros Hk. unfold terminates, mbind, M_mbind, m_bind, call.
  destruct (handle e (world s)) as [[a|x] w']; [by apply Hk|by exists 0%nat].
Qed.

Lemma total_call {W A} `{Host W} (e : eff A) : total (call e : M (hst W) A).
Proof.
  intros s. destruct (handle e (world s)) as [r w'] eqn:E.
  exists (match r with inl a => Ok a | inr x => Raise x end), (HSt w' (trace s ++ [Ev e r])).
  apply returns_const; [|by destruct r]. intros n. unfold call. by rewrite E.
Qed.
#[export] Hint Resolve total_call : py.

(** ** Open sockets

    The sockets a run has connected and not closed, from its trace. *)

Fixpoint remove1 (s : sock) (l : list sock) : list sock :=
  match l with
  | [] => []
  | x :: l' => if (x =? s)%nat then l' else x :: remove1 s l'
  end.

Definition sock_effect (l : list sock) (ev : event) : list sock :=
  match ev_eff ev in eff A return A + exn → list sock with
  | EConnect _ _ _ => λ r, match r with inl s => s :: l | inr _ => l end
  | EClose s => λ _, remove1 s l
  | _ => λ _, l
  end (ev_out ev).

Definition open_socks (tr : list event) : list sock := foldl sock_effect [] tr.

Definition opens {W} (st : hst W) : list sock := open_socks (trace st).

(** The bytes a run has sent on a socket. *)
Definition sent_by (s : sock) (ev : event) : bytes :=
  match ev_eff ev in eff A return A + exn → bytes with
  | ESendAll s' d => λ r, match r with
                          | inl _ => if (s' =? s)%nat then d else []
                          | inr _ => [] end
  | _ => λ _, []
  end (ev_out ev).
Definition sent (s : sock) (tr : list event) : bytes := concat (map (sent_by s) tr).

Lemma sent_snoc s tr ev : sent s (tr ++ [ev]) = sent s tr ++ sent_by s ev.
Proof. unfold sent. rewrite map_app, concat_app. cbn. by rewrite app_nil_r. Qed.

(** Calls that neither connect nor close. *)
Definition no_sock_change {A} (e : eff A) : bool :=
  match e with EConnect _ _ _ | EClose _ => false | _ => true end.

(** Calls behave as documented and no signal arrives: what is raised is an
    [Exception]; setting a timeout does not fail; [shutdown] fails with [OSError]
    only. *)
Class OrdinaryCalls (W : Type) `{Host W} : Prop := {
  raises_exception : ∀ A (e : eff A) w x w',
    handle e w = (inr x, w') → isinstance x Exception_ = true;
  settimeout_ok : ∀ s t w, ∃ w', handle (ESetTimeout s t) w = (inl tt, w');
  shutdown_oserror : ∀ s w x w',
    handle (EShutdown s) w = (inr x, w') → isinstance x OSError = true }.

Section open_sockets.
Context {W : Type} `{Host W}.

Definition same_open (st st' : hst W) : Prop := opens st' = opens st.
#[global] Instance same_open_preorder : PreOrder same_open.
Proof. split; unfold same_open; [done|congruence]. Qed.

Lemma opens_snoc w tr ev : opens (W:=W) (HSt w (tr ++ [ev])) = sock_effect (open_socks tr) ev.
Proof. unfold opens, open_socks. cbn. by rewrite foldl_app. Qed.

Lemma keeps_call_same_open {A} (e : eff A) :
  no_sock_change e = true → keeps same_open (call e).
Proof.
  intros He n s. unfold call, same_open.
  destruct (handle e (world s)) as [r w']. cbn [snd]. rewrite opens_snoc.
  unfold sock_effect. cbn. by destruct e.
Qed.

Lemma raises_call_exception `{!OrdinaryCalls W} {A} (e : eff A) :
  raises (λ x, isinstance x Exception_ = true) (call e).
Proof.
  intros n s x s'. unfold call. destruct (handle e (world s)) as [[a|y] w'] eqn:E; [done|].
  intros [= <- _]. by eapply raises_exception.
Qed.
End open_sockets.
#[export] Hint Extern 1 (keeps same_open (call _)) =>
  (apply keeps_call_same_open; reflexivity) : py.
#[export] Hint Resolve raises_call_exception : py.

(** ** Functions with locals *)

(** The locals stay as they are, the host's state moves by [R]. *)
Definition frame_local {L St} (R : St → St → Prop) (p p' : L * St) : Prop :=
  p'.1 = p.1 ∧ R p.2 p'.2.
#[global] Instance frame_local_preorder {L St} (R : St → St → Prop) `{!PreOrder R} :
  PreOrder (frame_local (L:=L) R).
Proof.
  split.
  - intros p. by split.
  - intros p1 p2 p3 [E1 H1] [E2 H2]. split; [congruence|by etransitivity].
Qed.
(** Any change of the locals. *)
Definition host_only {L St} (R : St → St → Prop) (p p' : L * St) : Prop := R p.2 p'.2.
#[global] Instance host_only_preorder {L St} (R : St → St → Prop) `{!PreOrder R} :
  PreOrder (host_only (L:=L) R).
Proof. unfold host_only. split; [intros p; reflexivity|intros p1 p2 p3; apply transitivity]. Qed.

Lemma keeps_lift {L St A} (R : St → St → Prop) (m : M St A) :
  keeps R m → keeps (frame_local (L:=L) R) (lift m).
Proof.
  intros Hm n [l s]. specialize (Hm n s). unfold lift, frame_local. cbn.
  by destruct (m n s).
Qed.
Lemma keeps_lift_host_only {L St A} (R : St → St → Prop) (m : M St A) :
  keeps R m → keeps (host_only (L:=L) R) (lift m).
Proof. intros Hm n p. by apply (keeps_lift (L:=L) R m Hm n p). Qed.
Lemma keeps_set_local {L St} {R : St → St → Prop} `{!PreOrder R} (f : L → L) :
  keeps (host_only R) (set_local f : M (L * St) unit).
Proof. intros n p. unfold host_only. cbn. reflexivity. Qed.
Lemma keeps_get_local {L St} {R : L * St → L * St → Prop} `{!PreOrder R} :
  keeps R (get_local : M (L * St) L).
Proof. intros n p. cbn. reflexivity. Qed.
Lemma keeps_with_locals {L St A} (R : St → St → Prop) (l : L) (m : M (L * St) A) :
  keeps (host_only R) m → keeps R (with_locals l m).
Proof.
  intros Hm n s. specialize (Hm n (l, s)). unfold with_locals, host_only in *.
  by destruct (m n (l, s)).
Qed.
Lemma raises_lift {L St A} P (m : M St A) : raises P m → raises P (lift m : M (L * St) A).
Proof.
  intros Hm n s e s'. unfold lift. destruct (m n s.2) as [r s1] eqn:E.
  intros [= -> _]. by eapply Hm.
Qed.
Lemma raises_set_local {L St} P (f : L → L) : raises P (set_local f : M (L * St) unit).
Proof. by intros n s e s'. Qed.
Lemma raises_get_local {L St} P : raises P (get_local : M (L * St) L).
Proof. by intros n s e s'. Qed.
Lemma raises_with_locals {L St A} P (l : L) (m : M (L * St) A) :
  raises P m → raises P (with_locals l m).
Proof.
  intros Hm n s e s'. unfold with_locals. destruct (m n (l, s)) as [r s1] eqn:E.
  intros [= -> _]. by eapply Hm.
Qed.
Lemma total_lift {L St A} (m : M St A) : total m → total (lift m : M (L * St) A).
Proof.
  intros Hm [l s]. destruct (Hm s) as (r & s1 & Hr & k & Hk). exists r, (l, s1).
  split; [done|]. exists k. intros n Hn. unfold lift. cbn. by rewrite Hk.
Qed.
Lemma total_set_local {L St} (f : L → L) : total (set_local f : M (L * St) unit).
Proof. intros p. eexists _, _. by apply returns_const. Qed.
Lemma total_get_local {L St} : total (get_local : M (L * St) L).
Proof. intros p. eexists _, _. by apply returns_const. Qed.
Lemma total_with_locals {L St A} (l : L) (m : M (L * St) A) : total m → total (with_locals l m).
Proof.
  intros Hm s. destruct (Hm (l, s)) as (r & s1 & Hr & k & Hk). exists r, s1.2.
  split; [done|]. exists k. intros n Hn. unfold with_locals. by rewrite Hk.
Qed.
#[export] Hint Resolve total_lift total_set_local total_get_local total_with_locals : py.
#[export] Hint Extern 1 (keeps _ (lift _)) =>
  (first [apply keeps_lift | apply keeps_lift_host_only]) : py.
#[export] Hint Extern 1 (keeps _ (set_local _)) => (apply keeps_set_local) : py.
#[export] Hint Extern 1 (keeps _ get_local) => (apply keeps_get_local) : py.
#[export] Hint Extern 1 (keeps _ (with_locals _ _)) => (apply keeps_with_locals) : py.
#[export] Hint Resolve raises_lift raises_set_local raises_get_local raises_with_locals : py.

(** ** Polling loops end

    The bound a polling loop needs: one round per delay until the deadline, and
    one more. *)
Section polling.
Context {W : Type} `{Clock W}.

Definition rounds_left (deadline d : Q) (s : hst W) : nat :=
  Z.to_nat (Qceiling ((deadline - now (world s)) / d)).

Lemma rounds_left_lt deadline d (s s' : hst W) :
  0 < d → now (world s) < deadline → now (world s) + d <= now (world s') →
  (rounds_left deadline d s' < rounds_left deadline d s)%nat.
Proof.
  intros Hd Hlt Hle. unfold rounds_left.
  set (x := (deadline - now (world s)) / d). set (y := (deadline - now (world s')) / d).
  assert (0 < x) as Hx by (apply Qlt_shift_div_l; lra).
  assert (y + 1 <= x) as Hyx.
  { assert (y + 1 == (deadline - now (world s') + d) / d) as -> by (unfold y; field; lra).
    unfold x. apply Qmult_le_compat_r; [lra|]. apply Qinv_le_0_compat. lra. }
  clearbody x y. pose proof (Qle_ceiling x) as Hcx. pose proof (Qceiling_lt y) as Hcy.
  assert (0 < Qceiling x)%Z.
  { rewrite Zlt_Qlt. change (inject_Z 0) with 0. lra. }
  assert (Qceiling y < Qceiling x)%Z; [|lia].
  replace (Qceiling y - 1)%Z with (Qceiling y + -1)%Z in Hcy by lia.
  rewrite inject_Z_plus in Hcy. change (inject_Z (-1)) with (-1 # 1) in Hcy.
  rewrite Zlt_Qlt. lra.
Qed.

(** A reading before the deadline was taken before the deadline. *)
Lemma reading_before (deadline : Q) w t w' :
  fl deadline == deadline → handle EMonotonic w = (inl t, w') →
  Qlt_bool t deadline = true → now w < deadline.
Proof.
  intros Hfl Ht Hlt. apply now_read in Ht as [Ht _]. unfold Qlt_bool in Hlt.
  apply negb_true_iff in Hlt.
  destruct (Qlt_le_dec (now w) deadline) as [|Hge]; [done|exfalso].
  apply fl_mono in Hge. assert (deadline <= t) as Hle by lra.
  apply Qle_bool_iff in Hle. congruence.
Qed.

Lemma total_poll_from {S A} deadline d (body : S → M (hst W) (S + A)) s0 :
  0 < d → fl deadline == deadline → (∀ s, keeps later (body s)) → (∀ s, total (body s)) →
  total (poll_from deadline d body s0).
Proof.
  intros Hd Hfl Hbk Hb. unfold poll_from.
  apply (total_iter (λ _ s, rounds_left deadline d s)).
  { intros s. unfold monotonic, sleep. total_tac. }
  intros a n s. apply wp_bind. unfold monotonic. apply wp_call_cases; [|done].
  intros t w1 Hm. destruct (Qlt_bool t deadline) eqn:Hlt; [|by apply wp_ret].
  pose proof (reading_before _ _ _ _ Hfl Hm Hlt) as Hnow.
  pose proof (now_mono _ EMonotonic (world s)) as Hm1. rewrite Hm in Hm1. cbn in Hm1.
  set (s1 := HSt w1 _). apply wp_bind.
  eapply wp_mono; [| |apply (wp_keeps (R:=later)); [apply Hbk|apply wp_trivial]]; [|done].
  intros [a'|b] s2 [_ Hlater]; cbn beta iota; [|by apply wp_ret].
  apply wp_bind. unfold sleep. apply wp_call_cases; [|done].
  intros [] w3 Hs. apply wp_ret. apply rounds_left_lt; [done|done|].
  apply now_sleep in Hs. unfold later in Hlater. cbn in *. lra.
Qed.
Lemma total_poll_until {A} deadline d (body : M (hst W) (option A)) :
  0 < d → fl deadline == deadline → keeps later body → total body →
  total (poll_until deadline d body).
Proof.
  intros Hd Hfl Hbk Hb. apply total_poll_from; [done|done|intros _..].
  - apply keeps_bind; [done|]. intros r. apply keeps_ret.
  - apply total_bind; [done|]. intros r. apply total_ret.
Qed.
End polling.
