(* ===== verification/Json.v ===== *)
(** * JSON documents and Python's conversions

    Dictionary and list access with the exceptions Python raises, truth values,
    [int], [float] and [str] of a parsed document, and [json.loads] on a text.
    Dictionaries are association lists in insertion order with distinct keys. *)

From Stdlib Require Import ZArith QArith Lia Ascii String.
From stdpp Require Import base list strings sets.
From S2P Require Import Prelude PyNum PyText Host.

Local Open Scope Z_scope.

(** ** Dictionaries *)

Fixpoint dict_get {A} (k : string) (d : list (string * A)) : option A :=
  match d with
  | [] => None
  | (k', a) :: d' => if bool_decide (k = k') then Some a else dict_get k d'
  end.

(** [d[k] = a]: the value of a key that is there is replaced in place. *)
Fixpoint dict_set {A} (k : string) (a : A) (d : list (string * A)) : list (string * A) :=
  match d with
  | [] => [(k, a)]
  | (k', a') :: d' =>
      if bool_decide (k = k') then (k, a) :: d' else (k', a') :: dict_set k a d'
  end.

Definition dict_keys {A} (d : list (string * A)) : list string := map fst d.

(** [j[k]] *)
Definition jget (k : string) (j : json) : res json :=
  match j with
  | JObj d => match dict_get k d with Some v => Ok v | None => fail KeyError k end
  | _ => fail TypeError "indices must be integers"
  end.

(** [j.get(k, default)] *)
Definition jget_default (k : string) (default : json) (j : json) : res json :=
  match j with
  | JObj d => Ok (match dict_get k d with Some v => v | None => default end)
  | _ => fail AttributeError "object has no attribute 'get'"
  end.

(** [for x in j] *)
Definition jiter (j : json) : res (list json) :=
  match j with
  | JList l => Ok l
  | JObj d => Ok (map (JStr ∘ fst) d)
  | JStr s => Ok (map (λ c, JStr (String c EmptyString)) (String.list_ascii_of_string s))
  | _ => fail TypeError "object is not iterable"
  end.

Definition truthy (j : json) : bool :=
  match j with
  | JNull => false
  | JBool b => b
  | JInt z => negb (z =? 0)
  | JFloat q => negb (Qeq_bool q 0)
  | JStr s => negb (bool_decide (s = EmptyString))
  | JList l => match l with [] => false | _ => true end
  | JObj d => match d with [] => false | _ => true end
  end.

(** [j == "s"] *)
Definition is_str (s : string) (j : json) : bool :=
  match j with JStr s' => bool_decide (s' = s) | _ => false end.

(** [x == y]: numbers by value, whatever their type; dictionaries by key *)
Definition number_of (j : json) : option Q :=
  match j with
  | JInt z => Some (inject_Z z)
  | JBool b => Some (if b then 1%Q else 0%Q)
  | JFloat q => Some q
  | _ => None
  end.
Fixpoint json_eqb (x y : json) : bool :=
  match x, y with
  | JNull, JNull => true
  | JStr s, JStr t => bool_decide (s = t)
  | JList l, JList l' =>
      (fix eq_items (l l' : list json) : bool :=
         match l, l' with
         | [], [] => true
         | a :: l, b :: l' => json_eqb a b && eq_items l l'
         | _, _ => false
         end) l l'
  | JObj d, JObj d' =>
      (length d =? length d')%nat &&
      forallb (λ kv, match dict_get kv.1 d' with Some b => json_eqb kv.2 b | None => false end) d
  | _, _ =>
      match number_of x, number_of y with Some p, Some q => Qeq_bool p q | _, _ => false end
  end.

(** ** [int], [float] *)

(** The digits of [int("...")]: underscores may stand between digits. *)
Fixpoint digits_value (after_digit : bool) (acc : Z) (s : string) : option Z :=
  match s with
  | EmptyString => if after_digit then Some acc else None
  | String c t =>
      if is_digit c then digits_value true (10 * acc + (Z.of_nat (nat_of_ascii c) - 48)) t
      else if is_eq "_"%char c && after_digit then digits_value false acc t
      else None
  end.

Definition py_int (s : string) : option Z :=
  match strip s with
  | String "-"%char t => option_map Z.opp (digits_value false 0 t)
  | String "+"%char t => digits_value false 0 t
  | t => digits_value false 0 t
  end.

(** The decimal numbers of JSON and of [float("...")]: the sign, the integer
    digits, the fraction digits and the exponent; the rest of the text. *)
Fixpoint take_digits (s : string) : string * string :=
  match s with
  | String c t =>
      if is_digit c then let '(a, b) := take_digits t in (String c a, b) else (EmptyString, s)
  | EmptyString => (EmptyString, s)
  end.

Definition digits_Z (s : string) : Z :=
  match int_digits s with Some n => Z.of_N n | None => 0 end.

Definition take_sign (s : string) : bool * string :=
  match s with
  | String "-"%char t => (true, t)
  | String "+"%char t => (false, t)
  | _ => (false, s)
  end.

(** [None] for a missing part. *)
Definition take_exponent (s : string) : option (Z * string) :=
  match s with
  | String c t =>
      if one_of "eE" c then
        let '(neg, t1) := take_sign t in
        let '(d, rest) := take_digits t1 in
        if bool_decide (d = EmptyString) then None
        else Some (if neg then - digits_Z d else digits_Z d, rest)
      else None
  | EmptyString => None
  end.

Definition take_fraction (s : string) : option (string * string) :=
  match s with
  | String "."%char t =>
      let '(d, rest) := take_digits t in
      if bool_decide (d = EmptyString) then None else Some (d, rest)
  | _ => None
  end.

Definition decimal (neg : bool) (whole frac : string) (e : Z) : Q :=
  let m := digits_Z (whole +:+ frac) in
  let m := if neg then - m else m in
  fl (inject_Z m * (10 # 1) ^ (e - Z.of_nat (String.length frac))).

Definition parse_number (s : string) : option (json * string) :=
  let '(neg, s1) := match s with String "-"%char t => (true, t) | _ => (false, s) end in
  let '(whole, s2) := take_digits s1 in
  if bool_decide (whole = EmptyString)
     || (starts_with "0" whole && negb (bool_decide (whole = "0"))) then None
  else
    match take_fraction s2, take_exponent s2 with
    | Some (frac, s3), _ =>
        match take_exponent s3 with
        | Some (e, s4) => Some (JFloat (decimal neg whole frac e), s4)
        | None => Some (JFloat (decimal neg whole frac 0), s3)
        end
    | None, Some (e, s3) => Some (JFloat (decimal neg whole EmptyString e), s3)
    | None, None => Some (JInt (if neg then - digits_Z whole else digits_Z whole), s2)
    end.

(** [float(text)] on decimal notation. *)
Definition py_float (s : string) : option Q :=
  match parse_number (strip s) with
  | Some (JInt z, EmptyString) => Some (fint z)
  | Some (JFloat q, EmptyString) => Some q
  | _ => None
  end.

Definition Qtrunc (q : Q) : Z := Z.quot (Qnum q) (QDen q).

Definition int_of (j : json) : res Z :=
  match j with
  | JInt z => Ok z
  | JBool b => Ok (if b then 1 else 0)
  | JFloat q => Ok (Qtrunc q)
  | JStr s => match py_int s with
              | Some z => Ok z
              | None => fail ValueError "invalid literal for int()"
              end
  | _ => fail TypeError "int() argument must be a string or a real number"
  end.

Definition float_of (j : json) : res Q :=
  match j with
  | JInt z => Ok (fint z)
  | JBool b => Ok (if b then 1%Q else 0%Q)
  | JFloat q => Ok q
  | JStr s => match py_float s with
              | Some q => Ok q
              | None => fail ValueError "could not convert string to float"
              end
  | _ => fail TypeError "float() argument must be a string or a real number"
  end.

(** ** [json.loads] *)

Definition json_space (c : ascii) : bool :=
  let n := nat_of_ascii c in (n =? 32)%nat || (n =? 9)%nat || (n =? 10)%nat || (n =? 13)%nat.

Fixpoint skip_space (s : string) : string :=
  match s with
  | String c t => if json_space c then skip_space t else s
  | EmptyString => s
  end.

Definition hex_value (c : ascii) : option nat :=
  let n := nat_of_ascii c in
  if is_digit c then Some (n - 48)%nat
  else if between 97 102 c then Some (n - 87)%nat
  else if between 65 70 c then Some (n - 55)%nat
  else None.

(** UTF-8 of a code point below 2^16 *)
Definition utf8 (n : nat) : string :=
  let b x := ascii_of_nat x in
  if (n <? 128)%nat then String (b n) EmptyString
  else if (n <? 2048)%nat
  then String (b (192 + n / 64)%nat) (String (b (128 + n mod 64)%nat) EmptyString)
  else String (b (224 + n / 4096)%nat)
         (String (b (128 + n / 64 mod 64)%nat) (String (b (128 + n mod 64)%nat) EmptyString)).

Definition simple_escape (c : ascii) : option nat :=
  match c with
  | "b"%char => Some 8%nat | "f"%char => Some 12%nat | "n"%char => Some 10%nat
  | "r"%char => Some 13%nat | "t"%char => Some 9%nat
  | _ => if one_of "\/" c || (nat_of_ascii c =? 34)%nat then Some (nat_of_ascii c) else None
  end.

(** The text after an opening quote, up to the closing one. *)
Fixpoint parse_string (s : string) : option (string * string) :=
  match s with
  | EmptyString => None
  | String c t =>
      let add u r := match r with Some (a, b) => Some (u +:+ a, b) | None => None end in
      if (nat_of_ascii c =? 34)%nat then Some (EmptyString, t)
      else if (nat_of_ascii c <? 32)%nat then None
      else if is_eq "\"%char c then
        match t with
        | String "u"%char (String a (String b (String d (String e t4)))) =>
            match hex_value a, hex_value b, hex_value d, hex_value e with
            | Some x, Some y, Some z, Some w =>
                add (utf8 (((x * 16 + y) * 16 + z) * 16 + w)%nat) (parse_string t4)
            | _, _, _, _ => None
            end
        | String e t1 =>
            match simple_escape e with
            | Some n => add (chr n) (parse_string t1)
            | None => None
            end
        | EmptyString => None
        end
      else add (String c EmptyString) (parse_string t)
  end.

Definition char_is (n : nat) (s : string) : option string :=
  match s with
  | String c t => if (nat_of_ascii c =? n)%nat then Some t else None
  | EmptyString => None
  end.

(** The nesting and the number of elements are bounded by the text's length. *)
Fixpoint parse_value (fuel : nat) (s : string) : option (json * string) :=
  match fuel with
  | O => None
  | S n =>
      match char_is 34 s, char_is 91 s, char_is 123 s with
      | Some t, _, _ =>
          match parse_string t with Some (x, rest) => Some (JStr x, rest) | None => None end
      | _, Some t, _ =>
          match char_is 93 (skip_space t) with
          | Some rest => Some (JList [], rest)
          | None => match parse_items n (skip_space t) with
                    | Some (l, rest) => Some (JList l, rest)
                    | None => None
                    end
          end
      | _, _, Some t =>
          match char_is 125 (skip_space t) with
          | Some rest => Some (JObj [], rest)
          | None => match parse_fields n [] (skip_space t) with
                    | Some (d, rest) => Some (JObj d, rest)
                    | None => None
                    end
          end
      | None, None, None =>
          match strip_prefix "null" s, strip_prefix "true" s, strip_prefix "false" s with
          | Some rest, _, _ => Some (JNull, rest)
          | _, Some rest, _ => Some (JBool true, rest)
          | _, _, Some rest => Some (JBool false, rest)
          | None, None, None => parse_number s
          end
      end
  end
with parse_items (fuel : nat) (s : string) : option (list json * string) :=
  match fuel with
  | O => None
  | S n =>
      match parse_value n s with
      | None => None
      | Some (v, rest) =>
          match char_is 44 (skip_space rest), char_is 93 (skip_space rest) with
          | Some t, _ => match parse_items n (skip_space t) with
                         | Some (l, r) => Some (v :: l, r)
                         | None => None
                         end
          | None, Some t => Some ([v], t)
          | None, None => None
          end
      end
  end
with parse_fields (fuel : nat) (d : list (string * json)) (s : string)
  : option (list (string * json) * string) :=
  match fuel with
  | O => None
  | S n =>
      match char_is 34 s with
      | None => None
      | Some t =>
          match parse_string t with
          | None => None
          | Some (k, rest) =>
              match char_is 58 (skip_space rest) with
              | None => None
              | Some t1 =>
                  match parse_value n (skip_space t1) with
                  | None => None
                  | Some (v, rest1) =>
                      match char_is 44 (skip_space rest1), char_is 125 (skip_space rest1) with
                      | Some t2, _ => parse_fields n (dict_set k v d) (skip_space t2)
                      | None, Some t2 => Some (dict_set k v d, t2)
                      | None, None => None
                      end
                  end
              end
          end
      end
  end.

(** A value nests and continues at most once per character it reads. *)
Definition json_loads (s : string) : res json :=
  match parse_value (2 * String.length s + 2) (skip_space s) with
  | Some (j, rest) =>
      if bool_decide (skip_space rest = EmptyString) then Ok j
      else fail JSONDecodeError "Extra data"
  | None => fail JSONDecodeError "Expecting value"
  end.

(** ** Laws *)

Lemma dict_get_set {A} k k' (a : A) d :
  dict_get k (dict_set k' a d) = if bool_decide (k = k') then Some a else dict_get k d.
Proof.
  induction d as [|[k0 a0] d IH]; cbn [dict_set dict_get]; [done|].
  destruct (bool_decide_reflect (k' = k0)) as [->|Hne]; cbn [dict_get].
  - by destruct (bool_decide_reflect (k = k0)).
  - rewrite IH. repeat case_bool_decide; congruence.
Qed.

Lemma dict_get_None {A} k (d : list (string * A)) : dict_get k d = None ↔ k ∉ dict_keys d.
Proof.
  induction d as [|[k' a] d IH]; cbn; [split; [intros _; apply not_elem_of_nil|done]|].
  rewrite not_elem_of_cons, <- IH. destruct (bool_decide_reflect (k = k')); naive_solver.
Qed.

Lemma dict_set_keys {A} k (a : A) d :
  dict_keys (dict_set k a d) =
  if bool_decide (k ∈ dict_keys d) then dict_keys d else dict_keys d ++ [k].
Proof.
  induction d as [|[k' a'] d IH]; [done|]. cbn [dict_set dict_keys map fst].
  destruct (bool_decide_reflect (k = k')) as [->|Hne].
  - rewrite bool_decide_true by (left). done.
  - cbn. fold (dict_keys d). fold (dict_keys (dict_set k a d)). rewrite IH.
    repeat case_bool_decide; set_unfold; naive_solver.
Qed.

Lemma dict_set_fresh {A} k (a : A) d : k ∉ dict_keys d → dict_set k a d = d ++ [(k, a)].
Proof.
  induction d as [|[k' a'] d IH]; [done|]. cbn. rewrite not_elem_of_cons. intros [Hne Hk].
  rewrite bool_decide_false by done. by rewrite IH.
Qed.

Lemma NoDup_dict_set {A} k (a : A) d : NoDup (dict_keys d) → NoDup (dict_keys (dict_set k a d)).
Proof.
  intros Hd. rewrite dict_set_keys. case_bool_decide; [done|].
  apply NoDup_app. split_and!; [done| |apply NoDup_singleton].
  intros x Hx. rewrite list_elem_of_singleton. congruence.
Qed.

Lemma dict_get_Some {A} k (a : A) d : NoDup (dict_keys d) → dict_get k d = Some a ↔ (k, a) ∈ d.
Proof.
  induction d as [|[k' a'] d IH]; cbn; [intros _; split; [done|by intros ?%not_elem_of_nil]|].
  rewrite NoDup_cons, elem_of_cons. intros [Hk' Hd].
  destruct (bool_decide_reflect (k = k')) as [->|Hne].
  - split; [intros [= ->]; auto|]. intros [[= ->]|Hin]; [done|].
    destruct Hk'. change k' with (k', a).1. by apply list_elem_of_fmap_2.
  - rewrite IH by done. naive_solver.
Qed.

Lemma NoDup_keys_snoc {A} (d : list (string * A)) x :
  NoDup (dict_keys (d ++ [x])) ↔ NoDup (dict_keys d) ∧ x.1 ∉ dict_keys d.
Proof.
  unfold dict_keys. rewrite map_app. cbn [map]. rewrite NoDup_app. split.
  - intros (H1 & H2 & _). split; [done|]. intros Hin. apply (H2 _ Hin). by left.
  - intros [H1 H2]. split_and!; [done| |apply NoDup_singleton].
    intros k Hk ->%list_elem_of_singleton. done.
Qed.

Lemma NoDup_keys_app_l {A} (d d' : list (string * A)) :
  NoDup (dict_keys (d ++ d')) → NoDup (dict_keys d).
Proof. unfold dict_keys. rewrite map_app, NoDup_app. tauto. Qed.
