(* ===== verification/Loopback.v ===== *)
(** * A concrete host, for evaluating the models

    Connections are scripted: the n-th [create_connection] gets the n-th peer,
    which sends its bytes in pieces of at most three and then closes or stays
    silent.  A console answers the successive [expect]s with a script, programs
    that are run answer with a table, files are a table that writes update.  The
    clock moves when the program sleeps, waits for a console or a [recv] times
    out.  Everything else succeeds with an empty answer.  It satisfies every law of
    [Host.v], so the theorems that assume those laws apply to it. *)

From Stdlib Require Import ZArith QArith Lia Lqa.
From Stdlib Require Import Init.Byte.
From stdpp Require Import base list strings.
From S2P Require Import Prelude PyNum PyText Host.

Open Scope Q_scope.

Record peer : Type := Peer { sends : bytes; silent : bool }.

(** What the machines and programs around the script answer. *)
Record site : Type := Site {
  replies : list (string * list string);
  shell : list string → completed;
  texts : list (path * string);
  docs : list (path * json);
  wall : Z }.

Definition empty_site : site :=
  Site [] (λ _, Completed 0 EmptyString EmptyString) [] [] 0.

Fixpoint assoc {A} (k : string) (l : list (string * A)) : option A :=
  match l with
  | [] => None
  | (k', a) :: l' => if bool_decide (k = k') then Some a else assoc k l'
  end.

Record lw : Type := LW {
  around : site;
  clk : Q;
  next : nat;
  script : list peer;
  boxes : nat → peer;
  touts : nat → option Q }.

Definition upd {A} (f : nat → A) (i : nat) (x : A) : nat → A :=
  λ j, if (j =? i)%nat then x else f j.

Definition advance (d : Q) (w : lw) : lw :=
  LW (around w) (clk w + d) (next w) (script w) (boxes w) (touts w).

Definition nonneg (d : Q) : Q := if Qle_bool 0 d then d else 0.

Definition lw_recv (s n : nat) (w : lw) : (bytes + exn) * lw :=
  let p := boxes w s in
  match sends p with
  | [] =>
      if silent p
      then (inr (Exn TimeoutError "timed out"),
            advance (nonneg (match touts w s with Some t => t | None => 0 end)) w)
      else (inl [], w)
  | l => (inl (take (Nat.min n 3) l),
          LW (around w) (clk w) (next w) (script w)
             (upd (boxes w) s (Peer (drop (Nat.min n 3) l) (silent p))) (touts w))
  end.

Definition lw_connect (t : Q) (w : lw) : (nat + exn) * lw :=
  match script w with
  | [] => (inr (Exn ConnectionError "Connection refused"), w)
  | p :: rest =>
      (inl (next w),
       LW (around w) (clk w) (S (next w)) rest (upd (boxes w) (next w) p)
          (upd (touts w) (next w) (Some t)))
  end.

Fixpoint take_line (l : bytes) : bytes * bytes :=
  match l with
  | [] => ([], [])
  | x0a :: l' => ([x0a], l')
  | b :: l' => let '(x, y) := take_line l' in (b :: x, y)
  end.

Definition lw_readline (s : nat) (w : lw) : (bytes + exn) * lw :=
  let p := boxes w s in
  let '(x, y) := take_line (sends p) in
  (inl x, LW (around w) (clk w) (next w) (script w)
             (upd (boxes w) s (Peer y (silent p))) (touts w)).

Definition set_around (f : site → site) (w : lw) : lw :=
  LW (f (around w)) (clk w) (next w) (script w) (boxes w) (touts w).

Definition console_delay : Q := 1 # 100.
Definition lw_expect (w : lw) : ((string * list string) + exn) * lw :=
  match replies (around w) with
  | [] => (inr (Exn PexpectTIMEOUT "Timeout exceeded."), advance console_delay w)
  | r :: rest =>
      (inl r, advance console_delay
        (set_around (λ a, Site rest (shell a) (texts a) (docs a) (wall a)) w))
  end.

Definition read_table {A} (p : path) (l : list (path * A)) (w : lw) : (A + exn) * lw :=
  (match assoc p l with
   | Some a => inl a
   | None => inr (Exn FileNotFoundError p)
   end, w).

(** An open file is its place in the table. *)
Fixpoint index_of {A} (p : path) (l : list (path * A)) : option nat :=
  match l with
  | [] => None
  | (p', _) :: l' => if bool_decide (p = p') then Some 0%nat else option_map S (index_of p l')
  end.
Definition open_table {A} (p : path) (l : list (path * A)) (w : lw) : (nat + exn) * lw :=
  (match index_of p l with Some i => inl i | None => inr (Exn FileNotFoundError p) end, w).

(** The names of the files directly in a directory. *)
Definition children {A} (p : path) (l : list (path * A)) : list string :=
  omap (λ x, match strip_prefix (p +:+ "/") x.1 with
             | Some name => if contains "/" name then None else Some name
             | None => None
             end) l.

#[global] Instance loopback : Host lw := λ A e w,
  match e in eff A return (A + exn) * lw with
  | EMonotonic => (inl (fl (clk w)), w)
  | ETimeNs =>
      (inl (wall (around w)),
       set_around (λ a, Site (replies a) (shell a) (texts a) (docs a) (wall a + 1000)) w)
  | ESleep d => (inl tt, advance (nonneg d) w)
  | EStrftime => (inl EmptyString, w)
  | EIsoNow => (inl EmptyString, w)
  | EUrandom n => (inl (replicate n x00), w)
  | EPrint _ _ => (inl tt, w)
  | EUuidHex => (inl EmptyString, w)
  | EOwner => (inl (0%Z, 0%Z, EmptyString), w)
  | EUid => (inl 1000%Z, w)
  | EGid => (inl 1000%Z, w)
  | EPwName _ => (inl "user", w)
  | EGrName _ => (inl "user", w)
  | EIsatty => (inl false, w)
  | EChdir _ => (inl tt, w)
  | EUsage _ _ => (inl tt, w)
  | EConnect _ _ t => lw_connect t w
  | ESetTimeout s t =>
      (inl tt, LW (around w) (clk w) (next w) (script w) (boxes w) (upd (touts w) s t))
  | EGetTimeout s => (inl (touts w s), w)
  | ESendAll _ _ => (inl tt, w)
  | ERecv s n => lw_recv s n w
  | EReadLine s => lw_readline s w
  | EShutdown _ => (inl tt, w)
  | EClose _ => (inl tt, w)
  | ECompletionOrder n => (inl (seq 0 n), w)
  | EReaderThread _ => (inl [], w)
  | EExists p => (inl (match assoc p (texts (around w)) with Some _ => true | None => false end), w)
  | EIsDir _ => (inl true, w)
  | EIsFile p => (inl (match assoc p (texts (around w)) with Some _ => true | None => false end), w)
  | EIsSymlink _ => (inl false, w)
  | EIterdir _ => (inl [], w)
  | EScandir p => (inl (children p (texts (around w))), w)
  | EGetmtime _ => (inl 0, w)
  | ERglob _ => (inl [], w)
  | EStat _ => (inl (Stat 0 0 1), w)
  | EResolve p => (inl p, w)
  | EReadText p => read_table p (texts (around w)) w
  | EWriteText p t =>
      (inl tt, set_around (λ a, Site (replies a) (shell a) ((p, t) :: texts a) (docs a) (wall a)) w)
  | EReadJson p => read_table p (docs (around w)) w
  | EWriteJson p j =>
      (inl tt, set_around (λ a, Site (replies a) (shell a) (texts a) ((p, j) :: docs a) (wall a)) w)
  | EWriteCsv _ _ => (inl tt, w)
  | EOpenR p => open_table p (texts (around w)) w
  | EFileText h =>
      (inl (match texts (around w) !! h with Some (_, t) => t | None => EmptyString end, None), w)
  | EOpenW _ => (inl 0%nat, w)
  | ECloseFile _ => (inl tt, w)
  | EMkdir _ => (inl tt, w)
  | EMkdirParent _ => (inl tt, w)
  | EMkdirNew _ => (inl tt, w)
  | EUnlink _ => (inl tt, w)
  | EUnlinkMissing _ => (inl tt, w)
  | EReplace _ _ => (inl tt, w)
  | EChmod _ _ => (inl tt, w)
  | ERmtree _ => (inl tt, w)
  | ECopy2 _ _ => (inl tt, w)
  | ESubprocess _ _ argv => (inl (shell (around w) argv), w)
  | ERun argv _ => (inl (shell (around w) argv), w)
  | ERunEnv _ _ argv => (inl (shell (around w) argv), w)
  | EPopen _ _ => (inl 0%nat, w)
  | EStdoutLines _ => (inl [], w)
  | EStderrText _ => (inl EmptyString, w)
  | EPoll _ => (inl None, w)
  | ESigint _ => (inl tt, w)
  | ETerminate _ => (inl tt, w)
  | EKill _ => (inl tt, w)
  | EWaitProc _ _ => (inl 0%Z, w)
  | EWhich _ => (inl true, w)
  | ESpawn _ _ => (inl 0%nat, w)
  | ESendLine _ _ => (inl tt, w)
  | ESend _ _ => (inl tt, w)
  | ESendControl _ _ => (inl tt, w)
  | EExpect _ _ _ => lw_expect w
  | EExpectList _ _ _ => (inl 1%nat, advance console_delay w)
  | ECloseChild _ _ => (inl tt, w)
  | ESavePlots _ => (inl tt, w)
  end.

Lemma nonneg_ge d : 0 <= nonneg d ∧ d <= nonneg d.
Proof.
  unfold nonneg. destruct (Qle_bool 0 d) eqn:E.
  - apply Qle_bool_iff in E. lra.
  - assert (¬ 0 <= d) by (rewrite <- Qle_bool_iff; congruence). lra.
Qed.

Lemma lw_recv_mono s n w : clk w <= clk (lw_recv s n w).2.
Proof.
  unfold lw_recv. destruct (sends (boxes w s)); [destruct (silent _)|]; cbn; [|lra|lra].
  match goal with |- _ <= _ + nonneg ?d => pose proof (nonneg_ge d) end. lra.
Qed.

Lemma lw_connect_mono t w : clk w <= clk (lw_connect t w).2.
Proof. unfold lw_connect. destruct (script w); cbn; lra. Qed.

Lemma lw_readline_mono s w : clk w <= clk (lw_readline s w).2.
Proof. unfold lw_readline. destruct (take_line _). cbn. lra. Qed.

Lemma lw_expect_mono w : clk w <= clk (lw_expect w).2.
Proof. unfold lw_expect. destruct (replies _); cbn; unfold console_delay; lra. Qed.

#[global] Instance loopback_clock : Clock lw.
Proof.
  refine {| now := clk |}.
  - intros A e w.
    destruct e; cbn; try (apply lw_recv_mono || apply lw_connect_mono || apply lw_readline_mono
        || apply lw_expect_mono || (unfold console_delay; lra)).
    pose proof (nonneg_ge d). lra.
  - intros w t w' [= <- <-]. lra.
  - intros d w w' [= <-]. cbn. pose proof (nonneg_ge d). lra.
Defined.

Lemma lw_connect_raise t w x w' : lw_connect t w = (inr x, w') → isinstance x Exception_ = true.
Proof. unfold lw_connect. destruct (script w); [|done]. by intros [= <- _]. Qed.
Lemma lw_recv_raise s n w x w' : lw_recv s n w = (inr x, w') → isinstance x Exception_ = true.
Proof.
  unfold lw_recv. destruct (sends _); [|done]. destruct (silent _); [|done]. by intros [= <- _].
Qed.
Lemma lw_readline_ok s w : ∃ a w', lw_readline s w = (inl a, w').
Proof. unfold lw_readline. destruct (take_line _). eauto. Qed.
Lemma lw_expect_raise w x w' : lw_expect w = (inr x, w') → isinstance x Exception_ = true.
Proof. unfold lw_expect. destruct (replies _); [|done]. by intros [= <- _]. Qed.
Lemma read_table_raise {A} p (l : list (path * A)) w x w' :
  read_table p l w = (inr x, w') → isinstance x Exception_ = true.
Proof. unfold read_table. destruct (assoc p l); [done|]. by intros [= <- _]. Qed.

Lemma open_table_raise {A} p (l : list (path * A)) w x w' :
  open_table p l w = (inr x, w') → isinstance x Exception_ = true.
Proof. unfold open_table. destruct (index_of p l); [done|]. by intros [= <- _]. Qed.

#[global] Instance loopback_ordinary : OrdinaryCalls lw.
Proof.
  split.
  - intros A e w x w'. unfold handle, loopback. destruct e; try done;
      try (apply lw_connect_raise || apply lw_recv_raise || apply lw_expect_raise
           || apply read_table_raise || apply open_table_raise).
    match goal with |- lw_readline ?s _ = _ → _ => by destruct (lw_readline_ok s w) as (? & ? & ->) end.
  - intros s t w. eexists. reflexivity.
  - intros s w x w'. done.
Qed.

#[global] Instance loopback_timeout : SocketTimeout lw.
Proof.
  refine {| sock_timeout := touts |}.
  - intros w s t w' [= <-]. cbn. unfold upd. by rewrite Nat.eqb_refl.
  - intros A e w s He. destruct e; try done; try discriminate He; cbn.
    + unfold lw_recv. destruct (sends _); [|done]. by destruct (silent _).
    + unfold lw_readline. by destruct (take_line _).
    + unfold lw_expect. by destruct (replies _).
  - intros w s n x w' t. unfold handle, loopback, lw_recv.
    destruct (sends _); [|done]. destruct (silent _); [|done].
    intros [= <- <-] _ ->. cbn. pose proof (nonneg_ge t). lra.
Defined.

#[global] Instance loopback_stream : ByteStream lw.
Proof.
  refine {| inbox := λ w s, sends (boxes w s) |}.
  - intros w s n b w'. unfold handle, loopback, lw_recv.
    destruct (sends (boxes w s)) as [|c l] eqn:E.
    + destruct (silent _); [done|]. intros [= <- <-] _. rewrite E. split_and!; [done|cbn; lia|done].
    + intros [= <- <-] Hn. cbn [boxes]. unfold upd. rewrite Nat.eqb_refl. cbn [sends].
      rewrite take_drop. split_and!; [done|rewrite length_take; lia|].
      destruct n as [|n]; [lia|]. destruct n as [|[|]]; discriminate.
  - intros w s n x w'. unfold handle, loopback, lw_recv.
    destruct (sends (boxes w s)) eqn:E; [|done]. destruct (silent _); [|done].
    by intros [= _ <-].
  - intros A e w s He. destruct e; try done; try discriminate He; cbn in *.
    + unfold lw_recv.
      match type of He with (?s' =? _)%nat = _ => destruct (sends (boxes w s')), (silent (boxes w s')) end;
        cbn; unfold upd; rewrite ?(Nat.eqb_sym s), ?He; done.
    + unfold lw_readline. destruct (take_line _). cbn. unfold upd.
      by rewrite (Nat.eqb_sym s), He.
    + unfold lw_expect. by destruct (replies _).
Defined.

#[global] Instance loopback_completes : Completes lw.
Proof. intros n w l w' [= <- _]. done. Qed.

(** A fresh world. *)
Definition fresh (peers : list peer) : hst lw :=
  HSt (LW empty_site 0 0 peers (λ _, Peer [] false) (λ _, None)) [].

(** A world with an environment and no connections. *)
Definition placed (a : site) : hst lw :=
  HSt (LW a 0 0 [] (λ _, Peer [] false) (λ _, None)) [].

(** A world where socket 7 is already connected to [p]. *)
Definition connected (p : peer) : hst lw :=
  HSt (LW empty_site 0 8 [] (upd (λ _, Peer [] false) 7%nat p) (upd (λ _, None) 7%nat (Some 1))) [].
