(* ===== verification/Blake2b.v ===== *)
(** * BLAKE2b (RFC 7693), unkeyed, for messages of one block

    [hashlib.blake2b(data, digest_size=nn)] as the proof-of-work code uses it:
    the input is a 32-byte challenge and an 8-byte nonce, 40 bytes, so one
    128-byte block.  Words are 64-bit, held in [Z] with their wrap-around. *)

From Stdlib Require Import ZArith Lia.
From Stdlib Require Import Init.Byte.
From coqutil Require Import Byte Word.LittleEndianList.
From stdpp Require Import base list.
From S2P Require Import Prelude.

Open Scope Z_scope.

Definition w64 (z : Z) : Z := Z.land z (Z.ones 64).
Definition add64 (a b : Z) : Z := w64 (a + b).
Definition rotr64 (x n : Z) : Z := Z.lor (Z.shiftr x n) (w64 (Z.shiftl x (64 - n))).

Definition IV : list Z :=
  [0x6a09e667f3bcc908; 0xbb67ae8584caa73b; 0x3c6ef372fe94f82b; 0xa54ff53a5f1d36f1;
   0x510e527fade682d1; 0x9b05688c2b3e6c1f; 0x1f83d9abfb41bd6b; 0x5be0cd19137e2179].

Definition SIGMA : list (list nat) :=
  [[0;1;2;3;4;5;6;7;8;9;10;11;12;13;14;15];
   [14;10;4;8;9;15;13;6;1;12;0;2;11;7;5;3];
   [11;8;12;0;5;2;15;13;10;14;3;6;7;1;9;4];
   [7;9;3;1;13;12;11;14;2;6;5;10;4;0;15;8];
   [9;0;5;7;2;4;10;15;14;1;11;12;6;8;3;13];
   [2;12;6;10;0;11;8;3;4;13;7;5;15;14;1;9];
   [12;5;1;15;14;13;4;10;0;7;6;3;9;2;8;11];
   [13;11;7;14;12;1;3;9;5;0;15;4;8;6;2;10];
   [6;15;14;9;11;3;0;8;12;2;13;7;1;4;10;5];
   [10;2;8;4;7;6;1;5;15;11;9;14;3;12;13;0];
   [0;1;2;3;4;5;6;7;8;9;10;11;12;13;14;15];
   [14;10;4;8;9;15;13;6;1;12;0;2;11;7;5;3]]%nat.

Definition wd (l : list Z) (i : nat) : Z := nth i l 0.

(** The mixing function G on the working vector. *)
Definition G (v : list Z) (a b c d : nat) (x y : Z) : list Z :=
  let va := add64 (add64 (wd v a) (wd v b)) x in
  let vd := rotr64 (Z.lxor (wd v d) va) 32 in
  let vc := add64 (wd v c) vd in
  let vb := rotr64 (Z.lxor (wd v b) vc) 24 in
  let va := add64 (add64 va vb) y in
  let vd := rotr64 (Z.lxor vd va) 16 in
  let vc := add64 vc vd in
  let vb := rotr64 (Z.lxor vb vc) 63 in
  <[a := va]> (<[b := vb]> (<[c := vc]> (<[d := vd]> v))).

Definition columns : list (nat * nat * nat * nat) :=
  [(0,4,8,12); (1,5,9,13); (2,6,10,14); (3,7,11,15);
   (0,5,10,15); (1,6,11,12); (2,7,8,13); (3,4,9,14)]%nat.

Definition round (m : list Z) (v : list Z) (s : list nat) : list Z :=
  foldl (λ v '(i, (a, b, c, d)),
           G v a b c d (wd m (nth (2 * i) s 0%nat)) (wd m (nth (2 * i + 1) s 0%nat)))
        v (combine (seq 0 8) columns).

(** The compression function F on the last block, [t] bytes in all. *)
Definition compress (h m : list Z) (t : Z) : list Z :=
  let v0 := h ++ IV in
  let v1 := <[12%nat := Z.lxor (wd v0 12) (w64 t)]>
            (<[14%nat := Z.lxor (wd v0 14) (Z.ones 64)]> v0) in
  let v := foldl (round m) v1 SIGMA in
  imap (λ i x, Z.lxor (Z.lxor x (wd v i)) (wd v (i + 8)%nat)) h.

Fixpoint words (k : nat) (l : list byte) : list Z :=
  match k with
  | O => []
  | S k' => le_combine (take 8 l) :: words k' (drop 8 l)
  end.

(** [hashlib.blake2b(data, digest_size=nn).digest()] for [len(data) <= 128] *)
Definition blake2b (nn : nat) (data : list byte) : list byte :=
  let block := data ++ replicate (128 - length data) x00 in
  let h0 := match IV with
            | x :: r => Z.lxor x (0x01010000 + Z.of_nat nn) :: r
            | [] => []
            end in
  take nn (concat (map (le_split 8) (compress h0 (words 16 block) (Z.of_nat (length data))))).

(** RFC 7693, appendix A: BLAKE2b-512("abc"). *)
Example blake2b_rfc7693_abc :
  map byte.unsigned (blake2b 64 [x61; x62; x63]) =
  [0xba;0x80;0xa5;0x3f;0x98;0x1c;0x4d;0x0d;0x6a;0x27;0x97;0xb6;0x9f;0x12;0xf6;0xe9;
   0x4c;0x21;0x2f;0x14;0x68;0x5a;0xc4;0xb7;0x4b;0x12;0xbb;0x6f;0xdb;0xff;0xa2;0xd1;
   0x7d;0x87;0xc5;0x39;0x2a;0xab;0x79;0x2d;0xc2;0x52;0xd5;0xde;0x45;0x33;0xcc;0x95;
   0x18;0xd3;0x8a;0xa8;0xdb;0xf1;0x92;0x5a;0xb9;0x23;0x86;0xed;0xd4;0x00;0x99;0x23].
Proof. vm_compute. reflexivity. Qed.

Lemma length_blake2b data : length (blake2b 16 data) = 16%nat.
Proof.
  unfold blake2b. rewrite length_take, Nat.min_l; [done|].
  unfold compress, IV. cbn [imap]. cbn [map concat].
  rewrite !length_app, !length_le_split. lia.
Qed.
