(* ===== verification/Wire.v ===== *)
(** * The wire: protocol frames and the SOCKS5 handshake

    [auth_test.py] and [loadgen.py] carry the same framing and SOCKS5 code with
    their own exception classes and messages; the code is modelled once, over a
    [dialect] that holds those, and each script's file instantiates it. *)

From Stdlib Require Import Ascii ZArith QArith Lia.
From Stdlib Require Import Init.Byte.
From coqutil Require Import Byte Word.LittleEndianList.
From stdpp Require Import base list strings.
From S2P Require Import Prelude PyNum PyText Host Loopback.

Open Scope Z_scope.

(** ** Constants *)

Definition ACTION_PUSH : Z := 1.
Definition ACTION_POLL : Z := 2.
Definition ACTION_AUTH_CHALLENGE : Z := 4.
Definition ACTION_AUTH_RESPONSE : Z := 5.

Definition MAILBOX_SIZE : nat := 16.
Definition FRAME_HEADER_SIZE : nat := 21.
Definition TOR_CELL_PAYLOAD_SIZE : nat := 498.
Definition CONTROL_PAYLOAD_SIZE : nat := TOR_CELL_PAYLOAD_SIZE - FRAME_HEADER_SIZE.
Definition CHALLENGE_SIZE : nat := 32.
Definition MAX_PAYLOAD_SIZE : Z := 1024 * 1024.
Definition ZERO_MAILBOX : bytes := replicate MAILBOX_SIZE x00.

Definition zlen {A} (l : list A) : Z := Z.of_nat (length l).

#[global] Instance byte_eq_dec : EqDecision byte := Byte.byte_eq_dec.

(** [f"{b:02x}"] *)
Definition hex_digit (z : Z) : ascii :=
  ascii_of_nat (Z.to_nat (if z <? 10 then 48 + z else 87 + z)).
Definition hex2 (b : byte) : string :=
  String (hex_digit (byte.unsigned b / 16))
    (String (hex_digit (byte.unsigned b mod 16)) EmptyString).
(** [data.hex()] *)
Definition bytes_hex (l : bytes) : string := foldr (λ b acc, hex2 b +:+ acc) EmptyString l.

(** [bytes([z])] *)
Definition byte_res (z : Z) : res byte :=
  if (0 <=? z) && (z <? 256) then Ok (byte.of_Z z)
  else fail ValueError "bytes must be in range(0, 256)".

(** [struct.pack("<I", n)], [struct.pack("<Q", n)] and [struct.pack(">H", n)] *)
Definition pack_u32 (n : Z) : bytes := le_split 4 n.
Definition pack_u64 (n : Z) : bytes := le_split 8 n.
Definition pack_u16_be (n : Z) : res bytes :=
  if (0 <=? n) && (n <? 65536) then Ok (rev (le_split 2 n))
  else fail StructError "'H' format requires 0 <= number <= 65535".
Definition unpack_u32 (l : bytes) : Z := le_combine l.

(** [text.encode("ascii")] *)
Definition encode_ascii (s : string) : res bytes :=
  if all_chars (λ c, (nat_of_ascii c <? 128)%nat) s
  then Ok (String.list_byte_of_string s)
  else fail UnicodeError "'ascii' codec can't encode character".

(** ** Frames *)

Definition build_frame (action : Z) (mailbox_id payload : bytes) : res bytes :=
  fail_if (negb (length mailbox_id =? MAILBOX_SIZE)%nat) ValueError "bad mailbox size";;
  fail_if (MAX_PAYLOAD_SIZE <? zlen payload) ValueError "payload too large";;
  a ← byte_res action;
  mret ([a] ++ mailbox_id ++ pack_u32 (zlen payload) ++ payload).

Definition pad_control_payload (payload : bytes) : res bytes :=
  fail_if (CONTROL_PAYLOAD_SIZE <? length payload)%nat ValueError "control payload too large";;
  mret (payload ++ replicate (CONTROL_PAYLOAD_SIZE - length payload) x00).

(** The exception classes and messages of one script. *)
Record dialect : Type := Dialect {
  protocol_error : pyclass;
  socks_error : pyclass;
  msg_closed : nat → nat → string;
  msg_oversized : Z → string;
  msg_onion_length : string;
  msg_noauth : string;
  msg_bad_response : string;
  msg_connect_failed : byte → string;
  msg_bad_atyp : byte → string }.

Section wire.
Context {W : Type} `{Host W} (D : dialect).

Definition recv_exact (s : sock) (size : nat) : M (hst W) bytes :=
  iter (λ data : bytes,
    if (length data <? size)%nat then
      chunk ← call (ERecv s (size - length data));
      raise_if (bool_decide (chunk = [])) ConnectionError (msg_closed D size (length data));;
      mret (inl (data ++ chunk))
    else mret (inr data)) [].

Definition send_frame (s : sock) (action : Z) (mailbox_id payload : bytes) : M (hst W) unit :=
  f ← of_res (build_frame action mailbox_id payload);
  call (ESendAll s f).

Definition recv_frame (s : sock) : M (hst W) (Z * bytes * bytes) :=
  header ← recv_exact s FRAME_HEADER_SIZE;
  let action := byte.unsigned (nth 0 header x00) in
  let mailbox := take 16 (drop 1 header) in
  let payload_length := unpack_u32 (take 4 (drop 17 header)) in
  raise_if (MAX_PAYLOAD_SIZE <? payload_length) (protocol_error D)
    (msg_oversized D payload_length);;
  payload ← (if payload_length =? 0 then mret [] else recv_exact s (Z.to_nat payload_length));
  mret (action, mailbox, payload).

(** The [try] block of [socks5_connect], up to its [return sock]. *)
Definition socks5_handshake (s : sock) (onion_bytes : bytes) (target_port : Z)
  : M (hst W) unit :=
  call (ESendAll s [x05; x01; x00]);;
  method ← recv_exact s 2;
  raise_if (negb (bool_decide (method = [x05; x00]))) (socks_error D) (msg_noauth D);;
  len ← of_res (byte_res (zlen onion_bytes));
  port ← of_res (pack_u16_be target_port);
  call (ESendAll s ([x05; x01; x00; x03] ++ [len] ++ onion_bytes ++ port));;
  h ← recv_exact s 4;
  let version := nth 0 h x00 in
  let reply := nth 1 h x00 in
  let reserved := nth 2 h x00 in
  let address_type := nth 3 h x00 in
  raise_if (negb (bool_decide (version = x05)) || negb (bool_decide (reserved = x00)))
    (socks_error D) (msg_bad_response D);;
  raise_if (negb (bool_decide (reply = x00))) (socks_error D) (msg_connect_failed D reply);;
  (if bool_decide (address_type = x01) then recv_exact s 4
   else if bool_decide (address_type = x03) then
     l ← recv_exact s 1; recv_exact s (Z.to_nat (byte.unsigned (nth 0 l x00)))
   else if bool_decide (address_type = x04) then recv_exact s 16
   else throw (socks_error D) (msg_bad_atyp D address_type));;
  recv_exact s 2;;
  mret tt.

Definition socks5_connect (socks_host : string) (socks_port : Z) (onion : string)
  (target_port : Z) (timeout : Q) : M (hst W) sock :=
  onion_bytes ← of_res (encode_ascii onion);
  raise_if (bool_decide (onion_bytes = []) || (255 <? zlen onion_bytes))
    (socks_error D) (msg_onion_length D);;
  s ← call (EConnect socks_host socks_port timeout);
  call (ESetTimeout s (Some timeout));;
  try_except (socks5_handshake s onion_bytes target_port;; mret s)
    (except [Exception_] (λ exc, call (EClose s);; rethrow exc)).

End wire.

(** ** Laws of the encodings *)

Lemma pack_unpack_u32 n : 0 <= n < 2 ^ 32 → unpack_u32 (pack_u32 n) = n.
Proof. intros. unfold unpack_u32, pack_u32. rewrite le_combine_split. by apply Z.mod_small. Qed.

Lemma unpack_pack_u32 l : length l = 4%nat → pack_u32 (unpack_u32 l) = l.
Proof. intros E. unfold unpack_u32, pack_u32. rewrite <- E. apply split_le_combine. Qed.

Lemma length_pack_u32 n : length (pack_u32 n) = 4%nat.
Proof. apply length_le_split. Qed.

Lemma unpack_u32_range l : length l = 4%nat → 0 <= unpack_u32 l < 2 ^ 32.
Proof. intros E. pose proof (le_combine_bound l) as H. rewrite E in H. apply H. Qed.

Lemma byte_res_ok z b : byte_res z = Ok b ↔ z = byte.unsigned b.
Proof.
  unfold byte_res. pose proof (byte.unsigned_range b).
  destruct (Z.leb_spec 0 z), (Z.ltb_spec z 256); cbn [andb]; split; intros E; try done;
    try lia.
  - injection E as <-. rewrite byte.unsigned_of_Z. unfold byte.wrap.
    symmetry. apply Z.mod_small. lia.
  - subst z. by rewrite byte.of_Z_unsigned.
Qed.

#[local] Opaque pack_u32.

Lemma build_frame_ok action mailbox payload f :
  build_frame action mailbox payload = Ok f ↔
  ∃ a, action = byte.unsigned a ∧ length mailbox = MAILBOX_SIZE ∧
       zlen payload <= MAX_PAYLOAD_SIZE ∧
       f = a :: mailbox ++ pack_u32 (zlen payload) ++ payload.
Proof.
  unfold build_frame. rewrite !fail_if_bind_ok, negb_false_iff, Nat.eqb_eq, Z.ltb_ge, r_bind_ok.
  setoid_rewrite byte_res_ok. split.
  - intros (? & ? & a & ? & [= <-]). eauto.
  - intros (a & ? & ? & ? & ->). split_and!; [done|done|]. eauto.
Qed.

Lemma pad_control_payload_ok payload p :
  pad_control_payload payload = Ok p ↔
  (length payload <= CONTROL_PAYLOAD_SIZE)%nat ∧
  p = payload ++ replicate (CONTROL_PAYLOAD_SIZE - length payload) x00.
Proof.
  unfold pad_control_payload. rewrite fail_if_bind_ok, Nat.ltb_ge.
  unfold mret, res_mret. naive_solver.
Qed.

(** Frames are a prefix code: a byte stream starts with at most one of them. *)
Lemma build_frame_prefix_inj a m p f r a' m' p' f' r' :
  build_frame a m p = Ok f → build_frame a' m' p' = Ok f' →
  f ++ r = f' ++ r' → a = a' ∧ m = m' ∧ p = p' ∧ r = r'.
Proof.
  rewrite !build_frame_ok.
  intros (x & -> & Hm & Hp & ->) (x' & -> & Hm' & Hp' & ->). rewrite <- !app_comm_cons.
  intros [= <- E]. rewrite <- !app_assoc in E.
  apply app_inj_1 in E as [<- E]; [|congruence].
  apply app_inj_1 in E as [Elen E]; [|by rewrite !length_pack_u32].
  apply (f_equal unpack_u32) in Elen.
  unfold zlen, MAX_PAYLOAD_SIZE in *. rewrite !pack_unpack_u32 in Elen by lia.
  apply app_inj_1 in E as [<- <-]; [done|lia].
Qed.

(** A frame cut into the fields [recv_frame] reads. *)
Lemma header_fields (h : bytes) :
  length h = FRAME_HEADER_SIZE →
  ∃ x m l, h = x :: m ++ l ∧ length m = 16%nat ∧ length l = 4%nat ∧
           nth 0 h x00 = x ∧ take 16 (drop 1 h) = m ∧ take 4 (drop 17 h) = l.
Proof.
  intros Hl. destruct h as [|x h]; [done|]. cbn in Hl. injection Hl as Hl.
  exists x, (take 16 h), (drop 16 h). rewrite take_drop.
  split_and!; [done|rewrite length_take; lia|rewrite length_drop; lia|done| |].
  - cbn [drop]. done.
  - change (drop 17 (x :: h)) with (drop 16 h). apply take_ge. rewrite length_drop. lia.
Qed.

(** ** Reading from a socket *)

Section reading.
Context {W : Type} `{ByteStream W} (D : dialect).

(** The exception is the socket's own: the last call was a [recv] that raised it. *)
Definition raised_by_recv (s : sock) (e : exn) (st : hst W) : Prop :=
  ∃ k tr, trace st = tr ++ [Ev (ERecv s k) (inr e)].

Lemma recv_exact_spec s size n (st : hst W) :
  (length (inbox (world st) s) < n)%nat →
  wp False (recv_exact D s size)
    (λ d st', length d = size ∧ inbox (world st) s = d ++ inbox (world st') s)
    (λ e st', raised_by_recv s e st' ∨
       (isinstance e ConnectionError = true ∧ (length (inbox (world st) s) < size)%nat))
    n st.
Proof.
  intros Hn. unfold recv_exact.
  apply (wp_iter False
    (λ data st', inbox (world st) s = data ++ inbox (world st') s ∧ (length data <= size)%nat)
    (λ _ st', length (inbox (world st') s))); [|split; [done|cbn; lia]|done].
  intros data st1 [Hin Hle].
  destruct (Nat.ltb_spec (length data) size) as [Hlt|Hge].
  - apply wp_bind, wp_call_cases.
    + intros chunk w' Hr. apply recv_bytes in Hr as (Hin' & Hlen & Hend); [|lia].
      apply wp_bind, wp_raise_if. case_bool_decide as Hc.
      * right. split; [done|]. rewrite Hin, (Hend Hc), app_nil_r. done.
      * apply wp_ret. cbn. rewrite Hin, Hin', app_assoc, !length_app. split_and!; [done|lia|].
        destruct chunk; [done|cbn; lia].
    + intros x w' _. left. unfold raised_by_recv. cbn. eauto.
  - apply wp_ret. split; [lia|done].
Qed.

(** The stream does not start with a frame. *)
Definition no_frame (l : bytes) : Prop :=
  ∀ a m p f rest, build_frame a m p = Ok f → l ≠ f ++ rest.

Lemma no_frame_short l : (length l < FRAME_HEADER_SIZE)%nat → no_frame l.
Proof.
  intros Hl a m p f rest (x & _ & Hm & _ & ->)%build_frame_ok ->.
  rewrite length_app in Hl. cbn in Hl. rewrite !length_app, length_pack_u32, Hm in Hl.
  unfold MAILBOX_SIZE, FRAME_HEADER_SIZE in Hl. lia.
Qed.

(** A header read off the stream fixes the payload length of any frame there. *)
Lemma frame_header_length a m p f rest h l :
  build_frame a m p = Ok f → h ++ l = f ++ rest → length h = FRAME_HEADER_SIZE →
  unpack_u32 (take 4 (drop 17 h)) = zlen p ∧ l = p ++ rest ∧ zlen p <= MAX_PAYLOAD_SIZE.
Proof.
  intros (x & _ & Hm & Hp & ->)%build_frame_ok E Hh.
  replace ((x :: m ++ pack_u32 (zlen p) ++ p) ++ rest)
    with ((x :: m ++ pack_u32 (zlen p)) ++ p ++ rest) in E
    by (cbn; by rewrite <- !app_assoc).
  apply app_inj_1 in E as [-> ->].
  2:{ rewrite Hh. cbn. rewrite length_app, length_pack_u32, Hm. done. }
  split_and!; [|done|done].
  change (drop 17 (x :: m ++ pack_u32 (zlen p))) with (drop 16 (m ++ pack_u32 (zlen p))).
  rewrite drop_app_length' by done. rewrite take_ge by (rewrite length_pack_u32; lia).
  apply pack_unpack_u32. unfold zlen, MAX_PAYLOAD_SIZE in *. lia.
Qed.

Lemma recv_frame_wp s n (st : hst W) :
  (length (inbox (world st) s) < n)%nat →
  wp False (recv_frame D s)
    (λ '(a, m, p) st', ∃ f, build_frame a m p = Ok f ∧
                            inbox (world st) s = f ++ inbox (world st') s)
    (λ e st', raised_by_recv s e st' ∨ no_frame (inbox (world st) s))
    n st.
Proof.
  intros Hn. unfold recv_frame. apply wp_bind.
  eapply wp_mono; [| |by apply recv_exact_spec].
  2:{ intros e st' [?|[_ ?]]; [by left|right; by apply no_frame_short]. }
  cbn beta. intros h st1 [Hh Hin].
  destruct (header_fields h Hh) as (x & m & l & -> & Hm & Hl & Ex & Em & El).
  rewrite Ex, Em, El. pose proof (unpack_u32_range l Hl) as Hrange.
  apply wp_bind, wp_raise_if. destruct (Z.ltb_spec MAX_PAYLOAD_SIZE (unpack_u32 l)) as [Hbig|Hok].
  { right. intros a m' p f rest Hf E. rewrite Hin in E.
    destruct (frame_header_length _ _ _ _ _ _ _ Hf E Hh) as (E1 & _ & ?).
    rewrite El in E1. lia. }
  apply wp_bind. destruct (Z.eqb_spec (unpack_u32 l) 0) as [Hz|Hnz].
  - apply wp_ret, wp_ret. exists ((x :: m ++ l) ++ []). rewrite app_nil_r.
    split; [|done]. apply build_frame_ok. exists x. split_and!; try done.
    change (zlen []) with 0. rewrite <- Hz, unpack_pack_u32, app_nil_r by done. done.
  - eapply wp_mono; [| |apply recv_exact_spec].
    + cbn beta. intros p st2 [Hp Hin2]. apply wp_ret.
      exists ((x :: m ++ l) ++ p). rewrite Hin, Hin2, app_assoc. split; [|done].
      apply build_frame_ok. exists x. unfold zlen. rewrite Hp, Z2Nat.id by lia.
      split_and!; try done. rewrite unpack_pack_u32 by done. cbn. by rewrite <- app_assoc.
    + intros e st2 [?|[_ Hshort]]; [by left|right]. intros a m' p f rest Hf E. rewrite Hin in E.
      destruct (frame_header_length _ _ _ _ _ _ _ Hf E Hh) as (E1 & E2 & _).
      rewrite El in E1. rewrite E2, E1, length_app in Hshort. unfold zlen in Hshort. lia.
    + rewrite Hin, length_app in Hn. lia.
Qed.
End reading.

(** ** Sockets opened and closed *)

Definition is_exception (e : exn) : Prop := isinstance e Exception_ = true.

Lemma except_exception {St A} (k : exn → M St A) e :
  is_exception e → except [Exception_] k e = Some (k e).
Proof.
  unfold is_exception, except, isinstance_any, existsb. by intros ->.
Qed.

Lemma byte_res_total z : byte_res z ≠ NoFuel.
Proof. unfold byte_res. by destruct (_ && _). Qed.
Lemma pack_u16_be_total z : pack_u16_be z ≠ NoFuel.
Proof. unfold pack_u16_be. by destruct (_ && _). Qed.

Lemma byte_res_exception z e : byte_res z = Raise e → is_exception e.
Proof. unfold byte_res. destruct (_ && _); [done|by intros [= <-]]. Qed.
Lemma build_frame_exception a m p e : build_frame a m p = Raise e → is_exception e.
Proof.
  unfold build_frame. rewrite !fail_if_bind_raise, r_bind_raise.
  intros [[_ ->]|[_ [[_ ->]|[_ [?|(? & _ & [=])]]]]]; [done|done|by eapply byte_res_exception].
Qed.
Lemma pad_control_payload_exception p e : pad_control_payload p = Raise e → is_exception e.
Proof. unfold pad_control_payload. rewrite fail_if_bind_raise. by intros [[_ ->]|[_ [=]]]. Qed.
Lemma pack_u16_be_exception z e : pack_u16_be z = Raise e → is_exception e.
Proof. unfold pack_u16_be. destruct (_ && _); [done|by intros [= <-]]. Qed.
Lemma encode_ascii_exception s e : encode_ascii s = Raise e → is_exception e.
Proof. unfold encode_ascii. destruct (all_chars _ s); [done|by intros [= <-]]. Qed.
#[export] Hint Resolve build_frame_exception
  pad_control_payload_exception byte_res_exception pack_u16_be_exception
  encode_ascii_exception : py.

Definition dialect_ok (D : dialect) : Prop :=
  subclass (protocol_error D) Exception_ = true ∧ subclass (socks_error D) Exception_ = true.

Section accounting.
Context {W : Type} `{Host W} (D : dialect).

Lemma recv_exact_same_open s size : keeps (St:=hst W) same_open (recv_exact D s size).
Proof. unfold recv_exact. keeps_tac. Qed.
Lemma send_frame_same_open s a m p : keeps (St:=hst W) same_open (send_frame s a m p).
Proof. unfold send_frame. keeps_tac. Qed.
#[local] Hint Resolve recv_exact_same_open : py.
Lemma recv_frame_same_open s : keeps (St:=hst W) same_open (recv_frame D s).
Proof. unfold recv_frame. keeps_tac. Qed.
Lemma socks5_handshake_same_open s o p :
  keeps (St:=hst W) same_open (socks5_handshake D s o p).
Proof. unfold socks5_handshake. keeps_tac. Qed.

Context `{!OrdinaryCalls W} (HD : dialect_ok D).

Lemma recv_exact_exception s size : raises (St:=hst W) is_exception (recv_exact D s size).
Proof. unfold recv_exact. raises_tac. Qed.
Lemma send_frame_exception s a m p : raises (St:=hst W) is_exception (send_frame s a m p).
Proof. unfold send_frame. raises_tac. Qed.
#[local] Hint Resolve recv_exact_exception : py.
Lemma recv_frame_exception s : raises (St:=hst W) is_exception (recv_frame D s).
Proof. unfold recv_frame. raises_tac; apply HD. Qed.
Lemma socks5_handshake_exception s o p :
  raises (St:=hst W) is_exception (socks5_handshake D s o p).
Proof. unfold socks5_handshake. raises_tac; apply HD. Qed.

(** [socks5_connect] hands out one open socket or leaves none behind. *)
Lemma socks5_connect_open h p o tp t n (st : hst W) :
  wp True (socks5_connect D h p o tp t)
    (λ s st', opens st' = s :: opens st)
    (λ e st', opens st' = opens st ∧ is_exception e) n st.
Proof.
  unfold socks5_connect. apply wp_bind, wp_of_res.
  destruct (encode_ascii o) as [ob|e|] eqn:Eo; [|by split; [|eapply encode_ascii_exception]|done].
  apply wp_bind, wp_raise_if. destruct (_ || _); [split; [done|apply HD]|].
  apply wp_bind, wp_call_cases; [intros s w1 _|].
  2:{ intros x w1 Hx. rewrite opens_snoc. split; [done|by eapply raises_exception]. }
  apply wp_bind, wp_call. cbn [world].
  destruct (settimeout_ok s (Some t) w1) as [w2 ->]. cbn [trace].
  apply wp_try_except, wp_bind. set (st2 := HSt w2 _).
  assert (opens st2 = s :: opens st) as Hst2.
  { unfold st2, opens, open_socks. cbn [trace]. by rewrite !foldl_app. }
  eapply wp_mono; [| |apply wp_of_keeps; [apply socks5_handshake_same_open|
                                          apply socks5_handshake_exception]].
  - intros [] st' Hk. apply wp_ret. by rewrite Hk.
  - intros e st' [Hk He]. rewrite except_exception by done.
    apply wp_bind, wp_call_cases.
    + intros [] w3 _. split; [|done].
      rewrite opens_snoc. unfold sock_effect. cbn. fold (opens st').
      rewrite Hk, Hst2. cbn. by rewrite Nat.eqb_refl.
    + intros x w3 Hx. split; [|by eapply raises_exception].
      rewrite opens_snoc. unfold sock_effect. cbn. fold (opens st').
      rewrite Hk, Hst2. cbn. by rewrite Nat.eqb_refl.
Qed.
End accounting.

(** ** The SOCKS5 conversation *)

(** A successful reply of RFC 1928, section 6. *)
Definition socks_reply (l : bytes) : Prop :=
  ∃ atyp addr port, l = [x05; x00; x00; atyp] ++ addr ++ port ∧ length port = 2%nat ∧
    ((atyp = x01 ∧ length addr = 4%nat) ∨
     (atyp = x03 ∧ ∃ b d, addr = b :: d ∧ length d = Z.to_nat (byte.unsigned b)) ∨
     (atyp = x04 ∧ length addr = 16%nat)).

Section socks.
Context {W : Type} `{ByteStream W} (D : dialect).

(** No [sendall] among the calls: what was sent stays the same. *)
Definition same_sent (s : sock) (st st' : hst W) : Prop :=
  sent s (trace st') = sent s (trace st).
#[global] Instance same_sent_preorder s : PreOrder (same_sent s).
Proof. split; unfold same_sent; [done|congruence]. Qed.

Lemma recv_exact_same_sent s size : keeps (same_sent s) (recv_exact D s size).
Proof.
  unfold recv_exact. apply keeps_iter. intros data. destruct (_ <? _)%nat; [|apply keeps_ret].
  apply keeps_bind; [|intros; keeps_tac]. intros n st. unfold call, same_sent.
  destruct (handle _ _) as [r w']. cbn [snd trace]. by rewrite sent_snoc, app_nil_r.
Qed.

(** Reading [k] bytes off the front, with what was sent unchanged. *)
Lemma recv_exact_take s size n (st : hst W) (P : bytes → hst W → Prop) :
  (length (inbox (world st) s) < n)%nat →
  (∀ d st', length d = size → inbox (world st) s = d ++ inbox (world st') s →
     sent s (trace st') = sent s (trace st) → P d st') →
  wp False (recv_exact D s size) P (λ _ _, True) n st.
Proof.
  intros Hn HP. eapply wp_mono;
    [| |apply (wp_keeps (R:=same_sent s)); [apply recv_exact_same_sent|by apply recv_exact_spec]];
    [|done].
  intros d st' [[? ?] ?]. by apply HP.
Qed.

Lemma sendall_sent s data n (st : hst W) (P : hst W → Prop) :
  (∀ st', inbox (world st') s = inbox (world st) s →
     sent s (trace st') = sent s (trace st) ++ data → P st') →
  wp False (call (ESendAll s data)) (λ _ st', P st') (λ _ _, True) n st.
Proof.
  intros HP. apply wp_call_cases; [|done]. intros [] w' Hh. apply HP; cbn [world trace].
  - pose proof (inbox_frame _ (ESendAll s data) (world st) s eq_refl) as E. by rewrite Hh in E.
  - rewrite sent_snoc. unfold sent_by. cbn. by rewrite Nat.eqb_refl.
Qed.

Definition socks_request (onion_bytes port : bytes) : bytes :=
  [x05; x01; x00; x03] ++ [byte.of_Z (zlen onion_bytes)] ++ onion_bytes ++ port.

Lemma wp_raise_if_false N b c msg (Q : unit → hst W → Prop) n st :
  (b = false → Q tt st) → wp N (raise_if b c msg) Q (λ _ _, True) n st.
Proof. intros HQ. apply wp_raise_if. destruct b; auto. Qed.

Lemma four_bytes (h : bytes) :
  length h = 4%nat → h = [nth 0 h x00; nth 1 h x00; nth 2 h x00; nth 3 h x00].
Proof. by destruct h as [|? [|? [|? [|? []]]]]. Qed.

Lemma one_byte (h : bytes) : length h = 1%nat → h = [nth 0 h x00].
Proof. by destruct h as [|? []]. Qed.

(** The address of a reply, by its type. *)
Definition addr_ok (atyp : byte) (addr : bytes) : Prop :=
  (atyp = x01 ∧ length addr = 4%nat) ∨
  (atyp = x03 ∧ ∃ b d, addr = b :: d ∧ length d = Z.to_nat (byte.unsigned b)) ∨
  (atyp = x04 ∧ length addr = 16%nat).

Lemma recv_address s atyp n (st : hst W) (P : hst W → Prop) :
  (length (inbox (world st) s) < n)%nat →
  (∀ addr st', addr_ok atyp addr → inbox (world st) s = addr ++ inbox (world st') s →
     sent s (trace st') = sent s (trace st) → P st') →
  wp False
    (if bool_decide (atyp = x01) then recv_exact D s 4
     else if bool_decide (atyp = x03) then
       l ← recv_exact D s 1; recv_exact D s (Z.to_nat (byte.unsigned (nth 0 l x00)))
     else if bool_decide (atyp = x04) then recv_exact D s 16
     else throw (socks_error D) (msg_bad_atyp D atyp))
    (λ _ st', P st') (λ _ _, True) n st.
Proof.
  intros Hn HP. case_bool_decide as H1; [|case_bool_decide as H3; [|case_bool_decide as H4; [|done]]].
  - apply recv_exact_take; [done|]. intros d st' Hd Hi Hs. apply (HP d); [|done|done]. by left.
  - apply wp_bind, recv_exact_take; [done|]. intros l st1 Hl Hi Hs.
    apply recv_exact_take; [rewrite Hi, length_app in Hn; lia|]. intros d st' Hd Hi' Hs'.
    apply (HP (l ++ d)); [|by rewrite <- app_assoc, <- Hi'|congruence].
    right; left. split; [done|]. exists (nth 0 l x00), d. by rewrite (one_byte l Hl) at 1.
  - apply recv_exact_take; [done|]. intros d st' Hd Hi Hs. apply (HP d); [|done|done].
    by right; right.
Qed.

Lemma socks5_handshake_wp s ob tp n (st : hst W) :
  (length (inbox (world st) s) < n)%nat →
  wp False (socks5_handshake D s ob tp)
    (λ _ st', ∃ reply port, socks_reply reply ∧ pack_u16_be tp = Ok port ∧ zlen ob < 256 ∧
       inbox (world st) s = [x05; x00] ++ reply ++ inbox (world st') s ∧
       sent s (trace st') = sent s (trace st) ++ [x05; x01; x00] ++ socks_request ob port)
    (λ _ _, True) n st.
Proof.
  intros Hn. unfold socks5_handshake.
  apply wp_bind, sendall_sent. intros st1 Hi1 Hs1.
  apply wp_bind, recv_exact_take; [by rewrite Hi1|]. intros m st2 _ Hi2 Hs2.
  apply wp_bind, wp_raise_if_false. intros ->%negb_false_iff%bool_decide_eq_true.
  apply wp_bind, wp_of_res.
  destruct (byte_res (zlen ob)) as [len| |] eqn:El; [|done|by apply byte_res_total in El].
  apply byte_res_ok in El.
  apply wp_bind, wp_of_res.
  destruct (pack_u16_be tp) as [port| |] eqn:Ep; [|done|by apply pack_u16_be_total in Ep].
  apply wp_bind, sendall_sent. intros st3 Hi3 Hs3.
  assert (inbox (world st) s = [x05; x00] ++ inbox (world st3) s) as Hi by congruence.
  assert (length (inbox (world st3) s) < n)%nat as Hn3
    by (rewrite Hi in Hn; cbn in Hn; lia).
  apply wp_bind, recv_exact_take; [done|]. intros h st4 Hh Hi4 Hs4.
  rewrite (four_bytes h Hh) in Hi4. set (atyp := nth 3 h x00) in *.
  apply wp_bind, wp_raise_if_false.
  intros [Hv%negb_false_iff%bool_decide_eq_true Hr%negb_false_iff%bool_decide_eq_true]%orb_false_iff.
  apply wp_bind, wp_raise_if_false. intros Hrep%negb_false_iff%bool_decide_eq_true.
  rewrite Hv, Hr, Hrep in Hi4.
  apply wp_bind, recv_address; [rewrite Hi4 in Hn3; cbn in Hn3; lia|].
  intros addr st5 Haddr Hi5 Hs5.
  apply wp_bind, recv_exact_take.
  { rewrite Hi4 in Hn3. cbn in Hn3. rewrite Hi5, length_app in Hn3. lia. }
  intros p2 st6 Hp2 Hi6 Hs6. apply wp_ret.
  exists ([x05; x00; x00; atyp] ++ addr ++ p2), port. split_and!.
  - exists atyp, addr, p2. by split_and!.
  - done.
  - rewrite El. apply byte.unsigned_range.
  - rewrite Hi, Hi4, Hi5, Hi6, <- !app_assoc. done.
  - rewrite Hs6, Hs5, Hs4, Hs3, Hs2, Hs1, <- app_assoc. unfold socks_request.
    by rewrite El, byte.of_Z_unsigned.
Qed.
End socks.

(** ** Properties *)

(** C27: a frame sent is the frame received.  If the stream a socket delivers
    starts with the frame [build_frame] makes of an action, a mailbox and a
    payload, then [recv_frame] returns exactly these and leaves exactly the rest
    of the stream, however the bytes are cut into [recv] chunks; the only other
    outcome is an exception the socket itself raised. *)
Theorem frame_roundtrip {W} `{ByteStream W} (D : dialect) s n (st : hst W) a m p f rest :
  build_frame a m p = Ok f →
  inbox (world st) s = f ++ rest →
  (length (inbox (world st) s) < n)%nat →
  match recv_frame D s n st with
  | (Ok r, st') => r = (a, m, p) ∧ inbox (world st') s = rest
  | (Raise e, st') => raised_by_recv s e st'
  | (NoFuel, _) => False
  end.
Proof.
  intros Hf Hin Hn. pose proof (recv_frame_wp D s n st Hn) as Hw. unfold wp in Hw.
  destruct (recv_frame D s n st) as [[[[a' m'] p']|e|] st']; [| |done].
  - destruct Hw as (f' & Hf' & Hin'). rewrite Hin in Hin'.
    by destruct (build_frame_prefix_inj _ _ _ _ _ _ _ _ _ _ Hf Hf' Hin') as (-> & -> & -> & ->).
  - destruct Hw as [?|Hno]; [done|]. by destruct (Hno _ _ _ _ _ Hf Hin).
Qed.

Definition plain_dialect : dialect := {|
  protocol_error := RuntimeError; socks_error := RuntimeError;
  msg_closed _ _ := "closed"; msg_oversized _ := "oversized";
  msg_onion_length := "length"; msg_noauth := "auth"; msg_bad_response := "response";
  msg_connect_failed _ := "failed"; msg_bad_atyp _ := "type" |}.

Definition frame_AB : bytes :=
  [x02] ++ ZERO_MAILBOX ++ [x02; x00; x00; x00] ++ [x41; x42].

Definition frame_world : hst lw := connected (Peer (frame_AB ++ [x01]) false).

Lemma frame_roundtrip_witness :
  match recv_frame plain_dialect 7%nat 100%nat frame_world with
  | (Ok r, st') => r = (2, ZERO_MAILBOX, [x41; x42]) ∧ inbox (world st') 7%nat = [x01]
  | (Raise e, st') => raised_by_recv 7%nat e st'
  | (NoFuel, _) => False
  end.
Proof.
  apply (frame_roundtrip plain_dialect 7%nat 100%nat frame_world 2 ZERO_MAILBOX [x41; x42] frame_AB [x01]);
    [vm_compute; reflexivity|vm_compute; reflexivity|vm_compute; lia].
Defined.

(** [recv_frame] on any stream whatever.  It always ends; what it returns is
    the frame at the head of the stream, consumed exactly and re-encoded by
    [build_frame] to the same bytes; it raises only what the socket raised, or
    when the stream does not start with a well-formed frame (closed early, or a
    length field above the 1 MiB limit). *)
Theorem recv_frame_any_stream {W} `{ByteStream W} (D : dialect) s n (st : hst W) :
  (length (inbox (world st) s) < n)%nat →
  match recv_frame D s n st with
  | (Ok (a, m, p), st') =>
      ∃ f, build_frame a m p = Ok f ∧ inbox (world st) s = f ++ inbox (world st') s
  | (Raise e, st') => raised_by_recv s e st' ∨ no_frame (inbox (world st) s)
  | (NoFuel, _) => False
  end.
Proof.
  intros Hn. pose proof (recv_frame_wp D s n st Hn) as Hw. unfold wp in Hw.
  by destruct (recv_frame D s n st) as [[[[]]| |] ?].
Qed.

Definition noise_world : hst lw := connected (Peer (replicate 40 xff) false).

Lemma recv_frame_any_stream_witness :
  match recv_frame plain_dialect 7%nat 60%nat noise_world with
  | (Ok (a, m, p), st') =>
      ∃ f, build_frame a m p = Ok f ∧
           inbox (world noise_world) 7%nat = f ++ inbox (world st') 7%nat
  | (Raise e, st') => raised_by_recv 7%nat e st' ∨ no_frame (inbox (world noise_world) 7%nat)
  | (NoFuel, _) => False
  end.
Proof.
  apply (recv_frame_any_stream plain_dialect 7%nat 60%nat noise_world).
  vm_compute. lia.
Defined.

(** C28: the SOCKS5 handshake.  When the [try] block of [socks5_connect] succeeds
    it has sent exactly the no-authentication greeting and one CONNECT request
    for the host name and port, and has read exactly the method reply and one
    well-formed success reply of RFC 1928 (IPv4, host-name or IPv6 address), not
    a byte of what follows; it always ends. *)
Theorem socks5_handshake_exact {W} `{ByteStream W} (D : dialect) s ob tp n (st : hst W) :
  (length (inbox (world st) s) < n)%nat →
  match socks5_handshake D s ob tp n st with
  | (Ok _, st') =>
      ∃ reply port, socks_reply reply ∧ pack_u16_be tp = Ok port ∧ zlen ob < 256 ∧
        inbox (world st) s = [x05; x00] ++ reply ++ inbox (world st') s ∧
        sent s (trace st') = sent s (trace st) ++ [x05; x01; x00] ++ socks_request ob port
  | (Raise e, _) => True
  | (NoFuel, _) => False
  end.
Proof.
  intros Hn. pose proof (socks5_handshake_wp D s ob tp n st Hn) as Hw. unfold wp in Hw.
  by destruct (socks5_handshake D s ob tp n st) as [[| |] ?].
Qed.

Definition socks_world : hst lw :=
  connected (Peer [x05; x00; x05; x00; x00; x01; x7f; x00; x00; x01; x00; x50; xaa] false).

Lemma socks5_handshake_exact_witness :
  match socks5_handshake plain_dialect 7%nat [x61; x62] 80 30%nat socks_world with
  | (Ok _, st') =>
      ∃ reply port, socks_reply reply ∧ pack_u16_be 80 = Ok port ∧ zlen [x61; x62] < 256 ∧
        inbox (world socks_world) 7%nat = [x05; x00] ++ reply ++ inbox (world st') 7%nat ∧
        sent 7%nat (trace st') =
          sent 7%nat (trace socks_world) ++ [x05; x01; x00] ++ socks_request [x61; x62] port
  | (Raise e, _) => True
  | (NoFuel, _) => False
  end.
Proof.
  apply (socks5_handshake_exact plain_dialect 7%nat [x61; x62] 80 30%nat socks_world).
  vm_compute. lia.
Defined.

(** [socks5_connect] does not leak its socket.  On a host whose calls behave
    as documented, it returns one newly opened socket, or raises and leaves the
    set of open sockets as it was, because the [except] block closes it. *)
Theorem socks5_connect_no_leak {W} `{OrdinaryCalls W} (D : dialect) h p o tp t n (st : hst W) :
  dialect_ok D →
  match socks5_connect D h p o tp t n st with
  | (Ok s, st') => opens st' = s :: opens st
  | (Raise e, st') => opens st' = opens st ∧ is_exception e
  | (NoFuel, _) => True
  end.
Proof.
  intros HD. pose proof (socks5_connect_open D HD h p o tp t n st) as Hw. unfold wp in Hw.
  by destruct (socks5_connect D h p o tp t n st) as [[| |] ?].
Qed.

Definition refusing_world : hst lw := fresh [Peer [x05; xff] false].

Lemma socks5_connect_no_leak_witness :
  match socks5_connect plain_dialect "127.0.0.1" 9050 "x.onion" 80 15 50%nat refusing_world with
  | (Ok s, st') => opens st' = s :: opens refusing_world
  | (Raise e, st') => opens st' = opens refusing_world ∧ is_exception e
  | (NoFuel, _) => True
  end.
Proof.
  apply (socks5_connect_no_leak plain_dialect "127.0.0.1" 9050 "x.onion" 80 15 50%nat
           refusing_world).
  split; reflexivity.
Defined.
