(* ===== verification/Console.v ===== *)
(** * BT-05/orchestrator.py: the host side and the guests' consoles

    The helpers the BT-05 and BT-06 orchestrators share (the second loads the
    first as a module): running programs, waiting for the virtual machines, the
    private Tor network, the port forwarders and the firewall rule, and every
    interaction with a guest over its serial console.  [PROJECT_ROOT] and
    [sys.executable] are parameters, and so is the rendering of a float. *)

From Stdlib Require Import Ascii ZArith QArith Lia Lqa.
From Stdlib Require Import Init.Byte.
From coqutil Require Import Byte Word.LittleEndianList.
From stdpp Require Import base list strings sorting.
From S2P Require Import Prelude PyNum PyText Host Json Wire.

Open Scope Z_scope.

(** ** Text helpers *)

(** [f"{x:.df}"] *)
Definition fmt_fixed (d : nat) (x : Q) : string :=
  let scale := 10 ^ Z.of_nat d in
  let t := Z.abs (round_half_even (x * inject_Z scale)) in
  let frac := str_Z (t mod scale) in
  (if Qlt_bool x 0 then "-" else EmptyString) +:+ str_Z (t / scale) +:+ "."
    +:+ repeat_str (d - String.length frac) "0" +:+ frac.

Definition shlex_join (argv : list string) : string := join " " (map shlex_quote argv).

(** [p / name] *)
Definition joinpath (p : path) (name : string) : path := p +:+ "/" +:+ name.

(** The first word of a text and what follows it. *)
Fixpoint take_word (s : string) : string * string :=
  match s with
  | EmptyString => (EmptyString, EmptyString)
  | String c t =>
      if is_space c then (EmptyString, s)
      else let '(a, b) := take_word t in (String c a, b)
  end.

(** [s.split(None, 2)] of a stripped text, when it has three parts *)
Definition split3 (s : string) : option (string * string * string) :=
  let '(a, r1) := take_word (lstrip s) in
  let '(b, r2) := take_word (lstrip r1) in
  let c := lstrip r2 in
  if bool_decide (a = EmptyString) || bool_decide (b = EmptyString) || bool_decide (c = EmptyString)
  then None else Some (a, b, c).

(** [raw.decode("utf-8", errors="replace")]: text is modelled by its bytes *)
Definition decode (raw : bytes) : string :=
  foldr (λ b acc, String (ascii_of_byte b) acc) EmptyString raw.
Definition encode (s : string) : bytes := map byte_of_ascii (String.list_ascii_of_string s).

Definition is_crlf (c : ascii) : bool := between 10 10 c || between 13 13 c.
(** [s.rstrip("\r\n")] *)
Fixpoint rstrip_crlf (s : string) : string :=
  match s with
  | EmptyString => EmptyString
  | String c t =>
      match rstrip_crlf t with
      | EmptyString => if is_crlf c then EmptyString else String c EmptyString
      | t' => String c t'
      end
  end.

(** [s.endswith(suffix)] *)
Fixpoint ends_with (suffix s : string) : bool :=
  bool_decide (s = suffix) ||
  match s with EmptyString => false | String _ t => ends_with suffix t end.

(** ** Constants *)

Definition SERVER_VM : string := "bc-server".
Definition CLIENT_A_VM : string := "bc-client-1".
Definition CLIENT_B_VM : string := "bc-client-2".
Definition ALL_VMS : list string := [SERVER_VM; CLIENT_A_VM; CLIENT_B_VM].

Definition GATEWAY_IP : string := "192.168.122.1".
Definition SERVER_TOR_CONTROL_PORT : Z := 8006.
Definition VM_TOR_SOCKS_PORT : Z := 9050.
Definition SERVER_PORT : Z := 8080.

Definition REMOTE_SERVER_CONFIG : string := "/etc/blank-chat/server_config.toml".
Definition REMOTE_SERVER_LOG : string := "/tmp/bt05_server.log".
Definition REMOTE_SERVER_PID : string := "/tmp/bt05_server.pid".
Definition REMOTE_CLIENT_CONFIG : string := "/etc/blank-chat/client_config.toml".
Definition REMOTE_CONTACTS : string := "/etc/blank-chat/contacts.json".
Definition REMOTE_IDENTITY : string := "/etc/blank-chat/identity.json".
Definition REMOTE_CLIENT_FIFO : string := "/tmp/bt05_client.in".
Definition REMOTE_CLIENT_LOG : string := "/tmp/bt05_client.log".
Definition REMOTE_CLIENT_PID : string := "/tmp/bt05_client.pid".
Definition REMOTE_CLIENT_WORKDIR : string := "/tmp/bt05-client".

Definition SHELL_PROMPT : string := "__BC_BT05_PROMPT__ ".
Definition PFS_MESSAGE_INTERVAL : Z := 0.

(** ** Patterns *)

Definition dot4 : re :=
  cats [Plus is_digit; Lit "."; Plus is_digit; Lit "."; Plus is_digit; Lit "."; Plus is_digit].
Definition IP_RE : re := cats [Grp dot4; Lit "/"; Plus is_digit].
Definition MAC_RE : re :=
  cats [WordB;
        Grp (Cat (Many 2 (Some 2%nat) is_hex)
                 (Times 5 (Cat (Lit ":") (Many 2 (Some 2%nat) is_hex))));
        WordB].
Definition onion_char (c : ascii) : bool := is_lower c || between 50 55 c.
Definition onion_re : re :=
  cats [WordB; Grp (Many 56 (Some 56%nat) onion_char); Opt (Lit ".onion"); WordB].
Definition MNEMONIC_RE : re :=
  cats [WordB; Times 23 (Cat (Plus is_lower) (Lit "-")); Plus is_lower; WordB].
Definition ANSI_RE : re :=
  cats [Lit (chr 27 +:+ "["); Star (one_of "0123456789;?"); Star (between 32 47);
        Cls (between 64 126)].
Definition torrc_re (key : string) : re :=
  cats [Bol; Star is_space; Lit key; Plus is_space; Opt (Lit "127.0.0.1:");
        Grp (Plus is_digit); Star is_space; Eol].

Definition strip_ansi (text : string) : string := re_sub ANSI_RE (λ _, EmptyString) text.

(** [match.group(i)] *)
Definition group (i : nat) (caps : list string) : string := nth (i - 1) caps EmptyString.
(** [int(match.group(i))] of a group of digits *)
Definition group_int (i : nat) (caps : list string) : Z := digits_Z (group i caps).

(** A dedicated Tor client of the private network. *)
Record ChutneyTorNode : Type := { node_name : string; node_socks_port : Z; control_port : Z }.

(** One measured endpoint. *)
Record ClientHandle : Type := ClientH {
  cl_name : string; vm : string; peer_alias : string; console : pid }.

Section host_side.
Context {W : Type} `{Host W} (PROJECT_ROOT sys_executable : string).

Definition BENCHMARKS_DIR : path := joinpath PROJECT_ROOT "benchmarks".
Definition VM_MANAGER : path := joinpath BENCHMARKS_DIR "vm_manager.py".
Definition CHUTNEY_MANAGER : path := joinpath BENCHMARKS_DIR "chutney_manager.sh".
Definition CHUTNEY_DIR : path := joinpath BENCHMARKS_DIR "chutney".
Definition CHUTNEY_BIN : path := joinpath CHUTNEY_DIR "chutney".
Definition CHUTNEY_DATA_DIR : path := joinpath PROJECT_ROOT ".chutney/net".
Definition CHUTNEY_NODES_DIR : path := joinpath PROJECT_ROOT ".chutney/net/nodes".
Definition ANALYZE : path := joinpath BENCHMARKS_DIR "BT-05/analyze.py".

Definition info (message : string) : M (hst W) unit := print ("[i] " +:+ message).
Definition ok (message : string) : M (hst W) unit := print ("[+] " +:+ message).
Definition warn (message : string) : M (hst W) unit := eprint ("[!] " +:+ message).

(** [subprocess.run(argv, check=True)] *)
Definition checked_run (argv : list string) : M (hst W) completed :=
  r ← call (ERun argv None);
  raise_if (negb (returncode r =? 0)) CalledProcessError "returned non-zero exit status";;
  mret r.

(** Streams that are not captured are [None] in Python and empty here: neither
    contributes to [detail]. *)
Definition run (cmd : list string) (check capture : bool) : M (hst W) completed :=
  info ("$ " +:+ shlex_join cmd);;
  result ← call (ERun cmd None);
  let detail := if capture
                then strip (if bool_decide (stderr result = EmptyString)
                            then stdout result else stderr result)
                else EmptyString in
  raise_if (check && negb (returncode result =? 0)) Bt05Error
    ("Command failed with exit code " +:+ str_Z (returncode result) +:+ ": " +:+ shlex_join cmd
       +:+ (if bool_decide (detail = EmptyString) then EmptyString else nl +:+ detail));;
  mret result.

(** [[name for name in required if shutil.which(name) is None]] *)
Definition missing_programs (required : list string) : M (hst W) (list string) :=
  for_acc required (λ name missing,
    found ← call (EWhich name);
    mret (if found : bool then missing else missing ++ [name])) [].

Definition require_files (c : pyclass) (paths : list path) : M (hst W) unit :=
  for_unit paths (λ p,
    e ← call (EExists p);
    raise_if (negb e) c ("Required file does not exist: " +:+ p)).

Definition require_dependencies : M (hst W) unit :=
  missing ← missing_programs
    ["virsh"; "virt-install"; "qemu-img"; "socat"; "sudo"; "iptables"; "pkill"; "tshark"];
  raise_if (negb (bool_decide (missing = []))) Bt05Error
    ("Missing host dependencies: " +:+ join ", " missing);;
  t ← call (EWhich "tcpdump");
  (if t : bool then mret tt
   else s ← call (EWhich "tshark");
        raise_if (negb s) Bt05Error "BT-05 requires tcpdump or tshark for PCAP capture");;
  require_files Bt05Error [VM_MANAGER; CHUTNEY_MANAGER; ANALYZE].

Definition acquire_sudo : M (hst W) unit :=
  info "Acquiring sudo credentials...";; run ["sudo"; "-v"] true false;; mret tt.

(** The search for a file of another owner stops at the first one. *)
Definition needs_chown (uid gid : Z) (p : path) : M (hst W) bool :=
  l ← call (ERglob p);
  r ← for_each (p :: l) (λ candidate _,
        try_except
          (st ← call (EStat candidate);
           if negb (st_uid st =? uid) || negb (st_gid st =? gid)
           then mret (inr tt) else mret (inl tt))
          (except [FileNotFoundError] (λ _, mret (inl tt)))) tt;
  mret (match r with inr _ => true | inl _ => false end).

Definition repair_workspace_permissions : M (hst W) unit :=
  o ← call EOwner;
  let '(uid, gid, owner) := o in
  for_unit [joinpath PROJECT_ROOT ".chutney"; joinpath BENCHMARKS_DIR "results"] (λ p,
    e ← call (EExists p);
    if e : bool then
      fix_ ← needs_chown uid gid p;
      if fix_ : bool then
        info ("Repairing ownership of " +:+ p +:+ "...");;
        run ["sudo"; "chown"; "-R"; owner; p] true false;; mret tt
      else mret tt
    else mret tt).

(** The processes of [ps] that are this project's Tor nodes. *)
Definition stale_tor_pids (runtime listing : string) : list Z :=
  omap (λ line,
    match split3 (strip line) with
    | Some (p, comm, cmdline) =>
        if bool_decide (comm = "tor") && contains runtime cmdline then py_int p else None
    | None => None
    end) (splitlines listing).

Definition cleanup_stale_chutney_tor : M (hst W) unit :=
  runtime ← call (EResolve (joinpath PROJECT_ROOT ".chutney/net"));
  result ← checked_run ["ps"; "-eo"; "pid=,comm=,args="];
  let pids := stale_tor_pids runtime (stdout result) in
  if bool_decide (pids = []) then mret tt
  else
    run (["sudo"; "kill"; "-TERM"] ++ map str_Z pids) false false;;
    sleep 1.

Definition recreate_vms : M (hst W) unit :=
  info "Recreating benchmark VMs from Yocto images...";;
  run [sys_executable; VM_MANAGER] true false;; mret tt.

Definition virsh (args : list string) : list string := ["virsh"; "-c"; "qemu:///system"] ++ args.

(** The address of the first lease line with the interface's MAC. *)
Fixpoint lease_ip (mac : string) (lines : list string) : option string :=
  match lines with
  | [] => None
  | line :: rest =>
      if contains mac (lower line) then
        match re_search IP_RE line with
        | Some caps => Some (group 1 caps)
        | None => lease_ip mac rest
        end
      else lease_ip mac rest
  end.

Definition get_vm_ip_once (vm_name : string) : M (hst W) (option string) :=
  result ← run (virsh ["domifaddr"; vm_name]) false true;
  match re_search IP_RE (stdout result) with
  | Some caps => mret (Some (group 1 caps))
  | None =>
      result ← run (virsh ["domiflist"; vm_name]) false true;
      match re_search MAC_RE (stdout result) with
      | None => mret None
      | Some caps =>
          leases ← run (virsh ["net-dhcp-leases"; "default"]) false true;
          mret (lease_ip (lower (group 1 caps)) (splitlines (stdout leases)))
      end
  end.

(** [poll_until], with the exception for the deadline *)
Definition wait_until {A} (timeout d : Q) (c : pyclass) (msg : string)
  (body : M (hst W) (option A)) : M (hst W) A :=
  t ← monotonic;
  r ← poll_until (fadd t timeout) d body;
  match r with Some a => mret a | None => throw c msg end.

Definition wait_for_vm_ip (vm_name : string) (timeout : Q) : M (hst W) string :=
  info ("Waiting for " +:+ vm_name +:+ " to obtain DHCP...");;
  wait_until timeout 2 Bt05Error ("Timed out waiting for IP address of " +:+ vm_name)
    (ip ← get_vm_ip_once vm_name;
     match ip with
     | Some (String _ _ as a) => ok (vm_name +:+ " IP: " +:+ a);; mret (Some a)
     | _ => mret None
     end).

Definition run_chutney_launch_phase (phase : Z) (action : string) : M (hst W) unit :=
  let cmd := [CHUTNEY_BIN; action] in
  info ("$ CHUTNEY_LAUNCH_PHASE=" +:+ str_Z phase +:+ " " +:+ shlex_join cmd);;
  result ← call (ERunEnv CHUTNEY_DIR
    [("CHUTNEY_DATA_DIR", CHUTNEY_DATA_DIR); ("CHUTNEY_LISTEN_ADDRESS", "127.0.0.1");
     ("CHUTNEY_DNS_CONF", "/dev/null"); ("CHUTNEY_LAUNCH_PHASE", str_Z phase)] cmd);
  raise_if (negb (returncode result =? 0)) Bt05Error
    ("Chutney launch phase " +:+ str_Z phase +:+ " action '" +:+ action
       +:+ "' failed with exit code " +:+ str_Z (returncode result)).

Definition start_chutney : M (hst W) unit :=
  run ["bash"; CHUTNEY_MANAGER; "clean"] false false;;
  run ["bash"; CHUTNEY_MANAGER; "start"] true false;;
  run ["bash"; CHUTNEY_MANAGER; "status"] true false;;
  info "Starting Chutney launch phase 2 for the dedicated client Tor node...";;
  run_chutney_launch_phase 2 "start";;
  run_chutney_launch_phase 2 "wait_for_bootstrap";;
  run_chutney_launch_phase 2 "status".

Definition stop_chutney : M (hst W) unit :=
  e ← call (EExists CHUTNEY_MANAGER);
  if e : bool then run ["bash"; CHUTNEY_MANAGER; "stop"] false false;; mret tt
  else mret tt.

(** ** The private Tor network's client node *)

Fixpoint find_port (key : string) (lines : list string) : option Z :=
  match lines with
  | [] => None
  | raw :: rest =>
      match re_matches (torrc_re key) raw with
      | Some caps => if 0 <? group_int 1 caps then Some (group_int 1 caps) else find_port key rest
      | None => find_port key rest
      end
  end.

Definition parse_tor_port (torrc : path) (key : string) : M (hst W) Z :=
  text ← call (EReadText torrc);
  match find_port key (splitlines text) with
  | Some port => mret port
  | None => throw Bt05Error ("Could not find non-zero " +:+ key +:+ " in " +:+ torrc)
  end.

Definition sorted_names (l : list string) : list string :=
  merge_sort (λ a b, Is_true (String.leb a b)) l.

Definition discover_dedicated_client_tor : M (hst W) ChutneyTorNode :=
  e ← call (EExists CHUTNEY_NODES_DIR);
  raise_if (negb e) Bt05Error
    ("Chutney nodes directory does not exist: " +:+ CHUTNEY_NODES_DIR);;
  names ← call (EIterdir CHUTNEY_NODES_DIR);
  dirs ← for_acc names (λ name acc,
    d ← call (EIsDir (joinpath CHUTNEY_NODES_DIR name));
    mret (if (d : bool) && ends_with "c" name then acc ++ [name] else acc)) [];
  match sorted_names dirs with
  | [name] =>
      let torrc := joinpath (joinpath CHUTNEY_NODES_DIR name) "torrc" in
      socks ← parse_tor_port torrc "SocksPort";
      control ← parse_tor_port torrc "ControlPort";
      ok ("Dedicated Chutney client Tor: " +:+ name +:+ " (SOCKS=" +:+ str_Z socks
            +:+ ", Control=" +:+ str_Z control +:+ ")");;
      mret {| node_name := name; node_socks_port := socks; control_port := control |}
  | candidates =>
      throw Bt05Error
        ("Expected exactly one dedicated Chutney client node (*c), found: "
           +:+ (if bool_decide (candidates = []) then "none" else join ", " candidates))
  end.

Definition check_socks5 (port : Z) : M (hst W) unit :=
  info ("Waiting for dedicated Chutney client SOCKS5 on 127.0.0.1:" +:+ str_Z port +:+ "...");;
  wait_until 60 1 Bt05Error "Dedicated Chutney client SOCKS5 did not become ready"
    (try_except
       (s ← call (EConnect "127.0.0.1" port 1);
        try_finally (ok "Dedicated Chutney client SOCKS5 is ready";; mret (Some tt))
          (call (EClose s)))
       (except [OSError] (λ _, mret None))).

(** [values], the counters read so far *)
Record traffic : Type := { t_read : option Z; t_written : option Z }.

(** One line of the reply to GETINFO: [inr] leaves the loop. *)
Definition getinfo_line (line : string) (values : traffic) : res (traffic + traffic) :=
  match strip_prefix "250-traffic/read=" line, strip_prefix "250-traffic/written=" line with
  | Some v, _ =>
      match py_int v with
      | Some z => Ok (inl {| t_read := Some z; t_written := t_written values |})
      | None => fail ValueError "invalid literal for int()"
      end
  | None, Some v =>
      match py_int v with
      | Some z => Ok (inl {| t_read := t_read values; t_written := Some z |})
      | None => fail ValueError "invalid literal for int()"
      end
  | None, None =>
      if starts_with "250 " line then Ok (inr values)
      else if starts_with "5" line || starts_with "4" line
      then fail Bt05Error ("Tor GETINFO traffic failed: " +:+ line)
      else Ok (inl values)
  end.

Definition tor_getinfo_traffic (port : Z) : M (hst W) (Z * Z) :=
  s ← call (EConnect "127.0.0.1" port 5);
  try_finally
    (call (ESendAll s (encode "AUTHENTICATE" ++ [x0d; x0a]));;
     raw ← call (EReadLine s);
     let auth := strip (decode raw) in
     raise_if (negb (starts_with "250" auth)) Bt05Error
       ("Tor control AUTHENTICATE failed: " +:+ auth);;
     call (ESendAll s (encode "GETINFO traffic/read traffic/written" ++ [x0d; x0a]));;
     values ← iter (λ values : traffic,
       raw ← call (EReadLine s);
       raise_if (bool_decide (raw = [])) Bt05Error
         "Tor control connection closed during GETINFO";;
       of_res (getinfo_line (strip (decode raw)) values))
       {| t_read := None; t_written := None |};
     match t_read values, t_written values with
     | Some r, Some w => mret (r, w)
     | _, _ => throw Bt05Error "Tor GETINFO traffic did not return both counters"
     end)
    (call (EClose s)).

(** ** The firewall rule, the forwarders, child processes *)

Definition iptables (flag : string) : list string :=
  ["sudo"; "iptables"; flag; "INPUT"; "-i"; "virbr0"; "-j"; "ACCEPT"].

Definition ensure_firewall_rule : M (hst W) bool :=
  check ← call (ERun (iptables "-C") None);
  if returncode check =? 0 then mret false
  else run (iptables "-I") true false;; mret true.

Definition remove_firewall_rule_if_added (added : bool) : M (hst W) unit :=
  if added then call (ERun (iptables "-D") None);; mret tt else mret tt.

Definition stop_stale_socat : M (hst W) unit :=
  for_unit [SERVER_TOR_CONTROL_PORT; SERVER_PORT; VM_TOR_SOCKS_PORT] (λ port,
    call (ERun ["sudo"; "pkill"; "-f"; "socat.*TCP-LISTEN:" +:+ str_Z port] None);; mret tt).

Definition start_socat (args : list string) (log_path : path) : M (hst W) pid :=
  handle_ ← call (EOpenW log_path);
  proc ← call (EPopen ("socat" :: args) (Some handle_));
  call (ECloseFile handle_);;
  sleep (1 # 2);;
  rc ← call (EPoll proc);
  match rc with
  | Some _ =>
      detail ← call (EReadText log_path);
      throw Bt05Error ("socat exited immediately: " +:+ join " " args +:+ nl +:+ strip detail)
  | None => ok ("Started socat: " +:+ join " " args);; mret proc
  end.

Definition stop_process (process : option pid) (name : string) : M (hst W) unit :=
  match process with
  | None => mret tt
  | Some p =>
      rc ← call (EPoll p);
      match rc with
      | Some _ => mret tt
      | None =>
          info ("Stopping " +:+ name +:+ "...");;
          call (ETerminate p);;
          try_except (call (EWaitProc p (Some 3%Q));; mret tt)
            (except [TimeoutExpired] (λ _,
               call (EKill p);; call (EWaitProc p (Some 2%Q));; mret tt))
      end
  end.

(** ** The guest's serial console *)

Definition PROMPT_RE : string := "__BC_BT05_PROMPT__\ ".
Definition LOGIN_PATTERNS : list string := ["login:\s*$"; "#\s*$"; "Press Enter"; "TIMEOUT"; "EOF"].

(** One round of the login loop: [Some] leaves it. *)
Definition login_step (child : pid) (vm_name : string) : M (hst W) (option unit) :=
  index ← call (EExpectList child LOGIN_PATTERNS 5);
  match index with
  | 0%nat =>
      call (ESendLine child "root");;
      call (EExpect child "#\s*$" 20);;
      mret (Some tt)
  | 1%nat => mret (Some tt)
  | 2%nat | 3%nat => call (ESendLine child EmptyString);; mret None
  | _ => throw Bt05Error ("Console for " +:+ vm_name +:+ " closed unexpectedly")
  end.

Definition login_loop (child : pid) (vm_name : string) (deadline : Q) : M (hst W) unit :=
  iter (λ _ : unit,
    t ← monotonic;
    if Qlt_bool t deadline then
      r ← login_step child vm_name;
      match r with Some _ => mret (inr tt) | None => mret (inl tt) end
    else throw Bt05Error ("Timed out logging into " +:+ vm_name)) tt.

Definition login_to_console (vm_name : string) (timeout : Q) : M (hst W) pid :=
  info ("Opening serial console for " +:+ vm_name +:+ "...");;
  child ← call (ESpawn (virsh ["console"; vm_name; "--force"]) timeout);
  t ← monotonic;
  login_loop child vm_name (fadd t timeout);;
  call (ESendLine child ("export PS1='" +:+ SHELL_PROMPT +:+ "'"));;
  call (EExpect child PROMPT_RE 10);;
  call (ESendLine child "stty -echo");;
  call (EExpect child PROMPT_RE 10);;
  ok ("Logged into " +:+ vm_name +:+ " as root");;
  mret child.

Definition begin_marker (token : string) : string := "__BC_BEGIN_" +:+ token +:+ "__".
Definition end_marker (token : string) : string := "__BC_END_" +:+ token +:+ "__".

(** The text sent to the guest's shell around a command. *)
Definition wrap_command (token command : string) : string :=
  "printf '\n" +:+ begin_marker token +:+ "\n'; " +:+ command
    +:+ "; __bc_rc=$?; printf '\n" +:+ end_marker token +:+ ":%s\n' " +:+ dq +:+ "$__bc_rc" +:+ dq.

Definition console_cmd (child : pid) (command : string) (timeout : Q) (check : bool)
  : M (hst W) (string * Z) :=
  token ← call EUuidHex;
  call (ESend child (wrap_command token command +:+ chr 13 +:+ chr 10));;
  call (EExpect child (begin_marker token) timeout);;
  m ← call (EExpect child (end_marker token +:+ ":(\d+)") timeout);
  let '(before, caps) := m in
  let output := strip (replace (chr 13) EmptyString before) in
  let rc := group_int 1 caps in
  call (EExpect child PROMPT_RE 10);;
  raise_if (check && negb (rc =? 0)) Bt05Error
    ("Command failed inside VM (rc=" +:+ str_Z rc +:+ "): " +:+ command +:+ nl +:+ output);;
  mret (output, rc).

Definition upload_text (child : pid) (remote_path text : string) : M (hst W) unit :=
  let quoted := shlex_quote remote_path in
  console_cmd child (": > " +:+ quoted) 60 true;;
  for_unit (splitlines text) (λ line,
    console_cmd child ("printf '%s\n' " +:+ shlex_quote line +:+ " >> " +:+ quoted) 60 true;;
    mret tt).

Definition remote_cat (child : pid) (p : string) : M (hst W) string :=
  r ← console_cmd child ("cat " +:+ shlex_quote p +:+ " 2>/dev/null || true") 90 false;
  mret r.1.

Definition configure_server (child : pid) : M (hst W) unit :=
  let config := lines_text
    ["[network]"; "listen_host = " +:+ dq +:+ "0.0.0.0" +:+ dq; "listen_port = 8080";
     "tor_control_host = " +:+ dq +:+ "192.168.122.1" +:+ dq; "tor_control_port = 8006";
     EmptyString; "[security]"; "memory_quota_percent = 80";
     "max_messages_per_mailbox = 5000000"] in
  console_cmd child "mkdir -p /etc/blank-chat" 60 true;;
  upload_text child REMOTE_SERVER_CONFIG config.

Definition start_server (child : pid) : M (hst W) unit :=
  console_cmd child "killall blank_chat_server 2>/dev/null || true" 60 false;;
  console_cmd child ("rm -f " +:+ REMOTE_SERVER_LOG +:+ " " +:+ REMOTE_SERVER_PID) 60 true;;
  console_cmd child
    ("mkdir -p /etc/blank-chat/logs && cd /etc/blank-chat && blank_chat_server > "
       +:+ REMOTE_SERVER_LOG +:+ " 2>&1 & echo $! > " +:+ REMOTE_SERVER_PID) 60 true;;
  sleep 1.

Definition stop_server (child : pid) : M (hst W) unit :=
  console_cmd child
    ("kill $(cat " +:+ REMOTE_SERVER_PID +:+ " 2>/dev/null) 2>/dev/null || true") 60 false;;
  sleep (1 # 2).

Definition wait_for_onion (child : pid) (timeout : Q) : M (hst W) string :=
  wait_until timeout 1 Bt05Error "Timed out waiting for hidden-service address"
    (r ← console_cmd child
       ("grep -Eo '[a-z2-7]{56}(\.onion)?' " +:+ REMOTE_SERVER_LOG
          +:+ " 2>/dev/null | tail -n 1 || true") 60 false;
     match re_search onion_re r.1 with
     | Some caps =>
         let onion := group 1 caps +:+ ".onion" in
         ok ("Hidden service: " +:+ onion);; mret (Some onion)
     | None => mret None
     end).

(** ** Reaching the relay through Tor *)

Definition bt05_dialect : dialect := {|
  protocol_error := ConnectionError;
  socks_error := ConnectionError;
  msg_closed _ _ := "connection closed";
  msg_oversized _ := EmptyString;
  msg_onion_length := EmptyString;
  msg_noauth := "SOCKS no-auth rejected";
  msg_bad_response := EmptyString;
  msg_connect_failed b := "SOCKS CONNECT failed with REP=0x" +:+ hex2 b;
  msg_bad_atyp _ := "Unsupported SOCKS ATYP" |}.

Definition recv_exact (s : sock) (size : nat) : M (hst W) bytes :=
  Wire.recv_exact bt05_dialect s size.

Definition socks5_request (s : sock) (domain : bytes) (target_port : Z) : M (hst W) unit :=
  call (ESendAll s [x05; x01; x00]);;
  m ← recv_exact s 2;
  raise_if (negb (bool_decide (m = [x05; x00]))) ConnectionError (msg_noauth bt05_dialect);;
  len ← of_res (byte_res (zlen domain));
  port ← of_res (pack_u16_be target_port);
  call (ESendAll s ([x05; x01; x00; x03] ++ [len] ++ domain ++ port));;
  header ← recv_exact s 4;
  raise_if (negb (bool_decide (nth 1 header x00 = x00))) ConnectionError
    (msg_connect_failed bt05_dialect (nth 1 header x00));;
  let atyp := nth 3 header x00 in
  (if bool_decide (atyp = x01) then recv_exact s 4
   else if bool_decide (atyp = x03) then
     l ← recv_exact s 1; recv_exact s (Z.to_nat (byte.unsigned (nth 0 l x00)))
   else if bool_decide (atyp = x04) then recv_exact s 16
   else throw ConnectionError (msg_bad_atyp bt05_dialect atyp));;
  recv_exact s 2;; mret tt.

Definition socks5_connect (onion : string) (socks_port target_port : Z) (timeout : Q)
  : M (hst W) sock :=
  domain ← of_res (encode_ascii onion);
  s ← call (EConnect "127.0.0.1" socks_port timeout);
  call (ESetTimeout s (Some timeout));;
  try_except (socks5_request s domain target_port;; mret s)
    (except [Exception_] (λ exc, call (EClose s);; rethrow exc)).

(** What a fresh connection to the relay must begin with. *)
Definition relay_greets (s : sock) : M (hst W) bool :=
  header ← recv_exact s FRAME_HEADER_SIZE;
  let length_ := unpack_u32 (take 4 (drop 17 header)) in
  payload ← (if length_ =? 0 then mret [] else recv_exact s (Z.to_nat length_));
  mret ((byte.unsigned (nth 0 header x00) =? ACTION_AUTH_CHALLENGE)
        && (length payload =? CONTROL_PAYLOAD_SIZE)%nat).

Definition wait_for_hidden_service (onion : string) (socks_port : Z) (timeout : Q) : M (hst W) unit :=
  info "Waiting for hidden service through Chutney...";;
  wait_until timeout 2 Bt05Error "Hidden service did not become reachable"
    (try_except
       (s ← socks5_connect onion socks_port 80 5;
        try_finally
          (g ← relay_greets s;
           if g : bool then ok "Hidden service reachable";; mret (Some tt) else mret None)
          (call (EClose s)))
       (except [Exception_] (λ _, mret None))).

(** ** The client under test *)

(** [f"{poisson_lambda}"] *)
Context (float_repr : Q → string).

Definition quote2 (s : string) : string := dq +:+ s +:+ dq.

Definition client_config (onion mode : string) (cbr_interval_ms : Z) (poisson_lambda : Q) : string :=
  lines_text
    ["[network]"; "tor_socks_host = " +:+ quote2 GATEWAY_IP;
     "tor_socks_port = " +:+ str_Z VM_TOR_SOCKS_PORT; EmptyString;
     "[relay]"; "onion_address = " +:+ quote2 onion; "onion_port = 80"; EmptyString;
     "[obfuscation]"; "mode = " +:+ quote2 mode;
     "cbr_interval_ms = " +:+ str_Z cbr_interval_ms;
     "poisson_lambda = " +:+ float_repr poisson_lambda; EmptyString;
     "[storage]"; "contacts_file_path = " +:+ quote2 REMOTE_CONTACTS; EmptyString;
     "[security]"; "pfs_message_interval = " +:+ str_Z PFS_MESSAGE_INTERVAL].

Definition configure_client (child : pid) (onion mode : string) (cbr_interval_ms : Z)
  (poisson_lambda : Q) : M (hst W) unit :=
  console_cmd child "mkdir -p /etc/blank-chat" 60 true;;
  upload_text child REMOTE_CLIENT_CONFIG (client_config onion mode cbr_interval_ms poisson_lambda).

Definition DIAGNOSTIC_MARKERS : list string :=
  ["BT05_EVENT QUEUE"; "BT05_EVENT RX"; "BT05_EVENT ACK";
   "BT06_EVENT MAP"; "BT06_EVENT TX"; "BT06_EVENT CLOCK"].

Definition assert_diagnostics (c : pyclass) (hint : string) (child : pid) (vm_name : string)
  : M (hst W) unit :=
  for_unit DIAGNOSTIC_MARKERS (λ marker,
    r ← console_cmd child
      ("grep -q " +:+ shlex_quote marker +:+ " /usr/bin/blank_chat_client 2>/dev/null") 60 false;
    raise_if (negb (r.2 =? 0)) c (vm_name +:+ hint)).

Definition assert_client_binary_has_diagnostics (child : pid) (vm_name : string) : M (hst W) unit :=
  assert_diagnostics Bt05Error
    " does not contain BT-05/BT-06 diagnostics. Run './benchmarks/BT-05/run.sh --prepare --messages 20 --cbr-interval-ms 1000 --poisson-lambda 1.0' first."
    child vm_name.

Definition client_command (child : pid) (command : string) : M (hst W) unit :=
  console_cmd child ("printf '%s\n' " +:+ shlex_quote command +:+ " >&3") 60 true;; mret tt.

(** [int(output.splitlines()[-1].strip())], 0 when there is no such number *)
Definition last_line_count (output : string) : Z :=
  match last (splitlines output) with
  | Some l => match py_int (strip l) with Some z => z | None => 0 end
  | None => 0
  end.

Definition client_log_count (child : pid) (pattern : string) : M (hst W) Z :=
  r ← console_cmd child
    ("grep -Fc -- " +:+ shlex_quote pattern +:+ " " +:+ REMOTE_CLIENT_LOG
       +:+ " 2>/dev/null || true") 60 false;
  mret (last_line_count r.1).

Definition wait_client_log_count (child : pid) (pattern : string) (minimum : Z) (timeout : Q)
  : M (hst W) unit :=
  wait_until timeout (1 # 4) Bt05Error ("Timed out waiting for client log: " +:+ pattern)
    (c ← client_log_count child pattern;
     mret (if minimum <=? c then Some tt else None)).

Definition wait_client_log (child : pid) (pattern : string) (timeout : Q) : M (hst W) unit :=
  wait_client_log_count child pattern 1 timeout.

Definition kill_client_cmd : string :=
  "kill $(cat " +:+ REMOTE_CLIENT_PID +:+ " 2>/dev/null) 2>/dev/null || true".

Definition start_client (child : pid) (vm_name : string) : M (hst W) unit :=
  info ("Starting blank_chat_client on " +:+ vm_name +:+ "...");;
  console_cmd child kill_client_cmd 60 false;;
  console_cmd child
    ("rm -f " +:+ REMOTE_IDENTITY +:+ " " +:+ REMOTE_CONTACTS +:+ " " +:+ REMOTE_CLIENT_FIFO
       +:+ " " +:+ REMOTE_CLIENT_LOG +:+ " " +:+ REMOTE_CLIENT_PID) 60 true;;
  console_cmd child
    ("rm -rf " +:+ REMOTE_CLIENT_WORKDIR +:+ " && mkdir -p " +:+ REMOTE_CLIENT_WORKDIR
       +:+ "/logs && mkfifo " +:+ REMOTE_CLIENT_FIFO +:+ " && exec 3<> " +:+ REMOTE_CLIENT_FIFO)
    60 true;;
  console_cmd child
    ("cd " +:+ REMOTE_CLIENT_WORKDIR +:+ " && blank_chat_client <&3 > " +:+ REMOTE_CLIENT_LOG
       +:+ " 2>&1 & echo $! > " +:+ REMOTE_CLIENT_PID) 60 true;;
  wait_client_log child "Do you want to generate a new Identity Key now?" 20;;
  client_command child "y";;
  wait_client_log child "New identity generated and saved successfully." 20;;
  wait_client_log child "--- Blank Chat ---" 20.

Definition stop_client (child : pid) : M (hst W) unit :=
  try_except (client_command child "exit";; sleep (3 # 10))
    (except [Exception_] (λ _, mret tt));;
  console_cmd child kill_client_cmd 60 false;;
  console_cmd child "exec 3>&- 2>/dev/null || true" 60 false;;
  mret tt.

Definition pid_alive (child : pid) (pid_file : string) : M (hst W) bool :=
  r ← console_cmd child ("kill -0 $(cat " +:+ pid_file +:+ " 2>/dev/null) 2>/dev/null") 60 false;
  mret (r.2 =? 0).
Definition client_alive (child : pid) : M (hst W) bool := pid_alive child REMOTE_CLIENT_PID.
Definition server_alive (child : pid) : M (hst W) bool := pid_alive child REMOTE_SERVER_PID.

Definition extract_mnemonic (child : pid) : M (hst W) string :=
  let title := "Your Identity Key (BIP39 Mnemonic)" in
  before ← client_log_count child title;
  client_command child "mykey";;
  wait_client_log_count child title (before + 1) 10;;
  r ← console_cmd child ("tail -n 100 " +:+ REMOTE_CLIENT_LOG) 60 false;
  match last (map fst (re_findall MNEMONIC_RE (strip_ansi r.1))) with
  | Some m => mret m
  | None => throw Bt05Error "Could not parse BIP39 mnemonic"
  end.

Definition add_contact (child : pid) (alias mnemonic : string) : M (hst W) unit :=
  let marker := "Contact '" +:+ alias +:+ "' added successfully." in
  before ← client_log_count child marker;
  client_command child ("add " +:+ alias +:+ " " +:+ mnemonic);;
  wait_client_log_count child marker (before + 1) 15.

Definition connect_client (child : pid) (mode : string) : M (hst W) unit :=
  before ← client_log_count child "Successfully connected.";
  client_command child "connect";;
  wait_client_log_count child "Successfully connected." (before + 1) 60;;
  wait_client_log child
    (if bool_decide (mode = "cbr") then "Initializing Constant Bit Rate"
     else "Initializing Stochastic Poisson Obfuscator") 20.

(** The first contact with that alias decides. *)
Fixpoint contact_complete (alias : string) (contacts : list json) : res bool :=
  match contacts with
  | [] => Ok false
  | item :: rest =>
      a ← jget_default "alias" JNull item;
      if is_str alias a then
        c ← jget_default "initialPfsComplete" (JBool false) item; mret (truthy c)
      else contact_complete alias rest
  end.

Definition parse_initial_pfs (raw alias : string) : res bool :=
  match json_loads raw with
  | Ok parsed =>
      contacts ← jget_default "contacts" JNull parsed;
      match contacts with
      | JList l => contact_complete alias l
      | _ => mret false
      end
  | _ => Ok false
  end.

Definition wait_for_initial_pfs (a b : ClientHandle) (timeout : Q) : M (hst W) unit :=
  info "Waiting for initial PFS to complete on both clients...";;
  wait_until timeout 1 Bt05Error "Initial PFS did not complete within timeout"
    (a_raw ← remote_cat (console a) REMOTE_CONTACTS;
     b_raw ← remote_cat (console b) REMOTE_CONTACTS;
     pa ← of_res (parse_initial_pfs a_raw (peer_alias a));
     pb ← (if pa : bool then of_res (parse_initial_pfs b_raw (peer_alias b)) else mret false);
     if pb : bool then ok "Initial PFS completed on both clients";; mret (Some tt)
     else
       la ← client_alive (console a);
       lb ← (if la : bool then client_alive (console b) else mret false);
       raise_if (negb lb) Bt05Error "A client exited while waiting for initial PFS";;
       mret None).

End host_side.
