(* ===== verification/Events.v ===== *)
(** * Diagnostic events: parsing the client logs and checking a series

    The patterns and the parsers of BT-05/orchestrator.py and
    BT-06/orchestrator.py, the check that the queued, transmitted, received and
    acknowledged messages are the same ([validate_message_identity_sets]), and the
    document BT-06 makes of a series ([collect_and_validate_events]). *)

From Stdlib Require Import Ascii ZArith QArith Lia.
From stdpp Require Import base list strings sorting sets gmap.
From S2P Require Import Prelude PyNum PyText Host Json Wire Console.

Open Scope Z_scope.

(** ** Patterns *)

Definition DIGITS : re := Grp (Plus is_digit).
Definition HEX : re := Grp (Plus is_hex).

Definition stamp_re (marker : string) : re :=
  cats [Lit (marker +:+ " timestamp_ns="); DIGITS; Lit " msg_id="; HEX].
Definition QUEUE_RE : re := stamp_re "BT05_EVENT QUEUE".
Definition RX_RE : re := stamp_re "BT05_EVENT RX".
Definition ACK_RE : re := stamp_re "BT05_EVENT ACK".
Definition MAP_RE : re := cats [Lit "BT06_EVENT MAP frame_hash="; HEX; Lit " msg_id="; HEX].
Definition TX_RE : re :=
  cats [Lit "BT06_EVENT TX timestamp_ns="; DIGITS; Lit " action="; DIGITS; Lit " bytes="; DIGITS;
        Lit " frame_hash="; HEX].

(** ** Parsers *)

(** One item per line of the log that matches. *)
Definition parse_lines {A} (r : re) (f : list string → A) (text : string) : list A :=
  omap (λ line, option_map f (re_search r line)) (splitlines (strip_ansi text)).

Definition parse_events (r : re) (text : string) : list (Z * string) :=
  parse_lines r (λ caps, (group_int 1 caps, lower (group 2 caps))) text.
Definition parse_maps (text : string) : list (string * string) :=
  parse_lines MAP_RE (λ caps, (lower (group 1 caps), lower (group 2 caps))) text.
Definition parse_tx (text : string) : list (Z * Z * Z * string) :=
  parse_lines TX_RE
    (λ caps, (group_int 1 caps, group_int 2 caps, group_int 3 caps, lower (group 4 caps))) text.

Section collecting.
Context {W : Type} `{Host W}.

Definition grep_log (child : pid) (marker : string) : M (hst W) string :=
  r ← console_cmd child
    ("grep " +:+ shlex_quote marker +:+ " " +:+ REMOTE_CLIENT_LOG +:+ " 2>/dev/null || true")
    120 false;
  mret r.1.

Definition diagnostic_events (child : pid) (marker : string) (regex : re)
  : M (hst W) (list (Z * string)) :=
  output ← grep_log child marker; mret (parse_events regex output).
Definition diagnostic_frame_maps (child : pid) : M (hst W) (list (string * string)) :=
  output ← grep_log child "BT06_EVENT MAP"; mret (parse_maps output).
Definition diagnostic_tx_events (child : pid) : M (hst W) (list (Z * Z * Z * string)) :=
  output ← grep_log child "BT06_EVENT TX"; mret (parse_tx output).
End collecting.

(** ** The checks on one series *)

(** [len(set(l))] and [set(l) == set(l')] *)
Definition distinct (l : list string) : Z := Z.of_nat (length (remove_dups l)).
Definition same_set (l l' : list string) : bool :=
  bool_decide (l ⊆ l') && bool_decide (l' ⊆ l).
Definition zlength {A} (l : list A) : Z := Z.of_nat (length l).

(** [{k: v for k, v in l}]: a later pair replaces an earlier one. *)
Definition dict_of {A} (l : list (string * A)) : list (string * A) :=
  foldl (λ d '(k, v), dict_set k v d) [] l.

(** The PUSH transmissions of known frames. *)
Definition match_tx (hash_to_msg_id : list (string * string))
  (tx_events : list (Z * Z * Z * string)) : list (Z * string * string) :=
  omap (λ '(timestamp_ns, action, _, frame_hash),
    if negb (action =? 1) then None
    else match dict_get frame_hash hash_to_msg_id with
         | Some msg_id => Some (timestamp_ns, msg_id, frame_hash)
         | None => None
         end) tx_events.

Definition ids (l : list (Z * string)) : list string := map snd l.

(** The events of a series as they are parsed. *)
Record series : Type := {
  queued : list (Z * string); received : list (Z * string); acked : list (Z * string);
  frame_maps : list (string * string); tx_events : list (Z * Z * Z * string) }.

Definition expect_count {A} (expected : Z) (what : string) (l : list A) : res unit :=
  fail_if (negb (zlength l =? expected)) Bt05Error
    ("Expected " +:+ str_Z expected +:+ what +:+ str_Z (zlength l)).

Definition identity_checks (s : series) (expected : Z) : res (list (Z * string * string)) :=
  let queued_ids := ids (queued s) in
  let received_ids := ids (received s) in
  let acked_ids := ids (acked s) in
  expect_count expected " queued message IDs, got " queued_ids;;
  expect_count expected " received message IDs, got " received_ids;;
  expect_count expected " ACKed message IDs, got " acked_ids;;
  expect_count expected " BT-06 frame mappings, got " (frame_maps s);;
  fail_if (negb (distinct queued_ids =? expected)) Bt05Error
    "Queued BT-05 message IDs are not unique";;
  let frame_hashes := map fst (frame_maps s) in
  let mapped_ids := map snd (frame_maps s) in
  fail_if (negb (distinct frame_hashes =? expected)) Bt05Error "BT-06 frame hashes are not unique";;
  fail_if (negb (distinct mapped_ids =? expected)) Bt05Error
    "BT-06 mapped message IDs are not unique";;
  fail_if (negb (same_set queued_ids mapped_ids)) Bt05Error
    "BT-06 frame/message mapping differs from queued message-ID set";;
  fail_if (negb (same_set queued_ids received_ids)) Bt05Error
    "Received message-ID set differs from queued message-ID set";;
  fail_if (negb (same_set queued_ids acked_ids)) Bt05Error
    "ACKed message-ID set differs from queued message-ID set";;
  let transmitted := match_tx (dict_of (frame_maps s)) (tx_events s) in
  expect_count expected " matched PUSH TX events, got " transmitted;;
  let transmitted_hashes := map snd transmitted in
  fail_if (negb (distinct transmitted_hashes =? expected)) Bt05Error
    "A benchmark frame was transmitted more than once";;
  fail_if (negb (same_set transmitted_hashes frame_hashes)) Bt05Error
    "Transmitted frame set differs from benchmark frame mapping";;
  mret transmitted.

Section series_check.
Context {W : Type} `{Host W}.

Definition collect_series (sender receiver : ClientHandle) : M (hst W) series :=
  q ← diagnostic_events (console sender) "BT05_EVENT QUEUE" QUEUE_RE;
  r ← diagnostic_events (console receiver) "BT05_EVENT RX" RX_RE;
  a ← diagnostic_events (console sender) "BT05_EVENT ACK" ACK_RE;
  m ← diagnostic_frame_maps (console sender);
  t ← diagnostic_tx_events (console sender);
  mret {| queued := q; received := r; acked := a; frame_maps := m; tx_events := t |}.

Definition validate_message_identity_sets (sender receiver : ClientHandle) (expected : Z)
  : M (hst W) (series * list (Z * string * string)) :=
  s ← collect_series sender receiver;
  transmitted ← of_res (identity_checks s expected);
  ok "All queued, transmitted, received and ACKed message-ID sets agree";;
  mret (s, transmitted).
End series_check.

(** ** BT-06: the document of an ACK-gated series *)

(** One record per message of the sending loop. *)
Record control : Type := { c_sequence : Z; c_jitter : Q }.

(** The order of tuples: timestamps first, then the texts. *)
Definition str_le (a b : string) : Prop := Is_true (String.leb a b).
Definition event_le (a b : Z * string) : Prop := a.1 < b.1 ∨ (a.1 = b.1 ∧ str_le a.2 b.2).
Definition tx_le (a b : Z * string * string) : Prop :=
  a.1.1 < b.1.1 ∨ (a.1.1 = b.1.1 ∧
    (str_le a.1.2 b.1.2 ∧ a.1.2 ≠ b.1.2 ∨ (a.1.2 = b.1.2 ∧ str_le a.2 b.2))).
#[global] Instance event_le_dec : RelDecision event_le.
Proof. intros x y. unfold event_le, str_le. apply _. Defined.
#[global] Instance tx_le_dec : RelDecision tx_le.
Proof. intros x y. unfold tx_le, str_le. apply _. Defined.

Definition sorted_events (l : list (Z * string)) : list (Z * string) := merge_sort event_le l.
Definition sorted_tx (l : list (Z * string * string)) : list (Z * string * string) :=
  merge_sort tx_le l.

Definition swap {A B} (p : A * B) : B * A := (p.2, p.1).

(** [d[k]] *)
Definition key {A} (k : string) (d : list (string * A)) : res A :=
  match dict_get k d with Some a => Ok a | None => fail KeyError k end.

(** The loop over consecutive messages; [false] leaves it. *)
Fixpoint no_overlap (queue_by_id ack_by_id : list (string * Z)) (ordered : list string) : res bool :=
  match ordered with
  | current_id :: ((next_id :: _) as rest) =>
      q ← key next_id queue_by_id;
      a ← key current_id ack_by_id;
      if q <? a then mret false else no_overlap queue_by_id ack_by_id rest
  | _ => Ok true
  end.

Definition enumerate1 (l : list string) : list (string * Z) := zip l (zrange 1 (zlength l + 1)).

(** [{int(item["sequence"]): float(item["prequeue_jitter_seconds"]) for item in controls}] *)
Definition jitter_of (controls : list control) (seq : Z) : res Q :=
  match last (filter (λ c, c_sequence c = seq) controls) with
  | Some c => Ok (c_jitter c)
  | None => fail KeyError (str_Z seq)
  end.

Definition queue_entry (seq_by_id : list (string * Z)) (controls : list control) (e : Z * string)
  : res json :=
  seq ← key e.2 seq_by_id;
  j ← jitter_of controls seq;
  mret (JObj [("sequence", JInt seq); ("timestamp_ns", JInt e.1); ("msg_id", JStr e.2);
              ("prequeue_jitter_seconds", JFloat j)]).
Definition tx_entry (seq_by_id : list (string * Z)) (e : Z * string * string) : res json :=
  seq ← key e.1.2 seq_by_id;
  mret (JObj [("sequence", JInt seq); ("timestamp_ns", JInt e.1.1); ("msg_id", JStr e.1.2);
              ("frame_hash", JStr e.2)]).
Definition stamp_entry (seq_by_id : list (string * Z)) (e : Z * string) : res json :=
  seq ← key e.2 seq_by_id;
  mret (JObj [("sequence", JInt seq); ("timestamp_ns", JInt e.1); ("msg_id", JStr e.2)]).

Definition validation_json (s : series) (transmitted : list (Z * string * string)) (expected : Z)
  : json :=
  JObj [("expected", JInt expected); ("queue", JInt (zlength (queued s)));
        ("tx", JInt (zlength transmitted)); ("rx", JInt (zlength (received s)));
        ("ack", JInt (zlength (acked s)));
        ("unique_message_ids", JInt (distinct (ids (queued s))));
        ("verified_no_overlap", JBool true);
        ("invariant", JStr "QUEUE(i+1) >= ACK(i) on sender VM clock")].

(** The document, once the series has passed the checks. *)
Definition payload_of (s : series) (transmitted : list (Z * string * string)) (expected : Z)
  (controls : list control) : res json :=
  let seq_by_id := dict_of (enumerate1 (ids (sorted_events (queued s)))) in
  q ← map_res (queue_entry seq_by_id controls) (sorted_events (queued s));
  t ← map_res (tx_entry seq_by_id) (sorted_tx transmitted);
  r ← map_res (stamp_entry seq_by_id) (sorted_events (received s));
  a ← map_res (stamp_entry seq_by_id) (sorted_events (acked s));
  mret (JObj [("series_policy", JStr "ack-gated"); ("queue", JList q); ("tx", JList t);
              ("rx", JList r); ("ack", JList a);
              ("validation", validation_json s transmitted expected)]).

Definition ack_gated_payload (s : series) (expected : Z) (controls : list control) : res json :=
  fail_if (negb (zlength (queued s) =? expected) || negb (zlength (received s) =? expected)
           || negb (zlength (acked s) =? expected)) Bt06Error
    ("Expected " +:+ str_Z expected +:+ " QUEUE/RX/ACK events, got QUEUE="
       +:+ str_Z (zlength (queued s)) +:+ ", RX=" +:+ str_Z (zlength (received s))
       +:+ ", ACK=" +:+ str_Z (zlength (acked s)));;
  fail_if (negb (zlength (frame_maps s) =? expected)) Bt06Error
    ("Expected " +:+ str_Z expected +:+ " MAP events, got " +:+ str_Z (zlength (frame_maps s)));;
  let queue_ids := ids (queued s) in
  fail_if (negb (distinct queue_ids =? expected)) Bt06Error "QUEUE message IDs are not unique";;
  fail_if (negb (distinct (map fst (frame_maps s)) =? expected)) Bt06Error
    "MAP frame hashes are not unique";;
  fail_if (negb (same_set queue_ids (ids (received s)) && same_set (ids (received s)) (ids (acked s))
                 && same_set (ids (acked s)) (map snd (frame_maps s)))) Bt06Error
    "QUEUE/MAP/RX/ACK message-ID sets differ";;
  let transmitted := match_tx (dict_of (frame_maps s)) (tx_events s) in
  fail_if (negb (zlength transmitted =? expected)) Bt06Error
    ("Expected " +:+ str_Z expected +:+ " matched PUSH TX events, got "
       +:+ str_Z (zlength transmitted));;
  fail_if (negb (distinct (map snd transmitted) =? expected)) Bt06Error
    "A benchmark frame was transmitted more than once";;
  fail_if (negb (zlength controls =? expected)) Bt06Error
    "Control-record count differs from message count";;
  gated ← no_overlap (dict_of (map swap (queued s))) (dict_of (map swap (acked s)))
            (ids (sorted_events (queued s)));
  fail_if (negb gated) Bt06Error "ACK-gating invariant failed: QUEUE(i+1) occurred before ACK(i)";;
  payload_of s transmitted expected controls.

Section collect.
Context {W : Type} `{Host W}.

Definition collect_and_validate_events (sender receiver : ClientHandle) (expected : Z)
  (controls : list control) : M (hst W) json :=
  sender_log ← remote_cat (console sender) REMOTE_CLIENT_LOG;
  receiver_log ← remote_cat (console receiver) REMOTE_CLIENT_LOG;
  of_res (ack_gated_payload
    {| queued := parse_events QUEUE_RE sender_log; received := parse_events RX_RE receiver_log;
       acked := parse_events ACK_RE sender_log; frame_maps := parse_maps sender_log;
       tx_events := parse_tx sender_log |} expected controls).
End collect.

(** ** Laws of the set checks *)

Lemma distinct_full l n : zlength l = n → distinct l = n ↔ NoDup l.
Proof.
  intros Hn. unfold distinct, zlength in *. split.
  - intros Hd. assert (remove_dups l ⊆+ l) as Hsub.
    { apply NoDup_submseteq; [apply NoDup_remove_dups|]. intros x. by rewrite elem_of_remove_dups. }
    apply submseteq_length_Permutation in Hsub; [|lia].
    rewrite <- Hsub. apply NoDup_remove_dups.
  - intros Hl. assert (remove_dups l ≡ₚ l) as ->; [|done].
    apply NoDup_Permutation; [apply NoDup_remove_dups|done|]. intros x. by rewrite elem_of_remove_dups.
Qed.

Lemma same_set_perm l l' :
  NoDup l → zlength l' = zlength l → same_set l l' = true ↔ l' ≡ₚ l.
Proof.
  intros Hl Hlen. unfold same_set, zlength in *. rewrite andb_true_iff, !bool_decide_eq_true. split.
  - intros [Hsub _]. apply NoDup_submseteq in Hsub; [|done]. symmetry.
    apply submseteq_length_Permutation; [done|lia].
  - intros Hp. split; intros x Hx; by rewrite Hp in Hx || rewrite Hp.
Qed.

Lemma dict_of_app {A} (d l : list (string * A)) :
  NoDup (dict_keys (d ++ l)) → foldl (λ d '(k, v), dict_set k v d) d l = d ++ l.
Proof.
  revert d. induction l as [|[k v] l IH]; intros d Hd; cbn; [by rewrite app_nil_r|].
  replace (d ++ (k, v) :: l) with ((d ++ [(k, v)]) ++ l) in * by by rewrite <- app_assoc.
  pose proof (NoDup_keys_app_l _ _ Hd) as Hk. apply NoDup_keys_snoc in Hk as [_ Hk].
  rewrite dict_set_fresh by done. by apply IH.
Qed.

Lemma dict_of_nodup {A} (l : list (string * A)) : NoDup (dict_keys l) → dict_of l = l.
Proof. apply (dict_of_app []). Qed.

Lemma match_tx_elem d tx ts id h :
  (ts, id, h) ∈ match_tx d tx ↔ ∃ n, (ts, 1, n, h) ∈ tx ∧ dict_get h d = Some id.
Proof.
  unfold match_tx. rewrite list_elem_of_omap. split.
  - intros ([[[t a] n] h'] & Hin & Hx). destruct (Z.eqb_spec a 1) as [->|]; [|done]. cbn in Hx.
    destruct (dict_get h' d) eqn:Hd; [|done]. injection Hx as -> -> ->. eauto.
  - intros (n & Hin & Hd). eexists (ts, 1, n, h). split; [done|]. cbn. by rewrite Hd.
Qed.

(** ** A consistent series *)

(** Every message was queued once, sent in one PUSH frame, received once and
    acknowledged once; [transmitted] lists the frames. *)
Record consistent (s : series) (n : Z) (transmitted : list (Z * string * string)) : Prop := {
  co_count : zlength (queued s) = n;
  co_unique : NoDup (ids (queued s));
  co_received : ids (received s) ≡ₚ ids (queued s);
  co_acked : ids (acked s) ≡ₚ ids (queued s);
  co_mapped : map snd (frame_maps s) ≡ₚ ids (queued s);
  co_frames : NoDup (map fst (frame_maps s));
  co_pushed : transmitted = match_tx (frame_maps s) (tx_events s);
  co_once : map snd transmitted ≡ₚ map fst (frame_maps s) }.

Lemma expect_count_bind {A B} n what (l : list A) (k : unit → res B) b :
  expect_count n what l ≫= k = Ok b ↔ zlength l = n ∧ k tt = Ok b.
Proof.
  unfold expect_count. rewrite fail_if_bind_ok, negb_false_iff, Z.eqb_eq. done.
Qed.

Lemma zlength_map {A B} (f : A → B) l : zlength (map f l) = zlength l.
Proof. unfold zlength. by rewrite length_map. Qed.

Lemma identity_checks_ok s n tr : identity_checks s n = Ok tr ↔ consistent s n tr.
Proof.
  unfold identity_checks. rewrite !expect_count_bind.
  rewrite !fail_if_bind_ok, expect_count_bind, !fail_if_bind_ok, !negb_false_iff, !Z.eqb_eq.
  unfold ids. rewrite !zlength_map. split.
  - intros (Hq & Hr & Ha & Hm & Dq & Df & Dm & Sm & Sr & Sa & Ht & Dt & St & [= <-]).
    rewrite (distinct_full _ n) in Dq by by rewrite zlength_map.
    rewrite (distinct_full _ n) in Df by by rewrite zlength_map.
    rewrite (distinct_full _ n) in Dt by by rewrite zlength_map.
    rewrite same_set_perm in Sm, Sr, Sa, St by (done || rewrite !zlength_map; congruence).
    symmetry in St.
    rewrite dict_of_nodup in * by done. by split.
  - intros [Hq Dq Hr Ha Hm Df -> Ht]. unfold ids in *.
    assert (∀ l, l ≡ₚ map snd (queued s) → zlength l = n) as HL.
    { intros l Hl. unfold zlength in *. by rewrite Hl, length_map. }
    assert (zlength (frame_maps s) = n) as Hfm by (by rewrite <- (zlength_map snd); apply HL).
    assert (zlength (match_tx (frame_maps s) (tx_events s)) = n) as Htx.
    { rewrite <- (zlength_map snd). unfold zlength in *. by rewrite Ht, length_map. }
    rewrite dict_of_nodup by done.
    assert (∀ l l' : list string, NoDup l → l' ≡ₚ l → same_set l l' = true) as HS.
    { intros l l' Hl Hp. apply same_set_perm; [done| |done]. unfold zlength. by rewrite Hp. }
    split_and!; try done.
    + by rewrite <- (zlength_map snd); apply HL.
    + by rewrite <- (zlength_map snd); apply HL.
    + apply distinct_full; [by rewrite zlength_map|done].
    + apply distinct_full; [by rewrite zlength_map|done].
    + apply distinct_full; [by rewrite zlength_map|]. by rewrite Hm.
    + by apply HS.
    + by apply HS.
    + by apply HS.
    + apply distinct_full; [by rewrite zlength_map|]. by rewrite Ht.
    + apply HS; [by rewrite Ht|done].
Qed.
