(* ===== verification/Diagnostics.v ===== *)
(** * The apply_diagnostics.py scripts: BT-05 (with BT-06), BT-04 and BT-02

    Each script inserts logging statements into the client's C++ sources by
    replacing source fragments that must occur exactly once.  A fragment and its
    replacement are a [patch], given as lists of lines; the scripts read the
    sources, apply their patches and write the result. *)

From Stdlib Require Import Ascii ZArith Lia.
From stdpp Require Import base list strings sets.
From S2P Require Import Prelude PyNum PyText Host Json Wire Console Events.

Record patch : Type := Patch { old : string; new : string; label : string }.

(** ** The fragments *)

Definition CHRONO : patch := Patch
  (lines_text
  ["#include <algorithm>"])
  (lines_text
  ["#include <algorithm>";
   "#include <chrono>"])
  "include <chrono>".

Definition QUEUE_MAP : patch := Patch
  (lines_text
  ["    auto frame = bc::protocol::Frame::CreatePush(contact->txMailboxId, std::move(" +:+ "*ciphertextOpt));";
   "    {";
   "        std::scoped_lock lock(outboxMutex);";
   "        outbox.push(std::move(frame));";
   "    }";
   EmptyString;
   "    PrintThreadSafe(" +:+ dq +:+ "Message queued for transmission.\n" +:+ dq +:+ ");"])
  (lines_text
  ["    auto frame = bc::protocol::Frame::CreatePush(contact->txMailboxId, std::move(" +:+ "*ciphertextOpt));";
   EmptyString;
   "    const auto bt06FrameHash = bc::core::HashPayload(frame.Serialize());";
   "    BC_INFO(" +:+ dq +:+ "BT06_EVENT MAP frame_hash={} msg_id={}" +:+ dq +:+ ", bt06FrameHash, msgId);";
   EmptyString;
   "    {";
   "        std::scoped_lock lock(outboxMutex);";
   "        outbox.push(std::move(frame));";
   "    }";
   EmptyString;
   "    const auto bt05QueueTimestampNs = std::chrono::duration_cast<std::chrono::nanoseconds>(";
   "                                          std::chrono::system_clock::now().time_since_epoch())";
   "                                          .count();";
   "    BC_INFO(" +:+ dq +:+ "BT05_EVENT QUEUE timestamp_ns={} msg_id={}" +:+ dq +:+ ", bt05QueueTimestampNs, msgId);";
   EmptyString;
   "    PrintThreadSafe(" +:+ dq +:+ "Message queued for transmission.\n" +:+ dq +:+ ");"])
  "QUEUE + MAP diagnostics".

Definition RX : patch := Patch
  (lines_text
  ["    cache.AppendMessage(entry);";
   EmptyString;
   "    bc::protocol::Payload ackPayload(msgId.begin(), msgId.end());"])
  (lines_text
  ["    cache.AppendMessage(entry);";
   EmptyString;
   "    const auto bt05RxTimestampNs = std::chrono::duration_cast<std::chrono::nanoseconds>(";
   "                                       std::chrono::system_clock::now().time_since_epoch())";
   "                                       .count();";
   "    BC_INFO(" +:+ dq +:+ "BT05_EVENT RX timestamp_ns={} msg_id={}" +:+ dq +:+ ", bt05RxTimestampNs, msgId);";
   EmptyString;
   "    bc::protocol::Payload ackPayload(msgId.begin(), msgId.end());"])
  "RX diagnostic".

Definition ACK : patch := Patch
  (lines_text
  ["    cache.UpdateMessageStatus(alias, msgId, bc::domain::client::MessageStatus::DELIVERED);";
   "    PrintThreadSafe(std::format(" +:+ dq +:+ "\nMessage DELIVERED to {}\n>>> " +:+ dq +:+ ", alias));"])
  (lines_text
  ["    cache.UpdateMessageStatus(alias, msgId, bc::domain::client::MessageStatus::DELIVERED);";
   EmptyString;
   "    const auto bt05AckTimestampNs = std::chrono::duration_cast<std::chrono::nanoseconds>(";
   "                                        std::chrono::system_clock::now().time_since_epoch())";
   "                                        .count();";
   "    BC_INFO(" +:+ dq +:+ "BT05_EVENT ACK timestamp_ns={} msg_id={}" +:+ dq +:+ ", bt05AckTimestampNs, msgId);";
   EmptyString;
   "    PrintThreadSafe(std::format(" +:+ dq +:+ "\nMessage DELIVERED to {}\n>>> " +:+ dq +:+ ", alias));"])
  "ACK diagnostic".

Definition CLOCK : patch := Patch
  (lines_text
  ["auto Repl::HandleList() -> void";
   "{";
   "    auto aliases = addressBook.GetAllAliases();"])
  (lines_text
  ["auto Repl::HandleList() -> void";
   "{";
   "    const auto bt06ClockTimestampNs = std::chrono::duration_cast<std::chrono::nanoseconds>(";
   "                                          std::chrono::system_clock::now().time_since_epoch())";
   "                                          .count();";
   "    BC_INFO(" +:+ dq +:+ "BT06_EVENT CLOCK timestamp_ns={}" +:+ dq +:+ ", bt06ClockTimestampNs);";
   EmptyString;
   "    auto aliases = addressBook.GetAllAliases();"])
  "BT-06 clock diagnostic".

Definition TX : patch := Patch
  (lines_text
  ["    writeInProgress = true;";
   "    boost::asio::async_write(socket, boost::asio::buffer(writeQueue.front()),"])
  (lines_text
  ["    writeInProgress = true;";
   EmptyString;
   "    const auto& bt06TxFrame = writeQueue.front();";
   "    const auto bt06TxAction =";
   "        bt06TxFrame.empty() ? 0U : static_cast<unsigned int>(bt06TxFrame.front());";
   "    const auto bt06TxBytes = bt06TxFrame.size();";
   "    const auto bt06TxFrameHash = bc::core::HashPayload(bt06TxFrame);";
   "    const auto bt06TxTimestampNs =";
   "        std::chrono::duration_cast<std::chrono::nanoseconds>(";
   "            std::chrono::system_clock::now().time_since_epoch())";
   "            .count();";
   EmptyString;
   "    BC_INFO(" +:+ dq +:+ "BT06_EVENT TX timestamp_ns={} action={} bytes={} frame_hash={}" +:+ dq +:+ ",";
   "            bt06TxTimestampNs, bt06TxAction, bt06TxBytes, bt06TxFrameHash);";
   EmptyString;
   "    boost::asio::async_write(socket, boost::asio::buffer(writeQueue.front()),"])
  "BT-06 transport TX diagnostic".

Definition BT04_ARRAY : patch := Patch
  (lines_text
  ["#include <array>"])
  (lines_text
  ["#include <array>";
   "#include <chrono>"])
  "include <chrono>".

Definition BT04_TXSTAMP : patch := Patch
  (lines_text
  ["    writeInProgress = true;";
   "    boost::asio::async_write(socket, boost::asio::buffer(writeQueue.front()),"])
  (lines_text
  ["    writeInProgress = true;";
   EmptyString;
   "    const auto txTimestampNs = std::chrono::duration_cast<std::chrono::nanoseconds>(";
   "                                   std::chrono::steady_clock::now().time_since_epoch())";
   "                                   .count();";
   "    const auto& txFrame = writeQueue.front();";
   "    const auto txAction = txFrame.empty() ? 0U : static_cast<unsigned int>(txFrame.front());";
   "    BC_INFO(" +:+ dq +:+ "BT04_EVENT TX timestamp_ns={} action={} bytes={}" +:+ dq +:+ ", txTimestampNs, txAction,";
   "            txFrame.size());";
   EmptyString;
   "    boost::asio::async_write(socket, boost::asio::buffer(writeQueue.front()),"])
  "TX timestamp diagnostic".

Definition BT02_VECTOR : patch := Patch
  (lines_text
  ["#include <span>"])
  (lines_text
  ["#include <span>";
   "#include <vector>"])
  "include <vector>".

Definition BT02_FINGERPRINT : patch := Patch
  (lines_text
  ["    return payload;";
   "}";
   EmptyString;
   "} // namespace"])
  (lines_text
  ["    return payload;";
   "}";
   EmptyString;
   "template <typename Range>";
   "auto Bt02Fingerprint(const Range& data) -> std::string";
   "{";
   "    std::vector<std::uint8_t> bytes(data.begin(), data.end());";
   "    return bc::core::HashPayload(bytes);";
   "}";
   EmptyString;
   "} // namespace"])
  "BT-02 fingerprint helper".

Definition BT02_CIPHERTEXT : patch := Patch
  (lines_text
  ["    if (!ciphertextOpt) {";
   "        std::cout << " +:+ dq +:+ "Encryption failed for contact '" +:+ dq +:+ " << alias << " +:+ dq +:+ "'. Message dropped.\n" +:+ dq +:+ ";";
   "        return;";
   "    }";
   EmptyString;
   "    auto frame = bc::protocol::Frame::CreatePush(contact->txMailboxId, std::move(" +:+ "*ciphertextOpt));"])
  (lines_text
  ["    if (!ciphertextOpt) {";
   "        std::cout << " +:+ dq +:+ "Encryption failed for contact '" +:+ dq +:+ " << alias << " +:+ dq +:+ "'. Message dropped.\n" +:+ dq +:+ ";";
   "        return;";
   "    }";
   EmptyString;
   "    BC_INFO(" +:+ dq +:+ "BT02_EVENT TEXT_CIPHERTEXT alias={} msg_id={} mailbox={} ciphertext={}" +:+ dq +:+ ", alias, msgId,";
   "            bc::core::EncodeHex(contact->txMailboxId.AsSpan()),";
   "            bc::core::EncodeHex(std::span<const std::uint8_t>{ciphertextOpt->data(),";
   "                                                              ciphertextOpt->size()}));";
   EmptyString;
   "    auto frame = bc::protocol::Frame::CreatePush(contact->txMailboxId, std::move(" +:+ "*ciphertextOpt));"])
  "text ciphertext event".

Definition BT02_REQUEST : patch := Patch
  (lines_text
  ["    if (crypto_sign_verify_detached(";
   "            reqDataOpt->signature.data(), reqDataOpt->ephemeralPublicKey.data(),";
   "            reqDataOpt->ephemeralPublicKey.size(), contact->publicKey.data()) != 0) {";
   "        BC_ERROR(" +:+ dq +:+ "Invalid signature on PFS_ROTATE_REQUEST from {}. Potential MITM attack!" +:+ dq +:+ ", alias);";
   "        return;";
   "    }";
   EmptyString;
   "    const bool initialRotation = !contact->initialPfsComplete;"])
  (lines_text
  ["    if (crypto_sign_verify_detached(";
   "            reqDataOpt->signature.data(), reqDataOpt->ephemeralPublicKey.data(),";
   "            reqDataOpt->ephemeralPublicKey.size(), contact->publicKey.data()) != 0) {";
   "        BC_ERROR(" +:+ dq +:+ "Invalid signature on PFS_ROTATE_REQUEST from {}. Potential MITM attack!" +:+ dq +:+ ", alias);";
   "        return;";
   "    }";
   EmptyString;
   "    BC_INFO(" +:+ dq +:+ "BT02_EVENT PFS_ROTATE_REQUEST_VERIFIED alias={} peer_eph_fp={}" +:+ dq +:+ ", alias,";
   "            Bt02Fingerprint(reqDataOpt->ephemeralPublicKey));";
   EmptyString;
   "    const bool initialRotation = !contact->initialPfsComplete;"])
  "PFS request verification event".

Definition BT02_RESPONDER : patch := Patch
  (lines_text
  ["    auto myEphemeralOpt = bc::crypto::EphemeralKey::Generate();";
   "    if (!myEphemeralOpt) {";
   "        return;";
   "    }";
   EmptyString;
   "    std::array<std::uint8_t, bc::crypto::publicKeySize * 2> ackSignedData{};"])
  (lines_text
  ["    auto myEphemeralOpt = bc::crypto::EphemeralKey::Generate();";
   "    if (!myEphemeralOpt) {";
   "        return;";
   "    }";
   EmptyString;
   "    BC_INFO(" +:+ dq +:+ "BT02_EVENT PFS_LOCAL_EPHEMERAL alias={} role=responder fp={}" +:+ dq +:+ ", alias,";
   "            Bt02Fingerprint(myEphemeralOpt->GetPublicKey()));";
   EmptyString;
   "    std::array<std::uint8_t, bc::crypto::publicKeySize * 2> ackSignedData{};"])
  "responder ephemeral event".

Definition BT02_RETAINED : patch := Patch
  (lines_text
  ["        if (!initialRotation) {";
   "            contact->oldRxMailboxId = contact->rxMailboxId;";
   EmptyString;
   "            bc::core::SecureBuffer oldKey(bc::crypto::symmetricKeySize);";
   "            std::ranges::copy(contact->rxKey.AsSpan(), oldKey.AsMutableSpan().begin());";
   "            contact->oldRxKey = std::move(oldKey);";
   "        }";
   EmptyString;
   "        std::array<std::uint8_t, crypto_scalarmult_BYTES> sharedSecret{};"])
  (lines_text
  ["        if (!initialRotation) {";
   "            contact->oldRxMailboxId = contact->rxMailboxId;";
   EmptyString;
   "            bc::core::SecureBuffer oldKey(bc::crypto::symmetricKeySize);";
   "            std::ranges::copy(contact->rxKey.AsSpan(), oldKey.AsMutableSpan().begin());";
   "            contact->oldRxKey = std::move(oldKey);";
   EmptyString;
   "            BC_INFO(" +:+ dq +:+ "BT02_EVENT OLD_RX_RETAINED alias={} old_mailbox={}" +:+ dq +:+ ", alias,";
   "                    bc::core::EncodeHex(contact->oldRxMailboxId->AsSpan()));";
   "        }";
   EmptyString;
   "        std::array<std::uint8_t, crypto_scalarmult_BYTES> sharedSecret{};"])
  "old RX retained event".

Definition BT02_PFS_ACK : patch := Patch
  (lines_text
  ["    if (crypto_sign_verify_detached(ackDataOpt->signature.data(), ackSignedData.data(),";
   "                                    ackSignedData.size(), contact->publicKey.data()) != 0) {";
   "        BC_ERROR(" +:+ dq +:+ "Invalid signature on PFS_ROTATE_ACK from {}. Potential MITM attack!" +:+ dq +:+ ", alias);";
   "        return;";
   "    }";
   EmptyString;
   "    std::array<std::uint8_t, crypto_scalarmult_BYTES> sharedSecret{};"])
  (lines_text
  ["    if (crypto_sign_verify_detached(ackDataOpt->signature.data(), ackSignedData.data(),";
   "                                    ackSignedData.size(), contact->publicKey.data()) != 0) {";
   "        BC_ERROR(" +:+ dq +:+ "Invalid signature on PFS_ROTATE_ACK from {}. Potential MITM attack!" +:+ dq +:+ ", alias);";
   "        return;";
   "    }";
   EmptyString;
   "    BC_INFO(" +:+ dq +:+ "BT02_EVENT PFS_ROTATE_ACK_VERIFIED alias={} peer_eph_fp={}" +:+ dq +:+ ", alias,";
   "            Bt02Fingerprint(ackDataOpt->ephemeralPublicKey));";
   EmptyString;
   "    std::array<std::uint8_t, crypto_scalarmult_BYTES> sharedSecret{};"])
  "PFS ACK verification event".

Definition BT02_TRANSITION : patch := Patch
  (lines_text
  ["    if (!plaintextOpt) {";
   "        PrintThreadSafe(" +:+ dq +:+ "Malformed or tampered PUSH message dropped silently.\n" +:+ dq +:+ ");";
   "        return;";
   "    }";
   EmptyString;
   "    if (!usedOldKey && contact->oldRxMailboxId.has_value()) {";
   "        PrintThreadSafe(std::format(";
   "            " +:+ dq +:+ "\nTransition confirmed for {}. Dropping old mailbox safely.\n>>> " +:+ dq +:+ ", alias));";
   "        contact->oldRxMailboxId = std::nullopt;";
   "        contact->oldRxKey = std::nullopt;";
   "        addressBook.SaveToDisk();";
   "    }"])
  (lines_text
  ["    if (!plaintextOpt) {";
   "        PrintThreadSafe(" +:+ dq +:+ "Malformed or tampered PUSH message dropped silently.\n" +:+ dq +:+ ");";
   "        return;";
   "    }";
   EmptyString;
   "    if (usedOldKey && contact->oldRxMailboxId.has_value()) {";
   "        BC_INFO(" +:+ dq +:+ "BT02_EVENT OLD_RX_MESSAGE_ACCEPTED alias={} mailbox={}" +:+ dq +:+ ", alias,";
   "                bc::core::EncodeHex(contact->oldRxMailboxId->AsSpan()));";
   "    }";
   EmptyString;
   "    if (!usedOldKey && contact->oldRxMailboxId.has_value()) {";
   "        BC_INFO(" +:+ dq +:+ "BT02_EVENT OLD_RX_RETIRED alias={} old_mailbox={} new_mailbox={}" +:+ dq +:+ ", alias,";
   "                bc::core::EncodeHex(contact->oldRxMailboxId->AsSpan()),";
   "                bc::core::EncodeHex(contact->rxMailboxId.AsSpan()));";
   "        PrintThreadSafe(std::format(";
   "            " +:+ dq +:+ "\nTransition confirmed for {}. Dropping old mailbox safely.\n>>> " +:+ dq +:+ ", alias));";
   "        contact->oldRxMailboxId = std::nullopt;";
   "        contact->oldRxKey = std::nullopt;";
   "        addressBook.SaveToDisk();";
   "    }"])
  "old/new RX transition events".

Definition BT02_DELIVERED : patch := Patch
  (lines_text
  ["    std::string msgId(plaintextOpt->begin(), plaintextOpt->end());";
   "    cache.UpdateMessageStatus(alias, msgId, bc::domain::client::MessageStatus::DELIVERED);";
   "    PrintThreadSafe(std::format(" +:+ dq +:+ "\nMessage DELIVERED to {}\n>>> " +:+ dq +:+ ", alias));"])
  (lines_text
  ["    std::string msgId(plaintextOpt->begin(), plaintextOpt->end());";
   "    cache.UpdateMessageStatus(alias, msgId, bc::domain::client::MessageStatus::DELIVERED);";
   "    BC_INFO(" +:+ dq +:+ "BT02_EVENT ACK_DELIVERED alias={} msg_id={}" +:+ dq +:+ ", alias, msgId);";
   "    PrintThreadSafe(std::format(" +:+ dq +:+ "\nMessage DELIVERED to {}\n>>> " +:+ dq +:+ ", alias));"])
  "ACK delivery event".

Definition BT02_INITIATOR : patch := Patch
  (lines_text
  ["    auto ephemeralOpt = bc::crypto::EphemeralKey::Generate();";
   "    if (!ephemeralOpt) {";
   "        BC_ERROR(" +:+ dq +:+ "Failed to generate ephemeral key for '{}'" +:+ dq +:+ ", alias);";
   "        return false;";
   "    }";
   EmptyString;
   "    std::array<std::uint8_t, bc::domain::client::cryptoSignBytes> signature{};"])
  (lines_text
  ["    auto ephemeralOpt = bc::crypto::EphemeralKey::Generate();";
   "    if (!ephemeralOpt) {";
   "        BC_ERROR(" +:+ dq +:+ "Failed to generate ephemeral key for '{}'" +:+ dq +:+ ", alias);";
   "        return false;";
   "    }";
   EmptyString;
   "    BC_INFO(" +:+ dq +:+ "BT02_EVENT PFS_LOCAL_EPHEMERAL alias={} role=initiator fp={}" +:+ dq +:+ ", alias,";
   "            Bt02Fingerprint(ephemeralOpt->GetPublicKey()));";
   EmptyString;
   "    std::array<std::uint8_t, bc::domain::client::cryptoSignBytes> signature{};"])
  "initiator ephemeral event".

(** ** Applying a patch *)

(** [what] is the file the message names. *)
Definition replace_once (what text : string) (p : patch) : res string :=
  let n := count (old p) text in
  fail_if (negb (n =? 1)%nat) RuntimeError
    (label p +:+ ": expected exactly one matching source fragment, found " +:+ str_nat n
       +:+ ". The benchmark branch probably changed; inspect " +:+ what
       +:+ " before applying diagnostics.");;
  mret (replace_first (old p) (new p) text).

(** [text = replace_once(text, ...)], one patch after the other *)
Fixpoint replace_all (what text : string) (ps : list patch) : res string :=
  match ps with
  | [] => Ok text
  | p :: ps' => text' ← replace_once what text p; replace_all what text' ps'
  end.

(** ** BT-05 and BT-06 *)

Definition BT05_MARKERS : list string := ["BT05_EVENT QUEUE"; "BT05_EVENT RX"; "BT05_EVENT ACK"].
Definition BT06_CLOCK_MARKER : string := "BT06_EVENT CLOCK".
Definition BT06_MAP_MARKER : string := "BT06_EVENT MAP".
Definition BT06_TX_MARKER : string := "BT06_EVENT TX".

Definition ensure_chrono (text : string) : res string :=
  if contains ("#include <chrono>" +:+ nl) text then Ok text else replace_once "the source" text CHRONO.

Section scripts.
Context {W : Type} `{Host W} (PROJECT_ROOT : string).

Definition REPL_CPP : path := joinpath PROJECT_ROOT "libs/cli/src/repl.cpp".
Definition TCP_CLIENT_CPP : path := joinpath PROJECT_ROOT "libs/network/src/tcp_client.cpp".

Definition apply_bt05_and_bt06_map (text : string) : M (hst W) string :=
  let bt05_present := map (λ marker, contains marker text) BT05_MARKERS in
  let map_present := contains BT06_MAP_MARKER text in
  if forallb id bt05_present && map_present then
    print "[+] BT-05 QUEUE/RX/ACK and BT-06 MAP diagnostics are already present";; mret text
  else
    raise_if (existsb id bt05_present || map_present) RuntimeError
      "Only part of the BT-05/BT-06 message diagnostics is present in repl.cpp. Restore repl.cpp to the branch version and rerun --prepare.";;
    text ← of_res (ensure_chrono text);
    text ← of_res (replace_all "the source" text [QUEUE_MAP; RX; ACK]);
    print "[+] Applied BT-05 QUEUE/RX/ACK and BT-06 MAP diagnostics";;
    mret text.

Definition apply_bt06_clock (text : string) : M (hst W) string :=
  if contains BT06_CLOCK_MARKER text then
    print "[+] BT-06 in-process clock diagnostic is already present";; mret text
  else
    text ← of_res (ensure_chrono text);
    text ← of_res (replace_once "the source" text CLOCK);
    print "[+] Applied BT-06 in-process clock diagnostic";;
    mret text.

Definition apply_bt06_tx (text : string) : M (hst W) string :=
  if contains BT06_TX_MARKER text then
    print "[+] BT-06 transport TX diagnostic is already present";; mret text
  else
    text ← of_res (ensure_chrono text);
    text ← of_res (replace_once "the source" text TX);
    print "[+] Applied BT-06 transport TX diagnostic";;
    mret text.

Definition main : M (hst W) Z :=
  repl_text ← call (EReadText REPL_CPP);
  repl_text ← apply_bt05_and_bt06_map repl_text;
  repl_text ← apply_bt06_clock repl_text;
  tcp_text ← call (EReadText TCP_CLIENT_CPP);
  tcp_text ← apply_bt06_tx tcp_text;
  call (EWriteText REPL_CPP repl_text);;
  call (EWriteText TCP_CLIENT_CPP tcp_text);;
  print "[i] Rebuild the Yocto client image before running BT-05/BT-06.";;
  mret 0%Z.

(** ** BT-04 *)

(** The shape the two scripts for one file share. *)
Definition patch_file (file : path) (marker what tests added : string) (ps : list patch) : M (hst W) Z :=
  text ← call (EReadText file);
  if contains marker text then
    print ("[+] " +:+ tests +:+ " diagnostics are already present in " +:+ what);; mret 0%Z
  else
    text ← of_res (replace_all (if bool_decide (tests = "BT-04") then "tcp_client.cpp" else "repl.cpp")
                     text ps);
    call (EWriteText file text);;
    print ("[+] Applied " +:+ tests +:+ added +:+ what);;
    print ("[i] Rebuild the Yocto client image before running " +:+ tests +:+ ".");;
    mret 0%Z.

Definition BT04_MARKER : string := "BT04_EVENT TX".

Definition bt04_main : M (hst W) Z :=
  patch_file TCP_CLIENT_CPP BT04_MARKER "libs/network/src/tcp_client.cpp" "BT-04"
    " TX timestamp diagnostics to " [BT04_ARRAY; BT04_TXSTAMP].

(** ** BT-02 *)

Definition BT02_MARKER : string := "BT02_EVENT TEXT_CIPHERTEXT".
Definition BT02_PATCHES : list patch :=
  [BT02_VECTOR; BT02_FINGERPRINT; BT02_CIPHERTEXT; BT02_REQUEST; BT02_RESPONDER; BT02_RETAINED;
   BT02_PFS_ACK; BT02_TRANSITION; BT02_DELIVERED; BT02_INITIATOR].

Definition bt02_main : M (hst W) Z :=
  patch_file REPL_CPP BT02_MARKER "libs/cli/src/repl.cpp" "BT-02"
    " benchmark diagnostics to " BT02_PATCHES.

(** [raise SystemExit(main())], with the handler around it *)
Definition script (tests : string) (body : M (hst W) Z) : M (hst W) Z :=
  try_except body
    (except [Exception_] (λ exc,
       eprint ("[!] Failed to apply " +:+ tests +:+ " diagnostics: " +:+ ex_msg exc);; mret 1%Z)).
Definition bt05_script : M (hst W) Z := script "BT-05/BT-06" main.
Definition bt04_script : M (hst W) Z := script "BT-04" bt04_main.
Definition bt02_script : M (hst W) Z := script "BT-02" bt02_main.
End scripts.

(** ** Patches only insert *)

Definition chars (s : string) : list ascii := String.list_ascii_of_string s.
(** Every character of [t] is still there in [t'], in the same order. *)
Definition retains (t t' : string) : Prop := sublist (chars t) (chars t').

Fixpoint subsequence (l k : list ascii) : bool :=
  match l, k with
  | [], _ => true
  | _, [] => false
  | x :: l', y :: k' => if bool_decide (x = y) then subsequence l' k' else subsequence l k'
  end.

Lemma subsequence_sublist l k : subsequence l k = true → sublist l k.
Proof.
  revert l. induction k as [|y k IH]; intros [|x l]; cbn; try done; intros Hs.
  - apply sublist_nil_l.
  - case_bool_decide; [subst; by apply sublist_skip, IH|by apply sublist_cons, IH].
Qed.

Lemma chars_app s t : chars (s +:+ t) = chars s ++ chars t.
Proof. unfold chars. induction s as [|c s IH]; [done|]. rewrite app_str_cons. cbn. by rewrite IH. Qed.

#[global] Instance retains_preorder : PreOrder retains.
Proof. unfold retains. split; [intros t; reflexivity|intros t u v; apply transitivity]. Qed.

(** A patch that keeps what it replaces, and does not tear the marks [ms] apart. *)
Definition gentle (ms : list string) (p : patch) : bool :=
  subsequence (chars (old p)) (chars (new p)) && forallb (λ m, disjointable m (old p)) ms.

Lemma replace_once_spec what text p t' :
  replace_once what text p = Ok t' →
  ∃ a b, text = a +:+ old p +:+ b ∧ t' = a +:+ new p +:+ b.
Proof.
  unfold replace_once. intros Hr. apply fail_if_bind_ok in Hr as [Hc [= <-]].
  apply negb_false_iff, Nat.eqb_eq, count_one in Hc as (a & b & Ht & Hp & _).
  exists a, b. split; [done|]. unfold replace_first. by rewrite Hp.
Qed.

Lemma replace_once_gentle what ms text p t' :
  gentle ms p = true → replace_once what text p = Ok t' →
  retains text t' ∧
  (∀ m, m ∈ ms → contains m text = true → contains m t' = true) ∧
  (∀ m, contains m (new p) = true → contains m t' = true).
Proof.
  unfold gentle. rewrite andb_true_iff, forallb_forall. intros [Hs Hd] Hr.
  apply replace_once_spec in Hr as (a & b & -> & ->). split_and!.
  - unfold retains. rewrite !chars_app. apply subsequence_sublist in Hs.
    by apply sublist_app, sublist_app.
  - intros m Hm. apply contains_replaced, Hd. by apply list_elem_of_In.
  - intros m Hm. by apply contains_app_r, contains_app_l.
Qed.

Lemma replace_all_gentle what ms text ps t' :
  forallb (gentle ms) ps = true → replace_all what text ps = Ok t' →
  retains text t' ∧
  (∀ m, m ∈ ms → contains m text = true ∨ existsb (λ p, contains m (new p)) ps = true →
        contains m t' = true).
Proof.
  revert text. induction ps as [|p ps IH]; intros text Hg Hr; cbn [replace_all forallb] in *.
  - injection Hr as <-. split; [reflexivity|]. intros m _ [?|?]; [done|discriminate].
  - apply andb_true_iff in Hg as [Hp Hps]. apply r_bind_ok in Hr as (t1 & H1 & H2).
    destruct (replace_once_gentle _ _ _ _ _ Hp H1) as (R1 & K1 & N1).
    destruct (IH t1 Hps H2) as [R2 K2]. split; [by etransitivity|].
    intros m Hm Hor. apply K2; [done|]. cbn [existsb] in Hor. rewrite orb_true_iff in Hor.
    destruct Hor as [Ht|[Hn|Hrest]]; [left; by apply K1|left; by apply N1|by right].
Qed.

(** ** What the scripts read and write *)

Definition writes_of (ev : event) : list (path * string) :=
  match ev_eff ev with EWriteText p s => [(p, s)] | _ => [] end.
Definition reads_of (ev : event) : list (path * string) :=
  match ev_eff ev in eff A return A + exn → list (path * string) with
  | EReadText p => λ r, match r with inl s => [(p, s)] | inr _ => [] end
  | _ => λ _, []
  end (ev_out ev).
Definition writes (l : list event) : list (path * string) := l ≫= writes_of.
Definition reads (l : list event) : list (path * string) := l ≫= reads_of.

Definition has_marks (marks : list string) (t : string) : Prop :=
  Forall (λ m, contains m t = true) marks.

(** The source [t] with the logging statements of [marks] added; unchanged if they
    were all there. *)
Definition instrumented (marks : list string) (t t' : string) : Prop :=
  retains t t' ∧ has_marks marks t' ∧ (has_marks marks t → t' = t).

Definition REPL_MARKS : list string := BT05_MARKERS ++ [BT06_MAP_MARKER; BT06_CLOCK_MARKER].

(** Neither reads nor writes a file. *)
Definition silent (ev : event) : Prop := writes_of ev = [] ∧ reads_of ev = [].

Lemma silent_trace l : Forall silent l → writes l = [] ∧ reads l = [].
Proof.
  induction 1 as [|ev l [Hw Hr] _ [IHw IHr]]; [done|]. unfold writes, reads in *.
  cbn [mbind list_bind]. rewrite Hw, Hr, IHw, IHr. done.
Qed.

Section runs.
Context {W : Type} `{Host W} (PROJECT_ROOT : string).
#[local] Hint Extern 1 (keeps (extends silent) (call _)) =>
  (apply keeps_call_extends; intros; split; reflexivity) : py.

Lemma apply_map_silent text : keeps (extends silent) (apply_bt05_and_bt06_map (W:=W) text).
Proof. unfold apply_bt05_and_bt06_map, print. cbv zeta. keeps_tac. Qed.
Lemma apply_clock_silent text : keeps (extends silent) (apply_bt06_clock (W:=W) text).
Proof. unfold apply_bt06_clock, print. keeps_tac. Qed.
Lemma apply_tx_silent text : keeps (extends silent) (apply_bt06_tx (W:=W) text).
Proof. unfold apply_bt06_tx, print. keeps_tac. Qed.

Lemma ensure_chrono_gentle text t' :
  ensure_chrono text = Ok t' →
  retains text t' ∧ ∀ m, m ∈ REPL_MARKS → contains m text = true → contains m t' = true.
Proof.
  unfold ensure_chrono. destruct (contains _ text).
  - intros [= <-]. split; [reflexivity|done].
  - intros Hr. apply (replace_once_gentle _ REPL_MARKS) in Hr as (? & ? & _); [done|by vm_compute].
Qed.

Lemma apply_map_marks text n (st : hst W) :
  wp True (apply_bt05_and_bt06_map text)
    (λ t' _, instrumented (BT05_MARKERS ++ [BT06_MAP_MARKER]) text t' ∧
             (contains BT06_CLOCK_MARKER text = true → contains BT06_CLOCK_MARKER t' = true))
    (λ _ _, True) n st.
Proof.
  unfold apply_bt05_and_bt06_map. cbv zeta.
  destruct (forallb id _ && contains BT06_MAP_MARKER text) eqn:Hall.
  - apply wp_bind, wp_call_cases; [|done]. intros [] w _. apply wp_ret. split; [|done].
    split_and!; [reflexivity| |done]. cbn in Hall. rewrite !andb_true_iff in Hall.
    destruct Hall as [(H1 & H2 & H3 & _) H4]. repeat constructor; done.
  - apply wp_bind, wp_raise_if. destruct (_ || _); [done|]. apply wp_bind, wp_of_res.
    destruct (ensure_chrono text) as [t1| |] eqn:E1; [|done..].
    apply wp_bind, wp_of_res. destruct (replace_all _ t1 _) as [t2| |] eqn:E2; [|done..].
    apply wp_bind, wp_call_cases; [|done]. intros [] w _. apply wp_ret.
    apply ensure_chrono_gentle in E1 as [R1 K1].
    apply (replace_all_gentle _ REPL_MARKS) in E2 as [R2 K2]; [|by vm_compute].
    split; [split_and!; [by etransitivity| |]|].
    + repeat constructor; (apply K2; [by apply list_elem_of_In; vm_compute; tauto|right; by vm_compute]).
    + intros Hm. exfalso. unfold has_marks in Hm. cbn [app BT05_MARKERS map forallb] in Hm, Hall.
      rewrite !Forall_cons in Hm.
      destruct Hm as (H1 & H2 & H3 & H4 & _). rewrite H1, H2, H3, H4 in Hall. done.
    + intros Hc. assert (BT06_CLOCK_MARKER ∈ REPL_MARKS) as Hin
        by (apply list_elem_of_In; vm_compute; tauto).
      apply K2; [done|]. left. by apply K1.
Qed.

Lemma one_patch_marks marks p text t1 t2 m :
  ensure_chrono text = Ok t1 → gentle marks p = true → marks ⊆ REPL_MARKS →
  contains m text = false → contains m (new p) = true →
  replace_once "the source" t1 p = Ok t2 →
  instrumented [m] text t2 ∧
  ∀ k, k ∈ marks → contains k text = true → contains k t2 = true.
Proof.
  intros E1 Hg Hsub Hno Hm E2. apply ensure_chrono_gentle in E1 as [R1 K1].
  destruct (replace_once_gentle _ _ _ _ _ Hg E2) as (R2 & K2 & N2). split.
  - split_and!; [by etransitivity|repeat constructor; by apply N2|].
    intros Hm'%Forall_inv. congruence.
  - intros k Hk Ht. apply K2; [done|]. apply K1; [by apply Hsub|done].
Qed.

Lemma apply_clock_marks text n (st : hst W) :
  wp True (apply_bt06_clock text)
    (λ t' _, instrumented [BT06_CLOCK_MARKER] text t' ∧
             ∀ m, m ∈ REPL_MARKS → contains m text = true → contains m t' = true)
    (λ _ _, True) n st.
Proof.
  unfold apply_bt06_clock. destruct (contains BT06_CLOCK_MARKER text) eqn:Hc.
  - apply wp_bind, wp_call_cases; [|done]. intros [] w _. apply wp_ret. split; [|done].
    split_and!; [reflexivity|by repeat constructor|done].
  - apply wp_bind, wp_of_res. destruct (ensure_chrono text) as [t1| |] eqn:E1; [|done..].
    apply wp_bind, wp_of_res. destruct (replace_once _ t1 _) as [t2| |] eqn:E2; [|done..].
    apply wp_bind, wp_call_cases; [|done]. intros [] w _. apply wp_ret.
    by apply (one_patch_marks REPL_MARKS CLOCK text t1 t2); [|vm_compute| | |vm_compute|].
Qed.

Lemma apply_tx_marks text n (st : hst W) :
  wp True (apply_bt06_tx text) (λ t' _, instrumented [BT06_TX_MARKER] text t') (λ _ _, True) n st.
Proof.
  unfold apply_bt06_tx. destruct (contains BT06_TX_MARKER text) eqn:Hc.
  - apply wp_bind, wp_call_cases; [|done]. intros [] w _. apply wp_ret.
    split_and!; [reflexivity|by repeat constructor|done].
  - apply wp_bind, wp_of_res. destruct (ensure_chrono text) as [t1| |] eqn:E1; [|done..].
    apply wp_bind, wp_of_res. destruct (replace_once _ t1 _) as [t2| |] eqn:E2; [|done..].
    apply wp_bind, wp_call_cases; [|done]. intros [] w _. apply wp_ret.
    by apply (one_patch_marks [] TX text t1 t2); [|vm_compute|intros ? ?%not_elem_of_nil| |vm_compute|].
Qed.

Lemma writes_app l k : writes (l ++ k) = writes l ++ writes k.
Proof. apply bind_app. Qed.
Lemma reads_app l k : reads (l ++ k) = reads l ++ reads k.
Proof. apply bind_app. Qed.

(** What a run that added [l] to the trace has written, of a prefix of the two files. *)
Definition wrote (k : list (path * string)) (l : list event) : Prop :=
  ∃ repl tcp repl' tcp',
    reads l = [(REPL_CPP PROJECT_ROOT, repl); (TCP_CLIENT_CPP PROJECT_ROOT, tcp)] ∧
    instrumented REPL_MARKS repl repl' ∧ instrumented [BT06_TX_MARKER] tcp tcp' ∧
    writes l ++ k = [(REPL_CPP PROJECT_ROOT, repl'); (TCP_CLIENT_CPP PROJECT_ROOT, tcp')].

(** A step that neither reads nor writes keeps what was read and written so far. *)
Lemma silent_step {A} (m : M (hst W) A) (Q : A → Prop) (R : A → hst W → Prop) E n (st : hst W) tr rd :
  keeps (extends silent) m → wp True m (λ a _, Q a) (λ _ _, True) n st →
  (∃ l, trace st = tr ++ l ∧ writes l = [] ∧ reads l = rd) →
  (∀ a st' l, trace st' = tr ++ l → writes l = [] → reads l = rd → Q a → R a st') →
  (∀ e st' l, trace st' = tr ++ l → writes l = [] → E e st') →
  wp True m R E n st.
Proof.
  intros Hk Hwp (l & Ht & Hw & Hr) HR HE.
  eapply wp_mono; [| |apply (wp_keeps _ _ _ _ _ _ Hk Hwp)].
  - intros a st' [HQ (l' & Ht' & Hs)]. apply silent_trace in Hs as [Hw' Hr'].
    eapply (HR a st' (l ++ l')); [by rewrite Ht', Ht, app_assoc|by rewrite writes_app, Hw, Hw'| |done].
    by rewrite reads_app, Hr, Hr', app_nil_r.
  - intros e st' [_ (l' & Ht' & Hs)]. apply silent_trace in Hs as [Hw' _].
    eapply (HE e st' (l ++ l')); [by rewrite Ht', Ht, app_assoc|by rewrite writes_app, Hw, Hw'].
Qed.

Lemma instrumented_both repl t1 t2 :
  instrumented (BT05_MARKERS ++ [BT06_MAP_MARKER]) repl t1 →
  instrumented [BT06_CLOCK_MARKER] t1 t2 →
  (∀ m, m ∈ REPL_MARKS → contains m t1 = true → contains m t2 = true) →
  instrumented REPL_MARKS repl t2.
Proof.
  intros (R1 & M1 & U1) (R2 & M2 & U2) K.
  change REPL_MARKS with ((BT05_MARKERS ++ [BT06_MAP_MARKER]) ++ [BT06_CLOCK_MARKER]) in *.
  unfold has_marks in *. split_and!; [by etransitivity| |].
  - apply Forall_app. split; [|done]. rewrite Forall_forall in M1 |- *. intros m Hm.
    apply K; [set_solver|by apply M1].
  - intros [H1 H2]%Forall_app. rewrite U2; [by apply U1|]. by rewrite U1.
Qed.

Ltac nothing_written l := intros ? ? l ? ?; exists l; by auto.

Lemma main_wp n (st : hst W) :
  wp True (main PROJECT_ROOT)
    (λ z st', z = 0%Z ∧ ∃ l, trace st' = trace st ++ l ∧ wrote [] l)
    (λ _ st', ∃ l, trace st' = trace st ++ l ∧ (writes l = [] ∨ ∃ k, wrote k l)) n st.
Proof.
  unfold main. apply wp_bind, wp_call_cases.
  2: { intros e w _. exists [Ev (EReadText (REPL_CPP PROJECT_ROOT)) (inr e)]. auto. }
  intros repl w1 _. apply wp_bind.
  eapply (silent_step _ _ _ _ _ _ (trace st) [(REPL_CPP PROJECT_ROOT, repl)] (apply_map_silent repl)
    (apply_map_marks repl n _)); [eexists; split; [done|done]| |nothing_written l].
  intros t1 s1 l1 T1 W1 R1 [I1 C1]. apply wp_bind.
  eapply (silent_step _ _ _ _ _ _ (trace st) [(REPL_CPP PROJECT_ROOT, repl)] (apply_clock_silent t1)
    (apply_clock_marks t1 n _)); [by eexists| |nothing_written l].
  intros t2 s2 l2 T2 W2 R2 [I2 C2]. apply wp_bind, wp_call_cases.
  2: { intros e w _. exists (l2 ++ [Ev (EReadText (TCP_CLIENT_CPP PROJECT_ROOT)) (inr e)]).
       cbn [trace]. rewrite T2, writes_app, W2, app_assoc. auto. }
  intros tcp w3 _. apply wp_bind.
  eapply (silent_step _ _ _ _ _ _ (trace st)
    [(REPL_CPP PROJECT_ROOT, repl); (TCP_CLIENT_CPP PROJECT_ROOT, tcp)] (apply_tx_silent tcp)
    (apply_tx_marks tcp n _)); [| |nothing_written l].
  { eexists. cbn [trace]. rewrite T2, <- app_assoc. split; [done|].
    by rewrite writes_app, reads_app, W2, R2. }
  intros t3 s3 l3 T3 W3 R3 I3. pose proof (instrumented_both _ _ _ I1 I2 C2) as I12.
  assert (∀ l k, reads l = [] → writes l ++ k =
    [(REPL_CPP PROJECT_ROOT, t2); (TCP_CLIENT_CPP PROJECT_ROOT, t3)] → wrote k (l3 ++ l)) as HW.
  { intros l k Hr Hw. exists repl, tcp, t2, t3. rewrite reads_app, writes_app, R3, W3, Hr. by split_and!. }
  apply wp_bind, wp_call_cases.
  2: { intros e w _. exists (l3 ++ [Ev (EWriteText (REPL_CPP PROJECT_ROOT) t2) (inr e)]).
       cbn [trace]. rewrite T3, app_assoc. split; [done|]. right. eexists. by apply HW. }
  intros [] w4 _. apply wp_bind, wp_call_cases.
  2: { intros e w _. exists (l3 ++ [Ev (EWriteText (REPL_CPP PROJECT_ROOT) t2) (inl tt);
         Ev (EWriteText (TCP_CLIENT_CPP PROJECT_ROOT) t3) (inr e)]).
       cbn [trace]. rewrite T3, <- !app_assoc. split; [done|]. right. exists []. by apply HW. }
  intros [] w5 _. apply wp_bind, wp_call_cases.
  2: { intros e w _. eexists (l3 ++ [Ev (EWriteText (REPL_CPP PROJECT_ROOT) t2) (inl tt);
         Ev (EWriteText (TCP_CLIENT_CPP PROJECT_ROOT) t3) (inl tt); _]).
       cbn [trace]. rewrite T3, <- !app_assoc. split; [done|]. right. exists []. by apply HW. }
  intros [] w6 _. apply wp_ret. split; [done|].
  eexists (l3 ++ [Ev (EWriteText (REPL_CPP PROJECT_ROOT) t2) (inl tt);
    Ev (EWriteText (TCP_CLIENT_CPP PROJECT_ROOT) t3) (inl tt); _]).
  cbn [trace]. rewrite T3, <- !app_assoc. split; [done|]. by apply HW.
Qed.
End runs.

(** C35: Preparing the sources is all or nothing, and ends on every host.  If the
    script returns, it has read both sources and written both back with the five,
    respectively one, diagnostic marks in them, every character of the original kept
    in order, and nothing changed where the marks were all there; if it fails, it has
    written nothing, or the complete new text of the first file or of both. *)
Theorem diagnostics_all_or_nothing {W} `{Host W} root (st : hst W) :
  ∃ r st', returns (main root) st r st' ∧ ∃ l, trace st' = trace st ++ l ∧
    match r with
    | Ok z => z = 0%Z ∧ wrote root [] l
    | Raise _ => writes l = [] ∨ ∃ k, wrote root k l
    | NoFuel => False
    end.
Proof.
  destruct (total_post (main root) _ _ st ltac:(total_deep; ends_tac) (λ n, main_wp root n st))
    as (r & st' & Hr & Hp).
  exists r, st'. split; [done|]. destruct r as [z|e|]; [|exact Hp|done].
  destruct Hp as [Hz (l & Hl & Hw)]. by exists l.
Qed.

(** ** What the instrumented client logs is read back *)

(** [std::format]: each pair of braces takes the next argument. *)
Fixpoint std_format (fmt : string) (args : list string) : string :=
  match args with
  | [] => fmt
  | a :: args' =>
      match partition "{}" fmt with
      | Some (x, y) => x +:+ a +:+ std_format y args'
      | None => fmt
      end
  end.

(** A log: lines the instrumented statement with format [fmt] wrote, after the
    logger's own prefix, among other lines. *)
Inductive log_item : Type :=
| Diag (prefix : string) (values : list string)
| Other (line : string).

Definition item_line (fmt : string) (i : log_item) : string :=
  match i with Diag prefix vs => prefix +:+ std_format fmt vs | Other line => line end.
Definition log_text (fmt : string) (log : list log_item) : string :=
  lines_text (map (item_line fmt) log).
Definition logged (log : list log_item) : list (list string) :=
  omap (λ i, match i with Diag _ vs => Some vs | Other _ => None end) log.

Definition QUEUE_FIELDS : fields :=
  [("BT05_EVENT QUEUE timestamp_ns=", is_digit); (" msg_id=", is_hex)].
Definition RX_FIELDS : fields :=
  [("BT05_EVENT RX timestamp_ns=", is_digit); (" msg_id=", is_hex)].
Definition ACK_FIELDS : fields :=
  [("BT05_EVENT ACK timestamp_ns=", is_digit); (" msg_id=", is_hex)].
Definition MAP_FIELDS : fields := [("BT06_EVENT MAP frame_hash=", is_hex); (" msg_id=", is_hex)].
Definition TX_FIELDS : fields :=
  [("BT06_EVENT TX timestamp_ns=", is_digit); (" action=", is_digit); (" bytes=", is_digit);
   (" frame_hash=", is_hex)].

Definition fields_format (fs : fields) : string :=
  foldr (λ f acc, f.1 +:+ "{}" +:+ acc) EmptyString fs.

(** The mark a line of this kind begins with. *)
Definition field_mark (fs : fields) : string := match fs with (l, _) :: _ => l | [] => EmptyString end.

Definition clean_char (c : ascii) : bool := negb (is_linebreak c) && negb (nat_of_ascii c =? 27)%nat.
Definition clean (s : string) : bool := all_chars clean_char s.

Definition item_ok (fs : fields) (i : log_item) : Prop :=
  match i with
  | Diag prefix vs => clean prefix = true ∧ contains (field_mark fs) prefix = false ∧
                      Forall2 field_ok fs vs
  | Other line => clean line = true ∧ contains (field_mark fs) line = false
  end.

(** The formats are cut at their braces: no literal has one. *)
Definition plain_fields (fs : fields) : bool :=
  forallb (λ f, clean f.1 && all_chars (λ c, negb (is_eq "{"%char c)) f.1) fs.
(** No captured character is a line break or an escape. *)
Definition clean_fields (fs : fields) : Prop :=
  Forall (λ f : string * (ascii → bool), ∀ c, f.2 c = true → clean_char c = true) fs.

Lemma partition_brace l t :
  all_chars (λ c, negb (is_eq "{"%char c)) l = true → partition "{}" (l +:+ "{}" +:+ t) = Some (l, t).
Proof.
  intros Hl. apply partition_at; [done|].
  destruct (contains "{}" l) eqn:E; [|done]. apply contains_iff in E as (a & b & ->).
  rewrite !all_chars_app in Hl. by rewrite (andb_comm (all_chars _ a)) in Hl.
Qed.

Lemma std_format_fields fs vs :
  plain_fields fs = true → length fs = length vs →
  std_format (fields_format fs) vs = fields_text fs vs.
Proof.
  revert vs. induction fs as [|[l p] fs IH]; intros [|v vs] Hp Hl; try done.
  cbn [plain_fields forallb] in Hp. apply andb_true_iff in Hp as [[_ Hb]%andb_true_iff Hp].
  cbn [fields_format foldr std_format fields_text]. fold (fields_format fs).
  rewrite partition_brace by done. by rewrite IH by (done || by injection Hl).
Qed.

Lemma fields_text_clean fs vs :
  plain_fields fs = true → clean_fields fs → Forall2 field_ok fs vs → clean (fields_text fs vs) = true.
Proof.
  intros Hp Hc Hv. revert Hp Hc. induction Hv as [|[l p] v fs vs [_ Hv] _ IH]; intros Hp Hc; [done|].
  cbn [plain_fields forallb] in Hp. apply andb_true_iff in Hp as [[Hl _]%andb_true_iff Hp].
  inversion Hc as [|? ? Hc1 Hc2]; subst. cbn [fields_text fst snd] in *. unfold clean in *.
  rewrite !all_chars_app, Hl, IH by done. cbn.
  by rewrite (all_chars_mono _ _ _ Hc1 Hv).
Qed.

Lemma strip_ansi_clean t : all_chars (λ c, negb (nat_of_ascii c =? 27)%nat) t = true → strip_ansi t = t.
Proof.
  intros Ht. apply re_sub_absent. destruct (contains _ t) eqn:E; [|done].
  apply contains_iff in E as (a & b & ->). rewrite !all_chars_app in Ht.
  by rewrite (andb_comm (all_chars _ a)) in Ht.
Qed.

Lemma clean_lines ls :
  Forall (λ l, clean l = true) ls →
  splitlines (strip_ansi (lines_text ls)) = ls.
Proof.
  intros Hls. rewrite strip_ansi_clean.
  - apply splitlines_lines_text. eapply Forall_impl; [exact Hls|]. intros l. apply all_chars_mono.
    intros c. unfold clean_char. by intros [? _]%andb_true_iff.
  - induction Hls as [|l ls Hl _ IH]; [done|]. cbn [lines_text foldr]. fold (lines_text ls).
    rewrite !all_chars_app, IH, andb_true_r. rewrite (all_chars_mono clean_char _ l); [done| |done].
    intros c. unfold clean_char. by intros [_ ?]%andb_true_iff.
Qed.

Lemma omap_cons_eq {A B} (g : A → option B) x l :
  omap g (x :: l) = match g x with Some y => y :: omap g l | None => omap g l end.
Proof. done. Qed.

(** Reading a log gives the values of the diagnostic lines, in order. *)
Lemma parse_log {A} fs (f : list string → A) log :
  unbordered (field_mark fs) = true → separated fs = true → plain_fields fs = true → clean_fields fs →
  Forall (item_ok fs) log →
  parse_lines (fields_re fs) f (log_text (fields_format fs) log) = map f (logged log).
Proof.
  intros Hu Hs Hp Hc Hlog. destruct fs as [|[l p] fs]; [done|]. cbn [field_mark] in *.
  assert (∀ i, item_ok ((l, p) :: fs) i → item_line (fields_format ((l, p) :: fs)) i =
    match i with Diag pre vs => pre +:+ fields_text ((l, p) :: fs) vs | Other line => line end) as Hline.
  { intros [pre vs|line]; [|done]. intros (_ & _ & Hv). cbn [item_line].
    rewrite std_format_fields; [done|done|by eapply Forall2_length]. }
  unfold parse_lines, log_text. rewrite clean_lines.
  - induction Hlog as [|i log Hi _ IH]; [done|]. unfold logged in *.
    rewrite map_cons, !omap_cons_eq, Hline by done.
    destruct i as [pre vs|line].
    + destruct Hi as (_ & Hpre & Hv). rewrite fields_search by done. cbn [option_map map]. by rewrite IH.
    + destruct Hi as [_ Hno]. assert (∃ r, fields_re ((l, p) :: fs) = Cat (Lit l) r) as [r Er]
        by (destruct fs; eauto).
      assert (re_search (fields_re ((l, p) :: fs)) line = None) as ->
        by (rewrite Er; by apply re_search_absent).
      exact IH.
  - apply Forall_map. eapply Forall_impl; [exact Hlog|]. intros i Hi. cbn.
    rewrite Hline by done. destruct i as [pre vs|line]; [|by apply Hi].
    destruct Hi as (Hpre & _ & Hv). unfold clean. rewrite all_chars_app.
    apply andb_true_iff. split; [done|]. by apply fields_text_clean.
Qed.

Lemma digit_clean c : is_digit c = true → clean_char c = true.
Proof.
  unfold clean_char, is_digit, is_linebreak, between. rewrite !andb_true_iff, !negb_true_iff,
    !orb_false_iff, !andb_false_iff, !Nat.leb_le, !Nat.leb_gt, Nat.eqb_neq. lia.
Qed.
Lemma hex_clean c : is_hex c = true → clean_char c = true.
Proof.
  unfold clean_char, is_hex, is_digit, is_linebreak, between. rewrite !orb_true_iff, !andb_true_iff,
    !negb_true_iff, !orb_false_iff, !andb_false_iff, !Nat.leb_le, !Nat.leb_gt, Nat.eqb_neq. lia.
Qed.

Definition digit_hex_fields (fs : fields) : Prop := Forall (λ f, f.2 = is_digit ∨ f.2 = is_hex) fs.
Lemma digit_hex_clean fs : digit_hex_fields fs → clean_fields fs.
Proof.
  intros Hf. eapply Forall_impl; [exact Hf|]. intros [l p] [E|E] c Hc; cbn in *; subst p;
    [by apply digit_clean|by apply hex_clean].
Qed.

Ltac clean_fields_tac :=
  apply digit_hex_clean;
  repeat (apply Forall_cons; split; [first [left; reflexivity | right; reflexivity]|]);
  apply Forall_nil; exact I.

(** C36: What the inserted statements log is what the orchestrators read: each format
    string is the one a patch inserts, and from a log with lines of that format among
    any others the parser returns the logged values, in order: timestamps, actions and
    sizes as numbers, identifiers and hashes in lower case. *)
Theorem diagnostics_read_back (log : list log_item) :
  (∀ fs p r, (fs, p, r) ∈ [(QUEUE_FIELDS, QUEUE_MAP, QUEUE_RE); (RX_FIELDS, RX, RX_RE);
                            (ACK_FIELDS, ACK, ACK_RE)] →
     contains (dq +:+ fields_format fs +:+ dq) (new p) = true ∧
     (Forall (item_ok fs) log →
      parse_events r (log_text (fields_format fs) log) =
      map (λ vs, (digits_Z (nth 0 vs EmptyString), lower (nth 1 vs EmptyString))) (logged log))) ∧
  contains (dq +:+ fields_format MAP_FIELDS +:+ dq) (new QUEUE_MAP) = true ∧
  (Forall (item_ok MAP_FIELDS) log →
   parse_maps (log_text (fields_format MAP_FIELDS) log) =
   map (λ vs, (lower (nth 0 vs EmptyString), lower (nth 1 vs EmptyString))) (logged log)) ∧
  contains (dq +:+ fields_format TX_FIELDS +:+ dq) (new TX) = true ∧
  (Forall (item_ok TX_FIELDS) log →
   parse_tx (log_text (fields_format TX_FIELDS) log) =
   map (λ vs, (digits_Z (nth 0 vs EmptyString), digits_Z (nth 1 vs EmptyString),
               digits_Z (nth 2 vs EmptyString), lower (nth 3 vs EmptyString))) (logged log)).
Proof.
  split_and!; [|by vm_compute| |by vm_compute|].
  - intros fs p r Hin. rewrite list_elem_of_In in Hin.
    destruct Hin as [E|[E|[E|[]]]]; injection E as <- <- <-; (split; [by vm_compute|]); intros Hlog.
    + apply (parse_log QUEUE_FIELDS); [by vm_compute..| |done].
      clean_fields_tac.
    + apply (parse_log RX_FIELDS); [by vm_compute..| |done].
      clean_fields_tac.
    + apply (parse_log ACK_FIELDS); [by vm_compute..| |done].
      clean_fields_tac.
  - intros Hlog. apply (parse_log MAP_FIELDS); [by vm_compute..| |done].
    clean_fields_tac.
  - intros Hlog. apply (parse_log TX_FIELDS); [by vm_compute..| |done].
    clean_fields_tac.
Qed.

Definition sample_log : list log_item :=
  [Other "[12:00:01] connected"; Diag "[12:00:02] [info] " ["1800000000000000001"; "AB01"];
   Other "[12:00:03] BT05_EVENT RX timestamp_ns=7 msg_id=cd"; Diag "[12:00:04] [info] " ["42"; "ef"]].

Ltac sample_diag_tac :=
  split; [reflexivity|]; split; [reflexivity|];
  repeat (apply Forall2_cons; split; [split; [discriminate|reflexivity]|]);
  apply Forall2_nil; exact I.

Lemma diagnostics_read_back_witness :
  parse_events QUEUE_RE (log_text (fields_format QUEUE_FIELDS) sample_log) =
  [(1800000000000000001%Z, "ab01"); (42%Z, "ef")].
Proof.
  destruct (diagnostics_read_back sample_log) as [Hs _].
  destruct (Hs QUEUE_FIELDS QUEUE_MAP QUEUE_RE) as [_ Hq]; [left|]. apply Hq.
  apply Forall_cons; split; [split; reflexivity|].
  apply Forall_cons; split; [sample_diag_tac|].
  apply Forall_cons; split; [split; reflexivity|].
  apply Forall_cons; split; [sample_diag_tac|]. apply Forall_nil. exact I.
Defined.

(** ** The scripts for one file *)

Lemma patch_file_wp {W} `{Host W} file marker what tests added ps n (st : hst W) :
  forallb (gentle [marker]) ps = true → existsb (λ p, contains marker (new p)) ps = true →
  wp True (patch_file file marker what tests added ps)
    (λ z st', z = 0%Z ∧ ∃ l t t', trace st' = trace st ++ l ∧ reads l = [(file, t)] ∧
       writes l = (if contains marker t then [] else [(file, t')]) ∧ instrumented [marker] t t')
    (λ _ st', ∃ l, trace st' = trace st ++ l ∧
       (writes l = [] ∨ ∃ t t', writes l = [(file, t')] ∧ instrumented [marker] t t')) n st.
Proof.
  intros Hg Hm. unfold patch_file. apply wp_bind, wp_call_cases.
  2: { intros e w _. eexists [_]. split; [done|by left]. }
  intros t w1 _. destruct (contains marker t) eqn:Hc.
  - apply wp_bind, wp_call_cases.
    2: { intros e w _. eexists [_; _]. cbn [trace]. rewrite <- app_assoc. split; [done|by left]. }
    intros [] w2 _. apply wp_ret. split; [done|]. eexists [_; _], t, t. cbn [trace].
    rewrite <- app_assoc, Hc. do 3 (split; [done|]).
    split_and!; [reflexivity|by repeat constructor|done].
  - apply wp_bind, wp_of_res. destruct (replace_all _ t ps) as [t'|e|] eqn:E; [| |done].
    2: { eexists [_]. split; [done|by left]. }
    apply (replace_all_gentle _ [marker]) in E as [Hr Hk]; [|done].
    assert (instrumented [marker] t t') as HI.
    { split_and!; [done| |intros ?%Forall_inv; congruence].
      repeat constructor. apply Hk; [by left|by right]. }
    apply wp_bind, wp_call_cases.
    2: { intros e w _. eexists [_; _]. cbn [trace]. rewrite <- app_assoc. split; [done|].
         right. by exists t, t'. }
    intros [] w2 _. apply wp_bind, wp_call_cases.
    2: { intros e w _. eexists [_; _; _]. cbn [trace]. rewrite <- !app_assoc. split; [done|].
         right. by exists t, t'. }
    intros [] w3 _. apply wp_bind, wp_call_cases.
    2: { intros e w _. eexists [_; _; _; _]. cbn [trace]. rewrite <- !app_assoc. split; [done|].
         right. by exists t, t'. }
    intros [] w4 _. apply wp_ret. split; [done|]. eexists [_; _; _; _], t, t'. cbn [trace].
    rewrite <- !app_assoc, Hc. by split_and!.
Qed.

Lemma replace_all_ends what text ps : replace_all what text ps ≠ NoFuel.
Proof. revert text. induction ps as [|p ps IH]; intros text; cbn [replace_all]; ends_tac. Qed.
#[local] Hint Resolve replace_all_ends : py.

(** The BT-04 and BT-02 scripts end on every host, and write their source only
    with all of their patches applied: the marks are in it and every character of the
    original is kept in order.  A source that has the mark is left alone. *)
Theorem single_file_diagnostics {W} `{Host W} root (st : hst W) (bt04 : bool) :
  let file := if bt04 then TCP_CLIENT_CPP root else REPL_CPP root in
  let marker := if bt04 then BT04_MARKER else BT02_MARKER in
  ∃ r st', returns (if bt04 then bt04_main root else bt02_main root) st r st' ∧
  ∃ l, trace st' = trace st ++ l ∧
    match r with
    | Ok z => z = 0%Z ∧ ∃ t t', reads l = [(file, t)] ∧
        writes l = (if contains marker t then [] else [(file, t')]) ∧ instrumented [marker] t t'
    | Raise _ => writes l = [] ∨ ∃ t t', writes l = [(file, t')] ∧ instrumented [marker] t t'
    | NoFuel => False
    end.
Proof.
  intros file marker.
  assert (∃ what tests added ps,
    (if bt04 then bt04_main root else bt02_main root) = patch_file file marker what tests added ps ∧
    forallb (gentle [marker]) ps = true ∧ existsb (λ p, contains marker (new p)) ps = true)
    as (what & tests & added & ps & -> & Hg & Hm).
  { destruct bt04; do 4 eexists; (split; [reflexivity|split; by vm_compute]). }
  clearbody file marker.
  destruct (total_post (patch_file file marker what tests added ps) _ _ st
    ltac:(total_deep; ends_tac) (λ n, patch_file_wp _ _ _ _ _ _ n st Hg Hm)) as (r & st' & Hr & Hp).
  exists r, st'. split; [done|]. destruct r as [z|e|]; [|exact Hp|done].
  destruct Hp as [Hz (l & t & t' & Hl & Hrest)]. exists l. split; [done|]. split; [done|]. by exists t, t'.
Qed.
