(* ===== verification/Stats.v ===== *)
(** * BT-04/analyze.py: inter-arrival statistics and the two-sample KS test

    Floats are rationals rounded to binary64 after every operation.  [math.exp]
    is the C library's and stays a parameter; [math.sqrt] and the exact sums of
    the [statistics] module are modelled (correctly rounded). *)

From Stdlib Require Import ZArith QArith Qabs Qround Qminmax Lia Lqa.
From stdpp Require Import base list strings sorting.
From S2P Require Import Prelude PyNum PyText Host.

Open Scope Q_scope.

(** ** Python building blocks *)

#[global] Instance Qle_dec_rel : RelDecision Qle.
Proof. intros x y. destruct (Qle_bool x y) eqn:E.
  - left. by apply Qle_bool_iff.
  - right. rewrite <- Qle_bool_iff. congruence.
Defined.

(** [sorted(values)] *)
Definition sorted (l : list Q) : list Q := merge_sort Qle l.

(** [math.fsum] (an exact sum rounded once), [statistics.fmean], [median] *)
Definition qsum (l : list Q) : Q := foldr Qplus 0 l.
Definition fmean (l : list Q) : Q := fdiv (fl (qsum l)) (fint (Z.of_nat (length l))).
Definition nthq (l : list Q) (i : nat) : Q := nth i l 0.
Definition median (l : list Q) : Q :=
  let o := sorted l in
  let n := length o in
  if Nat.odd n then nthq o (n / 2)
  else fdiv (fadd (nthq o (n / 2 - 1)) (nthq o (n / 2))) 2.

(** The correctly rounded square root of a positive fraction [a / d]: an integer
    root with at least 54 bits, its last bit set when the root is not exact. *)
Definition isqrt_rto (a d : Z) : Z :=
  let r := Z.sqrt (a / d) in
  if (r * r * d =? a)%Z then r else Z.lor r 1.
Definition sqrt_frac (x : Q) : Q :=
  if Qle_bool x 0 then 0
  else
    let a := Qnum x in let d := QDen x in
    let q := ((Z.log2 a - Z.log2 d - 109) / 2)%Z in
    if (0 <=? q)%Z
    then fl (inject_Z (isqrt_rto a (d * 4 ^ q) * 2 ^ q))
    else fl (inject_Z (isqrt_rto (a * 4 ^ (- q)) d) / inject_Z (2 ^ (- q))).

(** [statistics.stdev]: the root of the exact sample variance *)
Definition stdev (l : list Q) : Q :=
  let n := inject_Z (Z.of_nat (length l)) in
  let sx := qsum l in
  let sxx := qsum (map (λ x, x * x) l) in
  sqrt_frac (Qred (((n * sxx - sx * sx) / n) / (n - 1))).

(** [min(values)], [max(values)] of a non-empty list *)
Definition list_min (l : list Q) : Q :=
  match l with [] => 0 | x :: r => foldl Qmin_py x r end.
Definition list_max (l : list Q) : Q :=
  match l with [] => 0 | x :: r => foldl Qmax_py x r end.

(** ** Percentiles *)

(** The interpolation both analysers share, on a sorted list of two or more. *)
Definition interpolate (ordered : list Q) (p : Q) : Q :=
  let pos := fmul (fint (Z.of_nat (length ordered) - 1)) p in
  let lo := Qfloor pos in
  let hi := Qceiling pos in
  if (lo =? hi)%Z then nthq ordered (Z.to_nat lo)
  else
    let frac := fsub pos (fint lo) in
    fadd (fmul (nthq ordered (Z.to_nat lo)) (fsub 1 frac))
         (fmul (nthq ordered (Z.to_nat hi)) frac).

Definition percentile (values : list Q) (p : Q) : option Q :=
  match values with
  | [] => None
  | _ =>
      let ordered := sorted values in
      if (length ordered =? 1)%nat then Some (nthq ordered 0)
      else Some (interpolate ordered p)
  end.

(** ** Inter-arrival times and scenario statistics *)

Record tx_row : Type := { row_timestamp_ns : Z; frame_type : string }.

Definition iats_from_rows (rows : list tx_row) : list Q :=
  let timestamps := map row_timestamp_ns rows in
  map (λ '(a, b), fdiv (fint (b - a)) (inject_Z 1000000000))
    (combine timestamps (tail timestamps)).

Record ScenarioStats : Type := {
  mode : string; profile : string; transmissions : nat; iat_samples : nat;
  duration_seconds : Q; rate_per_second : Q;
  mean_iat_s : option Q; median_iat_s : option Q; stddev_iat_s : option Q;
  min_iat_s : option Q; max_iat_s : option Q; p95_iat_s : option Q;
  push_count : nat; poll_count : nat; ack_count : nat }.

Definition count_action (name : string) (rows : list tx_row) : nat :=
  length (filter (λ r, frame_type r = name) rows).

Definition when {A B} (l : list A) (b : B) : option B :=
  match l with [] => None | _ => Some b end.

(** [scenario_stats] on the contents of [run.json] and [transmissions.csv] *)
Definition scenario_stats (run_mode run_profile : string) (measurement_elapsed_seconds : Q)
  (rows : list tx_row) : ScenarioStats :=
  let iats := iats_from_rows rows in
  let duration := measurement_elapsed_seconds in
  {| mode := run_mode; profile := run_profile;
     transmissions := length rows; iat_samples := length iats;
     duration_seconds := duration;
     rate_per_second := if Qlt_bool 0 duration
                        then fdiv (fint (Z.of_nat (length rows))) duration else 0;
     mean_iat_s := when iats (fmean iats);
     median_iat_s := when iats (median iats);
     stddev_iat_s := if (2 <=? length iats)%nat then Some (stdev iats) else None;
     min_iat_s := when iats (list_min iats);
     max_iat_s := when iats (list_max iats);
     p95_iat_s := percentile iats (fl (95 # 100));
     push_count := count_action "PUSH" rows;
     poll_count := count_action "POLL" rows;
     ack_count := count_action "ACK" rows |}.

(** ** The two-sample Kolmogorov-Smirnov statistic *)

(** [while i < n and xs[i] <= value: i += 1], on the part of the list not yet
    passed: how many are passed, and what is left. *)
Fixpoint advance (value : Q) (l : list Q) : nat * list Q :=
  match l with
  | x :: r => if Qle_bool x value then let '(k, r') := advance value r in (S k, r') else (0%nat, l)
  | [] => (0%nat, [])
  end.

Definition ecdf_gap (n m i j : nat) : Q :=
  Qabs (fsub (idiv (Z.of_nat i) (Z.of_nat n)) (idiv (Z.of_nat j) (Z.of_nat m))).

(** The main loop; [xs] and [ys] are the parts from [xs[i]] and [ys[j]] on. *)
Fixpoint ks_loop (fuel : nat) (n m : nat) (xs ys : list Q) (i j : nat) (d : Q) : option Q :=
  match xs, ys with
  | [], [] => Some d
  | _, _ =>
      match fuel with
      | O => None
      | S fuel' =>
          let value := match xs, ys with
                       | x :: _, [] => x
                       | x :: _, y :: _ => if Qle_bool x y then x else y
                       | [], y :: _ => y
                       | [], [] => 0
                       end in
          let '(di, xs') := advance value xs in
          let '(dj, ys') := advance value ys in
          ks_loop fuel' n m xs' ys' (i + di)%nat (j + dj)%nat
            (Qmax_py d (ecdf_gap n m (i + di) (j + dj)))
      end
  end.

Definition ks_statistic (x y : list Q) : option Q :=
  ks_loop (length x + length y) (length x) (length y) (sorted x) (sorted y) 0 0 0.

Section with_exp.
Variable exp : Q → Q.

(** The series of the asymptotic distribution, with its early exit. *)
Fixpoint ks_series (ks : list Z) (lam p_value : Q) : Q :=
  match ks with
  | [] => p_value
  | k :: ks' =>
      let term := fmul (inject_Z (2 * (-1) ^ (k - 1)))
        (exp (fmul (fmul (fmul (fmul (-2 # 1) (inject_Z k)) (inject_Z k)) lam) lam)) in
      let p_value := fadd p_value term in
      if Qlt_bool (Qabs term) (fl (1 # 1000000000000)) then p_value
      else ks_series ks' lam p_value
  end.

Definition ks_p_value (n m : Z) (d : Q) : Q :=
  let n_eff := idiv (n * m) (n + m) in
  let root := sqrt_frac n_eff in
  let lam := fmul (fadd (fadd root (fl (12 # 100))) (fdiv (fl (11 # 100)) root)) d in
  Qmax_py 0 (Qmin_py 1 (ks_series (zrange 1 200) lam 0)).

Definition ks_two_sample (x y : list Q) : res (Q * Q) :=
  match x, y with
  | [], _ | _, [] => fail ValueError "KS test requires two non-empty samples"
  | _, _ =>
      match ks_statistic x y with
      | None => NoFuel
      | Some d =>
          if Qle_bool d 0 then Ok (0, 1)
          else Ok (d, ks_p_value (Z.of_nat (length x)) (Z.of_nat (length y)) d)
      end
  end.

(** ** The configured model *)

Definition POISSON_LAMBDA : Q := fl (1 # 10).
Definition POISSON_MIN_CLAMP_S : Q := fl (1 # 10).

Definition poisson_model_cdf (x : Q) : Q :=
  if Qlt_bool x POISSON_MIN_CLAMP_S then 0
  else fsub 1 (exp (fmul (- POISSON_LAMBDA) x)).

Fixpoint model_ks_go (n : nat) (i : nat) (ordered : list Q) (d : Q) : Q :=
  match ordered with
  | [] => d
  | value :: rest =>
      let empirical_upper := idiv (Z.of_nat i) (Z.of_nat n) in
      let empirical_lower := idiv (Z.of_nat i - 1) (Z.of_nat n) in
      let theoretical := poisson_model_cdf value in
      model_ks_go n (S i) rest
        (Qmax_py (Qmax_py d (Qabs (fsub empirical_upper theoretical)))
                 (Qabs (fsub empirical_lower theoretical)))
  end.

Definition model_ks_distance (values : list Q) : option Q :=
  match values with
  | [] => None
  | _ => Some (model_ks_go (length values) 1 (sorted values) 0)
  end.
End with_exp.

Definition empirical_cdf (values : list Q) : list Q * list Q :=
  let ordered := sorted values in
  let n := Z.of_nat (length ordered) in
  (ordered, map (λ i, idiv (Z.of_nat i + 1) n) (seq 0 (length ordered))).

(** ** The loop computes the largest gap between the two step functions *)

(** How many elements are at most [t]. *)
Definition rank (l : list Q) (t : Q) : nat := length (filter (λ x, x <= t) l).

Lemma rank_cons x l t : rank (x :: l) t = ((if decide (x <= t)%Q then 1 else 0) + rank l t)%nat.
Proof. unfold rank. rewrite filter_cons. by destruct (decide (x <= t)). Qed.

Lemma rank_perm l l' t : l ≡ₚ l' → rank l t = rank l' t.
Proof. intros Hp. unfold rank. by rewrite Hp. Qed.

Lemma rank_above l t : Forall (λ x, t < x) l → rank l t = 0%nat.
Proof.
  intros Hl. unfold rank. induction Hl as [|x l Hx _ IH]; [done|].
  rewrite filter_cons_False; [done|]. lra.
Qed.

Lemma StronglySorted_Qle_cons x l :
  StronglySorted Qle (x :: l) ↔ Forall (Qle x) l ∧ StronglySorted Qle l.
Proof. split; [by inversion 1|intros []; by constructor]. Qed.

(** [advance] cuts a sorted list at [value]. *)
Lemma advance_spec value l k r :
  StronglySorted Qle l → advance value l = (k, r) →
  StronglySorted Qle r ∧ Forall (λ x, value < x) r ∧ (length r = length l - k)%nat ∧
  (k <= length l)%nat ∧ ∀ t, value <= t → rank l t = (k + rank r t)%nat.
Proof.
  revert k r. induction l as [|x l IH]; intros k r Hs Ha; cbn in Ha.
  - injection Ha as <- <-. by split_and!.
  - pose proof Hs as [Hx Hl]%StronglySorted_Qle_cons.
    destruct (Qle_bool x value) eqn:E.
    + destruct (advance value l) as [k' r'] eqn:Ea. injection Ha as <- <-.
      destruct (IH k' r' Hl eq_refl) as (? & ? & ? & ? & Hr). apply Qle_bool_iff in E.
      split_and!; [done|done|cbn; lia|cbn; lia|]. intros t Ht.
      rewrite rank_cons, decide_True by lra. rewrite Hr by done. lia.
    + injection Ha as <- <-.
      assert (value < x) as Hv.
      { apply Qnot_le_lt. rewrite <- Qle_bool_iff. congruence. }
      split_and!; [done| |lia|lia|done].
      constructor; [done|]. eapply Forall_impl; [exact Hx|]. cbn. intros y Hy. lra.
Qed.

(** The head of a sorted list is passed by its own value. *)
Lemma advance_head x l value : x <= value → ∃ k r, advance value (x :: l) = (S k, r).
Proof.
  intros Hx. apply Qle_bool_iff in Hx. cbn. rewrite Hx. destruct (advance value l). eauto.
Qed.

Lemma Qmax_py_le_l x y : x <= Qmax_py x y.
Proof.
  unfold Qmax_py, Qlt_bool. destruct (Qle_bool y x) eqn:E; cbn; [lra|].
  assert (¬ y <= x) by (rewrite <- Qle_bool_iff; congruence). lra.
Qed.
Lemma Qmax_py_either x y : Qmax_py x y = x ∨ Qmax_py x y = y.
Proof. unfold Qmax_py. destruct (Qlt_bool x y); auto. Qed.

(** The next value of the loop is the least element not yet passed. *)
Definition next_value (xs ys : list Q) : Q :=
  match xs, ys with
  | x :: _, [] => x
  | x :: _, y :: _ => if Qle_bool x y then x else y
  | [], y :: _ => y
  | [], [] => 0
  end.

Lemma next_value_least xs ys :
  StronglySorted Qle xs → StronglySorted Qle ys →
  Forall (Qle (next_value xs ys)) xs ∧ Forall (Qle (next_value xs ys)) ys.
Proof.
  assert (∀ z x l, z <= x → StronglySorted Qle (x :: l) → Forall (Qle z) (x :: l)) as Hle.
  { intros z x l Hz [Hx _]%StronglySorted_Qle_cons. constructor; [done|].
    eapply Forall_impl; [exact Hx|]. cbn. intros y Hy. lra. }
  intros Hx Hy. destruct xs as [|x xs], ys as [|y ys]; cbn; [done| | |].
  { split; [done|]. apply Hle; [lra|done]. }
  { split; [|done]. apply Hle; [lra|done]. }
  destruct (Qle_bool x y) eqn:E.
  - apply Qle_bool_iff in E. split; apply Hle; auto; lra.
  - assert (¬ x <= y) by (rewrite <- Qle_bool_iff; congruence). split; apply Hle; auto; lra.
Qed.

Lemma ks_loop_unfold fuel n m xs ys i j d :
  xs ≠ [] ∨ ys ≠ [] →
  ks_loop (S fuel) n m xs ys i j d =
  let '(di, xs') := advance (next_value xs ys) xs in
  let '(dj, ys') := advance (next_value xs ys) ys in
  ks_loop fuel n m xs' ys' (i + di)%nat (j + dj)%nat
    (Qmax_py d (ecdf_gap n m (i + di) (j + dj))).
Proof. destruct xs, ys; cbn; naive_solver. Qed.

Lemma progress_made xs ys di xs' dj ys' :
  xs ≠ [] ∨ ys ≠ [] →
  advance (next_value xs ys) xs = (di, xs') → advance (next_value xs ys) ys = (dj, ys') →
  (0 < di + dj)%nat.
Proof.
  intros Hne Hx Hy.
  destruct xs as [|x xs], ys as [|y ys]; cbn in Hne; [naive_solver| | |].
  - destruct (advance_head y ys (next_value [] (y :: ys))) as (k & r & E); [cbn; lra|].
    rewrite Hy in E. injection E as -> ->. lia.
  - destruct (advance_head x xs (next_value (x :: xs) [])) as (k & r & E); [cbn; lra|].
    rewrite Hx in E. injection E as -> ->. lia.
  - destruct (Qle_bool x y) eqn:E.
    + destruct (advance_head x xs (next_value (x :: xs) (y :: ys))) as (k & r & E').
      { cbn. rewrite E. lra. } rewrite Hx in E'. injection E' as -> ->. lia.
    + destruct (advance_head y ys (next_value (x :: xs) (y :: ys))) as (k & r & E').
      { cbn. rewrite E. lra. } rewrite Hy in E'. injection E' as -> ->. lia.
Qed.

Lemma ks_loop_spec n m fuel xs ys i j d :
  StronglySorted Qle xs → StronglySorted Qle ys → (length xs + length ys <= fuel)%nat →
  ecdf_gap n m i j <= d →
  ∃ D, ks_loop fuel n m xs ys i j d = Some D ∧ d <= D ∧
    (∀ t, ecdf_gap n m (i + rank xs t) (j + rank ys t) <= D) ∧
    (D = d ∨ ∃ t, D = ecdf_gap n m (i + rank xs t) (j + rank ys t)).
Proof.
  revert xs ys i j d. induction fuel as [|fuel IH]; intros xs ys i j d Hx Hy Hlen Hgap.
  { destruct xs, ys; cbn in Hlen; try lia. exists d. split_and!; [done|lra| |by left].
    intros t. unfold rank. cbn. by rewrite !Nat.add_0_r. }
  destruct (decide (xs = [] ∧ ys = [])) as [[-> ->]|Hne].
  { exists d. split_and!; [done|lra| |by left]. intros t. unfold rank. cbn.
    by rewrite !Nat.add_0_r. }
  assert (xs ≠ [] ∨ ys ≠ []) as Hne'.
  { destruct xs, ys; [by destruct Hne|by right|by left|by left]. }
  rewrite ks_loop_unfold by done. set (v := next_value xs ys).
  destruct (next_value_least xs ys Hx Hy) as [Hvx Hvy]. fold v in Hvx, Hvy.
  destruct (advance v xs) as [di xs'] eqn:Eax. destruct (advance v ys) as [dj ys'] eqn:Eay.
  pose proof (progress_made xs ys di xs' dj ys' Hne' Eax Eay) as Hprog.
  destruct (advance_spec v xs di xs' Hx Eax) as (Hx' & Hax & Hlx & Hdx & Hrx).
  destruct (advance_spec v ys dj ys' Hy Eay) as (Hy' & Hay & Hly & Hdy & Hry).
  set (g := ecdf_gap n m (i + di) (j + dj)).
  destruct (IH xs' ys' (i + di)%nat (j + dj)%nat (Qmax_py d g)) as (D & HD & HdD & Hall & Hatt);
    [done|done|lia|apply Qmax_py_ge|].
  pose proof (Qmax_py_le_l d g) as Hdg.
  exists D. split_and!; [done|lra| |].
  - intros t. destruct (Qlt_le_dec t v) as [Hlt|Hle].
    + rewrite !rank_above; [rewrite !Nat.add_0_r; lra| |];
        eapply Forall_impl; [exact Hvy| |exact Hvx|]; cbn; intros; lra.
    + rewrite (Hrx t), (Hry t), !Nat.add_assoc by done. apply Hall.
  - assert (∃ t, g = ecdf_gap n m (i + rank xs t) (j + rank ys t)) as Hg.
    { exists v. rewrite (Hrx v), (Hry v) by lra. by rewrite !rank_above, !Nat.add_0_r. }
    assert (∀ t, ∃ t', ecdf_gap n m (i + di + rank xs' t) (j + dj + rank ys' t)
                       = ecdf_gap n m (i + rank xs t') (j + rank ys t')) as Hback.
    { intros t. destruct (Qlt_le_dec t v) as [Hlt|Hle].
      - destruct Hg as [t' Ht']. exists t'. rewrite <- Ht'. unfold g.
        rewrite !rank_above, !Nat.add_0_r; [done| |];
          eapply Forall_impl; [exact Hay| |exact Hax|]; cbn; intros; lra.
      - exists t. rewrite (Hrx t), (Hry t), !Nat.add_assoc by done. done. }
    destruct Hatt as [->|[t ->]]; [|right; apply Hback].
    destruct (Qmax_py_either d g) as [->| ->]; [by left|by right].
Qed.

#[global] Instance Qle_transitive : Transitive Qle.
Proof. intros x y z. apply Qle_trans. Qed.
#[global] Instance Qle_total : Total Qle.
Proof. intros x y. destruct (Qlt_le_dec x y); [left; lra|by right]. Qed.

Lemma sorted_perm l : sorted l ≡ₚ l.
Proof. apply merge_sort_Permutation. Qed.
Lemma sorted_sorted l : StronglySorted Qle (sorted l).
Proof. apply StronglySorted_merge_sort; apply _. Qed.
Lemma length_sorted l : length (sorted l) = length l.
Proof. apply Permutation_length, sorted_perm. Qed.

Lemma idiv_unit i n : (0 < n)%nat → (i <= n)%nat → 0 <= idiv (Z.of_nat i) (Z.of_nat n) <= 1.
Proof.
  intros Hn Hi. unfold idiv.
  assert (0 < inject_Z (Z.of_nat n)) as HN by (change 0 with (inject_Z 0); rewrite <- Zlt_Qlt; lia).
  split.
  - apply fl_nonneg. apply Qle_shift_div_l; [done|]. rewrite Qmult_0_l.
    change 0 with (inject_Z 0). rewrite <- Zle_Qle. lia.
  - assert (inject_Z (Z.of_nat i) / inject_Z (Z.of_nat n) <= 1) as Hle.
    { apply Qle_shift_div_r; [done|]. rewrite Qmult_1_l, <- Zle_Qle. lia. }
    apply fl_mono in Hle. assert (fl 1 == 1) as H1 by (by vm_compute). lra.
Qed.

Lemma rank_le l t : (rank l t <= length l)%nat.
Proof. apply length_filter. Qed.

Lemma ecdf_gap_unit n m i j :
  (0 < n)%nat → (0 < m)%nat → (i <= n)%nat → (j <= m)%nat → 0 <= ecdf_gap n m i j <= 1.
Proof.
  intros Hn Hm Hi Hj. unfold ecdf_gap. split; [apply Qabs_nonneg|].
  pose proof (idiv_unit i n Hn Hi). pose proof (idiv_unit j m Hm Hj).
  apply Qabs_Qle_condition. unfold fsub.
  set (x := idiv _ _) in *. set (y := idiv _ _) in *.
  assert (fl (-1) == -1 ∧ fl 1 == 1) as [E1 E2] by (by vm_compute).
  split.
  - rewrite <- E1. apply fl_mono. lra.
  - rewrite <- E2. apply fl_mono. lra.
Qed.

Lemma ecdf_gap_zero n m : ecdf_gap n m 0 0 <= 0.
Proof.
  unfold ecdf_gap, idiv. assert (∀ q, inject_Z 0 / q == 0) as H0 by (intros q; apply Qmult_0_l).
  change (Z.of_nat 0) with 0%Z. rewrite !H0. discriminate.
Qed.

(** ** Properties *)

(** The empirical distribution function of a sample, as the code computes it. *)
Definition ecdf (l : list Q) (t : Q) : Q :=
  idiv (Z.of_nat (rank l t)) (Z.of_nat (length l)).

(** C34: the two-pointer loop of [ks_two_sample] computes the Kolmogorov-Smirnov
    statistic.  For any two samples the loop ends, and its value is the largest
    distance between the two empirical distribution functions over all real
    arguments: no argument exceeds it and, unless it is 0, some argument attains
    it (the functions and the difference in float arithmetic, as in the code). *)
Theorem ks_statistic_is_sup (x y : list Q) :
  ∃ D, ks_statistic x y = Some D ∧
    (∀ t, Qabs (fsub (ecdf x t) (ecdf y t)) <= D) ∧
    (D = 0 ∨ ∃ t, D = Qabs (fsub (ecdf x t) (ecdf y t))).
Proof.
  unfold ks_statistic, ecdf.
  destruct (ks_loop_spec (length x) (length y) (length x + length y) (sorted x) (sorted y) 0 0 0)
    as (D & HD & _ & Hall & Hatt);
    [apply sorted_sorted|apply sorted_sorted|by rewrite !length_sorted| |].
  { apply ecdf_gap_zero. }
  exists D. unfold ecdf_gap in *. split_and!; [done| |].
  - intros t. specialize (Hall t). by rewrite !(rank_perm _ _ t (sorted_perm _)) in Hall.
  - destruct Hatt as [?|[t Ht]]; [by left|right]. exists t.
    by rewrite !(rank_perm _ _ t (sorted_perm _)) in Ht.
Qed.

Lemma Qmin_py_le x y : Qmin_py x y <= x.
Proof.
  unfold Qmin_py, Qlt_bool. destruct (Qle_bool x y) eqn:E; cbn; [lra|].
  assert (¬ x <= y) by (rewrite <- Qle_bool_iff; congruence). lra.
Qed.

Lemma ks_statistic_unit x y D :
  x ≠ [] → y ≠ [] → ks_statistic x y = Some D → 0 <= D <= 1.
Proof.
  intros Hx Hy HD.
  destruct (ks_loop_spec (length x) (length y) (length x + length y) (sorted x) (sorted y) 0 0 0)
    as (D' & HD' & H0 & _ & Hatt);
    [apply sorted_sorted|apply sorted_sorted|by rewrite !length_sorted| |].
  { apply ecdf_gap_zero. }
  unfold ks_statistic in HD. rewrite HD in HD'. injection HD' as <-. split; [done|].
  destruct Hatt as [->|[t ->]]; [lra|].
  rewrite !(rank_perm _ _ t (sorted_perm _)). cbn [Nat.add].
  apply ecdf_gap_unit; [destruct x; cbn; done || lia|destruct y; cbn; done || lia|apply rank_le|apply rank_le].
Qed.

Lemma ks_p_value_unit exp n m d : 0 <= ks_p_value exp n m d <= 1.
Proof.
  unfold ks_p_value. generalize (ks_series exp (zrange 1 200)
    (fmul (fadd (fadd (sqrt_frac (idiv (n * m) (n + m))) (fl (12 # 100)))
      (fdiv (fl (11 # 100)) (sqrt_frac (idiv (n * m) (n + m))))) d) 0) as q. intros q.
  pose proof (Qmin_py_le 1 q). split; [apply Qmax_py_le_l|].
  destruct (Qmax_py_either 0 (Qmin_py 1 q)) as [->| ->]; lra.
Qed.

(** The result of [ks_two_sample].  It raises [ValueError] exactly on an empty
    sample; otherwise it returns a distance in [0, 1] and a p-value in [0, 1],
    whatever the C library's [exp] returns, and a distance of 0 has p-value 1. *)
Theorem ks_two_sample_range (exp : Q → Q) (x y : list Q) :
  match ks_two_sample exp x y with
  | Ok (d, p) => x ≠ [] ∧ y ≠ [] ∧ 0 <= d <= 1 ∧ 0 <= p <= 1 ∧ (d == 0 → p == 1)
  | Raise e => ex_cls e = ValueError ∧ (x = [] ∨ y = [])
  | NoFuel => False
  end.
Proof.
  destruct x as [|x0 x]; [split; [done|by left]|].
  destruct y as [|y0 y]; [split; [done|by right]|].
  unfold ks_two_sample. destruct (ks_statistic (x0 :: x) (y0 :: y)) as [D|] eqn:HD.
  2:{ unfold ks_statistic in HD.
      destruct (ks_loop_spec (length (x0 :: x)) (length (y0 :: y))
        (length (x0 :: x) + length (y0 :: y)) (sorted (x0 :: x)) (sorted (y0 :: y)) 0 0 0)
        as (D & HD' & _); [apply sorted_sorted|apply sorted_sorted|by rewrite !length_sorted|
                           apply ecdf_gap_zero|]. congruence. }
  assert (0 <= D <= 1) as HDu by (by eapply ks_statistic_unit; [| |exact HD]).
  destruct (Qle_bool D 0) eqn:E0.
  - split_and!; try done; lra.
  - assert (¬ D <= 0) by (rewrite <- Qle_bool_iff; congruence).
    pose proof (ks_p_value_unit exp (Z.of_nat (length (x0 :: x))) (Z.of_nat (length (y0 :: y))) D)
      as Hp. revert Hp. generalize (ks_p_value exp (Z.of_nat (length (x0 :: x)))
      (Z.of_nat (length (y0 :: y))) D) as q. intros q Hq.
    split_and!; [done|done|lra|lra|lra|lra|lra].
Qed.

(** ** Percentiles lie between their two order statistics *)

(** The rounding errors of one interpolation step add up to little. *)
Lemma step_upper u e b S R r :
  0 < u <= 1 # 100000 → 0 < e <= u → 0 <= b →
  S <= b * (1 + u + e) → R <= S * (1 + u) + 2 * e → r <= R * (1 + u) + e →
  r <= b * (1 + 5 * u) + 4 * e + 4 * e * b.
Proof.
  intros Hu He Hb HS HR Hr.
  assert (u * u <= u * (1 # 100000)) as Huu by (apply Qmult_le_l_le; lra).
  assert (e * u <= e * (1 # 100000)) as Heu by (apply Qmult_le_l_le; lra).
  assert (S * (1 + u) <= b * (1 + u + e) * (1 + u)) as H1 by (apply Qmult_le_compat_r; lra).
  assert ((1 + u + e) * (1 + u) <= 1 + (3 # 1) * u + 2 * e) as H2 by lra.
  assert (b * ((1 + u + e) * (1 + u)) <= b * (1 + (3 # 1) * u + 2 * e)) as H3
    by (apply Qmult_le_l_le; lra).
  assert (R * (1 + u) <= (b * (1 + (3 # 1) * u + 2 * e) + 2 * e) * (1 + u)) as H4
    by (apply Qmult_le_compat_r; lra).
  assert ((1 + (3 # 1) * u + 2 * e) * (1 + u) <= 1 + 5 * u + 4 * e) as H5 by lra.
  assert (b * ((1 + (3 # 1) * u + 2 * e) * (1 + u)) <= b * (1 + 5 * u + 4 * e)) as H6
    by (apply Qmult_le_l_le; lra).
  lra.
Qed.

Lemma step_lower u e a S R r :
  0 < u <= 1 # 100000 → 0 < e <= u → 0 <= a →
  a * (1 - u - e) <= S → S * (1 - u) - 2 * e <= R → R * (1 - u) - e <= r →
  a * (1 - 4 * u) - 4 * e <= r.
Proof.
  intros Hu He Ha HS HR Hr.
  assert (0 <= u * u) as Huu by (apply Qmult_le_0_compat; lra).
  assert (0 <= e * u) as Heu by (apply Qmult_le_0_compat; lra).
  assert (e * u <= e * (1 # 100000)) as Heu' by (apply Qmult_le_l_le; lra).
  assert (a * (1 - u - e) * (1 - u) <= S * (1 - u)) as H1 by (apply Qmult_le_compat_r; lra).
  assert (a * (1 - (3 # 1) * u) <= a * ((1 - u - e) * (1 - u))) as H3
    by (apply Qmult_le_l_le; lra).
  assert ((a * (1 - (3 # 1) * u) - 2 * e) * (1 - u) <= R * (1 - u)) as H4
    by (apply Qmult_le_compat_r; lra).
  assert (a * (1 - 4 * u) <= a * ((1 - (3 # 1) * u) * (1 - u))) as H6
    by (apply Qmult_le_l_le; lra).
  lra.
Qed.

(** One interpolation step, with its four roundings. *)
Lemma interpolate_step a b f :
  0 <= a → a <= b → 0 <= f <= 1 →
  let r := fadd (fmul a (fsub 1 f)) (fmul b f) in
  a * (1 - 4 * ulp) - 4 * eta <= r <= b * (1 + 5 * ulp) + 4 * eta + 4 * eta * b.
Proof.
  intros Ha Hab Hf. cbv zeta. unfold fadd, fmul, fsub.
  pose proof ulp_small as Hu. pose proof eta_small as He.
  set (g := fl (1 - f)).
  assert (0 <= g <= 1) as Hg by (apply fl_unit; lra).
  assert (g <= (1 - f) * (1 + ulp) + eta) as Hgu by (apply fl_up; lra).
  assert ((1 - f) * (1 - ulp) - eta <= g) as Hgd by (apply fl_down; lra).
  assert (0 <= a * g) as Hag by (apply Qmult_le_0_compat; lra).
  assert (0 <= b * f) as Hbf by (apply Qmult_le_0_compat; lra).
  pose proof (fl_up _ Hag) as HAu. pose proof (fl_down _ Hag) as HAd.
  pose proof (fl_up _ Hbf) as HBu. pose proof (fl_down _ Hbf) as HBd.
  pose proof (fl_nonneg _ Hag) as HA0. pose proof (fl_nonneg _ Hbf) as HB0.
  set (A := fl (a * g)) in *. set (B := fl (b * f)) in *.
  assert (0 <= A + B) as HAB by lra.
  pose proof (fl_up _ HAB) as Hru. pose proof (fl_down _ HAB) as Hrd.
  set (r := fl (A + B)) in *.
  revert Hu He Hgu Hgd HAu HAd HBu HBd Hru Hrd. generalize ulp as u, eta as e.
  clearbody g A B r. intros u e Hu He Hgu Hgd HAu HAd HBu HBd Hru Hrd.
  assert (0 <= u * f <= u) as Huf.
  { split; [apply Qmult_le_0_compat; lra|].
    assert (u * f <= u * 1) by (apply Qmult_le_l_le; lra). lra. }
  split.
  - apply (step_lower u e a (a * g + b * f) (A + B)); [done|lra|done| |lra|lra].
    assert (a * f <= b * f) by (apply Qmult_le_compat_r; lra).
    assert (a * (1 - u - e) <= a * (g + f)) by (apply Qmult_le_l_le; lra). lra.
  - apply (step_upper u e b (a * g + b * f) (A + B)); [done|lra|lra| |lra|lra].
    assert (a * g <= b * g) by (apply Qmult_le_compat_r; lra).
    assert (b * (g + f) <= b * (1 + u + e)) by (apply Qmult_le_l_le; lra). lra.
Qed.

Lemma StronglySorted_nth_le l i j :
  StronglySorted Qle l → (i <= j)%nat → (j < length l)%nat → nthq l i <= nthq l j.
Proof.
  intros Hs. revert i j. induction Hs as [|x l _ IH Hx]; intros i j Hij Hj; [cbn in Hj; lia|].
  destruct i as [|i], j as [|j]; cbn; [lra| |lia|].
  - rewrite Forall_forall in Hx. apply Hx. apply nth_elem_of. cbn in Hj. lia.
  - apply IH; cbn in Hj; lia.
Qed.

(** The position lies inside the list. *)
Lemma position_range n p :
  (1 <= n)%Z → (n - 1 <= 2 ^ 53)%Z → 0 <= p <= 1 →
  let pos := fmul (fint (n - 1)) p in
  (0 <= Qfloor pos)%Z ∧ (Qceiling pos <= n - 1)%Z ∧ (Qceiling pos <= Qfloor pos + 1)%Z ∧
  inject_Z (Qfloor pos) <= pos.
Proof.
  intros Hn Hbig Hp pos. assert (fint (n - 1) == inject_Z (n - 1)) as Hf by (apply fint_exact; lia).
  assert (0 <= inject_Z (n - 1)) as Hn0 by (change 0 with (inject_Z 0); rewrite <- Zle_Qle; lia).
  assert (0 <= pos) as H0 by (apply fl_nonneg; rewrite Hf; apply Qmult_le_0_compat; lra).
  assert (pos <= inject_Z (n - 1)) as H1.
  { assert (fint (n - 1) * p <= inject_Z (n - 1)) as Hle.
    { rewrite Hf. assert (inject_Z (n - 1) * p <= inject_Z (n - 1) * 1) by (apply Qmult_le_l_le; lra).
      lra. }
    apply fl_mono in Hle. change (pos <= fint (n - 1)) in Hle. by rewrite Hf in Hle. }
  clearbody pos. split_and!.
  - apply (Qfloor_resp_le 0) in H0. done.
  - apply Qceiling_resp_le in H1. by rewrite Qceiling_Z in H1.
  - pose proof (Qlt_floor pos) as Hlt. apply Qlt_le_weak, Qceiling_resp_le in Hlt.
    by rewrite Qceiling_Z in Hlt.
  - apply Qfloor_le.
Qed.

(** A percentile lies between its two neighbouring order statistics.  For
    non-negative samples (latencies, inter-arrival times) of at most 2^53 values
    and a level in [0, 1], [percentile] returns a value, both list indices it uses
    are in range, and the value lies between the two order statistics around the
    position, up to the rounding of the interpolation (a relative error of five
    units in the 53rd bit and a term far below the smallest normal float). *)
Theorem percentile_between (values : list Q) (p : Q) :
  values ≠ [] → Forall (Qle 0) values →
  (Z.of_nat (length values) <= 2 ^ 53)%Z → 0 <= p <= 1 →
  ∃ v lo hi, percentile values p = Some v ∧
    (lo <= hi)%nat ∧ (hi <= lo + 1)%nat ∧ (hi < length values)%nat ∧
    nthq (sorted values) lo * (1 - 5 * ulp) - 4 * eta <= v ∧
    v <= nthq (sorted values) hi * (1 + 5 * ulp) + 4 * eta + 4 * eta * nthq (sorted values) hi.
Proof.
  intros Hne Hpos Hlen Hp. pose proof ulp_small as Hu. pose proof eta_small as He.
  set (o := sorted values).
  assert (length o = length values) as Hlo by apply length_sorted.
  assert (∀ i, 0 <= nthq o i) as Hnn.
  { intros i. unfold nthq. destruct (nth_in_or_default i o 0) as [Hin| ->]; [|lra].
    rewrite Forall_forall in Hpos. apply Hpos. rewrite <- (sorted_perm values).
    by apply list_elem_of_In. }
  assert (∀ i, nthq o i * (1 - 5 * ulp) - 4 * eta <= nthq o i ∧
     nthq o i <= nthq o i * (1 + 5 * ulp) + 4 * eta + 4 * eta * nthq o i) as Hself.
  { intros i. specialize (Hnn i). revert Hu He. generalize ulp as u, eta as e. intros u e Hu He.
    assert (0 <= nthq o i * u) by (apply Qmult_le_0_compat; lra).
    assert (0 <= e * nthq o i) by (apply Qmult_le_0_compat; lra). lra. }
  assert (0 < length values)%nat as Hn by (destruct values; cbn; done || lia).
  assert (percentile values p = if (length o =? 1)%nat then Some (nthq o 0)
                                else Some (interpolate o p)) as -> by (by destruct values).
  destruct (Nat.eqb_spec (length o) 1) as [H1|H1].
  { exists (nthq o 0), 0%nat, 0%nat. split_and!; [done|lia|lia|lia|apply Hself|apply Hself]. }
  destruct (position_range (Z.of_nat (length o)) p ltac:(lia) ltac:(lia) Hp) as (Hf & Hc & Hcf & Hfl).
  unfold interpolate. set (pos := fmul _ p) in *.
  destruct (Z.eqb_spec (Qfloor pos) (Qceiling pos)) as [E|E].
  { exists (nthq o (Z.to_nat (Qfloor pos))), (Z.to_nat (Qfloor pos)), (Z.to_nat (Qfloor pos)).
    split_and!; [done|lia|lia|lia|apply Hself|apply Hself]. }
  exists (fadd (fmul (nthq o (Z.to_nat (Qfloor pos))) (fsub 1 (fsub pos (fint (Qfloor pos)))))
            (fmul (nthq o (Z.to_nat (Qceiling pos))) (fsub pos (fint (Qfloor pos))))),
    (Z.to_nat (Qfloor pos)), (Z.to_nat (Qceiling pos)).
  assert (Qfloor pos <= Qceiling pos)%Z as Hfc.
  { pose proof (Qle_ceiling pos). rewrite Zle_Qle. lra. }
  assert (0 <= fsub pos (fint (Qfloor pos)) <= 1) as Hfrac.
  { apply fl_unit. rewrite fint_exact by lia. pose proof (Qlt_floor pos) as Hlt.
    rewrite inject_Z_plus in Hlt. change (inject_Z 1) with 1 in Hlt. lra. }
  pose proof (interpolate_step (nthq o (Z.to_nat (Qfloor pos))) (nthq o (Z.to_nat (Qceiling pos)))
    _ (Hnn _) (StronglySorted_nth_le o (Z.to_nat (Qfloor pos)) (Z.to_nat (Qceiling pos))
       (sorted_sorted _) ltac:(lia) ltac:(lia)) Hfrac) as [Hlow Hup].
  split_and!; [done|lia|lia|lia| |exact Hup].
  eapply Qle_trans; [|exact Hlow].
  pose proof (Hnn (Z.to_nat (Qfloor pos))) as Hnn0.
  assert (0 <= nthq o (Z.to_nat (Qfloor pos)) * ulp) by (apply Qmult_le_0_compat; lra). lra.
Qed.

Lemma percentile_between_witness :
  ∃ v lo hi, percentile [3; 1; 2; 5] (fl (95 # 100)) = Some v ∧
    (lo <= hi)%nat ∧ (hi <= lo + 1)%nat ∧ (hi < 4)%nat ∧
    nthq (sorted [3; 1; 2; 5]) lo * (1 - 5 * ulp) - 4 * eta <= v ∧
    v <= nthq (sorted [3; 1; 2; 5]) hi * (1 + 5 * ulp) + 4 * eta
         + 4 * eta * nthq (sorted [3; 1; 2; 5]) hi.
Proof.
  apply (percentile_between [3; 1; 2; 5] (fl (95 # 100)));
    [discriminate|repeat constructor; discriminate|cbn; lia|vm_compute; split; discriminate].
Defined.
