(* ===== verification/Calibration.v ===== *)
(** * Clock calibration: BT-05/orchestrator.py and BT-06/analyze.py

    The orchestrator samples each guest's clock against the host's and keeps the
    sample with the least round trip ([sample_vm_clock], [calibrate_vm_clock]);
    the analysis reads the calibration back ([anchor_from]) and corrects the
    guests' timestamps by interpolating the offset between the calibrations made
    before and after the series ([correct_vm_time]). *)

From Stdlib Require Import Ascii ZArith QArith Qabs Lia Lqa.
From stdpp Require Import base list strings sorting sets.
From S2P Require Import Prelude PyNum PyText Host Json Wire Console.

Open Scope Z_scope.

(** ** Sampling *)

Record ClockSample : Type := {
  host_before_ns : Z; host_after_ns : Z; host_mid_ns : Z; vm_ns : Z;
  offset_vm_minus_host_ns : Z; rtt_ns : Z }.

Definition CLOCK_RE : re :=
  Cat (Lit "BT06_EVENT CLOCK timestamp_ns=") (Grp (Many 16 (Some 20%nat) is_digit)).

(** The sample of a guest timestamp taken between two readings of the host. *)
Definition clock_sample (before after vm : Z) : ClockSample :=
  let mid := (before + after) / 2 in
  {| host_before_ns := before; host_after_ns := after; host_mid_ns := mid; vm_ns := vm;
     offset_vm_minus_host_ns := vm - mid; rtt_ns := after - before |}.

Section sampling.
Context {W : Type} `{Host W}.

Definition clock_command (before_count : Z) : string :=
  let marker := shlex_quote "BT06_EVENT CLOCK" in
  "printf '%s\n' list >&3; i=0; while [ " +:+ dq +:+ "$(grep -Fc -- " +:+ marker +:+ " "
    +:+ REMOTE_CLIENT_LOG +:+ " 2>/dev/null || true)" +:+ dq +:+ " -le " +:+ str_Z before_count
    +:+ " ] && [ $i -lt 200 ]; do sleep 0.01; i=$((i + 1)); done; grep -F -- " +:+ marker
    +:+ " " +:+ REMOTE_CLIENT_LOG +:+ " 2>/dev/null | tail -n 1".

Definition sample_vm_clock (child : pid) (timeout : Q) : M (hst W) ClockSample :=
  before_count ← client_log_count child "BT06_EVENT CLOCK";
  host_before ← time_ns;
  r ← console_cmd child (clock_command before_count) timeout false;
  host_after ← time_ns;
  raise_if (negb (r.2 =? 0)) Bt05Error "In-process VM clock calibration command failed";;
  match re_search CLOCK_RE r.1 with
  | None =>
      throw Bt05Error
        "VM clock calibration did not observe BT06_EVENT CLOCK. Rebuild the client image with './benchmarks/BT-05/run.sh --prepare ...'."
  | Some caps => mret (clock_sample host_before host_after (group_int 1 caps))
  end.

(** [min(l, key=lambda item: item.rtt_ns)]: the first of the least ones. *)
Fixpoint min_rtt (best : ClockSample) (l : list ClockSample) : ClockSample :=
  match l with
  | [] => best
  | s :: l' => min_rtt (if rtt_ns s <? rtt_ns best then s else best) l'
  end.

Definition sorted_ints (l : list Z) : list Z := merge_sort Z.le l.

Record calibration : Type := {
  cal_vm : string; selected : ClockSample; median_offset : Z; samples : list ClockSample }.

(** [min(...)] and [offsets[len(offsets) // 2]] raise on an empty list. *)
Definition calibration_of (vm_name : string) (collected : list ClockSample) : res calibration :=
  match collected with
  | [] => fail ValueError "min() arg is an empty sequence"
  | s :: l =>
      let offsets := sorted_ints (map offset_vm_minus_host_ns collected) in
      Ok {| cal_vm := vm_name; selected := min_rtt s l;
            median_offset := nth (length offsets / 2) offsets 0; samples := collected |}
  end.

Definition fmt_ms (ns : Z) : string := fmt_fixed 3 (fdiv (fint ns) (fint (10 ^ 6))).

Definition calibrate_vm_clock (child : pid) (vm_name : string) (samples : Z) : M (hst W) calibration :=
  raise_if (samples <? 3) Bt05Error "Clock calibration requires at least 3 samples";;
  collected ← for_acc (zrange 0 samples) (λ _ acc,
    s ← sample_vm_clock child 10; sleep (fl (2 # 100));; mret (acc ++ [s])) [];
  result ← of_res (calibration_of vm_name collected);
  ok ("Clock calibration " +:+ vm_name +:+ ": offset="
        +:+ fmt_ms (offset_vm_minus_host_ns (selected result)) +:+ " ms, RTT="
        +:+ fmt_ms (rtt_ns (selected result)) +:+ " ms");;
  mret result.
End sampling.

(** [asdict(sample)] and the dictionary [calibrate_vm_clock] returns *)
Definition sample_json (s : ClockSample) : json :=
  JObj [("host_before_ns", JInt (host_before_ns s)); ("host_after_ns", JInt (host_after_ns s));
        ("host_mid_ns", JInt (host_mid_ns s)); ("vm_ns", JInt (vm_ns s));
        ("offset_vm_minus_host_ns", JInt (offset_vm_minus_host_ns s)); ("rtt_ns", JInt (rtt_ns s))].
Definition calibration_json (c : calibration) : json :=
  JObj [("vm", JStr (cal_vm c));
        ("method", JStr "host midpoint around in-process BT06_EVENT CLOCK; minimum-RTT sample selected");
        ("selected", sample_json (selected c));
        ("median_offset_vm_minus_host_ns", JInt (median_offset c));
        ("samples", JList (map sample_json (samples c)))].

(** ** Correction *)

Record Anchor : Type := {
  a_host_mid_ns : Z; a_vm_ns : Z; a_offset : Z; a_rtt_ns : Z }.

Record CorrectedTime : Type := { host_ns : Z; offset_ns : Q; uncertainty_ns : Q }.

(** [except (C1, ...) as exc: raise C(msg) from exc] around pure code *)
Definition convert {A} (cs : list pyclass) (c : pyclass) (msg : string) (r : res A) : res A :=
  match r with
  | Raise e => if isinstance_any e cs then fail c msg else Raise e
  | _ => r
  end.

Definition anchor_from (calibration : json) (phase client : string) : res Anchor :=
  convert [KeyError; TypeError; ValueError] Bt06Error
    ("Invalid clock calibration for " +:+ phase +:+ "/" +:+ client)
    (p ← jget phase calibration;
     c ← jget client p;
     s ← jget "selected" c;
     mid ← (v ← jget "host_mid_ns" s; int_of v);
     vm ← (v ← jget "vm_ns" s; int_of v);
     off ← (v ← jget "offset_vm_minus_host_ns" s; int_of v);
     rtt ← (v ← jget "rtt_ns" s; int_of v);
     mret {| a_host_mid_ns := mid; a_vm_ns := vm; a_offset := off; a_rtt_ns := rtt |}).

Definition anchor_of (s : ClockSample) : Anchor :=
  {| a_host_mid_ns := host_mid_ns s; a_vm_ns := vm_ns s;
     a_offset := offset_vm_minus_host_ns s; a_rtt_ns := rtt_ns s |}.

(** [pre + alpha * (post - pre)] with the integers converted to floats *)
Definition lerp (pre post : Z) (alpha : Q) : Q :=
  fadd (fint pre) (fmul alpha (fint (post - pre))).

Definition clamp01 (alpha : Q) : Q := Qmin_py 1 (Qmax_py 0 alpha).

Definition correct_vm_time (vm_event_ns : Z) (pre post : Anchor) : res CorrectedTime :=
  fail_if (a_vm_ns post <=? a_vm_ns pre) Bt06Error
    "Post calibration is not later than pre calibration";;
  let alpha := idiv (vm_event_ns - a_vm_ns pre) (a_vm_ns post - a_vm_ns pre) in
  fail_if (Qlt_bool alpha (fl (-1 # 20)) || Qlt_bool (fl (21 # 20)) alpha) Bt06Error
    "Message timestamp lies materially outside calibration window";;
  let alpha := clamp01 alpha in
  let offset := lerp (a_offset pre) (a_offset post) alpha in
  let rtt := lerp (a_rtt_ns pre) (a_rtt_ns post) alpha in
  mret {| host_ns := round_half_even (fsub (fint vm_event_ns) offset);
          offset_ns := offset;
          uncertainty_ns := Qmax_py 0 (fdiv rtt 2) |}.

(** ** The sample kept is the best one *)

Lemma min_rtt_spec best l :
  min_rtt best l ∈ best :: l ∧ Forall (λ s, rtt_ns (min_rtt best l) <= rtt_ns s) (best :: l).
Proof.
  revert best. induction l as [|s l IH]; intros best; cbn [min_rtt].
  - split; [by left|]. constructor; [lia|constructor].
  - destruct (IH (if rtt_ns s <? rtt_ns best then s else best)) as [Hin Hall].
    apply Forall_cons in Hall as [Hle Hall]. split.
    + apply elem_of_cons in Hin as [->|Hin]; [|set_solver].
      destruct (_ <? _); set_solver.
    + destruct (Z.ltb_spec (rtt_ns s) (rtt_ns best)); repeat constructor; try done; lia.
Qed.

(** A guest whose clock is [theta] ahead of the host stamped the sample somewhere
    between the host's two readings. *)
Definition stamped (theta : Z) (s : ClockSample) : Prop :=
  ∃ t, host_before_ns s <= t <= host_after_ns s ∧ vm_ns s = t + theta.

Definition midpoint_sample (s : ClockSample) : Prop :=
  s = clock_sample (host_before_ns s) (host_after_ns s) (vm_ns s).

Lemma midpoint_error theta s :
  midpoint_sample s → stamped theta s →
  2 * Z.abs (offset_vm_minus_host_ns s - theta) <= rtt_ns s + 1.
Proof.
  intros -> (t & Ht & Hv). cbn in *.
  pose proof (Z.div_mod (host_before_ns s + host_after_ns s) 2 ltac:(lia)).
  pose proof (Z.mod_pos_bound (host_before_ns s + host_after_ns s) 2 ltac:(lia)). lia.
Qed.

Section sampling_laws.
Context {W : Type} `{Host W}.

Lemma sample_vm_clock_midpoint child t n (st : hst W) :
  wp True (sample_vm_clock child t) (λ s _, midpoint_sample s) (λ _ _, True) n st.
Proof.
  unfold sample_vm_clock. apply wp_bind.
  eapply wp_mono; [| |apply wp_trivial]; [|done]. intros c s1 _.
  apply wp_bind, wp_call_cases; [|done]. intros b w1 _. apply wp_bind.
  eapply wp_mono; [| |apply wp_trivial]; [|done]. intros r s2 _.
  apply wp_bind, wp_call_cases; [|done]. intros a w2 _. apply wp_bind, wp_raise_if.
  destruct (negb _); [done|]. by destruct (re_search _ _).
Qed.

Lemma calibrate_samples child k n (st : hst W) :
  wp True (for_acc (zrange 0 k) (λ _ acc,
      s ← sample_vm_clock child 10; sleep (fl (2 # 100));; mret (acc ++ [s])) [])
    (λ l _, length l = Z.to_nat k ∧ Forall midpoint_sample l) (λ _ _, True) n st.
Proof.
  eapply wp_mono; [| |apply (wp_for_acc True (λ pre (acc : list ClockSample) (_ : hst W),
    length acc = length pre ∧ Forall midpoint_sample acc))].
  - intros l s' [Hl Hall]. split; [|done]. rewrite Hl. unfold zrange.
    rewrite length_map, length_seq. lia.
  - done.
  - intros pre x post acc s _ [Hl Hall]. apply wp_bind.
    eapply wp_mono; [| |apply sample_vm_clock_midpoint]; [|done]. intros c s1 Hc.
    cbn beta. apply wp_bind, wp_call_cases; [|done]. intros [] w2 _. apply wp_ret.
    rewrite !length_app, Forall_app. split_and!; [cbn; lia|done|by constructor].
  - by split.
Qed.
End sampling_laws.

Lemma calibrate_total {W} `{Host W} child vm_name k :
  total (calibrate_vm_clock child vm_name k : M (hst W) calibration).
Proof. total_deep. match goal with |- calibration_of _ ?l ≠ _ => by destruct l end. Qed.

Definition accurate (k : Z) (c : calibration) : Prop :=
  Z.of_nat (length (samples c)) = k ∧ 3 <= k ∧
  selected c ∈ samples c ∧ Forall (λ s, rtt_ns (selected c) <= rtt_ns s) (samples c) ∧
  ∀ theta, Forall (stamped theta) (samples c) →
    2 * Z.abs (offset_vm_minus_host_ns (selected c) - theta) <= rtt_ns (selected c) + 1.


(** ** The corrected time is accurate *)

Local Open Scope Q_scope.

Definition offset_bound : Z := 2 ^ 50.

Lemma inject_Z_abs z B : (Z.abs z <= B)%Z → Qabs (inject_Z z) <= inject_Z B.
Proof.
  intros Hz. apply Qabs_Qle_condition. rewrite <- inject_Z_opp, <- !Zle_Qle. lia.
Qed.

Lemma ulp_scaled : inject_Z (2 ^ 51) * ulp == 1 # 4.
Proof. by vm_compute. Qed.
Lemma eta_tiny : eta <= 1 # 100.
Proof. pose proof ulp_small. pose proof eta_small. lra. Qed.

Lemma clamp01_id a : 0 <= a <= 1 → clamp01 a == a.
Proof.
  intros [H0 H1]. unfold clamp01, Qmin_py, Qmax_py, Qlt_bool.
  destruct (Qle_bool a 0) eqn:E; cbn [negb].
  - apply Qle_bool_iff in E. destruct (Qle_bool 1 0) eqn:E'; [by apply Qle_bool_iff in E'|].
    cbn. lra.
  - destruct (Qle_bool 1 a) eqn:E'; cbn; [|lra]. apply Qle_bool_iff in E'. lra.
Qed.

#[global] Instance lerp_proper : Proper (eq ==> eq ==> Qeq ==> Qeq) lerp.
Proof.
  intros ? x -> ? y -> a b Hab. unfold lerp, fadd, fmul. apply fl_proper_Qeq.
  apply Qplus_comp; [reflexivity|]. apply fl_proper_Qeq. by rewrite Hab.
Qed.

Lemma eta_scaled : inject_Z (2 ^ 51) * eta <= 1 # 100.
Proof.
  rewrite <- two_inject by lia. unfold eta. rewrite <- two_plus.
  eapply Qle_trans; [apply (two_mono _ (-7)); lia|by vm_compute].
Qed.

Lemma Qmult_unit_abs a d c : 0 <= a <= 1 → Qabs d <= c → Qabs (a * d) <= a * c.
Proof.
  intros Ha Hd. rewrite Qabs_Qmult, (Qabs_pos a) by lra. apply Qmult_le_l_le; lra.
Qed.

Lemma convex_abs a x y c :
  0 <= a <= 1 → Qabs x <= c → Qabs y <= c → Qabs (x + a * (y - x)) <= c.
Proof.
  intros Ha Hx Hy. assert (x + a * (y - x) == (1 - a) * x + a * y) as -> by ring.
  eapply Qle_trans; [apply Qabs_triangle|].
  pose proof (Qmult_unit_abs (1 - a) x c ltac:(lra) Hx).
  pose proof (Qmult_unit_abs a y c Ha Hy). lra.
Qed.

(** One interpolation, with [a] the rounded fraction for [t]. *)
Lemma lerp_error_Q X Y B a t m s :
  1 <= B → Qabs X <= B → Qabs Y <= B → 0 <= a <= 1 → 0 <= t <= 1 →
  2 * B * ulp == 1 # 4 → 2 * B * eta <= 1 # 100 →
  Qabs (a - t) <= ulp + eta →
  Qabs (m - a * (Y - X)) <= (2 * B) * ulp + eta →
  (Qabs (X + m) <= 2 * B → Qabs (s - (X + m)) <= (2 * B) * ulp + eta) →
  Qabs (s - (X + t * (Y - X))) <= 1.
Proof.
  intros HB HX HY Ha Ht Hu He Hat Hm Hs. pose proof eta_tiny as Hn. pose proof eta_small as [Hn0 _].
  pose proof (convex_abs a X Y B Ha HX HY) as Hc.
  assert (Qabs (X + m) <= 2 * B) as HXm.
  { assert (X + m == (X + a * (Y - X)) + (m - a * (Y - X))) as -> by ring.
    eapply Qle_trans; [apply Qabs_triangle|]. lra. }
  specialize (Hs HXm).
  assert (Qabs (Y - X) <= 2 * B) as HD.
  { assert (Y - X == Y + - X) as -> by ring. eapply Qle_trans; [apply Qabs_triangle|].
    rewrite Qabs_opp. lra. }
  assert (Qabs ((a - t) * (Y - X)) <= (ulp + eta) * (2 * B)) as HaD.
  { rewrite Qabs_Qmult. apply Qmult_le_compat_nonneg; split; try apply Qabs_nonneg; done. }
  assert (s - (X + t * (Y - X)) ==
    (s - (X + m)) + ((m - a * (Y - X)) + (a - t) * (Y - X))) as -> by ring.
  eapply Qle_trans; [apply Qabs_triangle|].
  pose proof (Qabs_triangle (m - a * (Y - X)) ((a - t) * (Y - X))). lra.
Qed.

Lemma lerp_error x y a t :
  (Z.abs x <= offset_bound)%Z → (Z.abs y <= offset_bound)%Z → 0 <= a <= 1 → 0 <= t <= 1 →
  Qabs (a - t) <= ulp + eta →
  Qabs (lerp x y a - (inject_Z x + t * (inject_Z y - inject_Z x))) <= 1.
Proof.
  intros Hx Hy Ha Ht Hat. unfold offset_bound in *.
  pose proof (inject_Z_abs _ _ Hx) as Qx. pose proof (inject_Z_abs _ _ Hy) as Qy.
  assert (inject_Z (y - x) == inject_Z y - inject_Z x) as Esub.
  { unfold Z.sub. rewrite inject_Z_plus, inject_Z_opp. reflexivity. }
  assert (Qabs (inject_Z y - inject_Z x) <= 2 * inject_Z (2 ^ 50)) as HD.
  { rewrite <- Esub. assert (inject_Z (2 ^ 51) == 2 * inject_Z (2 ^ 50)) as <- by by vm_compute.
    apply inject_Z_abs. lia. }
  pose proof (fint_exact x ltac:(lia)) as Ex. pose proof (fint_exact (y - x) ltac:(lia)) as Ed.
  assert (2 * inject_Z (2 ^ 50) == inject_Z (2 ^ 51)) as E2 by by vm_compute.
  apply (lerp_error_Q _ _ (inject_Z (2 ^ 50)) a t (fmul a (fint (y - x))));
    [by vm_compute|exact Qx|exact Qy|exact Ha|exact Ht| | |exact Hat| |].
  - rewrite E2. exact ulp_scaled.
  - rewrite E2. exact eta_scaled.
  - rewrite <- Esub, <- Ed. apply fl_within. rewrite Ed, Esub.
    eapply Qle_trans; [apply (Qmult_unit_abs _ _ _ Ha HD)|].
    pose proof (Qmult_le_compat_r a 1 (2 * inject_Z (2 ^ 50))) as Hle.
    assert (0 <= 2 * inject_Z (2 ^ 50)) as H0 by by vm_compute.
    revert Hle H0. generalize (2 * inject_Z (2 ^ 50)). intros C Hle H0.
    specialize (Hle ltac:(lra) H0). lra.
  - intros Hxm. unfold lerp, fadd. rewrite <- Ex in Hxm |- *. apply fl_within, Hxm.
Qed.

(** A calibration made with a clock [theta] ahead of the host's. *)
Definition calibrated (a : Anchor) (theta : Q) : Prop :=
  (Z.abs (a_offset a) <= offset_bound)%Z ∧ (0 <= a_rtt_ns a <= offset_bound)%Z ∧
  Qabs (inject_Z (a_offset a) - theta) <= (inject_Z (a_rtt_ns a) + 1) / 2.

(** How far between the two calibrations a guest timestamp lies, and the offset
    of a clock that drifts steadily from [theta1] to [theta2] meanwhile. *)
Definition fraction (vm : Z) (pre post : Anchor) : Q :=
  inject_Z (vm - a_vm_ns pre) / inject_Z (a_vm_ns post - a_vm_ns pre).
Definition drifted (theta1 theta2 t : Q) : Q := theta1 + t * (theta2 - theta1).

Lemma fraction_unit vm pre post :
  (a_vm_ns pre < a_vm_ns post)%Z → (a_vm_ns pre <= vm <= a_vm_ns post)%Z →
  0 <= fraction vm pre post <= 1.
Proof.
  intros Hlt Hvm. unfold fraction.
  assert (0 < inject_Z (a_vm_ns post - a_vm_ns pre)) as Hq
    by (change 0 with (inject_Z 0); rewrite <- Zlt_Qlt; lia).
  split.
  - apply Qle_shift_div_l; [done|]. rewrite Qmult_0_l. change 0 with (inject_Z 0).
    rewrite <- Zle_Qle. lia.
  - apply Qle_shift_div_r; [done|]. rewrite Qmult_1_l, <- Zle_Qle. lia.
Qed.

(** Inside the window no check fails. *)
Lemma correct_inside vm pre post :
  (a_vm_ns pre < a_vm_ns post)%Z → (a_vm_ns pre <= vm <= a_vm_ns post)%Z →
  ∃ ct, correct_vm_time vm pre post = Ok ct ∧
    let alpha := clamp01 (fl (fraction vm pre post)) in
    offset_ns ct = lerp (a_offset pre) (a_offset post) alpha ∧
    uncertainty_ns ct = Qmax_py 0 (fdiv (lerp (a_rtt_ns pre) (a_rtt_ns post) alpha) 2) ∧
    host_ns ct = round_half_even (fsub (fint vm) (offset_ns ct)).
Proof.
  intros Hlt Hvm. pose proof (fraction_unit vm pre post Hlt Hvm) as Ht.
  pose proof (fl_unit _ Ht) as Ha. unfold correct_vm_time.
  destruct (Z.leb_spec (a_vm_ns post) (a_vm_ns pre)); [lia|]. cbn [fail_if].
  change (idiv (vm - a_vm_ns pre) (a_vm_ns post - a_vm_ns pre)) with (fl (fraction vm pre post)).
  set (alpha := fl (fraction vm pre post)) in *. clearbody alpha.
  assert (fl (-1 # 20) <= 0 ∧ 1 <= fl (21 # 20)) as [Hlo Hhi] by (split; by vm_compute).
  unfold Qlt_bool at 1 2.
  destruct (Qle_bool (fl (-1 # 20)) alpha) eqn:E1.
  2: { assert (fl (-1 # 20) <= alpha) as ?%Qle_bool_iff by lra. congruence. }
  destruct (Qle_bool alpha (fl (21 # 20))) eqn:E2.
  2: { assert (alpha <= fl (21 # 20)) as ?%Qle_bool_iff by lra. congruence. }
  eexists. split; [reflexivity|]. by split_and!.
Qed.

Lemma clamped_fraction vm pre post :
  (a_vm_ns pre < a_vm_ns post)%Z → (a_vm_ns pre <= vm <= a_vm_ns post)%Z →
  let a := clamp01 (fl (fraction vm pre post)) in
  0 <= a <= 1 ∧ Qabs (a - fraction vm pre post) <= ulp + eta.
Proof.
  intros Hlt Hvm. pose proof (fraction_unit vm pre post Hlt Hvm) as Ht.
  pose proof (fl_unit _ Ht) as Ha. cbv zeta. rewrite (clamp01_id _ Ha). split; [done|].
  assert (Qabs (fraction vm pre post) <= 1) as Habs by (rewrite Qabs_pos; lra).
  pose proof (fl_within _ _ Habs). lra.
Qed.

(** The offset used is off by the interpolated half round trip, and rounding. *)
Lemma offset_error x1 x2 r1 r2 th1 th2 t :
  0 <= t <= 1 → Qabs (x1 - th1) <= (r1 + 1) / 2 → Qabs (x2 - th2) <= (r2 + 1) / 2 →
  Qabs (x1 + t * (x2 - x1) - drifted th1 th2 t) <= (r1 + t * (r2 - r1) + 1) / 2.
Proof.
  intros Ht H1 H2. unfold drifted.
  assert (x1 + t * (x2 - x1) - (th1 + t * (th2 - th1)) ==
          (1 - t) * (x1 - th1) + t * (x2 - th2)) as -> by ring.
  eapply Qle_trans; [apply Qabs_triangle|].
  pose proof (Qmult_unit_abs (1 - t) _ _ ltac:(lra) H1).
  pose proof (Qmult_unit_abs t _ _ Ht H2).
  assert ((r1 + t * (r2 - r1) + 1) / 2 == (1 - t) * ((r1 + 1) / 2) + t * ((r2 + 1) / 2)) as ->
    by field. lra.
Qed.

Lemma interpolated_range r1 r2 t :
  0 <= t <= 1 → (0 <= r1 <= offset_bound)%Z → (0 <= r2 <= offset_bound)%Z →
  0 <= inject_Z r1 + t * (inject_Z r2 - inject_Z r1) <= inject_Z offset_bound.
Proof.
  intros Ht [H1 H1'] [H2 H2']. rewrite Zle_Qle in H1, H1', H2, H2'.
  change (inject_Z 0) with 0 in *. generalize dependent (inject_Z offset_bound). intros B H1' H2'.
  pose proof (Qmult_le_0_compat (1 - t) (inject_Z r1) ltac:(lra) H1).
  pose proof (Qmult_le_0_compat t (inject_Z r2) ltac:(lra) H2).
  pose proof (Qmult_le_l_le (inject_Z r1) B (1 - t) ltac:(lra) H1').
  pose proof (Qmult_le_l_le (inject_Z r2) B t ltac:(lra) H2'). lra.
Qed.

(** Halving the interpolated round trip loses less than a nanosecond. *)
Lemma uncertainty_lower rtt R :
  Qabs (rtt - R) <= 1 → 0 <= R <= inject_Z offset_bound → R / 2 - 1 <= Qmax_py 0 (fdiv rtt 2).
Proof.
  intros Hr HR. eapply Qle_trans; [|apply Qmax_py_ge].
  unfold fdiv, Qdiv. change (/ 2) with (1 # 2).
  apply Qabs_Qle_condition in Hr. unfold offset_bound in HR.
  assert (Qabs (rtt * (1 # 2)) <= inject_Z (2 ^ 51)) as Hb.
  { assert (inject_Z (2 ^ 51) == 2 * inject_Z (2 ^ 50)) as -> by by vm_compute.
    assert (1 <= inject_Z (2 ^ 50)) as H1 by by vm_compute.
    revert HR H1. generalize (inject_Z (2 ^ 50)). intros C HR H1.
    apply Qabs_Qle_condition. split; lra. }
  pose proof (fl_within _ _ Hb) as He. rewrite ulp_scaled in He. pose proof eta_tiny.
  apply Qabs_Qle_condition in He. revert He. generalize (fl (rtt * (1 # 2))). intros u He. lra.
Qed.

(** Converting a timestamp to a float and subtracting costs under a microsecond. *)
Lemma host_time_error vm off :
  (0 <= vm < 2 ^ 61)%Z → Qabs off <= inject_Z (2 ^ 52) →
  Qabs (inject_Z (round_half_even (fsub (fint vm) off)) - (inject_Z vm - off)) <= 900 # 1.
Proof.
  intros Hvm Hoff. pose proof eta_tiny as He.
  assert (Qabs (inject_Z vm) <= inject_Z (2 ^ 61)) as Hv by (apply inject_Z_abs; lia).
  assert (inject_Z (2 ^ 61) * ulp == 256) as E61 by by vm_compute.
  assert (inject_Z (2 ^ 62) * ulp == 512) as E62 by by vm_compute.
  assert (inject_Z (2 ^ 62) == 2 * inject_Z (2 ^ 61)) as E2 by by vm_compute.
  assert (inject_Z (2 ^ 52) + 300 <= inject_Z (2 ^ 61)) as Hbig by by vm_compute.
  pose proof (fl_within _ _ Hv) as H1. fold (fint vm) in H1. rewrite E61 in H1.
  unfold fsub. set (f := fint vm) in *. clearbody f.
  assert (Qabs (f - off) <= inject_Z (2 ^ 62)) as Hz.
  { rewrite E2. assert (f - off == (f - inject_Z vm) + (inject_Z vm + - off)) as -> by ring.
    eapply Qle_trans; [apply Qabs_triangle|].
    pose proof (Qabs_triangle (inject_Z vm) (- off)) as Htr. rewrite Qabs_opp in Htr. lra. }
  pose proof (fl_within _ _ Hz) as H2. rewrite E62 in H2.
  destruct (rounds_to_bound _ _ (round_half_even_spec (fl (f - off)))) as [H3 H4].
  revert H2 H3 H4. generalize (fl (f - off)). intros g H2 H3 H4.
  generalize dependent (inject_Z (round_half_even g)). intros z H3 H4.
  apply Qabs_Qle_condition in H1, H2. apply Qabs_Qle_condition. lra.
Qed.

Lemma uncertainty_upper rtt R :
  Qabs (rtt - R) <= 1 → 0 <= R <= inject_Z offset_bound →
  0 <= Qmax_py 0 (fdiv rtt 2) <= inject_Z offset_bound.
Proof.
  intros Hr HR. apply Qabs_Qle_condition in Hr. split.
  { unfold Qmax_py, Qlt_bool. destruct (Qle_bool (fdiv rtt 2) 0) eqn:E; cbn [negb]; [lra|].
    destruct (Qlt_le_dec (fdiv rtt 2) 0) as [Hlt|]; [|done].
    apply Qlt_le_weak, Qle_bool_iff in Hlt. congruence. }
  assert (fdiv rtt 2 <= inject_Z offset_bound) as Hd.
  { unfold fdiv. assert (rtt / 2 <= inject_Z offset_bound) as Hle.
    { unfold Qdiv. change (/ 2) with (1 # 2).
      assert (2 <= inject_Z offset_bound) by by vm_compute. lra. }
    apply fl_mono in Hle. assert (fl (inject_Z offset_bound) == inject_Z offset_bound) as E
      by (apply fint_exact; unfold offset_bound; lia). lra. }
  unfold Qmax_py. destruct (Qlt_bool 0 (fdiv rtt 2)); [done|by vm_compute].
Qed.

(** A guest timestamp between the two calibrations is corrected, and the corrected
    host time is right up to the uncertainty reported with it and one microsecond
    of rounding. *)
Lemma correct_vm_time_close vm pre post theta1 theta2 ct :
  calibrated pre theta1 → calibrated post theta2 →
  (a_vm_ns pre < a_vm_ns post)%Z → (a_vm_ns pre <= vm <= a_vm_ns post)%Z →
  (0 <= vm < 2 ^ 61)%Z → correct_vm_time vm pre post = Ok ct →
  Qabs (inject_Z (host_ns ct)
        - (inject_Z vm - drifted theta1 theta2 (fraction vm pre post)))
    <= uncertainty_ns ct + 1000 ∧
  0 <= uncertainty_ns ct <= inject_Z offset_bound ∧
  Qabs (inject_Z (host_ns ct) - inject_Z vm) <= inject_Z (2 ^ 53).
Proof.
  intros (Ho1 & Hr1 & Hc1) (Ho2 & Hr2 & Hc2) Hlt Hvm Hvm61 Hct.
  destruct (correct_inside vm pre post Hlt Hvm) as (ct' & Hct' & Eo & Eu & Eh).
  rewrite Hct in Hct'. injection Hct' as <-. clear Hct. cbv zeta in Eo, Eu.
  destruct (clamped_fraction vm pre post Hlt Hvm) as [Ha Hat]. cbv zeta in Hat.
  pose proof (fraction_unit vm pre post Hlt Hvm) as Ht.
  set (t := fraction vm pre post) in *. set (a := clamp01 (fl t)) in *. clearbody a t.
  pose proof (lerp_error _ _ a t Ho1 Ho2 Ha Ht Hat) as Ho. rewrite <- Eo in Ho.
  pose proof (lerp_error (a_rtt_ns pre) (a_rtt_ns post) a t ltac:(lia) ltac:(lia) Ha Ht Hat) as Hr.
  pose proof (offset_error _ _ _ _ _ _ t Ht Hc1 Hc2) as Hd.
  set (R := inject_Z (a_rtt_ns pre) + t * (inject_Z (a_rtt_ns post) - inject_Z (a_rtt_ns pre))) in *.
  set (X := inject_Z (a_offset pre) + t * (inject_Z (a_offset post) - inject_Z (a_offset pre))) in *.
  pose proof (interpolated_range _ _ t Ht Hr1 Hr2) as HR. fold R in HR.
  pose proof (uncertainty_lower _ R Hr HR) as Hu. pose proof (uncertainty_upper _ R Hr HR) as Hup.
  rewrite <- Eu in Hu, Hup.
  assert (Qabs (offset_ns ct) <= inject_Z (2 ^ 52)) as Hb.
  { pose proof (convex_abs t _ _ _ Ht (inject_Z_abs _ _ Ho1) (inject_Z_abs _ _ Ho2)) as Hc.
    fold X in Hc. assert (offset_ns ct == (offset_ns ct - X) + X) as -> by ring.
    eapply Qle_trans; [apply Qabs_triangle|].
    assert (1 + inject_Z offset_bound <= inject_Z (2 ^ 52)) by by vm_compute. lra. }
  pose proof (host_time_error vm _ Hvm61 Hb) as Hh. rewrite <- Eh in Hh.
  unfold Qdiv in Hd, Hu. change (/ 2) with (1 # 2) in Hd, Hu.
  assert (inject_Z (2 ^ 52) + 900 <= inject_Z (2 ^ 53)) as H53 by by vm_compute.
  apply Qabs_Qle_condition in Hh, Ho, Hd, Hb.
  split_and!; [apply Qabs_Qle_condition; lra|lra|lra|apply Qabs_Qle_condition; lra].
Qed.

(** ** What the orchestrator writes is what the analysis reads *)

Lemma anchor_from_calibration j p phase client c :
  jget phase j = Ok p → jget client p = Ok (calibration_json c) →
  anchor_from j phase client = Ok (anchor_of (selected c)).
Proof. intros Hp Hc. unfold anchor_from. rewrite Hp. cbn [mbind res_mbind r_bind]. by rewrite Hc. Qed.

Lemma accurate_calibrated k c theta :
  accurate k c → Forall (stamped theta) (samples c) →
  (Z.abs (offset_vm_minus_host_ns (selected c)) <= offset_bound)%Z →
  (0 <= rtt_ns (selected c) <= offset_bound)%Z →
  calibrated (anchor_of (selected c)) (inject_Z theta).
Proof.
  intros (_ & _ & _ & _ & Hacc) Hst Ho Hr. unfold calibrated. cbn [anchor_of a_offset a_rtt_ns].
  split_and!; [done|lia|lia|].
  specialize (Hacc theta Hst).
  assert (Z.abs (offset_vm_minus_host_ns (selected c) - theta) * 2 <= rtt_ns (selected c) + 1)%Z
    as Hle by lia.
  rewrite Zle_Qle, inject_Z_mult, inject_Z_plus in Hle. change (inject_Z 2) with 2 in Hle.
  change (inject_Z 1) with 1 in Hle. apply Qle_shift_div_l; [lra|].
  assert (Qabs (inject_Z (offset_vm_minus_host_ns (selected c)) - inject_Z theta)
    <= inject_Z (Z.abs (offset_vm_minus_host_ns (selected c) - theta))) as Habs; [|lra].
  assert (inject_Z (offset_vm_minus_host_ns (selected c)) - inject_Z theta ==
    inject_Z (offset_vm_minus_host_ns (selected c) - theta)) as ->.
  { unfold Z.sub. rewrite inject_Z_plus, inject_Z_opp. reflexivity. }
  apply inject_Z_abs. lia.
Qed.
