(* ===== verification/Latency.v ===== *)
(** * BT-06/analyze.py: latencies of one ACK-gated run

    Reading and validating a mode's documents ([validate_mode]), correcting the
    timestamps and building one row per message ([build_rows]), the summary
    statistics and the script's [main].  [py_repr] stands for Python's [repr] of
    floats and containers, which only appears in identifiers that are not strings
    and in messages. *)

From Stdlib Require Import Ascii ZArith QArith Qabs Lia Lqa.
From stdpp Require Import base list strings sorting sets.
From S2P Require Import Prelude PyNum PyText Host Json Wire Console Stats Calibration.

Open Scope Z_scope.

(** ** Indexing the events of one kind *)

Section latency.
Context (py_repr : json → string).

(** [str(j)] *)
Definition py_str (j : json) : string :=
  match j with
  | JStr s => s
  | JInt z => str_Z z
  | JBool b => str_bool b
  | JNull => "None"
  | _ => py_repr j
  end.

(** An event as [index_events] stores it: the dictionary it was read from, and
    the two integers put into it. *)
Record ievent : Type := {
  ie_fields : list (string * json); ie_timestamp_ns : Z; ie_sequence : Z }.

Definition event_key (entry : json) : res (string * Z * Z) :=
  m ← jget "msg_id" entry;
  ts ← (v ← jget "timestamp_ns" entry; int_of v);
  sq ← (v ← jget "sequence" entry; int_of v);
  mret (lower (py_str m), ts, sq).

(** [{**entry, ...}] *)
Definition entry_fields (entry : json) : list (string * json) :=
  match entry with JObj d => d | _ => [] end.

Definition index_step (label : string) (indexed : list (string * ievent)) (entry : json)
  : res (list (string * ievent)) :=
  k ← convert [KeyError; TypeError; ValueError] Bt06Error
        ("Malformed " +:+ label +:+ " event: " +:+ py_repr entry) (event_key entry);
  let '(msg_id, timestamp_ns, sequence) := k in
  fail_if (bool_decide (msg_id ∈ dict_keys indexed)) Bt06Error
    ("Duplicate " +:+ label +:+ " event for " +:+ msg_id);;
  mret (dict_set msg_id {| ie_fields := entry_fields entry; ie_timestamp_ns := timestamp_ns;
                           ie_sequence := sequence |} indexed).

Fixpoint index_go (label : string) (indexed : list (string * ievent)) (entries : list json)
  : res (list (string * ievent)) :=
  match entries with
  | [] => Ok indexed
  | entry :: rest => indexed' ← index_step label indexed entry; index_go label indexed' rest
  end.

Definition index_events (entries : json) (label : string) : res (list (string * ievent)) :=
  l ← jiter entries; index_go label [] l.

(** ** Validation *)

Definition same_keys {A B} (d : list (string * A)) (d' : list (string * B)) : bool :=
  bool_decide (dict_keys d ⊆ dict_keys d') && bool_decide (dict_keys d' ⊆ dict_keys d).

(** [sorted(d.items(), key=lambda item: item[1]["sequence"])] *)
Definition seq_le (x y : string * ievent) : Prop := ie_sequence x.2 <= ie_sequence y.2.
#[global] Instance seq_le_dec : RelDecision seq_le.
Proof. intros x y. apply Z_le_dec. Defined.
Definition by_sequence (d : list (string * ievent)) : list (string * ievent) :=
  merge_sort seq_le d.

(** [item["msg_id"].lower()] *)
Definition own_id (e : ievent) : res string :=
  match dict_get "msg_id" (ie_fields e) with
  | Some (JStr s) => Ok (lower s)
  | Some _ => fail AttributeError "object has no attribute 'lower'"
  | None => fail KeyError "msg_id"
  end.

Definition lookup {A} (k : string) (d : list (string * A)) : res A :=
  match dict_get k d with Some a => Ok a | None => fail KeyError k end.

(** The loop over consecutive messages: the next one is queued after the ACK. *)
Fixpoint check_gating (name : string) (i : Z) (queue ack : list (string * ievent))
  (ordered : list ievent) : res unit :=
  match ordered with
  | cur :: ((nxt :: _) as rest) =>
      current_id ← own_id cur;
      next_id ← own_id nxt;
      q ← lookup next_id queue;
      a ← lookup current_id ack;
      fail_if (ie_timestamp_ns q <? ie_timestamp_ns a) Bt06Error
        (name +:+ ": ACK-gating invariant violated at sequence " +:+ str_Z (i + 1));;
      check_gating name (i + 1) queue ack rest
  | _ => Ok tt
  end.

(** The four indexed event sets of a validated mode. *)
Record indexed_events : Type := {
  ix_queue : list (string * ievent); ix_tx : list (string * ievent);
  ix_rx : list (string * ievent); ix_ack : list (string * ievent) }.

Definition index_all (get : string → json → res json) (events : json) : res indexed_events :=
  q ← (v ← get "queue" events; index_events v "QUEUE");
  t ← (v ← get "tx" events; index_events v "TX");
  r ← (v ← get "rx" events; index_events v "RX");
  a ← (v ← get "ack" events; index_events v "ACK");
  mret {| ix_queue := q; ix_tx := t; ix_rx := r; ix_ack := a |}.

Definition dlen {A} (d : list A) : Z := Z.of_nat (length d).

(** The checks on the loaded documents. *)
Definition validate_documents (name : string) (events run_meta : json) : res indexed_events :=
  p1 ← jget_default "series_policy" JNull events;
  p2 ← (if is_str "ack-gated" p1 then jget_default "series_policy" JNull run_meta else mret p1);
  fail_if (negb (is_str "ack-gated" p1 && is_str "ack-gated" p2)) Bt06Error
    (name +:+ ": source series is not ACK-gated");;
  v ← jget_default "validation" (JObj []) events;
  no_overlap ← jget_default "verified_no_overlap" (JBool false) v;
  fail_if (negb (truthy no_overlap)) Bt06Error
    (name +:+ ": no-overlap validation is missing or false");;
  expected ← (x ← jget_default "messages_requested" (JInt 0) run_meta; int_of x);
  fail_if (expected <=? 0) Bt06Error (name +:+ ": invalid messages_requested");;
  ix ← index_all (λ k, jget_default k (JList [])) events;
  let '(queue, tx, rx, ack) := (ix_queue ix, ix_tx ix, ix_rx ix, ix_ack ix) in
  fail_if (negb ((dlen queue =? dlen tx) && (dlen tx =? dlen rx) && (dlen rx =? dlen ack)
                 && (dlen ack =? expected))) Bt06Error
    (name +:+ ": expected " +:+ str_Z expected +:+ " events of each type, got QUEUE="
       +:+ str_Z (dlen queue) +:+ " TX=" +:+ str_Z (dlen tx) +:+ " RX=" +:+ str_Z (dlen rx)
       +:+ " ACK=" +:+ str_Z (dlen ack));;
  fail_if (negb (same_keys queue tx && same_keys tx rx && same_keys rx ack)) Bt06Error
    (name +:+ ": QUEUE/TX/RX/ACK ID sets differ");;
  let ordered := map snd (by_sequence queue) in
  fail_if (negb (bool_decide (map ie_sequence ordered = zrange 1 (expected + 1)))) Bt06Error
    (name +:+ ": invalid sequence numbering");;
  check_gating name 0 queue ack ordered;;
  mret ix.

(** ** Rows *)

Record row : Type := {
  sequence : Z; message_id : string; prequeue_jitter_ms : Q;
  t_queue_vm_ns : Z; t_tx_vm_ns : Z; t_rx_vm_ns : Z; t_ack_vm_ns : Z;
  t_queue_host : Z; t_tx_host : Z; t_rx_host : Z; t_ack_host : Z;
  latency_ms : Q; queue_to_tx_ms : Q; tx_to_rx_ms : Q; queue_to_ack_ms : Q;
  sender_offset_ms : Q; receiver_offset_ms : Q; clock_uncertainty_ms : Q }.

(** [x / 1e6] *)
Definition ms (ns : Z) : Q := fdiv (fint ns) (inject_Z 1000000).
Definition fms (ns : Q) : Q := fdiv ns (inject_Z 1000000).

Record anchors : Type := { a_pre : Anchor; a_post : Anchor; b_pre : Anchor; b_post : Anchor }.

Definition read_anchors (calibration : json) : res anchors :=
  p ← anchor_from calibration "pre" "client_a";
  q ← anchor_from calibration "post" "client_a";
  r ← anchor_from calibration "pre" "client_b";
  s ← anchor_from calibration "post" "client_b";
  mret {| a_pre := p; a_post := q; b_pre := r; b_post := s |}.

(** The body of the loop over the messages. *)
Definition build_row (mode : string) (c : anchors) (ix : indexed_events)
  (msg_id : string) (q_event : ievent) : res row :=
  q ← correct_vm_time (ie_timestamp_ns q_event) (a_pre c) (a_post c);
  te ← lookup msg_id (ix_tx ix);
  t ← correct_vm_time (ie_timestamp_ns te) (a_pre c) (a_post c);
  re ← lookup msg_id (ix_rx ix);
  r ← correct_vm_time (ie_timestamp_ns re) (b_pre c) (b_post c);
  ae ← lookup msg_id (ix_ack ix);
  a ← correct_vm_time (ie_timestamp_ns ae) (a_pre c) (a_post c);
  let e2e_ns := host_ns r - host_ns q in
  let scheduler_ns := host_ns t - host_ns q in
  let post_tx_ns := host_ns r - host_ns t in
  let ack_ns := host_ns a - host_ns q in
  fail_if (Z.min (Z.min (Z.min e2e_ns scheduler_ns) post_tx_ns) ack_ns <? 0) Bt06Error
    (mode +:+ ": negative corrected latency component for " +:+ msg_id);;
  fail_if (2000000 <? Z.abs (e2e_ns - (scheduler_ns + post_tx_ns))) Bt06Error
    (mode +:+ ": latency decomposition mismatch for " +:+ msg_id);;
  jitter ← float_of (match dict_get "prequeue_jitter_seconds" (ie_fields q_event) with
                     | Some j => j | None => JFloat 0 end);
  mret {| sequence := ie_sequence q_event; message_id := msg_id;
          prequeue_jitter_ms := fmul jitter (inject_Z 1000);
          t_queue_vm_ns := ie_timestamp_ns q_event; t_tx_vm_ns := ie_timestamp_ns te;
          t_rx_vm_ns := ie_timestamp_ns re; t_ack_vm_ns := ie_timestamp_ns ae;
          t_queue_host := host_ns q; t_tx_host := host_ns t;
          t_rx_host := host_ns r; t_ack_host := host_ns a;
          latency_ms := ms e2e_ns; queue_to_tx_ms := ms scheduler_ns;
          tx_to_rx_ms := ms post_tx_ns; queue_to_ack_ms := ms ack_ns;
          sender_offset_ms := fms (offset_ns q); receiver_offset_ms := fms (offset_ns r);
          clock_uncertainty_ms := fms (fadd (uncertainty_ns q) (uncertainty_ns r)) |}.

Definition clock_metadata (c : anchors) : list (string * json) :=
  [("client_a_pre_offset_ms", JFloat (ms (a_offset (a_pre c))));
   ("client_a_post_offset_ms", JFloat (ms (a_offset (a_post c))));
   ("client_a_offset_drift_ms", JFloat (ms (a_offset (a_post c) - a_offset (a_pre c))));
   ("client_b_pre_offset_ms", JFloat (ms (a_offset (b_pre c))));
   ("client_b_post_offset_ms", JFloat (ms (a_offset (b_post c))));
   ("client_b_offset_drift_ms", JFloat (ms (a_offset (b_post c) - a_offset (b_pre c))));
   ("client_a_pre_rtt_ms", JFloat (ms (a_rtt_ns (a_pre c))));
   ("client_a_post_rtt_ms", JFloat (ms (a_rtt_ns (a_post c))));
   ("client_b_pre_rtt_ms", JFloat (ms (a_rtt_ns (b_pre c))));
   ("client_b_post_rtt_ms", JFloat (ms (a_rtt_ns (b_post c))))].

(** [build_rows] on the documents [validate_mode] returned. *)
Definition rows_of (mode : string) (events calibration : json)
  : res (list row * list (string * json)) :=
  ix ← index_all jget events;
  c ← read_anchors calibration;
  rows ← map_res (λ '(msg_id, q_event), build_row mode c ix msg_id q_event)
           (by_sequence (ix_queue ix));
  mret (rows, clock_metadata c).

(** ** Summary statistics *)

(** [percentile]: as BT-04's, but an empty sample is an error. *)
Definition percentile (values : list Q) (q : Q) : res Q :=
  let ordered := sorted values in
  fail_if (bool_decide (ordered = [])) Bt06Error "Cannot calculate percentile of empty sample";;
  mret (if (length ordered =? 1)%nat then nthq ordered 0 else interpolate ordered q).

Definition stats (values : list Q) (prefix : string) : res (list (string * json)) :=
  fail_if (bool_decide (values = [])) ValueError "fmean requires at least one data point";;
  p95 ← percentile values (fl (95 # 100));
  mret [(prefix +:+ "mean_ms", JFloat (fmean values));
        (prefix +:+ "median_ms", JFloat (median values));
        (prefix +:+ "p95_ms", JFloat p95);
        (prefix +:+ "stddev_ms", JFloat (if (1 <? length values)%nat then stdev values else 0));
        (prefix +:+ "min_ms", JFloat (list_min values));
        (prefix +:+ "max_ms", JFloat (list_max values))].

Definition summarize (mode : string) (rows : list row) (clock : list (string * json))
  : res (list (string * json)) :=
  let uncertainty := map clock_uncertainty_ms rows in
  s1 ← stats (map latency_ms rows) EmptyString;
  s2 ← stats (map queue_to_tx_ms rows) "queue_to_tx_";
  s3 ← stats (map tx_to_rx_ms rows) "tx_to_rx_";
  mret ([("mode", JStr mode); ("n", JInt (dlen rows))] ++ s1 ++ s2 ++ s3 ++
        [("mean_estimated_clock_uncertainty_ms", JFloat (fmean uncertainty));
         ("max_estimated_clock_uncertainty_ms", JFloat (list_max uncertainty))] ++ clock).

(** ** Files *)

Definition row_fields (r : row) : list (string * json) :=
  [("sequence", JInt (sequence r)); ("message_id", JStr (message_id r));
   ("prequeue_jitter_ms", JFloat (prequeue_jitter_ms r));
   ("t_queue_vm_ns", JInt (t_queue_vm_ns r)); ("t_tx_vm_ns", JInt (t_tx_vm_ns r));
   ("t_rx_vm_ns", JInt (t_rx_vm_ns r)); ("t_ack_vm_ns", JInt (t_ack_vm_ns r));
   ("t_queue_host_corrected_ns", JInt (t_queue_host r));
   ("t_tx_host_corrected_ns", JInt (t_tx_host r));
   ("t_rx_host_corrected_ns", JInt (t_rx_host r));
   ("t_ack_host_corrected_ns", JInt (t_ack_host r));
   ("latency_ms", JFloat (latency_ms r)); ("queue_to_tx_ms", JFloat (queue_to_tx_ms r));
   ("tx_to_rx_ms", JFloat (tx_to_rx_ms r)); ("queue_to_ack_ms", JFloat (queue_to_ack_ms r));
   ("sender_offset_ms", JFloat (sender_offset_ms r));
   ("receiver_offset_ms", JFloat (receiver_offset_ms r));
   ("estimated_clock_uncertainty_ms", JFloat (clock_uncertainty_ms r))].

Section analysis.
Context {W : Type} `{Host W}.

Definition read_json (p : path) : M (hst W) json :=
  e ← call (EExists p);
  raise_if (negb e) Bt06Error ("Missing required file: " +:+ p);;
  try_except (call (EReadJson p))
    (except [JSONDecodeError] (λ exc,
       throw Bt06Error ("Invalid JSON in " +:+ p +:+ ": " +:+ ex_msg exc))).

Definition validate_mode (mode_dir name : string) : M (hst W) (json * json * json) :=
  events ← read_json (joinpath mode_dir "message_events.json");
  calibration ← read_json (joinpath mode_dir "clock_calibration.json");
  run_meta ← read_json (joinpath mode_dir "run.json");
  of_res (validate_documents name events run_meta);;
  mret (events, calibration, run_meta).

Definition build_rows (root mode : string) : M (hst W) (list row * list (string * json)) :=
  d ← validate_mode (joinpath root mode) mode;
  let '(events, calibration, _) := d in
  of_res (rows_of mode events calibration).

(** [csv.DictWriter] over the keys of the first row *)
Definition write_dicts (p : path) (rows : list (list (string * json))) : M (hst W) unit :=
  match rows with
  | [] => throw IndexError "list index out of range"
  | first :: _ => call (EWriteCsv p (map (JStr ∘ fst) first :: map (map snd) rows))
  end.
Definition write_latency_csv (p : path) (rows : list row) : M (hst W) unit :=
  write_dicts p (map row_fields rows).
Definition write_summary_csv (p : path) (summaries : list (list (string * json))) : M (hst W) unit :=
  write_dicts p summaries.

(** [set(j) != {"cbr", "poisson"}] *)
Definition completed_both (j : json) : res bool :=
  l ← jiter j;
  fail_if (existsb (λ x, match x with JList _ | JObj _ => true | _ => false end) l)
    TypeError "unhashable type";;
  mret (forallb (λ x, is_str "cbr" x || is_str "poisson" x) l
        && existsb (is_str "cbr") l && existsb (is_str "poisson") l).

Definition mode_validation (rows : list row) : json :=
  let n := JInt (dlen rows) in
  JObj [("series_policy", JStr "ack-gated"); ("expected_messages", n); ("queue_events", n);
        ("tx_events", n); ("rx_events", n); ("ack_events", n); ("verified_no_overlap", JBool true)].

(** What [main] keeps of one mode. *)
Record mode_result : Type := {
  mr_mode : string; mr_rows : list row; mr_clock : list (string * json);
  mr_summary : list (string * json) }.

Definition analyze_mode (root mode : string) : M (hst W) mode_result :=
  d ← build_rows root mode;
  let '(rows, clock) := d in
  summary ← of_res (summarize mode rows clock);
  write_latency_csv (joinpath root ("latency_" +:+ mode +:+ ".csv")) rows;;
  mret {| mr_mode := mode; mr_rows := rows; mr_clock := clock; mr_summary := summary |}.

Definition fmt_field (k : string) (s : list (string * json)) : string :=
  match dict_get k s with Some (JFloat q) => fmt_fixed 3 q | _ => EmptyString end.

Definition print_summary (m : mode_result) : M (hst W) unit :=
  let s := mr_summary m in
  print ("[+] " +:+ mr_mode m +:+ ": n=" +:+ str_nat (length (mr_rows m)) +:+ ", mean="
    +:+ fmt_field "mean_ms" s +:+ " ms, median=" +:+ fmt_field "median_ms" s +:+ " ms, p95="
    +:+ fmt_field "p95_ms" s +:+ " ms, stddev=" +:+ fmt_field "stddev_ms" s +:+ " ms, min="
    +:+ fmt_field "min_ms" s +:+ " ms, max=" +:+ fmt_field "max_ms" s +:+ " ms").

Definition MODES : list string := ["cbr"; "poisson"].

Definition main (run : path) : M (hst W) Z :=
  root ← call (EResolve run);
  suite ← read_json (joinpath root "suite_run.json");
  policy ← of_res (jget_default "series_policy" JNull suite);
  raise_if (negb (is_str "ack-gated" policy)) Bt06Error
    "BT-06 run is not marked series_policy=ack-gated";;
  result ← of_res (jget_default "result" JNull suite);
  raise_if (negb (is_str "passed" result)) Bt06Error
    "BT-06 source run did not finish with result=passed";;
  completed ← of_res (x ← jget_default "completed" (JList []) suite; completed_both x);
  raise_if (negb completed) Bt06Error "Analysis requires completed CBR and Poisson modes";;
  modes ← for_acc MODES (λ mode acc, m ← analyze_mode root mode; mret (acc ++ [m])) [];
  write_summary_csv (joinpath root "latency_summary.csv") (map mr_summary modes);;
  call (ESavePlots root);;
  created ← call EIsoNow;
  commit ← of_res (jget_default "commit" JNull suite);
  dirty ← of_res (jget_default "dirty_worktree" JNull suite);
  phase ← of_res (jget_default "phase_randomization" JNull suite);
  seed ← of_res (jget_default "phase_jitter_seed" JNull suite);
  call (EWriteJson (joinpath root "run.json") (JObj
    [("created_at", JStr created); ("commit", commit); ("dirty_worktree", dirty);
     ("series_policy", JStr "ack-gated");
     ("primary_latency_definition", JStr "QUEUE(sender) -> RX(receiver), corrected to host clock");
     ("queue_to_tx_definition", JStr "QUEUE(sender) -> TX(sender): traffic-shaper scheduling delay");
     ("tx_to_rx_definition", JStr "TX(sender) -> RX(receiver): post-transmission delivery delay");
     ("phase_randomization", phase); ("phase_jitter_seed", seed);
     ("workload_validation", JObj (map (λ m, (mr_mode m, mode_validation (mr_rows m))) modes));
     ("clock_calibration", JObj (map (λ m, (mr_mode m, JObj (mr_clock m))) modes));
     ("result", JStr "passed")]));;
  print ("[+] Wrote " +:+ joinpath root "latency_cbr.csv");;
  print ("[+] Wrote " +:+ joinpath root "latency_poisson.csv");;
  print ("[+] Wrote " +:+ joinpath root "latency_summary.csv");;
  print ("[+] Wrote latency plots under " +:+ root);;
  for_unit modes print_summary;;
  mret 0.

(** [raise SystemExit(main())], with the handler around it *)
Definition script (run : path) : M (hst W) Z :=
  try_except (main run)
    (except [Exception_] (λ exc, eprint ("[!] BT-06 analysis failed: " +:+ ex_msg exc);; mret 1)).
End analysis.
End latency.

(** ** Laws of the index *)

Section laws.
Context (py_repr : json → string).

Lemma convert_ok {A} cs c msg (r : res A) a : convert cs c msg r = Ok a ↔ r = Ok a.
Proof. destruct r as [|e|]; cbn; [done| |done]. by destruct (isinstance_any e cs). Qed.

(** An entry and what is stored for it. *)
Definition indexes (entry : json) (x : string * ievent) : Prop :=
  event_key py_repr entry = Ok (x.1, ie_timestamp_ns x.2, ie_sequence x.2) ∧
  ie_fields x.2 = entry_fields entry.

Lemma index_step_ok label d entry d' :
  index_step py_repr label d entry = Ok d' ↔
  ∃ x, indexes entry x ∧ x.1 ∉ dict_keys d ∧ d' = d ++ [x].
Proof.
  unfold index_step. rewrite r_bind_ok. setoid_rewrite convert_ok. split.
  - intros ([[m ts] sq] & Hk & Hd). res_inv. case_bool_decide; [done|]. subst.
    eexists (m, Build_ievent _ ts sq). split_and!; [by split|done|]. by apply dict_set_fresh.
  - intros ([m e] & [Hk Hf] & Hm & ->). eexists. split; [exact Hk|]. cbn in *.
    apply fail_if_bind_ok. split; [by apply bool_decide_false|].
    rewrite dict_set_fresh by done. rewrite <- Hf. by destruct e.
Qed.

Lemma index_go_ok label d entries d' :
  NoDup (dict_keys d) →
  index_go py_repr label d entries = Ok d' ↔
  ∃ l, Forall2 indexes entries l ∧ d' = d ++ l ∧ NoDup (dict_keys (d ++ l)).
Proof.
  revert d. induction entries as [|entry entries IH]; intros d Hd; cbn [index_go].
  - split.
    + intros [= <-]. exists []. by rewrite app_nil_r.
    + intros (l & Hl & -> & _). inversion Hl. by rewrite app_nil_r.
  - rewrite r_bind_ok. setoid_rewrite index_step_ok. split.
    + intros (d1 & (x & Hx & Hn & ->) & Hgo). apply IH in Hgo as (l & Hl & -> & Hnd).
      * exists (x :: l). rewrite <- app_assoc in Hnd |- *. split_and!; [by constructor|done|done].
      * by apply NoDup_keys_snoc.
    + intros (l & Hl & -> & Hnd). inversion Hl as [|? x ? l' Hx Hl']; subst.
      replace (d ++ x :: l') with ((d ++ [x]) ++ l') in * by by rewrite <- app_assoc.
      pose proof (NoDup_keys_app_l _ _ Hnd) as Hdx.
      apply NoDup_keys_snoc in Hdx as [_ Hx1].
      exists (d ++ [x]). split; [by exists x|]. apply IH; [by apply NoDup_keys_snoc|].
      by exists l'.
Qed.

Lemma index_events_ok entries label d :
  index_events py_repr entries label = Ok d ↔
  ∃ l, jiter entries = Ok l ∧ Forall2 indexes l d ∧ NoDup (dict_keys d).
Proof.
  unfold index_events. rewrite r_bind_ok. split.
  - intros (l & Hl & Hgo). apply index_go_ok in Hgo as (l' & H2 & -> & Hn); [|constructor].
    by exists l.
  - intros (l & Hl & H2 & Hn). exists l. split; [done|]. apply index_go_ok; [constructor|].
    by exists d.
Qed.

(** ** What validation establishes *)

(** Consecutive messages: the next one is queued no earlier than the ACK of the
    one before, on the sender's clock. *)
Definition gated (ack o : list (string * ievent)) : Prop :=
  ∀ i x y, o !! i = Some x → o !! S i = Some y →
    ∃ a, dict_get x.1 ack = Some a ∧ ie_timestamp_ns a <= ie_timestamp_ns y.2.

Lemma own_id_key entry x k : indexes entry x → own_id x.2 = Ok k → k = x.1.
Proof.
  intros [Hk Hf]. unfold event_key in Hk. apply r_bind_ok in Hk as (m & Hm & Hk).
  apply r_bind_ok in Hk as (ts & _ & Hk). apply r_bind_ok in Hk as (sq & _ & Hk).
  injection Hk as Hkey _ _. unfold own_id. rewrite Hf.
  destruct entry; try discriminate Hm. cbn in Hm |- *.
  destruct (dict_get "msg_id" fields) as [v|]; [|done]. injection Hm as ->.
  destruct m; try discriminate. intros [= <-]. done.
Qed.

Lemma lookup_ok {A} k (d : list (string * A)) a : lookup k d = Ok a ↔ dict_get k d = Some a.
Proof. unfold lookup, fail. destruct (dict_get k d); cbn; split; congruence. Qed.

Lemma gated_cons ack x y o :
  gated ack (x :: y :: o) ↔
  (∃ a, dict_get x.1 ack = Some a ∧ ie_timestamp_ns a <= ie_timestamp_ns y.2) ∧
  gated ack (y :: o).
Proof.
  split.
  - intros Hg. split; [by apply (Hg 0%nat)|]. intros i u v Hu Hv. by apply (Hg (S i)).
  - intros [Ha Hg] [|i] u v Hu Hv; [|by apply (Hg i)]. cbn in Hu, Hv. by simplify_eq.
Qed.

Lemma check_gating_sound name i queue ack o :
  Forall (λ x, dict_get x.1 queue = Some x.2 ∧ ∀ k, own_id x.2 = Ok k → k = x.1) o →
  check_gating name i queue ack (map snd o) = Ok tt → gated ack o.
Proof.
  revert i. induction o as [|x o IH]; intros i Ho Hc; [by intros ? ? ?|].
  destruct o as [|y o]; [by intros [|] ? ? ? ?|].
  apply Forall_cons in Ho as [[Hx Hxk] Ho]. cbn [map check_gating] in Hc.
  apply r_bind_ok in Hc as (k & Hk & Hc). apply r_bind_ok in Hc as (k' & Hk' & Hc).
  apply r_bind_ok in Hc as (q & Hq & Hc). apply r_bind_ok in Hc as (a & Ha & Hc).
  apply fail_if_bind_ok in Hc as [Hts Hc]. apply gated_cons. split; [|by apply (IH (i + 1))].
  apply Hxk in Hk as ->. apply Forall_cons in Ho as [[Hy Hyk] _]. apply Hyk in Hk' as ->.
  apply lookup_ok in Hq, Ha. exists a. split; [done|].
  rewrite Hy in Hq. injection Hq as <-. apply Z.ltb_ge in Hts. done.
Qed.

Lemma check_gating_complete name i queue ack o :
  Forall (λ x, dict_get x.1 queue = Some x.2 ∧ own_id x.2 = Ok x.1) o →
  gated ack o → check_gating name i queue ack (map snd o) = Ok tt.
Proof.
  revert i. induction o as [|x o IH]; intros i Ho Hg; [done|].
  destruct o as [|y o]; [done|]. apply Forall_cons in Ho as [[Hx Hxk] Ho].
  apply gated_cons in Hg as [(a & Ha & Hle) Hg].
  pose proof Ho as Ho'. apply Forall_cons in Ho' as [[Hy Hyk] _].
  specialize (IH (i + 1) Ho Hg). cbn [map] in *. revert IH.
  cbn [check_gating]. generalize (check_gating name (i + 1) queue ack (y.2 :: map snd o)).
  intros r ->. rewrite Hxk, Hyk. cbn [mbind res_mbind r_bind].
  unfold lookup. rewrite Hy, Ha. cbn [mbind res_mbind r_bind].
  by rewrite (proj2 (Z.ltb_ge _ _)).
Qed.

(** A series fit for measuring: as many messages as requested, each queued, sent,
    received and acknowledged exactly once, numbered 1..n and gated by the ACKs. *)
Record valid_series (n : Z) (ix : indexed_events) : Prop := {
  vs_pos : 0 < n;
  vs_nodup : NoDup (dict_keys (ix_queue ix)) ∧ NoDup (dict_keys (ix_tx ix)) ∧
             NoDup (dict_keys (ix_rx ix)) ∧ NoDup (dict_keys (ix_ack ix));
  vs_ids : dict_keys (ix_tx ix) ≡ₚ dict_keys (ix_queue ix) ∧
           dict_keys (ix_rx ix) ≡ₚ dict_keys (ix_queue ix) ∧
           dict_keys (ix_ack ix) ≡ₚ dict_keys (ix_queue ix);
  vs_sequence : map (ie_sequence ∘ snd) (by_sequence (ix_queue ix)) = zrange 1 (n + 1);
  vs_gated : gated (ix_ack ix) (by_sequence (ix_queue ix)) }.

Lemma same_keys_perm {A B} (d : list (string * A)) (d' : list (string * B)) :
  NoDup (dict_keys d) → NoDup (dict_keys d') →
  same_keys d d' = true ↔ dict_keys d' ≡ₚ dict_keys d.
Proof.
  intros Hd Hd'. unfold same_keys. rewrite andb_true_iff, !bool_decide_eq_true. split.
  - intros [H1 H2]. apply NoDup_Permutation; [done..|]. intros x. split; [apply H2|apply H1].
  - intros Hp. split; intros x Hx; by rewrite Hp in Hx || rewrite Hp.
Qed.

Lemma by_sequence_perm d : by_sequence d ≡ₚ d.
Proof. apply merge_sort_Permutation. Qed.

Lemma indexed_get l d x :
  Forall2 indexes l d → NoDup (dict_keys d) → x ∈ by_sequence d →
  dict_get x.1 d = Some x.2 ∧ ∀ k, own_id x.2 = Ok k → k = x.1.
Proof.
  intros Hl Hn Hx. rewrite by_sequence_perm in Hx. split.
  - apply dict_get_Some; [done|]. by destruct x.
  - apply list_elem_of_lookup in Hx as (i & Hi).
    destruct (Forall2_lookup_r _ _ _ _ _ Hl Hi) as (e & _ & He). intros k. by eapply own_id_key.
Qed.

Lemma index_all_ok get events ix :
  index_all py_repr get events = Ok ix ↔
  (∃ v, get "queue" events = Ok v ∧ index_events py_repr v "QUEUE" = Ok (ix_queue ix)) ∧
  (∃ v, get "tx" events = Ok v ∧ index_events py_repr v "TX" = Ok (ix_tx ix)) ∧
  (∃ v, get "rx" events = Ok v ∧ index_events py_repr v "RX" = Ok (ix_rx ix)) ∧
  (∃ v, get "ack" events = Ok v ∧ index_events py_repr v "ACK" = Ok (ix_ack ix)).
Proof.
  unfold index_all. split.
  - intros Hx. apply r_bind_ok in Hx as (q & (v1 & H1 & H1')%r_bind_ok & Hx).
    apply r_bind_ok in Hx as (t & (v2 & H2 & H2')%r_bind_ok & Hx).
    apply r_bind_ok in Hx as (r & (v3 & H3 & H3')%r_bind_ok & Hx).
    apply r_bind_ok in Hx as (a & (v4 & H4 & H4')%r_bind_ok & [= <-]). cbn. split_and!; eauto.
  - intros ((v1 & H1 & H1') & (v2 & H2 & H2') & (v3 & H3 & H3') & (v4 & H4 & H4')).
    rewrite H1. cbn. rewrite H1'. cbn. rewrite H2. cbn. rewrite H2'. cbn.
    rewrite H3. cbn. rewrite H3'. cbn. rewrite H4. cbn. rewrite H4'. cbn. by destruct ix.
Qed.

(** A key that is missing gives no events: where there are some, both ways of
    reading the document agree. *)
Lemma index_present k label events v d :
  jget_default k (JList []) events = Ok v → index_events py_repr v label = Ok d →
  (0 < length d)%nat → jget k events = Ok v.
Proof.
  destruct events; cbn; try done. destruct (dict_get k fields); [done|].
  intros [= <-]. cbn. intros [= <-]. cbn. lia.
Qed.

Lemma index_agrees events ix :
  index_all py_repr (λ k, jget_default k (JList [])) events = Ok ix →
  (0 < length (ix_queue ix))%nat → (0 < length (ix_tx ix))%nat →
  (0 < length (ix_rx ix))%nat → (0 < length (ix_ack ix))%nat →
  index_all py_repr jget events = Ok ix.
Proof.
  rewrite !index_all_ok.
  intros ((v1 & H1 & H1') & (v2 & H2 & H2') & (v3 & H3 & H3') & (v4 & H4 & H4')) L1 L2 L3 L4.
  split_and!; eexists; (split; [by eapply index_present|done]).
Qed.

Lemma validate_documents_sound name events run_meta ix :
  validate_documents py_repr name events run_meta = Ok ix →
  ∃ n, (x ← jget_default "messages_requested" (JInt 0) run_meta; int_of x) = Ok n ∧
    valid_series n ix ∧ dlen (ix_queue ix) = n ∧ index_all py_repr jget events = Ok ix.
Proof.
  intros Hv. unfold validate_documents in Hv. res_inv.
  match goal with
  | Hq : jget_default "messages_requested" _ _ = Ok _, Hi : int_of _ = Ok ?n,
    Hp : (?n <=? 0) = false, Hs : bool_decide (_ = zrange _ _) = true,
    S1 : same_keys (ix_queue ix) (ix_tx ix) = true, S2 : same_keys (ix_tx ix) (ix_rx ix) = true,
    S3 : same_keys (ix_rx ix) (ix_ack ix) = true, Ha : index_all _ _ _ = Ok ix,
    Hg : check_gating _ _ _ _ _ = Ok _ |- _ =>
      rename Hq into Hreq, Hi into Hint, n into m, Hp into Hpos, Hs into Hseq,
        S1 into Hs1, S2 into Hs2, S3 into Hs3, Ha into Hix, Hg into Hgate
  end.
  repeat match goal with H : (dlen _ =? _) = true |- _ => apply Z.eqb_eq in H end.
  apply Z.leb_gt in Hpos. apply bool_decide_eq_true in Hseq. rewrite map_map in Hseq.
  unfold dlen in *. exists m. rewrite Hreq. cbn [mbind res_mbind r_bind].
  pose proof Hix as Hix'. apply index_all_ok in Hix'
    as ((v1 & _ & Q1) & (v2 & _ & Q2) & (v3 & _ & Q3) & (v4 & _ & Q4)).
  apply index_events_ok in Q1 as (l1 & _ & F1 & N1). apply index_events_ok in Q2 as (_ & _ & _ & N2).
  apply index_events_ok in Q3 as (_ & _ & _ & N3). apply index_events_ok in Q4 as (_ & _ & _ & N4).
  apply same_keys_perm in Hs1, Hs2, Hs3; [|done..].
  split_and!; [done| |lia|apply index_agrees; [done|lia..]]. split; [lia|done| |done|].
  - rewrite Hs3, Hs2, Hs1. done.
  - match type of Hgate with _ = Ok ?u => destruct u end.
    eapply check_gating_sound; [|done]. apply Forall_forall. intros z Hz.
    by eapply indexed_get.
Qed.

(** ** What the rows are *)

Lemma build_row_ok mode c ix msg_id qe r :
  build_row mode c ix msg_id qe = Ok r →
  ∃ te re ae qc tc rc ac,
    dict_get msg_id (ix_tx ix) = Some te ∧ dict_get msg_id (ix_rx ix) = Some re ∧
    dict_get msg_id (ix_ack ix) = Some ae ∧
    correct_vm_time (ie_timestamp_ns qe) (a_pre c) (a_post c) = Ok qc ∧
    correct_vm_time (ie_timestamp_ns te) (a_pre c) (a_post c) = Ok tc ∧
    correct_vm_time (ie_timestamp_ns re) (b_pre c) (b_post c) = Ok rc ∧
    correct_vm_time (ie_timestamp_ns ae) (a_pre c) (a_post c) = Ok ac ∧
    host_ns qc <= host_ns tc <= host_ns rc ∧ host_ns qc <= host_ns ac ∧
    sequence r = ie_sequence qe ∧ message_id r = msg_id ∧
    t_queue_vm_ns r = ie_timestamp_ns qe ∧ t_rx_vm_ns r = ie_timestamp_ns re ∧
    t_ack_vm_ns r = ie_timestamp_ns ae ∧
    t_queue_host r = host_ns qc ∧ t_tx_host r = host_ns tc ∧ t_rx_host r = host_ns rc ∧
    t_ack_host r = host_ns ac ∧
    latency_ms r = ms (host_ns rc - host_ns qc) ∧
    clock_uncertainty_ms r = fms (fadd (uncertainty_ns qc) (uncertainty_ns rc)).
Proof.
  unfold build_row. intros Hr.
  apply r_bind_ok in Hr as (qc & Hq & Hr). apply r_bind_ok in Hr as (te & Hte%lookup_ok & Hr).
  apply r_bind_ok in Hr as (tc & Ht & Hr). apply r_bind_ok in Hr as (re & Hre%lookup_ok & Hr).
  apply r_bind_ok in Hr as (rc & Hrc & Hr). apply r_bind_ok in Hr as (ae & Hae%lookup_ok & Hr).
  apply r_bind_ok in Hr as (ac & Hac & Hr). apply fail_if_bind_ok in Hr as [Hmin Hr].
  apply fail_if_bind_ok in Hr as [_ Hr]. apply r_bind_ok in Hr as (j & _ & Hr).
  injection Hr as <-. apply Z.ltb_ge in Hmin.
  exists te, re, ae, qc, tc, rc, ac. cbn. split_and!; first [done|lia].
Qed.

(** The rows of one mode: numbered 1..n in order, one per message, every event
    after the one that causes it, and gated by the ACKs on the sender's clock. *)
Record well_formed_rows (rows : list row) : Prop := {
  wf_some : rows ≠ [];
  wf_sequence : map sequence rows = zrange 1 (dlen rows + 1);
  wf_ids : NoDup (map message_id rows);
  wf_order : Forall (λ r, t_queue_host r <= t_tx_host r <= t_rx_host r ∧
                          t_queue_host r <= t_ack_host r) rows;
  wf_gated : ∀ i r r', rows !! i = Some r → rows !! S i = Some r' →
    t_ack_vm_ns r <= t_queue_vm_ns r' }.

Lemma rows_of_ok mode events calibration ix rows clock :
  index_all py_repr jget events = Ok ix →
  rows_of py_repr mode events calibration = Ok (rows, clock) →
  ∃ c, read_anchors calibration = Ok c ∧
    Forall2 (λ x r, build_row mode c ix x.1 x.2 = Ok r) (by_sequence (ix_queue ix)) rows.
Proof.
  intros Hix Hr. unfold rows_of in Hr. rewrite Hix in Hr. cbn [mbind res_mbind r_bind] in Hr.
  apply r_bind_ok in Hr as (c & Hc & Hr). apply r_bind_ok in Hr as (rs & Hrs & [= <- _]).
  exists c. split; [done|]. apply map_res_ok in Hrs.
  eapply Forall2_impl; [exact Hrs|]. by intros [k e] r H.
Qed.

Lemma rows_well_formed mode events calibration n ix rows clock :
  valid_series n ix → dlen (ix_queue ix) = n → index_all py_repr jget events = Ok ix →
  rows_of py_repr mode events calibration = Ok (rows, clock) → well_formed_rows rows.
Proof.
  intros Hv Hn Hix Hr. destruct (rows_of_ok _ _ _ _ _ _ Hix Hr) as (c & _ & HF).
  destruct Hv as [Hpos (Hnd & _ & _ & _) _ Hseq Hgate].
  set (o := by_sequence (ix_queue ix)) in *.
  pose proof (by_sequence_perm (ix_queue ix)) as Hp. fold o in Hp.
  pose proof (Forall2_length _ _ _ HF) as Hlen. pose proof (Permutation_length Hp) as Hol.
  assert (dlen rows = n) as Hdl by (unfold dlen in *; lia).
  assert (Forall2 (λ x r, sequence r = ie_sequence x.2 ∧ message_id r = x.1) o rows) as HF'.
  { eapply Forall2_impl; [exact HF|]. intros x r Hb.
    apply build_row_ok in Hb as (? & ? & ? & ? & ? & ? & ? & Hb). naive_solver. }
  split.
  - intros ->. unfold dlen in Hdl. cbn in Hdl. lia.
  - rewrite Hdl, <- Hseq. clear -HF'. induction HF' as [|x r o rows [H _] _ IH]; [done|].
    cbn. by rewrite H, IH.
  - assert (map message_id rows = dict_keys o) as ->.
    { clear -HF'. induction HF' as [|x r o rows [_ H] _ IH]; [done|]. cbn. by rewrite H, IH. }
    unfold dict_keys. by rewrite Hp.
  - clear -HF. induction HF as [|x r o rows Hb _ IH]; constructor; [|done].
    apply build_row_ok in Hb as (? & ? & ? & ? & ? & ? & ? & Hb).
    destruct Hb as (_ & _ & _ & _ & _ & _ & _ & ? & ? & _ & _ & _ & _ & _ & -> & -> & -> & -> & _).
    lia.
  - intros i r r' Hi Hi'.
    destruct (Forall2_lookup_r _ _ _ _ _ HF Hi) as (x & Hx & Hb).
    destruct (Forall2_lookup_r _ _ _ _ _ HF Hi') as (y & Hy & Hb').
    destruct (Hgate i x y Hx Hy) as (a & Ha & Hle).
    apply build_row_ok in Hb as (? & ? & ae & ? & ? & ? & ? & Hb).
    apply build_row_ok in Hb' as (? & ? & ? & ? & ? & ? & ? & Hb').
    destruct Hb as (_ & _ & Hae & _ & _ & _ & _ & _ & _ & _ & _ & _ & _ & -> & _).
    destruct Hb' as (_ & _ & _ & _ & _ & _ & _ & _ & _ & _ & _ & -> & _). congruence.
Qed.
End laws.

(** ** Every mode's rows *)

Lemma convert_ends {A} cs c msg (r : res A) : r ≠ NoFuel → convert cs c msg r ≠ NoFuel.
Proof. destruct r as [|e|]; cbn; [done| |done]. by destruct (isinstance_any e cs). Qed.
#[local] Hint Extern 1 (convert _ _ _ _ ≠ NoFuel) => (apply convert_ends; ends_tac) : py.

Lemma index_go_ends py_repr label d l : index_go py_repr label d l ≠ NoFuel.
Proof. revert d. induction l as [|e l IH]; intros d; cbn [index_go]; ends_tac. Qed.
#[local] Hint Resolve index_go_ends : py.
Lemma check_gating_ends name i queue ack l : check_gating name i queue ack l ≠ NoFuel.
Proof.
  revert i. induction l as [|e l IH]; intros i; [done|]. destruct l as [|e' l]; [done|].
  cbn [check_gating] in *. do 5 (apply ends_bind; [ends_tac|intros]). apply IH.
Qed.
#[local] Hint Resolve check_gating_ends : py.

Lemma build_rows_total {W} `{Host W} py_repr root mode :
  total (build_rows py_repr root mode : M (hst W) _).
Proof. total_deep; ends_tac. Qed.

(** C39: Building the rows of a mode ends on every host; the rows it returns are those
    of a validated series: numbered 1..n in order, one per message identifier, every
    message queued before it is sent, sent before it is received and queued before it
    is acknowledged on the host's clock, and each message queued only after the ACK
    of the one before on the sender's clock. *)
Theorem build_rows_well_formed {W} `{Host W} py_repr root mode (st : hst W) :
  ∃ r st', returns (build_rows py_repr root mode) st r st' ∧
    match r with
    | Ok (rows, _) => well_formed_rows rows
    | Raise _ => True
    | NoFuel => False
    end.
Proof.
  destruct (total_post (build_rows py_repr root mode) (λ p _, well_formed_rows p.1)
    (λ _ _, True) st) as (r & st' & Hr & Hp).
  - apply build_rows_total.
  - intros n. unfold build_rows, validate_mode. apply wp_bind, wp_bind.
    eapply wp_mono; [| |apply wp_trivial]; [|done]. intros events s1 _.
    apply wp_bind. eapply wp_mono; [| |apply wp_trivial]; [|done]. intros calibration s2 _.
    apply wp_bind. eapply wp_mono; [| |apply wp_trivial]; [|done]. intros run_meta s3 _.
    apply wp_bind, wp_of_res.
    destruct (validate_documents _ _ _ _) as [ix| |] eqn:Hv; [|done..].
    apply wp_ret, wp_of_res.
    destruct (rows_of _ _ _ _) as [[rows clock]| |] eqn:Hrows; [|done..].
    apply validate_documents_sound in Hv as (m & _ & Hv & Hm & Hix).
    by eapply rows_well_formed.
  - exists r, st'. split; [done|]. by destruct r as [[rows clock]| |].
Qed.

(** ** The latencies are accurate *)

Local Open Scope Q_scope.

(** The offsets of the two guests' clocks at the two calibrations. *)
Record drift : Type := { th_a1 : Q; th_a2 : Q; th_b1 : Q; th_b2 : Q }.

Definition clocks_ok (c : anchors) (d : drift) : Prop :=
  calibrated (a_pre c) (th_a1 d) ∧ calibrated (a_post c) (th_a2 d) ∧
  calibrated (b_pre c) (th_b1 d) ∧ calibrated (b_post c) (th_b2 d) ∧
  (a_vm_ns (a_pre c) < a_vm_ns (a_post c))%Z ∧ (a_vm_ns (b_pre c) < a_vm_ns (b_post c))%Z.

(** Both timestamps of a row lie between the calibrations of their guest. *)
Definition inside (c : anchors) (r : row) : Prop :=
  (a_vm_ns (a_pre c) <= t_queue_vm_ns r <= a_vm_ns (a_post c))%Z ∧
  (a_vm_ns (b_pre c) <= t_rx_vm_ns r <= a_vm_ns (b_post c))%Z ∧
  (0 <= t_queue_vm_ns r < 2 ^ 61)%Z ∧ (0 <= t_rx_vm_ns r < 2 ^ 61)%Z.

(** The time from queueing on the sender to reception, on the host's clock. *)
Definition true_latency_ns (c : anchors) (d : drift) (r : row) : Q :=
  (inject_Z (t_rx_vm_ns r)
     - drifted (th_b1 d) (th_b2 d) (fraction (t_rx_vm_ns r) (b_pre c) (b_post c)))
  - (inject_Z (t_queue_vm_ns r)
     - drifted (th_a1 d) (th_a2 d) (fraction (t_queue_vm_ns r) (a_pre c) (a_post c))).

Lemma Qdiv_million x : x / inject_Z 1000000 == x * (1 # 1000000).
Proof. unfold Qdiv. by change (/ inject_Z 1000000) with (1 # 1000000). Qed.

Lemma scaled_ulp_62 : inject_Z (2 ^ 62) * ulp == 512.
Proof. by vm_compute. Qed.

(** Converting nanoseconds to milliseconds. *)
Lemma ms_error z : (Z.abs z <= 2 ^ 62)%Z → Qabs (ms z - inject_Z z * (1 # 1000000)) <= 2 # 1000.
Proof.
  intros Hz. pose proof (inject_Z_abs _ _ Hz) as Hq. pose proof eta_tiny as He.
  pose proof (fl_within _ _ Hq) as H1. fold (fint z) in H1. rewrite scaled_ulp_62 in H1.
  unfold ms, fdiv. set (f := fint z) in *. clearbody f.
  assert (600 <= inject_Z (2 ^ 62)) as Hbig by by vm_compute.
  assert (Qabs (f * (1 # 1000000)) <= inject_Z (2 ^ 62) * (2 # 1000000)) as Hf.
  { apply Qabs_Qle_condition in Hq, H1. apply Qabs_Qle_condition. lra. }
  pose proof (fl_within _ _ Hf) as H2.
  assert (inject_Z (2 ^ 62) * (2 # 1000000) * ulp == (1024 # 1000000)) as E by by vm_compute.
  rewrite E in H2. rewrite (fl_proper_Qeq _ _ (Qdiv_million f)).
  assert (eta <= 1 # 10000) as He'.
  { pose proof ulp_small. pose proof eta_small. lra. }
  revert H2. generalize (fl (f * (1 # 1000000))). intros g H2.
  apply Qabs_Qle_condition in H1, H2. apply Qabs_Qle_condition. lra.
Qed.

Lemma uncertainty_ms_lower u v :
  0 <= u <= inject_Z offset_bound → 0 <= v <= inject_Z offset_bound →
  (u + v) * (1 # 1000000) - (1 # 1000) <= fms (fadd u v).
Proof.
  intros Hu Hv. unfold fms, fadd, fdiv.
  assert (inject_Z (2 ^ 51) == 2 * inject_Z offset_bound) as E51 by by vm_compute.
  assert (Qabs (u + v) <= inject_Z (2 ^ 51)) as H1 by (rewrite E51, Qabs_pos; lra).
  pose proof (fl_within _ _ H1) as H2. rewrite ulp_scaled in H2.
  assert (eta <= 1 # 10000) as He by (pose proof ulp_small; pose proof eta_small; lra).
  set (s := fl (u + v)) in *. clearbody s.
  assert (2 <= inject_Z (2 ^ 51)) as Hbig by by vm_compute.
  assert (Qabs (s * (1 # 1000000)) <= inject_Z (2 ^ 51)) as H3.
  { rewrite Qabs_pos in H1 by lra. apply Qabs_Qle_condition in H2. apply Qabs_Qle_condition. lra. }
  assert (Qabs (s * (1 # 1000000)) <= inject_Z (2 ^ 51) * (2 # 1000000)) as H4.
  { rewrite Qabs_pos in H1 by lra. apply Qabs_Qle_condition in H2. apply Qabs_Qle_condition. lra. }
  pose proof (fl_within _ _ H4) as H5.
  assert (inject_Z (2 ^ 51) * (2 # 1000000) * ulp <= 1 # 1000000) as E by by vm_compute.
  rewrite (fl_proper_Qeq _ _ (Qdiv_million s)).
  revert H5. generalize (fl (s * (1 # 1000000))). intros g H5.
  apply Qabs_Qle_condition in H2, H5. lra.
Qed.

Lemma row_accuracy mode c ix msg_id qe r d :
  build_row mode c ix msg_id qe = Ok r → clocks_ok c d → inside c r →
  Qabs (latency_ms r - true_latency_ns c d r * (1 # 1000000)) <= clock_uncertainty_ms r + (5 # 1000).
Proof.
  intros Hb (Ca1 & Ca2 & Cb1 & Cb2 & Ha & Hb') (Iq & Ir & Bq & Br).
  apply build_row_ok in Hb as (te & re & ae & qc & tc & rc & ac & Hb).
  destruct Hb as (_ & _ & _ & Hq & _ & Hrc & _ & Hord & _ & _ & _ & Eq & Er & _ & _ & _ & _ & _ & El & Eu).
  rewrite El, Eu. unfold true_latency_ns. rewrite Eq, Er in *.
  destruct (correct_vm_time_close _ _ _ _ _ _ Ca1 Ca2 Ha Iq Bq Hq) as (Aq & Uq & Dq).
  destruct (correct_vm_time_close _ _ _ _ _ _ Cb1 Cb2 Hb' Ir Br Hrc) as (Ar & Ur & Dr).
  pose proof (uncertainty_ms_lower _ _ Uq Ur) as Hu.
  assert (Z.abs (host_ns rc - host_ns qc) <= 2 ^ 62)%Z as Hz.
  { apply Qabs_Qle_condition in Dq, Dr. rewrite <- inject_Z_opp in Dq, Dr.
    unfold Qminus in Dq, Dr. rewrite <- !inject_Z_opp, <- !inject_Z_plus, <- !Zle_Qle in Dq, Dr. lia. }
  pose proof (ms_error _ Hz) as Hm.
  assert (inject_Z (host_ns rc - host_ns qc) == inject_Z (host_ns rc) - inject_Z (host_ns qc)) as E.
  { unfold Z.sub. rewrite inject_Z_plus, inject_Z_opp. reflexivity. }
  rewrite E in Hm. apply Qabs_Qle_condition in Aq, Ar, Hm. apply Qabs_Qle_condition. lra.
Qed.

(** C40: The latency of a row is right up to the uncertainty written next to it (and
    five microseconds of rounding), for guest clocks that drift steadily between the
    two calibrations and are calibrated to within half a round trip at both ends. *)
Theorem latency_accuracy py_repr mode events calibration rows clock c d r :
  rows_of py_repr mode events calibration = Ok (rows, clock) →
  read_anchors calibration = Ok c → clocks_ok c d → r ∈ rows → inside c r →
  Qabs (latency_ms r - true_latency_ns c d r * (1 # 1000000)) <= clock_uncertainty_ms r + (5 # 1000).
Proof.
  intros Hrows Hc Hd Hr Hi. pose proof Hrows as H'. unfold rows_of in H'.
  apply r_bind_ok in H' as (ix & Hix & _).
  destruct (rows_of_ok _ _ _ _ _ _ _ Hix Hrows) as (c' & Hc' & HF).
  rewrite Hc in Hc'. injection Hc' as <-.
  apply list_elem_of_lookup in Hr as (i & Hr).
  destruct (Forall2_lookup_r _ _ _ _ _ HF Hr) as (x & _ & Hb). by eapply row_accuracy.
Qed.

Definition one_event (ts : Z) : json :=
  JList [JObj [("sequence", JInt 1); ("timestamp_ns", JInt ts); ("msg_id", JStr "AB12")]].
Definition one_message : json :=
  JObj [("queue", one_event 1800000300000123456); ("tx", one_event 1800000301000123456);
        ("rx", one_event 1800000302500123456); ("ack", one_event 1800000305000123456)].
Definition anchor_doc (mid vm : Z) : json :=
  JObj [("selected", JObj [("host_mid_ns", JInt mid); ("vm_ns", JInt vm);
    ("offset_vm_minus_host_ns", JInt (vm - mid)); ("rtt_ns", JInt 40000)])].
Definition one_calibration : json :=
  JObj [("pre", JObj [("client_a", anchor_doc 1800000000000000000 1800000000000500000);
                      ("client_b", anchor_doc 1800000000100000000 1800000000098000000)]);
        ("post", JObj [("client_a", anchor_doc 1800000600000000000 1800000600000800000);
                       ("client_b", anchor_doc 1800000600100000000 1800000600097000000)])].
Definition no_repr (_ : json) : string := EmptyString.
Definition rows_run : res (list row * list (string * json)) :=
  Eval vm_compute in rows_of no_repr "cbr" one_message one_calibration.
Definition one_row : row :=
  Eval vm_compute in match rows_run with
  | Ok (r :: _, _) => r
  | _ => {| sequence := 0; message_id := EmptyString; prequeue_jitter_ms := 0; t_queue_vm_ns := 0;
            t_tx_vm_ns := 0; t_rx_vm_ns := 0; t_ack_vm_ns := 0; t_queue_host := 0; t_tx_host := 0;
            t_rx_host := 0; t_ack_host := 0; latency_ms := 0; queue_to_tx_ms := 0;
            tx_to_rx_ms := 0; queue_to_ack_ms := 0; sender_offset_ms := 0;
            receiver_offset_ms := 0; clock_uncertainty_ms := 0 |}
  end.
Definition one_anchors : anchors :=
  let a m v := {| a_host_mid_ns := m; a_vm_ns := v; a_offset := v - m; a_rtt_ns := 40000 |} in
  {| a_pre := a 1800000000000000000 1800000000000500000;
     a_post := a 1800000600000000000 1800000600000800000;
     b_pre := a 1800000000100000000 1800000000098000000;
     b_post := a 1800000600100000000 1800000600097000000 |}%Z.
Definition one_drift : drift := {| th_a1 := 510000; th_a2 := 780000; th_b1 := -2010000; th_b2 := -2990000 |}.

Lemma latency_accuracy_witness :
  Qabs (latency_ms one_row - true_latency_ns one_anchors one_drift one_row * (1 # 1000000))
    <= clock_uncertainty_ms one_row + (5 # 1000).
Proof.
  apply (latency_accuracy no_repr "cbr" one_message one_calibration [one_row]
           (clock_metadata one_anchors) one_anchors one_drift one_row).
  - vm_compute. reflexivity.
  - vm_compute. reflexivity.
  - unfold clocks_ok, calibrated, offset_bound.
    cbn [one_anchors one_drift a_pre a_post b_pre b_post a_vm_ns a_offset a_rtt_ns th_a1 th_a2 th_b1 th_b2].
    split_and!; first [lia|by vm_compute].
  - left.
  - unfold inside. cbn [one_anchors a_pre a_post b_pre b_post a_vm_ns one_row t_queue_vm_ns t_rx_vm_ns].
    split_and!; lia.
Defined.
