(* ===== verification/AuthTest.v ===== *)
(** * BT-01/auth_test.py: the challenge-response and proof-of-work test client

    Every function of the script, over any host.  The script's [Summary] object
    is the local state of [main]; [sock] variables that a [finally] block reads
    are locals too. *)

From Stdlib Require Import Ascii ZArith QArith Lia Lqa.
From Stdlib Require Import Init.Byte.
From coqutil Require Import Byte Word.LittleEndianList.
From stdpp Require Import base list strings.
From S2P Require Import Prelude PyNum PyText Host Loopback Blake2b Wire.

Open Scope Z_scope.

Record CheckResult : Type := { name : string; passed : bool; detail : string }.

Record Summary : Type := {
  onion : string;
  sum_passed : bool;
  duration_seconds : Q;
  checks : list CheckResult }.

Record args : Type := {
  a_onion : string; socks_host : string; socks_port : Z; target_port : Z;
  timeout : Q; connect_retries : Z; retry_delay : Q;
  summary_json : option string; probe_only : bool }.

Definition auth_dialect : dialect := {|
  protocol_error := AuthProtocolError;
  socks_error := AuthSocksError;
  msg_closed size got := "connection closed while receiving " +:+ str_nat size +:+ " bytes ("
                           +:+ str_nat got +:+ " bytes received)";
  msg_oversized len := "oversized payload: " +:+ str_Z len;
  msg_onion_length := "invalid onion hostname length";
  msg_noauth := "SOCKS5 NoAuth method rejected";
  msg_bad_response := "invalid SOCKS5 response";
  msg_connect_failed b := "SOCKS5 CONNECT failed with code 0x" +:+ hex2 b;
  msg_bad_atyp b := "unsupported SOCKS5 address type: " +:+ str_Z (byte.unsigned b) |}.

Definition byte_hex (z : Z) : string := hex2 (byte.of_Z z).

Definition pow_is_valid (challenge nonce : bytes) : res bool :=
  fail_if (negb (length challenge =? CHALLENGE_SIZE)%nat) ValueError "bad challenge size";;
  fail_if (negb (length nonce =? 8)%nat) ValueError "bad nonce size";;
  let digest := blake2b 16 (challenge ++ nonce) in
  mret (bool_decide (nth 0 digest x00 = x00) && (byte.unsigned (nth 1 digest x00) <? 16)).

Definition check_json (c : CheckResult) : json :=
  JObj [("name", JStr (name c)); ("passed", JBool (passed c)); ("detail", JStr (detail c))].
(** [asdict(summary)] *)
Definition summary_to_json (s : Summary) : json :=
  JObj [("onion", JStr (onion s)); ("passed", JBool (sum_passed s));
        ("duration_seconds", JFloat (duration_seconds s));
        ("checks", JList (map check_json (checks s)))].

(** The checks after [parser.parse_args()]; [parser.error] exits with status 2. *)
Definition parse_args (a : args) : res args :=
  fail_if (Qle_bool (timeout a) 0) SystemExit "--timeout must be > 0";;
  fail_if (connect_retries a <=? 0) SystemExit "--connect-retries must be > 0";;
  fail_if (Qlt_bool (retry_delay a) 0) SystemExit "--retry-delay must be >= 0";;
  fail_if (contains "://" (a_onion a)) SystemExit "--onion must be a hostname, not a URL";;
  mret a.

Section auth_test.
Context {W : Type} `{Host W}.

Definition recv_exact (s : sock) (size : nat) : M (hst W) bytes :=
  Wire.recv_exact auth_dialect s size.
Definition recv_frame (s : sock) : M (hst W) (Z * bytes * bytes) :=
  Wire.recv_frame auth_dialect s.
Definition socks5_connect (h : string) (p : Z) (o : string) (tp : Z) (t : Q)
  : M (hst W) sock :=
  Wire.socks5_connect auth_dialect h p o tp t.

Definition receive_challenge (s : sock) : M (hst W) bytes :=
  '(action, mailbox, payload) ← recv_frame s;
  raise_if (negb (action =? ACTION_AUTH_CHALLENGE)) AuthProtocolError
    ("expected AUTH_CHALLENGE, received action=0x" +:+ byte_hex action);;
  raise_if (negb (bool_decide (mailbox = ZERO_MAILBOX))) AuthProtocolError
    "AUTH_CHALLENGE used non-zero mailbox ID";;
  raise_if (negb (length payload =? CONTROL_PAYLOAD_SIZE)%nat) AuthProtocolError
    ("AUTH_CHALLENGE payload has " +:+ str_nat (length payload) +:+ " bytes, expected "
       +:+ str_nat CONTROL_PAYLOAD_SIZE);;
  mret (take CHALLENGE_SIZE payload).

Definition solve_pow (challenge : bytes) : M (hst W) bytes :=
  iter (λ nonce : Z,
    if nonce <? 2 ^ 64 then
      let nonce_bytes := pack_u64 nonce in
      ok ← of_res (pow_is_valid challenge nonce_bytes);
      if (ok : bool) then mret (inr nonce_bytes) else mret (inl (nonce + 1))
    else throw TestError "unable to solve PoW") 1.

Definition find_invalid_nonce (challenge : bytes) : M (hst W) bytes :=
  iter (λ nonce : Z,
    if nonce <? 2 ^ 64 then
      let nonce_bytes := pack_u64 nonce in
      ok ← of_res (pow_is_valid challenge nonce_bytes);
      if negb (ok : bool) then mret (inr nonce_bytes) else mret (inl (nonce + 1))
    else throw TestError "unable to find invalid PoW nonce") 0.

Definition close_quietly (s : option sock) : M (hst W) unit :=
  match s with
  | None => mret tt
  | Some s =>
      try_except (call (EShutdown s)) (except [OSError] (λ _, mret tt));;
      call (EClose s)
  end.

(** One [recv] of [wait_for_rejection]: [None] is the [continue] after a timeout. *)
Definition rejection_recv (s : sock) : M (hst W) (option string) :=
  r ← try_except (data ← call (ERecv s 4096); mret (Some (inl data)))
    (λ exc,
      if isinstance exc TimeoutError then Some (mret None)
      else if isinstance_any exc [ConnectionResetError; ConnectionAbortedError; BrokenPipeError]
      then Some (mret (Some (inr ("connection reset/aborted: " +:+ ex_msg exc))))
      else if isinstance exc OSError
      then Some (throw TestError
                   ("unexpected socket error while waiting for rejection: " +:+ ex_msg exc))
      else None);
  match r with
  | None => mret None
  | Some (inr why) => mret (Some why)
  | Some (inl data) =>
      if bool_decide (data = []) then mret (Some "connection closed by server")
      else throw TestError ("server returned " +:+ str_nat (length data)
             +:+ " unexpected bytes instead of rejecting connection")
  end.

Definition wait_for_rejection (s : sock) (timeout : Q) : M (hst W) string :=
  t0 ← monotonic;
  let deadline := fadd t0 timeout in
  old_timeout ← call (EGetTimeout s);
  try_finally
    (iter (λ _ : unit,
       t ← monotonic;
       if Qlt_bool t deadline then
         t' ← monotonic;
         let remaining := fsub deadline t' in
         call (ESetTimeout s (Some (Qmin_py (fl (1 # 2)) (Qmax_py remaining (fl (1 # 20))))));;
         r ← rejection_recv s;
         match r with
         | Some why => mret (inr why)
         | None => mret (inl tt)
         end
       else throw TestError ("connection remained open for " +:+ fmt1 timeout
              +:+ "s after rejected operation")) tt)
    (try_except (call (ESetTimeout s old_timeout)) (except [OSError] (λ _, mret tt))).

(** The [except] block of an attempt; it reads the local [sock]. *)
Definition attempt_failed (a : args) (attempt : Z) (exc : exn)
  : M (option sock * hst W) (option exn + sock * bytes) :=
  s ← get_local;
  lift (close_quietly s);;
  (if attempt <? connect_retries a then lift (sleep (retry_delay a)) else mret tt);;
  mret (inl (Some exc)).

(** One attempt: [inr] is the [return], [inl] the error that was recorded. *)
Definition connect_attempt (a : args) (attempt : Z) : M (hst W) (option exn + sock * bytes) :=
  with_locals (None : option sock)
    (try_except
       (s ← lift (socks5_connect (socks_host a) (socks_port a) (a_onion a)
                    (target_port a) (timeout a));
        set_local (λ _, Some s);;
        challenge ← lift (receive_challenge s);
        mret (inr (s, challenge)))
       (except [Exception_] (attempt_failed a attempt))).

Definition connect_and_receive_challenge (a : args) : M (hst W) (sock * bytes) :=
  r ← for_each (zrange 1 (connect_retries a + 1)) (λ attempt _, connect_attempt a attempt) None;
  match r with
  | inr found => mret found
  | inl last_error =>
      throw TestError ("could not establish test connection after "
        +:+ str_Z (connect_retries a) +:+ " attempts: "
        +:+ match last_error with Some e => ex_msg e | None => "None" end)
  end.

(** [send_frame] inside the [try] of the rejection tests: [Some why] when the
    server had already dropped the connection. *)
Definition send_or_rejected (s : sock) (action : Z) (mailbox payload : bytes) (what : string)
  : M (hst W) (option string) :=
  try_except (send_frame s action mailbox payload;; mret None)
    (except [BrokenPipeError; ConnectionResetError; ConnectionAbortedError]
       (λ exc, mret (Some (what +:+ ex_msg exc)))).

Definition test_valid_pow (a : args) : M (hst W) string :=
  with_locals (None : option sock)
    (try_finally
       ('(s, challenge) ← lift (connect_and_receive_challenge a);
        set_local (λ _, Some s);;
        nonce ← lift (solve_pow challenge);
        resp ← of_res (pad_control_payload nonce);
        lift (send_frame s ACTION_AUTH_RESPONSE ZERO_MAILBOX resp);;
        mailbox ← lift (call (EUrandom MAILBOX_SIZE));
        empty ← of_res (pad_control_payload []);
        lift (send_frame s ACTION_POLL mailbox empty);;
        '(action, response_mailbox, payload) ← lift (recv_frame s);
        raise_if (negb (action =? ACTION_POLL)) TestError
          ("authenticated POLL returned action=0x" +:+ byte_hex action +:+ ", expected POLL");;
        raise_if (negb (bool_decide (response_mailbox = mailbox))) TestError
          "authenticated POLL returned a different mailbox ID";;
        raise_if (negb (bool_decide (payload = empty))) TestError
          ("authenticated empty POLL returned unexpected payload of "
             +:+ str_nat (length payload) +:+ " bytes");;
        mret "valid PoW accepted and authenticated POLL returned expected empty response")
       (s ← get_local; lift (close_quietly s))).

Definition test_invalid_pow (a : args) : M (hst W) string :=
  with_locals (None : option sock)
    (try_finally
       ('(s, challenge) ← lift (connect_and_receive_challenge a);
        set_local (λ _, Some s);;
        nonce ← lift (find_invalid_nonce challenge);
        ok ← of_res (pow_is_valid challenge nonce);
        raise_if ok TestError "internal error: generated nonce unexpectedly satisfies PoW";;
        resp ← of_res (pad_control_payload nonce);
        lift (send_frame s ACTION_AUTH_RESPONSE ZERO_MAILBOX resp);;
        mailbox ← lift (call (EUrandom MAILBOX_SIZE));
        empty ← of_res (pad_control_payload []);
        r ← lift (send_or_rejected s ACTION_POLL mailbox empty
                    "invalid PoW rejected before POLL could be sent: ");
        match r with
        | Some why => mret why
        | None => lift (wait_for_rejection s (timeout a))
        end)
       (s ← get_local; lift (close_quietly s))).

Definition test_pre_auth_poll (a : args) : M (hst W) string :=
  with_locals (None : option sock)
    (try_finally
       ('(s, _) ← lift (connect_and_receive_challenge a);
        set_local (λ _, Some s);;
        mailbox ← lift (call (EUrandom MAILBOX_SIZE));
        empty ← of_res (pad_control_payload []);
        r ← lift (send_or_rejected s ACTION_POLL mailbox empty
                    "pre-auth POLL rejected during send: ");
        match r with
        | Some why => mret why
        | None => lift (wait_for_rejection s (timeout a))
        end)
       (s ← get_local; lift (close_quietly s))).

Definition test_pre_auth_push (a : args) : M (hst W) string :=
  with_locals (None : option sock)
    (try_finally
       ('(s, _) ← lift (connect_and_receive_challenge a);
        set_local (λ _, Some s);;
        mailbox ← lift (call (EUrandom MAILBOX_SIZE));
        let payload := String.list_byte_of_string "BT01_PREAUTH_PUSH" in
        r ← lift (send_or_rejected s ACTION_PUSH mailbox payload
                    "pre-auth PUSH rejected during send: ");
        match r with
        | Some why => mret why
        | None => lift (wait_for_rejection s (timeout a))
        end)
       (s ← get_local; lift (close_quietly s))).

(** The functions below work on the [Summary] object of [main]. *)
Notation SM := (M (Summary * hst W)).

Definition add_check (nm : string) (ok : bool) (why : string) : SM unit :=
  set_local (λ s, {| onion := onion s; sum_passed := sum_passed s;
                     duration_seconds := duration_seconds s;
                     checks := checks s ++ [{| name := nm; passed := ok; detail := why |}] |});;
  lift (print ("[" +:+ (if ok then "PASS" else "FAIL") +:+ "] " +:+ nm));;
  if negb ok then lift (print ("       " +:+ why)) else mret tt.

Definition write_summary (path : option string) (s : Summary) : M (hst W) unit :=
  match path with
  | None | Some EmptyString => mret tt
  | Some p => call (EMkdirParent p);; call (EWriteJson p (summary_to_json s))
  end.

Definition run_probe_only (a : args) : M (hst W) Z :=
  with_locals (None : option sock)
    (try_finally
       (try_except
          ('(s, _) ← lift (connect_and_receive_challenge a);
           set_local (λ _, Some s);;
           mret 0)
          (except [Exception_] (λ _, mret 1)))
       (s ← get_local; lift (close_quietly s))).

(** [try: detail = test(args); add_check(..., True, detail) except Exception as exc:
    add_check(..., False, str(exc))], for each check the test stands for. *)
Definition check_test (names : list string) (test : M (hst W) string) : SM unit :=
  try_except
    (why ← lift test; for_unit names (λ nm, add_check nm true why))
    (except [Exception_] (λ exc, for_unit names (λ nm, add_check nm false (ex_msg exc)))).

Definition set_passed (b : bool) (s : Summary) : Summary :=
  {| onion := onion s; sum_passed := b; duration_seconds := duration_seconds s;
     checks := checks s |}.
Definition set_duration (d : Q) (s : Summary) : Summary :=
  {| onion := onion s; sum_passed := sum_passed s; duration_seconds := d;
     checks := checks s |}.

Definition main_checks (a : args) : SM Z :=
  check_test ["valid PoW accepted"; "authenticated POLL accepted"] (test_valid_pow a);;
  check_test ["invalid PoW rejected"] (test_invalid_pow a);;
  check_test ["pre-auth POLL rejected"] (test_pre_auth_poll a);;
  check_test ["pre-auth PUSH rejected"] (test_pre_auth_push a);;
  s ← get_local;
  let ok := forallb passed (checks s) in
  set_local (set_passed ok);;
  lift (print EmptyString);;
  lift (print (if ok then "BT-01: PASS" else "BT-01: FAIL"));;
  mret (if ok then 0 else 1).

(** [main] after [parse_args]; the value is the exit status, and the summary is
    kept in the result state for the theorems to speak of. *)
Definition main_body (a : args) : SM Z :=
  started ← lift monotonic;
  try_finally
    (try_except (main_checks a)
       (except [KeyboardInterrupt] (λ _,
          lift (eprint (nl +:+ "BT-01: INTERRUPTED"));; mret 130)))
    (t ← lift monotonic;
     set_local (set_duration (round3 (fsub t started)));;
     s ← get_local;
     lift (write_summary (summary_json a) s)).

Definition new_summary (a : args) : Summary :=
  {| onion := a_onion a; sum_passed := false; duration_seconds := 0; checks := [] |}.

Definition main (argv : args) : M (hst W) Z :=
  a ← of_res (parse_args argv);
  if probe_only a then run_probe_only a
  else with_locals (new_summary a) (main_body a).

End auth_test.

(** ** No socket is leaked *)

Section sockets.
Context {W : Type} `{OrdinaryCalls W}.

Lemma auth_dialect_ok : dialect_ok auth_dialect.
Proof. done. Qed.

Lemma pow_is_valid_exception c x e : pow_is_valid c x = Raise e → is_exception e.
Proof.
  unfold pow_is_valid. rewrite !fail_if_bind_raise.
  by intros [[_ ->]|[_ [[_ ->]|[_ [=]]]]].
Qed.
#[local] Hint Resolve pow_is_valid_exception : py.

Lemma auth_recv_frame_same_open s : keeps (St:=hst W) same_open (recv_frame s).
Proof. apply Wire.recv_frame_same_open. Qed.
Lemma auth_recv_frame_exception s : raises (St:=hst W) is_exception (recv_frame s).
Proof. by apply Wire.recv_frame_exception. Qed.
#[local] Hint Resolve auth_recv_frame_same_open auth_recv_frame_exception
  send_frame_same_open send_frame_exception : py.

Lemma receive_challenge_same_open s : keeps (St:=hst W) same_open (receive_challenge s).
Proof. unfold receive_challenge. keeps_tac. Qed.
Lemma receive_challenge_exception s : raises (St:=hst W) is_exception (receive_challenge s).
Proof. unfold receive_challenge. raises_tac. Qed.
Lemma solve_pow_same_open c : keeps (St:=hst W) same_open (solve_pow c).
Proof. unfold solve_pow. keeps_tac. Qed.
Lemma solve_pow_exception c : raises (St:=hst W) is_exception (solve_pow c).
Proof. unfold solve_pow. raises_tac. Qed.
Lemma find_invalid_nonce_same_open c : keeps (St:=hst W) same_open (find_invalid_nonce c).
Proof. unfold find_invalid_nonce. keeps_tac. Qed.
Lemma find_invalid_nonce_exception c : raises (St:=hst W) is_exception (find_invalid_nonce c).
Proof. unfold find_invalid_nonce. raises_tac. Qed.
Lemma send_or_rejected_same_open s a m p w :
  keeps (St:=hst W) same_open (send_or_rejected s a m p w).
Proof. unfold send_or_rejected. keeps_tac. Qed.
Lemma send_or_rejected_exception s a m p w :
  raises (St:=hst W) is_exception (send_or_rejected s a m p w).
Proof. unfold send_or_rejected. raises_tac. Qed.

Lemma rejection_recv_same_open s : keeps (St:=hst W) same_open (rejection_recv s).
Proof.
  unfold rejection_recv. apply keeps_bind; [|intros; keeps_tac].
  apply keeps_try_except; [keeps_tac|]. intros e k. repeat case_match; intros [= <-]; keeps_tac.
Qed.
Lemma wait_for_rejection_same_open s t : keeps (St:=hst W) same_open (wait_for_rejection s t).
Proof.
  pose proof rejection_recv_same_open. unfold wait_for_rejection, monotonic. keeps_tac.
Qed.
Lemma rejection_recv_exception s : raises (St:=hst W) is_exception (rejection_recv s).
Proof.
  unfold rejection_recv. apply raises_bind; [|intros; raises_tac].
  apply raises_try_except; [raises_tac|].
  intros e k. repeat case_match; intros [= <-]; raises_tac.
Qed.
Lemma wait_for_rejection_exception s t :
  raises (St:=hst W) is_exception (wait_for_rejection s t).
Proof.
  pose proof rejection_recv_exception. unfold wait_for_rejection, monotonic. raises_tac.
Qed.
#[local] Hint Resolve receive_challenge_same_open receive_challenge_exception
  solve_pow_same_open solve_pow_exception find_invalid_nonce_same_open
  find_invalid_nonce_exception send_or_rejected_same_open send_or_rejected_exception
  wait_for_rejection_same_open wait_for_rejection_exception : py.

Lemma close_quietly_open s n (st : hst W) :
  wp True (close_quietly (Some s))
    (λ _ st', opens st' = remove1 s (opens st))
    (λ e st', opens st' = remove1 s (opens st) ∧ is_exception e) n st.
Proof.
  unfold close_quietly. apply wp_bind, wp_try_except.
  assert (∀ st1, opens st1 = opens st → wp True (call (EClose s))
    (λ _ st', opens st' = remove1 s (opens st))
    (λ e st', opens st' = remove1 s (opens st) ∧ is_exception e) n st1) as Hclose.
  { intros st1 H1. apply wp_call_cases; intros x w1 Hx; rewrite opens_snoc;
      unfold sock_effect; cbn; fold (opens st1); rewrite H1; [done|].
    split; [done|by eapply raises_exception]. }
  apply wp_call_cases; intros x w1 Hx.
  - apply Hclose. by rewrite opens_snoc.
  - apply shutdown_oserror in Hx. unfold except, isinstance_any, existsb. rewrite Hx.
    apply wp_ret, Hclose. by rewrite opens_snoc.
Qed.

(** The open sockets are those of [st0] and the one the local holds. *)
Definition owns (st0 : hst W) (l : option sock) (st : hst W) : Prop :=
  opens st = match l with Some s => s :: opens st0 | None => opens st0 end.

Lemma close_local_open st0 l n st :
  owns st0 l st →
  wp True (s ← get_local; lift (close_quietly s))
    (λ _ p, opens p.2 = opens st0) (λ e p, opens p.2 = opens st0 ∧ is_exception e) n (l, st).
Proof.
  intros Ho. apply wp_get_local, wp_lift. unfold owns in Ho. destruct l as [s|].
  - eapply wp_mono; [| |apply close_quietly_open]; cbn beta; rewrite Ho; cbn;
      rewrite Nat.eqb_refl; [done|]. intros ??. done.
  - by apply wp_ret.
Qed.

Lemma attempt_failed_open a attempt exc st0 l n st :
  owns st0 l st →
  wp True (attempt_failed a attempt exc)
    (λ r p, opens p.2 = opens st0 ∧ ∃ o, r = inl o)
    (λ e p, opens p.2 = opens st0 ∧ is_exception e) n (l, st).
Proof.
  intros Ho. unfold attempt_failed. apply wp_get_local, wp_bind.
  pose proof (close_local_open st0 l n st Ho) as Hc. unfold mbind, M_mbind, m_bind in Hc.
  change (wp True (lift (close_quietly l)) (λ _ p, opens p.2 = opens st0)
            (λ e p, opens p.2 = opens st0 ∧ is_exception e) n (l, st)) in Hc.
  eapply wp_mono; [| |apply Hc]; [|done]. cbn beta. intros [] [l1 st1] H1. apply wp_bind.
  eapply wp_mono; [| |apply (wp_of_keeps is_exception (host_only same_open))].
  - intros [] p Hp. apply wp_ret. unfold host_only, same_open in Hp. rewrite Hp. eauto.
  - intros x p [Hp Hx]. unfold host_only, same_open in Hp. by rewrite Hp.
  - unfold sleep. keeps_tac.
  - unfold sleep. raises_tac.
Qed.

Lemma connect_attempt_open a attempt n (st : hst W) :
  wp True (connect_attempt a attempt)
    (λ r st', match r with
              | inr (s, _) => opens st' = s :: opens st
              | inl _ => opens st' = opens st end)
    (λ e st', opens st' = opens st ∧ is_exception e) n st.
Proof.
  unfold connect_attempt. apply wp_with_locals, wp_try_except, wp_bind, wp_lift.
  assert (∀ l st1 e, is_exception e → owns st l st1 →
    match except [Exception_] (attempt_failed a attempt) e with
    | Some k => wp True k (λ (r : option exn + sock * bytes) p, match r with
              | inr (s, _) => opens p.2 = s :: opens st
              | inl _ => opens p.2 = opens st end)
      (λ e p, opens p.2 = opens st ∧ is_exception e) n (l, st1)
    | None => opens st1 = opens st ∧ is_exception e end) as Hfail.
  { intros l st1 e He Ho. rewrite except_exception by done.
    eapply wp_mono; [| |by apply attempt_failed_open]; [|done].
    by intros r p [Hp [o ->]]. }
  eapply wp_mono; [| |by apply socks5_connect_open]; cbn beta.
  - intros s st1 H1. apply wp_set_local, wp_bind, wp_lift.
    eapply wp_mono; [| |apply (wp_of_keeps is_exception same_open);
      [apply receive_challenge_same_open|apply receive_challenge_exception]]; cbn beta.
    + intros c st2 H2. apply wp_ret. cbn. by rewrite H2.
    + intros e st2 [H2 He]. apply Hfail; [done|]. unfold owns, same_open in *. cbn. congruence.
  - intros e st1 [H1 He]. by apply Hfail.
Qed.

Lemma connect_and_receive_challenge_open a n (st : hst W) :
  wp True (connect_and_receive_challenge a)
    (λ '(s, _) st', opens st' = s :: opens st)
    (λ e st', opens st' = opens st ∧ is_exception e) n st.
Proof.
  unfold connect_and_receive_challenge. apply wp_bind.
  eapply wp_mono; [| |apply (wp_for_each True (λ _ _ st', opens st' = opens st)
    (λ '(s, _) st', opens st' = s :: opens st) _ _
    (λ e st', opens st' = opens st ∧ is_exception e))]; [|done| |done]; cbn beta.
  - intros [o|[s c]] st1 H1; [by apply wp_throw|by apply wp_ret].
  - intros pre x post o st1 _ H1.
    eapply wp_mono; [| |apply connect_attempt_open]; cbn beta; rewrite H1; [|done].
    by intros [?|[]].
Qed.

(** The shape of every test: connect, remember the socket, work, close it. *)
Lemma with_connection_open {A} a (k : sock * bytes → M (option sock * hst W) A) n (st : hst W) :
  (∀ s c, ∃ body, k (s, c) = (set_local (λ _, Some s);; body) ∧
     keeps (frame_local same_open) body ∧ raises is_exception body) →
  wp True
    (with_locals None
       (try_finally (lift (connect_and_receive_challenge a) ≫= k)
          (s ← get_local; lift (close_quietly s))))
    (λ _ st', opens st' = opens st) (λ e st', opens st' = opens st ∧ is_exception e) n st.
Proof.
  intros Hk. apply wp_with_locals, wp_try_finally, wp_bind, wp_lift.
  assert (∀ l st1, owns st l st1 → ∀ P : Prop, P →
    wp True (s ← get_local; lift (close_quietly s))
      (λ _ p, opens p.2 = opens st ∧ P) (λ e p, opens p.2 = opens st ∧ is_exception e)
      n (l, st1)) as Hfin.
  { intros l st1 Ho P HP. eapply wp_mono; [| |by apply (close_local_open st)]; [|done]. done. }
  assert (∀ l st1, owns st l st1 →
    wp True (s ← get_local; lift (close_quietly s))
      (λ _ p, opens p.2 = opens st) (λ e p, opens p.2 = opens st ∧ is_exception e)
      n (l, st1)) as Hfin' by (intros; by apply close_local_open).
  eapply wp_mono; [| |apply connect_and_receive_challenge_open]; cbn beta.
  - intros [s c] st1 H1. destruct (Hk s c) as (body & -> & Hkeep & Hraise).
    apply wp_set_local.
    eapply wp_mono; [| |apply (wp_of_keeps is_exception (frame_local same_open)); done]; cbn beta.
    + intros r [l st2] [Hl H2]. cbn in Hl, H2. subst l. apply Hfin'.
      unfold owns, same_open in *. congruence.
    + intros e [l st2] [[Hl H2] He]. cbn in Hl, H2. subst l. apply Hfin; [|done].
      unfold owns, same_open in *. congruence.
  - intros e st1 [H1 He]. by apply Hfin.
Qed.

Ltac connection_test :=
  apply with_connection_open; intros s c; eexists; split; [reflexivity|];
  split; [keeps_tac|raises_tac].

Definition leaves_no_socket {A} (m : M (hst W) A) : Prop :=
  ∀ n st, wp True m (λ _ st', opens st' = opens st)
            (λ e st', opens st' = opens st ∧ is_exception e) n st.

Lemma test_valid_pow_open a : leaves_no_socket (test_valid_pow a).
Proof. intros n st. unfold test_valid_pow. connection_test. Qed.
Lemma test_invalid_pow_open a : leaves_no_socket (test_invalid_pow a).
Proof. intros n st. unfold test_invalid_pow. connection_test. Qed.
Lemma test_pre_auth_poll_open a : leaves_no_socket (test_pre_auth_poll a).
Proof. intros n st. unfold test_pre_auth_poll. connection_test. Qed.
Lemma test_pre_auth_push_open a : leaves_no_socket (test_pre_auth_push a).
Proof. intros n st. unfold test_pre_auth_push. connection_test. Qed.
Lemma run_probe_only_open a : leaves_no_socket (run_probe_only a).
Proof.
  intros n st. unfold run_probe_only.
  apply wp_with_locals, wp_try_finally, wp_try_except, wp_bind, wp_lift.
  eapply wp_mono; [| |apply connect_and_receive_challenge_open]; cbn beta.
  - intros [s c] st1 H1. apply wp_set_local, wp_ret. by apply (close_local_open st (Some s)).
  - intros e st1 [H1 He]. rewrite except_exception by done. apply wp_ret.
    by apply (close_local_open st None).
Qed.

Notation keeps_socks m p0 n :=
  (wp True m (λ _ p, opens p.2 = opens p0.2) (λ _ p, opens p.2 = opens p0.2) n p0).

Lemma keeps_socks_of {A} (m : M (Summary * hst W) A) n p0 :
  keeps (host_only same_open) m → keeps_socks m p0 n.
Proof.
  intros Hm. specialize (Hm n p0). unfold wp. by destruct (m n p0) as [[] ?].
Qed.

Lemma add_checks_keep names ok why :
  keeps (host_only same_open) (for_unit names (λ nm, add_check (W:=W) nm ok why)).
Proof. unfold add_check, print. keeps_tac. Qed.

Lemma check_test_open names test n p0 :
  leaves_no_socket test → keeps_socks (check_test names test) p0 n.
Proof.
  intros Ht. destruct p0 as [s0 st0]. unfold check_test.
  apply wp_try_except, wp_bind, wp_lift.
  eapply wp_mono; [| |apply Ht]; cbn beta.
  - intros why st1 H1. eapply wp_mono; [| |apply keeps_socks_of, add_checks_keep]; cbn.
    + intros _ p ->. done.
    + intros e p Hp. unfold except. destruct (isinstance_any e _); [|by rewrite Hp].
      eapply wp_mono; [| |apply keeps_socks_of, add_checks_keep]; cbn; intros ? p' ->; congruence.
  - intros e st1 [H1 He]. rewrite except_exception by done.
    eapply wp_mono; [| |apply keeps_socks_of, add_checks_keep]; cbn; intros ? p' ->; done.
Qed.

Lemma main_checks_open a n p0 : keeps_socks (main_checks a) p0 n.
Proof.
  unfold main_checks.
  assert (∀ (names : list string) test (k : unit → M (Summary * hst W) Z),
    leaves_no_socket test →
    (∀ p, opens p.2 = opens p0.2 → keeps_socks (k tt) p n) →
    ∀ p, opens p.2 = opens p0.2 → keeps_socks (check_test names test ≫= k) p n) as Hseq.
  { intros names test k Ht Hk p Hp. apply wp_bind.
    eapply wp_mono; [| |by apply check_test_open]; [|done]. cbn beta.
    intros [] p1 H1. eapply wp_mono; [| |apply Hk; congruence]; intros ? p2 ->; congruence. }
  apply Hseq; [apply test_valid_pow_open| |done]. intros p1 H1.
  apply Hseq; [apply test_invalid_pow_open| |done]. intros p2 H2.
  apply Hseq; [apply test_pre_auth_poll_open| |done]. intros p3 H3.
  apply Hseq; [apply test_pre_auth_push_open| |done]. intros p4 H4.
  apply keeps_socks_of. unfold print. keeps_tac.
Qed.

Lemma write_summary_same_open p s : keeps (St:=hst W) same_open (write_summary p s).
Proof. unfold write_summary. keeps_tac. Qed.
#[local] Hint Resolve write_summary_same_open : py.

Lemma main_body_open a n p0 : keeps_socks (main_body a) p0 n.
Proof.
  unfold main_body. apply wp_bind.
  eapply wp_mono; [| |apply keeps_socks_of; unfold monotonic; keeps_tac]; [|done]. cbn beta.
  intros started p1 H1. apply wp_try_finally.
  assert (∀ p, opens p.2 = opens p0.2 →
    keeps_socks (t ← lift monotonic; set_local (set_duration (round3 (fsub t started)));;
                 s ← get_local; lift (write_summary (summary_json a) s)) p n) as Hfin.
  { intros p Hp. apply keeps_socks_of. unfold monotonic. keeps_tac. }
  assert (∀ p, opens p.2 = opens p0.2 →
    wp True (t ← lift monotonic; set_local (set_duration (round3 (fsub t started)));;
             s ← get_local; lift (write_summary (summary_json a) s))
      (λ _ p, opens p.2 = opens p0.2) (λ _ p, opens p.2 = opens p0.2) n p) as Hfin'.
  { intros p Hp. eapply wp_mono; [| |by apply Hfin]; cbn beta; intros ? p' ->; done. }
  apply wp_try_except. eapply wp_mono; [| |apply main_checks_open]; cbn beta.
  - intros z p2 H2. apply Hfin'. congruence.
  - intros e p2 H2. unfold except. destruct (isinstance_any e _); [|apply Hfin'; congruence].
    eapply wp_mono; [| |apply keeps_socks_of; unfold eprint; keeps_tac]; cbn beta.
    + intros z p3 H3. apply Hfin'. congruence.
    + intros x p3 H3. apply Hfin'. congruence.
Qed.
End sockets.

(** ** The proof-of-work search *)

Definition pow_ok (challenge : bytes) (nonce : Z) : Prop :=
  pow_is_valid challenge (pack_u64 nonce) = Ok true.

#[global] Instance pow_ok_dec challenge nonce : Decision (pow_ok challenge nonce).
Proof.
  unfold pow_ok. destruct (pow_is_valid _ _) as [[]|e|]; [by left|right; congruence..].
Defined.

Lemma pow_is_valid_total challenge nonce :
  length challenge = CHALLENGE_SIZE →
  pow_is_valid challenge (pack_u64 nonce) = Ok (bool_decide (pow_ok challenge nonce)).
Proof.
  intros Hl. unfold pow_ok at 1. case_bool_decide as Hp; [done|].
  revert Hp. unfold pow_is_valid. rewrite Hl. unfold pack_u64. rewrite length_le_split.
  change (negb (CHALLENGE_SIZE =? CHALLENGE_SIZE)%nat) with false.
  change (negb (8 =? 8)%nat) with false. cbn [fail_if mbind res_mbind r_bind mret res_mret].
  by destruct (_ && _); [intros []|].
Qed.

(** The first [z >= lo] with [good z], as a loop that counts up. *)
Lemma iter_first {St B} (step : Z → M St (Z + B)) (good : Z → Prop) (out : Z → B) lo v n (st : St) :
  (∀ z, lo <= z < v → ¬ good z → step z n st = (Ok (inl (z + 1)), st)) →
  (∀ z, lo <= z <= v → good z → step z n st = (Ok (inr (out z)), st)) →
  (∀ z, Decision (good z)) → good v → lo <= v → v - lo < Z.of_nat n →
  ∃ u, lo <= u <= v ∧ good u ∧ (∀ z, lo <= z < u → ¬ good z) ∧
       iter step lo n st = (Ok (out u), st).
Proof.
  intros Hbad Hgood Hdec Hv Hle Hn. unfold iter.
  enough (∀ k z, lo <= z <= v → v - z < Z.of_nat k → (∀ y, lo <= y < z → ¬ good y) →
    ∃ u, lo <= u <= v ∧ good u ∧ (∀ z, lo <= z < u → ¬ good z) ∧
         iter_go k step z n st = (Ok (out u), st)) as HH
    by (apply HH; [lia|done|lia]).
  induction k as [|k IH]; intros z Hz Hk Hprev; [lia|]. cbn [iter_go]. unfold m_bind.
  destruct (Hdec z) as [Hg|Hg].
  - rewrite (Hgood z) by (done || lia). exists z. split_and!; done || lia.
  - assert (z < v) by (destruct (Z.eq_dec z v); [subst|]; [done|lia]).
    rewrite (Hbad z) by (done || lia). apply IH; [lia|lia|].
    intros y Hy. destruct (Z.eq_dec y z) as [->|]; [done|]. apply Hprev. lia.
Qed.

Section pow.
Context {W : Type} `{Host W}.

Lemma solve_pow_first challenge v n (st : hst W) :
  length challenge = CHALLENGE_SIZE → 1 <= v < 2 ^ 64 → pow_ok challenge v →
  v - 1 < Z.of_nat n →
  ∃ u, 1 <= u <= v ∧ pow_ok challenge u ∧ (∀ z, 1 <= z < u → ¬ pow_ok challenge z) ∧
       solve_pow challenge n st = (Ok (pack_u64 u), st).
Proof.
  intros Hl Hv Hok Hn. unfold solve_pow.
  apply (iter_first _ (pow_ok challenge)); [| |apply _|done|lia|done];
    intros z Hz Hg; destruct (Z.ltb_spec z (2 ^ 64)); [| lia | | lia];
    rewrite pow_is_valid_total by done; cbn;
    [rewrite bool_decide_eq_false_2 by done|rewrite bool_decide_eq_true_2 by done]; done.
Qed.

Lemma find_invalid_nonce_first challenge v n (st : hst W) :
  length challenge = CHALLENGE_SIZE → 0 <= v < 2 ^ 64 → ¬ pow_ok challenge v →
  v < Z.of_nat n →
  ∃ u, 0 <= u <= v ∧ ¬ pow_ok challenge u ∧ (∀ z, 0 <= z < u → pow_ok challenge z) ∧
       find_invalid_nonce challenge n st = (Ok (pack_u64 u), st).
Proof.
  intros Hl Hv Hok Hn. unfold find_invalid_nonce.
  destruct (iter_first (λ nonce : Z,
    if nonce <? 2 ^ 64 then
      let nonce_bytes := pack_u64 nonce in
      ok ← of_res (pow_is_valid challenge nonce_bytes);
      if negb (ok : bool) then mret (inr nonce_bytes) else mret (inl (nonce + 1))
    else throw TestError "unable to find invalid PoW nonce")
    (λ z, ¬ pow_ok challenge z) pack_u64 0 v n st) as (u & ? & ? & Hmin & E).
  - intros z Hz Hg. destruct (Z.ltb_spec z (2 ^ 64)); [|lia].
    cbv beta zeta. rewrite pow_is_valid_total by done. cbn.
    destruct (pow_ok_dec challenge z) as [Hp|Hp]; [|by destruct (Hg Hp)].
    by rewrite bool_decide_eq_true_2.
  - intros z Hz Hg. destruct (Z.ltb_spec z (2 ^ 64)); [|lia].
    cbv beta zeta. rewrite pow_is_valid_total by done. cbn. by rewrite bool_decide_eq_false_2.
  - apply _.
  - done.
  - lia.
  - lia.
  - exists u. split_and!; [lia|lia|done| |done].
    intros z Hz. destruct (decide (pow_ok challenge z)); [done|]. by destruct (Hmin z Hz).
Qed.
End pow.

(** ** [wait_for_rejection] ends *)

Section waiting.
Context {W : Type} `{SocketTimeout W}.

Definition tick : Q := fl (1 # 20).

Lemma rejection_recv_timed s x n (st : hst W) :
  sock_timeout (world st) s = Some x →
  wp False (rejection_recv s)
    (λ r st', r = None → now (world st) + x <= now (world st'))%Q
    (λ _ _, True) n st.
Proof.
  intros Hx. unfold rejection_recv. apply wp_bind, wp_try_except, wp_bind, wp_call_cases.
  - intros data w' _. apply wp_ret. by case_bool_decide.
  - intros e w' He. destruct (isinstance e TimeoutError) eqn:Et.
    + apply wp_ret, wp_ret. intros _. by eapply recv_timeout_law.
    + destruct (isinstance_any e _); [done|]. by destruct (isinstance e OSError).
Qed.

(** One round of the loop: it returns, raises, or the clock moves on by a tick. *)
Lemma wait_for_rejection_total s t (st : hst W) :
  terminates (wait_for_rejection s t) st.
Proof.
  unfold wait_for_rejection, monotonic at 1.
  apply terminates_call_bind. intros t0 w1 _. apply terminates_call_bind. intros old w2 _.
  set (st2 := HSt w2 _). set (deadline := fadd t0 t).
  apply (terminates_wp _ _ (S (rounds_left deadline tick st2))). intros n Hn.
  apply wp_try_finally.
  assert (∀ st', wp False (try_except (call (ESetTimeout s old)) (except [OSError] (λ _, mret tt)))
    (λ _ _, True) (λ _ _, True) n st') as Hfin.
  { intros st'. apply wp_try_except, wp_call_cases; [done|]. intros x w' _.
    unfold except. by destruct (isinstance_any x _). }
  eapply wp_mono; [intros; apply Hfin|intros; apply Hfin|].
  apply (wp_iter False (λ _ _, True) (λ _ st', rounds_left deadline tick st') _ (λ _ _, True) (λ _ _, True));
    [|done|lia].
  intros _ st3 _. apply wp_bind, wp_call_cases; [|done]. intros t3 w3 H3.
  destruct (Qlt_bool t3 deadline) eqn:Hlt; [|by apply wp_throw].
  assert (now (world st3) < deadline)%Q as Hnow
    by (eapply reading_before; [apply fl_idem|done|done]).
  apply wp_bind, wp_call_cases; [|done]. intros t4 w4 H4.
  apply wp_bind, wp_call_cases; [|done]. intros [] w5 H5. cbn [world] in *.
  set (x := Qmin_py _ _) in *.
  assert (tick <= x)%Q as Hx by (apply Qmin_py_ge; [by vm_compute|apply Qmax_py_ge]).
  pose proof (now_mono _ EMonotonic (world st3)) as M3. rewrite H3 in M3.
  pose proof (now_mono _ EMonotonic w3) as M4. rewrite H4 in M4.
  pose proof (now_mono _ (ESetTimeout s (Some x)) w4) as M5. rewrite H5 in M5. cbn in *.
  apply wp_bind. eapply wp_mono; [| |apply (rejection_recv_timed s x)]; cbn beta.
  - intros [why|] st6 H6; [by apply wp_ret|]. apply wp_ret. split; [done|].
    specialize (H6 eq_refl). cbn in H6.
    apply rounds_left_lt; [by vm_compute|done|]. cbn. lra.
  - done.
  - cbn. by eapply settimeout_law.
Qed.
End waiting.

(** ** The verdict *)

Definition CHECKS : list string :=
  ["valid PoW accepted"; "authenticated POLL accepted"; "invalid PoW rejected";
   "pre-auth POLL rejected"; "pre-auth PUSH rejected"].

Section verdict.
Context {W : Type} `{Host W}.
Notation S0 := (Summary * hst W)%type.

Definition all_passed (s : Summary) : bool := forallb passed (checks s).

(** So far: either exactly the checks [pre], all passed, or some check failed. *)
Definition progress (pre : list string) (p : S0) : Prop :=
  (map name (checks p.1) = pre ∧ all_passed p.1 = true) ∨ all_passed p.1 = false.

Lemma all_passed_snoc s c :
  all_passed {| onion := onion s; sum_passed := sum_passed s;
                duration_seconds := duration_seconds s; checks := checks s ++ [c] |} =
  all_passed s && passed c.
Proof. unfold all_passed. cbn. rewrite forallb_app. cbn. by rewrite andb_true_r. Qed.

Lemma wp_lift_frame {A} (m : M (hst W) A) Q E n (p : S0) :
  (∀ a st, Q a (p.1, st)) → (∀ e st, E e (p.1, st)) → wp True (lift m) Q E n p.
Proof.
  intros HQ HE. destruct p as [s st]. apply wp_lift. unfold wp.
  destruct (m n st) as [[] ?]; auto.
Qed.

Lemma add_check_progress nm ok why pre n p :
  progress pre p →
  wp True (add_check nm ok why)
    (λ _ p', if ok then progress (pre ++ [nm]) p' else all_passed p'.1 = false)
    (λ _ _, True) n p.
Proof.
  intros Hp. destruct p as [s st]. unfold add_check. apply wp_set_local, wp_bind.
  apply wp_lift_frame; [|done]. intros ? st1.
  assert (∀ st', (if ok then progress (pre ++ [nm]) else λ p' : S0, all_passed p'.1 = false)
    ({| onion := onion s; sum_passed := sum_passed s; duration_seconds := duration_seconds s;
        checks := checks s ++ [{| name := nm; passed := ok; detail := why |}] |}, st')) as Hpost.
  { intros st'. destruct ok; unfold progress in *; cbn [fst] in *; rewrite all_passed_snoc.
    - cbn [passed]. rewrite andb_true_r. cbn [checks]. rewrite map_app. cbn.
      destruct Hp as [[<- ->]| ->]; auto.
    - apply andb_false_r. }
  destruct ok; cbn [negb].
  - apply wp_ret, Hpost.
  - apply wp_lift_frame; [intros ? st2; apply (Hpost st2)|done].
Qed.

Lemma check_test_progress nms test pre n p :
  nms ≠ [] → progress pre p →
  wp True (check_test nms test) (λ _ p', progress (pre ++ nms) p') (λ _ _, True) n p.
Proof.
  intros Hne Hp. unfold check_test. apply wp_try_except, wp_bind.
  assert (∀ e p', match except [Exception_] (λ exc, for_unit nms (λ nm, add_check (W:=W) nm false (ex_msg exc))) e with
    | Some k => wp True k (λ _ p', progress (pre ++ nms) p') (λ _ _, True) n p'
    | None => True end) as Hfail.
  { intros e p'. unfold except. destruct (isinstance_any e _); [|done].
    eapply wp_mono; [| |apply (wp_for_unit True (λ dn p1, dn = [] ∨ all_passed p1.1 = false) nms)].
    - intros ? p1 [?|?]; [done|by right].
    - done.
    - intros dn x post p1 Hsplit _. eapply wp_mono; [| |apply (add_check_progress _ false _ (map name (checks p1.1)))].
      + intros ? p2 H2. by right.
      + done.
      + unfold progress. destruct (all_passed p1.1); auto.
    - by left. }
  apply wp_lift_frame; [|intros; apply Hfail]. intros why st1.
  eapply wp_mono; [| |apply (wp_for_unit True (λ dn p1, progress (pre ++ dn) p1) nms _ (λ _ _, True))].
  - done.
  - intros e p' _. apply Hfail.
  - intros dn x post p1 Hsplit H1. rewrite app_assoc.
    eapply wp_mono; [| |by apply (add_check_progress _ true)]; done.
  - by rewrite app_nil_r.
Qed.

Lemma main_checks_verdict a n p :
  checks p.1 = [] →
  wp True (main_checks a)
    (λ z p', z = (if all_passed p'.1 then 0 else 1) ∧ sum_passed p'.1 = all_passed p'.1 ∧
             progress CHECKS p')
    (λ _ _, True) n p.
Proof.
  intros H0. unfold main_checks.
  assert (progress [] p) as Hp0 by (left; unfold all_passed; by rewrite H0).
  apply wp_bind. eapply wp_mono; [| |by apply (check_test_progress _ _ [])]; [|done].
  cbn [app]. intros ? p1 H1. apply wp_bind.
  eapply wp_mono; [| |apply check_test_progress; [done|exact H1]]; [|done]. intros ? p2 H2. apply wp_bind.
  eapply wp_mono; [| |apply check_test_progress; [done|exact H2]]; [|done]. intros ? p3 H3. apply wp_bind.
  eapply wp_mono; [| |apply check_test_progress; [done|exact H3]]; [|done]. intros ? [s4 st4] H4.
  apply wp_get_local, wp_set_local, wp_bind, wp_lift_frame; [intros ? st5|done].
  apply wp_bind, wp_lift_frame; [intros ? st6|done]. apply wp_ret. cbn [fst].
  change (all_passed (set_passed _ s4)) with (all_passed s4). split_and!; [done|done|].
  exact H4.
Qed.

Lemma write_summary_last path s n (st : hst W) :
  wp True (write_summary path s)
    (λ _ st', ∀ p, path = Some p → p ≠ EmptyString →
       ∃ tr, trace st' = tr ++ [Ev (EWriteJson p (summary_to_json s)) (inl tt)])
    (λ _ _, True) n st.
Proof.
  unfold write_summary. destruct path as [[|c p]|]; [by apply wp_ret; intros ? [= <-]| |by apply wp_ret].
  apply wp_bind, wp_call_cases; [|done]. intros [] w1 _.
  apply wp_call_cases; [|done]. intros [] w2 _ p' [= <-] _. cbn. eauto.
Qed.

Lemma auth_main_body_verdict a n (st : hst W) :
  wp True (main_body a)
    (λ z p', (z = 130 ∨
              z = (if all_passed p'.1 then 0 else 1) ∧ sum_passed p'.1 = all_passed p'.1 ∧
              progress CHECKS p') ∧
             ∀ p, summary_json a = Some p → p ≠ EmptyString →
               ∃ tr, trace p'.2 = tr ++ [Ev (EWriteJson p (summary_to_json p'.1)) (inl tt)])
    (λ _ _, True) n (new_summary a, st).
Proof.
  unfold main_body. apply wp_bind, wp_lift_frame; [|done]. intros started st1. cbn [fst].
  apply wp_try_finally, wp_try_except.
  set (post z := λ p' : S0, z = 130 ∨
              z = (if all_passed p'.1 then 0 else 1) ∧ sum_passed p'.1 = all_passed p'.1 ∧
              progress CHECKS p').
  assert (∀ z p1, post z p1 →
    wp True (t ← lift monotonic; set_local (set_duration (round3 (fsub t started)));;
             s ← get_local; lift (write_summary (summary_json a) s))
    (λ _ p', post z p' ∧ ∀ p, summary_json a = Some p → p ≠ EmptyString →
               ∃ tr, trace p'.2 = tr ++ [Ev (EWriteJson p (summary_to_json p'.1)) (inl tt)])
    (λ _ _, True) n p1) as Hfin.
  { intros z [s1 st2] Hpost. apply wp_bind, wp_lift_frame; [|done]. intros t st3.
    apply wp_set_local, wp_get_local, wp_lift.
    eapply wp_mono; [| |apply write_summary_last]; [|done].
    intros ? st4 Hw. split; [exact Hpost|]. exact Hw. }
  assert (∀ (e : exn) p1, wp True (t ← lift monotonic;
             set_local (set_duration (round3 (fsub t started)));;
             s ← get_local; lift (write_summary (summary_json a) s))
    (λ _ _, True) (λ _ _, True) n p1) as Hfin'.
  { intros e p1. apply wp_trivial. }
  eapply wp_mono; [| |by apply main_checks_verdict]; cbn beta.
  - intros z p1 Hz. apply Hfin. by right.
  - intros e p1 _. unfold except. destruct (isinstance_any e _); [|by apply Hfin'].
    apply wp_bind, wp_lift_frame; [|intros; by apply Hfin']. intros ? st2. apply wp_ret, Hfin. by left.
Qed.
End verdict.

(** ** Properties *)


Definition example_args : args := {|
  a_onion := "x.onion"; socks_host := "127.0.0.1"; socks_port := 9050; target_port := 80;
  timeout := 1; connect_retries := 2; retry_delay := 1;
  summary_json := Some "summary.json"; probe_only := false |}.

(** A relay that accepts the SOCKS request, then a server's challenge frame. *)
Definition socks_accepts : bytes :=
  [x05; x00] ++ [x05; x00; x00; x01; x7f; x00; x00; x01; x00; x50].
Definition challenge_15 : bytes := x0f :: replicate 31 x00.
Definition challenge_frame : bytes :=
  [x04] ++ ZERO_MAILBOX ++ [xdd; x01; x00; x00] ++ challenge_15 ++ replicate 445 x00.
Definition example_world : hst lw :=
  fresh [Peer (socks_accepts ++ challenge_frame) false; Peer [x05; xff] false;
         Peer (socks_accepts ++ challenge_frame) true].


(** C30: [solve_pow] finds the least solution.  For a 32-byte challenge that some
    nonce [v] in [1, 2^64) solves, the search ends within [v] rounds and returns
    the little-endian bytes of the smallest nonce, from 1 on, whose BLAKE2b-128
    digest satisfies the proof-of-work condition. *)
Theorem solve_pow_least {W} `{Host W} challenge v n (st : hst W) :
  length challenge = CHALLENGE_SIZE → 1 <= v < 2 ^ 64 → pow_ok challenge v →
  v - 1 < Z.of_nat n →
  ∃ u, 1 <= u <= v ∧ pow_ok challenge u ∧ (∀ z, 1 <= z < u → ¬ pow_ok challenge z) ∧
       solve_pow challenge n st = (Ok (pack_u64 u), st).
Proof. apply solve_pow_first. Qed.

Lemma solve_pow_least_witness :
  ∃ u, 1 <= u <= 3 ∧ pow_ok challenge_15 u ∧ (∀ z, 1 <= z < u → ¬ pow_ok challenge_15 z) ∧
       solve_pow challenge_15 10%nat (fresh []) = (Ok (pack_u64 u), fresh []).
Proof.
  apply (solve_pow_least challenge_15 3 10%nat (fresh []));
    [reflexivity|lia|vm_compute; reflexivity|lia].
Defined.

(** [find_invalid_nonce] returns a nonce the proof-of-work check refuses, the
    first one from 0 on, so the re-check in [test_invalid_pow] cannot fire. *)
Theorem find_invalid_nonce_refused {W} `{Host W} challenge v n (st : hst W) :
  length challenge = CHALLENGE_SIZE → 0 <= v < 2 ^ 64 → ¬ pow_ok challenge v →
  v < Z.of_nat n →
  ∃ nonce, find_invalid_nonce challenge n st = (Ok nonce, st) ∧
    pow_is_valid challenge nonce = Ok false ∧
    ∃ u, 0 <= u <= v ∧ nonce = pack_u64 u ∧ ∀ z, 0 <= z < u → pow_ok challenge z.
Proof.
  intros Hl Hv Hno Hn.
  destruct (find_invalid_nonce_first challenge v n st Hl Hv Hno Hn) as (u & Hu & Hbad & Hmin & E).
  exists (pack_u64 u). split_and!; [done| |by exists u].
  by rewrite pow_is_valid_total, bool_decide_eq_false_2.
Qed.

Lemma find_invalid_nonce_refused_witness :
  ∃ nonce, find_invalid_nonce challenge_15 10%nat (fresh []) = (Ok nonce, fresh []) ∧
    pow_is_valid challenge_15 nonce = Ok false ∧
    ∃ u, 0 <= u <= 0 ∧ nonce = pack_u64 u ∧ ∀ z, 0 <= z < u → pow_ok challenge_15 z.
Proof.
  apply (find_invalid_nonce_refused challenge_15 0 10%nat (fresh []));
    [reflexivity|lia| |lia]. unfold pow_ok. vm_compute. discriminate.
Defined.

(** [wait_for_rejection] ends.  On a host whose clock does not go backwards
    and whose [recv] times out no earlier than the socket's timeout, the loop
    that waits for the server to drop the connection stops after finitely many
    rounds for every timeout argument, because every repetition follows a timed
    out [recv] of at least 0.05 s. *)
Theorem wait_for_rejection_terminates {W} `{SocketTimeout W} s t (st : hst W) :
  terminates (wait_for_rejection s t) st.
Proof. apply wait_for_rejection_total. Qed.

Lemma wait_for_rejection_terminates_witness :
  terminates (wait_for_rejection 7%nat 1) (connected (Peer [] true)).
Proof. apply (wait_for_rejection_terminates 7%nat 1 (connected (Peer [] true))). Defined.

(** C31: the exit status is the verdict.  When the body of [main] returns, the
    status is 130 (interrupted), or 0 with exactly the five checks recorded, in
    order, all passed, or 1 with a failed check recorded; [summary.passed] says
    the same, and the last call made is the write of that summary to the
    requested file. *)
Theorem main_exit_status {W} `{Host W} (a : args) n (st : hst W) z s st' :
  main_body a n (new_summary a, st) = (Ok z, (s, st')) →
  (z = 130 ∨
   (z = 0 ∧ map name (checks s) = CHECKS ∧ all_passed s = true ∧ sum_passed s = true) ∨
   (z = 1 ∧ all_passed s = false ∧ sum_passed s = false)) ∧
  ∀ p, summary_json a = Some p → p ≠ EmptyString →
    ∃ tr, trace st' = tr ++ [Ev (EWriteJson p (summary_to_json s)) (inl tt)].
Proof.
  intros Hrun. pose proof (wp_run _ _ _ _ _ _ _ _ (auth_main_body_verdict a n st) Hrun) as [Hv Hw].
  cbn [fst snd] in *. split; [|done]. destruct Hv as [?|(-> & Hs & Hp)]; [by left|right].
  destruct (all_passed s) eqn:E; rewrite ?Hs; [left|right; done].
  destruct Hp as [[? ?]|?]; [done|]. cbn in *. congruence.
Qed.

Lemma main_exit_status_witness :
  ∃ z s st', main_body example_args 3000%nat (new_summary example_args, example_world)
               = (Ok z, (s, st')) ∧
  ((z = 130 ∨
   (z = 0 ∧ map name (checks s) = CHECKS ∧ all_passed s = true ∧ sum_passed s = true) ∨
   (z = 1 ∧ all_passed s = false ∧ sum_passed s = false)) ∧
  ∀ p, summary_json example_args = Some p → p ≠ EmptyString →
    ∃ tr, trace st' = tr ++ [Ev (EWriteJson p (summary_to_json s)) (inl tt)]).
Proof.
  destruct (main_body example_args 3000%nat (new_summary example_args, example_world))
    as [r [s st']] eqn:E.
  assert (r = Ok 1) as -> by (apply (f_equal fst) in E; vm_compute in E; congruence).
  exists 1, s, st'. split; [reflexivity|].
  apply (main_exit_status example_args 3000%nat example_world 1 s st'). exact E.
Defined.
