(* ===== verification/LoadGen.v ===== *)
(** * BT-03/loadgen.py: the quota load generator

    Every function of the script, over any host.  [main]'s locals that its
    [finally] block reads, the [Summary] object and the list of client sockets,
    are the local state. *)

From Stdlib Require Import Ascii ZArith QArith Lia Lqa.
From Stdlib Require Import Init.Byte.
From coqutil Require Import Byte Word.LittleEndianList.
From stdpp Require Import base list strings.
From S2P Require Import Prelude PyNum PyText Host Loopback Blake2b Wire.

Open Scope Z_scope.

Inductive ProbeStatus : Set := accepted | rejected | indeterminate.
#[global] Instance ProbeStatus_eq_dec : EqDecision ProbeStatus.
Proof. solve_decision. Defined.
Definition status_str (s : ProbeStatus) : string :=
  match s with
  | accepted => "accepted" | rejected => "rejected" | indeterminate => "indeterminate"
  end.

Record ProbeRecord : Type := { round_no : Z; status : ProbeStatus; p_detail : string }.

Record Summary : Type := {
  onion : string;
  clients_requested : Z;
  clients_connected : Z;
  payload_size : Z;
  rounds_completed : Z;
  messages_sent : Z;
  payload_bytes_sent : Z;
  wire_bytes_sent : Z;
  rejection_detected : bool;
  liveness_ok : bool;
  sink_mailbox_hex : string;
  duration_seconds : Q;
  probes : list ProbeRecord }.

Record args : Type := {
  a_onion : string; socks_host : string; socks_port : Z; target_port : Z;
  a_clients : Z; a_payload_size : Z; max_sent_mib : Z; monitor_delay : Q;
  rejection_confirmations : Z; post_rejection_hold : Q; timeout : Q;
  probe_timeout : Q; send_timeout : Q; connect_retries : Z; retry_delay : Q;
  summary_json : option string; setup_only : bool }.

Definition load_dialect : dialect := {|
  protocol_error := LoadProtocolError;
  socks_error := LoadSocksError;
  msg_closed size got := "connection closed while receiving " +:+ str_nat size +:+ " bytes ("
                           +:+ str_nat got +:+ " bytes received)";
  msg_oversized _ := "oversized payload";
  msg_onion_length := "bad domain length";
  msg_noauth := "no-auth rejected";
  msg_bad_response := "invalid response";
  msg_connect_failed b := "CONNECT failed 0x" +:+ hex2 b;
  msg_bad_atyp _ := "unsupported ATYP" |}.

(** Field updates of the [Summary] object. *)
Definition set_connected (n : Z) (s : Summary) : Summary :=
  {| onion := onion s; clients_requested := clients_requested s; clients_connected := n;
     payload_size := payload_size s; rounds_completed := rounds_completed s;
     messages_sent := messages_sent s; payload_bytes_sent := payload_bytes_sent s;
     wire_bytes_sent := wire_bytes_sent s; rejection_detected := rejection_detected s;
     liveness_ok := liveness_ok s; sink_mailbox_hex := sink_mailbox_hex s;
     duration_seconds := duration_seconds s; probes := probes s |}.
Definition add_round (r clients payload frame : Z) (s : Summary) : Summary :=
  {| onion := onion s; clients_requested := clients_requested s;
     clients_connected := clients_connected s; payload_size := payload_size s;
     rounds_completed := r; messages_sent := messages_sent s + clients;
     payload_bytes_sent := payload_bytes_sent s + clients * payload;
     wire_bytes_sent := wire_bytes_sent s + clients * frame;
     rejection_detected := rejection_detected s; liveness_ok := liveness_ok s;
     sink_mailbox_hex := sink_mailbox_hex s; duration_seconds := duration_seconds s;
     probes := probes s |}.
Definition add_probe (p : ProbeRecord) (s : Summary) : Summary :=
  {| onion := onion s; clients_requested := clients_requested s;
     clients_connected := clients_connected s; payload_size := payload_size s;
     rounds_completed := rounds_completed s; messages_sent := messages_sent s;
     payload_bytes_sent := payload_bytes_sent s; wire_bytes_sent := wire_bytes_sent s;
     rejection_detected := rejection_detected s; liveness_ok := liveness_ok s;
     sink_mailbox_hex := sink_mailbox_hex s; duration_seconds := duration_seconds s;
     probes := probes s ++ [p] |}.
Definition set_flags (rej live : bool) (d : Q) (s : Summary) : Summary :=
  {| onion := onion s; clients_requested := clients_requested s;
     clients_connected := clients_connected s; payload_size := payload_size s;
     rounds_completed := rounds_completed s; messages_sent := messages_sent s;
     payload_bytes_sent := payload_bytes_sent s; wire_bytes_sent := wire_bytes_sent s;
     rejection_detected := rej; liveness_ok := live;
     sink_mailbox_hex := sink_mailbox_hex s; duration_seconds := d;
     probes := probes s |}.
Definition set_rejection (s : Summary) : Summary :=
  set_flags true (liveness_ok s) (duration_seconds s) s.
Definition set_liveness (b : bool) (s : Summary) : Summary :=
  set_flags (rejection_detected s) b (duration_seconds s) s.
Definition set_duration (d : Q) (s : Summary) : Summary :=
  set_flags (rejection_detected s) (liveness_ok s) d s.

Definition probe_json (p : ProbeRecord) : json :=
  JObj [("round_no", JInt (round_no p)); ("status", JStr (status_str (status p)));
        ("detail", JStr (p_detail p))].
(** [asdict(summary)] *)
Definition summary_to_json (s : Summary) : json :=
  JObj [("onion", JStr (onion s)); ("clients_requested", JInt (clients_requested s));
        ("clients_connected", JInt (clients_connected s)); ("payload_size", JInt (payload_size s));
        ("rounds_completed", JInt (rounds_completed s)); ("messages_sent", JInt (messages_sent s));
        ("payload_bytes_sent", JInt (payload_bytes_sent s));
        ("wire_bytes_sent", JInt (wire_bytes_sent s));
        ("rejection_detected", JBool (rejection_detected s));
        ("liveness_ok", JBool (liveness_ok s)); ("sink_mailbox_hex", JStr (sink_mailbox_hex s));
        ("duration_seconds", JFloat (duration_seconds s));
        ("probes", JList (map probe_json (probes s)))].

(** The checks after [p.parse_args()]; [p.error] exits with status 2. *)
Definition parse_args (a : args) : res args :=
  fail_if (a_clients a <=? 0) SystemExit "--clients must be > 0";;
  fail_if (negb ((1 <=? a_payload_size a) && (a_payload_size a <=? MAX_PAYLOAD_SIZE)))
    SystemExit "--payload-size out of range";;
  fail_if (max_sent_mib a <=? 0) SystemExit "--max-sent-mib must be > 0";;
  fail_if (rejection_confirmations a <=? 0) SystemExit "--rejection-confirmations must be > 0";;
  fail_if (connect_retries a <=? 0) SystemExit "--connect-retries must be > 0";;
  fail_if (Qlt_bool (retry_delay a) 0) SystemExit "--retry-delay must be >= 0";;
  fail_if (contains "://" (a_onion a)) SystemExit "--onion must be hostname";;
  mret a.

Section loadgen.
Context {W : Type} `{Host W}.

Definition recv_frame (s : sock) : M (hst W) (Z * bytes * bytes) := Wire.recv_frame load_dialect s.
Definition socks5_connect (h : string) (p : Z) (o : string) (tp : Z) (t : Q) : M (hst W) sock :=
  Wire.socks5_connect load_dialect h p o tp t.

Definition solve_pow (challenge : bytes) : M (hst W) bytes :=
  raise_if (negb (length challenge =? CHALLENGE_SIZE)%nat) LoadProtocolError "bad challenge size";;
  iter (λ nonce : Z,
    if nonce <? 2 ^ 64 then
      let nonce_bytes := pack_u64 nonce in
      let digest := blake2b 16 (challenge ++ nonce_bytes) in
      if bool_decide (nth 0 digest x00 = x00) && (byte.unsigned (nth 1 digest x00) <? 16)
      then mret (inr nonce_bytes) else mret (inl (nonce + 1))
    else throw LoadGenError "no nonce found") 0.

Definition authenticate (s : sock) : M (hst W) unit :=
  '(action, _, challenge_payload) ← recv_frame s;
  raise_if (negb (action =? ACTION_AUTH_CHALLENGE)) LoadProtocolError "expected challenge";;
  raise_if (negb (length challenge_payload =? CONTROL_PAYLOAD_SIZE)%nat) LoadProtocolError
    ("bad AUTH_CHALLENGE payload size: " +:+ str_nat (length challenge_payload));;
  let challenge := take CHALLENGE_SIZE challenge_payload in
  nonce ← solve_pow challenge;
  resp ← of_res (pad_control_payload nonce);
  send_frame s ACTION_AUTH_RESPONSE ZERO_MAILBOX resp;;
  mailbox ← call (EUrandom MAILBOX_SIZE);
  empty ← of_res (pad_control_payload []);
  send_frame s ACTION_POLL mailbox empty;;
  '(a, m, p) ← recv_frame s;
  raise_if (negb (a =? ACTION_POLL) || negb (bool_decide (m = mailbox))
            || negb (bool_decide (p = empty)))
    LoadProtocolError "auth validation failed".

Definition create_authenticated_client (a : args) : M (hst W) sock :=
  s ← socks5_connect (socks_host a) (socks_port a) (a_onion a) (target_port a) (timeout a);
  try_except
    (authenticate s;; call (ESetTimeout s (Some (send_timeout a)));; mret s)
    (except [Exception_] (λ exc, call (EClose s);; rethrow exc)).

Definition probe_connection (a : args) : M (hst W) (ProbeStatus * string) :=
  r ← try_except
    (s ← socks5_connect (socks_host a) (socks_port a) (a_onion a) (target_port a)
           (probe_timeout a); mret (inl s))
    (except [OSError; LoadSocksError; ConnectionError] (λ exc,
       mret (inr (indeterminate, "SOCKS/Tor error: " +:+ ex_msg exc))));
  match r with
  | inr answer => mret answer
  | inl s =>
      try_finally
        (try_except
           ('(action, _, payload) ← recv_frame s;
            if (action =? ACTION_AUTH_CHALLENGE) && (length payload =? CONTROL_PAYLOAD_SIZE)%nat
            then mret (accepted, "AUTH_CHALLENGE received")
            else mret (indeterminate,
                       "unexpected first frame action=0x" +:+ hex2 (byte.of_Z action)))
           (λ exc,
              if isinstance_any exc [ConnectionResetError; BrokenPipeError; ConnectionError]
              then Some (mret (rejected, "closed before AUTH_CHALLENGE: " +:+ ex_msg exc))
              else if isinstance exc TimeoutError
              then Some (mret (indeterminate, "timeout waiting for AUTH_CHALLENGE"))
              else if isinstance exc OSError
              then Some (mret (indeterminate, "socket error: " +:+ ex_msg exc))
              else None))
        (call (EClose s))
  end.

(** All sends run in the pool; results are taken as they complete and the first
    failure is raised. *)
Definition send_parallel_round (clients : list sock) (frame : bytes) : M (hst W) unit :=
  order ← call (ECompletionOrder (length clients));
  failed ← for_acc order (λ i (failed : option exn),
    match clients !! i with
    | None => mret failed
    | Some c =>
        r ← try_except (call (ESendAll c frame);; mret None) (λ exc, Some (mret (Some exc)));
        mret match failed with Some e => Some e | None => r end
    end) None;
  match failed with
  | None => mret tt
  | Some exc => rethrow exc
  end.

Definition verify_existing_session (s : sock) (timeout : Q) : M (hst W) bool :=
  mailbox ← call (EUrandom MAILBOX_SIZE);
  old_timeout ← call (EGetTimeout s);
  try_finally
    (try_except
       (call (ESetTimeout s (Some timeout));;
        empty ← of_res (pad_control_payload []);
        send_frame s ACTION_POLL mailbox empty;;
        '(a, m, p) ← recv_frame s;
        mret ((a =? ACTION_POLL) && bool_decide (m = mailbox) && bool_decide (p = empty)))
       (except [OSError; ConnectionError; LoadProtocolError] (λ _, mret false)))
    (call (ESetTimeout s old_timeout)).

Definition write_summary (path : option string) (s : Summary) : M (hst W) unit :=
  match path with
  | None | Some EmptyString => mret tt
  | Some p => call (EMkdirParent p);; call (EWriteJson p (summary_to_json s))
  end.

(** [try: sock.shutdown(...) except OSError: pass; sock.close()] over a list *)
Definition close_all (l : list sock) : M (hst W) unit :=
  for_unit l (λ s,
    try_except (call (EShutdown s)) (except [OSError] (λ _, mret tt));;
    call (EClose s)).

(** [SM]: functions that update the [Summary] object; [CM]: function bodies that
    also have a local list of client sockets. *)
Abbreviation SM := (M (Summary * hst W)).
Abbreviation CM := (M (list sock * (Summary * hst W))).
Definition on_host {A} (m : M (hst W) A) : CM A := lift (lift m).
Definition on_summary (f : Summary → Summary) : CM unit := lift (set_local f).
Definition the_summary : CM Summary := lift get_local.

(** The [except] block of an attempt. *)
Definition attempt_error (a : args) (client_no attempt : Z) (exc : exn)
  : CM (option exn + unit) :=
  on_host (eprint ("[!] Client " +:+ str_Z client_no +:+ "/" +:+ str_Z (a_clients a)
    +:+ " connection attempt " +:+ str_Z attempt +:+ "/" +:+ str_Z (connect_retries a)
    +:+ " failed: " +:+ ex_msg exc));;
  (if (attempt <? connect_retries a) && negb (Qeq_bool (retry_delay a) 0)
   then on_host (sleep (retry_delay a)) else mret tt);;
  mret (inl (Some exc)).

(** One attempt of [establish_authenticated_clients]: [inr] is the [break]. *)
Definition establish_attempt (a : args) (client_no attempt : Z) : CM (option exn + unit) :=
  try_except
    (s ← on_host (create_authenticated_client a);
     set_local (λ clients, clients ++ [s]);;
     clients ← get_local;
     on_summary (set_connected (zlen clients));;
     (if (zlen clients mod 10 =? 0) || (zlen clients =? a_clients a)
      then on_host (print ("[+] Authenticated clients: " +:+ str_Z (zlen clients) +:+ "/"
                           +:+ str_Z (a_clients a)))
      else mret tt);;
     mret (inr tt))
    (except [TimeoutError; OSError; LoadSocksError; ConnectionError]
       (attempt_error a client_no attempt)).

(** The attempts for one client, with the [else] of the inner loop. *)
Definition establish_client (a : args) (client_no : Z) : CM unit :=
  r ← for_each (zrange 1 (connect_retries a + 1))
        (λ attempt _, establish_attempt a client_no attempt) None;
  match r with
  | inr _ => mret tt
  | inl last_exc =>
      clients ← get_local;
      on_host (close_all clients);;
      throw LoadGenError ("client " +:+ str_Z client_no +:+ "/" +:+ str_Z (a_clients a)
        +:+ " could not authenticate after " +:+ str_Z (connect_retries a)
        +:+ " attempts: "
        +:+ match last_exc with Some e => ex_msg e | None => "None" end)
  end.

Definition establish_loop (a : args) : CM (list sock) :=
  for_unit (zrange 1 (a_clients a + 1)) (establish_client a);; get_local.

Definition establish_authenticated_clients (a : args) : SM (list sock) :=
  with_locals [] (establish_loop a).

Definition baseline_probe_with_retries (a : args) : SM unit :=
  r ← for_each (zrange 1 (connect_retries a + 1))
    (λ attempt (last : ProbeStatus * string),
      '(status, detail) ← lift (probe_connection a);
      set_local (add_probe {| round_no := 0; status := status; p_detail := detail |});;
      lift (print ("[i] Baseline probe attempt " +:+ str_Z attempt +:+ "/"
        +:+ str_Z (connect_retries a) +:+ ": " +:+ status_str status +:+ " (" +:+ detail +:+ ")"));;
      match status with
      | accepted => mret (inr tt)
      | rejected => throw LoadGenError "baseline probe was rejected before load generation"
      | indeterminate =>
          (if (attempt <? connect_retries a) && negb (Qeq_bool (retry_delay a) 0)
           then lift (sleep (retry_delay a)) else mret tt);;
          mret (inl (status, detail))
      end) (indeterminate, "no probe attempted");
  match r with
  | inr _ => mret tt
  | inl (last_status, last_detail) =>
      throw LoadGenError ("baseline probe did not become accepted after "
        +:+ str_Z (connect_retries a) +:+ " attempts: " +:+ status_str last_status
        +:+ " (" +:+ last_detail +:+ ")")
  end.

(** One round of the load loop; the loop carries the counter [consecutive]. *)
Definition load_round (a : args) (push_frame : bytes) (consecutive : Z) : CM (Z + unit) :=
  s ← the_summary;
  let round_no := rounds_completed s + 1 in
  clients ← get_local;
  on_host (send_parallel_round clients push_frame);;
  on_summary (add_round round_no (zlen clients) (a_payload_size a) (zlen push_frame));;
  s ← the_summary;
  on_host (print ("[+] Round " +:+ str_Z round_no +:+ ": "
    +:+ fmt1 (idiv (payload_bytes_sent s) (1024 * 1024)) +:+ " MiB sent"));;
  on_host (sleep (monitor_delay a));;
  '(status, detail) ← on_host (probe_connection a);
  on_summary (add_probe {| round_no := round_no; status := status; p_detail := detail |});;
  on_host (print ("[i] Probe round " +:+ str_Z round_no +:+ ": " +:+ status_str status
    +:+ " (" +:+ detail +:+ ")"));;
  let consecutive := match status with
                     | rejected => consecutive + 1
                     | accepted => 0
                     | indeterminate => consecutive
                     end in
  if rejection_confirmations a <=? consecutive
  then on_summary set_rejection;; mret (inr tt)
  else mret (inl consecutive).

Definition load_loop (a : args) (push_frame : bytes) (max_sent_bytes : Z) : CM unit :=
  iter (λ consecutive,
    s ← the_summary;
    if payload_bytes_sent s <? max_sent_bytes then load_round a push_frame consecutive
    else mret (inr tt)) 0.

(** [clients[0]] *)
Definition first_client : CM sock :=
  clients ← get_local;
  match clients with
  | c :: _ => mret c
  | [] => throw IndexError "list index out of range"
  end.

(** The [try] block of [main]. *)
Definition main_try (a : args) (push_frame : bytes) (max_sent_bytes : Z) : CM Z :=
  on_host (print ("[i] Establishing " +:+ str_Z (a_clients a) +:+ " authenticated connections"));;
  cs ← lift (establish_authenticated_clients a);
  set_local (λ _, cs);;
  on_host (sleep 1);;
  lift (baseline_probe_with_retries a);;
  if setup_only a then
    c ← first_client;
    live ← on_host (verify_existing_session c (probe_timeout a));
    on_summary (set_liveness live);;
    if negb (live : bool) then
      on_host (eprint "[!] Setup succeeded, but existing session liveness check failed");; mret 3
    else
      on_host (print "[+] Setup-only check passed: SOCKS5, onion routing, PoW auth and POLL are working");;
      mret 0
  else
    load_loop a push_frame max_sent_bytes;;
    s ← the_summary;
    if negb (rejection_detected s) then
      on_host (eprint "[!] Safety stop reached before rejection");; mret 2
    else
      on_host (sleep (post_rejection_hold a));;
      c ← first_client;
      live ← on_host (verify_existing_session c (probe_timeout a));
      on_summary (set_liveness live);;
      if negb (live : bool) then
        on_host (eprint "[!] Existing session not responsive");; mret 3
      else
        on_host (print "[+] Quota rejection confirmed and existing session is responsive");;
        mret 0.

Definition main_finally (a : args) (started : Q) : CM unit :=
  t ← on_host monotonic;
  on_summary (set_duration (round3 (fsub t started)));;
  clients ← get_local;
  on_host (close_all clients);;
  s ← the_summary;
  on_host (write_summary (summary_json a) s);;
  on_host (print ("[i] Final: connected=" +:+ str_Z (clients_connected s) +:+ ", rounds="
    +:+ str_Z (rounds_completed s) +:+ ", rejection=" +:+ str_bool (rejection_detected s)
    +:+ ", liveness=" +:+ str_bool (liveness_ok s))).

Definition main_body (a : args) (push_frame : bytes) : CM Z :=
  let max_sent_bytes := max_sent_mib a * 1024 * 1024 in
  started ← on_host monotonic;
  try_finally
    (try_except (main_try a push_frame max_sent_bytes)
       (λ exc,
          if isinstance exc KeyboardInterrupt then Some (mret 130)
          else if isinstance exc Exception_
          then Some (on_host (eprint ("[!] Load generator failed: " +:+ ex_msg exc));; mret 1)
          else None))
    (main_finally a started).

Definition new_summary (a : args) (sink : bytes) : Summary :=
  {| onion := a_onion a; clients_requested := a_clients a; clients_connected := 0;
     payload_size := a_payload_size a; rounds_completed := 0; messages_sent := 0;
     payload_bytes_sent := 0; wire_bytes_sent := 0; rejection_detected := false;
     liveness_ok := false; sink_mailbox_hex := bytes_hex sink; duration_seconds := 0;
     probes := [] |}.

Definition main (argv : args) : M (hst W) Z :=
  a ← of_res (parse_args argv);
  sink ← call (EUrandom MAILBOX_SIZE);
  let payload := replicate (Z.to_nat (a_payload_size a)) xa5 in
  push_frame ← of_res (build_frame ACTION_PUSH sink payload);
  with_locals (new_summary a sink) (with_locals [] (main_body a push_frame)).

End loadgen.

(** ** What the summary records *)

(** [consecutive] as a function of the probes made so far. *)
Definition count_probe (c : Z) (p : ProbeRecord) : Z :=
  match status p with rejected => c + 1 | accepted => 0 | indeterminate => c end.
Definition consecutive_rejections (l : list ProbeRecord) : Z := foldl count_probe 0 l.

Section accounting.
Context {W : Type} `{Host W} (a : args) (push_frame : bytes).
Notation CS := (list sock * (Summary * hst W))%type.

Definition max_bytes : Z := max_sent_mib a * 1024 * 1024.

(** The counters agree: every completed round sent one message per client. *)
Definition counters_ok (s : Summary) : Prop :=
  0 <= clients_connected s ∧ 0 <= rounds_completed s ∧
  messages_sent s = rounds_completed s * clients_connected s ∧
  payload_bytes_sent s = messages_sent s * a_payload_size a ∧
  wire_bytes_sent s = messages_sent s * zlen push_frame.

(** The traffic exceeds the limit by less than one round. *)
Definition within_limit (s : Summary) : Prop :=
  payload_bytes_sent s < max_bytes + clients_connected s * a_payload_size a.

Definition rejection_backed (s : Summary) : Prop :=
  rejection_detected s = true → rejection_confirmations a <= consecutive_rejections (probes s).

Definition sound (s : Summary) : Prop :=
  counters_ok s ∧ within_limit s ∧ rejection_backed s.

Lemma wp_on_host {A} (m : M (hst W) A) Q E n cl s st :
  (∀ x st', Q x (cl, (s, st'))) → (∀ e st', E e (cl, (s, st'))) →
  wp True (on_host m) Q E n (cl, (s, st)).
Proof.
  intros HQ HE. unfold wp, on_host, lift. cbn. destruct (m n st) as [[] ?]; auto.
Qed.
Lemma wp_lift_host {A} (m : M (hst W) A) Q E n (s : Summary) st :
  (∀ x st', Q x (s, st')) → (∀ e st', E e (s, st')) → wp True (lift m) Q E n (s, st).
Proof. intros HQ HE. unfold wp, lift. cbn. destruct (m n st) as [[] ?]; auto. Qed.
Lemma wp_lift_summary {A} (m : M (Summary * hst W) A) Q E n (cl : list sock) q :
  wp True m (λ x q', Q x (cl, q')) (λ e q', E e (cl, q')) n q →
  wp True (lift m) Q E n (cl, q).
Proof. unfold wp, lift. cbn. by destruct (m n q) as [[] ?]. Qed.
Lemma wp_on_summary {A} f (k : unit → M CS A) Q E n cl s st :
  wp True (k tt) Q E n (cl, (f s, st)) → wp True (on_summary f ≫= k) Q E n (cl, (s, st)).
Proof. intros Hk. by apply wp_bind. Qed.
Lemma wp_the_summary {A} (k : Summary → M CS A) Q E n cl s st :
  wp True (k s) Q E n (cl, (s, st)) → wp True (the_summary ≫= k) Q E n (cl, (s, st)).
Proof. intros Hk. by apply wp_bind. Qed.
Lemma wp_clients {A} (k : list sock → M CS A) Q E n cl s st :
  wp True (k cl) Q E n (cl, (s, st)) → wp True (get_local ≫= k) Q E n (cl, (s, st)).
Proof. intros Hk. by apply wp_bind. Qed.
Lemma wp_set_clients {A} f (k : unit → M CS A) Q E n cl s st :
  wp True (k tt) Q E n (f cl, (s, st)) → wp True (set_local f ≫= k) Q E n (cl, (s, st)).
Proof. intros Hk. by apply wp_bind. Qed.

(** *** Setting up the clients *)

(** Nothing sent, no probe made, and the connected count is the list's length. *)
Definition setting_up (s0 : Summary) (p : CS) : Prop :=
  p.2.1 = set_connected (zlen p.1) s0.

Lemma set_connected_twice m k s : set_connected m (set_connected k s) = set_connected m s.
Proof. done. Qed.

Lemma attempt_error_counts s0 client_no attempt exc n p :
  setting_up s0 p →
  wp True (attempt_error a client_no attempt exc)
    (λ _ p', setting_up s0 p') (λ _ p', setting_up s0 p') n p.
Proof.
  intros Hp. destruct p as [cl [s st]]. unfold attempt_error.
  apply wp_bind, wp_on_host; [|done]. intros ? st1. apply wp_bind.
  destruct (_ && _); [apply wp_on_host; [|done]; intros ? st2|apply wp_ret]; by apply wp_ret.
Qed.

Lemma establish_attempt_counts s0 client_no attempt n p :
  setting_up s0 p →
  wp True (establish_attempt a client_no attempt)
    (λ _ p', setting_up s0 p') (λ _ p', setting_up s0 p') n p.
Proof.
  intros Hp. destruct p as [cl [s st]]. unfold setting_up in Hp. cbn in Hp. subst s.
  unfold establish_attempt. apply wp_try_except, wp_bind.
  assert (∀ e p, setting_up s0 p →
    match except [TimeoutError; OSError; LoadSocksError; ConnectionError]
            (attempt_error a client_no attempt) e with
    | Some k => wp True k (λ _ p', setting_up s0 p') (λ _ p', setting_up s0 p') n p
    | None => setting_up s0 p end) as Hfail.
  { intros e p Hp. unfold except. destruct (isinstance_any e _); [|done].
    by apply attempt_error_counts. }
  apply wp_on_host; [|intros; by apply Hfail]. intros s1 st1.
  apply wp_set_clients, wp_clients, wp_on_summary. rewrite set_connected_twice.
  apply wp_bind. destruct (_ || _).
  - apply wp_on_host; [intros ? st2; by apply wp_ret|intros; by apply Hfail].
  - apply wp_ret. by apply wp_ret.
Qed.

Lemma establish_client_counts s0 client_no n p :
  setting_up s0 p →
  wp True (establish_client a client_no)
    (λ _ p', setting_up s0 p') (λ _ p', setting_up s0 p') n p.
Proof.
  intros Hp. unfold establish_client. apply wp_bind.
  eapply wp_mono; [| |apply (wp_for_each True (λ _ _ p, setting_up s0 p) (λ _ p, setting_up s0 p)
    _ _ (λ _ p', setting_up s0 p')); [|done]]; [|done|].
  2:{ intros. eapply wp_mono; [| |by apply establish_attempt_counts]; [by intros []|done]. }
  intros [o|[]] [cl [s st']] H1; [|done]. apply wp_clients, wp_bind, wp_on_host; [|done].
  intros ? st2. by apply wp_throw.
Qed.

Lemma establish_counts s0 n st :
  clients_connected s0 = 0 →
  wp True (establish_authenticated_clients a)
    (λ cs p, p.1 = set_connected (zlen cs) s0)
    (λ _ p, ∃ k, 0 <= k ∧ p.1 = set_connected k s0) n (s0, st).
Proof.
  intros H0. assert (setting_up s0 ([], (s0, st))) as Hp.
  { unfold setting_up. cbn. destruct s0. cbn in *. by subst. }
  assert (wp True (establish_loop a) (λ cs p, p.2.1 = set_connected (zlen cs) s0)
    (λ _ p, setting_up s0 p) n ([], (s0, st))) as Hw.
  { unfold establish_loop. apply wp_bind.
    eapply wp_mono; [| |apply (wp_for_unit True (λ _ p, setting_up s0 p));
      [intros; by apply establish_client_counts|done]]; [|done].
    by intros ? [cl [s st']] ?. }
  unfold wp, establish_authenticated_clients, with_locals in *.
  destruct (establish_loop a n _) as [[cs|e|] [cl [s st']]]; cbn in *; [done| |done].
  exists (zlen cl). split; [unfold zlen; lia|done].
Qed.
(** *** Probing and load *)

Definition with_probes (l : list ProbeRecord) (s : Summary) : Summary :=
  {| onion := onion s; clients_requested := clients_requested s;
     clients_connected := clients_connected s; payload_size := payload_size s;
     rounds_completed := rounds_completed s; messages_sent := messages_sent s;
     payload_bytes_sent := payload_bytes_sent s; wire_bytes_sent := wire_bytes_sent s;
     rejection_detected := rejection_detected s; liveness_ok := liveness_ok s;
     sink_mailbox_hex := sink_mailbox_hex s; duration_seconds := duration_seconds s;
     probes := l |}.

Lemma consecutive_snoc l p :
  consecutive_rejections (l ++ [p]) = count_probe (consecutive_rejections l) p.
Proof. unfold consecutive_rejections. by rewrite foldl_app. Qed.

Lemma baseline_counts s0 n st :
  consecutive_rejections (probes s0) = 0 →
  wp True (baseline_probe_with_retries a)
    (λ _ p, ∃ l, p.1 = with_probes l s0 ∧ consecutive_rejections l = 0)
    (λ _ p, ∃ l, p.1 = with_probes l s0) n (s0, st).
Proof.
  intros H0. unfold baseline_probe_with_retries.
  set (I := λ p : Summary * hst W, ∃ l, p.1 = with_probes l s0 ∧ consecutive_rejections l = 0).
  set (E := λ (_ : exn) (p : Summary * hst W), ∃ l, p.1 = with_probes l s0).
  apply wp_bind.
  eapply wp_mono; [| |apply (wp_for_each True (λ _ _ p, I p) (λ _ p, I p) _ _ E)].
  - intros [[ls ld]|[]] p [l [Hl Hc]]; [apply wp_throw; by exists l|apply wp_ret; by exists l].
  - done.
  - intros pre attempt post last [s st1] _ (l & Hs & Hc). cbn in Hs. subst s.
    apply wp_bind, wp_lift_host; [|intros; by exists l]. intros [stt det] st2.
    apply wp_bind. cbv [set_local]. unfold wp at 1. cbn [fst snd].
    set (pr := {| round_no := 0; status := stt; p_detail := det |}).
    change (add_probe pr (with_probes l s0)) with (with_probes (l ++ [pr]) s0).
    assert (∀ e st', E e (with_probes (l ++ [pr]) s0, st')) as HE by (intros; by exists (l ++ [pr])).
    apply wp_bind, wp_lift_host; [|done]. intros _ st3.
    destruct stt; cbn [status].
    + apply wp_ret. exists (l ++ [pr]). split; [done|]. by rewrite consecutive_snoc.
    + apply wp_throw, HE.
    + assert (I (with_probes (l ++ [pr]) s0, st3) ∧ ∀ st', I (with_probes (l ++ [pr]) s0, st'))
        as [_ HI] by (split; [|intros st']; exists (l ++ [pr]); by rewrite consecutive_snoc).
      apply wp_bind. destruct (_ && _).
      * apply wp_lift_host; [|done]. intros _ st4. apply wp_ret, HI.
      * apply wp_ret, wp_ret, HI.
  - exists (probes s0). by destruct s0.
Qed.

Definition loading (c : Z) (p : CS) : Prop :=
  sound p.2.1 ∧ zlen p.1 = clients_connected p.2.1 ∧
  consecutive_rejections (probes p.2.1) = c ∧ rejection_detected p.2.1 = false.

Definition loaded (p : CS) : Prop :=
  sound p.2.1 ∧
  (rejection_detected p.2.1 = true ∨
   (rejection_detected p.2.1 = false ∧ max_bytes <= payload_bytes_sent p.2.1)).

Lemma counters_ok_round s k :
  counters_ok s → k = clients_connected s →
  counters_ok (add_round (rounds_completed s + 1) k (a_payload_size a) (zlen push_frame) s).
Proof.
  intros (? & ? & Hm & Hp & Hw) ->. unfold counters_ok. cbn. rewrite Hp, Hw, Hm.
  split_and!; [done|lia|ring|ring|ring].
Qed.

Lemma load_round_counts c n p :
  0 < rejection_confirmations a →
  loading c p → payload_bytes_sent p.2.1 < max_bytes →
  wp True (load_round a push_frame c)
    (λ r p', match r with inl c' => loading c' p' | inr _ => loaded p' end)
    (λ _ p', sound p'.2.1) n p.
Proof.
  destruct p as [cl [s st]]. cbn. intros Hconf (Hs & Hcl & Hc & Hrej) Hlt. cbn in *.
  unfold load_round. apply wp_the_summary, wp_clients, wp_bind, wp_on_host; [|done].
  intros _ st1. apply wp_on_summary, wp_the_summary.
  set (s1 := add_round _ _ _ _ s).
  assert (sound s1) as Hs1.
  { destruct Hs as (Hcnt & _ & _). split_and!; [by apply counters_ok_round| |].
    - unfold within_limit, s1. cbn. rewrite Hcl. lia.
    - unfold rejection_backed, s1. cbn. congruence. }
  apply wp_bind, wp_on_host; [|done]. intros _ st2.
  apply wp_bind, wp_on_host; [|done]. intros _ st3.
  apply wp_bind, wp_on_host; [|done]. intros [stt det] st4.
  apply wp_on_summary. set (pr := {| round_no := _; status := stt; p_detail := det |}).
  set (s2 := add_probe pr s1).
  assert (sound s2 ∧ rejection_detected s2 = false) as [Hs2 Hr2].
  { destruct Hs1 as (H1 & H2 & _). split; [|done]. split_and!; [done|done|].
    unfold rejection_backed, s2. cbn. congruence. }
  assert (consecutive_rejections (probes s2) = count_probe c pr) as Hc2.
  { unfold s2. cbn. rewrite consecutive_snoc. by rewrite <- Hc. }
  apply wp_bind, wp_on_host; [|done]. intros _ st5.
  change (match stt with rejected => c + 1 | accepted => 0 | indeterminate => c end)
    with (count_probe c pr).
  destruct (Z.leb_spec (rejection_confirmations a) (count_probe c pr)) as [Hge|Hlt'].
  - apply wp_on_summary, wp_ret. destruct Hs2 as (H1 & H2 & _). split.
    + split_and!; [done|done|]. intros _.
      change (rejection_confirmations a <= consecutive_rejections (probes s2)). by rewrite Hc2.
    + by left.
  - apply wp_ret. by split_and!.
Qed.

Lemma load_loop_counts n p :
  0 < rejection_confirmations a → loading 0 p →
  wp True (load_loop a push_frame max_bytes) (λ _ p', loaded p') (λ _ p', sound p'.2.1) n p.
Proof.
  intros Hconf Hp. unfold load_loop.
  apply (wp_iter_partial True (λ c p, loading c p)); [done| |done].
  intros c [cl [s st]] Hl. apply wp_the_summary.
  destruct (Z.ltb_spec (payload_bytes_sent s) max_bytes) as [Hlt|Hge].
  - by apply load_round_counts.
  - apply wp_ret. destruct Hl as (? & _ & _ & ?). split; [done|]. by right.
Qed.
(** *** The whole of [main] *)

Definition valid_args : Prop :=
  0 < a_clients a ∧ 1 <= a_payload_size a <= MAX_PAYLOAD_SIZE ∧ 0 < max_sent_mib a ∧
  0 < rejection_confirmations a ∧ 0 < connect_retries a.

(** What an exit status says of the summary. *)
Definition verdict (z : Z) (s : Summary) : Prop :=
  (z = 0 ∧ liveness_ok s = true ∧ (setup_only a = true ∨ rejection_detected s = true)) ∨
  (z = 2 ∧ rejection_detected s = false ∧ max_bytes <= payload_bytes_sent s) ∨
  (z = 3 ∧ liveness_ok s = false ∧ (setup_only a = true ∨ rejection_detected s = true)).

Lemma sound_setup k l s :
  valid_args → 0 <= k →
  rounds_completed s = 0 → messages_sent s = 0 → payload_bytes_sent s = 0 →
  wire_bytes_sent s = 0 → rejection_detected s = false →
  sound (with_probes l (set_connected k s)).
Proof.
  intros (_ & ? & ? & _) ? Hr Hm Hp Hw Hj.
  unfold sound, counters_ok, within_limit, rejection_backed, max_bytes. cbn.
  rewrite Hr, Hm, Hp, Hw, Hj. split_and!; try done; try lia; nia.
Qed.

Lemma sound_liveness b s : sound s → sound (set_liveness b s).
Proof. done. Qed.

(** The liveness check at the end of both modes. *)
Lemma liveness_verdict (msg_bad msg_ok : string) n cl s st :
  sound s → setup_only a = true ∨ rejection_detected s = true →
  wp True
    (c ← first_client;
     live ← on_host (verify_existing_session c (probe_timeout a));
     on_summary (set_liveness live);;
     if negb (live : bool) then on_host (eprint msg_bad);; mret 3
     else on_host (print msg_ok);; mret 0)
    (λ z p, sound p.2.1 ∧ verdict z p.2.1) (λ _ p, sound p.2.1) n (cl, (s, st)).
Proof.
  intros Hs Hwhy. apply wp_bind. unfold first_client. apply wp_clients.
  destruct cl as [|c cl]; [by apply wp_throw|]. apply wp_ret.
  apply wp_bind, wp_on_host; [|done]. intros live st1. apply wp_on_summary.
  destruct live; cbn [negb]; apply wp_bind, wp_on_host; try done; intros ? st2; apply wp_ret;
    (split; [done|]); [left|right; right]; by split_and!.
Qed.

Lemma main_try_verdict sink n st :
  valid_args →
  wp True (main_try a push_frame max_bytes)
    (λ z p, sound p.2.1 ∧ verdict z p.2.1) (λ _ p, sound p.2.1)
    n ([], (new_summary a sink, st)).
Proof.
  intros Hv. set (s0 := new_summary a sink).
  assert (∀ k l, 0 <= k → sound (with_probes l (set_connected k s0))) as Hsetup
    by (intros; by apply sound_setup).
  assert (sound s0) as Hs0 by (apply (Hsetup 0 []); lia).
  unfold main_try. apply wp_bind, wp_on_host; [|done]. intros _ st1.
  apply wp_bind, wp_lift_summary. eapply wp_mono; [| |by apply establish_counts]; cbn beta.
  2:{ intros e [s2 st2] (k & Hk & E). cbn in *. subst s2. exact (Hsetup k (probes s0) Hk). }
  intros cs [s2 st2] E. cbn in E. subst s2. apply wp_set_clients.
  assert (0 <= zlen cs) as Hlen by (unfold zlen; lia).
  apply wp_bind, wp_on_host; [|intros; exact (Hsetup (zlen cs) (probes s0) Hlen)]. intros _ st3.
  apply wp_bind, wp_lift_summary. eapply wp_mono; [| |by apply baseline_counts]; cbn beta.
  2:{ intros e [s4 st4] (l & E). cbn in *. subst s4. by apply Hsetup. }
  intros _ [s4 st4] (l & E & Hl). cbn in E. subst s4.
  destruct (setup_only a) eqn:Eset.
  - apply liveness_verdict; [by apply Hsetup|by left].
  - apply wp_bind. eapply wp_mono; [| |apply load_loop_counts].
    + intros _ [cl [s5 st5]] [Hs5 Hwhy]. cbn in *. apply wp_the_summary.
      destruct (rejection_detected s5) eqn:Er; cbn [negb].
      * apply wp_bind, wp_on_host; [|done]. intros _ st6.
        apply liveness_verdict; [done|by right].
      * apply wp_bind, wp_on_host; [|done]. intros _ st6. apply wp_ret.
        split; [done|]. right; left. destruct Hwhy as [?|[_ ?]]; [done|done].
    + done.
    + apply Hv.
    + split_and!; [by apply Hsetup|done|done|done].
Qed.

Lemma main_finally_keeps (P : Summary → Prop) started n p :
  (∀ d s, P s → P (set_duration d s)) → P p.2.1 →
  wp True (main_finally a started) (λ _ p', P p'.2.1) (λ _ p', P p'.2.1) n p.
Proof.
  destruct p as [cl [s st]]. intros HP Hs. unfold main_finally.
  apply wp_bind, wp_on_host; [|done]. intros t st1.
  assert (P (set_duration (round3 (fsub t started)) s)) as Hs' by by apply HP.
  apply wp_on_summary, wp_clients, wp_bind, wp_on_host; [|done]. intros _ st2.
  apply wp_the_summary, wp_bind, wp_on_host; [|done]. intros _ st3.
  by apply wp_on_host.
Qed.

Lemma load_main_body_verdict sink n st :
  valid_args →
  wp True (main_body a push_frame)
    (λ z p, sound p.2.1 ∧ (z = 1 ∨ z = 130 ∨ verdict z p.2.1)) (λ _ p, sound p.2.1)
    n ([], (new_summary a sink, st)).
Proof.
  intros Hv. unfold main_body.
  assert (sound (new_summary a sink)) as Hs0
    by (apply (sound_setup 0 [] (new_summary a sink)); done).
  apply wp_bind, wp_on_host; [|done]. intros started st1.
  apply wp_try_finally, wp_try_except.
  assert (∀ z p, sound p.2.1 → (z = 1 ∨ z = 130 ∨ verdict z p.2.1) →
    wp True (main_finally a started)
      (λ _ p', sound p'.2.1 ∧ (z = 1 ∨ z = 130 ∨ verdict z p'.2.1)) (λ _ p', sound p'.2.1) n p)
    as Hfin.
  { intros z p Hs Hz. eapply wp_mono; [| |apply (main_finally_keeps
      (λ s, sound s ∧ (z = 1 ∨ z = 130 ∨ verdict z s)))]; try done. by intros e p' [? _]. }
  assert (∀ p, sound p.2.1 →
    wp True (main_finally a started) (λ _ p', sound p'.2.1) (λ _ p', sound p'.2.1) n p) as Hfin'
    by (intros; by apply main_finally_keeps).
  eapply wp_mono; [| |by apply main_try_verdict]; cbn beta.
  - intros z p [Hs Hz]. apply Hfin; auto.
  - intros e [cl [s2 st2]] Hs.
    destruct (isinstance e KeyboardInterrupt); [apply wp_ret, Hfin; auto|].
    destruct (isinstance e Exception_); [|by apply Hfin'].
    apply wp_bind, wp_on_host; [|intros; by apply Hfin']. intros _ st3.
    apply wp_ret, Hfin; auto.
Qed.
End accounting.

(** ** One parallel round *)

Section rounds.
Context {W : Type} `{Completes W}.

(** What is sent on each socket once the clients with indices in [dn] are done. *)
Definition delivered (clients : list sock) (frame : bytes) (st : hst W) (dn : list nat)
  (st' : hst W) : Prop :=
  ∀ c, sent c (trace st') =
       sent c (trace st) ++
       (if bool_decide (c ∈ omap (λ i, clients !! i) dn) then frame else []).

Lemma delivered_nil clients frame st : delivered clients frame st [] st.
Proof.
  intros c. cbn. rewrite bool_decide_eq_false_2; [by rewrite app_nil_r|]. apply not_elem_of_nil.
Qed.

Lemma delivered_snoc clients frame st dn i ci st1 w2 :
  NoDup clients → clients !! i = Some ci → i ∉ dn →
  delivered clients frame st dn st1 →
  delivered clients frame st (dn ++ [i])
    (HSt w2 (trace st1 ++ [Ev (ESendAll ci frame) (inl tt)])).
Proof.
  intros Hnd Hi Hdn Hdel c. cbn [trace]. rewrite sent_snoc, Hdel. unfold sent_by. cbn.
  destruct (Nat.eqb_spec ci c) as [->|Hne].
  - rewrite bool_decide_eq_false_2.
    2:{ intros (j & Hj & Hj')%list_elem_of_omap. by rewrite (NoDup_lookup _ _ _ _ Hnd Hi Hj') in Hdn. }
    rewrite bool_decide_eq_true_2; [by rewrite app_nil_r|].
    apply list_elem_of_omap. exists i.
    split; [apply elem_of_app; right; by apply list_elem_of_singleton|done].
  - rewrite app_nil_r. f_equal. erewrite bool_decide_ext; [reflexivity|]. rewrite !list_elem_of_omap. split.
    + intros (j & ? & ?). exists j. split; [apply elem_of_app; by left|done].
    + intros (j & [?|Hj%list_elem_of_singleton]%elem_of_app & ?); [by exists j|]. subst j.
      congruence.
Qed.

Lemma send_parallel_round_wp clients frame n (st : hst W) :
  NoDup clients →
  wp True (send_parallel_round clients frame)
    (λ _ st', ∀ c, sent c (trace st') =
       sent c (trace st) ++ (if bool_decide (c ∈ clients) then frame else []))
    (λ _ _, True) n st.
Proof.
  intros Hnd. unfold send_parallel_round. apply wp_bind, wp_call_cases; [|done].
  intros order w1 Hord%completion_order. set (st1 := HSt w1 _).
  assert (delivered clients frame st [] st1) as H1.
  { intros c. unfold st1. cbn [trace]. rewrite sent_snoc. unfold sent_by. cbn [ev_eff ev_out].
    rewrite app_nil_r. apply delivered_nil. }
  apply wp_bind.
  eapply wp_mono; [| |apply (wp_for_acc True (λ dn (failed : option exn) st',
    failed = None → delivered clients frame st dn st') _ _ (λ _ _, True))]; [|done| |done].
  - intros [e|] st2 H2; [done|]. apply wp_ret. intros c. rewrite (H2 eq_refl c).
    f_equal. erewrite bool_decide_ext; [reflexivity|]. rewrite list_elem_of_omap, list_elem_of_lookup. split.
    + intros (i & _ & ?). eauto.
    + intros (i & Hi). exists i. split; [|done]. rewrite Hord. apply elem_of_seq.
      apply lookup_lt_Some in Hi. lia.
  - intros pre i post failed st2 Hsplit H2.
    assert (i ∉ pre) as Hni.
    { assert (NoDup order) as Hndo by (rewrite Hord; apply NoDup_seq).
      rewrite Hsplit in Hndo. apply NoDup_app in Hndo as (_ & Hd & _). intros Hin.
      apply (Hd i Hin). apply elem_of_cons. by left. }
    destruct (clients !! i) as [ci|] eqn:Hi.
    + apply wp_bind, wp_try_except, wp_bind, wp_call_cases.
      * intros [] w3 _. apply wp_ret, wp_ret. destruct failed; [done|]. intros _.
        apply delivered_snoc; auto.
      * intros x w3 _. apply wp_ret, wp_ret. by destruct failed.
    + apply wp_ret. intros Hf c. rewrite (H2 Hf c). f_equal. erewrite bool_decide_ext; [reflexivity|]. rewrite !list_elem_of_omap. split.
      * intros (j & ? & ?). exists j. split; [apply elem_of_app; by left|done].
      * intros (j & [?|Hj%list_elem_of_singleton]%elem_of_app & ?); [by exists j|]. congruence.
Qed.
End rounds.

(** ** Sockets of probes and clients *)

Section sockets.
Context {W : Type} `{OrdinaryCalls W}.

Lemma load_dialect_ok : dialect_ok load_dialect.
Proof. done. Qed.

Lemma load_recv_frame_same_open s : keeps (St:=hst W) same_open (recv_frame s).
Proof. apply Wire.recv_frame_same_open. Qed.
Lemma load_recv_frame_exception s : raises (St:=hst W) is_exception (recv_frame s).
Proof. by apply Wire.recv_frame_exception. Qed.
#[local] Hint Resolve load_recv_frame_same_open load_recv_frame_exception
  send_frame_same_open send_frame_exception : py.

Lemma load_solve_pow_same_open c : keeps (St:=hst W) same_open (solve_pow c).
Proof. unfold solve_pow. keeps_tac. Qed.
Lemma load_solve_pow_exception c : raises (St:=hst W) is_exception (solve_pow c).
Proof. unfold solve_pow. raises_tac. Qed.
#[local] Hint Resolve load_solve_pow_same_open load_solve_pow_exception : py.

Lemma authenticate_same_open s : keeps (St:=hst W) same_open (authenticate s).
Proof. unfold authenticate. keeps_tac. Qed.
Lemma authenticate_exception s : raises (St:=hst W) is_exception (authenticate s).
Proof. unfold authenticate. raises_tac. Qed.
#[local] Hint Resolve authenticate_same_open authenticate_exception : py.

(** Closing the socket opened last gives the open sockets back. *)
Lemma close_top_open s l n (st : hst W) :
  opens st = s :: l →
  wp True (call (EClose s)) (λ _ st', opens st' = l)
    (λ e st', opens st' = l ∧ is_exception e) n st.
Proof.
  intros Ho. apply wp_call_cases; intros x w' Hx; rewrite opens_snoc; unfold sock_effect; cbn;
    fold (opens st); rewrite Ho; cbn; rewrite Nat.eqb_refl; [done|].
  split; [done|by eapply raises_exception].
Qed.

Lemma create_client_open a n (st : hst W) :
  wp True (create_authenticated_client a)
    (λ s st', opens st' = s :: opens st)
    (λ e st', opens st' = opens st ∧ is_exception e) n st.
Proof.
  unfold create_authenticated_client, socks5_connect. apply wp_bind.
  eapply wp_mono; [| |by apply socks5_connect_open]; [|done]. cbn beta. intros s st1 H1.
  apply wp_try_except, wp_bind.
  assert (∀ e st2, is_exception e → opens st2 = s :: opens st →
    match except [Exception_] (λ exc, call (EClose s);; rethrow exc) e with
    | Some k => wp True k (λ s st', opens st' = s :: opens st)
                  (λ e st', opens st' = opens st ∧ is_exception e) n st2
    | None => opens st2 = opens st ∧ is_exception e end) as Hfail.
  { intros e st2 He H2. rewrite except_exception by done. apply wp_bind.
    eapply wp_mono; [| |by apply close_top_open]; [|done]. cbn beta. by intros _ st3 H3. }
  eapply wp_mono; [| |apply (wp_of_keeps is_exception same_open);
    [apply authenticate_same_open|apply authenticate_exception]]; cbn beta.
  - intros _ st2 H2. apply wp_bind, wp_call.
    destruct (settimeout_ok s (Some (send_timeout a)) (world st2)) as [w3 ->].
    apply wp_ret. rewrite opens_snoc. unfold sock_effect. cbn. fold (opens st2).
    unfold same_open in H2. congruence.
  - intros e st2 [H2 He]. apply Hfail; [done|]. unfold same_open in H2. congruence.
Qed.

Lemma probe_connection_open a n (st : hst W) :
  wp True (probe_connection a) (λ _ st', opens st' = opens st)
    (λ e st', opens st' = opens st ∧ is_exception e) n st.
Proof.
  unfold probe_connection, socks5_connect. apply wp_bind, wp_try_except, wp_bind.
  eapply wp_mono; [| |by apply socks5_connect_open]; cbn beta.
  2:{ intros e st1 [H1 He]. unfold except. destruct (isinstance_any e _); [|done].
      apply wp_ret. by apply wp_ret. }
  intros s st1 H1. apply wp_ret, wp_try_finally.
  set (body := try_except _ _).
  assert (keeps same_open body ∧ raises is_exception body) as [Hk Hr].
  { unfold body. split.
    - apply keeps_try_except; [keeps_tac|]. intros e k. repeat case_match; intros [= <-]; keeps_tac.
    - apply raises_try_except; [raises_tac|]. intros e k. repeat case_match; intros [= <-]; raises_tac. }
  eapply wp_mono; [| |by apply (wp_of_keeps is_exception same_open)]; cbn beta.
  - intros r st2 H2. apply close_top_open. unfold same_open in H2. congruence.
  - intros e st2 [H2 He]. eapply wp_mono; [| |apply (close_top_open s (opens st))];
      cbn beta; [|done|unfold same_open in H2; congruence]. done.
Qed.
End sockets.

(** ** Properties *)


Definition example_args : args := {|
  a_onion := "x.onion"; socks_host := "127.0.0.1"; socks_port := 9050; target_port := 80;
  a_clients := 2; a_payload_size := 1; max_sent_mib := 1; monitor_delay := 1;
  rejection_confirmations := 1; post_rejection_hold := 1; timeout := 1; probe_timeout := 1;
  send_timeout := 1; connect_retries := 1; retry_delay := 1;
  summary_json := None; setup_only := false |}.

Definition poll_reply : bytes := [x02] ++ ZERO_MAILBOX ++ [xdd; x01; x00; x00] ++ replicate 477 x00.
Definition auth_challenge : bytes :=
  [x04] ++ ZERO_MAILBOX ++ [xdd; x01; x00; x00] ++ (x0f :: replicate 476 x00).
Definition relay : bytes := [x05; x00; x05; x00; x00; x01; x7f; x00; x00; x01; x00; x50].

(** Two clients authenticate, the baseline probe is accepted, the probe after
    the first round is closed by the server, and the first client still answers. *)
Definition quota_world : hst lw :=
  fresh [Peer (relay ++ auth_challenge ++ poll_reply ++ poll_reply) false;
         Peer (relay ++ auth_challenge ++ poll_reply) false;
         Peer (relay ++ auth_challenge) false;
         Peer relay false].

Definition example_frame : bytes := [x01] ++ ZERO_MAILBOX ++ [x01; x00; x00; x00; xa5].


(** C33: the load generator's exit status.  When [main]'s body returns a status it
    is 1 (an error was reported), 130 (interrupted), 0 only with a responsive
    existing session and, outside set-up mode, a confirmed rejection, 2 only when
    the payload limit was reached without one, and 3 only when the session did
    not answer the liveness poll. *)
Theorem loadgen_exit_status {W} `{Host W} (a : args) push_frame sink n (st : hst W) z cl s st' :
  valid_args a →
  main_body a push_frame n ([], (new_summary a sink, st)) = (Ok z, (cl, (s, st'))) →
  z = 1 ∨ z = 130 ∨
  (z = 0 ∧ liveness_ok s = true ∧ (setup_only a = true ∨ rejection_detected s = true)) ∨
  (z = 2 ∧ rejection_detected s = false ∧ max_bytes a <= payload_bytes_sent s) ∨
  (z = 3 ∧ liveness_ok s = false ∧ (setup_only a = true ∨ rejection_detected s = true)).
Proof.
  intros Hv Hrun.
  pose proof (wp_run _ _ _ _ _ _ _ _ (load_main_body_verdict a push_frame sink n st Hv) Hrun) as [_ Hz].
  destruct Hz as [?|[?|[?|[?|?]]]]; auto.
Qed.

Lemma loadgen_exit_status_witness :
  ∃ cl s st', main_body example_args example_frame 2000%nat
      ([], (new_summary example_args ZERO_MAILBOX, quota_world)) = (Ok 0, (cl, (s, st'))) ∧
  (0 = 1 ∨ 0 = 130 ∨
  (0 = 0 ∧ liveness_ok s = true ∧
     (setup_only example_args = true ∨ rejection_detected s = true)) ∨
  (0 = 2 ∧ rejection_detected s = false ∧ max_bytes example_args <= payload_bytes_sent s) ∨
  (0 = 3 ∧ liveness_ok s = false ∧
     (setup_only example_args = true ∨ rejection_detected s = true))).
Proof.
  destruct (main_body example_args example_frame 2000%nat
      ([], (new_summary example_args ZERO_MAILBOX, quota_world))) as [r [cl [s st']]] eqn:E.
  assert (r = Ok 0) as -> by (apply (f_equal fst) in E; vm_compute in E; congruence).
  exists cl, s, st'. split; [reflexivity|].
  apply (loadgen_exit_status example_args example_frame ZERO_MAILBOX 2000%nat quota_world 0
           cl s st'); [unfold valid_args; cbn; unfold MAX_PAYLOAD_SIZE; lia|exact E].
Defined.

(** One parallel round reaches every client once.  Whatever the order in which
    the thread pool's sends complete, a round that returns has sent the frame
    exactly once on each client socket and nothing on any other socket. *)
Theorem parallel_round_delivers {W} `{Completes W} clients frame n (st : hst W) :
  NoDup clients →
  match send_parallel_round clients frame n st with
  | (Ok _, st') => ∀ c, sent c (trace st') =
      sent c (trace st) ++ (if bool_decide (c ∈ clients) then frame else [])
  | _ => True
  end.
Proof.
  intros Hnd. pose proof (send_parallel_round_wp clients frame n st Hnd) as Hw. unfold wp in Hw.
  by destruct (send_parallel_round clients frame n st) as [[] ?].
Qed.

Lemma parallel_round_delivers_witness :
  match send_parallel_round [3%nat; 5%nat] [x01; x02] 10%nat (fresh []) with
  | (Ok _, st') => ∀ c, sent c (trace st') =
      sent c (trace (fresh [])) ++ (if bool_decide (c ∈ [3%nat; 5%nat]) then [x01; x02] else [])
  | _ => True
  end.
Proof.
  apply (parallel_round_delivers [3%nat; 5%nat] [x01; x02] 10%nat (fresh [])).
  refine (bool_decide_unpack _ _). vm_compute. exact I.
Defined.

(** Probes and clients do not leak sockets.  On a host whose calls behave as
    documented, a probe closes its connection on every outcome, and creating a
    client either returns its one open socket or closes it before raising. *)
Theorem probe_and_client_no_leak {W} `{OrdinaryCalls W} (a : args) n (st : hst W) :
  match probe_connection a n st with
  | (NoFuel, _) => True
  | (_, st') => opens st' = opens st
  end ∧
  match create_authenticated_client a n st with
  | (Ok s, st') => opens st' = s :: opens st
  | (Raise _, st') => opens st' = opens st
  | (NoFuel, _) => True
  end.
Proof.
  pose proof (probe_connection_open a n st) as Hp. pose proof (create_client_open a n st) as Hc.
  unfold wp in *. split.
  - destruct (probe_connection a n st) as [[] ?]; tauto.
  - destruct (create_authenticated_client a n st) as [[] ?]; tauto.
Qed.

Lemma probe_and_client_no_leak_witness :
  match probe_connection example_args 2000%nat quota_world with
  | (NoFuel, _) => True
  | (_, st') => opens st' = opens quota_world
  end ∧
  match create_authenticated_client example_args 2000%nat quota_world with
  | (Ok s, st') => opens st' = s :: opens quota_world
  | (Raise _, st') => opens st' = opens quota_world
  | (NoFuel, _) => True
  end.
Proof. apply (probe_and_client_no_leak example_args 2000%nat quota_world). Defined.

(** A client list built before a protocol error is lost: the second server sends
    a frame that is not a challenge, the [ProtocolError] passes the [except]
    clause of [establish_authenticated_clients], [main]'s own list is still
    empty, and the first client's socket is open when [main] has ended. *)
Definition bad_server_world : hst lw :=
  fresh [Peer (relay ++ auth_challenge ++ poll_reply) false; Peer (relay ++ poll_reply) false].

Example establish_protocol_error_leaks :
  let '(r, st') := main example_args 2000%nat bad_server_world in
  r = Ok 1 ∧ opens st' = [0%nat].
Proof. vm_compute. split; reflexivity. Qed.
