(* ===== verification/Paths.v ===== *)
(** * [pathlib]: pure paths on POSIX

    A [Path] is its root and its parts, as [pathlib] keeps it: empty components
    and [.] are dropped when a path is made from text, [..] is kept.  The
    operations are the ones the scripts use: [/], [.parent], [.name], [str()] and
    the directory listing part of [.glob] with one pattern. *)

From Stdlib Require Import Ascii Lia.
From stdpp Require Import base list strings sets.
From S2P Require Import Prelude PyText.

Record ppath : Type := PPath { p_root : string; p_parts : list string }.

#[global] Instance ppath_eq_dec : EqDecision ppath.
Proof. solve_decision. Defined.

(** [s.split("/")] *)
Fixpoint segments (s : string) : list string :=
  match s with
  | EmptyString => [EmptyString]
  | String c t =>
      if is_eq "/"%char c then EmptyString :: segments t
      else match segments t with
           | h :: r => String c h :: r
           | [] => []
           end
  end.

Definition kept (part : string) : bool :=
  negb (bool_decide (part = EmptyString)) && negb (bool_decide (part = ".")).

(** Two slashes at the front are a root of their own, three or more are one. *)
Definition root_of (s : string) : string :=
  if starts_with "///" s then "/"
  else if starts_with "//" s then "//"
  else if starts_with "/" s then "/" else EmptyString.

Definition Path (s : string) : ppath := PPath (root_of s) (List.filter kept (segments s)).

Definition path_str (p : ppath) : string :=
  match p_root p, p_parts p with
  | EmptyString, [] => "."
  | r, l => r +:+ join "/" l
  end.

(** [p / s] for a string, and for a path *)
Definition path_join (p q : ppath) : ppath :=
  if bool_decide (p_root q = EmptyString) then PPath (p_root p) (p_parts p ++ p_parts q) else q.
Definition path_div (p : ppath) (s : string) : ppath := path_join p (Path s).

Definition path_parent (p : ppath) : ppath := PPath (p_root p) (removelast (p_parts p)).
Definition path_name (p : ppath) : string := List.last (p_parts p) EmptyString.

Declare Scope path_scope.
Delimit Scope path_scope with path.
Bind Scope path_scope with ppath.
Infix "/" := path_div : path_scope.
Open Scope path_scope.

(** [fnmatch] for a pattern with one star, the texts before and after it. *)
Definition ends_with (suffix s : string) : bool :=
  let n := String.length s - String.length suffix in
  (String.length suffix <=? String.length s) &&
  bool_decide (String.substring n (String.length suffix) s = suffix).
Definition star_match (before after name : string) : bool :=
  match strip_prefix before name with Some rest => ends_with after rest | None => false end.

(** ** Well-formed paths *)

Definition no_slash (s : string) : bool := all_chars (λ c, negb (is_eq "/"%char c)) s.
Definition part_ok (s : string) : Prop := kept s = true ∧ no_slash s = true.
Definition path_wf (p : ppath) : Prop :=
  p_root p ∈ [EmptyString; "/"; "//"] ∧ Forall part_ok (p_parts p).

(** [q] is [p] or below it. *)
Definition under (p q : ppath) : Prop := p_root p = p_root q ∧ p_parts p `prefix_of` p_parts q.

#[global] Instance under_preorder : PreOrder under.
Proof.
  split.
  - intros p. split; [done|reflexivity].
  - intros p q r [E1 P1] [E2 P2]. split; [congruence|by etransitivity].
Qed.

Lemma segments_cons s : ∃ h r, segments s = h :: r.
Proof.
  induction s as [|c t (h & r & IH)]; cbn; [eauto|]. rewrite IH. destruct (is_eq _ c); eauto.
Qed.

Lemma segments_no_slash s : Forall (λ x, no_slash x = true) (segments s).
Proof.
  induction s as [|c t IH]; cbn; [by repeat constructor|].
  destruct (is_eq _ c) eqn:E; [by constructor|].
  destruct (segments t) as [|h r]; [done|]. inversion IH; subst. constructor; [|done].
  unfold no_slash in *. cbn [all_chars]. by rewrite E.
Qed.

Lemma segments_plain s : no_slash s = true → segments s = [s].
Proof.
  unfold no_slash. induction s as [|c t IH]; cbn; [done|].
  intros [E Ht]%andb_true_iff. apply negb_true_iff in E. by rewrite E, IH.
Qed.

Lemma segments_slash a t : no_slash a = true → segments (a +:+ "/" +:+ t) = a :: segments t.
Proof.
  unfold no_slash. induction a as [|c a IH]; [done|]. rewrite app_str_cons. cbn [all_chars].
  intros [E Ha]%andb_true_iff. apply negb_true_iff in E. cbn [segments]. by rewrite E, IH.
Qed.

Lemma segments_join l :
  l ≠ [] → Forall (λ x, no_slash x = true) l → segments (join "/" l) = l.
Proof.
  induction l as [|x l IH]; [done|]. intros _ Hf. inversion Hf; subst.
  destruct l as [|y l]; [by apply segments_plain|].
  change (join "/" (x :: y :: l)) with (x +:+ "/" +:+ join "/" (y :: l)).
  by rewrite segments_slash, IH.
Qed.

Lemma filter_kept_id l : Forall (λ x, kept x = true) l → List.filter kept l = l.
Proof. induction 1 as [|x l Hx _ IH]; [done|]. cbn. by rewrite Hx, IH. Qed.

Lemma Path_wf s : path_wf (Path s).
Proof.
  split.
  - unfold Path, root_of. cbn. repeat case_match; set_solver.
  - unfold Path. cbn. pose proof (segments_no_slash s) as Hs. rewrite Forall_forall in Hs.
    apply Forall_forall. intros x Hx. rewrite list_elem_of_In, filter_In in Hx. destruct Hx as [Hx Hk].
    split; [done|]. apply Hs. by apply list_elem_of_In.
Qed.

Lemma path_join_wf p q : path_wf p → path_wf q → path_wf (path_join p q).
Proof.
  intros [Hr Hp] [Hr' Hq]. unfold path_join. case_bool_decide; [|done]. split; [done|].
  cbn. by apply Forall_app.
Qed.
Lemma path_div_wf p s : path_wf p → path_wf (p / s).
Proof. intros Hp. apply path_join_wf; [done|apply Path_wf]. Qed.
Lemma path_parent_wf p : path_wf p → path_wf (path_parent p).
Proof.
  intros [Hr Hp]. split; [done|]. cbn. clear Hr. induction (p_parts p) as [|x l IH]; [done|].
  cbn. inversion Hp; subst. destruct l; [done|]. constructor; [done|]. by apply IH.
Qed.

Lemma root_of_slashes r c t :
  c ≠ "/"%char → r ∈ [EmptyString; "/"; "//"] → root_of (r +:+ String c t) = r.
Proof.
  intros Hc Hr. assert (Ascii.eqb "/" c = false) as E by (by apply Ascii.eqb_neq; congruence).
  rewrite list_elem_of_In in Hr. destruct Hr as [<-|[<-|[<-|[]]]]; rewrite ?app_str_cons, app_str_nil_l;
    unfold root_of, starts_with; cbn [strip_prefix]; by rewrite ?Ascii.eqb_refl, E.
Qed.

(** [Path(str(p)) == p] *)
Lemma path_roundtrip p : path_wf p → Path (path_str p) = p.
Proof.
  destruct p as [r l]. intros [Hr Hl]. cbn in *.
  assert (Forall (λ x, kept x = true) l ∧ Forall (λ x, no_slash x = true) l) as [Hk Hn]
    by (rewrite !Forall_forall in *; split; intros x Hx; by apply (Hl x Hx)).
  assert (List.filter kept (segments (join "/" l)) = l) as Hj.
  { destruct l as [|x l]; [done|]. rewrite segments_join by done. by apply filter_kept_id. }
  assert (∀ c t, join "/" l = String c t → is_eq "/"%char c = false) as Hc.
  { destruct l as [|x l]; [done|]. inversion Hk as [|? ? Hkx _]; inversion Hn as [|? ? Hnx _]; subst.
    destruct x as [|d x]; [done|]. intros c t Hct.
    assert (c = d) as -> by (destruct l; injection Hct; congruence).
    unfold no_slash in Hnx. cbn in Hnx. by apply andb_true_iff in Hnx as [?%negb_true_iff _]. }
  assert (∀ r', r' ∈ ["/"; "//"] → Path (r' +:+ join "/" l) = PPath r' l) as Hroot.
  { intros r' Hr'. unfold Path. f_equal.
    - destruct (join "/" l) as [|c t]; [set_solver|]. specialize (Hc c t eq_refl).
      apply root_of_slashes; [by intros ->|set_solver].
    - apply list_elem_of_In in Hr' as [<-|[<-|[]]]; exact Hj. }
  unfold path_str. cbn [p_root p_parts]. rewrite list_elem_of_In in Hr.
  destruct Hr as [<-|[<-|[<-|[]]]]; [|apply Hroot; set_solver..].
  destruct l as [|x l]; [done|]. unfold Path. f_equal; [|exact Hj].
  destruct (join "/" (x :: l)) as [|c t]; [done|]. specialize (Hc c t eq_refl).
  apply (root_of_slashes EmptyString); [by intros ->|set_solver].
Qed.

Lemma path_str_inj p q : path_wf p → path_wf q → path_str p = path_str q → p = q.
Proof. intros Hp Hq E. by rewrite <- (path_roundtrip p), <- (path_roundtrip q), E. Qed.

Lemma under_parent p : under (path_parent p) p.
Proof.
  split; [done|]. cbn. induction (p_parts p) as [|x l IH]; [reflexivity|].
  destruct l as [|y l]; [apply prefix_nil|]. by apply prefix_cons.
Qed.

(** Joining a relative path goes down. *)
Lemma under_div p s : root_of s = EmptyString → under p (p / s).
Proof.
  intros Hs. unfold path_div, path_join. cbn. rewrite Hs, bool_decide_true by done.
  split; [done|]. cbn. by apply prefix_app_r.
Qed.
Lemma under_div_l p q s : under p q → root_of s = EmptyString → under p (q / s).
Proof. intros Hp Hs. etransitivity; [exact Hp|by apply under_div]. Qed.

Lemma div_parts p s : root_of s = EmptyString → p_parts (p / s) = p_parts p ++ p_parts (Path s).
Proof. intros Hs. unfold path_div, path_join. cbn. by rewrite Hs, bool_decide_true. Qed.

(** The text of a path with two parts has a slash. *)
Lemma path_str_slash p : (2 <= length (p_parts p))%nat → contains "/" (path_str p) = true.
Proof.
  destruct p as [r [|x [|y l]]]; cbn; try lia. intros _.
  assert (contains "/" (join "/" (x :: y :: l)) = true) as Hj
    by (change (join "/" (x :: y :: l)) with (x +:+ "/" +:+ join "/" (y :: l));
        by apply contains_app_r, contains_app_l).
  unfold path_str. cbn [p_root p_parts]. destruct r; [exact Hj|by apply contains_app_r].
Qed.
