(* ===== verification/Argparse.v ===== *)
(** * [argparse], as the scripts use it

    The parsing algorithm of [ArgumentParser.parse_args] for parsers with flags
    ([action="store_true"]), options with one value and optional choices, the
    built-in [-h/--help], and at most one positional argument with [nargs="?"]:
    exact and abbreviated option names, [--name=value], clustered short options,
    [--], negative numbers and the errors.  A value is any text, [--] included
    where it is given as [--name=--]. *)

From Stdlib Require Import Ascii ZArith Lia.
From stdpp Require Import base list strings gmap.
From S2P Require Import Prelude PyText Host Json.

Inductive aval : Set := VFlag (b : bool) | VText (s : string).

Inductive action : Set :=
| AHelp
| AFlag (dest : string)
| AStore (dest : string) (choices : option (list string)).

(** [options] in the order they were added, [-h] and [--help] first. *)
Record parser : Type := Parser {
  options : list (string * action);
  positional : option string;
  defaults : list (string * aval) }.

Abbreviation namespace := (gmap string aval).

Inductive parsed : Type :=
| PArgs (ns : namespace)
| PHelp
| PError (message : string).

(** ** Which arguments are options *)

Inductive token : Type :=
| TArg
| TDash
| TOpt (a : option action) (name : string) (explicit : option string).

Definition is_neg_number (s : string) : bool :=
  match strip_prefix "-" s with
  | Some t =>
      let t := match partition nl t with Some (a, EmptyString) => a | _ => t end in
      let digits x := negb (bool_decide (x = EmptyString)) && all_chars is_digit x in
      digits t || match partition "." t with
                  | Some (a, b) => all_chars is_digit a && digits b
                  | None => false
                  end
  | None => false
  end.

Fixpoint drop_str (n : nat) (s : string) : string :=
  match n, s with
  | S n', String _ t => drop_str n' t
  | _, _ => s
  end.

(** [_get_option_tuples] *)
Definition option_tuples (P : parser) (arg : string) : list token :=
  if starts_with "--" arg then
    let '(prefix, explicit) :=
      match partition "=" arg with Some (a, b) => (a, Some b) | None => (arg, None) end in
    omap (λ oa, if starts_with prefix oa.1 then Some (TOpt (Some oa.2) oa.1 explicit) else None)
      (options P)
  else
    omap (λ oa,
      if bool_decide (oa.1 = take_str 2 arg)
      then Some (TOpt (Some oa.2) oa.1 (Some (drop_str 2 arg)))
      else if starts_with arg oa.1 then Some (TOpt (Some oa.2) oa.1 None) else None)
      (options P).

(** The option before an equals sign, with the text after it. *)
Definition split_option (P : parser) (arg : string) : option token :=
  match partition "=" arg with
  | Some (o, e) =>
      match dict_get o (options P) with
      | Some a => Some (TOpt (Some a) o (Some e))
      | None => None
      end
  | None => None
  end.

(** [_parse_optional]; [inl] is [error()] *)
Definition parse_optional (P : parser) (arg : string) : string + token :=
  if negb (starts_with "-" arg) then inr TArg
  else match dict_get arg (options P) with
  | Some a => inr (TOpt (Some a) arg None)
  | None =>
      if bool_decide (arg = "-") then inr TArg
      else match split_option P arg with
      | Some t => inr t
      | None =>
          match option_tuples P arg with
          | [t] => inr t
          | _ :: _ :: _ => inl ("ambiguous option: " +:+ arg)
          | [] =>
              if is_neg_number arg || contains " " arg then inr TArg
              else inr (TOpt None arg None)
          end
      end
  end.

Fixpoint tokens (P : parser) (argv : list string) : string + list (string * token) :=
  match argv with
  | [] => inr []
  | arg :: rest =>
      if bool_decide (arg = "--") then inr ((arg, TDash) :: map (λ x, (x, TArg)) rest)
      else match parse_optional P arg with
           | inl e => inl e
           | inr t => match tokens P rest with
                      | inl e => inl e
                      | inr l => inr ((arg, t) :: l)
                      end
           end
  end.

(** ** Actions *)

Definition takes_value (a : action) : bool :=
  match a with AStore _ _ => true | _ => false end.

(** The inner loop of [consume_optional]: [-xyz] is [-x -y -z] while the options take
    no value.  The result is the options before the last one, the last one, and its
    value if it was attached. *)
Fixpoint cluster (P : parser) (a : action) (name : string) (explicit : string)
  : string + (list action * action * option string) :=
  if takes_value a then inr ([], a, Some explicit)
  else match explicit with
  | EmptyString => inl ("ignored explicit argument " +:+ explicit)
  | String c rest =>
      if starts_with "--" name then inl ("ignored explicit argument " +:+ explicit)
      else
        let name' := "-" +:+ String c EmptyString in
        match dict_get name' (options P) with
        | None => inl ("ignored explicit argument " +:+ explicit)
        | Some a' =>
            match rest with
            | EmptyString => inr ([a], a', None)
            | _ => match cluster P a' name' rest with
                   | inl e => inl e
                   | inr (l, b, v) => inr (a :: l, b, v)
                   end
            end
        end
  end.

Definition resolve (P : parser) (a : action) (name : string) (explicit : option string)
  : string + (list action * action * option string) :=
  match explicit with
  | None => inr ([], a, None)
  | Some e => cluster P a name e
  end.

(** [take_action], for an option and for its value *)
Definition take_action (a : action) (v : string) (ns : namespace) : parsed :=
  match a with
  | AHelp => PHelp
  | AFlag d => PArgs (<[d := VFlag true]> ns)
  | AStore d choices =>
      match choices with
      | Some l => if bool_decide (v ∈ l) then PArgs (<[d := VText v]> ns)
                  else PError ("invalid choice: " +:+ v)
      | None => PArgs (<[d := VText v]> ns)
      end
  end.

Definition then_args (r : parsed) (k : namespace → parsed) : parsed :=
  match r with PArgs ns => k ns | _ => r end.

Fixpoint take_flags (l : list action) (ns : namespace) : parsed :=
  match l with
  | [] => PArgs ns
  | a :: l' => then_args (take_action a EmptyString ns) (take_flags l')
  end.

Definition has_option (items : list (string * token)) : bool :=
  existsb (λ x, match x.2 with TOpt _ _ _ => true | _ => false end) items.

Fixpoint skip_dashes (items : list (string * token)) : list (string * token) :=
  match items with (_, TDash) :: rest => skip_dashes rest | _ => items end.

(** What is left after the last option. *)
Definition finish (pos : option string) (items : list (string * token)) (ns : namespace)
  (extras : list string) : parsed :=
  let '(ns, items) :=
    match pos with
    | None => (ns, items)
    | Some d =>
        match skip_dashes items with
        | (v, TArg) :: rest => (<[d := VText v]> ns, skip_dashes rest)
        | rest => (ns, rest)
        end
    end in
  match extras ++ map fst items with
  | [] => PArgs ns
  | l => PError ("unrecognized arguments: " +:+ join " " l)
  end.

(** [_parse_known_args] and the check for unrecognized arguments *)
Fixpoint parse_loop (P : parser) (pos : option string) (items : list (string * token))
  (ns : namespace) (extras : list string) : parsed :=
  if has_option items then
    match items with
    | [] => finish pos items ns extras
    | (s, TOpt None _ _) :: rest => parse_loop P pos rest ns (extras ++ [s])
    | (s, TOpt (Some a) name explicit) :: rest =>
        match resolve P a name explicit with
        | inl e => PError e
        | inr (l, b, Some v) =>
            then_args (take_flags l ns) (λ ns, then_args (take_action b v ns) (λ ns,
              parse_loop P pos rest ns extras))
        | inr (l, b, None) =>
            if takes_value b then
              match rest with
              | (v, TArg) :: rest' =>
                  then_args (take_flags l ns) (λ ns, then_args (take_action b v ns) (λ ns,
                    parse_loop P pos rest' ns extras))
              | _ => PError ("argument " +:+ name +:+ ": expected one argument")
              end
            else
              then_args (take_flags l ns) (λ ns, then_args (take_action b EmptyString ns) (λ ns,
                parse_loop P pos rest ns extras))
        end
    | (s, _) :: rest =>
        match pos with
        | Some d => parse_loop P None rest (<[d := VText s]> ns) extras
        | None => parse_loop P None rest ns (extras ++ [s])
        end
    end
  else finish pos items ns extras.

Definition parse_known (P : parser) (argv : list string) : parsed :=
  match tokens P argv with
  | inl e => PError e
  | inr items => parse_loop P (positional P) items (list_to_map (defaults P)) []
  end.

(** [args.dest] *)
Definition get_flag (ns : namespace) (d : string) : bool :=
  match ns !! d with Some (VFlag b) => b | _ => false end.
Definition get_text (ns : namespace) (d : string) : string :=
  match ns !! d with Some (VText s) => s | _ => EmptyString end.

(** ** What holds of every result *)

Lemma dict_get_values {A} k (l : list (string * A)) a : dict_get k l = Some a → a ∈ map snd l.
Proof.
  induction l as [|[k' b] l IH]; [done|]. cbn [dict_get map snd]. case_bool_decide; [intros [= ->]; left|].
  intros Hl. right. by apply IH.
Qed.

(** A property of the namespace that the actions of the parser keep. *)
Section kept.
Context (P : parser) (I : namespace → Prop).
Hypothesis kept_action : ∀ a v ns ns', a ∈ map snd (options P) → I ns → take_action a v ns = PArgs ns' → I ns'.
Hypothesis kept_positional : ∀ d v ns, positional P = Some d → I ns → I (<[d := VText v]> ns).

Definition known (t : token) : Prop := ∀ a name e, t = TOpt (Some a) name e → a ∈ map snd (options P).

Lemma tuples_known arg : Forall known (option_tuples P arg).
Proof.
  assert (∀ f : string * action → option token, (∀ oa t, f oa = Some t → ∃ name e, t = TOpt (Some oa.2) name e) →
    Forall known (omap f (options P))) as Hf.
  { intros f Hf. apply Forall_forall. intros t (oa & Hin & Ht)%list_elem_of_omap. apply Hf in Ht as (name & e & ->).
    intros a ? ? [= <- <- <-]. apply list_elem_of_fmap. eauto. }
  unfold option_tuples. destruct (starts_with "--" arg).
  - destruct (match partition "=" arg with Some _ => _ | None => _ end) as [prefix e]. apply Hf.
    intros oa t. destruct (starts_with prefix oa.1); [|done]. intros [= <-]. eauto.
  - apply Hf. intros oa t. case_bool_decide; [intros [= <-]; eauto|].
    destruct (starts_with arg oa.1); [|done]. intros [= <-]. eauto.
Qed.
Lemma optional_known arg t : parse_optional P arg = inr t → known t.
Proof.
  unfold parse_optional. destruct (negb _); [by intros [= <-] ? ? ?|].
  destruct (dict_get arg (options P)) as [a|] eqn:Ea.
  { intros [= <-] ? ? ? [= <- <- <-]. by eapply dict_get_values. }
  case_bool_decide; [by intros [= <-] ? ? ?|]. unfold split_option.
  destruct (match partition "=" arg with Some _ => _ | None => _ end) as [t'|] eqn:Es.
  { intros [= <-]. destruct (partition "=" arg) as [[o e]|]; [|done]. destruct (dict_get o (options P)) as [a|] eqn:Eo; [|done].
    injection Es as <-. intros ? ? ? [= <- <- <-]. by eapply dict_get_values. }
  pose proof (tuples_known arg) as Hk. destruct (option_tuples P arg) as [|t0 [|]]; [|by intros [= <-]; apply Forall_inv in Hk|done].
  destruct (_ || _); intros [= <-]; by intros ? ? ?.
Qed.
Lemma tokens_known argv items : tokens P argv = inr items → Forall (λ x, known x.2) items.
Proof.
  revert items. induction argv as [|arg rest IH]; intros items; cbn [tokens]; [intros [= <-]; constructor|].
  case_bool_decide.
  - intros [= <-]. constructor; [by intros ? ? ?|]. apply Forall_map, Forall_forall. by intros ? _ ? ? ?.
  - destruct (parse_optional P arg) as [|t] eqn:Et; [done|]. destruct (tokens P rest) as [|l]; [done|].
    intros [= <-]. constructor; [by eapply optional_known|by apply IH].
Qed.

Lemma cluster_known a name e l b v :
  a ∈ map snd (options P) → cluster P a name e = inr (l, b, v) → Forall (.∈ map snd (options P)) l ∧ b ∈ map snd (options P).
Proof.
  revert a name l b v. induction e as [|c rest IH]; intros a name l b v Ha; cbn [cluster].
  - destruct (takes_value a); [|done]. intros [= <- <- <-]. by split.
  - destruct (takes_value a); [intros [= <- <- <-]; by split|]. destruct (starts_with "--" name); [done|].
    destruct (dict_get _ (options P)) as [a'|] eqn:Ea; [|done]. apply dict_get_values in Ea.
    destruct rest as [|c' rest]; [intros [= <- <- <-]; by repeat constructor|].
    destruct (cluster P a' _ _) as [|[[l' b'] v']] eqn:Ec; [done|]. intros [= <- <- <-].
    destruct (IH _ _ _ _ _ Ea Ec). by split; [constructor|].
Qed.
Lemma resolve_known a name e l b v :
  a ∈ map snd (options P) → resolve P a name e = inr (l, b, v) →
  Forall (.∈ map snd (options P)) l ∧ b ∈ map snd (options P).
Proof. destruct e; cbn; [apply cluster_known|]. intros Ha [= <- <- <-]. by split. Qed.

Lemma then_args_inv r k ns : then_args r k = PArgs ns → ∃ ns', r = PArgs ns' ∧ k ns' = PArgs ns.
Proof. destruct r; cbn; [eauto|done..]. Qed.
Lemma take_flags_kept l ns ns' : Forall (.∈ map snd (options P)) l → I ns → take_flags l ns = PArgs ns' → I ns'.
Proof.
  intros Hl. revert ns. induction Hl as [|a l Ha _ IH]; intros ns Hi; cbn [take_flags]; [by intros [= <-]|].
  intros (ns1 & H1 & H2)%then_args_inv. eapply IH; [|done]. by eapply kept_action.
Qed.

Lemma finish_kept pos items ns extras ns' :
  (∀ d, pos = Some d → positional P = Some d) → I ns → finish pos items ns extras = PArgs ns' → I ns'.
Proof.
  intros Hpos Hi. unfold finish.
  assert (∀ (x : namespace * list (string * token)), I x.1 →
    (let '(ns, items) := x in match extras ++ map fst items with
       | [] => PArgs ns | l => PError ("unrecognized arguments: " +:+ join " " l) end) = PArgs ns' → I ns') as Hx.
  { intros [n its] Hn. destruct (extras ++ map fst its); [|done]. by intros [= <-]. }
  apply Hx. destruct pos as [d|]; [|done]. destruct (skip_dashes items) as [|[v []] rest]; [done| |done..].
  by apply kept_positional; [apply Hpos|].
Qed.

Lemma parse_loop_kept k pos items ns extras ns' :
  (length items <= k)%nat → (∀ d, pos = Some d → positional P = Some d) → Forall (λ x, known x.2) items → I ns →
  parse_loop P pos items ns extras = PArgs ns' → I ns'.
Proof.
  revert pos items ns extras. induction k as [|k IH]; intros pos items ns extras Hk Hpos Hit Hi.
  { destruct items; [|cbn in Hk; lia]. by apply finish_kept. }
  destruct items as [|[s t] rest]; [by apply finish_kept|]. cbn [parse_loop].
  destruct (has_option _); [|by apply finish_kept]. cbn in Hk. apply Forall_cons in Hit as [Ht Hit].
  assert (∀ ns extras, I ns → match pos with
    | Some d => parse_loop P None rest (<[d := VText s]> ns) extras
    | None => parse_loop P None rest ns (extras ++ [s]) end = PArgs ns' → I ns') as Harg.
  { intros ns0 ex0 H0. destruct pos as [d|]; apply IH; try done; [lia| |lia]. by apply kept_positional; [apply Hpos|]. }
  destruct t as [| |[a|] name e]; [by apply Harg|by apply Harg| |by apply IH; [lia| | |]].
  specialize (Ht _ _ _ eq_refl). destruct (resolve P a name e) as [|[[l b] v]] eqn:Er; [done|].
  destruct (resolve_known _ _ _ _ _ _ Ht Er) as [Hl Hb].
  assert (∀ v rest', (length rest' <= k)%nat → Forall (λ x, known x.2) rest' →
    then_args (take_flags l ns) (λ ns, then_args (take_action b v ns) (λ ns, parse_loop P pos rest' ns extras)) = PArgs ns' →
    I ns') as Hgo.
  { intros v0 rest' Hr Hk' (ns1 & H1 & (ns2 & H2 & H3)%then_args_inv)%then_args_inv. eapply IH; [exact Hr| | | |exact H3]; [done..|].
    eapply kept_action; [done| |done]. by eapply take_flags_kept. }
  destruct v as [v|]; [by apply Hgo; [lia|]|]. destruct (takes_value b); [|by apply Hgo; [lia|]].
  destruct rest as [|[v []] rest']; [done| |done..]. cbn in Hk. apply Forall_cons in Hit as [_ Hit]. apply Hgo; [lia|done].
Qed.

Lemma parse_known_kept argv ns : I (list_to_map (defaults P)) → parse_known P argv = PArgs ns → I ns.
Proof.
  intros Hd. unfold parse_known. destruct (tokens P argv) as [|items] eqn:Et; [done|]. apply tokens_known in Et.
  by eapply parse_loop_kept; [reflexivity|auto| |].
Qed.
End kept.

(** ** Reading back what was written *)

Lemma tokens_cons P arg rest t l :
  arg ≠ "--" → parse_optional P arg = inr t → tokens P rest = inr l →
  tokens P (arg :: rest) = inr ((arg, t) :: l).
Proof. intros Hd Ht Hl. cbn [tokens]. by rewrite bool_decide_false, Ht, Hl. Qed.

(** [--name=value] is that option with that value, whatever the value. *)
Lemma parse_optional_value P name a v :
  dict_get name (options P) = Some a → (∀ v, dict_get (name +:+ "=" +:+ v) (options P) = None) →
  starts_with "-" name = true → contains "=" name = false → name +:+ "=" +:+ v ≠ "-" →
  parse_optional P (name +:+ "=" +:+ v) = inr (TOpt (Some a) name (Some v)).
Proof.
  intros Ha Hnone Hs He Hne. unfold parse_optional.
  assert (starts_with "-" (name +:+ "=" +:+ v) = true) as ->.
  { apply starts_with_iff in Hs as [r ->]. apply starts_with_iff. exists (r +:+ "=" +:+ v).
    by rewrite !app_str_assoc. }
  cbn [negb]. rewrite Hnone, bool_decide_false by done. unfold split_option.
  by rewrite partition_at, Ha.
Qed.

(** An argument that does not begin with a dash is not an option. *)
Lemma parse_optional_plain P arg : starts_with "-" arg = false → parse_optional P arg = inr TArg.
Proof. intros Hs. unfold parse_optional. by rewrite Hs. Qed.

Lemma cluster_value P a name e : takes_value a = true → cluster P a name e = inr ([], a, Some e).
Proof. intros Ha. destruct e; cbn; by rewrite Ha. Qed.

Lemma parse_loop_store P pos s d choices name v rest ns extras :
  match choices with Some l => v ∈ l | None => True end →
  parse_loop P pos ((s, TOpt (Some (AStore d choices)) name (Some v)) :: rest) ns extras =
  parse_loop P pos rest (<[d := VText v]> ns) extras.
Proof.
  intros Hv. cbn [parse_loop has_option existsb snd orb]. cbn [resolve]. rewrite cluster_value by done.
  cbn [take_flags then_args take_action]. destruct choices as [l|]; [|done].
  by rewrite bool_decide_true.
Qed.

Lemma parse_loop_flag P pos s d name rest ns extras :
  parse_loop P pos ((s, TOpt (Some (AFlag d)) name None) :: rest) ns extras =
  parse_loop P pos rest (<[d := VFlag true]> ns) extras.
Proof. done. Qed.

(** A list of flags and [--name=value] options that a parser knows, then perhaps [--] and
    the positional argument. *)
Inductive given : Type :=
| GFlag (name dest : string)
| GValue (name dest : string) (choices : option (list string)) (v : string).

Definition given_text (g : given) : string :=
  match g with GFlag name _ => name | GValue name _ _ v => name +:+ "=" +:+ v end.
Definition given_set (g : given) (ns : namespace) : namespace :=
  match g with
  | GFlag _ d => <[d := VFlag true]> ns
  | GValue _ d _ v => <[d := VText v]> ns
  end.
Definition given_ok (P : parser) (g : given) : Prop :=
  match g with
  | GFlag name d => dict_get name (options P) = Some (AFlag d) ∧ starts_with "-" name = true ∧ name ≠ "--"
  | GValue name d choices v =>
      dict_get name (options P) = Some (AStore d choices) ∧ starts_with "--" name = true ∧
      contains "=" name = false ∧ Forall (λ o, contains "=" o.1 = false) (options P) ∧
      match choices with Some l => v ∈ l | None => True end
  end.

Lemma dict_get_eq {A} (l : list (string * A)) s :
  Forall (λ o, contains "=" o.1 = false) l → contains "=" s = true → dict_get s l = None.
Proof.
  intros Hl Hs. induction Hl as [|[o a] l Ho _ IH]; [done|]. cbn in *.
  case_bool_decide; [congruence|done].
Qed.

Definition given_token (P : parser) (g : given) : token :=
  match g with
  | GFlag name d => TOpt (Some (AFlag d)) name None
  | GValue name d choices v => TOpt (Some (AStore d choices)) name (Some v)
  end.

Lemma given_tokens P g rest l :
  given_ok P g → tokens P rest = inr l →
  tokens P (given_text g :: rest) = inr ((given_text g, given_token P g) :: l).
Proof.
  intros Hg Hl. destruct g as [name d|name d choices v]; cbn in Hg.
  - destruct Hg as (Hd & Hs & Hne). apply tokens_cons; [done| |done].
    cbn. unfold parse_optional. by rewrite Hs, Hd.
  - destruct Hg as (Hd & Hs & He & Hopts & _).
    assert (∀ x, contains "=" (name +:+ "=" +:+ x) = true) as Hc
      by (intros x; by apply contains_app_r, contains_app_l).
    apply tokens_cons; [| |done]; cbn [given_text].
    + intros E. specialize (Hc v). rewrite E in Hc. done.
    + apply parse_optional_value; [done| | |done|].
      * intros x. by apply dict_get_eq.
      * apply starts_with_iff in Hs as [r ->]. done.
      * intros E. specialize (Hc v). rewrite E in Hc. done.
Qed.

Lemma parse_loop_given P pos gs items ns extras :
  Forall (given_ok P) gs →
  parse_loop P pos (map (λ g, (given_text g, given_token P g)) gs ++ items) ns extras =
  parse_loop P pos items (foldl (λ ns g, given_set g ns) ns gs) extras.
Proof.
  intros Hgs. revert ns. induction Hgs as [|g gs Hg _ IH]; intros ns; [done|].
  cbn [map app foldl]. rewrite <- IH. destruct g as [name d|name d choices v]; cbn [given_token given_set].
  - apply parse_loop_flag.
  - apply parse_loop_store. by destruct Hg as (_ & _ & _ & _ & ?).
Qed.

(** Options as they are written are read back, in order, and so is the positional
    argument after [--], whatever its text. *)
Lemma parse_known_given P gs :
  Forall (given_ok P) gs →
  parse_known P (map given_text gs) =
  PArgs (foldl (λ ns g, given_set g ns) (list_to_map (defaults P)) gs).
Proof.
  intros Hgs. unfold parse_known.
  assert (tokens P (map given_text gs) = inr (map (λ g, (given_text g, given_token P g)) gs)) as ->.
  { induction Hgs as [|g gs Hg _ IH]; [done|]. by apply given_tokens. }
  pose proof (parse_loop_given P (positional P) gs [] (list_to_map (defaults P)) [] Hgs) as E.
  rewrite app_nil_r in E. rewrite E. cbn. by destruct (positional P).
Qed.

Lemma parse_known_positional P d gs v :
  positional P = Some d → Forall (given_ok P) gs →
  parse_known P (map given_text gs ++ ["--"; v]) =
  PArgs (<[d := VText v]> (foldl (λ ns g, given_set g ns) (list_to_map (defaults P)) gs)).
Proof.
  intros Hd Hgs. unfold parse_known.
  assert (tokens P (map given_text gs ++ ["--"; v]) =
    inr (map (λ g, (given_text g, given_token P g)) gs ++ [("--", TDash); (v, TArg)])) as ->.
  { induction Hgs as [|g gs Hg _ IH]; [done|]. cbn [map app]. by apply given_tokens. }
  rewrite parse_loop_given by done. by rewrite Hd.
Qed.
