(* ===== verification/Utils.v ===== *)
(** * The scripts' shared functions (scripts/utils.py)

    [os.environ] is a finite map threaded beside the host's state; a child process
    gets the map as it is when the child is started.  A script ends by returning or
    with an exception, [sys.exit] included; [exit_status] is the status its parent
    sees. *)

From Stdlib Require Import Ascii ZArith QArith Lia.
From stdpp Require Import base list strings gmap.
From S2P Require Import Prelude PyText Host Paths Argparse.

Abbreviation environ := (gmap string string).

(** ** [sys.exit] and the exit status *)

Definition exit_exn (code : Z) : exn := Exn SystemExit (str_Z code).
Definition sys_exit {St A} (code : Z) : M St A := rethrow (exit_exn code).

Definition Z_of_text (s : string) : Z :=
  match strip_prefix "-" s with
  | Some t => match int_digits t with Some n => - Z.of_N n | None => 1 end
  | None => match int_digits s with Some n => Z.of_N n | None => 1 end
  end%Z.

(** The operating system keeps the low eight bits; an interrupt that nobody catches
    ends the interpreter by that signal, which a shell reports as 130. *)
Definition exit_status {A} (r : res A) : Z :=
  match r with
  | Ok _ => 0
  | Raise e =>
      if isinstance e SystemExit then Z_of_text (ex_msg e) mod 256
      else if isinstance e KeyboardInterrupt then 130 else 1
  | NoFuel => 1
  end%Z.

(** ** [os.environ[key] = value] *)

Definition NUL : string := chr 0.

Definition settable (key value : string) : res unit :=
  fail_if (contains NUL key || contains NUL value) ValueError "embedded null byte";;
  fail_if (contains "=" key) ValueError "illegal environment variable name";;
  fail_if (bool_decide (key = EmptyString)) OSError "[Errno 22] Invalid argument".

Definition environ_setitem {St} (key value : string) : M (environ * St) unit :=
  of_res (settable key value);;
  set_local (λ env, <[key := value]> env).

(** ** Text files *)

(** Universal newlines: CR LF and CR are read as LF. *)
Fixpoint universal_newlines (s : string) : string :=
  match s with
  | EmptyString => EmptyString
  | String c t =>
      if (nat_of_ascii c =? 13)%nat then
        match t with
        | String d t' =>
            if (nat_of_ascii d =? 10)%nat then nl +:+ universal_newlines t'
            else nl +:+ universal_newlines t
        | EmptyString => nl
        end
      else String c (universal_newlines t)
  end.

(** [for line in f]: the lines with their LF, the last one perhaps without. *)
Fixpoint file_lines_go (acc s : string) : list string :=
  match s with
  | EmptyString => match acc with EmptyString => [] | _ => [acc] end
  | String c t =>
      if (nat_of_ascii c =? 10)%nat then (acc +:+ nl) :: file_lines_go EmptyString t
      else file_lines_go (acc +:+ String c EmptyString) t
  end.
Definition file_lines (text : string) : list string :=
  file_lines_go EmptyString (universal_newlines text).

(** ** class Colors *)

Definition ESC : string := chr 27.
Definition GREEN : string := ESC +:+ "[92m".
Definition BLUE : string := ESC +:+ "[94m".
Definition YELLOW : string := ESC +:+ "[93m".
Definition RED : string := ESC +:+ "[91m".
Definition RESET : string := ESC +:+ "[0m".
Definition BOLD : string := ESC +:+ "[1m".

(** [line.split("=", 1)] of a line with an equals sign. *)
Definition key_value (line : string) : option (string * string) := partition "=" line.

(** [get_arg(args, position, default)], [position] not negative *)
Definition get_arg (args : list string) (position : nat) (default : string) : string :=
  if (position <? length args)%nat then nth position args EmptyString else default.

(** The two variables of the shell that [load_yocto_env] leaves alone. *)
Definition SKIPPED : list string := ["BASH_FUNC_PROMPT_COMMAND%%"; "_"].

Section utils.
Context {W : Type} `{Host W}.
(** [__file__] of utils.py *)
Context (file : path).

Abbreviation PS := (environ * hst W)%type.

Definition sys {A} (e : eff A) : M PS A := lift (call e).

Definition print_info (msg : string) : M PS unit := sys (EPrint false (BLUE +:+ BOLD +:+ msg +:+ RESET)).
Definition print_success (msg : string) : M PS unit := sys (EPrint false (GREEN +:+ BOLD +:+ msg +:+ RESET)).
Definition print_warning (msg : string) : M PS unit := sys (EPrint false (YELLOW +:+ BOLD +:+ msg +:+ RESET)).
Definition print_error (msg : string) : M PS unit :=
  sys (EPrint true (RED +:+ BOLD +:+ "Error: " +:+ msg +:+ RESET)).

(** One line of the [.env] file. *)
Definition dotenv_line (line : string) : M PS unit :=
  let line := strip line in
  if negb (bool_decide (line = EmptyString)) && negb (starts_with "#" line) && contains "=" line then
    match key_value line with
    | Some (key, value) =>
        env ← get_local;
        if bool_decide (env !! strip key = None)
        then environ_setitem (strip key) (strip value)
        else mret tt
    | None => mret tt
    end
  else mret tt.

Definition load_dotenv (project_root : ppath) : M PS unit :=
  let env_path := path_str (project_root / ".env") in
  there ← sys (EExists env_path);
  if (there : bool) then
    f ← sys (EOpenR env_path);
    try_finally
      (r ← sys (EFileText f);
       for_unit (file_lines (fst r)) dotenv_line;;
       match snd r with Some e => rethrow e | None => mret tt end)
      (sys (ECloseFile f))
  else mret tt.

Definition change_to_project_root : M PS ppath :=
  here ← sys (EResolve file);
  let script_dir := path_parent (Path here) in
  let project_root := path_parent script_dir in
  try_except
    (sys (EChdir (path_str project_root));;
     load_dotenv project_root;;
     mret project_root)
    (except [OSError] (λ _,
       print_error "Could not change to project root directory.";; sys_exit 1)).

Definition subprocess_run (cwd : option path) (argv : list string) : M PS completed :=
  env ← get_local; sys (ESubprocess cwd env argv).

Definition run_command (cmd : list string) (cwd : option path) (exit_on_fail : bool)
  (fail_msg : string) : M PS completed :=
  try_except
    (result ← subprocess_run cwd cmd;
     if exit_on_fail && negb (returncode result =? 0)%Z then
       print_error fail_msg;; sys_exit (returncode result)
     else mret result)
    (except [KeyboardInterrupt] (λ _,
       print_error (nl +:+ "Process stopped by user.");; sys_exit 130)).

(** [list(p.glob("before*after"))] *)
Definition glob (p : ppath) (before after : string) : M PS (list ppath) :=
  names ← sys (EScandir (path_str p));
  mret (map (λ x, PPath (p_root p) (p_parts p ++ [x])) (List.filter (star_match before after) names)).

(** One line of what [env] printed. *)
Definition env_line (line : string) : M PS unit :=
  match key_value line with
  | Some (key, value) =>
      if bool_decide (key ∈ SKIPPED) then mret tt else environ_setitem key value
  | None => mret tt
  end.

(** [os.environ.get(key, default)] *)
Definition environ_get (key default : string) : M PS string :=
  env ← get_local; mret (match env !! key with Some v => v | None => default end).

Definition load_yocto_env : M PS bool :=
  here ← sys (EResolve file);
  let default_sdk_path :=
    path_parent (path_parent (path_parent (Path here))) / "yocto-dev" / "sdk" in
  sdk_dir ← environ_get "YOCTO_SDK_DIR" (path_str default_sdk_path);
  let sdk_path := Path sdk_dir in
  there ← sys (EExists (path_str sdk_path));
  if negb there then
    print_error ("SDK directory not found: " +:+ sdk_dir);;
    print_info "Please install the SDK or define YOCTO_SDK_DIR in your .env file.";;
    mret false
  else
    env_scripts ← glob sdk_path "environment-setup-" EmptyString;
    match env_scripts with
    | [] =>
        print_error ("No environment-setup script found in " +:+ sdk_dir);; mret false
    | env_script :: _ =>
        print_info ("Auto-loading Yocto SDK environment from: " +:+ path_name env_script +:+ "...");;
        let command := "source " +:+ path_str env_script +:+ " && env" in
        proc ← subprocess_run None ["bash"; "-c"; command];
        if negb (returncode proc =? 0)%Z then
          print_error "Failed to load Yocto SDK environment.";; mret false
        else
          for_unit (splitlines (stdout proc)) env_line;;
          mret true
    end.

(** The guard at the start of the scripts that build:
    [if "OECORE_NATIVE_SYSROOT" not in os.environ: if not load_yocto_env(): sys.exit(1)] *)
Definition require_yocto_env : M PS unit :=
  env ← get_local;
  if bool_decide (env !! "OECORE_NATIVE_SYSROOT" = None) then
    ok ← load_yocto_env;
    if negb ok then sys_exit 1 else mret tt
  else mret tt.

(** [parser.parse_args()] *)
Definition parse_args (P : parser) (argv : list string) : M PS namespace :=
  match parse_known P (tail argv) with
  | PArgs ns => mret ns
  | PHelp => sys (EUsage true EmptyString);; sys_exit 0
  | PError msg => sys (EUsage false msg);; sys_exit 2
  end.

(** [max(files, key=os.path.getmtime)] of a list that is not empty: the keys are
    computed in order, and the first of the greatest wins. *)
Fixpoint newest_from (best : ppath) (key : Q) (files : list ppath) : M PS ppath :=
  match files with
  | [] => mret best
  | f :: rest =>
      k ← sys (EGetmtime (path_str f));
      if Qlt_bool key k then newest_from f k rest else newest_from best key rest
  end.
Definition newest (first : ppath) (rest : list ppath) : M PS ppath :=
  k ← sys (EGetmtime (path_str first));
  newest_from first k rest.

End utils.
