(* ===== verification/ScriptLogic.v ===== *)
(** * Reasoning about scripts by the calls they make

    [tw m env Q]: from the environment [env], on any host, the calls [l] that [m]
    makes, the environment it leaves and its outcome satisfy [Q].  The rules follow
    the structure of a script; a call may have any outcome the host can give. *)

From Stdlib Require Import Ascii ZArith QArith Lia.
From stdpp Require Import base list strings gmap.
From S2P Require Import Prelude PyText Host Paths Argparse Utils.

Definition outcome {A} (o : A + exn) : res A :=
  match o with inl a => Ok a | inr e => Raise e end.

Lemma isinstance_any1 e c : isinstance_any e [c] = isinstance e c.
Proof. unfold isinstance_any. cbn [existsb]. apply orb_false_r. Qed.

Section tw.
Context {W : Type} `{Host W}.
Abbreviation PS := (environ * hst W)%type.

Definition tw {A} (m : M PS A) (env : environ) (Q : list event → environ → res A → Prop) : Prop :=
  ∀ n st r env' st', m n (env, st) = (r, (env', st')) → r ≠ NoFuel →
    ∃ l, trace st' = trace st ++ l ∧ Q l env' r.

Lemma tw_mono {A} (m : M PS A) env (Q Q' : list event → environ → res A → Prop) :
  (∀ l env' r, r ≠ NoFuel → Q l env' r → Q' l env' r) → tw m env Q → tw m env Q'.
Proof.
  intros HQ Hm n st r env' st' E Hr. destruct (Hm n st r env' st' E Hr) as (l & Hl & HQl). eauto.
Qed.

Lemma tw_and {A} (m : M PS A) env (Q Q' : list event → environ → res A → Prop) :
  tw m env Q → tw m env Q' → tw m env (λ l env' r, Q l env' r ∧ Q' l env' r).
Proof.
  intros H1 H2 n st r env' st' E Hr. destruct (H1 _ _ _ _ _ E Hr) as (l & Hl & HQ).
  destruct (H2 _ _ _ _ _ E Hr) as (l' & Hl' & HQ'). exists l. split; [done|]. split; [done|].
  rewrite Hl in Hl'. apply app_inv_head in Hl'. by subst.
Qed.

Lemma tw_ret {A} (a : A) env (Q : list event → environ → res A → Prop) :
  Q [] env (Ok a) → tw (mret a) env Q.
Proof. intros HQ n st r env' st' [= <- <- <-] _. exists []. by rewrite app_nil_r. Qed.

Lemma tw_rethrow {A} e env (Q : list event → environ → res A → Prop) :
  Q [] env (Raise e) → tw (rethrow e) env Q.
Proof. intros HQ n st r env' st' [= <- <- <-] _. exists []. by rewrite app_nil_r. Qed.

Lemma tw_exit {A} z env (Q : list event → environ → res A → Prop) :
  Q [] env (Raise (exit_exn z)) → tw (sys_exit z) env Q.
Proof. apply tw_rethrow. Qed.

Lemma tw_of_res {A} (a : res A) env (Q : list event → environ → res A → Prop) :
  Q [] env a → tw (of_res a) env Q.
Proof. intros HQ n st r env' st' [= <- <- <-] _. exists []. by rewrite app_nil_r. Qed.

Lemma tw_get env (Q : list event → environ → res environ → Prop) :
  Q [] env (Ok env) → tw get_local env Q.
Proof. intros HQ n st r env' st' [= <- <- <-] _. exists []. by rewrite app_nil_r. Qed.

Lemma tw_set f env (Q : list event → environ → res unit → Prop) :
  Q [] (f env) (Ok tt) → tw (set_local f) env Q.
Proof. intros HQ n st r env' st' [= <- <- <-] _. exists []. by rewrite app_nil_r. Qed.

Lemma tw_sys {A} (e : eff A) env (Q : list event → environ → res A → Prop) :
  (∀ o w w', handle e w = (o, w') → Q [Ev e o] env (outcome o)) → tw (sys e) env Q.
Proof.
  intros HQ n st r env' st' E _. unfold sys, lift, call in E. cbn in E.
  destruct (handle e (world st)) as [o w'] eqn:Eh. injection E as <- <- <-.
  exists [Ev e o]. split; [done|]. by eapply HQ.
Qed.

(** What follows a part that made the calls [l]. *)
Definition and_then {A B} (k : A → M PS B) (Q : list event → environ → res B → Prop)
  (l : list event) (env : environ) (r : res A) : Prop :=
  match r with
  | Ok a => tw (k a) env (λ l' env' r', Q (l ++ l') env' r')
  | Raise e => Q l env (Raise e)
  | NoFuel => False
  end.

Lemma tw_bind {A B} (m : M PS A) (k : A → M PS B) env (Q : list event → environ → res B → Prop) :
  tw m env (and_then k Q) → tw (m ≫= k) env Q.
Proof.
  intros Hm n st r env' st' E Hr. unfold mbind, M_mbind, m_bind in E.
  destruct (m n (env, st)) as [[a|e|] [env1 st1]] eqn:E1; [| |by injection E as <- _ _].
  - destruct (Hm n st _ _ _ E1 ltac:(done)) as (l & Hl & Hk).
    destruct (Hk n st1 r env' st' E Hr) as (l' & Hl' & HQ).
    exists (l ++ l'). split; [|done]. by rewrite Hl', Hl, app_assoc.
  - injection E as <- <- <-. by apply (Hm n st _ _ _ E1).
Qed.

Lemma tw_m_bind {A B} (m : M PS A) (k : A → M PS B) env (Q : list event → environ → res B → Prop) :
  tw m env (and_then k Q) → tw (m_bind k m) env Q.
Proof. apply tw_bind. Qed.

Lemma tw_try_except {A} (m : M PS A) cs k env (Q : list event → environ → res A → Prop) :
  tw m env (λ l env' r,
    match r with
    | Raise e => if isinstance_any e cs then tw (k e) env' (λ l' env'' r', Q (l ++ l') env'' r')
                 else Q l env' r
    | _ => Q l env' r
    end) → tw (try_except m (except cs k)) env Q.
Proof.
  intros Hm n st r env' st' E Hr. unfold try_except, except in E.
  destruct (m n (env, st)) as [[a|e|] [env1 st1]] eqn:E1; [| |by injection E as <- _ _].
  - injection E as <- <- <-. by apply (Hm n st _ _ _ E1).
  - destruct (Hm n st _ _ _ E1 ltac:(done)) as (l & Hl & Hk). cbn beta iota in Hk.
    destruct (isinstance_any e cs); [|injection E as <- <- <-; eauto].
    destruct (Hk n st1 r env' st' E Hr) as (l' & Hl' & HQ).
    exists (l ++ l'). split; [|done]. by rewrite Hl', Hl, app_assoc.
Qed.

Lemma tw_try_finally {A} (m : M PS A) fin env (Q : list event → environ → res A → Prop) :
  tw m env (λ l env' r, tw fin env' (λ l' env'' r',
    Q (l ++ l') env'' (match r' with Ok _ => r | Raise e => Raise e | NoFuel => NoFuel end))) →
  tw (try_finally m fin) env Q.
Proof.
  intros Hm n st r env' st' E Hr. unfold try_finally in E.
  destruct (m n (env, st)) as [r1 [env1 st1]] eqn:E1.
  destruct (fin n (env1, st1)) as [r2 [env2 st2]] eqn:E2.
  assert (r1 ≠ NoFuel) as Hr1 by (destruct r1; [done|done|by injection E as <- _ _]).
  assert (r2 ≠ NoFuel) as Hr2 by (destruct r1, r2; naive_solver).
  destruct (Hm n st _ _ _ E1 Hr1) as (l & Hl & Hf).
  destruct (Hf n st1 _ _ _ E2 Hr2) as (l' & Hl' & HQ).
  exists (l ++ l'). split.
  - assert (st' = st2) as -> by (destruct r1, r2; naive_solver). by rewrite Hl', Hl, app_assoc.
  - assert (r = match r2 with Ok _ => r1 | Raise e => Raise e | NoFuel => NoFuel end ∧ env' = env2)
      as [-> ->] by (destruct r1, r2; naive_solver). done.
Qed.

Lemma tw_for_unit {X} (l : list X) (body : X → M PS unit) (I : list X → list event → environ → Prop)
  (E : list event → environ → exn → Prop) env :
  (∀ pre x post tr env, l = pre ++ x :: post → I pre tr env →
     tw (body x) env (λ tr' env' r,
       match r with
       | Ok _ => I (pre ++ [x]) (tr ++ tr') env'
       | Raise e => E (tr ++ tr') env' e
       | NoFuel => False
       end)) →
  I [] [] env →
  tw (for_unit l body) env (λ tr env' r,
    match r with Ok _ => I l tr env' | Raise e => E tr env' e | NoFuel => False end).
Proof.
  intros Hb.
  enough (∀ post pre tr env, l = pre ++ post → I pre tr env →
    tw (for_unit post body) env (λ tr' env' r,
      match r with Ok _ => I l (tr ++ tr') env' | Raise e => E (tr ++ tr') env' e
                 | NoFuel => False end)) as HH.
  { intros HI. eapply tw_mono; [|apply (HH l [] [] env); done]. done. }
  clear env. induction post as [|x post IH]; intros pre tr env -> HI; cbn [for_unit].
  - apply tw_ret. by rewrite !app_nil_r in *.
  - apply tw_m_bind. eapply tw_mono; [|by eapply Hb].
    intros tr' env' [[]|e|] _; cbn; [|done|done]. intros HI'.
    eapply tw_mono; [|apply (IH (pre ++ [x])); [by rewrite <- app_assoc|exact HI']].
    intros l' env'' [] _; rewrite ?app_assoc; done.
Qed.

(** The calls and the outcome of a script that ends. *)
Lemma tw_post {A} (m : M PS A) env (st : hst W) (Q : list event → environ → res A → Prop) :
  total m → tw m env Q →
  ∃ r env' st' l, returns m (env, st) r (env', st') ∧ trace st' = trace st ++ l ∧ Q l env' r.
Proof.
  intros Ht Hm. destruct (Ht (env, st)) as (r & [env' st'] & Hr & k & Hk).
  destruct (Hm k st r env' st') as (l & Hl & HQ); [by apply Hk|done|].
  exists r, env', st', l. split; [|done]. split; [done|by exists k].
Qed.

(** Relations between states, as facts on the calls. *)
Lemma tw_extends {A} (P : event → Prop) (m : M PS A) env :
  keeps (host_only (extends P)) m → tw m env (λ l _ _, Forall P l).
Proof.
  intros Hk n st r env' st' E _. specialize (Hk n (env, st)). rewrite E in Hk.
  destruct Hk as (l & Hl & HP). cbn in *. eauto.
Qed.

Lemma tw_same_env {A} (m : M PS A) env :
  keeps (frame_local (extends (λ _, True))) m → tw m env (λ _ env' _, env' = env).
Proof.
  intros Hk n st r env' st' E _. specialize (Hk n (env, st)). rewrite E in Hk.
  destruct Hk as [He (l & Hl & _)]. cbn in *. eauto.
Qed.

End tw.

(** One step of a script. *)
Ltac tw_rule :=
  lazymatch goal with
  | |- tw (mbind _ _) _ _ => apply tw_bind
  | |- tw (m_bind _ _) _ _ => apply tw_m_bind
  | |- tw (mret _) _ _ => apply tw_ret
  | |- tw (m_ret _) _ _ => apply tw_ret
  | |- tw (sys_exit _) _ _ => apply tw_exit
  | |- tw (rethrow _) _ _ => apply tw_rethrow
  | |- tw get_local _ _ => apply tw_get
  | |- tw (set_local _) _ _ => apply tw_set
  | |- tw (of_res _) _ _ => apply tw_of_res
  | |- tw (try_except _ (except _ _)) _ _ => apply tw_try_except
  | |- tw (try_finally _ _) _ _ => apply tw_try_finally
  | |- tw (sys _) _ _ =>
      let a := fresh "a" in let e := fresh "e" in let w := fresh "w" in
      let w' := fresh "w'" in let Hh := fresh "Hh" in
      apply tw_sys; intros [a|e] w w' Hh; cbn [outcome]
  | |- and_then _ _ _ _ (Ok _) => unfold and_then
  | |- and_then _ _ _ _ (Raise _) => unfold and_then
  end.
Ltac tw_step := tw_rule; cbn beta iota.
(** Until a function is called that has a rule of its own. *)
Ltac tw_go := repeat tw_step.
