(* ===== verification/UtilsSpec.v ===== *)
(** * What the shared functions guarantee

    Exit statuses; the [.env] file as a map and its merge into the environment; the
    environment of the SDK; the contract of [run_command]; the order of
    [max(files, key=os.path.getmtime)]. *)

From Stdlib Require Import Ascii ZArith QArith Lia.
From stdpp Require Import base list strings gmap.
From S2P Require Import Prelude PyText Host Paths Argparse Utils ScriptLogic Loopback.

(** ** Exit statuses *)

Lemma all_chars_head p c s : all_chars p (String c s) = true → p c = true.
Proof. cbn. by intros [? _]%andb_true_iff. Qed.

Lemma Z_of_text_str z : Z_of_text (str_Z z) = z.
Proof.
  assert (∀ n, strip_prefix "-" (str_N n) = None) as Hd.
  { intros n. destruct (strip_prefix "-" (str_N n)) as [r|] eqn:E; [|done].
    apply strip_prefix_Some in E. pose proof (all_digits_str_N n) as Ha. rewrite E in Ha. done. }
  unfold Z_of_text, str_Z. destruct z as [|p|p].
  - done.
  - rewrite Hd, int_digits_str_N. done.
  - rewrite strip_prefix_app, int_digits_str_N. done.
Qed.

Lemma exit_status_exit {A} z : exit_status (Raise (exit_exn z) : res A) = (z mod 256)%Z.
Proof. unfold exit_status, exit_exn. cbn [ex_msg]. by rewrite Z_of_text_str. Qed.

(** What [subprocess] reports: an exit status, or the negated number of the signal. *)
Definition returncode_ok (z : Z) : Prop := (-256 < z < 256)%Z.

Lemma exit_status_fails {A} z :
  returncode_ok z → z ≠ 0%Z → exit_status (Raise (exit_exn z) : res A) ≠ 0%Z.
Proof.
  intros [Hlo Hhi] Hz. rewrite exit_status_exit. intros Hm.
  apply Z.mod_divide in Hm as [k Hk]; lia.
Qed.

(** A script never turns a failure into success: when it ends by the exit with the
    status [z] of a command, [z] an exit status or a negated signal number and not 0, the
    status its parent sees is not 0; it is [z] itself for an exit status, and 256 less the
    signal's number for a signal. *)
Theorem failure_status {St} z n (s : St) :
  returncode_ok z → z ≠ 0%Z →
  let r : res unit := (sys_exit z n s).1 in
  exit_status r ≠ 0%Z ∧ exit_status r = (if (0 <? z)%Z then z else 256 + z)%Z.
Proof.
  intros Hz Hnz r. change r with (Raise (exit_exn z) : res unit). split; [by apply exit_status_fails|]. rewrite exit_status_exit.
  destruct Hz as [Hlo Hhi]. destruct (Z.ltb_spec 0 z).
  - apply Z.mod_small. lia.
  - rewrite <- (Z_mod_plus_full z 1 256). rewrite Z.mod_small; lia.
Qed.

Lemma failure_status_witness :
  let r : res unit := (sys_exit (-11) 0%nat tt).1 in
  exit_status r ≠ 0%Z ∧ exit_status r = (if (0 <? -11)%Z then -11 else 256 + -11)%Z.
Proof. apply (failure_status (-11) 0%nat tt); [split; lia|lia]. Defined.

(** ** The environment file *)

Definition dotenv_pair (line : string) : option (string * string) :=
  let line := strip line in
  if negb (bool_decide (line = EmptyString)) && negb (starts_with "#" line) && contains "=" line then
    match key_value line with Some (key, value) => Some (strip key, strip value) | None => None end
  else None.

(** The assignments of a file; of two for one name, the first. *)
Definition dotenv_vars (lines : list string) : environ := list_to_map (omap dotenv_pair lines).

Lemma dotenv_vars_snoc pre line :
  dotenv_vars (pre ++ [line]) =
  dotenv_vars pre ∪ match dotenv_pair line with Some (k, v) => {[k := v]} | None => ∅ end.
Proof.
  unfold dotenv_vars. rewrite omap_app. cbn. destruct (dotenv_pair line) as [[k v]|];
    by rewrite list_to_map_app.
Qed.

Lemma union_singleton_bound (env : environ) k v w : env !! k = Some w → env ∪ {[k := v]} = env.
Proof.
  intros Hk. apply map_eq. intros j. rewrite lookup_union.
  destruct (decide (j = k)) as [->|Hj].
  - rewrite Hk, lookup_singleton_eq. done.
  - rewrite lookup_singleton_ne by done. by destruct (env !! j).
Qed.
Lemma union_singleton_fresh (env : environ) k v : env !! k = None → env ∪ {[k := v]} = <[k := v]> env.
Proof.
  intros Hk. rewrite insert_union_singleton_l. apply map_union_comm.
  by apply map_disjoint_singleton_r.
Qed.

Section utils.
Context {W : Type} `{Host W}.
Abbreviation PS := (environ * hst W)%type.

Lemma tw_setitem k v env (Q : list event → environ → res unit → Prop) :
  match settable k v with
  | Ok _ => Q [] (<[k := v]> env) (Ok tt)
  | Raise e => Q [] env (Raise e)
  | NoFuel => True
  end → tw (W:=W) (environ_setitem k v) env Q.
Proof.
  intros HQ. unfold environ_setitem. apply tw_bind, tw_of_res.
  destruct (settable k v) as [[]|e|] eqn:E; cbn.
  - by apply tw_set.
  - done.
  - unfold settable, fail_if in E. by repeat case_match.
Qed.

(** One line either adds its assignment below the environment, or raises. *)
Lemma tw_dotenv_line line env :
  tw (W:=W) (dotenv_line line) env (λ l env' r, l = [] ∧
    match r with
    | Ok _ => env' = env ∪ match dotenv_pair line with Some (k, v) => {[k := v]} | None => ∅ end
    | Raise e => env' = env ∧ ∃ k v, dotenv_pair line = Some (k, v) ∧ env !! k = None ∧
                 settable k v = Raise e
    | NoFuel => False
    end).
Proof.
  unfold dotenv_line, dotenv_pair. cbv zeta.
  destruct (_ && _ && _); [|apply tw_ret; split; [done|by rewrite map_union_empty]].
  destruct (key_value _) as [[k v]|]; [|apply tw_ret; split; [done|by rewrite map_union_empty]].
  apply tw_bind, tw_get. cbn. case_bool_decide as Hk.
  - apply tw_setitem. destruct (settable (strip k) (strip v)) as [u|e|] eqn:E; [| |done].
    + split; [done|]. by rewrite union_singleton_fresh.
    + split; [done|]. split; [done|]. eauto.
  - apply tw_ret. split; [done|]. destruct (env !! strip k) as [w|] eqn:Ek; [|done].
    by erewrite union_singleton_bound.
Qed.

Lemma tw_dotenv_lines lines env :
  tw (W:=W) (for_unit lines dotenv_line) env (λ l env' r, l = [] ∧
    match r with
    | Ok _ => env' = env ∪ dotenv_vars lines
    | Raise e => ∃ pre line post k v, lines = pre ++ line :: post ∧ env' = env ∪ dotenv_vars pre ∧
        dotenv_pair line = Some (k, v) ∧ env' !! k = None ∧ settable k v = Raise e
    | NoFuel => False
    end).
Proof.
  eapply tw_mono; [|apply (tw_for_unit lines dotenv_line
    (λ pre tr env', tr = [] ∧ env' = env ∪ dotenv_vars pre)
    (λ tr env' e, tr = [] ∧ ∃ pre line post k v, lines = pre ++ line :: post ∧
       env' = env ∪ dotenv_vars pre ∧ dotenv_pair line = Some (k, v) ∧ env' !! k = None ∧
       settable k v = Raise e))].
  - intros l env' [[]|e|] _; cbn; [done| |done]. intros [-> ?]. done.
  - intros pre x post tr env1 Hl [-> ->]. eapply tw_mono; [|apply tw_dotenv_line].
    intros l env' [[]|e|] _; [| |by intros [_ []]].
    + intros [-> ->]. split; [done|]. by rewrite dotenv_vars_snoc, (assoc_L (∪)).
    + intros [-> (-> & k & v & Hp & Hk & Hs)]. split; [done|]. exists pre, x, post, k, v. done.
  - split; [done|]. unfold dotenv_vars. cbn. by rewrite map_union_empty.
Qed.

(** The calls of [load_dotenv] when it reads the whole file. *)
Definition dotenv_calls (root : ppath) (h : nat) (text : string) : list event :=
  let p := path_str (root / ".env") in
  [Ev (EExists p) (inl true); Ev (EOpenR p) (inl h); Ev (EFileText h) (inl (text, None));
   Ev (ECloseFile h) (inl tt)].

(** The texts read, and the processes run with what came of them. *)
Definition text_of (ev : event) : list (string * option exn) :=
  match ev_eff ev in eff A return A + exn → list (string * option exn) with
  | EFileText _ => λ o, match o with inl t => [t] | inr _ => [] end
  | _ => λ _, []
  end (ev_out ev).

Definition raised (ev : event) : Prop := ∃ e, ev_out ev = inr e.
(** A call raised, or the reading was cut short. *)
Definition call_failed (l : list event) : Prop :=
  Exists raised l ∨ ∃ h text e, Ev (EFileText h) (inl (text, Some e)) ∈ l.

Definition dotenv_result (root : ppath) (env : environ) (l : list event) (env' : environ)
  (r : res unit) : Prop :=
  match r with
  | Ok _ =>
      (l = [Ev (EExists (path_str (root / ".env"))) (inl false)] ∧ env' = env) ∨
      (∃ h text, l = dotenv_calls root h text ∧ env' = env ∪ dotenv_vars (file_lines text))
  | Raise e =>
      env ⊆ env' ∧
      (call_failed l ∨ ∃ h text pre line post k v, l = dotenv_calls root h text ∧
         file_lines text = pre ++ line :: post ∧ env' = env ∪ dotenv_vars pre ∧
         dotenv_pair line = Some (k, v) ∧ env' !! k = None ∧ settable k v = Raise e)
  | NoFuel => False
  end.

Lemma tw_load_dotenv root env :
  tw (W:=W) (load_dotenv root) env (dotenv_result root env).
Proof.
  unfold load_dotenv. cbv zeta. tw_step. tw_step; tw_step.
  2: { split; [done|]. left. left. constructor. by eexists. }
  destruct a; [|apply tw_ret; by left].
  tw_step. tw_step; tw_step.
  2: { split; [done|]. left. left. right. constructor. by eexists. }
  rename a into h. tw_step. tw_step. tw_step; tw_step.
  2: { tw_step; (split; [done|]); left; left; do 2 right; left; by eexists. }
  destruct a as [text cut]. tw_step. eapply tw_mono; [|apply tw_dotenv_lines].
  intros l env' [[]|e|] _; [| |by intros [_ []]].
  - intros [-> ->]. tw_step. cbn [fst snd]. destruct cut as [e|]; tw_step; tw_step; cbn.
    + split; [apply map_union_subseteq_l|]. left. right. eexists h, text, e. set_solver.
    + split; [apply map_union_subseteq_l|]. left. right. eexists h, text, e. set_solver.
    + right. exists h, text. by destruct a.
    + split; [apply map_union_subseteq_l|]. left. left. do 3 right. left. by eexists.
  - intros [-> (pre & line & post & k & v & Hl & -> & Hp & Hk & Hs)].
    cbn [fst] in Hl. tw_step. tw_step; cbn; (split; [apply map_union_subseteq_l|]).
    + destruct cut as [e'|]; [left; right; exists h, text, e'; set_solver|].
      right. exists h, text, pre, line, post, k, v. by destruct a.
    + left. left. do 3 right. left. by eexists.
Qed.

(** ** Changing to the project root *)

Definition error_line (msg : string) : string := RED +:+ BOLD +:+ "Error: " +:+ msg +:+ RESET.

(** An error was printed and the script left with [z]; or the printing raised. *)
Definition reports {A} (msg : string) (z : Z) (l : list event) (r : res A) : Prop :=
  ∃ o, l = [Ev (EPrint true (error_line msg)) o] ∧
       r = Raise (match o with inl _ => exit_exn z | inr e => e end).

Lemma tw_reports {A} msg z env :
  tw (W:=W) (print_error msg;; sys_exit z : M PS A) env
    (λ l env' r, env' = env ∧ reports msg z l r).
Proof.
  unfold print_error. tw_step. tw_step; tw_step; [tw_step|]; (split; [done|]); eexists; by split.
Qed.

Definition root_from (here : path) : ppath := path_parent (path_parent (Path here)).

Definition CHDIR_FAILED : string := "Could not change to project root directory.".

Definition root_result (file : path) (env : environ) (l : list event) (env' : environ)
  (r : res ppath) : Prop :=
  env ⊆ env' ∧
  match r with
  | Ok root => ∃ here l', root = root_from here ∧
      l = Ev (EResolve file) (inl here) :: Ev (EChdir (path_str root)) (inl tt) :: l' ∧
      dotenv_result root env l' env' (Ok tt)
  | Raise e =>
      l = [Ev (EResolve file) (inr e)] ∨
      (isinstance e OSError = false ∧ ∃ here l', l = Ev (EResolve file) (inl here) :: l' ∧
         (l' = [Ev (EChdir (path_str (root_from here))) (inr e)] ∨
          ∃ l'', l' = Ev (EChdir (path_str (root_from here))) (inl tt) :: l'' ∧
            dotenv_result (root_from here) env l'' env' (Raise e))) ∨
      (∃ l1 l2, l = l1 ++ l2 ∧ reports CHDIR_FAILED 1 l2 r)
  | NoFuel => False
  end.

Lemma dotenv_result_grows root env l env' r : dotenv_result root env l env' r → env ⊆ env'.
Proof.
  destruct r as [[]|e|]; cbn; [|naive_solver|done].
  intros [[_ ->]|(h & text & _ & ->)]; [done|apply map_union_subseteq_l].
Qed.

Lemma tw_change_to_project_root file env :
  tw (W:=W) (change_to_project_root file) env (root_result file env).
Proof.
  unfold change_to_project_root, root_result. cbv zeta. tw_step. tw_step; tw_step; [|auto].
  rename a into here. fold (root_from here). tw_step. tw_step. tw_step; tw_step.
  2: { rewrite isinstance_any1; destruct (isinstance e OSError) eqn:Ee.
       - eapply tw_mono; [|apply tw_reports]. intros l env' [?|x|] _ [-> Hr];
           [by destruct Hr as (? & _ & ?)| |by destruct Hr as (? & _ & ?)].
         split; [done|]. do 2 right. eexists [_; _], l. done.
       - split; [done|]. right. left. split; [done|].
         eexists _, _. split; [done|]. by left. }
  tw_step. eapply tw_mono; [|apply tw_load_dotenv].
  intros l env' [[]|e|] _ Hd; [| |done]; pose proof (dotenv_result_grows _ _ _ _ _ Hd) as Hsub; tw_step.
  - tw_step. split; [done|]. exists here, l. destruct a. rewrite app_nil_r. by split_and!.
  - rewrite isinstance_any1; destruct (isinstance e OSError) eqn:Ee.
    + eapply tw_mono; [|apply tw_reports]. intros l' env'' [?|x|] _ [-> Hr];
        [by destruct Hr as (? & _ & ?)| |by destruct Hr as (? & _ & ?)].
      split; [done|]. do 2 right. eexists (_ :: _ :: l), l'. by destruct a.
    + split; [done|]. right. left. split; [done|].
      exists here. eexists. split; [done|]. right. exists l. by destruct a.
Qed.

(** ** Running a command *)

Definition STOPPED : string := nl +:+ "Process stopped by user.".

Definition run_result (cmd : list string) (cwd : option path) (exit_on_fail : bool) (fail_msg : string)
  (env : environ) (l : list event) (env' : environ) (r : res completed) : Prop :=
  env' = env ∧ ∃ o l2, l = Ev (ESubprocess cwd env cmd) o :: l2 ∧
  match o with
  | inl c =>
      if exit_on_fail && negb (returncode c =? 0)%Z then
        reports fail_msg (returncode c) l2 r ∨
        (∃ x l3, isinstance x KeyboardInterrupt = true ∧
           l2 = Ev (EPrint true (error_line fail_msg)) (inr x) :: l3 ∧ reports STOPPED 130 l3 r)
      else l2 = [] ∧ r = Ok c
  | inr x =>
      if isinstance x KeyboardInterrupt then reports STOPPED 130 l2 r
      else l2 = [] ∧ r = Raise x
  end.

Ltac run_case E := split; [done|]; eexists _, _; split; [reflexivity|]; cbn beta iota; rewrite E.

Lemma tw_run_command cmd cwd exit_on_fail fail_msg env :
  tw (W:=W) (run_command cmd cwd exit_on_fail fail_msg) env
    (run_result cmd cwd exit_on_fail fail_msg env).
Proof.
  unfold run_command, subprocess_run. tw_go.
  - rename a into c. destruct (exit_on_fail && _) eqn:Ec.
    + eapply tw_mono; [|apply tw_reports]. intros l env' r _ [-> (o & -> & ->)].
      rewrite isinstance_any1. destruct o as [[]|x].
      * run_case Ec. left. eexists. by split.
      * destruct (isinstance x KeyboardInterrupt) eqn:Ex.
        -- eapply tw_mono; [|apply tw_reports]. intros l env' r _ [-> Hr].
           run_case Ec. right.
           eexists x, l. done.
        -- run_case Ec. left. eexists. by split.
    + tw_step. by run_case Ec.
  - rewrite isinstance_any1. destruct (isinstance e KeyboardInterrupt) eqn:Ex.
    + eapply tw_mono; [|apply tw_reports]. intros l env' r _ [-> Hr].
      by run_case Ex.
    + by run_case Ex.
Qed.

(** ** The environment of the SDK *)

Definition yocto_pair (line : string) : option (string * string) :=
  match key_value line with
  | Some (k, v) => if bool_decide (k ∈ SKIPPED) then None else Some (k, v)
  | None => None
  end.

(** The assignments made in order, on top of the environment. *)
Definition overlay (env : environ) (ps : list (string * string)) : environ :=
  foldl (λ m p, <[p.1 := p.2]> m) env ps.

Lemma tw_env_line line env :
  tw (W:=W) (env_line line) env (λ l env' r, l = [] ∧
    match r with
    | Ok _ => env' = overlay env (option_list (yocto_pair line))
    | Raise e => env' = env ∧ ∃ k v, yocto_pair line = Some (k, v) ∧ settable k v = Raise e
    | NoFuel => False
    end).
Proof.
  unfold env_line, yocto_pair. destruct (key_value line) as [[k v]|]; [|by tw_go].
  case_bool_decide; [by tw_go|]. apply tw_setitem.
  destruct (settable k v) as [u|e|] eqn:E; [done| |done]. split; [done|]. split; [done|]. eauto.
Qed.

Lemma tw_env_lines lines env :
  tw (W:=W) (for_unit lines env_line) env (λ l env' r, l = [] ∧
    match r with
    | Ok _ => env' = overlay env (omap yocto_pair lines)
    | Raise e => ∃ pre line post k v, lines = pre ++ line :: post ∧
        env' = overlay env (omap yocto_pair pre) ∧ yocto_pair line = Some (k, v) ∧
        settable k v = Raise e
    | NoFuel => False
    end).
Proof.
  eapply tw_mono; [|apply (tw_for_unit lines env_line
    (λ pre tr env', tr = [] ∧ env' = overlay env (omap yocto_pair pre))
    (λ tr env' e, tr = [] ∧ ∃ pre line post k v, lines = pre ++ line :: post ∧
       env' = overlay env (omap yocto_pair pre) ∧ yocto_pair line = Some (k, v) ∧
       settable k v = Raise e))].
  - intros l env' [[]|e|] _; cbn; [done| |done]. intros [-> ?]. done.
  - intros pre x post tr env1 Hl [-> ->]. eapply tw_mono; [|apply tw_env_line].
    intros l env' [[]|e|] _; [| |by intros [_ []]].
    + intros [-> ->]. split; [done|]. unfold overlay. rewrite omap_app, foldl_app. cbn.
      by destruct (yocto_pair x).
    + intros [-> (-> & k & v & Hp & Hs)]. split; [done|]. exists pre, x, post, k, v. done.
  - done.
Qed.

(** Where the SDK is looked for. *)
Definition sdk_dir (env : environ) (here : path) : string :=
  match env !! "YOCTO_SDK_DIR" with
  | Some v => v
  | None => path_str (path_parent (path_parent (path_parent (Path here))) / "yocto-dev" / "sdk")
  end.

Definition source_cmd (sdk : ppath) (name : string) : list string :=
  ["bash"; "-c"; "source " +:+ path_str (PPath (p_root sdk) (p_parts sdk ++ [name])) +:+ " && env"].

(** The calls of [load_yocto_env] when it succeeds: the first matching name of the
    listing is the script that is sourced. *)
Definition sdk_calls (file : path) (env : environ) (here : path) (names : list string) (name line : string)
  (c : completed) : list event :=
  let sdk := Path (sdk_dir env here) in
  [Ev (EResolve file) (inl here); Ev (EExists (path_str sdk)) (inl true);
   Ev (EScandir (path_str sdk)) (inl names); Ev (EPrint false line) (inl tt);
   Ev (ESubprocess None env (source_cmd sdk name)) (inl c)].

Definition is_error_print (ev : event) : Prop :=
  match ev_eff ev with EPrint true _ => True | _ => False end.

Definition sdk_result (file : path) (env : environ) (l : list event) (env' : environ)
  (r : res bool) : Prop :=
  match r with
  | Ok true => ∃ here names name rest line c,
      l = sdk_calls file env here names name line c ∧ returncode c = 0%Z ∧
      List.filter (star_match "environment-setup-" EmptyString) names = name :: rest ∧
      env' = overlay env (omap yocto_pair (splitlines (stdout c)))
  | Ok false => env' = env ∧ Exists is_error_print l
  | Raise e =>
      (env' = env ∧ Exists raised l) ∨
      (∃ here names name line c pre x post k v, l = sdk_calls file env here names name line c ∧
         returncode c = 0%Z ∧ splitlines (stdout c) = pre ++ x :: post ∧
         env' = overlay env (omap yocto_pair pre) ∧ yocto_pair x = Some (k, v) ∧
         settable k v = Raise e)
  | NoFuel => False
  end.

Ltac calls_raised :=
  solve [left; split; [done|]; repeat first [apply Exists_cons_hd; by eexists | apply Exists_cons_tl]].

Lemma tw_load_yocto_env file env :
  tw (W:=W) (load_yocto_env file) env (sdk_result file env).
Proof.
  unfold load_yocto_env, environ_get, glob, subprocess_run, print_error, print_info. cbv zeta.
  tw_go; try calls_raised. rename a into here. fold (sdk_dir env here) in *.
  destruct a0; cbn [negb].
  2: { tw_go; try calls_raised. split; [done|]. do 2 right. by left. }
  tw_go; try calls_raised. rename a into names.
  destruct (List.filter _ names) as [|name rest] eqn:En; cbn [map].
  { tw_go; try calls_raised. split; [done|]. do 3 right. by left. }
  tw_go; try calls_raised. destruct (returncode a0 =? 0)%Z eqn:Ec; cbn [negb].
  2: { tw_go; try calls_raised. split; [done|]. do 5 right. by left. }
  tw_step. eapply tw_mono; [|apply tw_env_lines]. apply Z.eqb_eq in Ec. destruct a.
  intros l env' [[]|e|] _; [| |by intros [_ []]].
  - intros [-> ->]. tw_go. exists here, names, name, rest. eexists _, a0. by split_and!.
  - intros [-> (pre & x & post & k & v & Hl & -> & Hp & Hs)]. cbn. right.
    exists here, names, name. eexists _, a0, pre, x, post, k, v. by split_and!.
Qed.

(** ** The newest file *)

Definition mtimes (files : list ppath) (keys : list Q) : list event :=
  zip_with (λ f k, Ev (EGetmtime (path_str f)) (inl k)) files keys.

(** [keys !! i] is the first of the greatest keys. *)
Definition first_max (keys : list Q) (i : nat) : Prop :=
  ∃ k, keys !! i = Some k ∧ ∀ j k', keys !! j = Some k' → (k' <= k)%Q ∧ ((j < i)%nat → (k' < k)%Q).

Definition newest_result (files : list ppath) (env : environ) (l : list event) (env' : environ)
  (r : res ppath) : Prop :=
  env' = env ∧
  match r with
  | Ok f => ∃ keys i, length keys = length files ∧ l = mtimes files keys ∧
                      files !! i = Some f ∧ first_max keys i
  | Raise e => ∃ pre f post keys, files = pre ++ f :: post ∧ length keys = length pre ∧
                 l = mtimes pre keys ++ [Ev (EGetmtime (path_str f)) (inr e)]
  | NoFuel => False
  end.

Lemma first_max_snoc_new keys i k :
  first_max keys i → (∀ j k', keys !! j = Some k' → (k' < k)%Q) → first_max (keys ++ [k]) (length keys).
Proof.
  intros _ Hlt. exists k. split; [by apply list_lookup_middle|].
  intros j k' [Hj|[Hj Hk]]%lookup_app_Some.
  - specialize (Hlt j k' Hj). split; [by apply Qlt_le_weak|done].
  - apply list_lookup_singleton_Some in Hk as [Hj0 <-]. split; [apply Qle_refl|lia].
Qed.
Lemma first_max_snoc_old keys i k k0 :
  first_max keys i → keys !! i = Some k0 → (k <= k0)%Q → first_max (keys ++ [k]) i.
Proof.
  intros (k1 & Hi & Hmax) Hi' Hle. rewrite Hi in Hi'. injection Hi' as ->.
  exists k0. split; [by apply lookup_app_l_Some|].
  intros j k' [Hj|[Hj Hk]]%lookup_app_Some; [by apply Hmax|].
  apply list_lookup_singleton_Some in Hk as [Hj0 <-]. split; [done|].
  apply lookup_lt_Some in Hi. lia.
Qed.

Lemma mtimes_snoc files keys f o :
  length keys = length files → mtimes (files ++ [f]) (keys ++ [o]) = mtimes files keys ++ [Ev (EGetmtime (path_str f)) (inl o)].
Proof. intros Hl. unfold mtimes. by rewrite zip_with_app. Qed.

Lemma tw_newest_from rest done_ keys i best key env :
  length keys = length done_ → done_ !! i = Some best → keys !! i = Some key → first_max keys i →
  tw (W:=W) (newest_from best key rest) env (λ l env' r,
    ∃ l', mtimes done_ keys ++ l = l' ∧ newest_result (done_ ++ rest) env l' env' r).
Proof.
  revert done_ keys i best key. induction rest as [|f rest IH]; intros done_ keys i best key Hlen Hb Hk Hmax;
    cbn [newest_from].
  - tw_go. eexists. split; [done|]. split; [done|]. exists keys, i. by rewrite !app_nil_r.
  - tw_go.
    2: { eexists. split; [done|]. split; [done|]. exists done_, f, rest, keys. done. }
    rename a into k.
    assert (∀ b kb i', (done_ ++ [f]) !! i' = Some b → (keys ++ [k]) !! i' = Some kb →
      first_max (keys ++ [k]) i' →
      tw (newest_from b kb rest) env (λ l env' r, ∃ l', mtimes done_ keys ++
        [Ev (EGetmtime (path_str f)) (inl k)] ++ l = l' ∧
        newest_result (done_ ++ f :: rest) env l' env' r)) as Hgo.
    { intros b kb i' Hb' Hk' Hm'. eapply tw_mono; [|apply (IH (done_ ++ [f]) (keys ++ [k]) i')]; [|by rewrite !length_app, Hlen|done..].
      intros l env' r _ (l' & <- & Hr). eexists. split; [reflexivity|].
      rewrite app_assoc, <- mtimes_snoc by done. by rewrite <- app_assoc in Hr. }
    destruct (Qlt_bool key k) eqn:Eq; unfold Qlt_bool in Eq.
    + apply (Hgo f k (length keys)).
      * rewrite Hlen. by apply list_lookup_middle.
      * by apply list_lookup_middle.
      * eapply first_max_snoc_new; [done|]. intros j k' Hj. destruct Hmax as (k0 & Hk0 & Hmax).
        rewrite Hk in Hk0. injection Hk0 as <-. destruct (Hmax j k' Hj) as [Hle _].
        eapply Qle_lt_trans; [exact Hle|]. apply Qnot_le_lt. rewrite <- Qle_bool_iff.
        by destruct (Qle_bool k key).
    + apply (Hgo best key i); [by apply lookup_app_l_Some|by apply lookup_app_l_Some|].
      eapply first_max_snoc_old; [done|done|]. apply Qle_bool_iff. by apply negb_false_iff.
Qed.

Lemma tw_newest first rest env : tw (W:=W) (newest first rest) env (newest_result (first :: rest) env).
Proof.
  unfold newest. tw_go.
  - eapply tw_mono; [|apply (tw_newest_from rest [first] [a] 0)]; [|done..|].
    + intros l env' r _ (l' & <- & Hr). exact Hr.
    + exists a. split; [done|]. intros [|j] k' Hk; [|done]. injection Hk as <-. split; [apply Qle_refl|lia].
  - split; [done|]. by exists [], first, rest, [].
Qed.

End utils.

(** ** Termination *)

Lemma total_newest_from {W} `{Host W} files : ∀ best key,
  total (newest_from best key files : M (environ * hst W) ppath).
Proof. induction files as [|f rest IH]; intros best key; cbn [newest_from]; total_deep; apply IH. Qed.
#[export] Hint Resolve total_newest_from : py.

Lemma settable_ends k v : settable k v ≠ NoFuel.
Proof. unfold settable. ends_tac. Qed.
#[export] Hint Resolve settable_ends : py.

(** ** Text *)

Lemma lstrip_head c t : is_space c = false → lstrip (String c t) = String c t.
Proof. cbn. by intros ->. Qed.
Lemma lstrip_id_head c t : lstrip (String c t) = String c t → is_space c = false.
Proof.
  cbn. destruct (is_space c); [|done]. intros E. exfalso.
  assert (∀ s, String.length (lstrip s) <= String.length s)%nat as Hlen.
  { induction s as [|d s IH]; cbn; [lia|]. destruct (is_space d); cbn; lia. }
  specialize (Hlen t). rewrite E in Hlen. cbn in Hlen. lia.
Qed.
Lemma rstrip_app s t : rstrip t ≠ EmptyString → rstrip (s +:+ t) = s +:+ rstrip t.
Proof.
  intros Ht. induction s as [|c s IH]; [done|]. rewrite !app_str_cons. cbn [rstrip]. rewrite IH.
  destruct (s +:+ rstrip t) eqn:E; [|done].
  apply app_str_nil_inv in E as [-> E]. done.
Qed.
Lemma rstrip_spaces s t : all_chars is_space t = true → rstrip (s +:+ t) = rstrip s.
Proof.
  intros Ht. assert (rstrip t = EmptyString) as Hr.
  { induction t as [|c t IH]; [done|]. cbn in *. apply andb_true_iff in Ht as [Hc Ht].
    by rewrite IH, Hc. }
  induction s as [|c s IH]; [done|]. rewrite app_str_cons. cbn [rstrip]. by rewrite IH.
Qed.

(** A line without its terminator. *)
Definition one_line (s : string) : bool :=
  all_chars (λ c, negb (nat_of_ascii c =? 10)%nat && negb (nat_of_ascii c =? 13)%nat) s.

Lemma file_lines_go_line acc x t :
  one_line x = true → file_lines_go acc (x +:+ nl +:+ t) = (acc +:+ x +:+ nl) :: file_lines_go EmptyString t.
Proof.
  unfold one_line. revert acc. induction x as [|c x IH]; intros acc Hx; [done|].
  cbn in Hx. apply andb_true_iff in Hx as [[Hc _]%andb_true_iff Hx]. apply negb_true_iff in Hc.
  rewrite app_str_cons. cbn [file_lines_go]. rewrite Hc, IH by done. by rewrite !app_str_assoc.
Qed.

Lemma universal_newlines_id s :
  all_chars (λ c, negb (nat_of_ascii c =? 13)%nat) s = true → universal_newlines s = s.
Proof.
  induction s as [|c s IH]; [done|]. cbn. intros [Hc Hs]%andb_true_iff.
  apply negb_true_iff in Hc. by rewrite Hc, IH.
Qed.

Lemma file_lines_text ls :
  Forall (λ x, one_line x = true) ls → file_lines (lines_text ls) = map (λ x, x +:+ nl) ls.
Proof.
  intros Hls. unfold file_lines. rewrite universal_newlines_id.
  - induction Hls as [|x ls Hx _ IH]; [done|]. cbn [lines_text foldr map]. fold (lines_text ls).
    by rewrite file_lines_go_line, IH.
  - induction Hls as [|x ls Hx _ IH]; [done|]. cbn [lines_text foldr]. fold (lines_text ls).
    rewrite !all_chars_app, IH. apply andb_true_iff. split; [|done].
    eapply all_chars_mono; [|exact Hx]. by intros c [_ Hc]%andb_true_iff.
Qed.

(** ** Round trips *)

(** A name and a value that a line [name=value] keeps. *)
Record assignment_ok (p : string * string) : Prop := {
  name_there : p.1 ≠ EmptyString;
  name_trimmed : lstrip p.1 = p.1 ∧ rstrip p.1 = p.1;
  value_trimmed : lstrip p.2 = p.2 ∧ rstrip p.2 = p.2;
  name_no_eq : contains "=" p.1 = false;
  name_no_hash : starts_with "#" p.1 = false;
  no_nul : contains NUL p.1 = false ∧ contains NUL p.2 = false;
  on_one_line : one_line p.1 = true ∧ one_line p.2 = true }.

Definition assignment (p : string * string) : string := p.1 +:+ "=" +:+ p.2.

Lemma assignment_pair p : assignment_ok p → dotenv_pair (assignment p +:+ nl) = Some p.
Proof.
  destruct p as [k v]. intros [Hk [Hkl Hkr] [Hvl Hvr] He Hh _ _]. cbn in *.
  unfold assignment. cbn. assert (strip ((k +:+ "=" +:+ v) +:+ nl) = k +:+ "=" +:+ v) as Hs.
  { unfold strip. destruct k as [|c k]; [done|]. apply lstrip_id_head in Hkl.
    rewrite !app_str_cons, lstrip_head by done. rewrite <- !app_str_cons.
    rewrite rstrip_spaces by done. rewrite <- app_str_assoc.
    destruct v as [|d v]; [by rewrite app_str_nil_r, (rstrip_app _ "=")|].
    rewrite rstrip_app; rewrite Hvr; done. }
  unfold dotenv_pair. rewrite Hs. cbv zeta.
  assert (k +:+ "=" +:+ v ≠ EmptyString) as Hne by (by intros [? ?]%app_str_nil_inv).
  rewrite bool_decide_false by done.
  assert (starts_with "#" (k +:+ "=" +:+ v) = false) as ->.
  { destruct (starts_with "#" (k +:+ "=" +:+ v)) eqn:E; [|reflexivity]. apply starts_with_iff in E as [r Hr].
    destruct k as [|c k]; [done|]. rewrite app_str_cons in Hr. injection Hr as -> _. done. }
  assert (contains "=" (k +:+ "=" +:+ v) = true) as -> by (apply contains_app_r, contains_app_l; done).
  cbn [negb andb]. unfold key_value. rewrite partition_at by done. unfold strip.
  by rewrite Hkl, Hkr, Hvl, Hvr.
Qed.

Lemma omap_all {A B} (g : A → option B) (f : B → A) (l : list B) :
  (∀ x, x ∈ l → g (f x) = Some x) → omap g (map f l) = l.
Proof.
  induction l as [|x l IH]; [done|]. intros Hg. cbn. rewrite Hg by set_solver.
  f_equal. apply IH. set_solver.
Qed.

Lemma assignment_line p : assignment_ok p → one_line (assignment p) = true.
Proof.
  intros [_ _ _ _ _ _ [H1 H2]]. unfold assignment, one_line in *. by rewrite !all_chars_app, H1, H2.
Qed.

Lemma dotenv_vars_assignments kvs :
  Forall assignment_ok kvs →
  dotenv_vars (file_lines (lines_text (map assignment kvs))) = list_to_map kvs.
Proof.
  intros Hkv. rewrite file_lines_text.
  - unfold dotenv_vars. f_equal. rewrite map_map.
    apply (omap_all dotenv_pair (λ p, assignment p +:+ nl)). intros p Hp. apply assignment_pair.
    by eapply Forall_forall.
  - apply Forall_map. eapply Forall_impl; [exact Hkv|]. intros p. apply assignment_line.
Qed.

Lemma settable_assignment k v : assignment_ok (k, v) → settable k v = Ok tt.
Proof.
  intros [Hk _ _ He _ [Hn Hv] _]. cbn in *. unfold settable. rewrite Hn, Hv, He.
  by rewrite bool_decide_false.
Qed.

(** What [env] prints of a variable that [splitlines] keeps on one line. *)
Record printable (p : string * string) : Prop := {
  var_there : p.1 ≠ EmptyString;
  var_no_eq : contains "=" p.1 = false;
  var_no_nul : contains NUL p.1 = false ∧ contains NUL p.2 = false;
  var_one_line : no_break p.1 = true ∧ no_break p.2 = true }.

Lemma settable_printable k v : printable (k, v) → settable k v = Ok tt.
Proof.
  intros [Hk He [Hn Hv] _]. cbn in *. unfold settable. rewrite Hn, Hv, He.
  by rewrite bool_decide_false.
Qed.

Definition unskipped (p : string * string) : bool := bool_decide (p.1 ∉ SKIPPED).

Lemma yocto_pair_assignment p :
  printable p → yocto_pair (assignment p) = if unskipped p then Some p else None.
Proof.
  destruct p as [k v]. intros [_ He _ _]. unfold yocto_pair, key_value, assignment, unskipped. cbn [fst snd] in *.
  rewrite partition_at by done. do 2 case_bool_decide; naive_solver.
Qed.

Lemma yocto_pairs_assignments kvs :
  Forall printable kvs →
  omap yocto_pair (splitlines (lines_text (map assignment kvs))) = List.filter unskipped kvs.
Proof.
  intros Hkv. rewrite splitlines_lines_text.
  - induction Hkv as [|p kvs Hp _ IH]; [done|]. cbn [map List.filter].
    change (omap yocto_pair (assignment p :: map assignment kvs)) with
      (match yocto_pair (assignment p) with
       | Some y => y :: omap yocto_pair (map assignment kvs)
       | None => omap yocto_pair (map assignment kvs) end).
    rewrite yocto_pair_assignment, IH by done. by destruct (unskipped p).
  - apply Forall_map. eapply Forall_impl; [exact Hkv|]. intros p [_ _ _ [H1 H2]].
    unfold assignment, no_break in *. by rewrite !all_chars_app, H1, H2.
Qed.

Lemma overlay_nodup ps env : NoDup ps.*1 → overlay env ps = list_to_map ps ∪ env.
Proof.
  unfold overlay. revert env. induction ps as [|[k v] ps IH]; intros env Hnd; cbn [foldl].
  - cbn. by rewrite map_empty_union.
  - inversion Hnd as [|? ? Hk Hnd']; subst. rewrite IH by done. cbn [fst snd].
    cbn [list_to_map foldr]. rewrite <- insert_union_r, insert_union_l; [done|].
    by apply not_elem_of_list_to_map_1.
Qed.

Lemma NoDup_fst_filter (f : string * string → bool) (kvs : list (string * string)) :
  NoDup kvs.*1 → NoDup (List.filter f kvs).*1.
Proof.
  induction kvs as [|p kvs IH]; [done|]. cbn. inversion 1 as [|? ? Hp Hnd]; subst.
  destruct (f p); cbn; [|by apply IH]. constructor; [|by apply IH].
  intros Hin. apply Hp. apply list_elem_of_fmap in Hin as (q & -> & Hq).
  apply list_elem_of_In, filter_In in Hq as [Hq _].
  apply list_elem_of_fmap. exists q. split; [done|]. by apply list_elem_of_In.
Qed.

(** ** Properties *)

(** C13: Loading the [.env] file ends on every host, and what it does is a function of
    the calls it made.  If it returns, either there is no file and the environment is
    unchanged, or the whole file was read and closed and the environment is the old one
    with, below it, the file's assignments, the first for each name; if it raises,
    either a call failed, or the file was read and closed and the first line whose name
    or value the operating system refuses raised, with the lines before it in effect.
    Variables that were set keep their value in every case. *)
Theorem load_dotenv_merges {W} `{Host W} root env (st : hst W) :
  ∃ r env' st' l, returns (load_dotenv root) (env, st) r (env', st') ∧
    trace st' = trace st ++ l ∧ env ⊆ env' ∧ dotenv_result root env l env' r.
Proof.
  destruct (tw_post (load_dotenv root) env st _ ltac:(total_deep) (tw_load_dotenv root env))
    as (r & env' & st' & l & Hr & Hl & Hd).
  exists r, env', st', l. split_and!; [done|done| |done]. by eapply dotenv_result_grows.
Qed.

(** A [.env] file written as one [NAME=value] line per variable is read back: when
    the file has that text, the environment afterwards is the old one with the written
    variables added below it. *)
Theorem dotenv_roundtrip {W} `{Host W} root env (st : hst W) kvs :
  Forall assignment_ok kvs →
  ∃ r env' st' l, returns (load_dotenv root) (env, st) r (env', st') ∧
    trace st' = trace st ++ l ∧
    ∀ h, l = dotenv_calls root h (lines_text (map assignment kvs)) →
      r = Ok tt ∧ env' = env ∪ list_to_map kvs.
Proof.
  intros Hkv.
  destruct (tw_post (load_dotenv root) env st _ ltac:(total_deep) (tw_load_dotenv root env))
    as (r & env' & st' & l & Hr & Hl & Hd).
  exists r, env', st', l. split_and!; [done|done|]. intros h ->.
  assert (∀ h' text, dotenv_calls root h (lines_text (map assignment kvs)) = dotenv_calls root h' text →
    text = lines_text (map assignment kvs)) as Hinj
    by (intros h' text Hc; apply (f_equal (λ l, l ≫= text_of)) in Hc; by injection Hc as <-).
  destruct r as [[]|e|]; cbn in Hd; [| |done].
  - destruct Hd as [[Hbad _]|(h' & text & Hc & ->)]; [by apply (f_equal length) in Hbad|]. apply Hinj in Hc as ->.
    by rewrite dotenv_vars_assignments.
  - exfalso. destruct Hd as [_ [[Hex|(h' & text & x & Hin)]|(h' & text & pre & line & post & k & v & Hc & Hpre & _ & Hp & _ & Hs)]].
    + repeat (apply Exists_cons in Hex as [[x Hx]|Hex]; [done|]). by apply Exists_nil in Hex.
    + assert ((text, Some x) ∈ dotenv_calls root h (lines_text (map assignment kvs)) ≫= text_of) as Hin'
        by (apply list_elem_of_bind; eexists; split; [|exact Hin]; by left).
      by apply list_elem_of_singleton in Hin'.
    + apply Hinj in Hc as ->. rewrite file_lines_text in Hpre
        by (apply Forall_map; eapply Forall_impl; [exact Hkv|]; intros p; apply assignment_line).
      assert (line ∈ map (λ x, x +:+ nl) (map assignment kvs)) as Hin by (rewrite Hpre; set_solver).
      rewrite map_map in Hin. apply list_elem_of_fmap in Hin as (p & -> & Hin).
      rewrite Forall_forall in Hkv. specialize (Hkv p Hin). rewrite assignment_pair in Hp by done.
      injection Hp as ->. rewrite settable_assignment in Hs by done. done.
Qed.

Definition sample_root : ppath := Path "/w/blank-chat".
Definition sample_kvs : list (string * string) :=
  [("YOCTO_SDK_DIR", "/opt/sdk"); ("JOBS", "8"); ("JOBS", "9"); ("EMPTY", EmptyString)].
Definition sample_dotenv_world : hst lw :=
  placed (Site [] (λ _, Completed 0 EmptyString EmptyString)
    [("/w/blank-chat/.env", lines_text (map assignment sample_kvs))] [] 0).

Lemma sample_kvs_ok : Forall assignment_ok sample_kvs.
Proof. repeat (apply Forall_cons; split; [split; (done || by split)|]). by apply Forall_nil. Qed.

Lemma dotenv_roundtrip_witness :
  ∃ r env' st' l, returns (load_dotenv sample_root) ({["JOBS" := "4"]}, sample_dotenv_world) r (env', st') ∧
    trace st' = trace sample_dotenv_world ++ l ∧
    ∀ h, l = dotenv_calls sample_root h (lines_text (map assignment sample_kvs)) →
      r = Ok tt ∧ env' = {["JOBS" := "4"]} ∪ list_to_map sample_kvs.
Proof. apply (dotenv_roundtrip sample_root {["JOBS" := "4"]} sample_dotenv_world sample_kvs), sample_kvs_ok. Defined.

(** The sample file is in fact read: the conclusion above is not empty there. *)
Example sample_dotenv_read :
  ∃ st', load_dotenv sample_root 0%nat ({["JOBS" := "4"]}, sample_dotenv_world) =
    (Ok tt, ({["JOBS" := "4"; "EMPTY" := EmptyString; "YOCTO_SDK_DIR" := "/opt/sdk"]}, st')).
Proof. eexists. vm_compute. reflexivity. Qed.

(** C26: Changing to the project root ends on every host.  If it returns, it returns the
    directory two above the resolved file, that directory was entered before the [.env]
    file was loaded, and variables that were set keep their value.  No [OSError] leaves
    it, except one from resolving the file's own path or from printing the message: any
    other is reported and ends the script with status 1. *)
Theorem change_to_project_root_contract {W} `{Host W} file env (st : hst W) :
  ∃ r env' st' l, returns (change_to_project_root file) (env, st) r (env', st') ∧
    trace st' = trace st ++ l ∧ root_result file env l env' r.
Proof. apply tw_post; [total_deep|]. apply tw_change_to_project_root. Qed.

(** C12: [run_command] ends on every host and does one of these: the command ran and
    its status is 0 or need not be, and it is returned; the command failed, which is
    reported, and the script is left with the command's own status; it was interrupted,
    which is reported, and the script is left with 130; it could not be run, and that
    exception passes through.  The command gets the environment of the moment. *)
Theorem run_command_contract {W} `{Host W} cmd cwd exit_on_fail fail_msg env (st : hst W) :
  ∃ r env' st' l, returns (run_command cmd cwd exit_on_fail fail_msg) (env, st) r (env', st') ∧
    trace st' = trace st ++ l ∧ run_result cmd cwd exit_on_fail fail_msg env l env' r.
Proof. apply tw_post; [total_deep|]. apply tw_run_command. Qed.

(** C10: Loading the SDK's environment ends on every host.  [True] means that the first
    [environment-setup-*] script of the SDK directory was sourced with status 0 and each
    variable [env] printed was set, the later of two for one name, except the two
    that belong to the shell; [False] means an error was printed and no variable was
    touched. *)
Theorem load_yocto_env_contract {W} `{Host W} file env (st : hst W) :
  ∃ r env' st' l, returns (load_yocto_env file) (env, st) r (env', st') ∧
    trace st' = trace st ++ l ∧ sdk_result file env l env' r.
Proof. apply tw_post; [total_deep|]. apply tw_load_yocto_env. Qed.

(** What a child process printed. *)
Definition output_of (ev : event) : list completed :=
  match ev_eff ev in eff A return A + exn → list completed with
  | ESubprocess _ _ _ => λ o, match o with inl c => [c] | inr _ => [] end
  | _ => λ _, []
  end (ev_out ev).

(** An environment printed by [env] one variable per line is taken over: when the
    sourced script succeeds and prints it, [load_yocto_env] returns [True] and every
    printed variable has its printed value, except the two that belong to the shell; the
    other variables keep theirs. *)
Theorem sdk_env_roundtrip {W} `{Host W} file env (st : hst W) kvs :
  Forall printable kvs → NoDup kvs.*1 →
  ∃ r env' st' l, returns (load_yocto_env file) (env, st) r (env', st') ∧
    trace st' = trace st ++ l ∧
    ∀ here names name line c, l = sdk_calls file env here names name line c → returncode c = 0%Z →
      stdout c = lines_text (map assignment kvs) →
      r = Ok true ∧ env' = list_to_map (List.filter unskipped kvs) ∪ env.
Proof.
  intros Hkv Hnd.
  destruct (tw_post (load_yocto_env file) env st _ ltac:(total_deep) (tw_load_yocto_env file env))
    as (r & env' & st' & l & Hr & Hl & Hd).
  exists r, env', st', l. split_and!; [done|done|]. intros here names name line c -> Hc Hout.
  assert (∀ here' names' name' line' c', sdk_calls file env here names name line c =
    sdk_calls file env here' names' name' line' c' → c' = c) as Hinj.
  { intros here' names' name' line' c' E. apply (f_equal (λ l, l ≫= output_of)) in E.
    by injection E as <-. }
  destruct r as [[]|e|]; cbn in Hd; [| | |done].
  - destruct Hd as (here' & names' & name' & rest & line' & c' & E & _ & _ & ->). apply Hinj in E as ->.
    split; [done|]. rewrite Hout, yocto_pairs_assignments by done.
    by apply overlay_nodup, NoDup_fst_filter.
  - exfalso. destruct Hd as [_ Hex].
    repeat (apply Exists_cons in Hex as [Hx|Hex]; [done|]). by apply Exists_nil in Hex.
  - exfalso. destruct Hd as [[_ Hex]|(here' & names' & name' & line' & c' & pre & x & post & k & v & E & _ & Hpre & _ & Hp & Hs)].
    + repeat (apply Exists_cons in Hex as [[x Hx]|Hex]; [done|]). by apply Exists_nil in Hex.
    + apply Hinj in E as ->. rewrite Hout in Hpre.
      assert ((k, v) ∈ omap yocto_pair (splitlines (lines_text (map assignment kvs)))) as Hin.
      { apply list_elem_of_omap. exists x. split; [rewrite Hpre; set_solver|done]. }
      rewrite yocto_pairs_assignments in Hin by done.
      apply list_elem_of_In, filter_In in Hin as [Hin _]. rewrite Forall_forall in Hkv.
      rewrite settable_printable in Hs; [done|]. apply Hkv. by apply list_elem_of_In.
Qed.

Definition sample_file : path := "/w/blank-chat/scripts/utils.py".
Definition sdk_kvs : list (string * string) :=
  [("PATH", "/w/yocto-dev/sdk/bin:/usr/bin"); ("_", "/usr/bin/env"); ("CC", "x86_64-poky-linux-gcc -m64");
   ("OECORE_NATIVE_SYSROOT", "/w/yocto-dev/sdk/sysroots")].
Definition sample_sdk_world : hst lw :=
  placed (Site [] (λ argv, if bool_decide (hd EmptyString argv = "bash")
                           then Completed 0 (lines_text (map assignment sdk_kvs)) EmptyString
                           else Completed 0 EmptyString EmptyString)
    [("/w/yocto-dev/sdk", EmptyString); ("/w/yocto-dev/sdk/version", EmptyString);
     ("/w/yocto-dev/sdk/environment-setup-core2-64", EmptyString)] [] 0).

Lemma sdk_kvs_ok : Forall printable sdk_kvs.
Proof. repeat (apply Forall_cons; split; [split; (done || by split)|]). by apply Forall_nil. Qed.

Lemma sdk_env_roundtrip_witness :
  ∃ r env' st' l, returns (load_yocto_env sample_file) ({["PATH" := "/bin"]}, sample_sdk_world) r (env', st') ∧
    trace st' = trace sample_sdk_world ++ l ∧
    ∀ here names name line c, l = sdk_calls sample_file {["PATH" := "/bin"]} here names name line c →
      returncode c = 0%Z → stdout c = lines_text (map assignment sdk_kvs) →
      r = Ok true ∧ env' = list_to_map (List.filter unskipped sdk_kvs) ∪ {["PATH" := "/bin"]}.
Proof.
  apply (sdk_env_roundtrip sample_file {["PATH" := "/bin"]} sample_sdk_world sdk_kvs); [apply sdk_kvs_ok|].
  apply (bool_decide_unpack (NoDup sdk_kvs.*1)). vm_compute. exact I.
Defined.

Example sample_sdk_loaded :
  ∃ st', load_yocto_env sample_file 0%nat ({["PATH" := "/bin"; "HOME" := "/root"]}, sample_sdk_world) =
    (Ok true, ({["PATH" := "/w/yocto-dev/sdk/bin:/usr/bin"; "HOME" := "/root";
                 "CC" := "x86_64-poky-linux-gcc -m64";
                 "OECORE_NATIVE_SYSROOT" := "/w/yocto-dev/sdk/sysroots"]}, st')).
Proof. eexists. vm_compute. reflexivity. Qed.

(** A variable whose value has a line break is not taken over: what follows the break
    is read as a line of its own and sets the variable it happens to name. *)
Example multi_line_value_splits :
  overlay ∅ (omap yocto_pair (splitlines (lines_text (map assignment
    [("GREETING", "hello" +:+ nl +:+ "PATH=/tmp"); ("HOME", "/root")])))) =
  {["GREETING" := "hello"; "PATH" := "/tmp"; "HOME" := "/root"]}.
Proof. vm_compute. reflexivity. Qed.

(** A line of the [.env] file with nothing before its equals sign ends every script
    with the message that the project root could not be entered, though it was. *)
Example empty_name_misreported :
  ∃ st' l, change_to_project_root sample_file 0%nat
      (∅, placed (Site [] (λ _, Completed 0 EmptyString EmptyString)
                    [("/w/blank-chat/.env", "=x")] [] 0)) = (Raise (exit_exn 1), (∅, st')) ∧
    trace st' = l ++ [Ev (EPrint true (error_line CHDIR_FAILED)) (inl tt)] ∧
    Ev (EChdir "/w/blank-chat") (inl tt) ∈ l.
Proof.
  eexists _, [_; _; _; _; _; _]. split; [vm_compute; reflexivity|]. split; [reflexivity|].
  right. left.
Qed.

(** The newest of a list of files is found on every host: the modification time of
    each was read once, in order, and the file returned is the first of those with the
    greatest; if one cannot be read, that exception passes and later files are not
    looked at. *)
Theorem newest_contract {W} `{Host W} first rest env (st : hst W) :
  ∃ r env' st' l, returns (newest first rest) (env, st) r (env', st') ∧
    trace st' = trace st ++ l ∧ newest_result (first :: rest) env l env' r.
Proof. apply tw_post; [total_deep|]. apply tw_newest. Qed.
