(* ===== verification/Processes.v ===== *)
(** * The processes a script runs

    [runs l] are the processes among the calls [l], with their directory, their
    environment, their arguments and what came of them.  Two judgements follow the
    structure of a script: [fail_stop], that a command that fails is the last thing a
    script does but for reporting it, and [on_return], what the calls were if the
    script returns. *)

From Stdlib Require Import Ascii ZArith QArith Lia.
From stdpp Require Import base list strings gmap.
From S2P Require Import Prelude PyText Host Paths Argparse Utils ScriptLogic UtilsSpec.

(** [pr_status] is [None] for a process that could not be run or was interrupted. *)
Record prun : Type := PRun {
  pr_cwd : option path; pr_env : environ; pr_argv : list string; pr_status : option Z }.

Definition run_of (ev : event) : list prun :=
  match ev_eff ev in eff A return A + exn → list prun with
  | ESubprocess cwd env argv => λ o,
      [PRun cwd env argv (match o with inl c => Some (returncode c) | inr _ => None end)]
  | _ => λ _, []
  end (ev_out ev).
Definition runs (l : list event) : list prun := l ≫= run_of.

Lemma runs_app l l' : runs (l ++ l') = runs l ++ runs l'.
Proof. apply bind_app. Qed.

(** The changes a script asks of the file system itself. *)
Inductive change : Type :=
| CUnlink (p : path)
| CReplace (src dst : path)
| CCopy (src dst : path)
| CRmtree (p : path)
| CChmod (p : path) (mode : Z)
| CMkdir (p : path)
| CWrite (p : path).
Definition change_of (ev : event) : list change :=
  match ev_eff ev with
  | EUnlink p | EUnlinkMissing p => [CUnlink p]
  | EReplace a b => [CReplace a b]
  | ECopy2 a b => [CCopy a b]
  | ERmtree p => [CRmtree p]
  | EChmod p m => [CChmod p m]
  | EMkdir p | EMkdirNew p | EMkdirParent p => [CMkdir p]
  | EWriteText p _ | EWriteJson p _ | EWriteCsv p _ | EOpenW p | ESavePlots p => [CWrite p]
  | _ => []
  end.
Definition changes (l : list event) : list change := l ≫= change_of.

Lemma changes_app l l' : changes (l ++ l') = changes l ++ changes l'.
Proof. apply bind_app. Qed.

(** The commands whose failure is an answer: asking for the release, and what vm_manager.py
    asks of libvirt with [virsh]. *)
Definition probe (argv : list string) : bool :=
  bool_decide (head argv = Some "virsh") ||
  bool_decide (argv = ["gh"; "release"; "view"; "sdk-latest"]).

(** Sourcing the SDK's environment, and the status a script ends with after a command
    failed with [z]: the command's own, but 1 where the environment could not be sourced. *)
Definition sourcing (argv : list string) : bool :=
  match argv with
  | [shell; flag; _] => bool_decide (shell = "bash") && bool_decide (flag = "-c")
  | _ => false
  end.
Definition status_after (argv : list string) (z : Z) : Z := if sourcing argv then 1 else z.

Definition failed (p : prun) : bool :=
  negb (probe (pr_argv p)) &&
  match pr_status p with Some z => negb (z =? 0)%Z | None => false end.

Definition calm (l : list event) : Prop := Forall (λ p, failed p = false) (runs l).

Definition succeeded (ev : event) : Prop := match ev_out ev with inl _ => True | inr _ => False end.

(** The last command of [l] failed; after it there are only reports, and the script ended
    with the status for that failure unless reporting failed. *)
Definition stopped {A} (l : list event) (r : res A) : Prop :=
  ∃ l1 cwd env argv c l2,
    l = l1 ++ Ev (ESubprocess cwd env argv) (inl c) :: l2 ∧ calm l1 ∧ returncode c ≠ 0%Z ∧
    Forall is_error_print l2 ∧ (∃ x, r = Raise x) ∧
    (Forall succeeded l2 → r = Raise (exit_exn (status_after argv (returncode c)))).

Definition stops {A} (l : list event) (r : res A) : Prop := calm l ∨ stopped l r.

Lemma calm_app l l' : calm (l ++ l') ↔ calm l ∧ calm l'.
Proof. unfold calm. by rewrite runs_app, Forall_app. Qed.

Lemma stopped_raise {A B} l x : stopped l (Raise x : res A) → stopped l (Raise x : res B).
Proof.
  intros (l1 & cwd & env & argv & c & l2 & -> & Hc & Hz & Hp & _ & Hs).
  exists l1, cwd, env, argv, c, l2. split_and!; [done..|eauto|]. intros Hl. by injection (Hs Hl) as ->.
Qed.

Section judgements.
Context {W : Type} `{Host W}.
Abbreviation PS := (environ * hst W)%type.

Definition fail_stop {A} (m : M PS A) : Prop := ∀ env, tw m env (λ l _ r, stops l r).

Lemma fs_ret {A} (a : A) : fail_stop (mret a).
Proof. intros env. tw_go. left. apply Forall_nil. exact I. Qed.
Lemma fs_exit {A} z : fail_stop (sys_exit z : M PS A).
Proof. intros env. tw_go. left. apply Forall_nil. exact I. Qed.

Lemma fs_bind {A B} (m : M PS A) (k : A → M PS B) :
  fail_stop m → (∀ a, fail_stop (k a)) → fail_stop (m ≫= k).
Proof.
  intros Hm Hk env. apply tw_bind. eapply tw_mono; [|apply Hm].
  intros l env' [a|e|] Hr Hs; cbn; [| |done].
  - destruct Hs as [Hc|(? & ? & ? & ? & ? & ? & _ & _ & _ & _ & [? ?] & _)]; [|done].
    eapply tw_mono; [|apply Hk]. intros l' env'' r _ [Hc'|Hs'].
    + left. by apply calm_app.
    + right. destruct Hs' as (l1 & cwd & e & argv & c & l2 & -> & Hc1 & Hrest).
      exists (l ++ l1), cwd, e, argv, c, l2. rewrite app_assoc. split; [done|].
      split; [by apply calm_app|done].
  - destruct Hs as [Hc|Hs]; [by left|right; by eapply stopped_raise].
Qed.

(** A part that runs no command. *)
Definition calm_event (ev : event) : Prop := Forall (λ p, failed p = false) (run_of ev).

Lemma calm_events l : Forall calm_event l → calm l.
Proof.
  unfold calm. induction 1 as [|ev l Hev _ IH]; [by apply Forall_nil|].
  change (runs (ev :: l)) with (run_of ev ++ runs l). by apply Forall_app.
Qed.

Lemma fs_calm {A} (m : M PS A) : keeps (host_only (extends calm_event)) m → fail_stop m.
Proof.
  intros Hk env. eapply tw_mono; [|apply (tw_extends calm_event m env Hk)].
  intros l env' r _ Hl. left. by apply calm_events.
Qed.

Lemma calm_failed cwd env argv z :
  failed (PRun cwd env argv (Some z)) = true ↔ probe argv = false ∧ z ≠ 0%Z.
Proof.
  unfold failed. cbn. rewrite andb_true_iff, !negb_true_iff, Z.eqb_neq. done.
Qed.

Lemma fs_run_command cmd cwd exit_on_fail msg :
  exit_on_fail = true → sourcing cmd = false → fail_stop (run_command cmd cwd exit_on_fail msg).
Proof.
  intros -> Hcmd env. eapply tw_mono; [|apply tw_run_command].
  intros l env' r _ [_ (o & l2 & -> & Ho)].
  assert (∀ msg z l3, reports msg z l3 r → calm l3 ∧ Forall is_error_print l3) as Hrep.
  { intros msg' z l3 (o' & -> & _). split; [by apply Forall_nil|by repeat constructor]. }
  destruct o as [c|x]; cbn [andb] in Ho.
  - destruct (returncode c =? 0)%Z eqn:Ez; cbn [negb] in Ho.
    + destruct Ho as [-> _]. left. apply Z.eqb_eq in Ez. unfold calm. apply Forall_cons. split; [|by apply Forall_nil].
      unfold failed. cbn. rewrite Ez. by rewrite andb_false_r.
    + apply Z.eqb_neq in Ez. right. exists [], cwd, env, cmd, c, l2.
      split; [done|]. split; [by apply Forall_nil|]. split; [done|].
      destruct Ho as [Hr|(x & l3 & _ & -> & Hr)]; destruct (Hrep _ _ _ Hr) as [_ Hp];
        destruct Hr as (o & -> & ->); unfold status_after; rewrite Hcmd.
      * split; [done|]. split; [eauto|]. intros Hs. apply Forall_inv in Hs. by destruct o.
      * split; [by repeat constructor|]. split; [eauto|]. intros Hs. by apply Forall_inv in Hs.
  - left. apply calm_events, Forall_cons. split; [apply Forall_cons; split; [|by apply Forall_nil]; apply andb_false_r|].
    destruct (isinstance x KeyboardInterrupt); [|destruct Ho as [-> _]; by apply Forall_nil].
    destruct Ho as (o & -> & _). by repeat constructor.
Qed.

End judgements.

#[export] Hint Extern 1 (keeps _ (sys _)) =>
  (apply keeps_lift_host_only, keeps_call_extends; intros; repeat constructor) : py.

Ltac fs_step :=
  lazymatch goal with
  | |- fail_stop (mbind _ _) => apply fs_bind; [|intros ?]
  | |- fail_stop (mret _) => apply fs_ret
  | |- fail_stop (sys_exit _) => apply fs_exit
  | |- fail_stop (run_command _ _ _ _) => apply fs_run_command; [reflexivity|first [reflexivity|solve [eauto with py]]]
  | |- fail_stop (match ?x with _ => _ end) => destruct x
  | |- fail_stop (sys _) => apply fs_calm; solve [eauto with py]
  | |- fail_stop ?m => first [solve [eauto with py] | open_head m; cbv zeta]
  end.
Ltac fs_tac := repeat fs_step.

Section shared.
Context {W : Type} `{Host W}.
Abbreviation PS := (environ * hst W)%type.

Lemma keeps_newest_from (P : event → Prop) files : (∀ p o, P (Ev (EGetmtime p) o)) → ∀ best key,
  keeps (host_only (extends P)) (newest_from best key files : M PS ppath).
Proof.
  intros HP. induction files as [|f rest IH]; intros best key; cbn [newest_from]; [by keeps_tac|].
  apply keeps_bind; [apply keeps_lift_host_only, keeps_call_extends; intros; apply HP|].
  intros k. keeps_tac; apply IH.
Qed.

Lemma fs_change_to_project_root file : fail_stop (change_to_project_root file : M PS _).
Proof. apply fs_calm. keeps_deep. Qed.
(** The last command of [l] is the sourcing of the SDK's environment, and it failed; [reported]
    says that it was reported. *)
Definition unsourced (reported : bool) (l : list event) : Prop :=
  ∃ l1 cwd env argv c l2, l = l1 ++ Ev (ESubprocess cwd env argv) (inl c) :: l2 ∧ calm l1 ∧ returncode c ≠ 0%Z ∧
    sourcing argv = true ∧ Forall is_error_print l2 ∧ (reported = false → ¬ Forall succeeded l2).
Lemma unsourced_stopped {A} reported l e :
  unsourced reported l → (reported = true → e = exit_exn 1) → stopped l (Raise e : res A).
Proof.
  intros (l1 & cwd & env & argv & c & l2 & -> & Hl1 & Hc & Hs & Hp & Hr) He.
  exists l1, cwd, env, argv, c, l2. split_and!; [done..|eauto|]. intros Hok. unfold status_after. rewrite Hs.
  destruct reported; [by rewrite He|by destruct Hr].
Qed.

Lemma tw_load_yocto_env_stops file env :
  tw (load_yocto_env file : M PS _) env (λ l _ r,
    calm l ∨ match r with Ok b => b = false ∧ unsourced true l | Raise _ => unsourced false l | NoFuel => False end).
Proof.
  unfold load_yocto_env, environ_get, glob, subprocess_run, print_error, print_info. cbv zeta.
  tw_go; try (left; apply calm_events; by repeat constructor). destruct a0; cbn [negb].
  2: { tw_go; left; apply calm_events; by repeat constructor. }
  tw_go; try (left; apply calm_events; by repeat constructor). destruct (List.filter _ _) as [|name rest]; cbn [map].
  { tw_go; left; apply calm_events; by repeat constructor. }
  tw_go; try (left; apply calm_events; by repeat constructor).
  match goal with x : completed |- _ => rename x into c end. destruct (returncode c =? 0)%Z eqn:Ec; cbn [negb].
  - tw_step. eapply tw_mono; [|apply tw_env_lines]. cbn beta.
    assert (∀ cwd argv, failed (PRun cwd env argv (Some (returncode c))) = false) as Hok
      by (intros; unfold failed; cbn; by rewrite Ec, andb_false_r).
    intros l env' [[]|e|] _ [-> Hl]; [| |done]; tw_go; left; unfold calm; cbn; apply Forall_singleton, Hok.
  - apply Z.eqb_neq in Ec. tw_go; right; [split; [done|]|];
      eexists (_ :: _ :: _ :: _ :: []), _, _, _, c, [_]; (split; [reflexivity|]).
    all: split_and!; [apply calm_events; by repeat constructor|done|done|by repeat constructor|].
    + done.
    + intros _ Hs. by apply Forall_inv in Hs.
Qed.
(** Where the environment could not be sourced, nothing but the report follows, and the
    script ends with status 1. *)
Lemma fs_require_yocto_env file : fail_stop (require_yocto_env file : M PS _).
Proof.
  intros env. unfold require_yocto_env. do 3 tw_step. case_bool_decide; [|by apply fs_ret]. tw_step.
  eapply tw_mono; [|apply tw_load_yocto_env_stops]. intros l env' [b|e|] Hr Hl; [| |done]; cbn.
  - destruct b; cbn [negb]; [apply tw_ret|apply tw_exit]; rewrite app_nil_r; destruct Hl as [Hl|[Hb Hl]]; try done; try by left.
    right. by eapply unsourced_stopped.
  - destruct Hl as [Hl|Hl]; [by left|right]. by eapply unsourced_stopped.
Qed.
Lemma fs_parse_args P argv : fail_stop (parse_args P argv : M PS _).
Proof. apply fs_calm. keeps_deep. Qed.
Lemma fs_newest first rest : fail_stop (newest first rest : M PS _).
Proof.
  apply fs_calm. unfold newest. keeps_tac. apply keeps_newest_from. intros. repeat constructor.
Qed.
Lemma fs_environ_get k d : fail_stop (environ_get k d : M PS _).
Proof. apply fs_calm. keeps_deep. Qed.
Lemma fs_unlink_all files : fail_stop (for_unit files (λ f, sys (EUnlink (path_str f))) : M PS _).
Proof. apply fs_calm. keeps_deep. Qed.
Lemma fs_probe cwd argv : probe argv = true → fail_stop (subprocess_run cwd argv : M PS _).
Proof.
  intros Hp. apply fs_calm. unfold subprocess_run. keeps_tac.
  apply keeps_lift_host_only, keeps_call_extends. intros o. apply Forall_cons.
  split; [|by apply Forall_nil]. unfold failed. cbn. by rewrite Hp.
Qed.
End shared.
#[export] Hint Resolve fs_change_to_project_root fs_require_yocto_env fs_parse_args fs_newest
  fs_environ_get fs_unlink_all : py.
#[export] Hint Extern 1 (fail_stop (subprocess_run _ _)) => (apply fs_probe; reflexivity) : py.

(** ** What was called, if a script returns *)

Section on_return.
Context {W : Type} `{Host W}.
Abbreviation PS := (environ * hst W)%type.

Definition on_return {A} (m : M PS A) (env : environ) (Q : A → list event → environ → Prop) : Prop :=
  tw m env (λ l env' r, match r with Ok a => Q a l env' | _ => True end).

Lemma or_mono {A} (m : M PS A) env (Q Q' : A → list event → environ → Prop) :
  (∀ a l env', Q a l env' → Q' a l env') → on_return m env Q → on_return m env Q'.
Proof. intros HQ. apply tw_mono. intros l env' [a|e|] _; [apply HQ|done|done]. Qed.

Lemma or_ret {A} (a : A) env (Q : A → list event → environ → Prop) :
  Q a [] env → on_return (mret a) env Q.
Proof. intros HQ. by apply tw_ret. Qed.
Lemma or_exit {A} z env (Q : A → list event → environ → Prop) : on_return (sys_exit z) env Q.
Proof. by apply tw_exit. Qed.
Lemma or_get env (Q : environ → list event → environ → Prop) :
  Q env [] env → on_return get_local env Q.
Proof. intros HQ. by apply tw_get. Qed.
Lemma or_bind {A B} (m : M PS A) (k : A → M PS B) env (Q : B → list event → environ → Prop) :
  on_return m env (λ a l env1, on_return (k a) env1 (λ b l' env2, Q b (l ++ l') env2)) →
  on_return (m ≫= k) env Q.
Proof.
  intros Hm. apply tw_bind. eapply tw_mono; [|exact Hm]. intros l env' [a|e|] Hr; cbn; done.
Qed.
Lemma or_sys {A} (e : eff A) env (Q : A → list event → environ → Prop) :
  (∀ a, Q a [Ev e (inl a)] env) → on_return (sys e) env Q.
Proof. intros HQ. apply tw_sys. intros [a|x] w w' _; cbn; [apply HQ|done]. Qed.

Lemma or_run_command cmd cwd msg env (Q : completed → list event → environ → Prop) :
  (∀ c, returncode c = 0%Z → Q c [Ev (ESubprocess cwd env cmd) (inl c)] env) →
  on_return (run_command cmd cwd true msg) env Q.
Proof.
  intros HQ. eapply tw_mono; [|apply tw_run_command]. intros l env' [c|e|] _; [|done|done].
  intros [-> (o & l2 & -> & Ho)]. destruct o as [c'|x].
  - cbn [andb] in Ho. destruct (returncode c' =? 0)%Z eqn:Ez; cbn [negb] in Ho.
    + destruct Ho as [-> [= ->]]. by apply HQ, Z.eqb_eq.
    + by destruct Ho as [(? & _ & ?)|(? & ? & _ & _ & ? & _ & ?)].
  - destruct (isinstance x KeyboardInterrupt); [by destruct Ho as (? & _ & ?)|by destruct Ho].
Qed.

(** Without [exit_on_fail] any status will do. *)
Lemma or_run_command_any cmd cwd msg env (Q : completed → list event → environ → Prop) :
  (∀ c, Q c [Ev (ESubprocess cwd env cmd) (inl c)] env) →
  on_return (run_command cmd cwd false msg) env Q.
Proof.
  intros HQ. eapply tw_mono; [|apply tw_run_command]. intros l env' [c|e|] _; [|done|done].
  intros [-> (o & l2 & -> & Ho)]. destruct o as [c'|x].
  - cbn [andb] in Ho. destruct Ho as [-> [= ->]]. apply HQ.
  - destruct (isinstance x KeyboardInterrupt); [by destruct Ho as (? & _ & ?)|by destruct Ho].
Qed.

Lemma or_subprocess_run cwd argv env (Q : completed → list event → environ → Prop) :
  (∀ c, Q c [Ev (ESubprocess cwd env argv) (inl c)] env) → on_return (subprocess_run cwd argv) env Q.
Proof. intros HQ. unfold subprocess_run. by apply or_bind, or_get, or_sys. Qed.

Lemma or_environ_get k d env (Q : string → list event → environ → Prop) :
  Q (match env !! k with Some v => v | None => d end) [] env → on_return (environ_get k d) env Q.
Proof. intros HQ. unfold environ_get. by apply or_bind, or_get, or_ret. Qed.

Lemma or_glob p before after env (Q : list ppath → list event → environ → Prop) :
  (∀ names, Q (map (λ x, PPath (p_root p) (p_parts p ++ [x])) (List.filter (star_match before after) names))
     [Ev (EScandir (path_str p)) (inl names)] env) →
  on_return (glob p before after) env Q.
Proof. intros HQ. unfold glob. apply or_bind, or_sys. intros names. by apply or_ret. Qed.

Lemma or_newest first rest env (Q : ppath → list event → environ → Prop) :
  (∀ f l, newest_result (first :: rest) env l env (Ok f) → Q f l env) →
  on_return (newest first rest) env Q.
Proof.
  intros HQ. eapply tw_mono; [|apply tw_newest]. intros l env' [f|e|] _; [|done|done].
  intros [-> Hf]. apply HQ. by split.
Qed.

Lemma or_change_to_project_root file env (Q : ppath → list event → environ → Prop) :
  (∀ root l env', root_result file env l env' (Ok root) → Q root l env') →
  on_return (change_to_project_root file) env Q.
Proof.
  intros HQ. eapply tw_mono; [|apply tw_change_to_project_root]. intros l env' [root|e|] _; [|done|done].
  apply HQ.
Qed.

Lemma or_parse_args P argv env (Q : namespace → list event → environ → Prop) :
  (∀ ns, parse_known P (tail argv) = PArgs ns → Q ns [] env) →
  on_return (parse_args P argv) env Q.
Proof.
  intros HQ. unfold parse_args. destruct (parse_known P (tail argv)) as [ns| |msg] eqn:E.
  - by apply or_ret, HQ.
  - apply or_bind, or_sys. intros []. apply or_exit.
  - apply or_bind, or_sys. intros []. apply or_exit.
Qed.

(** The SDK's environment is there: it was before, or it was loaded. *)
Definition sdk_ready (file : path) (env : environ) (l : list event) (env' : environ) : Prop :=
  (is_Some (env !! "OECORE_NATIVE_SYSROOT") ∧ l = [] ∧ env' = env) ∨
  (env !! "OECORE_NATIVE_SYSROOT" = None ∧ sdk_result file env l env' (Ok true)).

Lemma or_require_yocto_env file env (Q : unit → list event → environ → Prop) :
  (∀ l env', sdk_ready file env l env' → Q tt l env') →
  on_return (require_yocto_env file) env Q.
Proof.
  intros HQ. unfold require_yocto_env. apply or_bind, or_get. case_bool_decide as Ho.
  - apply or_bind. eapply tw_mono; [|apply tw_load_yocto_env].
    intros l env' [[]|e|] _ Hs; [|by apply or_exit|done|done].
    apply or_ret. cbn [app]. rewrite app_nil_r. apply HQ. by right.
  - apply or_ret, HQ. left. split; [|done]. by apply not_eq_None_Some.
Qed.
End on_return.

(** The processes of the parts that run none, or only the SDK's script. *)
Lemma runs_dotenv root env l env' r : dotenv_result root env l env' (Ok r) → runs l = [].
Proof. cbn. by intros [[-> _]|(h & text & -> & _)]. Qed.
Lemma runs_root file env l env' root : root_result file env l env' (Ok root) → runs l = [].
Proof.
  intros [_ (here & l' & _ & -> & Hd)]. apply runs_dotenv in Hd. cbn. exact Hd.
Qed.
Lemma runs_mtimes files keys : runs (mtimes files keys) = [].
Proof.
  revert keys. induction files as [|f files IH]; intros [|k keys]; [done..|].
  change (runs (mtimes (f :: files) (k :: keys))) with (runs (mtimes files keys)). apply IH.
Qed.
Lemma runs_newest files env l env' f : newest_result files env l env' (Ok f) → runs l = [].
Proof. intros [_ (keys & i & _ & -> & _)]. apply runs_mtimes. Qed.

Lemma changes_mtimes files keys : changes (mtimes files keys) = [].
Proof.
  revert keys. induction files as [|f files IH]; intros [|k keys]; [done..|].
  change (changes (mtimes (f :: files) (k :: keys))) with (changes (mtimes files keys)). apply IH.
Qed.
Lemma changes_newest files env l env' f : newest_result files env l env' (Ok f) → changes l = [].
Proof. intros [_ (keys & i & _ & -> & _)]. apply changes_mtimes. Qed.

(** The directory was entered, the [.env] file loaded and the SDK's environment set up. *)
Definition prepared (file : path) (env : environ) (l : list event) (env' : environ) : Prop :=
  ∃ root env1 l1 l2, l = l1 ++ l2 ∧ root_result file env l1 env1 (Ok root) ∧
    sdk_ready file env1 l2 env'.

(** A command that ran in directory [cwd] with status 0. *)
Definition ran (cwd : option path) (env : environ) (argv : list string) : prun :=
  PRun cwd env argv (Some 0%Z).

(** The script ends, and if it returns, its calls and the environment it leaves are in [Q]. *)
Definition if_returns {W} `{Host W} (m : M (environ * hst W) unit) (env : environ) (st : hst W)
  (Q : list event → environ → Prop) : Prop :=
  ∃ r env' st' l, returns m (env, st) r (env', st') ∧ trace st' = trace st ++ l ∧
    match r with Ok _ => Q l env' | Raise _ => True | NoFuel => False end.

Lemma or_post {W} `{Host W} (m : M (environ * hst W) unit) env (st : hst W)
  (Q : list event → environ → Prop) :
  total m → on_return m env (λ _ l env', Q l env') → if_returns m env st Q.
Proof.
  intros Ht Hm. destruct (tw_post m env st _ Ht Hm) as (r & env' & st' & l & Hr & Hl & HQ).
  exists r, env', st', l. split; [done|]. split; [done|]. destruct r; [done|done|].
  by destruct Hr as [Hr _].
Qed.

Lemma ran_status cwd env argv c :
  returncode c = 0%Z → run_of (Ev (ESubprocess cwd env argv) (inl c)) = [ran cwd env argv].
Proof. intros Hc. unfold run_of, ran. cbn. by rewrite Hc. Qed.

Lemma runs_cons ev l : runs (ev :: l) = run_of ev ++ runs l.
Proof. done. Qed.
Lemma runs_nil : runs [] = [].
Proof. done. Qed.

(** The processes of an explicit list of calls. *)
Ltac runs_tac :=
  repeat first [rewrite runs_app | rewrite runs_cons | rewrite runs_nil];
  repeat match goal with H : runs ?l = _ |- context [runs ?l] => rewrite H end;
  unfold run_of, ran; cbn [ev_eff ev_out app];
  repeat match goal with H : returncode _ = 0%Z |- _ => rewrite H; clear H end;
  rewrite ?app_nil_r; cbn [app]; try reflexivity.

(** A call is among the calls made. *)
Ltac called :=
  lazymatch goal with
  | |- _ ∈ _ ++ _ => apply elem_of_app; first [left; called | right; called]
  | |- _ ∈ _ :: _ => first [left | right; called]
  | |- _ ∈ _ => assumption
  end.

Ltac or_step :=
  lazymatch goal with
  | |- on_return (mbind _ _) _ _ => apply or_bind
  | |- on_return (mret _) _ _ => apply or_ret
  | |- on_return (sys_exit _) _ _ => apply or_exit
  | |- on_return get_local _ _ => apply or_get
  | |- on_return (sys _) _ _ => apply or_sys; let a := fresh "a" in intros a;
      lazymatch type of a with unit => destruct a | _ => idtac end
  | |- on_return (print_info _) _ _ => apply or_sys; intros []
  | |- on_return (print_success _) _ _ => apply or_sys; intros []
  | |- on_return (print_error _) _ _ => apply or_sys; intros []
  | |- on_return (run_command _ _ _ _) _ _ =>
      apply or_run_command; let c := fresh "c" in let Hc := fresh "Hc" in intros c Hc
  | |- on_return (environ_get _ _) _ _ => apply or_environ_get
  | |- on_return (change_to_project_root _) _ _ =>
      apply or_change_to_project_root; let root := fresh "root" in let l := fresh "l" in
      let env1 := fresh "env1" in let Hroot := fresh "Hroot" in intros root l env1 Hroot
  | |- on_return (parse_args _ _) _ _ =>
      apply or_parse_args; let ns := fresh "ns" in let Hns := fresh "Hns" in intros ns Hns
  | |- on_return (require_yocto_env _) _ _ =>
      apply or_require_yocto_env; let l := fresh "l" in let env1 := fresh "env1" in
      let Hsdk := fresh "Hsdk" in intros l env1 Hsdk
  end; cbn beta iota.
Ltac or_go := repeat or_step.

(** ** Parts that run no process and change no file *)

Definition quiet (ev : event) : Prop := run_of ev = [] ∧ change_of ev = [].

Lemma quiet_runs l : Forall quiet l → runs l = [] ∧ changes l = [].
Proof.
  induction 1 as [|ev l [Hr Hc] _ [IHr IHc]]; [done|].
  change (runs (ev :: l)) with (run_of ev ++ runs l).
  change (changes (ev :: l)) with (change_of ev ++ changes l). by rewrite Hr, Hc, IHr, IHc.
Qed.

Lemma tw_root_quiet {W} `{Host W} file env :
  tw (W:=W) (change_to_project_root file) env (λ l env' r,
    root_result file env l env' r ∧ runs l = [] ∧ changes l = []).
Proof.
  apply tw_and; [apply tw_change_to_project_root|].
  eapply tw_mono; [|apply (tw_extends quiet (change_to_project_root file))].
  - intros l env' r _. apply quiet_runs.
  - keeps_deep.
Qed.

Lemma or_root_quiet {W} `{Host W} file env (Q : ppath → list event → environ → Prop) :
  (∀ root l env', root_result file env l env' (Ok root) → runs l = [] → changes l = [] →
     Q root l env') →
  on_return (W:=W) (change_to_project_root file) env Q.
Proof.
  intros HQ. eapply tw_mono; [|apply tw_root_quiet].
  intros l env' [root|e|] _; [|done|done]. intros (Hr & Hl & Hc). by apply HQ.
Qed.
