(* ===== verification/BuildScripts.v ===== *)
(** * The scripts around CMake: build, run, test, format, coverage, valgrind, clean

    One [<script>_main] per script, from [sys.argv] to its end.  [file] is
    [__file__] of utils.py, as in [Utils.v]. *)

From Stdlib Require Import Ascii ZArith Lia.
From stdpp Require Import base list strings gmap.
From S2P Require Import Prelude PyText Host Paths Argparse Utils ScriptLogic UtilsSpec Processes.

Definition DEFAULT_PRESET : string := "yocto-debug".

(** build.py's parser *)
Definition build_parser : parser :=
  Parser [("-h", AHelp); ("--help", AHelp);
          ("-c", AFlag "configure"); ("--configure", AFlag "configure")]
    (Some "preset")
    [("preset", VText DEFAULT_PRESET); ("configure", VFlag false)].

Definition build_dir (preset : string) : ppath := Path "build" / preset.

(** run.py's executable *)
Definition run_executable (preset target : string) : ppath :=
  Path "build" / preset / "apps" / ("blank_chat_" +:+ target).

(** valgrind.py's command line: [insert(2, ...)] for memcheck *)
Definition valgrind_cmd (tool executable : string) : list string :=
  let cmd := ["valgrind"; "--tool=" +:+ tool; "--error-exitcode=1"; executable] in
  if bool_decide (tool = "memcheck") then take 2 cmd ++ ["--leak-check=full"] ++ drop 2 cmd else cmd.

Section scripts.
Context {W : Type} `{Host W} (file : path).
Abbreviation PS := (environ * hst W)%type.

(** Copying the compilation database to the project root. *)
Definition copy_compile_commands (build_dir : ppath) : M PS unit :=
  let compile_cmds := path_str (build_dir / "compile_commands.json") in
  let root_compile_cmds := path_str (Path "compile_commands.json") in
  there ← sys (EExists compile_cmds);
  if (there : bool) then
    old ← sys (EExists root_compile_cmds);
    old ← (if (old : bool) then mret true else sys (EIsSymlink root_compile_cmds));
    (if (old : bool) then sys (EUnlink root_compile_cmds) else mret tt);;
    sys (ECopy2 compile_cmds root_compile_cmds);;
    print_info "Copied compile_commands.json to project root."
  else mret tt.

Definition build_main (argv : list string) : M PS unit :=
  change_to_project_root file;;
  args ← parse_args build_parser argv;
  require_yocto_env file;;
  let preset := get_text args "preset" in
  let dir := build_dir preset in
  force ← (if get_flag args "configure" then mret true
           else is_dir ← sys (EIsDir (path_str dir)); mret (negb is_dir));
  (if (force : bool) then
     print_info ("Configuring CMake (Preset: " +:+ preset +:+ ")...");;
     run_command ["cmake"; "--preset"; preset] None true "CMake configuration failed.";;
     mret tt
   else print_info "Build directory exists. Skipping configuration (use -c to force).");;
  print_info ("Building the project (Preset: " +:+ preset +:+ ")...");;
  run_command ["cmake"; "--build"; path_str dir] None true "Build failed.";;
  copy_compile_commands dir;;
  print_success "Build completed successfully!".

Definition run_main (argv : list string) : M PS unit :=
  change_to_project_root file;;
  let target := get_arg argv 1 "server" in
  let preset := get_arg argv 2 DEFAULT_PRESET in
  if negb (bool_decide (target ∈ ["server"; "client"])) then
    print_error ("Target unknown: " +:+ target +:+ nl +:+ "Usage: " +:+ nth 0 argv EmptyString
                 +:+ " [server|client] [preset]");;
    sys_exit 1
  else
    let executable := path_str (run_executable preset target) in
    there ← sys (EIsFile executable);
    if (there : bool) then
      print_info ("Running " +:+ target +:+ " [" +:+ preset +:+ "]...");;
      run_command [executable] None true "Command failed.";;
      mret tt
    else
      print_error ("Executable not found: " +:+ executable);;
      print_info ("Build the project first using: python3 ./scripts/build.py " +:+ preset);;
      sys_exit 1.

(** The check that the preset was built, of test.py and valgrind.py. *)
Definition require_build_dir (preset : string) : M PS unit :=
  is_dir ← sys (EIsDir (path_str (build_dir preset)));
  if negb is_dir then
    print_error ("Build directory for '" +:+ preset +:+ "' not found.");;
    print_info ("Run: python3 ./scripts/build.py " +:+ preset +:+ " first");;
    sys_exit 1
  else mret tt.

Definition test_main (argv : list string) : M PS unit :=
  change_to_project_root file;;
  let preset := get_arg argv 1 DEFAULT_PRESET in
  require_yocto_env file;;
  require_build_dir preset;;
  print_info ("Running unit tests (Preset: " +:+ preset +:+ ")...");;
  run_command ["ctest"; "--output-on-failure"] (Some (path_str (build_dir preset))) true
    "One or more tests failed.";;
  mret tt.

Definition format_main (argv : list string) : M PS unit :=
  change_to_project_root file;;
  let preset := get_arg argv 1 DEFAULT_PRESET in
  require_yocto_env file;;
  let dir := path_str (build_dir preset) in
  is_dir ← sys (EIsDir dir);
  (if negb is_dir then
     print_info ("Build directory not found. Configuring format target (Preset: " +:+ preset +:+ ")...");;
     run_command ["cmake"; "--preset"; preset] None true "CMake configuration failed.";;
     mret tt
   else mret tt);;
  print_info "Formatting source code...";;
  run_command ["cmake"; "--build"; dir; "--target"; "format"] None true "Formatting failed.";;
  print_success "Format done.".

Definition coverage_main : M PS unit :=
  change_to_project_root file;;
  let preset := "yocto-coverage" in
  require_yocto_env file;;
  let dir := build_dir preset in
  print_info ("Setting up environment for code coverage (Preset: " +:+ preset +:+ ")...");;
  run_command ["cmake"; "--preset"; preset] None true
    ("CMake configuration failed for preset " +:+ preset +:+ ".");;
  print_info "Building the project...";;
  run_command ["cmake"; "--build"; path_str dir] None true "Build failed.";;
  print_info "Running tests and generating coverage report...";;
  run_command ["cmake"; "--build"; path_str dir; "--target"; "coverage"] None true
    "Failed to generate coverage report.";;
  print_success "Coverage report generated successfully!";;
  report ← sys (EResolve (path_str (dir / "coverage_report" / "index.html")));
  print_info ("Open this file in your browser: " +:+ report).

Definition valgrind_main (argv : list string) : M PS unit :=
  change_to_project_root file;;
  let preset := DEFAULT_PRESET in
  require_yocto_env file;;
  let tool := get_arg argv 1 "memcheck" in
  require_build_dir preset;;
  let executable := path_str (build_dir preset / "tests" / "blank_chat_ut") in
  there ← sys (EExists executable);
  if negb there then
    print_error ("Test executable not found: " +:+ executable);;
    sys_exit 1
  else
    print_info ("Running Valgrind (" +:+ tool +:+ ") on tests using SYSTEM Valgrind...");;
    run_command (valgrind_cmd tool executable) None true
      ("Valgrind (" +:+ tool +:+ ") found issues!");;
    mret tt.

Definition clean_main : M PS unit :=
  project_root ← change_to_project_root file;
  let dir := path_str (project_root / "build") in
  there ← sys (EExists dir);
  if (there : bool) then
    print_info ("Removing " +:+ dir +:+ "...");;
    sys (ERmtree dir);;
    print_success (dir +:+ " removed successfully.")
  else
    print_info ("Build directory " +:+ dir +:+ " does not exist. Nothing to clean.").

End scripts.

(** ** What the scripts do when they return *)

(** The compilation database of the preset replaces the one in the project root. *)
Definition database_copied (dir : ppath) (l : list event) : Prop :=
  let source := path_str (dir / "compile_commands.json") in
  let dest := path_str (Path "compile_commands.json") in
  (Ev (EExists source) (inl false) ∈ l ∧ changes l = []) ∨
  (Ev (EExists source) (inl true) ∈ l ∧
   ((changes l = [CUnlink dest; CCopy source dest] ∧
     (Ev (EExists dest) (inl true) ∈ l ∨ Ev (EIsSymlink dest) (inl true) ∈ l)) ∨
    (changes l = [CCopy source dest] ∧
     Ev (EExists dest) (inl false) ∈ l ∧ Ev (EIsSymlink dest) (inl false) ∈ l))).

Lemma or_copy_compile_commands {W} `{Host W} dir env (Q : unit → list event → environ → Prop) :
  (∀ l, runs l = [] → database_copied dir l → Q tt l env) →
  on_return (W:=W) (copy_compile_commands dir) env Q.
Proof.
  intros HQ. unfold copy_compile_commands, print_info. cbv zeta. or_go.
  destruct a; or_go; [|apply HQ; [done|left; split; [left|done]]].
  destruct a; or_go.
  - apply HQ; [done|]. right. split; [left|]. left. split; [done|]. left. right. left.
  - destruct a; or_go; (apply HQ; [done|]); right; (split; [left|]).
    + left. split; [done|]. right. do 2 right. left.
    + right. split; [done|]. split; [right; left|do 2 right; left].
Qed.

Lemma database_copied_app dir a l b :
  changes a = [] → changes b = [] → database_copied dir l → database_copied dir (a ++ l ++ b).
Proof.
  intros Ha Hb. unfold database_copied. cbv zeta. rewrite !changes_app, Ha, Hb, app_nil_r.
  cbn [app]. set_solver.
Qed.

(** Configuring was asked for, or the build directory was not there. *)
Definition configured_if (forced : bool) (dir : path) (configured : bool) (l : list event) : Prop :=
  if forced then configured = true else Ev (EIsDir dir) (inl (negb configured)) ∈ l.

Lemma or_is_configured {W} `{Host W} (forced : bool) (dir : path) env :
  on_return (W:=W) (if forced then mret true
      else is_dir ← sys (EIsDir dir); mret (negb is_dir)) env
    (λ configured l env', env' = env ∧ runs l = [] ∧ changes l = [] ∧
       configured_if forced dir configured l).
Proof.
  destruct forced; or_go; split_and!; try done. unfold configured_if. rewrite negb_involutive. left.
Qed.

Lemma or_configure {W} `{Host W} (configured : bool) info skip preset msg env :
  on_return (W:=W) (if configured then
      print_info info;; run_command ["cmake"; "--preset"; preset] None true msg;; mret tt
    else print_info skip) env
    (λ _ l env', env' = env ∧
       runs l = (if configured then [ran None env ["cmake"; "--preset"; preset]] else []) ∧
       changes l = []).
Proof. destruct configured; or_go; (split_and!; [done|runs_tac|done]). Qed.

(** C4: If build.py returns, on any host, then it had entered the project root, loaded the
    [.env] file and set up the SDK's environment; it ran [cmake --preset] exactly if [-c]
    was given or the preset had no build directory, then [cmake --build] on that
    directory, each with status 0 and in that environment, and no other command; and it
    left the preset's compilation database, if there is one, as the only change in the
    project root, a file or link of that name being removed first. *)
Theorem build_success {W} `{Host W} file argv env (st : hst W) :
  if_returns (build_main file argv) env st (λ l env',
    ∃ ns l0 l1 configured, parse_known build_parser (tail argv) = PArgs ns ∧
      l = l0 ++ l1 ∧ prepared file env l0 env' ∧
      let preset := get_text ns "preset" in
      let dir := build_dir preset in
      configured_if (get_flag ns "configure") (path_str dir) configured l1 ∧
      runs l1 = (if configured then [ran None env' ["cmake"; "--preset"; preset]] else []) ++
                [ran None env' ["cmake"; "--build"; path_str dir]] ∧
      database_copied dir l1).
Proof.
  apply or_post; [total_deep|]. unfold build_main. cbv zeta. or_go.
  eapply or_mono; [|apply or_is_configured]. intros configured l1 ? (-> & Hr1 & Hc1 & Hf).
  apply or_bind. eapply or_mono; [|apply or_configure]. intros [] l2 ? (-> & Hr2 & Hc2). or_go.
  apply or_copy_compile_commands. intros l3 Hr3 Hdb. or_go.
  exists ns, (l ++ l0). eexists. exists configured.
  split; [done|]. split; [by rewrite app_nil_l, app_assoc|].
  split; [by exists root, env1, l, l0|]. split; [|split].
  - destruct (get_flag ns "configure"); [done|]. set_solver.
  - runs_tac.
  - rewrite !app_assoc, <- (app_assoc _ l3). apply database_copied_app; [|done|done].
    rewrite !changes_app, Hc1, Hc2. done.
Qed.

(** The preset's build directory was there. *)
Definition build_dir_seen (preset : string) (l : list event) : Prop :=
  Ev (EIsDir (path_str (build_dir preset))) (inl true) ∈ l.

Lemma or_require_build_dir {W} `{Host W} preset env (Q : unit → list event → environ → Prop) :
  Q tt [Ev (EIsDir (path_str (build_dir preset))) (inl true)] env →
  on_return (W:=W) (require_build_dir preset) env Q.
Proof. intros HQ. unfold require_build_dir. or_go. destruct a; cbn [negb]; by or_go. Qed.

(** C24: If format.py, coverage.py, test.py or valgrind.py returns, on any host, then it had
    entered the project root, loaded the [.env] file and set up the SDK's environment, and
    in that environment it ran these commands and no others, each with status 0: for
    format, [cmake --preset] exactly if the preset had no build directory, and the
    [format] target; for coverage, configuration, build and the [coverage] target, in
    this order; for test, [ctest] in the preset's build directory, which was there; for
    valgrind, the tool on the unit tests, with the leak check for memcheck alone. *)
Theorem cmake_scripts_success {W} `{Host W} file argv env (st : hst W) :
  let preset := get_arg argv 1 DEFAULT_PRESET in
  let dir := path_str (build_dir preset) in
  if_returns (format_main file argv) env st (λ l env', ∃ l0 l1 configured,
    l = l0 ++ l1 ∧ prepared file env l0 env' ∧ configured_if false dir configured l1 ∧
    runs l1 = (if configured then [ran None env' ["cmake"; "--preset"; preset]] else []) ++
              [ran None env' ["cmake"; "--build"; dir; "--target"; "format"]]) ∧
  if_returns (coverage_main file) env st (λ l env', ∃ l0 l1,
    l = l0 ++ l1 ∧ prepared file env l0 env' ∧
    runs l1 = [ran None env' ["cmake"; "--preset"; "yocto-coverage"];
               ran None env' ["cmake"; "--build"; "build/yocto-coverage"];
               ran None env' ["cmake"; "--build"; "build/yocto-coverage"; "--target"; "coverage"]]) ∧
  if_returns (test_main file argv) env st (λ l env', ∃ l0 l1,
    l = l0 ++ l1 ∧ prepared file env l0 env' ∧ build_dir_seen preset l1 ∧
    runs l1 = [ran (Some dir) env' ["ctest"; "--output-on-failure"]]) ∧
  if_returns (valgrind_main file argv) env st (λ l env', ∃ l0 l1,
    l = l0 ++ l1 ∧ prepared file env l0 env' ∧ build_dir_seen DEFAULT_PRESET l1 ∧
    let tool := get_arg argv 1 "memcheck" in
    runs l1 = [ran None env' (["valgrind"; "--tool=" +:+ tool] ++
      (if bool_decide (tool = "memcheck") then ["--leak-check=full"] else []) ++
      ["--error-exitcode=1"; "build/yocto-debug/tests/blank_chat_ut"])]).
Proof.
  intros preset dir. split_and!; (apply or_post; [total_deep|]).
  - unfold format_main. cbv zeta. or_go. destruct a; cbn [negb]; or_go.
    + exists (l ++ l0). eexists. exists false. split; [by rewrite app_assoc|].
      split; [by exists root, env1, l, l0|]. split; [left|runs_tac].
    + exists (l ++ l0). eexists. exists true. split; [by rewrite app_assoc|].
      split; [by exists root, env1, l, l0|]. split; [left|runs_tac].
  - unfold coverage_main. cbv zeta. or_go.
    exists (l ++ l0). eexists. split; [by rewrite app_assoc|].
    split; [by exists root, env1, l, l0|]. runs_tac.
  - unfold test_main. cbv zeta. or_go. apply or_require_build_dir. or_go.
    exists (l ++ l0). eexists. split; [by rewrite app_assoc|].
    split; [by exists root, env1, l, l0|]. split; [left|runs_tac].
  - unfold valgrind_main. cbv zeta. or_go. apply or_require_build_dir. or_go.
    destruct a; cbn [negb]; or_go.
    exists (l ++ l0). eexists. split; [by rewrite app_assoc|].
    split; [by exists root, env1, l, l0|]. split; [left|]. runs_tac.
    unfold valgrind_cmd. cbv zeta. case_bool_decide; reflexivity.
Qed.

Lemma run_executable_slash preset target :
  target ∈ ["server"; "client"] → contains "/" (path_str (run_executable preset target)) = true.
Proof.
  intros Ht. apply path_str_slash. unfold run_executable.
  rewrite (div_parts (Path "build" / preset / "apps")), (div_parts _ "apps"), !length_app;
    [|done|by apply list_elem_of_In in Ht as [<-|[<-|[]]]].
  apply list_elem_of_In in Ht as [<-|[<-|[]]];
    change (length (p_parts (Path "apps"))) with 1%nat;
    [change (length (p_parts (Path ("blank_chat_" +:+ "server")))) with 1%nat
    |change (length (p_parts (Path ("blank_chat_" +:+ "client")))) with 1%nat]; lia.
Qed.

(** C25: If run.py returns, on any host, it ran one program, with status 0: the server or
    the client that was asked for, of the preset that was asked for, which was there; the
    name the program is run by has a slash in it, so it is not searched for in [PATH]. *)
Theorem run_success {W} `{Host W} file argv env (st : hst W) :
  if_returns (run_main file argv) env st (λ l env', ∃ target,
    let executable := path_str (run_executable (get_arg argv 2 DEFAULT_PRESET) target) in
    target = get_arg argv 1 "server" ∧ target ∈ ["server"; "client"] ∧
    contains "/" executable = true ∧
    Ev (EIsFile executable) (inl true) ∈ l ∧ runs l = [ran None env' [executable]]).
Proof.
  apply or_post; [total_deep|]. unfold run_main. cbv zeta. or_go.
  case_bool_decide as Ht; cbn [negb]; or_go. destruct a; or_go.
  exists (get_arg argv 1 "server"). split_and!; [done|done| |set_solver|].
  - by apply run_executable_slash.
  - apply runs_root in Hroot. runs_tac.
Qed.

Definition clean_dir (here : path) : path := path_str (root_from here / "build").

(** What clean.py asked for. *)
Definition clean_result (file : path) (l : list event) (r : res unit) : Prop :=
  runs l = [] ∧
  (changes l = [] ∨ ∃ here, Ev (EResolve file) (inl here) ∈ l ∧
     Ev (EExists (clean_dir here)) (inl true) ∈ l ∧ changes l = [CRmtree (clean_dir here)]) ∧
  match r with
  | Ok _ => ∃ here, Ev (EResolve file) (inl here) ∈ l ∧
      (Ev (EExists (clean_dir here)) (inl false) ∈ l ∨ Ev (ERmtree (clean_dir here)) (inl tt) ∈ l)
  | Raise _ => True
  | NoFuel => False
  end.

(** Clean.py, whatever the host does, runs no command and asks for no change but the
    removal of [build] in the project root, and for that one only after it was seen to
    exist; if it returns, [build] was not there or its removal succeeded. *)
Theorem clean_only_build {W} `{Host W} file env (st : hst W) :
  ∃ r env' st' l, returns (clean_main file) (env, st) r (env', st') ∧
    trace st' = trace st ++ l ∧ clean_result file l r.
Proof.
  apply (tw_post (clean_main file) env st (λ l _ r, clean_result file l r)); [total_deep|].
  unfold clean_main. tw_step. eapply tw_mono; [|apply tw_root_quiet].
  intros l env' [root|e|] Hr ([_ Hroot] & Hl & Hc); [|by split_and!; [|left|]|done].
  destruct Hroot as (here & l' & -> & El & _).
  assert (Ev (EResolve file) (inl here) ∈ l) as Hin by (rewrite El; left).
  fold (clean_dir here). unfold print_info, print_success. tw_go.
  - destruct a; tw_go; (split; [runs_tac|]); rewrite ?changes_app, Hc;
      (split; [first [left; reflexivity | right; exists here; split_and!; [called|called|reflexivity]]|]);
      try exact I; exists here; (split; [called|]).
    + right. destruct a0. called.
    + left. called.
  - split; [runs_tac|]. rewrite changes_app, Hc. auto.
Qed.
