(* ===== verification/SdkScripts.v ===== *)
(** * The SDK scripts: download_sdk.py and upload_sdk.py *)

From Stdlib Require Import Ascii ZArith Lia.
From stdpp Require Import base list strings gmap.
From S2P Require Import Prelude PyText Host Paths Argparse Utils ScriptLogic UtilsSpec Processes.

Definition download_parser (default_dest : string) : parser :=
  Parser [("-h", AHelp); ("--help", AHelp);
          ("--dest", AStore "dest" None); ("--version", AStore "version" None)]
    None
    [("dest", VText default_dest); ("version", VText "sdk-latest")].

Definition upload_parser : parser :=
  Parser [("-h", AHelp); ("--help", AHelp); ("--version", AStore "version" None)]
    None [("version", VText "1.0.0")].

Definition default_dest (project_root : ppath) : string :=
  path_str (path_parent project_root / "yocto-dev" / "downloads").

Definition download_cmd (version dest_dir : string) : list string :=
  ["gh"; "release"; "download"; version] ++
  ["--pattern"; "*.sh"; "--dir"; dest_dir; "--clobber"].

Definition install_cmd (installer target_sdk_dir : string) : list string :=
  [installer; "-y"; "-d"; target_sdk_dir].

Definition TAG : string := "sdk-latest".

Definition sdk_deploy_dir (project_root : ppath) : ppath :=
  path_parent project_root / "yocto-dev" / "poky" / "build" / "tmp" / "deploy" / "sdk".

Definition create_cmd (sdk_file : string) : list string :=
  ["gh"; "release"; "create"; TAG; sdk_file; "--title"; "Yocto SDK (Latest)";
   "--notes"; "Automated Yocto SDK rolling release."].
Definition delete_cmd : list string := ["gh"; "release"; "delete"; TAG; "-y"; "--cleanup-tag"].
Definition view_cmd : list string := ["gh"; "release"; "view"; TAG].

Section scripts.
Context {W : Type} `{Host W} (file : path).
Abbreviation PS := (environ * hst W)%type.

Definition download_main (argv : list string) : M PS unit :=
  project_root ← change_to_project_root file;
  args ← parse_args (download_parser (default_dest project_root)) argv;
  print_info "Fetching the SDK from GitHub Releases...";;
  let dest_dir := Path (get_text args "dest") in
  sys (EMkdir (path_str dest_dir));;
  old_files ← glob dest_dir EmptyString ".sh";
  for_unit old_files (λ old_file, sys (EUnlink (path_str old_file)));;
  let gh_cmd := download_cmd (get_text args "version") (path_str dest_dir) in
  print_info "Downloading... This might take a while depending on your network connection...";;
  run_command gh_cmd None true
    "Download failed. Ensure 'gh' is authenticated and the release exists.";;
  downloaded_files ← glob dest_dir EmptyString ".sh";
  match downloaded_files with
  | [] =>
      print_error "Failed to find the downloaded .sh file.";; sys_exit 1
  | first :: rest =>
      dest_file ← newest first rest;
      print_info ("Downloaded SDK file identified: " +:+ path_name dest_file);;
      sys (EChmod (path_str dest_file) 493);;
      print_success "SDK downloaded successfully!";;
      let default_install_dir := path_parent project_root / "yocto-dev" / "sdk" in
      target_sdk_dir ← environ_get "YOCTO_SDK_DIR" (path_str default_install_dir);
      print_info ("Extracting and installing SDK to " +:+ target_sdk_dir +:+ "...");;
      print_info "This will take a minute or two...";;
      run_command (install_cmd (path_str dest_file) target_sdk_dir) None true
        "SDK installation failed.";;
      print_success "SDK installed successfully!";;
      print_info "You can safely delete the downloaded .sh file if you want to save space:";;
      print_info ("  rm " +:+ path_str dest_file);;
      print_success "Your builds with the 'yocto-debug' preset will now work automatically!"
  end.

Definition upload_main (argv : list string) : M PS unit :=
  project_root ← change_to_project_root file;
  parse_args upload_parser argv;;
  let sdk_dir := sdk_deploy_dir project_root in
  there ← sys (EExists (path_str sdk_dir));
  if negb there then
    print_error ("SDK directory not found: " +:+ path_str sdk_dir);;
    print_info "Did you generate the SDK first using 'python3 scripts/build_yocto.py --sdk'?";;
    sys_exit 1
  else
    print_info "Searching for the SDK installation script...";;
    sdk_files ← glob sdk_dir EmptyString ".sh";
    match sdk_files with
    | [] =>
        print_error "No SDK .sh file found in the deploy directory.";; sys_exit 1
    | first :: rest =>
        sdk_file ← newest first rest;
        print_info ("Found SDK file: " +:+ path_name sdk_file);;
        print_info ("Checking for existing GitHub Release (Tag: " +:+ TAG +:+ ")...");;
        check_release ← subprocess_run None view_cmd;
        (if (returncode check_release =? 0)%Z then
           print_info ("Release " +:+ TAG +:+ " exists. Deleting it to clean up old artifacts...");;
           run_command delete_cmd None true ("Failed to delete old release " +:+ TAG +:+ ".");;
           mret tt
         else mret tt);;
        print_info ("Creating fresh release " +:+ TAG +:+ " and uploading file...");;
        print_info "This might take a while depending on your upload speed.";;
        run_command (create_cmd (path_str sdk_file)) None true
          ("Failed to create release " +:+ TAG +:+ " and upload SDK. Make sure GH_TOKEN is set in CI or you are logged into gh cli locally.");;
        print_success "SDK uploaded successfully to GitHub Releases!"
    end.

End scripts.

(** ** What the scripts do when they return *)

(** The installers among the names of a directory. *)
Definition installers (dir : ppath) (names : list string) : list ppath :=
  map (λ x, PPath (p_root dir) (p_parts dir ++ [x])) (List.filter (star_match EmptyString ".sh") names).

Lemma or_unlink_all {W} `{Host W} files env :
  on_return (W:=W) (for_unit files (λ f, sys (EUnlink (path_str f)))) env
    (λ _ l env', env' = env ∧ runs l = [] ∧ changes l = map (λ f, CUnlink (path_str f)) files).
Proof.
  induction files as [|f files IH]; cbn [for_unit].
  - by apply or_ret.
  - apply or_bind, or_sys. intros []. eapply or_mono; [|exact IH].
    intros [] l env' (-> & Hr & Hc). split_and!; [done|by runs_tac|].
    by rewrite changes_app, Hc.
Qed.

(** Where the SDK is installed. *)
Definition install_dir (env : environ) (project_root : ppath) : string :=
  match env !! "YOCTO_SDK_DIR" with
  | Some v => v
  | None => path_str (path_parent project_root / "yocto-dev" / "sdk")
  end.

(** C14: If download_sdk.py returns, on any host, then in this order: the destination was
    made and every installer that was in it removed; [gh release download] of the asked
    version ran with status 0; of the installers then in the destination the newest was
    made executable, which is the only other change; and that file was run with status 0
    to install into [YOCTO_SDK_DIR], or into the default directory beside the project.
    Nothing else was run. *)
Theorem download_success {W} `{Host W} file argv env (st : hst W) :
  if_returns (download_main file argv) env st (λ l env', ∃ root ns l0 la c lb c' lc old names installer lm,
    root_result file env l0 env' (Ok root) ∧
    parse_known (download_parser (default_dest root)) (tail argv) = PArgs ns ∧
    let dest := Path (get_text ns "dest") in
    let fetch := download_cmd (get_text ns "version") (path_str dest) in
    let install := install_cmd (path_str installer) (install_dir env' root) in
    l = l0 ++ la ++ Ev (ESubprocess None env' fetch) (inl c) :: lb ++
        Ev (ESubprocess None env' install) (inl c') :: lc ∧
    Ev (EScandir (path_str dest)) (inl old) ∈ la ∧
    changes la = CMkdir (path_str dest) :: map (λ f, CUnlink (path_str f)) (installers dest old) ∧
    Ev (EScandir (path_str dest)) (inl names) ∈ lb ∧ lm ⊆ lb ∧
    newest_result (installers dest names) env' lm env' (Ok installer) ∧
    changes lb = [CChmod (path_str installer) 493] ∧ changes lc = [] ∧
    runs l = [ran None env' fetch; ran None env' install]).
Proof.
  apply or_post; [total_deep|]. unfold download_main. cbv zeta.
  apply or_bind, or_root_quiet. intros root l0 env' Hroot Hr0 Hc0. or_go.
  apply or_glob. intros old. fold (installers (Path (get_text ns "dest")) old). or_step.
  eapply or_mono; [|apply or_unlink_all]. intros [] lu ? (-> & Hru & Hcu). or_go.
  apply or_glob. intros names. fold (installers (Path (get_text ns "dest")) names).
  destruct (installers _ names) as [|first rest] eqn:Ei; [by or_go|]. or_step.
  apply or_newest. intros installer lm Hn. or_go.
  pose proof (runs_newest _ _ _ _ _ Hn) as Hrm. pose proof (changes_newest _ _ _ _ _ Hn) as Hcm.
  exists root, ns, l0. eexists (_ :: _ :: _ :: lu ++ [_]), c, (_ :: lm ++ [_; _; _; _; _]), c0, _.
  exists old, names, installer, lm. rewrite Ei.
  split; [done|]. split; [done|].
  split; [cbn [app]; do 4 f_equal; rewrite <- app_assoc; cbn [app]; do 3 f_equal;
          rewrite <- app_assoc; reflexivity|].
  split_and!; [called| |called|set_solver|done| |done|].
  - change (changes (?a :: ?b :: ?c :: ?l)) with (change_of a ++ change_of b ++ change_of c ++ changes l).
    rewrite changes_app, Hcu, app_nil_r. done.
  - change (changes (?a :: ?l)) with (change_of a ++ changes l). by rewrite changes_app, Hcm.
  - runs_tac.
Qed.

(** With [--dest .] the installer is run by its bare name, which is searched for in
    [PATH] and not in the directory the file was downloaded to. *)
Example bare_installer_name name target :
  installers (Path ".") [name] =
    (if star_match EmptyString ".sh" name then [PPath EmptyString [name]] else []) ∧
  install_cmd (path_str (PPath EmptyString [name])) target = [name; "-y"; "-d"; target].
Proof. unfold installers. cbn [List.filter]. by destruct (star_match EmptyString ".sh" name). Qed.

(** C16: If upload_sdk.py returns, on any host, then the newest installer in the SDK's
    deployment directory was uploaded: the release was asked for, deleted exactly if it
    was there, and then created with that file, each of the last two with status 0 and
    nothing else run; no file was changed. *)
Theorem upload_success {W} `{Host W} file argv env (st : hst W) :
  if_returns (upload_main file argv) env st (λ l env', ∃ root l0 l1 names sdk_file lm view,
    root_result file env l0 env' (Ok root) ∧ l = l0 ++ l1 ∧
    let dir := sdk_deploy_dir root in
    Ev (EScandir (path_str dir)) (inl names) ∈ l1 ∧ lm ⊆ l1 ∧
    newest_result (installers dir names) env' lm env' (Ok sdk_file) ∧
    runs l1 = [PRun None env' view_cmd (Some view)] ++
              (if (view =? 0)%Z then [ran None env' delete_cmd] else []) ++
              [ran None env' (create_cmd (path_str sdk_file))] ∧
    changes l = []).
Proof.
  apply or_post; [total_deep|]. unfold upload_main. cbv zeta.
  apply or_bind, or_root_quiet. intros root l0 env' Hroot Hr0 Hc0. or_go.
  destruct a; cbn [negb]; [|by or_go]. or_go.
  apply or_glob. intros names. fold (installers (sdk_deploy_dir root) names).
  destruct (installers _ names) as [|first rest] eqn:Ei; [by or_go|]. or_step.
  apply or_newest. intros sdk_file lm Hn. or_go.
  pose proof (runs_newest _ _ _ _ _ Hn) as Hrm. pose proof (changes_newest _ _ _ _ _ Hn) as Hcm.
  apply or_subprocess_run. intros view. destruct (returncode view =? 0)%Z eqn:Ev0; or_go;
    (exists root, l0; eexists; exists names, sdk_file, lm, (returncode view); rewrite Ei, Ev0;
     split; [done|]; split; [reflexivity|];
     split_and!; [called|set_solver|done| |rewrite !changes_app, Hc0, Hcm; reflexivity]);
    [apply Z.eqb_eq in Ev0; runs_tac|runs_tac].
Qed.

(** The version given to upload_sdk.py has no effect: with [--version=v] for any [v]
    the script is, call for call, the script without an argument. *)
Theorem upload_version_ignored {W} `{Host W} file prog v n (s : environ * hst W) :
  upload_main file [prog; "--version=" +:+ v] n s = upload_main file [prog] n s.
Proof.
  unfold upload_main, parse_args. cbn [tail].
  change ["--version=" +:+ v] with (map given_text [GValue "--version" "version" None v]).
  rewrite parse_known_given; [reflexivity|].
  apply Forall_cons. split; [|by apply Forall_nil]. split_and!; try done. by repeat constructor.
Qed.
