(* ===== verification/YoctoScript.v ===== *)
(** * build_yocto.py: the Yocto images and the SDK, built in a container *)

From Stdlib Require Import Ascii ZArith Lia.
From stdpp Require Import base list strings gmap.
From S2P Require Import Prelude PyText Host Paths Argparse Utils ScriptLogic UtilsSpec Processes.

Definition yocto_parser : parser :=
  Parser [("-h", AHelp); ("--help", AHelp); ("--sdk", AFlag "sdk");
          ("--target", AStore "target" (Some ["server"; "client"; "both"]));
          ("--clean", AFlag "clean")]
    None
    [("sdk", VFlag false); ("target", VText "both"); ("clean", VFlag false)].

(** The directories, from the project root. *)
Definition workspace_root (project_root : ppath) : ppath := path_parent project_root.
Definition yocto_base (project_root : ppath) : ppath := path_parent project_root / "yocto-dev".
Definition poky_dir (project_root : ppath) : ppath := yocto_base project_root / "poky".
Definition meta_oe_dir (project_root : ppath) : ppath := yocto_base project_root / "meta-openembedded".
Definition meta_tor_dir (project_root : ppath) : ppath := yocto_base project_root / "meta-tor".
Definition meta_security_dir (project_root : ppath) : ppath := yocto_base project_root / "meta-security".
Definition yocto_build_dir (project_root : ppath) : ppath := poky_dir project_root / "build".
Definition meta_blankchat_dir (project_root : ppath) : ppath := project_root / "meta-blankchat".
Definition dockerfile (project_root : ppath) : ppath := project_root / "scripts" / "Dockerfile.yocto".

Definition clone_cmd (url dest : string) : list string := ["git"; "clone"; url; "-b"; "scarthgap"; dest].

Definition docker_build_cmd (project_root : ppath) (uid gid : Z) : list string :=
  ["docker"; "build"; "-t"; "blankchat-yocto-builder";
   "--build-arg"; "UID=" +:+ str_Z uid; "--build-arg"; "GID=" +:+ str_Z gid;
   "-f"; path_str (dockerfile project_root); path_str project_root].

Definition bitbake_target (sdk : bool) (target : string) : string :=
  if sdk then "bitbake -c populate_sdk blankchat-image-server"
  else if bool_decide (target = "server") then "bitbake blankchat-image-server"
  else if bool_decide (target = "client") then "bitbake blankchat-image-client"
  else "bitbake blankchat-image-server blankchat-image-client".

Definition success_msg (sdk : bool) (target : string) : string :=
  if sdk then "Yocto: SDK generated successfully! Check yocto-dev/poky/build/tmp/deploy/sdk/"
  else if bool_decide (target = "server") then "Yocto: Server image generated successfully!"
  else if bool_decide (target = "client") then "Yocto: Client image generated successfully!"
  else "Yocto: Server and Client images generated successfully!".

Definition clean_cmd (clean : bool) : string :=
  if clean then "bitbake -c clean blank-chat && bitbake -c deploy -f virtual/kernel && "
  else EmptyString.

(** The lines of the script for the container, without their indentation. *)
Definition bash_lines (project_root : ppath) (clean target : string) : list string :=
  let oe := path_str (meta_oe_dir project_root) in
  let layer p := "bitbake-layers add-layer " +:+ p +:+ " 2>/dev/null || true" in
  ["cd " +:+ path_str (poky_dir project_root);
   "source oe-init-build-env " +:+ path_str (yocto_build_dir project_root);
   EmptyString;
   layer (oe +:+ "/meta-oe");
   layer (oe +:+ "/meta-python");
   layer (oe +:+ "/meta-networking");
   layer (path_str (meta_tor_dir project_root));
   layer (path_str (meta_security_dir project_root));
   layer (path_str (meta_blankchat_dir project_root));
   EmptyString;
   "echo 'MACHINE = " +:+ dq +:+ "genericx86-64" +:+ dq +:+ "' > conf/auto.conf";
   "echo 'DISTRO = " +:+ dq +:+ "blankchat" +:+ dq +:+ "' >> conf/auto.conf";
   "echo 'INHERIT += " +:+ dq +:+ "externalsrc" +:+ dq +:+ "' >> conf/auto.conf";
   "echo 'EXTERNALSRC:pn-blank-chat = " +:+ dq +:+ path_str project_root +:+ dq +:+ "' >> conf/auto.conf";
   EmptyString;
   "sed -i '/UNINATIVE_MAXGLIBCVERSION/d' conf/local.conf";
   EmptyString;
   clean +:+ target].

(** The f-string: each line indented by twelve spaces, the empty ones not. *)
Definition indent (line : string) : string :=
  if bool_decide (line = EmptyString) then EmptyString else "            " +:+ line.
Definition bash_command (project_root : ppath) (clean target : string) : string :=
  nl +:+ lines_text (map indent (bash_lines project_root clean target)) +:+ "            ".

Definition docker_run_cmd (project_root : ppath) (tty : bool) (bash_command : string) : list string :=
  let workspace := path_str (workspace_root project_root) in
  ["docker"; "run"; "--rm"; "-v"; workspace +:+ ":" +:+ workspace; "-w"; path_str (poky_dir project_root)]
  ++ (if tty then ["-it"] else [])
  ++ ["blankchat-yocto-builder"; "bash"; "-c"; bash_command].

Section script.
Context {W : Type} `{Host W} (file : path).
Abbreviation PS := (environ * hst W)%type.

(** [if not dir.exists(): print_info(...); run_command(["git", "clone", ...])] *)
Definition clone_if_missing (dir : ppath) (what url : string) : M PS unit :=
  there ← sys (EExists (path_str dir));
  if negb there then
    print_info ("Cloning " +:+ what +:+ " (scarthgap)...");;
    run_command (clone_cmd url (path_str dir)) None true "Command failed.";;
    mret tt
  else mret tt.

Definition prepare_layers (project_root : ppath) : M PS unit :=
  base ← sys (EExists (path_str (yocto_base project_root)));
  (if negb base then sys (EMkdirNew (path_str (yocto_base project_root))) else mret tt);;
  clone_if_missing (poky_dir project_root) "Poky environment" "https://git.yoctoproject.org/git/poky";;
  clone_if_missing (meta_oe_dir project_root) "meta-openembedded layer"
    "https://git.openembedded.org/meta-openembedded";;
  clone_if_missing (meta_tor_dir project_root) "meta-tor layer"
    "https://github.com/embetrix/meta-tor.git";;
  clone_if_missing (meta_security_dir project_root) "meta-security layer"
    "https://git.yoctoproject.org/git/meta-security".

Definition yocto_main (argv : list string) : M PS unit :=
  project_root ← change_to_project_root file;
  args ← parse_args yocto_parser argv;
  let sdk := get_flag args "sdk" in
  let target := get_text args "target" in
  print_info "Verifying Yocto environment...";;
  prepare_layers project_root;;
  there ← sys (EExists (path_str (dockerfile project_root)));
  if negb there then
    print_error ("Cannot find " +:+ path_str (dockerfile project_root)
                 +:+ ". Ensure the file exists in your scripts directory.");;
    sys_exit 1
  else
    print_info "Ensuring Yocto Docker builder image is ready...";;
    uid ← sys EUid;
    gid ← sys EGid;
    run_command (docker_build_cmd project_root uid gid) None true
      "Failed to build the Yocto Docker builder image.";;
    (if sdk then print_info "Starting BitBake engine to generate SDK..."
     else print_info ("Starting BitBake engine to build the " +:+ target +:+ " image(s)..."));;
    (if get_flag args "clean"
     then print_info "Cleaning application cache and restoring kernel artifacts..." else mret tt);;
    let command := bash_command project_root (clean_cmd (get_flag args "clean"))
                     (bitbake_target sdk target) in
    tty ← sys EIsatty;
    run_command (docker_run_cmd project_root tty command) None true "Yocto compilation failed.";;
    print_success (success_msg sdk target).

End script.

(** ** What the script does when it returns *)

(** The layers and where they come from, in the order they are looked at. *)
Definition layers (project_root : ppath) : list (ppath * string) :=
  [(poky_dir project_root, "https://git.yoctoproject.org/git/poky");
   (meta_oe_dir project_root, "https://git.openembedded.org/meta-openembedded");
   (meta_tor_dir project_root, "https://github.com/embetrix/meta-tor.git");
   (meta_security_dir project_root, "https://git.yoctoproject.org/git/meta-security")].

(** The clones, of the layers that were not there. *)
Definition clones (env : environ) (ls : list (ppath * string)) (there : list bool) : list prun :=
  concat (zip_with (λ (p : ppath * string) (t : bool),
    if t then [] else [ran None env (clone_cmd p.2 (path_str p.1))]) ls there).

Definition seen (l : list event) (p : ppath * string) (t : bool) : Prop :=
  Ev (EExists (path_str p.1)) (inl t) ∈ l.

Lemma or_clone_if_missing {W} `{Host W} dir what url env :
  on_return (W:=W) (clone_if_missing dir what url) env (λ _ l env', env' = env ∧ changes l = [] ∧
    ∃ t, seen l (dir, url) t ∧ runs l = clones env [(dir, url)] [t]).
Proof.
  unfold clone_if_missing. or_go. destruct a; cbn [negb]; or_go; (split_and!; [done|done|]).
  - exists true. split; [unfold seen; called|runs_tac].
  - exists false. split; [unfold seen; called|runs_tac].
Qed.

Lemma or_mkdir_base {W} `{Host W} (b : bool) p env :
  on_return (W:=W) (if b then sys (EMkdirNew p) else mret tt) env (λ _ l env', env' = env ∧
    runs l = [] ∧ changes l = (if b then [CMkdir p] else [])).
Proof. destruct b; or_go; done. Qed.

(** Messages, whichever is chosen. *)
Lemma or_print_if {W} `{Host W} (b : bool) m (m' : option string) env :
  on_return (W:=W) (if b then print_info m
      else match m' with Some m' => print_info m' | None => mret tt end) env
    (λ _ l env', env' = env ∧ runs l = [] ∧ changes l = []).
Proof. destruct b, m'; or_go; done. Qed.

Lemma or_prepare_layers {W} `{Host W} root env :
  on_return (W:=W) (prepare_layers root) env (λ _ l env', env' = env ∧
    ∃ base there, Ev (EExists (path_str (yocto_base root))) (inl base) ∈ l ∧
      changes l = (if base then [] else [CMkdir (path_str (yocto_base root))]) ∧
      Forall2 (seen l) (layers root) there ∧ runs l = clones env (layers root) there).
Proof.
  unfold prepare_layers. or_go. rename a into base.
  eapply or_mono; [|apply (or_mkdir_base (negb base))]. intros [] lm ? (-> & Hrm & Hcm).
  apply or_bind. eapply or_mono; [|apply or_clone_if_missing]. intros [] l1 ? (-> & Hc1 & t1 & Hs1 & Hr1).
  apply or_bind. eapply or_mono; [|apply or_clone_if_missing]. intros [] l2 ? (-> & Hc2 & t2 & Hs2 & Hr2).
  apply or_bind. eapply or_mono; [|apply or_clone_if_missing]. intros [] l3 ? (-> & Hc3 & t3 & Hs3 & Hr3).
  eapply or_mono; [|apply or_clone_if_missing]. intros [] l4 ? (-> & Hc4 & t4 & Hs4 & Hr4).
  split; [done|]. exists base, [t1; t2; t3; t4]. split_and!.
  - called.
  - rewrite !changes_app, Hcm, Hc1, Hc2, Hc3, Hc4. by destruct base.
  - unfold seen, layers in *. cbn [fst] in *.
    repeat (apply Forall2_cons; split); [called..|by apply Forall2_nil].
  - rewrite !runs_app, Hrm, Hr1, Hr2, Hr3, Hr4. unfold clones, layers. cbn [zip_with concat].
    by rewrite !app_nil_r.
Qed.


(** ** The script for the container *)

Lemma no_break_app s t : no_break (s +:+ t) = no_break s && no_break t.
Proof. apply all_chars_app. Qed.

Lemma no_break_join l : Forall (λ x, no_break x = true) l → no_break (join "/" l) = true.
Proof.
  induction 1 as [|x l Hx Hl IH]; [done|]. destruct l as [|y l]; [done|].
  change (join "/" (x :: y :: l)) with (x +:+ "/" +:+ join "/" (y :: l)).
  by rewrite !no_break_app, Hx, IH.
Qed.

(** A path without line breaks. *)
Definition plain_path (p : ppath) : Prop :=
  no_break (p_root p) = true ∧ Forall (λ x, no_break x = true) (p_parts p).

Lemma plain_path_str p : plain_path p → no_break (path_str p) = true.
Proof.
  intros [Hr Hp]. apply no_break_join in Hp. unfold path_str.
  destruct (p_root p) eqn:Er, (p_parts p); try done; by rewrite no_break_app, Hr, Hp.
Qed.
Lemma plain_div p s : plain_path p → plain_path (Path s) → plain_path (p / s).
Proof.
  intros [Hr Hp] [Hr' Hp']. unfold path_div, path_join. case_bool_decide; [|done].
  split; [done|]. by apply Forall_app.
Qed.
Lemma plain_parent p : plain_path p → plain_path (path_parent p).
Proof.
  intros [Hr Hp]. split; [done|]. cbn. clear Hr. induction Hp as [|x l Hx Hl IH]; [done|].
  cbn. destruct l; [done|]. by constructor.
Qed.

Ltac plain_tac :=
  repeat first [assumption | apply plain_parent | apply plain_div; [|split; [reflexivity|by repeat constructor]]].

Lemma bash_lines_plain root clean target :
  plain_path root → no_break clean = true → no_break target = true →
  Forall (λ x, no_break x = true) (bash_lines root clean target).
Proof.
  intros Hroot Hc Ht.
  assert (∀ p, p ∈ [poky_dir root; yocto_build_dir root; meta_oe_dir root; meta_tor_dir root;
    meta_security_dir root; meta_blankchat_dir root; root] → no_break (path_str p) = true) as Hp.
  { intros p Hin. apply plain_path_str. repeat (apply elem_of_cons in Hin as [->|Hin];
      [unfold poky_dir, yocto_build_dir, poky_dir, meta_oe_dir, meta_tor_dir, meta_security_dir,
         meta_blankchat_dir, yocto_base; plain_tac|]). by apply not_elem_of_nil in Hin. }
  unfold bash_lines. cbv zeta.
  repeat (apply Forall_cons; split; [rewrite ?no_break_app, ?Hc, ?Ht, ?Hp by called; reflexivity|]).
  by apply Forall_nil.
Qed.

Lemma no_break_bitbake sdk target : no_break (bitbake_target sdk target) = true.
Proof. unfold bitbake_target. by repeat case_match. Qed.

(** In a workspace whose path has no line break, the text given to the container's
    shell is, line by line, the commands of [bash_lines], in order, and the last of them
    is the build; every directory they name is in the workspace, which is the one
    directory the container sees of the host, under the same name. *)
Theorem container_script root clean sdk target tty :
  plain_path root →
  let command := bash_command root (clean_cmd clean) (bitbake_target sdk target) in
  let lines := bash_lines root (clean_cmd clean) (bitbake_target sdk target) in
  splitlines command = EmptyString :: map indent lines ++ ["            "] ∧
  List.last lines EmptyString = clean_cmd clean +:+ bitbake_target sdk target ∧
  Forall (under (workspace_root root))
    [poky_dir root; yocto_build_dir root; meta_oe_dir root; meta_tor_dir root;
     meta_security_dir root; meta_blankchat_dir root; root] ∧
  docker_run_cmd root tty command =
    ["docker"; "run"; "--rm"; "-v"; path_str (workspace_root root) +:+ ":" +:+ path_str (workspace_root root);
     "-w"; path_str (poky_dir root)] ++ (if tty then ["-it"] else []) ++
    ["blankchat-yocto-builder"; "bash"; "-c"; command].
Proof.
  intros Hroot command lines. split_and!; [|done| |done].
  - assert (Forall (λ x, no_break x = true) lines) as Hl.
    { apply bash_lines_plain; [done|by destruct clean|apply no_break_bitbake]. }
    subst command. unfold bash_command. fold lines. clearbody lines.
    rewrite <- (app_nil_r (_ :: _ ++ _)).
    assert (∀ ls rest, Forall (λ x, no_break x = true) ls →
      splitlines (lines_text ls +:+ rest) = ls ++ splitlines rest) as Hsplit.
    { intros ls rest Hls. induction Hls as [|x ls Hx _ IH]; [done|].
      cbn [lines_text foldr app]. fold (lines_text ls). rewrite !app_str_assoc.
      unfold splitlines. rewrite splitlines_line by done. f_equal. exact IH. }
    change (nl +:+ lines_text (map indent lines) +:+ "            ") with
      (lines_text [EmptyString] +:+ lines_text (map indent lines) +:+ "            ").
    rewrite Hsplit by (by repeat constructor). rewrite Hsplit; [by rewrite app_nil_r|].
    apply Forall_map. eapply Forall_impl; [exact Hl|]. intros x Hx. unfold indent.
    case_bool_decide; [done|]. by rewrite no_break_app, Hx.
  - unfold poky_dir, yocto_build_dir, poky_dir, meta_oe_dir, meta_tor_dir, meta_security_dir,
      meta_blankchat_dir, yocto_base, workspace_root.
    repeat (apply Forall_cons; split;
      [repeat first [apply under_parent | reflexivity | apply under_div_l; [|reflexivity]]|]).
    by apply Forall_nil.
Qed.

Lemma container_script_witness :
  List.last (bash_lines (Path "/home/u/blank-chat") (clean_cmd true) (bitbake_target false "client")) EmptyString =
    "bitbake -c clean blank-chat && bitbake -c deploy -f virtual/kernel && bitbake blankchat-image-client".
Proof.
  destruct (container_script (Path "/home/u/blank-chat") true false "client" true) as (_ & Hl & _);
    [split; [reflexivity|by repeat constructor]|]. rewrite Hl. reflexivity.
Defined.
