(* ===== verification/Scripts.v ===== *)
(** * All scripts together

    Properties that hold of every script of src/scripts: they end, they stop at the first
    command that fails, with that command's status, and those with options read back the
    options they are given and refuse others before they do anything. *)

From Stdlib Require Import Ascii ZArith Lia.
From stdpp Require Import base list strings gmap.
From S2P Require Import Prelude PyText Host Json Paths Argparse Utils ScriptLogic UtilsSpec Processes.
From S2P Require Import BuildScripts SdkScripts YoctoScript Loopback.

(** The scripts, by the name of their file. *)
Definition scripts {W} `{Host W} (file : path) (argv : list string)
  : list (string * M (environ * hst W) unit) :=
  [("build.py", build_main file argv); ("run.py", run_main file argv);
   ("test.py", test_main file argv); ("format.py", format_main file argv);
   ("coverage.py", coverage_main file); ("valgrind.py", valgrind_main file argv);
   ("clean.py", clean_main file); ("download_sdk.py", download_main file argv);
   ("upload_sdk.py", upload_main file argv); ("build_yocto.py", yocto_main file argv)].

Lemma valgrind_sourcing tool executable : sourcing (valgrind_cmd tool executable) = false.
Proof. unfold valgrind_cmd. by case_bool_decide. Qed.
#[local] Hint Resolve valgrind_sourcing : py.

Lemma scripts_stop {W} `{Host W} file argv :
  Forall (λ p : string * M (environ * hst W) unit, total p.2 ∧ fail_stop p.2) (scripts file argv).
Proof.
  unfold scripts. repeat (apply Forall_cons; split; [split; cbn [snd]; [total_deep|fs_tac]|]).
  by apply Forall_nil.
Qed.


(** ** Arguments *)

(** The images build_yocto.py can be asked for. *)
Inductive image : Type := Server | Client | Both.
Definition image_name (i : image) : string :=
  match i with Server => "server" | Client => "client" | Both => "both" end.

Definition flag_if (b : bool) (name dest : string) : list given := if b then [GFlag name dest] else [].

(** What is written on the command line is what the scripts see: for any texts, the
    preset after [--], the flags that are given and no others, the image, the destination
    and the version after their equals sign. *)
Theorem script_args_roundtrip preset dest version default configure sdk clean (i : image) :
  parse_known build_parser
    (map given_text (flag_if configure "--configure" "configure") ++ ["--"; preset]) =
  PArgs (list_to_map [("preset", VText preset); ("configure", VFlag configure)]) ∧
  parse_known yocto_parser (map given_text (flag_if sdk "--sdk" "sdk" ++ flag_if clean "--clean" "clean" ++
    [GValue "--target" "target" (Some ["server"; "client"; "both"]) (image_name i)])) =
  PArgs (list_to_map [("sdk", VFlag sdk); ("target", VText (image_name i)); ("clean", VFlag clean)]) ∧
  parse_known (download_parser default)
    (map given_text [GValue "--dest" "dest" None dest; GValue "--version" "version" None version]) =
  PArgs (list_to_map [("dest", VText dest); ("version", VText version)]) ∧
  parse_known upload_parser (map given_text [GValue "--version" "version" None version]) =
  PArgs (list_to_map [("version", VText version)]).
Proof.
  assert (∀ P b name dest, dict_get name (options P) = Some (AFlag dest) →
    starts_with "-" name = true → name ≠ "--" → Forall (given_ok P) (flag_if b name dest)) as Hflag.
  { intros P b name d H1 H2 H3. destruct b; [|by apply Forall_nil]. by repeat constructor. }
  split_and!.
  - rewrite (parse_known_positional build_parser "preset"); [by destruct configure|done|by apply Hflag].
  - rewrite parse_known_given; [by destruct sdk, clean|].
    apply Forall_app. split; [by apply Hflag|]. apply Forall_app. split; [by apply Hflag|].
    apply Forall_cons. split; [|by apply Forall_nil]. split_and!; try done.
    + by repeat constructor.
    + destruct i; set_solver.
  - rewrite parse_known_given; [done|].
    repeat (apply Forall_cons; split; [split_and!; try done; by repeat constructor|]). by apply Forall_nil.
  - rewrite parse_known_given; [done|].
    repeat (apply Forall_cons; split; [split_and!; try done; by repeat constructor|]). by apply Forall_nil.
Qed.

(** The scripts with options, and their parsers. *)
Definition option_scripts {W} `{Host W} (file : path) (argv : list string)
  : list ((ppath → parser) * M (environ * hst W) unit) :=
  [(λ _, build_parser, build_main file argv);
   (λ root, download_parser (default_dest root), download_main file argv);
   (λ _, upload_parser, upload_main file argv);
   (λ _, yocto_parser, yocto_main file argv)].

(** The usage or the help was printed and the script left with [z]. *)
Definition refused (z : Z) (l : list event) (r : res unit) : Prop :=
  ∃ help msg o, l = [Ev (EUsage help msg) o] ∧
    r = Raise (match o with inl _ => exit_exn z | inr e => e end).

Definition usage_result (file : path) (P : ppath → parser) (argv : list string) (env : environ)
  (l : list event) (env' : environ) (r : res unit) : Prop :=
  (∃ e, r = Raise e ∧ root_result file env l env' (Raise e) ∧ runs l = [] ∧ changes l = []) ∨
  (∃ root env1 l1 l2, root_result file env l1 env1 (Ok root) ∧ l = l1 ++ l2 ∧
     match parse_known (P root) (tail argv) with
     | PArgs _ => True
     | PHelp => refused 0 l2 r ∧ runs l = [] ∧ changes l = []
     | PError _ => refused 2 l2 r ∧ runs l = [] ∧ changes l = []
     end).

Lemma tw_usage {W} `{Host W} file (P : ppath → parser) argv env
  (k : ppath → namespace → M (environ * hst W) unit) :
  (∀ root ns, fail_stop (k root ns)) →
  tw (root ← change_to_project_root file; args ← parse_args (P root) argv; k root args) env
    (usage_result file P argv env).
Proof.
  intros Hk. tw_step. eapply tw_mono; [|apply tw_root_quiet].
  intros l env' [root|e|] Hr (Hroot & Hl & Hc); [| |done]; cbn.
  2: { left. exists e. done. }
  apply tw_bind. unfold parse_args. destruct (parse_known (P root) (tail argv)) as [ns| |msg] eqn:E.
  - tw_step. cbn. eapply tw_mono; [|apply Hk]. intros l' env'' r _ _. right.
    exists root, env', l, l'. by rewrite E.
  - tw_go; right; exists root, env', l; eexists; (split; [done|]); (split; [reflexivity|]);
      rewrite E, ?app_nil_r;
      (split; [eexists _, _, _; split; reflexivity|split; [runs_tac|by rewrite changes_app, Hc]]).
  - tw_go; right; exists root, env', l; eexists; (split; [done|]); (split; [reflexivity|]);
      rewrite E, ?app_nil_r;
      (split; [eexists _, _, _; split; reflexivity|split; [runs_tac|by rewrite changes_app, Hc]]).
Qed.

(** The scripts with options refuse arguments their parser does not take, on any host:
    once the project root is entered, such a script prints the usage and leaves with
    status 2, and asked for help it prints the help and leaves with 0, in both cases
    before it has run a command or changed a file. *)
Theorem usage_errors_exit {W} `{Host W} file argv env (st : hst W) :
  Forall (λ p : (ppath → parser) * M (environ * hst W) unit,
    ∃ r env' st' l, returns p.2 (env, st) r (env', st') ∧ trace st' = trace st ++ l ∧
      usage_result file p.1 argv env l env' r) (option_scripts file argv).
Proof.
  unfold option_scripts. repeat (apply Forall_cons; split; [apply tw_post; cbn [fst snd]; [total_deep|]|]);
    [..|by apply Forall_nil].
  - apply tw_usage. intros. cbv zeta. fs_tac.
  - apply tw_usage. intros. cbv zeta. fs_tac.
  - apply (tw_usage file (λ _, upload_parser)). intros. cbv zeta. fs_tac.
  - apply tw_usage. intros. cbv zeta. fs_tac.
Qed.
