(* ===== verification/Completion.v ===== *)
(** * When the scripts succeed

    The other files say what a script has done if it returns; here is when it does.  A
    script that ends by an exception was hindered: its arguments were refused, or among
    its calls there is one that raised, a command that failed, something it needs that
    was not there, or a variable the operating system refuses.  So a script with
    accepted arguments and no such call returns. *)

From Stdlib Require Import Ascii ZArith QArith Lia.
From stdpp Require Import base list strings gmap.
From S2P Require Import Prelude PyText Host Paths Argparse Utils ScriptLogic UtilsSpec Processes.
From S2P Require Import BuildScripts SdkScripts YoctoScript Loopback Scripts.

(** What a script needs: its arguments not refused, files and directories, and directories
    with at least one file of a certain name, after [n_runs] commands; the environment
    tells where some of them are. *)
Record needs : Type := Needs {
  n_refused : Prop;
  n_there : environ → path → Prop;
  n_files : environ → path → string → string → Prop;
  n_runs : nat }.

(** A call that may end a script, [k] commands having been run. *)
Inductive obstacle (N : needs) (env : environ) (k : nat) : event → Prop :=
| ob_raised {A} (e : eff A) x : obstacle N env k (Ev e (inr x))
| ob_status cwd env' argv c :
    argv ≠ view_cmd → returncode c ≠ 0%Z → obstacle N env k (Ev (ESubprocess cwd env' argv) (inl c))
| ob_exists p : n_there N env p → obstacle N env k (Ev (EExists p) (inl false))
| ob_is_dir p : n_there N env p → obstacle N env k (Ev (EIsDir p) (inl false))
| ob_is_file p : n_there N env p → obstacle N env k (Ev (EIsFile p) (inl false))
| ob_files p before after names :
    (n_runs N <= k)%nat → n_files N env p before after →
    List.filter (star_match before after) names = [] →
    obstacle N env k (Ev (EScandir p) (inl names))
| ob_cut h text x : obstacle N env k (Ev (EFileText h) (inl (text, Some x)))
| ob_dotenv h text err line key v x :
    line ∈ file_lines text → dotenv_pair line = Some (key, v) → settable key v = Raise x →
    obstacle N env k (Ev (EFileText h) (inl (text, err)))
| ob_sourced cwd env' sdk name c line key v x :
    line ∈ splitlines (stdout c) → yocto_pair line = Some (key, v) → settable key v = Raise x →
    obstacle N env k (Ev (ESubprocess cwd env' (source_cmd sdk name)) (inl c)).

Definition hindered (N : needs) (env : environ) (l : list event) : Prop :=
  n_refused N ∨ ∃ l1 ev l2, l = l1 ++ ev :: l2 ∧ obstacle N env (length (runs l1)) ev.

Lemma obstacle_mono N env k k' ev : (k <= k')%nat → obstacle N env k ev → obstacle N env k' ev.
Proof. intros Hk. destruct 1; econstructor; eauto; lia. Qed.

Lemma hindered_l N env l l' : hindered N env l → hindered N env (l ++ l').
Proof.
  intros [Hr|(l1 & ev & l2 & -> & Ho)]; [by left|right]. exists l1, ev, (l2 ++ l').
  split; [|done]. by rewrite <- app_assoc.
Qed.
Lemma hindered_r N env l l' : hindered N env l' → hindered N env (l ++ l').
Proof.
  intros [Hr|(l1 & ev & l2 & -> & Ho)]; [by left|right]. exists (l ++ l1), ev, l2.
  split; [by rewrite <- app_assoc|]. eapply obstacle_mono; [|exact Ho].
  rewrite runs_app, length_app. lia.
Qed.
Lemma hindered_at N env l ev k :
  obstacle N env k ev → (k <= length (runs l))%nat → hindered N env (l ++ [ev]).
Proof. intros Ho Hk. right. exists l, ev, []. split; [done|]. by eapply obstacle_mono. Qed.
Lemma hindered_in N env ev l : obstacle N env 0 ev → ev ∈ l → hindered N env l.
Proof.
  intros Ho Hin. apply list_elem_of_split in Hin as (l1 & l2 & ->). right. exists l1, ev, l2.
  split; [done|]. eapply obstacle_mono; [|exact Ho]. lia.
Qed.
Lemma hindered_raised N env l : Exists raised l → hindered N env l.
Proof.
  intros Hl. apply Exists_exists in Hl as ([A e o] & Hin & x & Hx). cbn in Hx. subst.
  eapply hindered_in; [|exact Hin]. constructor.
Qed.

Section blames.
Context {W : Type} `{Host W} (N : needs).
Abbreviation PS := (environ * hst W)%type.

(** After the calls [pre], [m] returns with [Q], or raises and was hindered. *)
Definition blames {A} (pre : list event) (m : M PS A) (env : environ)
  (Q : A → list event → environ → Prop) : Prop :=
  tw m env (λ l env' r,
    match r with
    | Ok a => Q a (pre ++ l) env'
    | Raise _ => hindered N env' (pre ++ l)
    | NoFuel => False
    end).

Lemma bl_bind {A B} pre (m : M PS A) (k : A → M PS B) env (Q : B → list event → environ → Prop) :
  blames pre m env (λ a l env1, blames l (k a) env1 Q) → blames pre (m ≫= k) env Q.
Proof.
  intros Hm. apply tw_bind. eapply tw_mono; [|exact Hm]. intros l env' [a|e|] _; cbn; [|done|done].
  apply tw_mono. intros l' env'' r _. by rewrite app_assoc.
Qed.
Lemma bl_ret {A} pre (a : A) env (Q : A → list event → environ → Prop) :
  Q a pre env → blames pre (mret a) env Q.
Proof. intros HQ. apply tw_ret. by rewrite app_nil_r. Qed.
Lemma bl_get pre env (Q : environ → list event → environ → Prop) :
  Q env pre env → blames pre get_local env Q.
Proof. intros HQ. apply tw_get. by rewrite app_nil_r. Qed.
Lemma bl_exit {A} pre z env (Q : A → list event → environ → Prop) :
  hindered N env pre → blames pre (sys_exit z) env Q.
Proof. intros Hh. apply tw_exit. by rewrite app_nil_r. Qed.
Lemma bl_sys {A} pre (e : eff A) env (Q : A → list event → environ → Prop) :
  (∀ a, Q a (pre ++ [Ev e (inl a)]) env) → blames pre (sys e) env Q.
Proof.
  intros HQ. apply tw_sys. intros [a|x] w w' _; cbn; [apply HQ|].
  apply hindered_r, hindered_raised. left. by eexists.
Qed.
(** A part with a rule of its own. *)
Lemma bl_tw {A} pre (m : M PS A) env (P : list event → environ → res A → Prop)
  (Q : A → list event → environ → Prop) :
  tw m env P →
  (∀ l env' a, P l env' (Ok a) → Q a (pre ++ l) env') →
  (∀ l env' e, P l env' (Raise e) → hindered N env' (pre ++ l)) →
  blames pre m env Q.
Proof.
  intros Hm HQ Hh. eapply tw_mono; [|exact Hm]. intros l env' [a|e|] Hr HP; [by apply HQ| |done].
  eapply Hh, HP.
Qed.

Lemma bl_run_command pre cmd cwd msg env (Q : completed → list event → environ → Prop) :
  cmd ≠ view_cmd →
  (∀ c, Q c (pre ++ [Ev (ESubprocess cwd env cmd) (inl c)]) env) →
  blames pre (run_command cmd cwd true msg) env Q.
Proof.
  intros Hcmd HQ. eapply bl_tw; [apply tw_run_command| |].
  - intros l env' c [-> (o & l2 & -> & Ho)]. destruct o as [c'|x].
    + destruct (_ && _); [|by destruct Ho as [-> [= ->]]].
      by destruct Ho as [(? & _ & ?)|(? & ? & _ & _ & ? & _ & ?)].
    + destruct (isinstance x KeyboardInterrupt); [by destruct Ho as (? & _ & ?)|by destruct Ho].
  - intros l env' e [-> (o & l2 & -> & Ho)]. apply hindered_r.
    eapply (hindered_in _ _ (Ev (ESubprocess cwd env cmd) o)); [|left]. destruct o as [c|x]; [|constructor].
    constructor; [done|]. intros Hc. rewrite Hc in Ho. by destruct Ho.
Qed.

Lemma hindered_dotenv root env l env' e :
  dotenv_result root env l env' (Raise e) → hindered N env' l.
Proof.
  intros [_ [[Hl|(h & text & x & Hin)]|(h & text & ls & line & post & k & v & -> & Hl & _ & Hp & _ & Hs)]].
  - by apply hindered_raised.
  - eapply hindered_in; [|exact Hin]. constructor.
  - eapply hindered_in; [|do 2 right; left]. eapply (ob_dotenv _ _ _ _ _ _ line); [|done..].
    rewrite Hl. set_solver.
Qed.

Lemma tw_root_blames file env :
  tw (W:=W) (change_to_project_root file) env (λ l env' r,
    match r with
    | Ok root => ∃ here, root = root_from here
    | Raise _ => hindered N env' l
    | NoFuel => False
    end).
Proof.
  unfold change_to_project_root. cbv zeta.
  assert (∀ e l env, hindered N env l →
    if isinstance_any e [OSError] then
      tw (W:=W) (print_error CHDIR_FAILED;; sys_exit 1 : M PS ppath) env (λ l' env' r,
        match r with Ok root => ∃ here, root = root_from here
                   | Raise _ => hindered N env' (l ++ l') | NoFuel => False end)
    else hindered N env l) as Hexcept.
  { intros e l env1 Hl. rewrite isinstance_any1. destruct (isinstance e OSError); [|done].
    eapply tw_mono; [|apply tw_reports]. intros l' env' r _ [-> (o & _ & ->)]. by apply hindered_l. }
  tw_step. tw_step; tw_step; [|apply hindered_raised; left; by eexists].
  rename a into here. fold (root_from here). tw_step.
  eapply tw_mono; [|apply (tw_bind _ _ _ (λ l env' r, match r with
    | Ok root => root = root_from here | Raise _ => hindered N env' l | NoFuel => False end))].
  - intros l env' [root|e|] _; [eauto| |done]. intros Hl.
    apply (Hexcept e (_ :: l)). by apply (hindered_r _ _ [_]).
  - tw_step; tw_step; [|apply hindered_raised; left; by eexists].
    tw_step. eapply tw_mono; [|apply tw_load_dotenv].
    intros l env' [[]|e|] _ Hd; [by tw_go| |done]. cbn.
    apply (hindered_r _ _ [_]). by eapply hindered_dotenv.
Qed.

Lemma bl_change_to_project_root pre file env (Q : ppath → list event → environ → Prop) :
  (∀ here l env', Q (root_from here) (pre ++ l) env') →
  blames pre (change_to_project_root file) env Q.
Proof.
  intros HQ. eapply bl_tw; [apply tw_root_blames| |].
  - intros l env' a [here ->]. apply HQ.
  - intros l env' e Hl. by apply hindered_r.
Qed.

Lemma bl_parse_args pre P argv env (Q : namespace → list event → environ → Prop) :
  (∀ ns, parse_known P (tail argv) = PArgs ns → Q ns pre env) →
  ((∀ ns, parse_known P (tail argv) ≠ PArgs ns) → n_refused N) →
  blames pre (parse_args P argv) env Q.
Proof.
  intros HQ Hr. unfold parse_args. destruct (parse_known P (tail argv)) as [ns| |msg] eqn:E.
  - by apply bl_ret, HQ.
  - apply bl_bind, bl_sys. intros []. apply bl_exit. left. apply Hr. by intros ? ?.
  - apply bl_bind, bl_sys. intros []. apply bl_exit. left. apply Hr. by intros ? ?.
Qed.

End blames.

Lemma valgrind_no_view tool executable : valgrind_cmd tool executable ≠ view_cmd.
Proof. unfold valgrind_cmd. by case_bool_decide. Qed.

(** The obstacle is among the calls. *)
Ltac blame ob := eapply hindered_in; [eapply ob|called].

Ltac bl_step :=
  lazymatch goal with
  | |- blames _ _ (mbind _ _) _ _ => apply bl_bind
  | |- blames _ _ (mret _) _ _ => apply bl_ret
  | |- blames _ _ (sys_exit _) _ _ => apply bl_exit
  | |- blames _ _ get_local _ _ => apply bl_get
  | |- blames _ _ (sys _) _ _ => apply bl_sys; let a := fresh "a" in intros a;
      lazymatch type of a with unit => destruct a | _ => idtac end
  | |- blames _ _ (print_info _) _ _ => apply bl_sys; intros []
  | |- blames _ _ (print_success _) _ _ => apply bl_sys; intros []
  | |- blames _ _ (print_error _) _ _ => apply bl_sys; intros []
  | |- blames _ _ (run_command _ _ _ _) _ _ =>
      apply bl_run_command; [first [discriminate | apply valgrind_no_view]|let c := fresh "c" in intros c]
  | |- blames _ _ (subprocess_run _ _) _ _ => unfold subprocess_run
  | |- blames _ _ (environ_get _ _) _ _ => unfold environ_get
  | |- blames _ _ (glob _ _ _) _ _ => unfold glob
  | |- blames _ _ (change_to_project_root _) _ _ =>
      apply bl_change_to_project_root; let here := fresh "here" in let l := fresh "l" in
      let env1 := fresh "env" in intros here l env1
  end; cbn [negb].
Ltac bl_go := repeat bl_step.

Section parts.
Context {W : Type} `{Host W} (N : needs).
Abbreviation PS := (environ * hst W)%type.

(** The SDK's directory is there and has an [environment-setup-*] script. *)
Definition needs_sdk : Prop :=
  n_runs N = 0%nat ∧ ∀ env here, n_there N env (path_str (Path (sdk_dir env here))) ∧
    n_files N env (path_str (Path (sdk_dir env here))) "environment-setup-" EmptyString.

Lemma bl_require_yocto_env pre file env (Q : unit → list event → environ → Prop) :
  needs_sdk → (∀ l env', Q tt (pre ++ l) env') → blames N pre (require_yocto_env (W:=W) file) env Q.
Proof.
  intros [Hn Hsdk] HQ. unfold require_yocto_env, load_yocto_env.
  apply bl_bind, bl_get. case_bool_decide; [|apply bl_ret; rewrite <- (app_nil_r pre); apply HQ].
  bl_go. rename a into here. fold (sdk_dir env here). destruct (Hsdk env here) as [Hthere Hfiles].
  destruct a0; cbn [negb]; bl_go; [|by blame ob_exists]. rename a into names.
  destruct (List.filter _ names) as [|name rest] eqn:En; cbn [map]; bl_go;
    [blame ob_files; [lia|done..]|].
  rename a into c. destruct (returncode c =? 0)%Z eqn:Ec; cbn [negb]; bl_go;
    [|apply Z.eqb_neq in Ec; by blame ob_status].
  eapply bl_tw; [apply tw_env_lines| |].
  - intros l env' []. intros [-> ->]. bl_go. rewrite app_nil_r, <- !app_assoc. apply HQ.
  - intros l env' e [-> (ls & line & post & k & v & Hl & _ & Hp & Hs)].
    rewrite app_nil_r. eapply hindered_in;
      [eapply (ob_sourced _ _ _ _ _ _ name _ line); [|exact Hp|exact Hs]|called].
    rewrite Hl. set_solver.
Qed.

Lemma bl_newest pre first rest env (Q : ppath → list event → environ → Prop) :
  (∀ f l, Q f (pre ++ l) env) → blames N pre (newest (W:=W) first rest) env Q.
Proof.
  intros HQ. eapply bl_tw; [apply tw_newest| |].
  - intros l env' f [-> _]. apply HQ.
  - intros l env' e [-> (ls & f & post & keys & _ & _ & ->)]. do 2 apply hindered_r.
    apply hindered_raised. left. by eexists.
Qed.

Lemma bl_unlink_all pre files env (Q : unit → list event → environ → Prop) :
  (∀ l, Q tt (pre ++ l) env) →
  blames N pre (for_unit files (λ f, sys (W:=W) (EUnlink (path_str f)))) env Q.
Proof.
  revert pre. induction files as [|f files IH]; intros pre HQ; cbn [for_unit].
  - apply bl_ret. rewrite <- (app_nil_r pre). apply HQ.
  - apply bl_bind, bl_sys. intros []. apply IH. intros l. rewrite <- app_assoc. apply HQ.
Qed.

End parts.

(** ** The needs of each script *)

Definition nothing (_ : environ) (_ : path) : Prop := False.
Definition no_files (_ : environ) (_ : path) (_ _ : string) : Prop := False.

Definition sdk_there (env : environ) (p : path) : Prop :=
  ∃ here, p = path_str (Path (sdk_dir env here)).
Definition sdk_script (env : environ) (p : path) (before after : string) : Prop :=
  sdk_there env p ∧ before = "environment-setup-" ∧ after = EmptyString.

Definition refuses (P : parser) (argv : list string) : Prop :=
  ∀ ns, parse_known P (tail argv) ≠ PArgs ns.

(** The SDK, and the paths [ps]. *)
Definition sdk_and (ps : list path) : needs :=
  Needs False (λ env p, sdk_there env p ∨ p ∈ ps) sdk_script 0.

Definition build_needs (argv : list string) : needs :=
  Needs (refuses build_parser argv) sdk_there sdk_script 0.
Definition run_needs (argv : list string) : needs :=
  let target := get_arg argv 1 "server" in
  Needs (target ∉ ["server"; "client"])
    (λ _ p, p = path_str (run_executable (get_arg argv 2 DEFAULT_PRESET) target)) no_files 0.
Definition test_needs (argv : list string) : needs :=
  sdk_and [path_str (build_dir (get_arg argv 1 DEFAULT_PRESET))].
Definition valgrind_needs : needs :=
  sdk_and ["build/yocto-debug"; "build/yocto-debug/tests/blank_chat_ut"].
Definition clean_needs : needs := Needs False nothing no_files 0.
Definition download_needs (argv : list string) : needs :=
  let P here := download_parser (default_dest (root_from here)) in
  Needs (∃ here, refuses (P here) argv) nothing
    (λ _ p before after, (∃ here ns, parse_known (P here) (tail argv) = PArgs ns ∧
       p = path_str (Path (get_text ns "dest"))) ∧ before = EmptyString ∧ after = ".sh") 1.
Definition upload_needs (argv : list string) : needs :=
  let deploy p := ∃ here, p = path_str (sdk_deploy_dir (root_from here)) in
  Needs (refuses upload_parser argv) (λ _ p, deploy p)
    (λ _ p before after, deploy p ∧ before = EmptyString ∧ after = ".sh") 0.
Definition yocto_needs (argv : list string) : needs :=
  Needs (refuses yocto_parser argv) (λ _ p, ∃ here, p = path_str (dockerfile (root_from here)))
    no_files 0.

(** In the order of [scripts]. *)
Definition script_needs (argv : list string) : list needs :=
  [build_needs argv; run_needs argv; test_needs argv; sdk_and []; sdk_and []; valgrind_needs;
   clean_needs; download_needs argv; upload_needs argv; yocto_needs argv].

Lemma needs_sdk_and ps : needs_sdk (sdk_and ps).
Proof. split; [done|]. intros env here. split; [left; by eexists|]. split; [by eexists|done]. Qed.
Lemma needs_sdk_build argv : needs_sdk (build_needs argv).
Proof. split; [done|]. intros env here. split; [by eexists|]. split; [by eexists|done]. Qed.

Ltac bl_script :=
  repeat first
    [ bl_step
    | apply bl_require_yocto_env; [first [apply needs_sdk_and | apply needs_sdk_build]|];
      let l := fresh "l" in let env1 := fresh "env" in intros l env1
    | apply bl_newest; let f := fresh "f" in let l := fresh "l" in intros f l
    | apply bl_unlink_all; let l := fresh "l" in intros l
    | apply bl_parse_args; [let ns := fresh "ns" in let Hns := fresh "Hns" in intros ns Hns|]
    | exact I
    | match goal with
      | |- blames _ _ (if negb ?x then _ else _) _ _ => destruct x
      | |- blames _ _ (match ?x with _ => _ end) _ _ => destruct x eqn:?
      end; cbn [negb] ].

Section scripts.
Context {W : Type} `{Host W} (file : path) (argv : list string).
Abbreviation goes N m := (∀ env, blames (W:=W) N [] m env (λ _ _ _, True)).

Lemma build_goes : goes (build_needs argv) (build_main file argv).
Proof. intros env. unfold build_main, copy_compile_commands. bl_script. done. Qed.

Lemma run_goes : goes (run_needs argv) (run_main file argv).
Proof.
  intros env. unfold run_main. cbv zeta. bl_step. bl_step. case_bool_decide; cbn [negb]; bl_script.
  - by blame ob_is_file.
  - by left.
Qed.

Lemma test_goes : goes (test_needs argv) (test_main file argv).
Proof.
  intros env. unfold test_main, require_build_dir. cbv zeta. bl_script.
  blame ob_is_dir. right. left.
Qed.

Lemma format_goes : goes (sdk_and []) (format_main file argv).
Proof. intros env. unfold format_main. cbv zeta. bl_script. Qed.

Lemma coverage_goes : goes (sdk_and []) (coverage_main file).
Proof. intros env. unfold coverage_main. cbv zeta. bl_script. Qed.

Lemma valgrind_goes : goes valgrind_needs (valgrind_main file argv).
Proof.
  intros env. unfold valgrind_main, require_build_dir. cbv zeta. bl_script.
  - blame ob_exists. right. right. left.
  - blame ob_is_dir. right. left.
Qed.

Lemma clean_goes : goes clean_needs (clean_main file).
Proof. intros env. unfold clean_main. cbv zeta. bl_script. Qed.

Lemma download_goes : goes (download_needs argv) (download_main file argv).
Proof.
  intros env. unfold download_main. cbv zeta. bl_script.
  - apply hindered_l. eapply (hindered_at _ _ _ _ 1).
    + eapply ob_files; [done|by split; [eexists _, _|]|]. by eapply map_eq_nil.
    + rewrite !runs_app, !length_app. cbn. lia.
  - intros Hr. by eexists.
Qed.

Lemma upload_goes : goes (upload_needs argv) (upload_main file argv).
Proof.
  intros env. unfold upload_main. cbv zeta. bl_script.
  - blame ob_files; [done|split; [by eexists|done]|by eapply map_eq_nil].
  - blame ob_exists. by eexists.
  - done.
Qed.

Lemma bl_clone_if_missing N pre dir what url env (Q : unit → list event → environ → Prop) :
  (∀ l, Q tt (pre ++ l) env) → blames N pre (clone_if_missing (W:=W) dir what url) env Q.
Proof. intros HQ. unfold clone_if_missing. bl_script; rewrite <- ?app_assoc; apply HQ. Qed.

Lemma yocto_goes : goes (yocto_needs argv) (yocto_main file argv).
Proof.
  intros env. unfold yocto_main, prepare_layers. cbv zeta.
  repeat first [progress bl_script | apply bl_clone_if_missing; intros ?].
  all: first [done | eapply hindered_in;
    [apply (ob_exists _ _ _ (path_str (dockerfile (root_from here)))); by eexists|called]].
Qed.

Lemma scripts_go :
  Forall2 (λ (p : string * M (environ * hst W) unit) N, goes N p.2) (scripts file argv) (script_needs argv).
Proof.
  repeat (apply Forall2_cons_2; [|]); [apply build_goes|apply run_goes|apply test_goes|apply format_goes
    |apply coverage_goes|apply valgrind_goes|apply clean_goes|apply download_goes|apply upload_goes
    |apply yocto_goes|apply Forall2_nil_2].
Qed.

End scripts.

(** C2: Every script, on any host, returns unless it was hindered: its arguments were
    refused, or one of its calls raised, a command other than the question for the release
    failed, a file or directory this script needs was not there (for those that build, the
    SDK with its script; for run.py the program, for test.py and valgrind.py what
    was built, for upload_sdk.py and download_sdk.py an installer, for build_yocto.py the
    Dockerfile), or a variable of the [.env] file or the SDK cannot be set. *)
Theorem scripts_complete {W} `{Host W} file argv env (st : hst W) :
  Forall2 (λ (p : string * M (environ * hst W) unit) N,
    ∃ r env' st' l, returns p.2 (env, st) r (env', st') ∧ trace st' = trace st ++ l ∧
      (r = Ok tt ∨ (∃ e, r = Raise e) ∧ hindered N env' l))
    (scripts file argv) (script_needs argv).
Proof.
  pose proof (scripts_stop file argv (W:=W)) as Hs. pose proof (scripts_go file argv (W:=W)) as Hg.
  induction Hg as [|[name main] N ps Ns Hm _ IH]; [constructor|].
  apply Forall_cons in Hs as [[Ht _] Hs]. constructor; [|by apply IH]. clear IH.
  destruct (tw_post main env st _ Ht (Hm env)) as (r & env' & st' & l & Hr & Hl & HQ).
  exists r, env', st', l. split; [done|]. split; [done|]. destruct r as [[]|e|]; [by left|right; eauto|done].
Qed.

(** ** A run of build.py, evaluated *)

(** The sample SDK, and a project with an old compilation database; [cmake] has [status]. *)
Definition sample_build_world (status : Z) : hst lw :=
  placed (Site [] (λ argv, if bool_decide (hd EmptyString argv = "bash")
                           then Completed 0 (lines_text (map assignment sdk_kvs)) EmptyString
                           else Completed status EmptyString EmptyString)
    [("/w/yocto-dev/sdk", EmptyString); ("/w/yocto-dev/sdk/environment-setup-core2-64", EmptyString);
     ("/w/blank-chat/.env", "JOBS=8"); ("compile_commands.json", "[]");
     ("build/yocto-debug/compile_commands.json", "[{}]")] [] 0).

Definition sample_build (status : Z) : res unit * (environ * hst lw) :=
  build_main sample_file ["build.py"; "-c"] 0%nat (∅, sample_build_world status).

Example sample_build_runs :
  (sample_build 0).1 = Ok tt ∧
  map pr_argv (runs (trace (sample_build 0).2.2)) =
    [["bash"; "-c"; "source /w/yocto-dev/sdk/environment-setup-core2-64 && env"];
     ["cmake"; "--preset"; "yocto-debug"]; ["cmake"; "--build"; "build/yocto-debug"]] ∧
  changes (trace (sample_build 0).2.2) =
    [CUnlink "compile_commands.json";
     CCopy "build/yocto-debug/compile_commands.json" "compile_commands.json"].
Proof. split_and!; vm_compute; reflexivity. Qed.

Example sample_build_fails :
  exit_status (sample_build 2).1 = 2%Z ∧
  map pr_argv (runs (trace (sample_build 2).2.2)) =
    [["bash"; "-c"; "source /w/yocto-dev/sdk/environment-setup-core2-64 && env"];
     ["cmake"; "--preset"; "yocto-debug"]] ∧
  changes (trace (sample_build 2).2.2) = [].
Proof. split_and!; vm_compute; reflexivity. Qed.
