(* ===== verification/VmManager.v ===== *)
(** * The benchmark's virtual machines: benchmarks/vm_manager.py

    The script removes the machines of an earlier run, stages the Yocto images in the
    storage of libvirt, makes a copy-on-write disk for each machine and starts the three
    machines.  The text of the target path in the XML of the storage pool is found by a
    function [findtext] that is an argument of the definitions. *)

From Stdlib Require Import Ascii ZArith Lia.
From stdpp Require Import base list strings gmap.
From S2P Require Import Prelude PyText Host Paths Utils ScriptLogic UtilsSpec Processes Loopback.

Definition VM_SERVER : string := "bc-server".
Definition VM_CLIENT_1 : string := "bc-client-1".
Definition VM_CLIENT_2 : string := "bc-client-2".
Definition VMS : list string := [VM_SERVER; VM_CLIENT_1; VM_CLIENT_2].

Definition LIBVIRT_URI : string := "qemu:///system".
Definition LIBVIRT_POOL : string := "default".
Definition STORAGE_SUBDIR : string := "blank-chat-benchmarks".

Definition images_dir (project_root : ppath) : ppath :=
  path_parent project_root / "yocto-dev" / "poky" / "build" / "tmp" / "deploy" / "images" / "genericx86-64".

Definition virsh (args : list string) : list string := ["virsh"; "-c"; LIBVIRT_URI] ++ args.
Definition pool_cmd : list string := virsh ["pool-dumpxml"; LIBVIRT_POOL].
Definition domstate_cmd (vm : string) : list string := virsh ["domstate"; vm].
Definition destroy_cmd (vm : string) : list string := virsh ["destroy"; vm].
Definition undefine_cmd (vm : string) : list string :=
  virsh ["undefine"; vm; "--nvram"; "--remove-all-storage"].

Definition storage_cmd (owner group : string) (storage_root : ppath) : list string :=
  ["sudo"; "install"; "-d"; "-m"; "0755"; "-o"; owner; "-g"; group;
   path_str storage_root; path_str (storage_root / "base")].
Definition stage_cmd (source temporary : ppath) : list string :=
  ["cp"; "--reflink=auto"; "--sparse=always"; "--"; path_str source; path_str temporary].
Definition cow_cmd (base_image target_disk : ppath) : list string :=
  ["qemu-img"; "create"; "-f"; "qcow2"; "-F"; "raw"; "-b"; path_str base_image; path_str target_disk].
Definition start_cmd (vm_name : string) (disk_path : ppath) : list string :=
  ["/usr/bin/python3"; "/usr/bin/virt-install"; "--connect"; LIBVIRT_URI; "--name"; vm_name;
   "--memory"; "2048"; "--vcpus"; "2";
   "--disk"; "path=" +:+ path_str disk_path +:+ ",format=qcow2,bus=sata";
   "--import"; "--os-variant"; "generic"; "--network"; "network=default,model=virtio";
   "--boot"; "uefi"; "--graphics"; "none"; "--noautoconsole"; "--quiet"].

Definition FALLBACK : ppath := Path "/var/lib/libvirt/images".

(** [p.with_name(name)] of a path with a name, for a name without a slash *)
Definition with_name (p : ppath) (name : string) : ppath :=
  PPath (p_root p) (removelast (p_parts p) ++ [name]).
Definition temporary_of (destination : ppath) : ppath :=
  with_name destination (path_name destination +:+ ".tmp").

Definition server_image : string := "blankchat-image-server-genericx86-64.rootfs.wic".
Definition client_image : string := "blankchat-image-client-genericx86-64.rootfs.wic".

Section script.
Context {W : Type} `{Host W} (file : path).
(** [ET.fromstring(text).findtext("./target/path")] *)
Context (findtext : string → option string + exn).
Abbreviation PS := (environ * hst W)%type.

Definition get_yocto_deploy_dir (project_root : ppath) : M PS ppath :=
  let deploy_dir := images_dir project_root in
  there ← sys (EExists (path_str deploy_dir));
  if negb there then
    print_error ("Yocto images directory not found: " +:+ path_str deploy_dir);; sys_exit 1
  else mret deploy_dir.

(** [path.resolve()] *)
Definition resolve (p : ppath) : M PS ppath := q ← sys (EResolve (path_str p)); mret (Path q).

Definition get_libvirt_pool_target : M PS ppath :=
  result ← subprocess_run None pool_cmd;
  found ←
    (if (returncode result =? 0)%Z then
       try_except
         (path_text ← of_res (outcome (findtext (stdout result)));
          match path_text with
          | Some t => if bool_decide (t = EmptyString) then mret None else p ← resolve (Path t); mret (Some p)
          | None => mret None
          end)
         (except [XmlParseError] (λ _, mret None))
     else mret None);
  match found with
  | Some p => mret p
  | None =>
      print_info ("Could not resolve libvirt pool '" +:+ LIBVIRT_POOL +:+ "' target; using fallback " +:+
                  path_str FALLBACK);;
      mret FALLBACK
  end.

Definition prepare_storage_root (pool_target : ppath) : M PS ppath :=
  let storage_root := pool_target / STORAGE_SUBDIR in
  uid ← sys EUid;
  owner ← sys (EPwName uid);
  gid ← sys EGid;
  group ← sys (EGrName gid);
  run_command (storage_cmd owner group storage_root) None true
    ("Failed to prepare libvirt benchmark storage: " +:+ path_str storage_root);;
  mret storage_root.

Definition stage_base_image (source destination : ppath) : M PS ppath :=
  let temporary := temporary_of destination in
  sys (EUnlinkMissing (path_str temporary));;
  sys (EUnlinkMissing (path_str destination));;
  print_info ("Staging benchmark base image: " +:+ path_name source +:+ " -> " +:+ path_str destination);;
  run_command (stage_cmd source temporary) None true
    ("Failed to stage benchmark base image: " +:+ path_str source);;
  sys (EReplace (path_str temporary) (path_str destination));;
  sys (EChmod (path_str destination) 292);;
  resolve destination.

Definition create_cow_disk (base_image target_disk : ppath) : M PS unit :=
  there ← sys (EExists (path_str target_disk));
  (if (there : bool) then sys (EUnlink (path_str target_disk)) else mret tt);;
  print_info ("Creating CoW disk: " +:+ path_name target_disk +:+ " -> " +:+ path_name base_image);;
  run_command (cow_cmd base_image target_disk) None true
    ("Failed to create QCOW2 disk: " +:+ path_str target_disk);;
  mret tt.

Definition destroy_vm (vm : string) : M PS unit :=
  res ← subprocess_run None (domstate_cmd vm);
  if negb (returncode res =? 0)%Z then mret tt
  else
    (if contains "running" (lower (stdout res)) then
       run_command (destroy_cmd vm) None false ("Failed to stop " +:+ vm);; mret tt
     else mret tt);;
    run_command (undefine_cmd vm) None false ("Failed to undefine " +:+ vm);;
    mret tt.
Definition destroy_vms : M PS unit :=
  print_info "Cleaning up KVM environment (removing old VMs)...";;
  for_unit VMS destroy_vm.

Definition create_and_start_vm (vm_name : string) (disk_path : ppath) : M PS unit :=
  print_info ("Registering and starting VM " +:+ vm_name +:+ "...");;
  run_command (start_cmd vm_name disk_path) None true ("Failed to create VM " +:+ vm_name);;
  mret tt.

Definition vm_main : M PS unit :=
  project_root ← change_to_project_root file;
  deploy_dir ← get_yocto_deploy_dir project_root;
  server_wic ← resolve (deploy_dir / server_image);
  client_wic ← resolve (deploy_dir / client_image);
  server_there ← sys (EExists (path_str server_wic));
  missing ← (if negb server_there then mret true
             else client_there ← sys (EExists (path_str client_wic)); mret (negb client_there));
  if (missing : bool) then
    print_error "Missing .wic files (server or client). Ensure build_yocto.py completed successfully.";;
    sys_exit 1
  else
    destroy_vms;;
    pool_target ← get_libvirt_pool_target;
    storage_root ← prepare_storage_root pool_target;
    let base_dir := storage_root / "base" in
    print_info ("Using libvirt benchmark storage: " +:+ path_str storage_root);;
    staged_server_wic ← stage_base_image server_wic (base_dir / "server-base.wic");
    staged_client_wic ← stage_base_image client_wic (base_dir / "client-base.wic");
    let server_disk := storage_root / "server.qcow2" in
    let client1_disk := storage_root / "client1.qcow2" in
    let client2_disk := storage_root / "client2.qcow2" in
    create_cow_disk staged_server_wic server_disk;;
    create_cow_disk staged_client_wic client1_disk;;
    create_cow_disk staged_client_wic client2_disk;;
    print_success "Temporary images generated successfully.";;
    create_and_start_vm VM_SERVER server_disk;;
    create_and_start_vm VM_CLIENT_1 client1_disk;;
    create_and_start_vm VM_CLIENT_2 client2_disk;;
    print_success "All virtual machines have been started in the background.".
End script.

(** ** Failures *)

Lemma outcome_returns {A} (o : A + exn) : outcome o ≠ NoFuel.
Proof. by destruct o. Qed.

Lemma fs_run_command_probe {W} `{Host W} cmd cwd msg :
  probe cmd = true → fail_stop (run_command cmd cwd false msg : M (environ * hst W) _).
Proof.
  intros Hp env. eapply tw_mono; [|apply tw_run_command].
  intros l env' r _ [_ (o & l2 & -> & Ho)]. left. apply calm_events, Forall_cons. split.
  - apply Forall_cons. split; [|by apply Forall_nil]. unfold failed. cbn. by rewrite Hp.
  - destruct o as [c|x]; cbn [andb] in Ho; [destruct Ho as [-> _]; by apply Forall_nil|].
    destruct (isinstance x KeyboardInterrupt); [|destruct Ho as [-> _]; by apply Forall_nil].
    destruct Ho as (o & -> & _). by repeat constructor.
Qed.
#[export] Hint Extern 1 (fail_stop (run_command _ _ false _)) => (apply fs_run_command_probe; reflexivity) : py.

Lemma fs_for_unit {W} `{Host W} {X} (l : list X) (body : X → M (environ * hst W) unit) :
  (∀ x, fail_stop (body x)) → fail_stop (for_unit l body).
Proof.
  intros Hb. induction l as [|x l IH]; cbn [for_unit]; [apply fs_ret|].
  apply (fs_bind (body x) (λ _, for_unit l body)); [apply Hb|by intros _].
Qed.

Section failures.
Context {W : Type} `{Host W}.
Abbreviation PS := (environ * hst W)%type.

Lemma fs_destroy_vm vm : fail_stop (destroy_vm vm : M PS unit).
Proof.
  unfold destroy_vm. apply fs_bind; [by apply fs_probe|]. intros res.
  destruct (negb _); [apply fs_ret|]. apply fs_bind.
  - destruct (contains _ _); [|apply fs_ret]. apply fs_bind; [by apply fs_run_command_probe|intros; apply fs_ret].
  - intros _. apply fs_bind; [by apply fs_run_command_probe|intros; apply fs_ret].
Qed.
Lemma fs_destroy_vms : fail_stop (destroy_vms : M PS unit).
Proof. unfold destroy_vms. fs_step; [fs_tac|]. apply fs_for_unit, fs_destroy_vm. Qed.
Lemma fs_get_libvirt_pool_target findtext : fail_stop (get_libvirt_pool_target findtext : M PS ppath).
Proof. unfold get_libvirt_pool_target. fs_step; [by apply fs_probe|]. apply fs_calm. keeps_deep. Qed.
End failures.
#[export] Hint Resolve fs_destroy_vms fs_get_libvirt_pool_target : py.

(** C22: vm_manager.py, on any host and for any reader of the pool's XML, ends, and stops
    at the first command that fails, with that command's status: no image is copied after
    the storage could not be made, no disk is made on an image that could not be copied,
    and no machine is started after a disk could not be made.  (What is asked of libvirt
    with [virsh] is not counted: the script goes on.) *)
Theorem vm_fail_stop {W} `{Host W} file findtext env (st : hst W) :
  ∃ r env' st' l, returns (vm_main file findtext) (env, st) r (env', st') ∧
    trace st' = trace st ++ l ∧ (calm l ∨ stopped l r).
Proof.
  apply (tw_post (vm_main file findtext) env st (λ l _ r, stops l r)); [total_deep; apply outcome_returns|].
  assert (fail_stop (vm_main file findtext : M (environ * hst W) unit)) as Hf; [|apply Hf]. fs_tac.
Qed.

(** ** What was done, if the script returns *)

(** What is done to the machine and its files, in one order: commands that are run and
    changes that are asked of the file system. *)
Inductive act : Type :=
| ARun (p : prun)
| AChange (c : change).
Definition act_of (ev : event) : list act := map ARun (run_of ev) ++ map AChange (change_of ev).
Definition acts (l : list event) : list act := l ≫= act_of.
(** A command run in the script's directory, with status 0. *)
Definition did (env : environ) (argv : list string) : act := ARun (ran None env argv).

Lemma acts_app l l' : acts (l ++ l') = acts l ++ acts l'.
Proof. apply bind_app. Qed.
Lemma acts_cons ev l : acts (ev :: l) = act_of ev ++ acts l.
Proof. done. Qed.
Lemma acts_none l : runs l = [] → changes l = [] → acts l = [].
Proof.
  induction l as [|ev l IH]; [done|]. change (runs (ev :: l)) with (run_of ev ++ runs l).
  change (changes (ev :: l)) with (change_of ev ++ changes l). rewrite acts_cons. unfold act_of.
  by intros [-> Hr]%app_nil [-> Hc]%app_nil; rewrite IH.
Qed.
Ltac acts_tac :=
  repeat first [rewrite acts_app | rewrite acts_cons | change (acts []) with (@nil act)];
  repeat match goal with H : acts ?l = _ |- context [acts ?l] => rewrite H; clear H end;
  unfold act_of, run_of, did, ran; cbn [ev_eff ev_out app map change_of];
  repeat match goal with H : returncode _ = 0%Z |- _ => rewrite H; clear H end;
  rewrite ?app_nil_r, <- ?app_assoc; cbn [app]; try reflexivity.

(** What is done to a machine [vm] of an earlier run.  libvirt is asked for its state; where
    it knows the machine, it is asked to stop it, if it runs, and to remove it with its
    storage.  How the last two ended is not looked at. *)
Definition removal (env : environ) (vm : string) (l : list act) : Prop :=
  let asked c args := ARun (PRun None env (["virsh"; "-c"; "qemu:///system"] ++ args) (Some (returncode c))) in
  ∃ c stop undefine, l = asked c ["domstate"; vm] ::
    if (returncode c =? 0)%Z then
      (if contains "running" (lower (stdout c)) then [asked stop ["destroy"; vm]] else []) ++
      [asked undefine ["undefine"; vm; "--nvram"; "--remove-all-storage"]]
    else [].

(** Where the pool is: the path in its XML, or the fallback. *)
Definition pool_found (findtext : string → option string + exn) (c : completed) (l : list event) (pool : ppath) : Prop :=
  ∃ t q, returncode c = 0%Z ∧ findtext (stdout c) = inl (Some t) ∧ t ≠ EmptyString ∧
    Ev (EResolve (path_str (Path t))) (inl q) ∈ l ∧ pool = Path q.
Definition pool_unknown (findtext : string → option string + exn) (c : completed) (l : list event) : Prop :=
  returncode c ≠ 0%Z ∨
  match findtext (stdout c) with
  | inl (Some t) => t = EmptyString ∨
      ∃ x, Ev (EResolve (path_str (Path t))) (inr x) ∈ l ∧ isinstance x XmlParseError = true
  | inl None => True
  | inr x => isinstance x XmlParseError = true
  end.
Definition pool_at (findtext : string → option string + exn) (c : completed) (l : list event) (pool : ppath) : Prop :=
  pool_found findtext c l pool ∨ (pool_unknown findtext c l ∧ pool = FALLBACK).
Lemma pool_at_more findtext c l l' pool : l ⊆ l' → pool_at findtext c l pool → pool_at findtext c l' pool.
Proof.
  intros Hl [(t & q & H1 & H2 & H3 & H4 & H5)|[Hu ->]]; [left; exists t, q; split_and!; try done; by apply Hl|right; split; [|done]].
  destruct Hu as [Hz|Hu]; [by left|right]. destruct (findtext (stdout c)) as [[t|]|x]; [|done|done].
  destruct Hu as [?|(x & ? & ?)]; [by left|right; eauto].
Qed.

(** A file put in place by way of a temporary one, and made read-only. *)
Definition staged (env : environ) (source destination : ppath) : list act :=
  [AChange (CUnlink (path_str destination +:+ ".tmp")); AChange (CUnlink (path_str destination));
   did env ["cp"; "--reflink=auto"; "--sparse=always"; "--"; path_str source; path_str destination +:+ ".tmp"];
   AChange (CReplace (path_str destination +:+ ".tmp") (path_str destination));
   AChange (CChmod (path_str destination) 292)].
(** A disk made on an image, in place of an old one if there is one. *)
Definition disk_made (env : environ) (there : bool) (base disk : ppath) : list act :=
  (if there then [AChange (CUnlink (path_str disk))] else []) ++
  [did env ["qemu-img"; "create"; "-f"; "qcow2"; "-F"; "raw"; "-b"; path_str base; path_str disk]].
(** A machine registered and started with its disk. *)
Definition started (env : environ) (vm : string) (disk : ppath) : act :=
  did env ["/usr/bin/python3"; "/usr/bin/virt-install"; "--connect"; "qemu:///system"; "--name"; vm;
    "--memory"; "2048"; "--vcpus"; "2"; "--disk"; "path=" +:+ path_str disk +:+ ",format=qcow2,bus=sata";
    "--import"; "--os-variant"; "generic"; "--network"; "network=default,model=virtio";
    "--boot"; "uefi"; "--graphics"; "none"; "--noautoconsole"; "--quiet"].

Section success.
Context {W : Type} `{Host W}.
Abbreviation PS := (environ * hst W)%type.

Lemma or_destroy_vm vm env (Q : unit → list event → environ → Prop) :
  (∀ l, removal env vm (acts l) → Q tt l env) → on_return (destroy_vm vm : M PS unit) env Q.
Proof.
  intros HQ. unfold destroy_vm. or_step. apply or_subprocess_run. intros c. cbn beta.
  destruct (returncode c =? 0)%Z eqn:Ez; cbn [negb].
  - or_step. apply (or_mono _ _ (λ _ l env', env' = env ∧ ∃ c1, acts l =
      if contains "running" (lower (stdout c)) then [ARun (PRun None env (destroy_cmd vm) (Some (returncode c1)))] else [])).
    2: { destruct (contains _ _); or_go; [apply or_run_command_any; intros c1; or_go; split; [done|by exists c1]|].
         split; [done|by exists c]. }
    intros [] l1 ? (-> & c1 & Hl1). or_step. apply or_run_command_any. intros c2. or_go.
    apply HQ. exists c, c1, c2. rewrite Ez. acts_tac.
  - or_go. apply HQ. exists c, c, c. rewrite Ez. acts_tac.
Qed.
Lemma or_destroy_vms env (Q : unit → list event → environ → Prop) :
  (∀ l a1 a2 a3, removal env VM_SERVER a1 → removal env VM_CLIENT_1 a2 → removal env VM_CLIENT_2 a3 →
     acts l = a1 ++ a2 ++ a3 → Q tt l env) →
  on_return (destroy_vms : M PS unit) env Q.
Proof.
  intros HQ. unfold destroy_vms, VMS. cbn [for_unit]. or_go.
  do 3 (refine (or_bind (destroy_vm _) (λ _, _) _ _ _); apply or_destroy_vm; intros ? ?). apply or_ret.
  eapply HQ; [eassumption..|]. acts_tac.
Qed.
Lemma or_resolve p env (Q : ppath → list event → environ → Prop) :
  (∀ q, Q (Path q) [Ev (EResolve (path_str p)) (inl q)] env) → on_return (resolve p : M PS ppath) env Q.
Proof. intros HQ. unfold resolve. or_go. apply HQ. Qed.
Lemma or_get_libvirt_pool_target findtext env (Q : ppath → list event → environ → Prop) :
  (∀ pool c l, pool_at findtext c l pool → acts l = [ARun (PRun None env pool_cmd (Some (returncode c)))] →
     Q pool l env) →
  on_return (get_libvirt_pool_target findtext : M PS ppath) env Q.
Proof.
  intros HQ. unfold get_libvirt_pool_target. or_step. apply or_subprocess_run. intros c. or_step.
  apply (or_mono _ _ (λ found l env', env' = env ∧ acts l = [] ∧
    match found with
    | Some p => pool_at findtext c l p
    | None => pool_unknown findtext c l
    end)).
  - intros [p|] l ? (-> & Ha & Hp); or_go; (apply (HQ _ c); [|by acts_tac]).
    + eapply pool_at_more; [|exact Hp]. set_solver.
    + apply (pool_at_more _ _ l); [set_solver|by right].
  - unfold pool_unknown. destruct (returncode c =? 0)%Z eqn:Ez.
    2: { or_go. apply Z.eqb_neq in Ez. split_and!; [done..|auto]. }
    apply Z.eqb_eq in Ez. apply tw_try_except, tw_bind, tw_of_res.
    destruct (findtext (stdout c)) as [[t|]|x] eqn:Et; cbn [outcome and_then].
    + case_bool_decide as Hne; [tw_go; split_and!; [done..|auto]|]. unfold resolve. tw_go.
      * split_and!; [done..|]. left. exists t, a. split_and!; [done..|left|done].
      * rewrite isinstance_any1. destruct (isinstance e XmlParseError) eqn:Ex; [|done]. tw_go.
        split_and!; [done..|]. right. right. exists e. split; [left|done].
    + tw_go. split_and!; [done..|auto].
    + rewrite isinstance_any1. destruct (isinstance x XmlParseError) eqn:Ex; [|done]. tw_go. split_and!; [done..|auto].
Qed.
Lemma or_prepare_storage_root pool env (Q : ppath → list event → environ → Prop) :
  (∀ uid gid owner group l, Ev EUid (inl uid) ∈ l → Ev EGid (inl gid) ∈ l →
     Ev (EPwName uid) (inl owner) ∈ l → Ev (EGrName gid) (inl group) ∈ l →
     acts l = [did env (storage_cmd owner group (pool / STORAGE_SUBDIR))] → Q (pool / STORAGE_SUBDIR) l env) →
  on_return (prepare_storage_root pool : M PS ppath) env Q.
Proof.
  intros HQ. unfold prepare_storage_root. cbv zeta. or_go. eapply HQ; [called..|]. acts_tac.
Qed.
Lemma or_stage_base_image source destination env (Q : ppath → list event → environ → Prop) :
  path_str (temporary_of destination) = path_str destination +:+ ".tmp" →
  (∀ q l, Ev (EResolve (path_str destination)) (inl q) ∈ l → acts l = staged env source destination → Q (Path q) l env) →
  on_return (stage_base_image source destination : M PS ppath) env Q.
Proof.
  intros Ht HQ. unfold stage_base_image. cbv zeta. or_go. apply or_resolve. intros q. apply HQ; [called|].
  unfold staged, stage_cmd. rewrite <- Ht. acts_tac.
Qed.
Lemma or_create_cow_disk base disk env (Q : unit → list event → environ → Prop) :
  (∀ (there : bool) l, Ev (EExists (path_str disk)) (inl there) ∈ l → acts l = disk_made env there base disk →
     Q tt l env) →
  on_return (create_cow_disk base disk : M PS unit) env Q.
Proof.
  intros HQ. unfold create_cow_disk. or_go. destruct a; or_go; (eapply HQ; [called|]; acts_tac).
Qed.
Lemma or_create_and_start_vm vm disk env (Q : unit → list event → environ → Prop) :
  (∀ l, acts l = [started env vm disk] → Q tt l env) → on_return (create_and_start_vm vm disk : M PS unit) env Q.
Proof. intros HQ. unfold create_and_start_vm. or_go. apply HQ. acts_tac. Qed.
End success.

(** The temporary name is the name with an ending. *)
Lemma join_last sep (l : list string) x y : join sep (l ++ [x +:+ y]) = join sep (l ++ [x]) +:+ y.
Proof.
  induction l as [|z l IH]; [done|]. cbn [app].
  assert (∀ w, join sep (z :: l ++ [w]) = z +:+ sep +:+ join sep (l ++ [w])) as E by by destruct l.
  by rewrite !E, IH, !app_str_assoc.
Qed.
Lemma temporary_str l x d :
  p_parts d = l ++ [x] → path_str (temporary_of d) = path_str d +:+ ".tmp".
Proof.
  intros E. unfold temporary_of, with_name, path_name, path_str. cbn [p_root p_parts].
  rewrite E, removelast_last, last_last. pose proof (join_last "/" l x ".tmp") as Hj.
  destruct (p_root d) as [|c r]; [by destruct l|]. by rewrite Hj, app_str_assoc.
Qed.


(** ** A run of vm_manager.py, evaluated *)

(** A host with both images and a server machine that runs; the removal of a machine has
    status [removal_status]. *)
Definition vm_images : string := "/w/yocto-dev/poky/build/tmp/deploy/images/genericx86-64".
Definition sample_vm_world (removal_status : Z) : hst lw :=
  placed (Site []
    (λ argv,
       if bool_decide (argv = domstate_cmd VM_SERVER) then Completed 0 "Running" EmptyString
       else if bool_decide (nth 3 argv EmptyString = "domstate") then Completed 1 EmptyString EmptyString
       else if bool_decide (argv = pool_cmd) then Completed 0 "/pool" EmptyString
       else if bool_decide (argv = undefine_cmd VM_SERVER) then Completed removal_status EmptyString EmptyString
       else Completed 0 EmptyString EmptyString)
    [(vm_images, EmptyString); (vm_images +:+ "/" +:+ server_image, EmptyString);
     (vm_images +:+ "/" +:+ client_image, EmptyString);
     ("/pool/blank-chat-benchmarks/server.qcow2", EmptyString)] [] 0).
Definition sample_vm (removal_status : Z) : res unit * (environ * hst lw) :=
  vm_main sample_file (λ text, inl (Some text)) 0%nat (∅, sample_vm_world removal_status).

Example sample_vm_runs :
  (sample_vm 0).1 = Ok tt ∧
  map pr_argv (firstn 7 (runs (trace (sample_vm 0).2.2))) =
    [domstate_cmd VM_SERVER; destroy_cmd VM_SERVER; undefine_cmd VM_SERVER; domstate_cmd VM_CLIENT_1;
     domstate_cmd VM_CLIENT_2; pool_cmd; storage_cmd "user" "user" (Path "/pool/blank-chat-benchmarks")] ∧
  map pr_argv (skipn 9 (runs (trace (sample_vm 0).2.2))) =
    [["qemu-img"; "create"; "-f"; "qcow2"; "-F"; "raw"; "-b"; "/pool/blank-chat-benchmarks/base/server-base.wic";
      "/pool/blank-chat-benchmarks/server.qcow2"];
     ["qemu-img"; "create"; "-f"; "qcow2"; "-F"; "raw"; "-b"; "/pool/blank-chat-benchmarks/base/client-base.wic";
      "/pool/blank-chat-benchmarks/client1.qcow2"];
     ["qemu-img"; "create"; "-f"; "qcow2"; "-F"; "raw"; "-b"; "/pool/blank-chat-benchmarks/base/client-base.wic";
      "/pool/blank-chat-benchmarks/client2.qcow2"];
     start_cmd VM_SERVER (Path "/pool/blank-chat-benchmarks/server.qcow2");
     start_cmd VM_CLIENT_1 (Path "/pool/blank-chat-benchmarks/client1.qcow2");
     start_cmd VM_CLIENT_2 (Path "/pool/blank-chat-benchmarks/client2.qcow2")].
Proof. split_and!; vm_compute; reflexivity. Qed.

(** A machine that cannot be removed is not reported: [exit_on_fail=False] also switches
    the message off, and the script goes on. *)
Example removal_failure_silent :
  (sample_vm 1).1 = Ok tt ∧
  existsb (λ ev, match ev_eff ev with EPrint true _ => true | _ => false end) (trace (sample_vm 1).2.2) = false.
Proof. split_and!; vm_compute; reflexivity. Qed.
