(* ===== verification/FileSys.v ===== *)
(** * Hosts with a file system

    A file system is a tree: a map from locations to files, directories and symbolic
    links, with a current directory and the texts of the files that are open.  The class
    [FileSystem] says what the calls of the scripts do to it, where names are resolved
    without passing a link or a [..]; a process may change the tree as it likes.  The
    judgement [fw] follows a script through the calls it makes and the states of the file
    system.  [disk] is a concrete host with these laws. *)

From Stdlib Require Import Ascii ZArith QArith Lia.
From stdpp Require Import base list strings gmap.
From S2P Require Import Prelude PyText Host Paths Argparse Utils ScriptLogic.

Inductive node : Type :=
| NFile (text : string)
| NDir
| NLink (target : path).

(** A location is the list of names from the root. *)
Abbreviation tree := (gmap (list string) node).

Record fstate : Type := FState {
  files : tree; cwd : list string; opened : gmap nat string }.

Definition set_files (f : tree) (s : fstate) : fstate := FState f (cwd s) (opened s).

(** Where a path leads from the directory [c]. *)
Definition place (c : list string) (p : path) : list string :=
  let q := Path p in
  if bool_decide (p_root q = EmptyString) then c ++ p_parts q else p_parts q.

(** The directories on the way to [l] are not links, and [l] does not go up. *)
Definition reaches (f : tree) (l : list string) : Prop :=
  ".." ∉ l ∧ ∀ k x t, k ++ [x] `prefix_of` l → f !! k ≠ Some (NLink t).
(** Nor is [l] a link itself. *)
Definition real (f : tree) (l : list string) : Prop :=
  ".." ∉ l ∧ ∀ k t, k `prefix_of` l → f !! k ≠ Some (NLink t).

(** Every entry is in a directory. *)
Definition tree_wf (f : tree) : Prop :=
  ∀ k x, is_Some (f !! (k ++ [x])) → f !! k = Some NDir.

(** What is left after everything at and below [l] is removed. *)
Definition rmtree (l : list string) (f : tree) : tree :=
  filter (λ p, ¬ l `prefix_of` p.1) f.

(** The calls that leave the file system as it is. *)
Definition fs_quiet {A} (e : eff A) : bool :=
  match e with
  | EPrint _ _ | EUid | EGid | EIsatty | EUsage _ _ | EExists _ | EIsDir _ | EIsFile _
  | EIsSymlink _ | EScandir _ | EGetmtime _ | EResolve _ | EChmod _ _ => true
  | _ => false
  end.

(** The calls, in the scripts, that act on the file system are these.  Where a name
    passes a link or goes up, nothing is said. *)
Class FileSystem (W : Type) `{Host W} : Type := {
  fs : W → fstate;
  fs_frame : ∀ A (e : eff A) w, fs_quiet e = true → fs (snd (handle e w)) = fs w;
  (* a path without links, in normal form, is its own resolution *)
  fs_resolve : ∀ l w q w', Forall part_ok l → real (files (fs w)) l →
    handle (EResolve (path_str (PPath "/" l))) w = (inl q, w') → q = path_str (PPath "/" l);
  fs_chdir : ∀ p w w', let l := place (cwd (fs w)) p in
    handle (EChdir p) w = (inl tt, w') → real (files (fs w)) l →
    fs w' = FState (files (fs w)) l (opened (fs w));
  fs_chdir_error : ∀ p w x w', handle (EChdir p) w = (inr x, w') → fs w' = fs w;
  fs_exists : ∀ p w b w', let l := place (cwd (fs w)) p in
    handle (EExists p) w = (inl b, w') → real (files (fs w)) l →
    b = bool_decide (is_Some (files (fs w) !! l));
  fs_is_dir : ∀ p w b w', let l := place (cwd (fs w)) p in
    handle (EIsDir p) w = (inl b, w') → real (files (fs w)) l →
    b = true ↔ files (fs w) !! l = Some NDir;
  fs_is_file : ∀ p w b w', let l := place (cwd (fs w)) p in
    handle (EIsFile p) w = (inl b, w') → real (files (fs w)) l →
    b = true ↔ ∃ t, files (fs w) !! l = Some (NFile t);
  fs_is_symlink : ∀ p w b w', let l := place (cwd (fs w)) p in
    handle (EIsSymlink p) w = (inl b, w') → reaches (files (fs w)) l →
    b = true ↔ ∃ t, files (fs w) !! l = Some (NLink t);
  fs_scandir : ∀ p w names w', let l := place (cwd (fs w)) p in
    handle (EScandir p) w = (inl names, w') → real (files (fs w)) l →
    ∀ x, x ∈ names ↔ is_Some (files (fs w) !! (l ++ [x])) ∧ part_ok x ∧ x ≠ "..";
  fs_unlink : ∀ p w w', let l := place (cwd (fs w)) p in
    handle (EUnlink p) w = (inl tt, w') → reaches (files (fs w)) l →
    fs w' = set_files (delete l (files (fs w))) (fs w);
  fs_copy2 : ∀ src dst w w', let l := place (cwd (fs w)) src in
    let l' := place (cwd (fs w)) dst in
    handle (ECopy2 src dst) w = (inl tt, w') →
    real (files (fs w)) l → reaches (files (fs w)) l' → files (fs w) !! l' = None →
    ∃ t, files (fs w) !! l = Some (NFile t) ∧
      fs w' = set_files (<[l' := NFile t]> (files (fs w))) (fs w);
  (* [shutil.rmtree] refuses a link; if it fails it may have removed a part *)
  fs_rmtree : ∀ p w w', let l := place (cwd (fs w)) p in
    handle (ERmtree p) w = (inl tt, w') → reaches (files (fs w)) l →
    real (files (fs w)) l ∧ fs w' = set_files (rmtree l (files (fs w))) (fs w);
  fs_rmtree_error : ∀ p w x w', let l := place (cwd (fs w)) p in
    handle (ERmtree p) w = (inr x, w') → reaches (files (fs w)) l →
    ∃ f, fs w' = set_files f (fs w) ∧ ∀ k, ¬ l `prefix_of` k → f !! k = files (fs w) !! k;
  (* [mkdir(parents=True, exist_ok=True)] *)
  fs_mkdir : ∀ p w w', let l := place (cwd (fs w)) p in
    handle (EMkdir p) w = (inl tt, w') → real (files (fs w)) l →
    ∃ f, fs w' = set_files f (fs w) ∧
      ∀ k, f !! k = files (fs w) !! k ∨ (k `prefix_of` l ∧ f !! k = Some NDir);
  fs_open : ∀ p w h w', let l := place (cwd (fs w)) p in
    handle (EOpenR p) w = (inl h, w') →
    files (fs w') = files (fs w) ∧ cwd (fs w') = cwd (fs w) ∧
    (real (files (fs w)) l →
      ∃ t, files (fs w) !! l = Some (NFile t) ∧ opened (fs w') !! h = Some t);
  fs_open_error : ∀ p w x w', handle (EOpenR p) w = (inr x, w') → fs w' = fs w;
  fs_read : ∀ h w o w', handle (EFileText h) w = (o, w') → fs w' = fs w ∧
    ∀ t text, opened (fs w) !! h = Some t → o = inl (text, None) → text = t;
  fs_close : ∀ h w o w', handle (ECloseFile h) w = (o, w') →
    fs w' = FState (files (fs w)) (cwd (fs w)) (opened (fs w'));
  (* a child process has its own current directory *)
  fs_process : ∀ c env argv w o w', handle (ESubprocess c env argv) w = (o, w') →
    cwd (fs w') = cwd (fs w) ∧ opened (fs w') = opened (fs w) }.

(** ** Locations *)

Lemma prefix_of_snoc (k l : list string) x : k `prefix_of` l ++ [x] → k `prefix_of` l ∨ k = l ++ [x].
Proof.
  intros [m E]. destruct m as [|y m _] using rev_ind; [right; by rewrite app_nil_r in E|left].
  rewrite app_assoc in E. apply app_inj_tail in E as [-> _]. by apply prefix_app_r.
Qed.
Lemma real_child f l x : real f l → x ≠ ".." → reaches f (l ++ [x]).
Proof.
  intros [Hu Hl] Hx. split.
  - rewrite elem_of_app, list_elem_of_singleton. intros [?|?]; [done|by subst].
  - intros k y t Hk. apply Hl. apply prefix_of_snoc in Hk as [Hk|Hk].
    + etransitivity; [|exact Hk]. by apply prefix_app_r.
    + apply app_inj_tail in Hk as [-> _]. reflexivity.
Qed.
Lemma reaches_real f l : reaches f l → (∀ t, f !! l ≠ Some (NLink t)) → real f l.
Proof.
  intros [Hu Hl] Hn. split; [done|]. intros k t [m ->]. destruct m as [|x m]; [by rewrite app_nil_r in Hn|].
  apply (Hl _ x). exists m. by rewrite <- app_assoc.
Qed.
Lemma real_prefix f k l : real f l → k `prefix_of` l → real f k.
Proof.
  intros [Hu Hl] Hk. split.
  - intros Hin. apply Hu. destruct Hk as [m ->]. apply elem_of_app. by left.
  - intros j t Hj. apply Hl. by etransitivity.
Qed.
(** Below a location that is not there. *)
Lemma tree_wf_below f l k : tree_wf f → f !! l = None → l `prefix_of` k → f !! k = None.
Proof.
  intros Hf Hl [m ->]. induction m as [|x m IH] using rev_ind; [by rewrite app_nil_r|].
  rewrite app_assoc. destruct (f !! ((l ++ m) ++ [x])) as [n|] eqn:E; [|done].
  by rewrite (Hf (l ++ m) x (mk_is_Some _ _ E)) in IH.
Qed.
Lemma real_below f l m : tree_wf f → real f l → f !! l = None → ".." ∉ m → real f (l ++ m).
Proof.
  intros Hf [Hu Hl] Hn Hm. split; [rewrite elem_of_app; naive_solver|]. intros k t Hk.
  destruct (prefix_weak_total k l (l ++ m)) as [Hkl|Hlk]; [done|by apply prefix_app_r|by apply Hl|].
  by rewrite (tree_wf_below f l k).
Qed.

Lemma lookup_rmtree l f k :
  rmtree l f !! k = if decide (l `prefix_of` k) then None else f !! k.
Proof.
  unfold rmtree. destruct (decide (l `prefix_of` k)) as [Hk|Hk].
  - apply map_lookup_filter_None. right. intros n _ Hn. by apply Hn.
  - destruct (f !! k) as [n|] eqn:E.
    + apply map_lookup_filter_Some. by split.
    + apply map_lookup_filter_None. by left.
Qed.
Lemma rmtree_absent l f : tree_wf f → f !! l = None → rmtree l f = f.
Proof.
  intros Hf Hl. apply map_eq. intros k. rewrite lookup_rmtree. case_decide as Hk; [|done].
  by rewrite (tree_wf_below f l k).
Qed.
Lemma rmtree_wf l f : tree_wf f → tree_wf (rmtree l f).
Proof.
  intros Hf k x [n Hn]. rewrite lookup_rmtree in Hn. rewrite lookup_rmtree. case_decide as Hkx; [done|].
  rewrite decide_False; [by eapply Hf|]. intros Hk. apply Hkx. etransitivity; [exact Hk|]. by apply prefix_app_r.
Qed.
Lemma real_rmtree l f k : real f k → real (rmtree l f) k.
Proof.
  intros [Hu Hk]. split; [done|]. intros j t Hj. rewrite lookup_rmtree. case_decide; [done|]. by apply Hk.
Qed.

Lemma real_delete l f k : real f k → real (delete l f) k.
Proof.
  intros [Hu Hk]. split; [done|]. intros j t Hj E. apply lookup_delete_Some in E as [_ E]. by apply (Hk j t).
Qed.
Lemma reaches_delete l f k : reaches f k → reaches (delete l f) k.
Proof.
  intros [Hu Hk]. split; [done|]. intros j x t Hj E. apply lookup_delete_Some in E as [_ E]. by apply (Hk j x t).
Qed.

(** A tree with fewer entries. *)
Lemma real_fewer (f g : tree) l : (∀ k, g !! k = f !! k ∨ g !! k = None) → real f l → real g l.
Proof. intros Hg [Hu Hl]. split; [done|]. intros k t Hk. destruct (Hg k) as [->| ->]; [by apply Hl|done]. Qed.
(** A tree with more directories. *)
Lemma real_more_dirs (f g : tree) l : (∀ k, g !! k = f !! k ∨ g !! k = Some NDir) → real f l → real g l.
Proof. intros Hg [Hu Hl]. split; [done|]. intros k t Hk. destruct (Hg k) as [->| ->]; [by apply Hl|done]. Qed.

Lemma place_abs c l : Forall part_ok l → place c (path_str (PPath "/" l)) = l.
Proof. intros Hl. unfold place. by rewrite path_roundtrip by (split; [set_solver|done]). Qed.
Lemma place_rel c p : path_wf p → p_root p = EmptyString → place c (path_str p) = c ++ p_parts p.
Proof. intros Hp Hr. unfold place. rewrite path_roundtrip by done. by rewrite bool_decide_true. Qed.
Lemma place_path c p : path_wf p →
  place c (path_str p) = if bool_decide (p_root p = EmptyString) then c ++ p_parts p else p_parts p.
Proof. intros Hp. unfold place. by rewrite path_roundtrip. Qed.
Lemma place_child c p x : path_wf p → part_ok x →
  place c (path_str (PPath (p_root p) (p_parts p ++ [x]))) = place c (path_str p) ++ [x].
Proof.
  intros [Hr Hp] Hx. rewrite (place_path c p) by done.
  rewrite place_path by (split; [done|]; apply Forall_app; split; [done|by apply Forall_singleton]).
  cbn. case_bool_decide; [|done]. by rewrite app_assoc.
Qed.

(** ** Following a script *)

Section fw.
Context {W : Type} `{FileSystem W}.
Abbreviation PS := (environ * hst W)%type.

(** From [env] and the file system [s], the calls [l], the environment, the file system
    and the outcome satisfy [Q]. *)
Definition fw {A} (m : M PS A) (env : environ) (s : fstate)
  (Q : list event → environ → fstate → res A → Prop) : Prop :=
  ∀ n st r env' st', fs (world st) = s → m n (env, st) = (r, (env', st')) → r ≠ NoFuel →
    ∃ l, trace st' = trace st ++ l ∧ Q l env' (fs (world st')) r.

Lemma fw_mono {A} (m : M PS A) env s (Q Q' : list event → environ → fstate → res A → Prop) :
  (∀ l env' s' r, r ≠ NoFuel → Q l env' s' r → Q' l env' s' r) → fw m env s Q → fw m env s Q'.
Proof.
  intros HQ Hm n st r env' st' Hs E Hr. destruct (Hm n st r env' st' Hs E Hr) as (l & Hl & HQl). eauto.
Qed.

(** What is known of the calls, and what is known of the files. *)
Lemma fw_tw {A} (m : M PS A) env s (P : list event → environ → res A → Prop)
  (Q : list event → environ → fstate → res A → Prop) :
  tw m env P → fw m env s Q → fw m env s (λ l env' s' r, P l env' r ∧ Q l env' s' r).
Proof.
  intros H1 H2 n st r env' st' Hs E Hr. destruct (H1 _ _ _ _ _ E Hr) as (l & Hl & HP).
  destruct (H2 _ _ _ _ _ Hs E Hr) as (l' & Hl' & HQ). exists l. split; [done|]. split; [done|].
  rewrite Hl in Hl'. apply app_inv_head in Hl'. by subst.
Qed.

Lemma fw_ret {A} (a : A) env s (Q : list event → environ → fstate → res A → Prop) :
  Q [] env s (Ok a) → fw (mret a) env s Q.
Proof. intros HQ n st r env' st' <- [= <- <- <-] _. exists []. by rewrite app_nil_r. Qed.
Lemma fw_rethrow {A} e env s (Q : list event → environ → fstate → res A → Prop) :
  Q [] env s (Raise e) → fw (rethrow e) env s Q.
Proof. intros HQ n st r env' st' <- [= <- <- <-] _. exists []. by rewrite app_nil_r. Qed.
Lemma fw_get env s (Q : list event → environ → fstate → res environ → Prop) :
  Q [] env s (Ok env) → fw get_local env s Q.
Proof. intros HQ n st r env' st' <- [= <- <- <-] _. exists []. by rewrite app_nil_r. Qed.

Lemma fw_sys {A} (e : eff A) env s (Q : list event → environ → fstate → res A → Prop) :
  (∀ o w w', fs w = s → handle e w = (o, w') → Q [Ev e o] env (fs w') (outcome o)) →
  fw (sys e) env s Q.
Proof.
  intros HQ n st r env' st' Hs E _. unfold sys, lift, call in E. cbn in E.
  destruct (handle e (world st)) as [o w'] eqn:Eh. injection E as <- <- <-.
  exists [Ev e o]. split; [done|]. by eapply HQ.
Qed.
(** A call that leaves the file system as it is. *)
Lemma fw_quiet {A} (e : eff A) env s (Q : list event → environ → fstate → res A → Prop) :
  fs_quiet e = true →
  (∀ o w w', fs w = s → handle e w = (o, w') → Q [Ev e o] env s (outcome o)) →
  fw (sys e) env s Q.
Proof.
  intros He HQ. apply fw_sys. intros o w w' Hs Eh. pose proof (fs_frame _ e w He) as Hf.
  rewrite Eh in Hf. cbn in Hf. rewrite Hf, Hs. by eapply HQ.
Qed.
(** A part that makes no call. *)
Lemma fw_silent {A} (m : M PS A) env s (P : list event → environ → res A → Prop) :
  keeps (host_only eq) m → tw m env P → fw m env s (λ l env' s' r, P l env' r ∧ s' = s).
Proof.
  intros Hk Hm n st r env' st' Hs E Hr. destruct (Hm _ _ _ _ _ E Hr) as (l & Hl & HP).
  exists l. split; [done|]. split; [done|]. specialize (Hk n (env, st)). rewrite E in Hk.
  unfold host_only in Hk. cbn in Hk. by rewrite <- Hk.
Qed.

Definition fs_then {A B} (k : A → M PS B) (Q : list event → environ → fstate → res B → Prop)
  (l : list event) (env : environ) (s : fstate) (r : res A) : Prop :=
  match r with
  | Ok a => fw (k a) env s (λ l' env' s' r', Q (l ++ l') env' s' r')
  | Raise e => Q l env s (Raise e)
  | NoFuel => False
  end.

Lemma fw_bind {A B} (m : M PS A) (k : A → M PS B) env s
  (Q : list event → environ → fstate → res B → Prop) :
  fw m env s (fs_then k Q) → fw (m ≫= k) env s Q.
Proof.
  intros Hm n st r env' st' Hs E Hr. unfold mbind, M_mbind, m_bind in E.
  destruct (m n (env, st)) as [[a|e|] [env1 st1]] eqn:E1; [| |by injection E as <- _ _].
  - destruct (Hm n st _ _ _ Hs E1 ltac:(done)) as (l & Hl & Hk).
    destruct (Hk n st1 r env' st' eq_refl E Hr) as (l' & Hl' & HQ).
    exists (l ++ l'). split; [|done]. by rewrite Hl', Hl, app_assoc.
  - injection E as <- <- <-. by apply (Hm n st _ _ _ Hs E1).
Qed.

Lemma fw_try_except {A} (m : M PS A) cs k env s (Q : list event → environ → fstate → res A → Prop) :
  fw m env s (λ l env' s' r,
    match r with
    | Raise e => if isinstance_any e cs then fw (k e) env' s' (λ l' env'' s'' r', Q (l ++ l') env'' s'' r')
                 else Q l env' s' r
    | _ => Q l env' s' r
    end) → fw (try_except m (except cs k)) env s Q.
Proof.
  intros Hm n st r env' st' Hs E Hr. unfold try_except, except in E.
  destruct (m n (env, st)) as [[a|e|] [env1 st1]] eqn:E1; [| |by injection E as <- _ _].
  - injection E as <- <- <-. by apply (Hm n st _ _ _ Hs E1).
  - destruct (Hm n st _ _ _ Hs E1 ltac:(done)) as (l & Hl & Hk). cbn beta iota in Hk.
    destruct (isinstance_any e cs); [|injection E as <- <- <-; eauto].
    destruct (Hk n st1 r env' st' eq_refl E Hr) as (l' & Hl' & HQ).
    exists (l ++ l'). split; [|done]. by rewrite Hl', Hl, app_assoc.
Qed.

Lemma fw_try_finally {A} (m : M PS A) fin env s (Q : list event → environ → fstate → res A → Prop) :
  fw m env s (λ l env' s' r, fw fin env' s' (λ l' env'' s'' r',
    Q (l ++ l') env'' s'' (match r' with Ok _ => r | Raise e => Raise e | NoFuel => NoFuel end))) →
  fw (try_finally m fin) env s Q.
Proof.
  intros Hm n st r env' st' Hs E Hr. unfold try_finally in E.
  destruct (m n (env, st)) as [r1 [env1 st1]] eqn:E1.
  destruct (fin n (env1, st1)) as [r2 [env2 st2]] eqn:E2.
  assert (r1 ≠ NoFuel) as Hr1 by (destruct r1; [done|done|by injection E as <- _ _]).
  assert (r2 ≠ NoFuel) as Hr2 by (destruct r1, r2; naive_solver).
  destruct (Hm n st _ _ _ Hs E1 Hr1) as (l & Hl & Hf).
  destruct (Hf n st1 _ _ _ eq_refl E2 Hr2) as (l' & Hl' & HQ).
  exists (l ++ l').
  assert (r = match r2 with Ok _ => r1 | Raise e => Raise e | NoFuel => NoFuel end ∧ env' = env2 ∧ st' = st2)
    as (-> & -> & ->) by (destruct r1, r2; naive_solver).
  split; [by rewrite Hl', Hl, app_assoc|done].
Qed.

(** The file system after a script that ends. *)
Lemma fw_post {A} (m : M PS A) env (st : hst W) (Q : list event → environ → fstate → res A → Prop) :
  total m → fw m env (fs (world st)) Q →
  ∃ r env' st' l, returns m (env, st) r (env', st') ∧ trace st' = trace st ++ l ∧
    Q l env' (fs (world st')) r.
Proof.
  intros Ht Hm. destruct (Ht (env, st)) as (r & [env' st'] & Hr & k & Hk).
  destruct (Hm k st r env' st') as (l & Hl & HQ); [done|by apply Hk|done|].
  exists r, env', st', l. split; [|done]. split; [done|by exists k].
Qed.
End fw.

(** ** Parts that stay in the current directory *)

Definition stays {A} (e : eff A) : bool :=
  match e with ESubprocess _ _ _ => true | _ => fs_quiet e end.

Section stay.
Context {W : Type} `{FileSystem W}.
Abbreviation PS := (environ * hst W)%type.

Definition same_cwd (st st' : hst W) : Prop := cwd (fs (world st')) = cwd (fs (world st)).
#[global] Instance same_cwd_preorder : PreOrder same_cwd.
Proof. split; unfold same_cwd; [done|congruence]. Qed.

Lemma stays_call {A} (e : eff A) w o w' :
  stays e = true → handle e w = (o, w') → cwd (fs w') = cwd (fs w).
Proof.
  intros He Hh. assert (fs_quiet e = true → cwd (fs w') = cwd (fs w)) as Hq.
  { intros Hq. pose proof (fs_frame _ e w Hq) as Hf. rewrite Hh in Hf. cbn in Hf. by rewrite Hf. }
  destruct e; try done; try by apply Hq. by destruct (fs_process _ _ _ _ _ _ Hh).
Qed.
Lemma keeps_sys_cwd {A} (e : eff A) : stays e = true → keeps (host_only same_cwd) (sys e : M PS A).
Proof.
  intros He. apply keeps_lift_host_only. intros n st. unfold call, same_cwd.
  destruct (handle e (world st)) as [o w'] eqn:Eh. cbn. by eapply stays_call.
Qed.

(** What is known of the calls of a part that stays. *)
Lemma fw_stays {A} (m : M PS A) env s (P : list event → environ → res A → Prop) :
  keeps (host_only same_cwd) m → tw m env P → fw m env s (λ l env' s' r, P l env' r ∧ cwd s' = cwd s).
Proof.
  intros Hk Hm n st r env' st' <- E Hr. destruct (Hm _ _ _ _ _ E Hr) as (l & Hl & HP).
  exists l. split; [done|]. split; [done|]. specialize (Hk n (env, st)). by rewrite E in Hk.
Qed.

(** A part that changes nothing at all. *)
Definition same_fs (st st' : hst W) : Prop := fs (world st') = fs (world st).
#[global] Instance same_fs_preorder : PreOrder same_fs.
Proof. split; unfold same_fs; [done|congruence]. Qed.
Lemma keeps_sys_fs {A} (e : eff A) : fs_quiet e = true → keeps (host_only same_fs) (sys e : M PS A).
Proof.
  intros He. apply keeps_lift_host_only. intros n st. unfold call, same_fs.
  pose proof (fs_frame _ e (world st) He) as Hf. by destruct (handle e (world st)).
Qed.
Lemma fw_same {A} (m : M PS A) env s (P : list event → environ → res A → Prop) :
  keeps (host_only same_fs) m → tw m env P → fw m env s (λ l env' s' r, P l env' r ∧ s' = s).
Proof.
  intros Hk Hm n st r env' st' <- E Hr. destruct (Hm _ _ _ _ _ E Hr) as (l & Hl & HP).
  exists l. split; [done|]. split; [done|]. specialize (Hk n (env, st)). by rewrite E in Hk.
Qed.
End stay.
#[export] Hint Extern 0 (keeps (host_only same_fs) (sys _)) => (apply keeps_sys_fs; reflexivity) : py.
#[export] Hint Extern 0 (keeps (host_only same_cwd) (sys _)) => (apply keeps_sys_cwd; reflexivity) : py.

(** The laws at a known location of a known state. *)
Section at_location.
Context {W : Type} `{FileSystem W} (w w' : W) (s : fstate) (p : path) (l : list string).
Hypothesis Hs : fs w = s.
Hypothesis Hl : place (cwd s) p = l.

Lemma exists_at b :
  handle (EExists p) w = (inl b, w') → real (files s) l → b = bool_decide (is_Some (files s !! l)).
Proof. subst. apply fs_exists. Qed.
Lemma is_dir_at b :
  handle (EIsDir p) w = (inl b, w') → real (files s) l → b = true ↔ files s !! l = Some NDir.
Proof. subst. apply fs_is_dir. Qed.
Lemma is_file_at b :
  handle (EIsFile p) w = (inl b, w') → real (files s) l → b = true ↔ ∃ t, files s !! l = Some (NFile t).
Proof. subst. apply fs_is_file. Qed.
Lemma is_symlink_at b :
  handle (EIsSymlink p) w = (inl b, w') → reaches (files s) l → b = true ↔ ∃ t, files s !! l = Some (NLink t).
Proof. subst. apply fs_is_symlink. Qed.
Lemma scandir_at names :
  handle (EScandir p) w = (inl names, w') → real (files s) l →
  ∀ x, x ∈ names ↔ is_Some (files s !! (l ++ [x])) ∧ part_ok x ∧ x ≠ "..".
Proof. subst. apply fs_scandir. Qed.
Lemma chdir_at :
  handle (EChdir p) w = (inl tt, w') → real (files s) l → fs w' = FState (files s) l (opened s).
Proof. subst. apply fs_chdir. Qed.
Lemma unlink_at :
  handle (EUnlink p) w = (inl tt, w') → reaches (files s) l → fs w' = set_files (delete l (files s)) s.
Proof. subst. apply fs_unlink. Qed.
Lemma copy2_at src l0 :
  handle (ECopy2 src p) w = (inl tt, w') → place (cwd s) src = l0 →
  real (files s) l0 → reaches (files s) l → files s !! l = None →
  ∃ t, files s !! l0 = Some (NFile t) ∧ fs w' = set_files (<[l := NFile t]> (files s)) s.
Proof. intros Hh Hl0. subst. by apply fs_copy2. Qed.
Lemma rmtree_at :
  handle (ERmtree p) w = (inl tt, w') → reaches (files s) l →
  real (files s) l ∧ fs w' = set_files (rmtree l (files s)) s.
Proof. subst. apply fs_rmtree. Qed.
Lemma rmtree_error_at x :
  handle (ERmtree p) w = (inr x, w') → reaches (files s) l →
  ∃ f, fs w' = set_files f s ∧ ∀ k, ¬ l `prefix_of` k → f !! k = files s !! k.
Proof. subst. apply fs_rmtree_error. Qed.
Lemma mkdir_at :
  handle (EMkdir p) w = (inl tt, w') → real (files s) l →
  ∃ f, fs w' = set_files f s ∧ ∀ k, f !! k = files s !! k ∨ (k `prefix_of` l ∧ f !! k = Some NDir).
Proof. subst. apply fs_mkdir. Qed.
Lemma open_at h :
  handle (EOpenR p) w = (inl h, w') →
  files (fs w') = files s ∧ cwd (fs w') = cwd s ∧
  (real (files s) l → ∃ t, files s !! l = Some (NFile t) ∧ opened (fs w') !! h = Some t).
Proof. subst. apply fs_open. Qed.
End at_location.

(** ** A concrete host with a disk *)

#[global] Instance node_eq_dec : EqDecision node.
Proof. solve_decision. Defined.
#[global] Instance part_ok_dec x : Decision (part_ok x).
Proof. unfold part_ok. apply _. Defined.

(** What the programs do: from the directory they run in, their arguments and the tree to
    their result and the tree they leave. *)
Definition shell : Type := list string → list string → tree → completed * tree.

Record disk (sh : shell) : Type := Disk { d_fs : fstate }.
#[global] Arguments Disk {sh} d_fs.
#[global] Arguments d_fs {sh} _.

Definition d_put {sh : shell} (f : tree) (w : disk sh) : disk sh := Disk (set_files f (d_fs w)).
Definition d_open {sh : shell} (o : gmap nat string) (w : disk sh) : disk sh :=
  Disk (FState (files (d_fs w)) (cwd (d_fs w)) o).

(** The name of [k] in the directory [l], if it is there. *)
Definition child_name (l k : list string) : option string :=
  if decide (l = take (length l) k) then
    match drop (length l) k with [x] => Some x | _ => None end
  else None.

Lemma child_name_Some l k x : child_name l k = Some x ↔ k = l ++ [x].
Proof.
  unfold child_name. split.
  - case_decide as Hl; [|done]. destruct (drop (length l) k) as [|y [|]] eqn:E; [done| |done].
    intros [= ->]. rewrite <- (take_drop (length l) k), <- Hl, E. done.
  - intros ->. rewrite take_app_length, drop_app_length. by rewrite decide_True.
Qed.

Definition entries (f : tree) (l : list string) : list string :=
  List.filter (λ x, bool_decide (part_ok x ∧ x ≠ ".."))
    (omap (λ p, child_name l p.1) (map_to_list f)).

Lemma elem_of_entries f l x :
  x ∈ entries f l ↔ is_Some (f !! (l ++ [x])) ∧ part_ok x ∧ x ≠ "..".
Proof.
  unfold entries. rewrite list_elem_of_In, filter_In, <- list_elem_of_In, list_elem_of_omap, bool_decide_eq_true.
  split.
  - intros [([k n] & Hk & Hx) Hok]. apply elem_of_map_to_list in Hk. apply child_name_Some in Hx.
    cbn in Hx. subst. eauto.
  - intros [[n Hn] Hok]. split; [|done]. exists (l ++ [x], n).
    split; [by apply elem_of_map_to_list|by apply child_name_Some].
Qed.

(** [mkdir -p]: the missing directories on the way to [l]. *)
Definition dir_step (f : tree) (k : list string) : tree :=
  match f !! k with None => <[k := NDir]> f | Some _ => f end.
Definition ways (l : list string) : list (list string) := map (λ n, take n l) (seq 0 (S (length l))).
Definition mkdirs (l : list string) (f : tree) : tree := foldl dir_step f (ways l).
Definition mkdir_ok (l : list string) (f : tree) : bool :=
  forallb (λ k, bool_decide (f !! k = None ∨ f !! k = Some NDir)) (ways l).

Lemma lookup_mkdirs l f k :
  mkdirs l f !! k = f !! k ∨ (k `prefix_of` l ∧ mkdirs l f !! k = Some NDir).
Proof.
  unfold mkdirs.
  assert (Forall (λ j, j `prefix_of` l) (ways l)) as Hw.
  { unfold ways. apply Forall_map, Forall_forall. intros n _. exists (drop n l). by rewrite take_drop. }
  induction (ways l) as [|j ks IH] using rev_ind; [by left|].
  rewrite foldl_app. cbn. apply Forall_app in Hw as [Hks Hj]. apply Forall_inv in Hj.
  specialize (IH Hks). set (g := foldl dir_step f ks) in *.
  assert (dir_step g j !! k = g !! k ∨ (k = j ∧ dir_step g j !! k = Some NDir)) as [->|[-> ->]].
  { unfold dir_step. destruct (g !! j) eqn:E; [by left|]. destruct (decide (j = k)) as [->|Hne].
    - right. by rewrite lookup_insert_eq.
    - left. by rewrite lookup_insert_ne. }
  - done.
  - right. by split.
Qed.

Definition not_there {A} {sh : shell} (p : path) (w : disk sh) : (A + exn) * disk sh := (inr (Exn FileNotFoundError p), w).

#[global] Instance disk_host {sh : shell} : Host (disk sh) := λ A e w,
  let s := d_fs w in
  let f := files s in
  let at_ := place (cwd s) in
  match e in eff A return (A + exn) * disk sh with
  | EPrint _ _ | EUsage _ _ | EChmod _ _ => (inl tt, w)
  | EUid | EGid => (inl 1000%Z, w)
  | EIsatty => (inl false, w)
  | EGetmtime _ => (inl 0%Q, w)
  | EResolve p => (inl (path_str (PPath "/" (at_ p))), w)
  | EChdir p =>
      if decide (f !! at_ p = Some NDir)
      then (inl tt, Disk (FState f (at_ p) (opened s))) else not_there p w
  | EExists p => (inl (bool_decide (is_Some (f !! at_ p))), w)
  | EIsDir p => (inl (bool_decide (f !! at_ p = Some NDir)), w)
  | EIsFile p => (inl (match f !! at_ p with Some (NFile _) => true | _ => false end), w)
  | EIsSymlink p => (inl (match f !! at_ p with Some (NLink _) => true | _ => false end), w)
  | EScandir p => (inl (entries f (at_ p)), w)
  | EUnlink p =>
      match f !! at_ p with
      | Some (NFile _) | Some (NLink _) => (inl tt, d_put (delete (at_ p) f) w)
      | _ => not_there p w
      end
  | ECopy2 src dst =>
      match f !! at_ src, f !! at_ dst with
      | Some (NFile t), Some (NFile _) | Some (NFile t), None =>
          (inl tt, d_put (<[at_ dst := NFile t]> f) w)
      | _, _ => not_there src w
      end
  | ERmtree p =>
      if decide (f !! at_ p = Some NDir) then (inl tt, d_put (rmtree (at_ p) f) w) else not_there p w
  | EMkdir p => if mkdir_ok (at_ p) f then (inl tt, d_put (mkdirs (at_ p) f) w) else not_there p w
  | EOpenR p =>
      match f !! at_ p with
      | Some (NFile t) => (inl (size (opened s)), d_open (<[size (opened s) := t]> (opened s)) w)
      | _ => not_there p w
      end
  | EFileText h => match opened s !! h with Some t => (inl (t, None), w) | None => not_there EmptyString w end
  | ECloseFile h => (inl tt, d_open (delete h (opened s)) w)
  | ESubprocess c _ argv =>
      let '(r, f') := sh (match c with Some p => at_ p | None => cwd s end) argv f in
      (inl r, d_put f' w)
  | _ => (inr (Exn OSError "not on this host"), w)
  end.

(** The outcomes of a call on the disk. *)
Ltac disk_call :=
  cbv zeta; intros;
  match goal with H : handle _ _ = _ |- _ => unfold handle, disk_host, not_there in H end;
  repeat case_match; simplify_eq.

#[global] Program Instance disk_fs {sh : shell} : FileSystem (disk sh) := {| fs := d_fs |}.
Next Obligation. intros sh A e w. unfold handle, disk_host. by destruct e. Qed.
Next Obligation. disk_call. by rewrite place_abs. Qed.
Next Obligation. disk_call. done. Qed.
Next Obligation. disk_call. done. Qed.
Next Obligation. disk_call. done. Qed.
Next Obligation. disk_call. apply bool_decide_eq_true. Qed.
Next Obligation. disk_call; naive_solver. Qed.
Next Obligation. disk_call; naive_solver. Qed.
Next Obligation. disk_call. apply elem_of_entries. Qed.
Next Obligation. disk_call; done. Qed.
Next Obligation. disk_call; eauto. Qed.
Next Obligation. disk_call. split; [|done]. apply reaches_real; [done|]. congruence. Qed.
Next Obligation. disk_call. exists (files (d_fs w')). split; [by destruct w' as [[]]|done]. Qed.
Next Obligation. disk_call. eexists. split; [done|]. apply lookup_mkdirs. Qed.
Next Obligation.
  disk_call. split_and!; [done|done|]. intros _. eexists. split; [done|]. cbn. apply lookup_insert_eq.
Qed.
Next Obligation. disk_call; done. Qed.
Next Obligation. disk_call; (split; [done|]); naive_solver. Qed.
Next Obligation. disk_call. done. Qed.
Next Obligation. disk_call; done. Qed.

(** ** Decidable trees *)

Definition is_link (n : option node) : bool := match n with Some (NLink _) => true | _ => false end.
Lemma is_link_false f (l : list string) : is_link (f !! l) = false ↔ ∀ t, (f : tree) !! l ≠ Some (NLink t).
Proof.
  destruct (f !! l) as [[]|]; cbn; split; try done.
  intros Hl. by destruct (Hl target).
Qed.

Lemma elem_of_ways k l : k ∈ ways l ↔ k `prefix_of` l.
Proof.
  unfold ways. rewrite list_elem_of_In, in_map_iff. split.
  - intros (n & <- & _). exists (drop n l). by rewrite take_drop.
  - intros [m ->]. exists (length k). split; [apply take_app_length|]. apply in_seq. rewrite length_app. lia.
Qed.
Definition realb (f : tree) (l : list string) : bool :=
  bool_decide (".." ∉ l) && forallb (λ k, negb (is_link (f !! k))) (ways l).
Lemma realb_real f l : realb f l = true → real f l.
Proof.
  unfold realb. rewrite andb_true_iff, bool_decide_eq_true, forallb_forall. intros [Hu Hl]. split; [done|].
  intros k t Hk. apply elem_of_ways, list_elem_of_In, Hl in Hk. apply negb_true_iff in Hk.
  by apply is_link_false.
Qed.

Definition tree_wfb (f : tree) : bool :=
  forallb (λ p, match p.1 with [] => true | _ => bool_decide (f !! removelast p.1 = Some NDir) end) (map_to_list f).
Lemma tree_wfb_wf f : tree_wfb f = true → tree_wf f.
Proof.
  unfold tree_wfb. rewrite forallb_forall. intros Hf k x [n Hn]. apply elem_of_map_to_list, list_elem_of_In, Hf in Hn.
  cbn [fst] in Hn. rewrite removelast_last in Hn. destruct k; by apply bool_decide_eq_true in Hn.
Qed.

(** A tree where something that is not a link is put somewhere. *)
Lemma real_insert f l k n : is_link (Some n) = false → real f k → real (<[l := n]> f) k.
Proof.
  intros Hn [Hu Hk]. split; [done|]. intros j t Hj E. apply lookup_insert_Some in E as [[_ ->]|[_ E]]; [done|].
  by apply (Hk j t).
Qed.
