(* ===== verification/DiskScripts.v ===== *)
(** * What the scripts do to the file system

    The scripts on a host with a file system ([FileSystem]), installed at a location that
    is reached without links: the files they remove, copy and read, whatever the programs
    they run do; and scripts run one after the other. *)

From Stdlib Require Import Ascii ZArith QArith Lia.
From stdpp Require Import base list strings gmap.
From S2P Require Import Prelude PyText Host Json Paths Argparse Utils ScriptLogic UtilsSpec Processes.
From S2P Require Import BuildScripts SdkScripts FileSys.

(** utils.py of the project at [root] *)
Definition utils_of (root : list string) : path :=
  path_str (PPath "/" (root ++ ["scripts"; "utils.py"])).

Record installed (f : tree) (root : list string) : Prop := {
  in_parts : Forall part_ok root;
  in_real : real f (root ++ ["scripts"; "utils.py"]) }.

Lemma installed_root f root : installed f root → real f root.
Proof. intros [_ Hr]. eapply real_prefix; [exact Hr|]. by apply prefix_app_r. Qed.

Lemma part_ok_script : Forall part_ok ["scripts"; "utils.py"].
Proof. repeat (apply Forall_cons; split; [done|]). by apply Forall_nil. Qed.

Lemma root_from_utils root : Forall part_ok root → root_from (utils_of root) = PPath "/" root.
Proof.
  intros Hr. unfold root_from, utils_of. rewrite path_roundtrip.
  - unfold path_parent. cbn.
    change ["scripts"; "utils.py"] with (["scripts"] ++ ["utils.py"]).
    by rewrite app_assoc, !removelast_last.
  - split; [set_solver|]. apply Forall_app. split; [done|apply part_ok_script].
Qed.

Lemma Path_part x : part_ok x → Path x = PPath EmptyString [x].
Proof.
  intros Hx. apply (path_roundtrip (PPath EmptyString [x])). split; [set_solver|by apply Forall_singleton].
Qed.
Lemma div_part p x : part_ok x → p / x = PPath (p_root p) (p_parts p ++ [x]).
Proof. intros Hx. unfold path_div, path_join. by rewrite (Path_part x). Qed.
(** A path in the root of the project. *)
Lemma place_under c root x : Forall part_ok root → part_ok x →
  place c (path_str (PPath "/" root / x)) = root ++ [x].
Proof.
  intros Hr Hx. rewrite div_part by done. apply place_abs. apply Forall_app.
  split; [done|by apply Forall_singleton].
Qed.
Lemma place_root c root : Forall part_ok root → place c (path_str (PPath "/" root)) = root.
Proof. apply place_abs. Qed.

Ltac fw_step :=
  lazymatch goal with
  | |- fw (mbind _ _) _ _ _ => apply fw_bind
  | |- fw (mret _) _ _ _ => apply fw_ret
  | |- fw (sys_exit _) _ _ _ => apply fw_rethrow
  | |- fw (rethrow _) _ _ _ => apply fw_rethrow
  | |- fw get_local _ _ _ => apply fw_get
  | |- fw (try_except _ (except _ _)) _ _ _ => apply fw_try_except
  | |- fw (try_finally _ _) _ _ _ => apply fw_try_finally
  | |- fw (print_info _) _ _ _ => unfold print_info
  | |- fw (print_success _) _ _ _ => unfold print_success
  | |- fw (print_error _) _ _ _ => unfold print_error
  | |- fw (sys _) _ _ _ =>
      let a := fresh "a" in let e := fresh "e" in let w := fresh "w" in
      let w' := fresh "w'" in let Hw := fresh "Hw" in let Hh := fresh "Hh" in
      apply fw_quiet; [reflexivity|]; intros [a|e] w w' Hw Hh; cbn [outcome]
  | |- fs_then _ _ _ _ _ (Ok _) => unfold fs_then
  | |- fs_then _ _ _ _ _ (Raise _) => unfold fs_then
  end; cbn beta iota.
Ltac fw_go := repeat fw_step.

Section scripts.
Context {W : Type} `{FileSystem W}.
Abbreviation PS := (environ * hst W)%type.

(** The [.env] file of the tree, merged below the environment. *)
Definition env_loaded (f : tree) (root : list string) (env env' : environ) : Prop :=
  env ⊆ env' ∧
  (∀ t, f !! (root ++ [".env"]) = Some (NFile t) → env' = env ∪ dotenv_vars (file_lines t)) ∧
  (f !! (root ++ [".env"]) = None → env' = env).

Lemma keeps_dotenv_lines lines : keeps (host_only eq) (for_unit lines dotenv_line : M PS unit).
Proof. keeps_deep. Qed.

Lemma fw_load_dotenv root env s :
  Forall part_ok root → real (files s) root →
  fw (W:=W) (load_dotenv (PPath "/" root)) env s (λ l env' s' r,
    files s' = files s ∧ cwd s' = cwd s ∧
    match r with Ok _ => env_loaded (files s) root env env' | _ => True end).
Proof.
  intros Hroot Hreal. unfold load_dotenv. cbv zeta. set (p := path_str (PPath "/" root / ".env")).
  assert (∀ c, place c p = root ++ [".env"]) as Hp by (intros c; by apply place_under).
  assert (reaches (files s) (root ++ [".env"])) as Hre by by apply real_child.
  fw_step. fw_step; fw_step; [|done]. destruct a.
  2: { fw_step. split_and!; [done|done|]. split_and!; [done| |done]. intros t Ht.
       assert (real (files s) (root ++ [".env"])) as Hr by (apply reaches_real; [done|congruence]).
       pose proof (exists_at _ _ _ _ _ Hw (Hp _) _ Hh Hr) as Hx.
       by rewrite Ht, bool_decide_true in Hx. }
  clear w w' Hw Hh. fw_step. apply fw_sys. intros [h|e] w w' Hw Hh; cbn; cycle 1.
  { apply fs_open_error in Hh. by rewrite Hh, Hw. }
  destruct (open_at _ _ _ _ _ Hw (Hp _) _ Hh) as (Hf1 & Hc1 & Ho). clear Hw Hh. set (s1 := fs w') in *. clearbody s1.
  fw_step. fw_step. apply fw_sys. intros o w1 w1' Hw Hh. destruct (fs_read _ _ _ _ Hh) as [Hs Ht].
  rewrite Hw in Hs, Ht. clear Hw Hh. rewrite Hs.
  assert (∀ o w w', fs w = s1 → handle (ECloseFile h) w = (o, w') → files (fs w') = files s ∧ cwd (fs w') = cwd s) as Hclose.
  { intros o' u u' Hu Hh. apply fs_close in Hh. rewrite Hu in Hh. rewrite Hh. by cbn. }
  destruct o as [[text cut]|e]; cbn [outcome fs_then fst snd].
  2: { apply fw_sys. intros o u u' Hu Hh. destruct (Hclose _ _ _ Hu Hh). by destruct o. }
  fw_step. eapply fw_mono; [|apply fw_silent; [apply keeps_dotenv_lines|apply tw_dotenv_lines]].
  cbn beta. intros l env' s' [[]|e|] _ [[-> Hr] ->]; [| |done].
  2: { cbn. apply fw_sys. intros o u u' Hu Hh. destruct (Hclose _ _ _ Hu Hh). by destruct o. }
  fw_step. destruct cut as [e|]; fw_step.
  { apply fw_sys. intros o u u' Hu Hh. destruct (Hclose _ _ _ Hu Hh). by destruct o. }
  apply fw_sys. intros o u u' Hu Hh. destruct (Hclose _ _ _ Hu Hh) as [? ?]. split_and!; [done|done|].
  destruct o; [|done]. cbn. subst env'. split_and!; [apply map_union_subseteq_l| |].
  - intros t Hd. destruct Ho as (t' & Ht' & Hop); [apply reaches_real; [done|congruence]|].
    rewrite (Ht t' text Hop eq_refl). congruence.
  - intros Hd. destruct Ho as (t' & Ht' & _); [apply reaches_real; [done|congruence]|]. congruence.
Qed.
(** Entering the project root: the directory is the root, nothing is changed, and the
    [.env] file of the tree is loaded. *)
Lemma fw_root root env s :
  installed (files s) root →
  fw (W:=W) (change_to_project_root (utils_of root)) env s (λ l env' s' r,
    files s' = files s ∧
    match r with
    | Ok p => p = PPath "/" root ∧ cwd s' = root ∧ env_loaded (files s) root env env'
    | _ => True
    end).
Proof.
  intros Hin. pose proof (installed_root _ _ Hin) as Hreal. pose proof (in_parts _ _ Hin) as Hroot.
  unfold change_to_project_root. cbv zeta. fw_step. fw_step; fw_step; [|done].
  assert (a = utils_of root) as ->.
  { eapply fs_resolve; [|rewrite Hw; apply in_real, Hin|exact Hh].
    apply Forall_app. split; [done|apply part_ok_script]. }
  fold (root_from (utils_of root)). rewrite root_from_utils by done. clear w w' Hw Hh.
  assert (∀ s', files s' = files s → ∀ env, fw (W:=W) (print_error CHDIR_FAILED;; sys_exit 1 : M PS ppath) env s'
    (λ _ _ s'' r, files s'' = files s ∧ match r with Ok _ => False | _ => True end)) as Herr.
  { intros s' Hf env1. fw_go; by split. }
  fw_step. eapply fw_mono; [|apply (fw_bind _ _ _ _ (λ _ env' s' r, files s' = files s ∧
    match r with Ok p => p = PPath "/" root ∧ cwd s' = root ∧ env_loaded (files s) root env env' | _ => True end))].
  - intros l env' s' [p|e|] _ [Hf Hq]; [done| |done]. destruct (isinstance_any e _); [|done].
    eapply fw_mono; [|by apply Herr]. by intros ? ? ? [] _ [? ?].
  - apply fw_sys. intros [[]|e] w w' Hw Hh; cbn.
    2: { split; [|done]. apply fs_chdir_error in Hh. by rewrite Hh, Hw. }
    pose proof (chdir_at _ _ _ _ _ Hw (place_root _ _ Hroot) Hh Hreal) as Hs. rewrite Hs.
    fw_step. eapply fw_mono; [|apply fw_load_dotenv; done]. cbn.
    intros l env' s' [[]|e|] Hr (Hf & Hc & He); [by fw_go|by split|done].
Qed.

(** ** If a script returns *)

Definition fs_return {A} (m : M PS A) (env : environ) (s : fstate)
  (Q : A → list event → environ → fstate → Prop) : Prop :=
  fw m env s (λ l env' s' r, match r with Ok a => Q a l env' s' | _ => True end).

Lemma fr_mono {A} (m : M PS A) env s (Q Q' : A → list event → environ → fstate → Prop) :
  (∀ a l env' s', Q a l env' s' → Q' a l env' s') → fs_return m env s Q → fs_return m env s Q'.
Proof. intros HQ. apply fw_mono. intros l env' s' [a|e|] _; [apply HQ|done|done]. Qed.
Lemma fr_ret {A} (a : A) env s (Q : A → list event → environ → fstate → Prop) :
  Q a [] env s → fs_return (mret a) env s Q.
Proof. intros HQ. by apply fw_ret. Qed.
Lemma fr_exit {A} z env s (Q : A → list event → environ → fstate → Prop) : fs_return (sys_exit z) env s Q.
Proof. by apply fw_rethrow. Qed.
Lemma fr_get env s (Q : environ → list event → environ → fstate → Prop) :
  Q env [] env s → fs_return get_local env s Q.
Proof. intros HQ. by apply fw_get. Qed.
Lemma fr_bind {A B} (m : M PS A) (k : A → M PS B) env s (Q : B → list event → environ → fstate → Prop) :
  fs_return m env s (λ a l env1 s1, fs_return (k a) env1 s1 (λ b l' env2 s2, Q b (l ++ l') env2 s2)) →
  fs_return (m ≫= k) env s Q.
Proof. intros Hm. apply fw_bind. eapply fw_mono; [|exact Hm]. by intros l env' s' [a|e|] Hr; cbn. Qed.
Lemma fr_sys {A} (e : eff A) env s (Q : A → list event → environ → fstate → Prop) :
  (∀ a w w', fs w = s → handle e w = (inl a, w') → Q a [Ev e (inl a)] env (fs w')) →
  fs_return (sys e) env s Q.
Proof. intros HQ. apply fw_sys. intros [a|x] w w' Hw Hh; cbn; [by eapply HQ|done]. Qed.
Lemma fr_quiet {A} (e : eff A) env s (Q : A → list event → environ → fstate → Prop) :
  fs_quiet e = true →
  (∀ a w w', fs w = s → handle e w = (inl a, w') → Q a [Ev e (inl a)] env s) →
  fs_return (sys e) env s Q.
Proof. intros He HQ. apply fw_quiet; [done|]. intros [a|x] w w' Hw Hh; cbn; [by eapply HQ|done]. Qed.
Lemma fr_print err msg env s (Q : unit → list event → environ → fstate → Prop) :
  Q tt [Ev (EPrint err msg) (inl tt)] env s → fs_return (sys (EPrint err msg)) env s Q.
Proof. intros HQ. apply fr_quiet; [done|]. by intros [] w w' _ _. Qed.
(** A part that stays in its directory, by what is known of its calls. *)
Lemma fr_stays {A} (m : M PS A) env s (P : A → list event → environ → Prop)
  (Q : A → list event → environ → fstate → Prop) :
  on_return m env P → keeps (host_only same_cwd) m →
  (∀ a l env' s', P a l env' → cwd s' = cwd s → Q a l env' s') → fs_return m env s Q.
Proof.
  intros Hm Hk HQ. eapply fw_mono; [|apply (fw_stays _ _ _ _ Hk Hm)].
  intros l env' s' [a|e|] _ [HP Hc]; [by apply HQ|done|done].
Qed.
Lemma fr_root root env s (Q : ppath → list event → environ → fstate → Prop) :
  installed (files s) root →
  (∀ l env' o, env_loaded (files s) root env env' → runs l = [] → changes l = [] →
     Q (PPath "/" root) l env' (FState (files s) root o)) →
  fs_return (change_to_project_root (utils_of root)) env s Q.
Proof.
  intros Hin HQ. eapply fw_mono; [|eapply fw_tw; [apply tw_root_quiet|apply (fw_root _ _ _ Hin)]].
  cbn beta. intros l env' [f c o] [p|e|] _ [(_ & Hr & Hc) [Hf Hq]]; [|done|done].
  destruct Hq as (-> & Hcwd & He). cbn in Hf, Hcwd. subst. by apply HQ.
Qed.
Lemma fr_parse_args P argv env s (Q : namespace → list event → environ → fstate → Prop) :
  (∀ ns, parse_known P (tail argv) = PArgs ns → Q ns [] env s) →
  fs_return (parse_args P argv) env s Q.
Proof.
  intros HQ. unfold parse_args. destruct (parse_known P (tail argv)) as [ns| |msg] eqn:E.
  - by apply fr_ret, HQ.
  - apply fr_bind, fr_quiet; [done|]. intros. apply fr_exit.
  - apply fr_bind, fr_quiet; [done|]. intros. apply fr_exit.
Qed.
Lemma fr_run_command cmd dir msg env s (Q : completed → list event → environ → fstate → Prop) :
  (∀ c w w', fs w = s → handle (ESubprocess dir env cmd) w = (inl c, w') → returncode c = 0%Z →
     Q c [Ev (ESubprocess dir env cmd) (inl c)] env (fs w')) →
  fs_return (run_command cmd dir true msg) env s Q.
Proof.
  intros HQ. unfold fs_return, run_command, subprocess_run. fw_go.
  apply fw_sys. intros [c|x] w w' Hw Hh; cbn [outcome fs_then].
  - destruct (returncode c =? 0)%Z eqn:Ec; cbn [andb negb].
    + fw_step. apply Z.eqb_eq in Ec. by eapply HQ.
    + fw_go; destruct (isinstance_any _ _); fw_go; done.
  - destruct (isinstance_any x _); [|done]. fw_go; done.
Qed.

(** What is known of the calls alone. *)
Lemma fr_or {A} (m : M PS A) env s (P : A → list event → environ → Prop) :
  on_return m env P → fs_return m env s (λ a l env' _, P a l env').
Proof. intros Hm n st r env' st' _ E Hr. exact (Hm _ _ _ _ _ E Hr). Qed.
(** What holds under a condition on the files. *)
Lemma fr_imp {A} (R : Prop) (m : M PS A) env s (P : A → list event → environ → Prop)
  (Q : A → list event → environ → fstate → Prop) :
  on_return m env P → (R → fs_return m env s Q) →
  fs_return m env s (λ a l env' s', P a l env' ∧ (R → Q a l env' s')).
Proof.
  intros Hm HR n st r env' st' Hs E Hr. destruct (Hm _ _ _ _ _ E Hr) as (l & Hl & HP).
  exists l. split; [done|]. destruct r as [a|e|]; [|done|done]. split; [done|]. intros HR'.
  destruct (HR HR' _ _ _ _ _ Hs E Hr) as (l' & Hl' & HQ). rewrite Hl in Hl'. apply app_inv_head in Hl'. by subst.
Qed.

Ltac fr_step :=
  lazymatch goal with
  | |- fs_return (mbind _ _) _ _ _ => apply fr_bind
  | |- fs_return (mret _) _ _ _ => apply fr_ret
  | |- fs_return (sys_exit _) _ _ _ => apply fr_exit
  | |- fs_return get_local _ _ _ => apply fr_get
  | |- fs_return (print_info _) _ _ _ => apply fr_print
  | |- fs_return (print_success _) _ _ _ => apply fr_print
  | |- fs_return (print_error _) _ _ _ => apply fr_print
  | |- fs_return (parse_args _ _) _ _ _ => apply fr_parse_args; intros ?ns ?Hns
  end; cbn beta iota.
Ltac fr_go := repeat fr_step.

(** ** clean.py *)

(** What is left of the tree [f] when clean.py ends. *)
Definition cleaned (f : tree) (root : list string) (s : fstate) (r : res unit) : Prop :=
  let build := root ++ ["build"] in
  (∀ k, ¬ build `prefix_of` k → files s !! k = f !! k) ∧
  match r with
  | Ok _ => cwd s = root ∧
      (files s = rmtree build f ∨ files s = f ∧ ∃ t, f !! build = Some (NLink t))
  | Raise _ => True
  | NoFuel => False
  end.

Lemma fw_clean root env s :
  installed (files s) root → tree_wf (files s) →
  fw (W:=W) (clean_main (utils_of root)) env s (λ _ _ s' r, cleaned (files s) root s' r).
Proof.
  set (f := files s). intros Hin Hwf. unfold cleaned. set (build := root ++ ["build"]). cbv zeta.
  unfold clean_main. fw_step. eapply fw_mono; [|by apply fw_root].
  intros l1 env1 s1 [p|e|] Hr1 [Hf Hq]; [| |done]; fold f in Hf; fw_step; [|by rewrite Hf].
  destruct Hq as (-> & Hc & _). cbv zeta.
  assert (reaches (files s1) build) as Hre.
  { rewrite Hf. apply real_child; [by apply installed_root|done]. }
  assert (∀ c, place c (path_str (PPath "/" root / "build")) = build) as Hp.
  { intros c. apply place_under; [apply Hin|done]. }
  fw_step. fw_step; fw_step; [|by rewrite Hf]. destruct a.
  - clear w w' Hw Hh. fw_go; [|by rewrite Hf]. clear w w' Hw Hh.
    apply fw_sys. intros [[]|e] w w' Hw Hh; cbn.
    + destruct (rmtree_at _ _ _ _ _ Hw (Hp _) Hh Hre) as [_ Hs]. rewrite Hs, Hf.
      assert (∀ k, ¬ build `prefix_of` k → rmtree build f !! k = f !! k) as Hout.
      { intros k Hk. rewrite lookup_rmtree. by rewrite decide_False. }
      fw_go; cbn; auto.
    + destruct (rmtree_error_at _ _ _ _ _ Hw (Hp _) _ Hh Hre) as (f' & -> & Hf'). cbn.
      split; [|done]. intros k Hk. rewrite <- Hf. by apply Hf'.
  - assert ((∃ t, f !! build = Some (NLink t)) ∨ f !! build = None) as Hb.
    { destruct (f !! build) as [[t| |t]|] eqn:Ef; [| |by left; eexists|by right]; exfalso.
      all: assert (real (files s1) build) as Hr by (apply reaches_real; [done|]; rewrite Hf, Ef; congruence);
        pose proof (exists_at _ _ _ _ _ Hw (Hp _) _ Hh Hr) as Hx; by rewrite Hf, Ef in Hx. }
    fw_go; rewrite Hf; [|by split]. split; [done|]. split; [done|].
    destruct Hb as [Hb|Hb]; [by right|left]. by rewrite rmtree_absent.
Qed.

(** C5: clean.py on a host with a file system.  Whatever happens, nothing outside [build]
    in the project root is changed; if it returns, [build] and everything below it are
    gone and nothing else, unless [build] is a link, which is left alone. *)
Theorem clean_effect root env (st : hst W) :
  installed (files (fs (world st))) root → tree_wf (files (fs (world st))) →
  ∃ r env' st' l, returns (clean_main (utils_of root)) (env, st) r (env', st') ∧
    trace st' = trace st ++ l ∧ cleaned (files (fs (world st))) root (fs (world st')) r.
Proof.
  intros Hin Hwf. apply (fw_post _ env st (λ _ _ s r, cleaned (files (fs (world st))) root s r)).
  - total_deep.
  - by apply fw_clean.
Qed.

(** ** build.py: the compilation database *)

(** The tree with the database at [src] copied to [dst], if there is one. *)
Definition with_database (src dst : list string) (t : tree) : tree :=
  match t !! src with Some (NFile c) => <[dst := NFile c]> t | _ => t end.

Lemma fr_copy_compile_commands dir root env s (Q : unit → list event → environ → fstate → Prop) :
  cwd s = root → real (files s) root →
  let src := place root (path_str (dir / "compile_commands.json")) in
  let dst := root ++ ["compile_commands.json"] in
  real (files s) src → 
  (∀ l o, Q tt l env (FState (with_database src dst (files s)) root o)) →
  fs_return (copy_compile_commands dir) env s Q.
Proof.
  intros Hc Hroot src dst Hsrc HQ. unfold copy_compile_commands, print_info. cbv zeta.
  assert (∀ c, c = root → place c (path_str (Path "compile_commands.json")) = dst) as Hdst.
  { intros c ->. unfold place. by rewrite path_roundtrip by apply Path_wf. }
  assert (place (cwd s) (path_str (dir / "compile_commands.json")) = src) as Hs by by rewrite Hc.
  assert (reaches (files s) dst) as Hrd by (by apply real_child).
  apply fr_bind, fr_quiet; [done|]. intros there w w' Hw Hh.
  pose proof (exists_at _ _ _ _ _ Hw Hs _ Hh Hsrc) as Hex. clear w w' Hw Hh. destruct there; cycle 1.
  { apply fr_ret. symmetry in Hex. apply bool_decide_eq_false in Hex. destruct s as [t c o]. cbn [files cwd opened] in *. subst c.
    specialize (HQ [Ev (EExists (path_str (dir / "compile_commands.json"))) (inl false)] o).
    apply eq_None_not_Some in Hex. unfold with_database in HQ. rewrite Hex in HQ. exact HQ. }
  clear Hex. apply fr_bind, fr_quiet; [done|]. intros old w w' Hw Hh.
  apply fr_bind. apply (fr_mono _ _ _ (λ b _ env' s', env' = env ∧ s' = s ∧ (b = false → files s !! dst = None))).
  2: { destruct old; [by apply fr_ret|]. apply fr_quiet; [done|]. intros b u u' Hu Hh'. split_and!; [done|done|].
       intros ->. destruct (files s !! dst) as [n|] eqn:En; [|done]. exfalso.
       pose proof (is_symlink_at _ _ _ _ _ Hu (Hdst _ Hc) _ Hh' Hrd) as [_ Hl].
       assert (∀ t, n ≠ NLink t) as Hn by (intros t ->; discriminate Hl; eauto).
       assert (real (files s) dst) as Hr by (apply reaches_real; [done|]; rewrite En; by intros t [= ->]; eapply Hn).
       pose proof (exists_at _ _ _ _ _ Hw (Hdst _ Hc) _ Hh Hr) as Hx. by rewrite En in Hx. }
  intros b l1 ? ? (-> & -> & Hb). clear w w' Hw Hh.
  apply fr_bind. apply (fr_mono _ _ _ (λ _ _ env' s', env' = env ∧ s' = set_files (delete dst (files s)) s)).
  2: { destruct b.
       - apply fr_sys. intros [] w w' Hw Hh. split; [done|]. by apply (unlink_at _ _ _ _ _ Hw (Hdst _ Hc) Hh).
       - apply fr_ret. split; [done|]. rewrite delete_id by auto. by destruct s. }
  intros [] l2 ? ? [-> ->]. apply fr_bind, fr_sys. intros [] w w' Hw Hh.
  destruct (copy2_at _ _ _ _ _ Hw (Hdst _ Hc) _ _ Hh Hs) as (c & Hsc & Hw').
  { by apply real_delete. } { by apply reaches_delete. } { apply lookup_delete_eq. }
  unfold set_files in Hsc, Hw'. cbn [files] in Hsc, Hw'. apply lookup_delete_Some in Hsc as [_ Hsc]. rewrite Hw'.
  apply fr_quiet; [done|]. intros [] u u' _ _. cbn [cwd opened]. rewrite insert_delete_eq.
  unfold with_database in HQ. rewrite Hsc, <- Hc in HQ. apply HQ.
Qed.
Lemma keeps_require_yocto_env file : keeps (host_only same_cwd) (require_yocto_env file : M PS unit).
Proof. keeps_deep. Qed.

(** What a build leaves: the tree [t] of its last command with the database copied. *)
Definition built (root : list string) (preset : string) (t : tree) (s : fstate) : Prop :=
  let src := place root (path_str (build_dir preset / "compile_commands.json")) in
  real t root → real t src → files s = with_database src (root ++ ["compile_commands.json"]) t.

Lemma fr_build (root argv : list string) (env : environ) (s : fstate) (P : string → tree → Prop) :
  installed (files s) root →
  (∀ preset env w w' c,
     handle (ESubprocess None env ["cmake"; "--build"; path_str (build_dir preset)]) w = (inl c, w') →
     returncode c = 0%Z → cwd (fs w) = root → P preset (files (fs w'))) →
  fs_return (build_main (utils_of root) argv) env s (λ _ _ _ s', ∃ ns t,
    parse_known build_parser (tail argv) = PArgs ns ∧
    let preset := get_text ns "preset" in P preset t ∧ built root preset t s').
Proof.
  intros Hin HP. unfold build_main. cbv zeta. fr_step. apply fr_root; [done|]. intros l1 env1 o _ _ _.
  fr_go. eapply fr_stays; [apply (or_require_yocto_env _ _ (λ _ _ _, True)); done|apply keeps_require_yocto_env|].
  intros [] l2 env2 s2 _ Hc2. cbn [cwd] in Hc2. fr_step.
  apply (fr_mono _ _ _ (λ _ _ _ s', cwd s' = root)).
  2: { destruct (get_flag ns "configure"); fr_go; [done|]. apply fr_quiet; [done|]. intros. by fr_go. }
  intros force l3 env3 s3 Hc3. fr_step. apply (fr_mono _ _ _ (λ _ _ _ s', cwd s' = root)).
  2: { destruct force; fr_go; [|done]. apply fr_run_command. intros c w w' Hw Hh _. fr_go.
       destruct (fs_process _ _ _ _ _ _ Hh) as [-> _]. by rewrite Hw. }
  intros [] l4 env4 s4 Hc4. fr_go. apply fr_run_command. intros c w w' Hw Hh Hz. fr_go.
  assert (P (get_text ns "preset") (files (fs w'))) as HPw by (eapply HP; [done|done|by rewrite Hw]).
  assert (cwd (fs w') = root) as Hcw by (destruct (fs_process _ _ _ _ _ _ Hh) as [-> _]; by rewrite Hw).
  apply (fr_mono _ _ _ (λ _ _ _ s', built root (get_text ns "preset") (files (fs w')) s')).
  { intros [] l5 env5 s5 Hb. fr_go. eauto. }
  apply (fr_mono _ _ _ (λ _ _ _ s', True ∧ (real (files (fs w')) root ∧ real (files (fs w'))
    (place root (path_str (build_dir (get_text ns "preset") / "compile_commands.json"))) →
    files s' = with_database (place root (path_str (build_dir (get_text ns "preset") / "compile_commands.json")))
      (root ++ ["compile_commands.json"]) (files (fs w'))))).
  { intros _ _ _ s' [_ HR] Hr1 Hr2. by apply HR. }
  apply fr_imp; [by apply or_copy_compile_commands|]. intros [Hr1 Hr2].
  by apply (fr_copy_compile_commands _ root).
Qed.
(** C11: build.py on a host with a file system.  If it returns, the tree is the one its last
    command, [cmake --build] on the preset's directory, left, and so has what that command
    guarantees ([P]), with the compilation database of the preset in the project root as a
    file of its own, in place of whatever file or link was there; without a database in
    the build directory nothing was changed. *)
Theorem build_database (root argv : list string) (P : string → tree → Prop) (env : environ) (st : hst W) :
  installed (files (fs (world st))) root →
  (∀ preset env w w' c,
     handle (ESubprocess None env ["cmake"; "--build"; path_str (build_dir preset)]) w = (inl c, w') →
     returncode c = 0%Z → cwd (fs w) = root → P preset (files (fs w'))) →
  ∃ r env' st' l, returns (build_main (utils_of root) argv) (env, st) r (env', st') ∧
    trace st' = trace st ++ l ∧
    match r with
    | Ok _ => ∃ ns t, parse_known build_parser (tail argv) = PArgs ns ∧
        let preset := get_text ns "preset" in P preset t ∧ built root preset t (fs (world st'))
    | Raise _ => True
    | NoFuel => False
    end.
Proof.
  intros Hin HP.
  destruct (fw_post (build_main (utils_of root) argv) env st _ ltac:(total_deep) (fr_build root argv env _ P Hin HP))
    as (r & env' & st' & l & Hr & Hl & HQ).
  exists r, env', st', l. split; [done|]. split; [done|]. destruct r; [done|done|by destruct Hr].
Qed.

(** ** After clean.py *)

(** A name that is a directory's own. *)
Definition plain (x : string) : Prop := part_ok x ∧ x ≠ "..".

Lemma place_build_dir root preset : part_ok preset → place root (path_str (build_dir preset)) = (root ++ ["build"]) ++ [preset].
Proof.
  intros Hp. unfold build_dir. rewrite div_part by done. rewrite (Path_part "build") by done. cbn [p_root p_parts].
  rewrite place_rel; [by rewrite <- app_assoc|split; [set_solver|]|done].
  by repeat (apply Forall_cons; split).
Qed.
Lemma place_executable root preset target : part_ok preset → target ∈ ["server"; "client"] →
  place root (path_str (run_executable preset target)) =
  (root ++ ["build"]) ++ [preset; "apps"; "blank_chat_" +:+ target].
Proof.
  intros Hp Ht. assert (part_ok ("blank_chat_" +:+ target)) as Hx by (apply list_elem_of_In in Ht as [<-|[<-|[]]]; done).
  unfold run_executable. rewrite (div_part _ _ Hx), (div_part _ "apps"), (div_part _ _ Hp), (Path_part "build") by done.
  cbn [p_root p_parts]. rewrite place_rel; [by rewrite <- !app_assoc|split; [set_solver|]|done].
  repeat (apply Forall_cons; split; [done|]). by apply Forall_nil.
Qed.

(** Where nothing is built, run.py runs nothing and fails. *)
Lemma fw_run_missing root argv env s :
  installed (files s) root → tree_wf (files s) → files s !! (root ++ ["build"]) = None →
  plain (get_arg argv 2 DEFAULT_PRESET) →
  fw (W:=W) (run_main (utils_of root) argv) env s (λ l _ _ r, runs l = [] ∧ changes l = [] ∧ ∃ e, r = Raise e).
Proof.
  intros Hin Hwf Hb [Hp Hu]. unfold run_main. cbv zeta. fw_step.
  eapply fw_mono; [|eapply fw_tw; [apply tw_root_quiet|apply (fw_root _ _ _ Hin)]]. cbn beta.
  intros l env' s' [p|e|] Hr [(_ & Hl & Hc) [Hf Hq]]; [| |done]; cbn [fs_then]; [|eauto].
  destruct Hq as (_ & Hcwd & _). case_bool_decide as Ht; cbn [negb].
  2: { fw_go; (split_and!; [runs_tac|by rewrite changes_app, Hc|eauto]). }
  assert (place (cwd s') (path_str (run_executable (get_arg argv 2 DEFAULT_PRESET) (get_arg argv 1 "server"))) =
    (root ++ ["build"]) ++ [get_arg argv 2 DEFAULT_PRESET; "apps"; "blank_chat_" +:+ get_arg argv 1 "server"]) as Hpl
    by (rewrite Hcwd; by apply place_executable).
  assert (".." ∉ [get_arg argv 2 DEFAULT_PRESET; "apps"; "blank_chat_" +:+ get_arg argv 1 "server"]) as Hup.
  { rewrite !not_elem_of_cons. split_and!; [done|done| |apply not_elem_of_nil].
    by apply list_elem_of_In in Ht as [<-|[<-|[]]]. }
  assert (real (files s) (root ++ ["build"])) as Hreal.
  { apply reaches_real; [apply real_child; [by apply installed_root|done]|]. by rewrite Hb. }
  fw_step. fw_step; cbn [fs_then].
  2: { split_and!; [runs_tac|by rewrite changes_app, Hc|eauto]. }
  rewrite <- Hf in Hwf, Hb, Hreal.
  pose proof (is_file_at _ _ _ _ _ Hw Hpl _ Hh (real_below _ _ _ Hwf Hreal Hb Hup)) as [Ha _].
  destruct a.
  - destruct Ha as [t Ht']; [done|]. rewrite (tree_wf_below _ _ _ Hwf Hb) in Ht'; [done|by apply prefix_app_r].
  - clear Ha. fw_go; (split_and!; [runs_tac|by rewrite changes_app, Hc|eauto]).
Qed.

(** Where nothing is built, build.py configures. *)
Lemma fr_build_configures (root argv : list string) (env : environ) (s : fstate) :
  installed (files s) root → tree_wf (files s) → files s !! (root ++ ["build"]) = None →
  is_Some (env !! "OECORE_NATIVE_SYSROOT") →
  (∀ ns, parse_known build_parser (tail argv) = PArgs ns → plain (get_text ns "preset")) →
  fs_return (build_main (utils_of root) argv) env s (λ _ l env' _, ∃ ns,
    parse_known build_parser (tail argv) = PArgs ns ∧
    runs l = [ran None env' ["cmake"; "--preset"; get_text ns "preset"];
              ran None env' ["cmake"; "--build"; path_str (build_dir (get_text ns "preset"))]]).
Proof.
  intros Hin Hwf Hb Hsdk Hplain. unfold build_main. cbv zeta. fr_step. apply fr_root; [done|].
  intros l1 env1 o (Hsub & _) Hr1 _. fr_go. destruct (Hplain ns Hns) as [Hp Hu].
  unfold require_yocto_env. fr_go. rewrite bool_decide_false; cycle 1.
  { apply not_eq_None_Some. by eapply lookup_weaken_is_Some. }
  fr_go. apply (fr_mono _ _ _ (λ b l env' _, b = true ∧ runs l = [] ∧ env' = env1)).
  2: { destruct (get_flag ns "configure"); fr_go; [done|]. apply fr_quiet; [done|]. intros is_dir w w' Hw Hh.
       fr_go. split_and!; [|done|done].
       assert (real (files s) (root ++ ["build"])) as Hreal.
       { apply reaches_real; [apply real_child; [by apply installed_root|done]|]. by rewrite Hb. }
       destruct is_dir; [exfalso|done].
       apply (is_dir_at _ _ _ _ _ Hw (place_build_dir root _ Hp)) in Hh as [Hd _].
       - specialize (Hd eq_refl). cbn [files] in Hd. rewrite (tree_wf_below _ _ _ Hwf Hb) in Hd; [done|by apply prefix_app_r].
       - cbn [files]. apply real_below; [done..|]. rewrite not_elem_of_cons. split; [done|apply not_elem_of_nil]. }
  intros b l2 ? s2 (-> & Hr2 & ->). fr_go. eapply fr_mono; [|apply fr_or, (or_run_command _ _ _ _ (λ c l env', env' = env1 ∧
    runs l = [ran None env1 ["cmake"; "--preset"; get_text ns "preset"]]))].
  2: { intros c Hc. split; [done|]. runs_tac. }
  intros c l3 ? s3 [-> Hr3]. fr_go. eapply fr_mono; [|apply fr_or, (or_run_command _ _ _ _ (λ c l env', env' = env1 ∧
    runs l = [ran None env1 ["cmake"; "--build"; path_str (build_dir (get_text ns "preset"))]]))].
  2: { intros c' Hc. split; [done|]. runs_tac. }
  intros c' l4 ? s4 [-> Hr4]. fr_go. eapply fr_mono; [|apply fr_or, (or_copy_compile_commands _ _ (λ _ l env', env' = env1 ∧ runs l = []))].
  2: { intros l Hl _. by split. }
  intros [] l5 ? s5 [-> Hr5]. fr_go. exists ns. split; [done|]. runs_tac.
Qed.
(** C23: Scripts one after the other, through the files they share, in a project whose build
    is not a link.  After clean.py has returned, run.py with a preset that is a plain name,
    started in any directory and with any environment, runs nothing, changes nothing and
    fails; and a build.py that returns, given a preset that is a plain name and a shell
    where the SDK is set up, has configured the preset from the start, asked for or not,
    and then built it. *)
Theorem clean_then_others (root argv : list string) (env env2 : environ) (st : hst W) :
  let f := files (fs (world st)) in
  installed f root → tree_wf f → (∀ t, f !! (root ++ ["build"]) ≠ Some (NLink t)) →
  ∃ r env' st' l, returns (clean_main (utils_of root)) (env, st) r (env', st') ∧
    trace st' = trace st ++ l ∧
    (r = Ok tt → ∀ st2 : hst W, files (fs (world st2)) = files (fs (world st')) →
      (plain (get_arg argv 2 DEFAULT_PRESET) →
       ∃ e env2' st2' l2, returns (run_main (utils_of root) argv) (env2, st2) (Raise e) (env2', st2') ∧
         trace st2' = trace st2 ++ l2 ∧ runs l2 = [] ∧ changes l2 = []) ∧
      (is_Some (env2 !! "OECORE_NATIVE_SYSROOT") →
       (∀ ns, parse_known build_parser (tail argv) = PArgs ns → plain (get_text ns "preset")) →
       if_returns (build_main (utils_of root) argv) env2 st2 (λ l2 env2', ∃ ns,
         parse_known build_parser (tail argv) = PArgs ns ∧
         runs l2 = [ran None env2' ["cmake"; "--preset"; get_text ns "preset"];
                    ran None env2' ["cmake"; "--build"; path_str (build_dir (get_text ns "preset"))]]))).
Proof.
  intros f Hin Hwf Hlink.
  destruct (fw_post (clean_main (utils_of root)) env st _ ltac:(total_deep) (fw_clean root env _ Hin Hwf))
    as (r & env' & st' & l & Hr & Hl & Hcl). fold f in Hcl.
  exists r, env', st', l. split; [done|]. split; [done|]. intros -> st2 Hf2.
  destruct Hcl as [_ [_ [Hcl|[_ [t Ht]]]]]; [|by destruct (Hlink t)]. rewrite Hcl in Hf2.
  assert (installed (files (fs (world st2))) root) as Hin2.
  { rewrite Hf2. destruct Hin as [Hp Hreal]. split; [done|by apply real_rmtree]. }
  assert (tree_wf (files (fs (world st2)))) as Hwf2 by (rewrite Hf2; by apply rmtree_wf).
  assert (files (fs (world st2)) !! (root ++ ["build"]) = None) as Hb2
    by (rewrite Hf2, lookup_rmtree; by rewrite decide_True).
  split.
  - intros Hp. destruct (fw_post (run_main (utils_of root) argv) env2 st2 _ ltac:(total_deep)
      (fw_run_missing root argv env2 _ Hin2 Hwf2 Hb2 Hp)) as (r2 & env2' & st2' & l2 & H1 & H2 & H3 & H4 & e & ->).
    by exists e, env2', st2', l2.
  - intros Hsdk Hp. destruct (fw_post (build_main (utils_of root) argv) env2 st2 _ ltac:(total_deep)
      (fr_build_configures root argv env2 _ Hin2 Hwf2 Hb2 Hsdk Hp)) as (r2 & env2' & st2' & l2 & H1 & H2 & H3).
    exists r2, env2', st2', l2. split; [done|]. split; [done|]. destruct r2; [done|done|by destruct H1].
Qed.

(** ** download_sdk.py *)

(** A part that changes no file, by what is known of its calls. *)
Lemma fr_same {A} (m : M PS A) env s (P : A → list event → environ → Prop)
  (Q : A → list event → environ → fstate → Prop) :
  on_return m env P → keeps (host_only same_fs) m →
  (∀ a l env', P a l env' → Q a l env' s) → fs_return m env s Q.
Proof.
  intros Hm Hk HQ. eapply fw_mono; [|apply (fw_same _ _ _ _ Hk Hm)].
  intros l env' s' [a|e|] _ [HP ->]; [by apply HQ|done|done].
Qed.
Lemma keeps_newest_fs first rest : keeps (host_only same_fs) (newest first rest : M PS ppath).
Proof.
  unfold newest. apply keeps_bind; [auto with py|]. intros k. revert first k.
  induction rest as [|f rest IH]; intros first k; cbn [newest_from]; [keeps_deep|].
  apply keeps_bind; [auto with py|]. intros k'. destruct (Qlt_bool k k'); apply IH.
Qed.

(** The installers of a directory. *)
Lemma fr_installers dir env s (Q : list ppath → list event → environ → fstate → Prop) :
  let d := place (cwd s) (path_str dir) in
  real (files s) d →
  (∀ names l, runs l = [] →
     (∀ x, x ∈ names ↔ is_Some (files s !! (d ++ [x])) ∧ part_ok x ∧ x ≠ "..") → Q (installers dir names) l env s) →
  fs_return (glob dir EmptyString ".sh") env s Q.
Proof.
  intros d Hd HQ. unfold glob. apply fr_bind, fr_quiet; [done|]. intros names w w' Hw Hh. apply fr_ret.
  apply HQ; [done|]. by apply (scandir_at _ _ _ _ _ Hw eq_refl _ Hh).
Qed.
(** The installers of a directory removed. *)
Lemma fr_unlink_all dir xs env s (Q : unit → list event → environ → fstate → Prop) :
  let d := place (cwd s) (path_str dir) in
  path_wf dir → real (files s) d → Forall (λ x, part_ok x ∧ x ≠ "..") xs →
  (∀ l f, runs l = [] → (∀ x, x ∈ xs → f !! (d ++ [x]) = None) →
     (∀ k, f !! k = files s !! k ∨ f !! k = None ∧ ∃ x, x ∈ xs ∧ k = d ++ [x]) → Q tt l env (set_files f s)) →
  fs_return (for_unit (map (λ x, PPath (p_root dir) (p_parts dir ++ [x])) xs) (λ p, sys (EUnlink (path_str p)))) env s Q.
Proof.
  intros d Hdir. revert s d Q. induction xs as [|x xs IH]; intros s d Q Hd Hxs HQ; cbn [map for_unit].
  - apply fr_ret. specialize (HQ [] (files s)).
    destruct s. apply HQ; [done|by intros x Hx%elem_of_nil|by left].
  - apply Forall_cons in Hxs as [[Hx Hu] Hxs]. apply fr_bind, fr_sys. intros [] w w' Hw Hh.
    pose proof (unlink_at _ _ _ _ _ Hw (place_child _ _ _ Hdir Hx) Hh (real_child _ _ _ Hd Hu)) as ->.
    apply IH; [by apply real_delete|done|]. cbn [files cwd set_files]. fold d.
    intros l f Hl Hf1 Hf2. apply HQ; [done| |].
    + intros y [->|Hy]%elem_of_cons; [|by apply Hf1]. destruct (Hf2 (d ++ [x])) as [->|[? _]]; [|done].
      apply lookup_delete_eq.
    + intros k. destruct (Hf2 k) as [->|(Hk & y & Hy & ->)].
      2: { right. split; [done|]. exists y. split; [by right|done]. }
      destruct (decide (d ++ [x] = k)) as [<-|Hk].
      * right. split; [apply lookup_delete_eq|]. exists x. split; [left|done].
      * left. by apply lookup_delete_ne.
Qed.

(** What is relied on of [gh release download VERSION --pattern *.sh --dir DIR]: where
    there was no installer in the directory, every installer in it afterwards is one [P]
    of the release; and the directory does not become a link. *)
Definition gh_downloads (P : string → string → node → Prop) : Prop :=
  ∀ version dir env w w' c,
    handle (ESubprocess None env (download_cmd version dir)) w = (inl c, w') → returncode c = 0%Z →
    let d := place (cwd (fs w)) dir in
    real (files (fs w)) d → (∀ x, star_match EmptyString ".sh" x = true → plain x → files (fs w) !! (d ++ [x]) = None) →
    real (files (fs w')) d ∧
    ∀ x n, star_match EmptyString ".sh" x = true → plain x → files (fs w') !! (d ++ [x]) = Some n → P version x n.

(** The installer was run, and it is one of the asked release. *)
Definition installs (P : string → string → node → Prop) (root : list string) (ns : namespace) (l : list event)
  (env : environ) : Prop :=
  let dest := Path (get_text ns "dest") in
  ∃ x n, P (get_text ns "version") x n ∧
    runs l = [ran None env (download_cmd (get_text ns "version") (path_str dest));
              ran None env (install_cmd (path_str (PPath (p_root dest) (p_parts dest ++ [x])))
                (install_dir env (PPath "/" root)))].

(** The programs leave the project and its [.env] in place. *)
Definition programs_keep (root : list string) : Prop :=
  ∀ dir env argv w o w', handle (ESubprocess dir env argv) w = (o, w') →
    installed (files (fs w)) root →
    installed (files (fs w')) root ∧
    files (fs w') !! (root ++ [".env"]) = files (fs w) !! (root ++ [".env"]).

(** What is relied on of the installer, run with [-d DIR]. *)
Definition installer_makes (I : list string → tree → Prop) : Prop :=
  ∀ installer dir env w w' c,
    handle (ESubprocess None env (install_cmd installer dir)) w = (inl c, w') → returncode c = 0%Z →
    I (place (cwd (fs w)) (path_str (Path dir))) (files (fs w')).

(** The project and its [.env] are as in [f]. *)
Definition project_kept (root : list string) (f f' : tree) : Prop :=
  installed f' root ∧ f' !! (root ++ [".env"]) = f !! (root ++ [".env"]).

Lemma project_kept_run root f dir env argv w o w' s :
  programs_keep root → fs w = s → handle (ESubprocess dir env argv) w = (o, w') →
  project_kept root f (files s) → project_kept root f (files (fs w')).
Proof.
  intros Hk <- Hh [Hi He]. destruct (Hk _ _ _ _ _ _ Hh Hi) as [Hi' He']. split; [exact Hi'|]. by rewrite He'.
Qed.
(** Directories made, and then installers removed. *)
Lemma project_kept_dest (root d : list string) (f f1 f3 : tree) (xs : list string) :
  installed f root → ¬ root ++ [".env"] `prefix_of` d → ".env" ∉ xs →
  (∀ k, f1 !! k = f !! k ∨ k `prefix_of` d ∧ f1 !! k = Some NDir) →
  (∀ k, f3 !! k = f1 !! k ∨ f3 !! k = None ∧ ∃ x, x ∈ xs ∧ k = d ++ [x]) → project_kept root f f3.
Proof.
  intros Hin Hpre Hxs Hf1 Hsub. split; [split; [apply Hin|]|].
  - apply (real_fewer f1); [intros k; destruct (Hsub k) as [?|[? _]]; auto|].
    apply (real_more_dirs f); [intros k; destruct (Hf1 k) as [?|[_ ?]]; auto|]. apply in_real, Hin.
  - destruct (Hsub (root ++ [".env"])) as [->|(_ & x & Hx & Hd)].
    + destruct (Hf1 (root ++ [".env"])) as [->|[? _]]; [reflexivity|contradiction].
    + apply app_inj_tail in Hd as [_ <-]. contradiction.
Qed.

Lemma fr_download (P : string → string → node → Prop) (I : list string → tree → Prop) (root argv : list string)
  (env : environ) (s : fstate) :
  installed (files s) root → gh_downloads P → installer_makes I →
  (∀ ns, parse_known (download_parser (default_dest (PPath "/" root))) (tail argv) = PArgs ns →
     real (files s) (place root (path_str (Path (get_text ns "dest"))))) →
  fs_return (download_main (utils_of root) argv) env s (λ _ l env' s', ∃ ns,
    parse_known (download_parser (default_dest (PPath "/" root))) (tail argv) = PArgs ns ∧
    env_loaded (files s) root env env' ∧ installs P root ns l env' ∧
    I (place root (path_str (Path (install_dir env' (PPath "/" root))))) (files s') ∧
    (programs_keep root → ¬ root ++ [".env"] `prefix_of` place root (path_str (Path (get_text ns "dest"))) →
     project_kept root (files s) (files s'))).
Proof.
  intros Hin Hgh HI Hreal. unfold download_main. cbv zeta. fr_step. apply fr_root; [done|].
  intros l1 env' o Henv Hr1 _. fr_go. specialize (Hreal ns Hns). set (dir := Path (get_text ns "dest")) in *.
  assert (path_wf dir) as Hdir by apply Path_wf. set (d := place root (path_str dir)) in *.
  apply fr_sys. intros [] w w' Hw Hh.
  destruct (mkdir_at _ _ _ _ _ Hw eq_refl Hh Hreal) as (f1 & -> & Hf1). clear w w' Hw Hh. cbn [files cwd] in Hf1.
  assert (real f1 d) as Hd1 by (eapply real_more_dirs; [|exact Hreal]; intros k; destruct (Hf1 k) as [?|[_ ?]]; auto).
  fr_step. apply fr_installers; [done|]. cbn [files cwd set_files]. fold d. intros old l2 Hr2 Hold.
  fr_step. apply fr_unlink_all; [done|done| |].
  { apply Forall_forall. intros x Hx. apply list_elem_of_In, filter_In in Hx as [Hx _].
    apply list_elem_of_In, Hold in Hx as [_ Hx]. exact Hx. }
  cbn [files cwd set_files]. fold d. intros l3 f3 Hr3 Hf3 Hsub.
  assert (real f3 d) as Hd3 by (eapply real_fewer; [|exact Hd1]; intros k; destruct (Hsub k) as [?|[? _]]; auto).
  assert (¬ root ++ [".env"] `prefix_of` d → project_kept root (files s) f3) as Hkept.
  { intros Hpre. eapply project_kept_dest; [exact Hin|exact Hpre| |exact Hf1|exact Hsub].
    intros Hx. by apply list_elem_of_In, filter_In in Hx as [_ ?]. }
  fr_go. apply fr_run_command. intros c w w' Hw Hh Hz.
  destruct (Hgh _ _ _ _ _ _ Hh Hz) as [Hd4 HP].
  { rewrite Hw. exact Hd3. }
  { rewrite Hw. intros x Hs [Hx Hu]. cbn [files cwd set_files]. fold d.
    destruct (Hsub (d ++ [x])) as [E|[E _]]; [|exact E]. destruct (f1 !! (d ++ [x])) as [n|] eqn:En; [|exact E].
    apply Hf3, list_elem_of_In, filter_In. split; [|done]. apply list_elem_of_In, Hold. rewrite En. eauto. }
  assert (cwd (fs w') = root) as Hc4 by (destruct (fs_process _ _ _ _ _ _ Hh) as [-> _]; by rewrite Hw).
  assert (programs_keep root → ¬ root ++ [".env"] `prefix_of` d → project_kept root (files s) (files (fs w'))) as Hkept'.
  { intros Hk Hpre. exact (project_kept_run _ _ _ _ _ _ _ _ _ Hk Hw Hh (Hkept Hpre)). }
  rewrite Hw in Hd4, HP. cbn [files cwd set_files] in Hd4, HP. fold d in Hd4, HP. set (s4 := fs w') in *.
  clearbody s4. clear Hw Hh w w' Hkept.
  fr_step. apply fr_installers; rewrite Hc4; fold d; [done|]. intros names l5 Hr5 Hnames.
  destruct (installers dir names) as [|first rest] eqn:Ei; [by fr_go|]. fr_step.
  apply (fr_same _ _ _ (λ f l env1, env1 = env' ∧ newest_result (first :: rest) env' l env' (Ok f)));
    [by apply or_newest|apply keeps_newest_fs|]. rewrite <- Ei.
  intros installer l6 env1 [-> Hn]. pose proof (runs_newest _ _ _ _ _ Hn) as Hr6.
  destruct Hn as [_ (keys & i & _ & _ & Hi & _)]. apply list_elem_of_lookup_2 in Hi.
  apply list_elem_of_fmap in Hi as (x & -> & Hx). apply list_elem_of_In, filter_In in Hx as [Hx Hs].
  apply list_elem_of_In, Hnames in Hx as [[n Hn] Hx]. specialize (HP x n Hs Hx Hn).
  fr_step. apply fr_print. cbn beta. fr_step. apply fr_quiet; [done|]. intros [] u u' _ _. fr_go.
  unfold environ_get. fr_go. apply fr_run_command. intros c' u1 u1' Hu Hh' Hz'. fr_go.
  exists ns. split; [done|]. split; [done|]. split; [|split].
  - exists x, n. split; [done|]. fold dir. runs_tac.
  - pose proof (HI _ _ _ _ _ _ Hh' Hz') as Hsdk. by rewrite Hu, Hc4 in Hsdk.
  - intros Hk Hpre. exact (project_kept_run _ _ _ _ _ _ _ _ _ Hk Hu Hh' (Hkept' Hk Hpre)).
Qed.

(** C15: download_sdk.py on a host with a file system.  What is installed is what was
    downloaded: if [gh release download] leaves, in a directory without installers, only
    installers of the asked release ([P]), then the file that was run to install the SDK
    is one of them and not one an earlier download left; and what the installer makes of
    the directory it is given ([I]) is made of the directory of the SDK. *)
Theorem download_installs (P : string → string → node → Prop) (I : list string → tree → Prop)
  (root argv : list string) (env : environ) (st : hst W) :
  installed (files (fs (world st))) root → gh_downloads P → installer_makes I →
  (∀ ns, parse_known (download_parser (default_dest (PPath "/" root))) (tail argv) = PArgs ns →
     real (files (fs (world st))) (place root (path_str (Path (get_text ns "dest"))))) →
  ∃ r env' st' l, returns (download_main (utils_of root) argv) (env, st) r (env', st') ∧
    trace st' = trace st ++ l ∧
    (r = Ok tt → ∃ ns,
      parse_known (download_parser (default_dest (PPath "/" root))) (tail argv) = PArgs ns ∧
      env_loaded (files (fs (world st))) root env env' ∧ installs P root ns l env' ∧
      I (place root (path_str (Path (install_dir env' (PPath "/" root))))) (files (fs (world st')))).
Proof.
  intros Hin Hgh HI Hreal.
  destruct (fw_post (download_main (utils_of root) argv) env st _ ltac:(total_deep)
    (fr_download P I root argv env _ Hin Hgh HI Hreal)) as (r & env' & st' & l & Hr & Hl & HQ).
  exists r, env', st', l. split; [done|]. split; [done|]. intros ->.
  destruct HQ as (ns & H1 & H2 & H3 & H4 & _). eauto.
Qed.

(** ** build.py with an installed SDK *)

(** [script] is an environment script in the directory [d]. *)
Definition setup_script (script : string) (d : list string) (f : tree) : Prop :=
  plain script ∧ star_match "environment-setup-" EmptyString script = true ∧ is_Some (f !! (d ++ [script])).

(** The script of [sdk] was sourced in the environment [env], with [c] as the result, and
    what it printed was taken over. *)
Definition sourced (sdk : ppath) (script : string) (c : completed) (env : environ) (l : list event) (env' : environ) : Prop :=
  Ev (ESubprocess None env (source_cmd sdk script)) (inl c) ∈ l ∧ returncode c = 0%Z ∧
  env' = overlay env (omap yocto_pair (splitlines (stdout c))).

Lemma install_dir_here env root :
  Forall part_ok root → sdk_dir env (utils_of root) = install_dir env (PPath "/" root).
Proof.
  intros Hr. unfold sdk_dir, install_dir. destruct (env !! "YOCTO_SDK_DIR"); [done|].
  pose proof (root_from_utils _ Hr) as E. unfold root_from in E. by rewrite E.
Qed.

Lemma fr_require_sdk (root : list string) (env : environ) (s : fstate) :
  installed (files s) root → cwd s = root → env !! "OECORE_NATIVE_SYSROOT" = None →
  let sdk := Path (install_dir env (PPath "/" root)) in
  let d := place root (path_str sdk) in
  real (files s) d →
  fs_return (require_yocto_env (utils_of root)) env s (λ _ l env2 _, ∃ script c,
    setup_script script d (files s) ∧ sourced sdk script c env l env2 ∧ runs l = [ran None env (source_cmd sdk script)]).
Proof.
  intros Hin Hc Ho sdk d Hreal.
  unfold require_yocto_env. fr_go. rewrite bool_decide_true by done. fr_step.
  apply (fr_mono _ _ _ (λ ok l env2 _, ok = true → ∃ script c, setup_script script d (files s) ∧
    sourced sdk script c env l env2 ∧ runs l = [ran None env (source_cmd sdk script)])).
  { intros [] l env' s' Hl; cbn [negb]; fr_go. rewrite app_nil_r. by apply Hl. }
  unfold load_yocto_env. cbv zeta. fr_step. apply fr_quiet; [done|]. intros here w w' Hw Hh.
  assert (here = utils_of root) as ->.
  { eapply fs_resolve; [|rewrite Hw; apply in_real, Hin|exact Hh].
    apply Forall_app. split; [apply Hin|apply part_ok_script]. }
  clear w w' Hw Hh. unfold environ_get. fr_go. fold (sdk_dir env (utils_of root)).
  rewrite install_dir_here by apply Hin. fold sdk. apply fr_quiet; [done|]. intros there w w' Hw Hh.
  clear w w' Hw Hh. destruct there; cbn [negb]; [|fr_go; done].
  fr_step. unfold glob. fr_step. apply fr_quiet; [done|]. intros names w w' Hw Hh.
  pose proof (scandir_at _ _ _ _ _ Hw eq_refl _ Hh) as Hx. rewrite Hc in Hx. specialize (Hx Hreal). clear w w' Hw Hh.
  fr_step. destruct (List.filter _ names) as [|script rest] eqn:En; cbn [map].
  { fr_go. done. }
  assert (setup_script script d (files s)) as Hscript.
  { assert (In script (List.filter (star_match "environment-setup-" EmptyString) names)) as Hin' by (rewrite En; by left).
    apply filter_In in Hin' as [Hi Hm]. apply list_elem_of_In, Hx in Hi as [Hi Hp]. by split_and!. }
  fr_go. apply (fr_mono _ _ _ (λ c l env1 _, env1 = env ∧ l = [Ev (ESubprocess None env (source_cmd sdk script)) (inl c)])).
  2: { by apply fr_or, or_subprocess_run. }
  intros c l ? s1 [-> ->]. destruct (returncode c =? 0)%Z eqn:Ez; cbn [negb]; [|fr_go; done].
  fr_step. apply (fr_mono _ _ _ (λ _ l env2 _, l = [] ∧ env2 = overlay env (omap yocto_pair (splitlines (stdout c))))).
  2: { apply fr_or. eapply tw_mono; [|apply tw_env_lines]. by intros l env' [[]|e|] _ [-> ?]. }
  intros [] l env' s' [-> ->]. fr_go. intros _. apply Z.eqb_eq in Ez. exists script, c. split; [done|].
  split; [split_and!; [set_solver|done..]|runs_tac].
Qed.

Lemma fr_build_sdk (root argv : list string) (env : environ) (s : fstate) :
  installed (files s) root →
  (∀ env', env_loaded (files s) root env env' → env' !! "OECORE_NATIVE_SYSROOT" = None ∧
     real (files s) (place root (path_str (Path (install_dir env' (PPath "/" root)))))) →
  fs_return (build_main (utils_of root) argv) env s (λ _ l env2 _, ∃ ns env1 (force : bool) script c,
    parse_known build_parser (tail argv) = PArgs ns ∧ env_loaded (files s) root env env1 ∧
    let preset := get_text ns "preset" in
    let sdk := Path (install_dir env1 (PPath "/" root)) in
    setup_script script (place root (path_str sdk)) (files s) ∧ sourced sdk script c env1 l env2 ∧
    runs l = [ran None env1 (source_cmd sdk script)] ++
             (if force then [ran None env2 ["cmake"; "--preset"; preset]] else []) ++
             [ran None env2 ["cmake"; "--build"; path_str (build_dir preset)]]).
Proof.
  intros Hin Hsdk. unfold build_main. cbv zeta. fr_step. apply fr_root; [done|].
  intros l1 env1 o Henv Hr1 _. fr_go. destruct (Hsdk env1 Henv) as [Ho1 Hhas].
  eapply fr_mono; [|by apply fr_require_sdk]. intros [] l2 env2 s2 (script & c & Hs & (Hel & Hc & He2) & Hr2).
  apply fr_or. or_step. apply (or_mono _ _ (λ _ l env', runs l = [] ∧ env' = env2)).
  2: { destruct (get_flag ns "configure"); or_go; by split. }
  intros force l3 ? [Hr3 ->]. or_step.
  apply (or_mono _ _ (λ _ l env', env' = env2 ∧
    runs l = if force then [ran None env2 ["cmake"; "--preset"; get_text ns "preset"]] else [])).
  2: { destruct force; or_go; (split; [done|]); runs_tac. }
  intros [] l4 ? [-> Hr4]. or_go. apply or_copy_compile_commands. intros l5 Hr5 _. or_go.
  exists ns, env1, force, script, c. split_and!; [done..| |runs_tac]. split_and!; [|done..].
  rewrite !elem_of_app. auto.
Qed.

(** A [.env] that is a file or absent gives one environment. *)
Lemma env_loaded_unique (f f' : tree) (root : list string) (env env1 env2 : environ) :
  (∀ n, f !! (root ++ [".env"]) = Some n → ∃ t, n = NFile t) →
  f' !! (root ++ [".env"]) = f !! (root ++ [".env"]) →
  env_loaded f root env env1 → env_loaded f' root env env2 → env2 = env1.
Proof.
  intros Hn He (_ & H1 & H1') (_ & H2 & H2'). rewrite He in H2, H2'.
  destruct (f !! (root ++ [".env"])) as [n|].
  - destruct (Hn n eq_refl) as [t ->]. by rewrite (H1 t), (H2 t).
  - by rewrite H1', H2'.
Qed.

End scripts.

(** ** A sample project *)

Definition sample_root : list string := ["w"; "blank-chat"].
Definition sdk_place : list string := ["w"; "yocto-dev"; "sdk"].
Definition sdk_script : string := "environment-setup-x86_64".

(** The location of the SDK, cleared, with its environment script in it. *)
Definition with_sdk (f : tree) : tree :=
  <[sdk_place ++ [sdk_script] := NFile EmptyString]>
    (<[sdk_place := NDir]> (<[["w"; "yocto-dev"]:= NDir]> (<[["w"] := NDir]> (<[[] := NDir]> (rmtree sdk_place f))))).

(** [gh] downloads one installer, which installs an SDK in the one directory it knows;
    CMake makes a compilation database; everything else fails. *)
Definition sample_shell : shell := λ dir argv f,
  let status z := Completed z EmptyString EmptyString in
  match argv with
  | [_; _; _; version; _; _; _; d; _] => (status 0, <[place dir d ++ ["sdk.sh"] := NFile version]> f)
  | [_; _; _; d] =>
      if decide (place dir (path_str (Path d)) = sdk_place) then (status 0, with_sdk f) else (status 1, f)
  | [prog; arg; d] =>
      if decide (prog = "bash") then (Completed 0 ("OECORE_NATIVE_SYSROOT=/n" +:+ nl) EmptyString, f)
      else if decide (arg = "--preset") then
        (status 0, <[dir ++ ["build"; d] := NDir]> (<[dir ++ ["build"] := NDir]> f))
      else if decide (f !! place dir d = Some NDir) then
        (status 0, <[place dir d ++ ["compile_commands.json"] := NFile "[]"]> f)
      else (status 1, f)
  | _ => (status 1, f)
  end%Z.

Definition sample_files : tree :=
  list_to_map [([], NDir); (["w"], NDir); (sample_root, NDir); (sample_root ++ ["scripts"], NDir);
    (sample_root ++ ["scripts"; "utils.py"], NFile "utils"); (sample_root ++ [".env"], NFile ("YOCTO_SDK_DIR=/w/yocto-dev/sdk" +:+ nl));
    (sample_root ++ ["build"], NDir); (sample_root ++ ["build"; "old"], NFile "old")].
Definition sample_disk : hst (disk sample_shell) :=
  HSt (Disk (FState sample_files ["w"] ∅)) [].

Lemma sample_installed : installed sample_files sample_root.
Proof. split; [by repeat (apply Forall_cons; split)|]. apply realb_real. vm_compute. reflexivity. Qed.
Lemma sample_wf : tree_wf sample_files.
Proof. apply tree_wfb_wf. vm_compute. reflexivity. Qed.
Lemma sample_no_link t : sample_files !! (sample_root ++ ["build"]) ≠ Some (NLink t).
Proof. apply is_link_false. vm_compute. reflexivity. Qed.

Lemma clean_effect_witness :
  let st := sample_disk in
  ∃ r env' st' l, returns (clean_main (utils_of sample_root)) (∅, st) r (env', st') ∧
    trace st' = trace st ++ l ∧ cleaned (files (fs (world st))) sample_root (fs (world st')) r.
Proof. apply clean_effect; [exact sample_installed|exact sample_wf]. Defined.

(** A shell in which the SDK is set up. *)
Definition sdk_shell : environ := {["OECORE_NATIVE_SYSROOT" := "/n"]}.
Lemma sample_rebuilds n i : returns_at (clean_main (utils_of sample_root)) (λ _ s,
  returns_at (build_main (utils_of sample_root) ["build.py"]) (λ _ _, true) i (sdk_shell, s.2)) n (∅, sample_disk) = true.
Proof. vm_compute. reflexivity. Qed.

Lemma clean_then_others_witness :
  ∃ env' st' l, returns (clean_main (utils_of sample_root)) (∅, sample_disk) (Ok tt) (env', st') ∧
    trace st' = trace sample_disk ++ l ∧
    (∃ e env2' st2' l2, returns (run_main (utils_of sample_root) ["build.py"]) (sdk_shell, st') (Raise e) (env2', st2') ∧
       trace st2' = trace st' ++ l2 ∧ runs l2 = [] ∧ changes l2 = []) ∧
    (∃ env2' st2' l2, returns (build_main (utils_of sample_root) ["build.py"]) (sdk_shell, st') (Ok tt) (env2', st2') ∧
       trace st2' = trace st' ++ l2 ∧ ∃ ns, parse_known build_parser (tail ["build.py"]) = PArgs ns ∧
       runs l2 = [ran None env2' ["cmake"; "--preset"; get_text ns "preset"];
                  ran None env2' ["cmake"; "--build"; path_str (build_dir (get_text ns "preset"))]]).
Proof.
  destruct (clean_then_others sample_root ["build.py"] ∅ sdk_shell sample_disk) as (r & env' & st' & l & Hr & Hl & HQ);
    [exact sample_installed|exact sample_wf|exact sample_no_link|].
  destruct (returns_evaluated 0 _ _ _ _ _ Hr sample_rebuilds) as ([] & -> & Hb).
  destruct (HQ eq_refl st' eq_refl) as [Hrun Hbuild]. exists env', st', l. split; [done|]. split; [done|].
  split; [apply Hrun; by repeat split|].
  destruct Hbuild as (r2 & env2 & st2 & l2 & Hr2 & Hl2 & HQ2).
  - by eexists.
  - intros ns Hns. vm_compute in Hns. injection Hns as <-. by repeat split.
  - destruct (returns_evaluated 0 _ (λ _ _ _, true) _ _ _ Hr2 (λ n _, Hb n)) as ([] & -> & _). by exists env2, st2, l2.
Defined.

Lemma build_database_witness :
  let P preset (t : tree) :=
    t !! (place sample_root (path_str (build_dir preset)) ++ ["compile_commands.json"]) = Some (NFile "[]") in
  ∃ r env' st' l, returns (build_main (utils_of sample_root) ["build.py"]) (∅, sample_disk) r (env', st') ∧
    trace st' = trace sample_disk ++ l ∧
    match r with
    | Ok _ => ∃ ns t, parse_known build_parser (tail ["build.py"]) = PArgs ns ∧
        let preset := get_text ns "preset" in P preset t ∧ built sample_root preset t (fs (world st'))
    | Raise _ => True
    | NoFuel => False
    end.
Proof.
  intros P. apply build_database; [exact sample_installed|].
  intros preset env w w' c Hh Hz Hc. unfold handle, disk_host, sample_shell in Hh. cbv zeta in Hh.
  rewrite (decide_False (P := "cmake" = "bash")), (decide_False (P := "--build" = "--preset")) in Hh by done.
  case_decide; simplify_eq Hh; [intros <- <-|intros <- _; done]. unfold P. cbn. rewrite <- Hc. apply lookup_insert_eq.
Defined.

(** What the programs of the sample leave alone. *)
Lemma last_ne (l k : list string) x y : x ≠ y → l ++ [x] ≠ k ++ [y].
Proof. intros Hxy [_ ?]%app_inj_tail. done. Qed.
Lemma real_with_sdk f k : real f k → real (with_sdk f) k.
Proof. intros Hk. unfold with_sdk. do 5 (apply real_insert; [done|]). by apply real_rmtree. Qed.
Lemma env_with_sdk f : with_sdk f !! (sample_root ++ [".env"]) = f !! (sample_root ++ [".env"]).
Proof.
  unfold with_sdk. rewrite !lookup_insert_ne by done. rewrite lookup_rmtree, decide_False; [done|].
  intros [m Hm]. discriminate Hm.
Qed.
Lemma sample_shell_keeps dir argv f c f' :
  sample_shell dir argv f = (c, f') →
  (∀ k, real f k → real f' k) ∧ f' !! (sample_root ++ [".env"]) = f !! (sample_root ++ [".env"]).
Proof.
  unfold sample_shell. intros E. repeat case_match; simplify_eq; (split; [intros k Hk|]).
  all: try done.
  all: try (repeat apply real_insert; done).
  all: try (rewrite !lookup_insert_ne; [done|by apply (last_ne _ ["w"; "blank-chat"])..]).
  - rewrite !lookup_insert_ne; [done|by apply (last_ne _ ["w"; "blank-chat"])|].
    change (dir ++ ["build"; ?x]) with (dir ++ ["build"] ++ [x]). rewrite app_assoc. intros [E _]%(app_inj_tail _ sample_root).
    by apply (last_ne dir ["w"] "build" "blank-chat") in E.
  - by apply real_with_sdk.
  - apply env_with_sdk.
Qed.
Lemma sample_keep : programs_keep (W:=disk sample_shell) sample_root.
Proof.
  intros dir env argv w o w' Hh [Hp Hr]. unfold handle, disk_host in Hh. cbv zeta in Hh.
  destruct (sample_shell _ argv _) as [c f'] eqn:E. injection Hh as <- <-.
  apply sample_shell_keeps in E as [H1 H2]. split; [|done]. split; [done|]. by apply H1.
Qed.

(** The one installer of a release. *)
Definition sample_release (version x : string) (n : node) : Prop := x = "sdk.sh" ∧ n = NFile version.
Lemma sample_gh : gh_downloads (W:=disk sample_shell) sample_release.
Proof.
  intros version dir env w w' c Hh _ d Hd Hnone. injection Hh as <- <-.
  split; [by apply real_insert|]. intros x n Hs Hx.
  change (<[d ++ ["sdk.sh"] := NFile version]> (files (d_fs w)) !! (d ++ [x]) = Some n → sample_release version x n).
  destruct (decide (x = "sdk.sh")) as [->|Hne].
  - rewrite lookup_insert_eq. by intros [= <-].
  - rewrite lookup_insert_ne; [|apply last_ne; congruence]. specialize (Hnone x Hs Hx).
    intros Hn. pose proof (eq_trans (eq_sym Hn) Hnone). discriminate.
Qed.
(** What the sample's installer makes of the directory it is given. *)
Definition has_sdk (d : list string) (f : tree) : Prop := real f d ∧ setup_script sdk_script d f.
Lemma has_sdk_with_sdk f : has_sdk sdk_place (with_sdk f).
Proof.
  unfold has_sdk, setup_script, with_sdk. split_and!.
  - split; [by apply (bool_decide_unpack (".." ∉ sdk_place))|]. intros k t Hk%elem_of_ways.
    change (ways sdk_place) with [[]; ["w"]; ["w"; "yocto-dev"]; sdk_place] in Hk.
    repeat (apply elem_of_cons in Hk as [->|Hk]; [repeat (rewrite lookup_insert_ne by done); by rewrite lookup_insert_eq|]).
    by apply elem_of_nil in Hk.
  - done.
  - done.
  - by rewrite lookup_insert_eq.
Qed.
Lemma sample_shell_installs dir installer d f c f' :
  sample_shell dir (install_cmd installer d) f = (c, f') → returncode c = 0%Z →
  has_sdk (place dir (path_str (Path d))) f'.
Proof.
  unfold sample_shell, install_cmd. case_decide as Hd; intros [= <- <-]; [|done]. intros _. rewrite Hd.
  apply has_sdk_with_sdk.
Qed.
Lemma sample_installer : installer_makes (W:=disk sample_shell) has_sdk.
Proof.
  intros installer dir env w w' c Hh Hz. unfold handle, disk_host in Hh. cbv zeta in Hh.
  destruct (sample_shell _ _ _) as [c' f'] eqn:E. injection Hh as <- <-. by apply sample_shell_installs in E.
Qed.

Lemma sample_dest ns :
  parse_known (download_parser (default_dest (PPath "/" sample_root))) (tail ["download_sdk.py"]) = PArgs ns →
  let d := place sample_root (path_str (Path (get_text ns "dest"))) in
  real sample_files d ∧ ¬ sample_root ++ [".env"] `prefix_of` d.
Proof.
  intros Hns. assert (get_text ns "dest" = "/w/yocto-dev/downloads") as -> by (vm_compute in Hns; by injection Hns as <-).
  split; [apply realb_real; by vm_compute|]. apply (bool_decide_unpack (¬ _)). by vm_compute.
Qed.

Lemma download_installs_witness :
  ∃ r env' st' l, returns (download_main (utils_of sample_root) ["download_sdk.py"]) (∅, sample_disk) r (env', st') ∧
    trace st' = trace sample_disk ++ l ∧
    (r = Ok tt → ∃ ns,
      parse_known (download_parser (default_dest (PPath "/" sample_root))) (tail ["download_sdk.py"]) = PArgs ns ∧
      env_loaded (files (fs (world sample_disk))) sample_root ∅ env' ∧ installs sample_release sample_root ns l env' ∧
      has_sdk (place sample_root (path_str (Path (install_dir env' (PPath "/" sample_root)))))
        (files (fs (world st')))).
Proof.
  apply download_installs; [exact sample_installed|exact sample_gh|exact sample_installer|].
  intros ns Hns. exact (proj1 (sample_dest ns Hns)).
Defined.

Lemma sample_dotenv n :
  sample_files !! (sample_root ++ [".env"]) = Some n → ∃ t, n = NFile t.
Proof.
  intros Hn. assert (sample_files !! (sample_root ++ [".env"]) = Some (NFile ("YOCTO_SDK_DIR=/w/yocto-dev/sdk" +:+ nl))) as E
    by (vm_compute; reflexivity). exists ("YOCTO_SDK_DIR=/w/yocto-dev/sdk" +:+ nl).
  pose proof (eq_trans (eq_sym E) Hn) as Hx. by injection Hx as <-.
Qed.

(** On the sample both scripts return. *)
Lemma sample_builds n i : returns_at (download_main (utils_of sample_root) ["download_sdk.py"]) (λ _ s,
  bool_decide (s.1 !! "OECORE_NATIVE_SYSROOT" = None) &&
  returns_at (build_main (utils_of sample_root) ["build.py"]) (λ _ _, true) i (∅, s.2)) n (∅, sample_disk) = true.
Proof. vm_compute. reflexivity. Qed.


(** On the sample, one script after the other: each returns. *)
Definition then_run (m : M (environ * hst (disk sample_shell)) unit) (st : hst (disk sample_shell)) :
  option (hst (disk sample_shell)) :=
  match m 0%nat (∅, st) with (Ok _, (_, st')) => Some st' | _ => None end.
Definition sample_session : option (hst (disk sample_shell)) :=
  st1 ← then_run (clean_main (utils_of sample_root)) sample_disk;
  st2 ← then_run (download_main (utils_of sample_root) ["download_sdk.py"]) st1;
  then_run (build_main (utils_of sample_root) ["build.py"]) st2.
Definition session_file (l : list string) : option node :=
  st ← sample_session; files (fs (world st)) !! l.

(** After cleaning, downloading and building there is a database and nothing old. *)
Example sample_session_runs :
  session_file (sample_root ++ ["compile_commands.json"]) = Some (NFile "[]") ∧
  session_file (sample_root ++ ["build"; "old"]) = None ∧
  session_file (sdk_place ++ [sdk_script]) = Some (NFile EmptyString).
Proof. vm_compute. auto. Qed.
