(* ===== verification/Waiting.v ===== *)
(** * The waiting loops of the orchestrators end

    [total_wait] shows that a program built of the console functions ends: the loops that
    wait for a deadline by the laws of the clock, those that read a reply line by line
    because the peer's lines are finitely many. *)

From Stdlib Require Import Ascii ZArith QArith Lia Lqa.
From stdpp Require Import base list strings.
From S2P Require Import Prelude PyNum PyText Host Json Wire Console Events Calibration.

Open Scope Z_scope.

(** A peer that speaks in lines: [unread w s] bounds the lines it still sends on [s], and
    the reply at the end of a stream is empty. *)
Class LineStream (W : Type) `{Host W} : Type := {
  unread : W → sock → nat;
  readline_law : ∀ w s b w', handle (EReadLine s) w = (inl b, w') → b ≠ [] → (unread w' s < unread w s)%nat }.

(** A console takes some time to show a prompt: [expect] with several patterns returns no
    sooner than [prompt_time] after its call. *)
Class Prompts (W : Type) `{Clock W} : Type := {
  prompt_time : Q;
  prompt_time_pos : (0 < prompt_time)%Q;
  prompt_law : ∀ c patterns t w i w',
    handle (EExpectList c patterns t) w = (inl i, w') → (now w + prompt_time <= now w')%Q }.

Section ends.
Context {W : Type} `{Clock W}.

Lemma total_wait_until {A} timeout d c msg (body : M (hst W) (option A)) :
  (0 < d)%Q → keeps later body → total body → total (wait_until timeout d c msg body).
Proof.
  intros Hd Hk Ht. unfold wait_until. apply total_bind; [total_deep|]. intros t. apply total_bind.
  - apply total_poll_until; [done|apply fl_idem|done|done].
  - intros [a|]; total_tac.
Qed.

Lemma recv_exact_total s size : total (Console.recv_exact s size : M (hst W) bytes).
Proof.
  unfold Console.recv_exact, Wire.recv_exact. apply (total_iter (λ data _, size - length data)%nat); [intros; total_tac|].
  intros data n st. destruct (Nat.ltb_spec (length data) size); [|by apply wp_ret].
  apply wp_bind, wp_call_cases; [|done]. intros chunk w' _. apply wp_bind, wp_raise_if.
  case_bool_decide as Hc; [done|]. apply wp_ret. rewrite length_app. destruct chunk; [done|]. cbn. lia.
Qed.

Lemma login_loop_total `{!Prompts W} child vm deadline :
  fl deadline == deadline → total (login_loop child vm deadline : M (hst W) unit).
Proof.
  intros Hfl. apply (total_iter (λ _ st, rounds_left deadline prompt_time st)); [intros; total_deep|].
  intros _ n st. apply wp_bind. unfold monotonic. apply wp_call_cases; [|done]. intros t w1 Hm.
  destruct (Qlt_bool t deadline) eqn:Hlt; [|done]. pose proof (reading_before _ _ _ _ Hfl Hm Hlt) as Hnow.
  pose proof (now_mono _ EMonotonic (world st)) as Hm1. rewrite Hm in Hm1. cbn in Hm1.
  unfold login_step. apply wp_bind, wp_bind, wp_call_cases; [|done]. intros i w2 Hi. apply prompt_law in Hi. cbn in Hi.
  set (s2 := HSt w2 _). set (k := match i with 0%nat => _ | _ => _ end).
  eapply (wp_mono True _ (λ _ s', (now w2 <= now (world s'))%Q)); [| |
    eapply wp_mono; [| |eapply (wp_keeps (R:=later)); [|apply wp_trivial]]]; [|done|by intros ? ? [_ ?]|done|].
  - intros [[]|] s3 Hs3; apply wp_ret; [done|]. apply rounds_left_lt; [apply prompt_time_pos|done|]. cbn in *. lra.
  - unfold k. keeps_tac.
Qed.

Lemma contact_complete_ends alias l : contact_complete alias l ≠ NoFuel.
Proof.
  induction l as [|item l IH]; cbn [contact_complete]; [done|]. apply ends_bind; [by destruct item|].
  intros x. destruct (is_str alias x); [|done]. apply ends_bind; [by destruct item|done].
Qed.
Lemma parse_initial_pfs_ends raw alias : parse_initial_pfs raw alias ≠ NoFuel.
Proof.
  unfold parse_initial_pfs. destruct (json_loads raw) as [j| |]; [|done|done]. apply ends_bind; [by destruct j|].
  intros c. destruct c; try done. apply contact_complete_ends.
Qed.
Lemma calibration_of_ends vm l : calibration_of vm l ≠ NoFuel.
Proof. by destruct l. Qed.
Lemma encode_ascii_ends s : Wire.encode_ascii s ≠ NoFuel.
Proof. unfold Wire.encode_ascii. by destruct (all_chars _ s). Qed.
Lemma jget_ends k j : jget k j ≠ NoFuel.
Proof. destruct j; try done. cbn. by destruct (dict_get k fields). Qed.
End ends.

(** Reduce [total m] as [total_deep] does, with the waiting loops. *)
Ltac total_wait :=
  repeat first
    [ apply total_wait_until; [reflexivity|solve [keeps_deep]|]
    | lazymatch goal with
      | |- total (lift _) => apply total_lift
      | |- total (with_locals _ _) => apply total_with_locals
      | |- total (set_local _) => apply total_set_local
      | |- total get_local => apply total_get_local
      end
    | total_step
    | lazymatch goal with |- total ?m => open_head m end ].

#[export] Hint Extern 1 (total (login_loop _ _ _)) => (apply login_loop_total, fl_idem) : py.
#[export] Hint Resolve recv_exact_total parse_initial_pfs_ends calibration_of_ends jget_ends
  encode_ascii_ends Wire.byte_res_total Wire.pack_u16_be_total : py.

(** ** Loops that read one line in each round *)

Section lines.
Context {W : Type} `{LineStream W}.

Definition same_world (st st' : hst W) : Prop := world st' = world st.
#[global] Instance same_world_preorder : PreOrder same_world.
Proof. split; unfold same_world; [done|congruence]. Qed.

Lemma total_read_lines {A B} s (step : bytes → A → M (hst W) (A + B)) (a : A) :
  (∀ raw a, total (step raw a)) → (∀ raw a, keeps same_world (step raw a)) →
  (∀ a n st, wp True (step [] a) (λ r _, ∃ b, r = inr b) (λ _ _, True) n st) →
  total (iter (λ a, raw ← call (EReadLine s); step raw a) a : M (hst W) B).
Proof.
  intros Ht Hk He. apply (total_iter (λ _ st, unread (world st) s)).
  { intros a'. apply total_bind; [total_tac|]. intros raw. apply Ht. }
  intros a' n st. apply wp_bind, wp_call_cases; [|done]. intros raw w1 Hr.
  destruct (decide (raw = [])) as [->|Hne].
  - eapply wp_mono; [| |apply He]; [|done]. intros r st' [b ->]. done.
  - eapply wp_mono; [| |apply (wp_keeps (R:=same_world)); [apply Hk|apply wp_trivial]]; [|done].
    intros [a1|b] st' [_ Hw]; [|done]. rewrite Hw. by eapply readline_law.
Qed.

Lemma getinfo_line_ends line values : getinfo_line line values ≠ NoFuel.
Proof.
  unfold getinfo_line. destruct (strip_prefix _ line); [by destruct (py_int _)|].
  destruct (strip_prefix _ line); [by destruct (py_int _)|]. by repeat destruct (starts_with _ _).
Qed.
Lemma tor_getinfo_traffic_total port : total (tor_getinfo_traffic port : M (hst W) (Z * Z)).
Proof.
  pose proof getinfo_line_ends. unfold tor_getinfo_traffic. total_tac. apply total_read_lines.
  - intros raw values. total_tac.
  - intros raw values. keeps_tac.
  - intros values n st. by apply wp_bind, wp_raise_if.
Qed.
End lines.
#[export] Hint Resolve tor_getinfo_traffic_total : py.
