(* ===== verification/Testbed.v ===== *)
(** * The testbed of BT-05 and BT-06

    What [main] of BT-05/orchestrator.py and of BT-06/orchestrator.py, which loads the
    former as a module, do around their modes: bring machines, Tor network, forwarders and
    consoles up, and take them down again.  The locals of [main] that its [finally] reads
    are a record beside the host's state. *)

From Stdlib Require Import Ascii ZArith QArith Lia.
From stdpp Require Import base list strings sets.
From S2P Require Import Prelude PyText Host Json Console Events.

Open Scope Z_scope.

Record main_locals : Type := GLoc {
  server_console : option pid; client_a_console : option pid; client_b_console : option pid;
  control_socat : option pid; service_socat : option pid; socks_socat : option pid;
  firewall_added : bool; chutney_started : bool; the_client_tor : option ChutneyTorNode;
  completed_modes : list string; suite_result : string }.
Definition no_locals : main_locals := GLoc None None None None None None false false None [] "failed".

Definition set_consoles (s a b : option pid) (l : main_locals) : main_locals :=
  GLoc s a b (control_socat l) (service_socat l) (socks_socat l) (firewall_added l) (chutney_started l)
    (the_client_tor l) (completed_modes l) (suite_result l).
Definition set_socats (c s k : option pid) (l : main_locals) : main_locals :=
  GLoc (server_console l) (client_a_console l) (client_b_console l) c s k (firewall_added l) (chutney_started l)
    (the_client_tor l) (completed_modes l) (suite_result l).
Definition set_firewall (b : bool) (l : main_locals) : main_locals :=
  GLoc (server_console l) (client_a_console l) (client_b_console l) (control_socat l) (service_socat l)
    (socks_socat l) b (chutney_started l) (the_client_tor l) (completed_modes l) (suite_result l).
Definition set_chutney (b : bool) (l : main_locals) : main_locals :=
  GLoc (server_console l) (client_a_console l) (client_b_console l) (control_socat l) (service_socat l)
    (socks_socat l) (firewall_added l) b (the_client_tor l) (completed_modes l) (suite_result l).
Definition set_client_tor (t : ChutneyTorNode) (l : main_locals) : main_locals :=
  GLoc (server_console l) (client_a_console l) (client_b_console l) (control_socat l) (service_socat l)
    (socks_socat l) (firewall_added l) (chutney_started l) (Some t) (completed_modes l) (suite_result l).
Definition add_completed (m : string) (l : main_locals) : main_locals :=
  GLoc (server_console l) (client_a_console l) (client_b_console l) (control_socat l) (service_socat l)
    (socks_socat l) (firewall_added l) (chutney_started l) (the_client_tor l) (completed_modes l ++ [m]) (suite_result l).
Definition set_suite (r : string) (l : main_locals) : main_locals :=
  GLoc (server_console l) (client_a_console l) (client_b_console l) (control_socat l) (service_socat l)
    (socks_socat l) (firewall_added l) (chutney_started l) (the_client_tor l) (completed_modes l) r.

(** The environment of a mode. *)
Record testbed : Type := {
  t_server_ip : string; t_client_a_ip : string; t_client_b_ip : string; t_client_tor : ChutneyTorNode;
  t_server : pid; t_client_a : pid; t_client_b : pid }.

Definition listen (port : Z) (bind : string) : string :=
  "TCP-LISTEN:" +:+ str_Z port +:+ ",bind=" +:+ bind +:+ ",fork,reuseaddr".

(** [["cbr", "poisson"] if mode == "all" else [mode]] *)
Definition modes_named (mode : string) : list string :=
  if bool_decide (mode = "all") then ["cbr"; "poisson"] else [mode].
(** [set(modes) == {"cbr", "poisson"}] *)
Definition both_modes (modes : list string) : bool := same_set modes ["cbr"; "poisson"].

(** [ClientHandle("A", ...)] and [ClientHandle("B", ...)] *)
Definition handle_a (child : pid) : ClientHandle := ClientH "A" CLIENT_A_VM "bob" child.
Definition handle_b (child : pid) : ClientHandle := ClientH "B" CLIENT_B_VM "alice" child.

Section testbed.
Context {W : Type} `{Host W} (PROJECT_ROOT sys_executable : string) (float_repr : Q → string).

Definition GM : Type → Type := M (main_locals * hst W).

Definition close_console (child : option pid) : M (hst W) unit :=
  match child with
  | None => mret tt
  | Some c =>
      try_except (call (ESendControl c "]");; call (ECloseChild c false))
        (except [Exception_] (λ _, call (ECloseChild c true)))
  end.

(** [destroy_vms] of BT-05: failures are ignored. *)
Definition destroy_vms : M (hst W) unit :=
  info "Destroying temporary benchmark VMs...";;
  for_unit ALL_VMS (λ vm,
    state ← call (ERun (virsh ["domstate"; vm]) None);
    if negb (returncode state =? 0) then mret tt
    else
      (if contains "running" (lower (stdout state))
       then call (ERun (virsh ["destroy"; vm]) None);; mret tt else mret tt);;
      call (ERun (virsh ["undefine"; vm; "--nvram"; "--remove-all-storage"]) None);; mret tt).

(** [require_dependencies] and [assert_client_binary_has_diagnostics] are each program's own. *)
Definition bring_up (require_dependencies : M (hst W) unit) (assert_diagnostics : pid → string → M (hst W) unit)
  (root : string) : GM testbed :=
  lift require_dependencies;;
  lift acquire_sudo;;
  lift (repair_workspace_permissions PROJECT_ROOT);;
  lift (cleanup_stale_chutney_tor PROJECT_ROOT);;
  lift (recreate_vms PROJECT_ROOT sys_executable);;
  server_ip ← lift (wait_for_vm_ip SERVER_VM 300);
  client_a_ip ← lift (wait_for_vm_ip CLIENT_A_VM 300);
  client_b_ip ← lift (wait_for_vm_ip CLIENT_B_VM 300);
  lift (start_chutney PROJECT_ROOT);;
  set_local (set_chutney true);;
  client_tor ← lift (discover_dedicated_client_tor PROJECT_ROOT);
  set_local (set_client_tor client_tor);;
  let port := node_socks_port client_tor in
  lift (check_socks5 port);;
  added ← lift ensure_firewall_rule;
  set_local (set_firewall added);;
  lift stop_stale_socat;;
  c ← lift (start_socat [listen SERVER_TOR_CONTROL_PORT GATEWAY_IP; "TCP:127.0.0.1:" +:+ str_Z SERVER_TOR_CONTROL_PORT]
              (joinpath root "socat_control.log"));
  set_local (set_socats (Some c) None None);;
  s ← lift (start_socat [listen SERVER_PORT "127.0.0.1"; "TCP:" +:+ server_ip +:+ ":" +:+ str_Z SERVER_PORT]
              (joinpath root "socat_service.log"));
  set_local (set_socats (Some c) (Some s) None);;
  k ← lift (start_socat [listen VM_TOR_SOCKS_PORT GATEWAY_IP; "TCP:127.0.0.1:" +:+ str_Z port]
              (joinpath root "socat_socks.log"));
  set_local (set_socats (Some c) (Some s) (Some k));;
  cs ← lift (login_to_console SERVER_VM 180);
  set_local (set_consoles (Some cs) None None);;
  ca ← lift (login_to_console CLIENT_A_VM 180);
  set_local (set_consoles (Some cs) (Some ca) None);;
  cb ← lift (login_to_console CLIENT_B_VM 180);
  set_local (set_consoles (Some cs) (Some ca) (Some cb));;
  lift (assert_diagnostics ca CLIENT_A_VM);;
  lift (assert_diagnostics cb CLIENT_B_VM);;
  mret {| t_server_ip := server_ip; t_client_a_ip := client_a_ip; t_client_b_ip := client_b_ip;
          t_client_tor := client_tor; t_server := cs; t_client_a := ca; t_client_b := cb |}.

(** The end of the [finally] of [main]. *)
Definition tear_down (keep_environment : bool) (root : string) : GM unit :=
  l ← get_local;
  lift (close_console (client_a_console l));;
  lift (close_console (client_b_console l));;
  lift (close_console (server_console l));;
  lift (stop_process (socks_socat l) "VM-to-Chutney SOCKS socat");;
  lift (stop_process (service_socat l) "hidden-service socat");;
  lift (stop_process (control_socat l) "control-port socat");;
  lift (remove_firewall_rule_if_added (firewall_added l));;
  (if negb keep_environment then
     (if chutney_started l then lift (stop_chutney PROJECT_ROOT) else mret tt);;
     lift destroy_vms
   else lift (info "Keeping VMs and Chutney running (--keep-environment)"));;
  lift (info ("Results directory: " +:+ root)).

(** The beginning of [main]: the directory of the run below [base] and the commit it tests. *)
Definition begin_run (base : path) : M (hst W) (string * path * string * bool) :=
  stamp ← call EStrftime;
  let root := joinpath base stamp in
  call (EMkdir root);;
  r ← checked_run ["git"; "rev-parse"; "HEAD"];
  let commit := strip (stdout r) in
  g ← checked_run ["git"; "status"; "--short"];
  let git_status := stdout g in
  let dirty := negb (bool_decide (strip git_status = EmptyString)) in
  call (EWriteText (joinpath root "commit.txt") (commit +:+ nl));;
  call (EWriteText (joinpath root "git_status.txt") git_status);;
  mret (stamp, root, commit, dirty).

(** The beginning of the [try] of [run_mode]: server and clients are set up and know each
    other.  [set_onion] stores the address in the metadata. *)
Definition connect_clients {L} (set_onion : string → L → L) (server a b : pid) (socks_port : Z) (timeout : Q)
  (mode : string) (cbr_interval_ms : Z) (poisson_lambda : Q) : M (L * hst W) unit :=
  lift (configure_server server);;
  lift (start_server server);;
  onion ← lift (wait_for_onion server 60);
  lift (wait_for_hidden_service onion socks_port timeout);;
  set_local (set_onion onion);;
  lift (configure_client float_repr a onion mode cbr_interval_ms poisson_lambda);;
  lift (configure_client float_repr b onion mode cbr_interval_ms poisson_lambda);;
  lift (start_client a CLIENT_A_VM);;
  lift (start_client b CLIENT_B_VM);;
  mnemonic_a ← lift (extract_mnemonic a);
  mnemonic_b ← lift (extract_mnemonic b);
  lift (add_contact a "bob" mnemonic_b);;
  lift (add_contact b "alice" mnemonic_a);;
  lift (connect_client a mode);;
  lift (connect_client b mode);;
  lift (wait_for_initial_pfs (handle_a a) (handle_b b) 240).

(** [try: m except Exception: pass] *)
Definition attempt (m : M (hst W) unit) : M (hst W) unit :=
  try_except m (except [Exception_] (λ _, mret tt)).
(** The end of the [finally] of [run_mode]. *)
Definition stop_all (server a b : pid) : M (hst W) unit :=
  attempt (stop_client a);;
  attempt (stop_client b);;
  attempt (stop_server server).
End testbed.
