(* ===== verification/Documents.v ===== *)
(** * What a program leaves in the trace

    An observation maps a call to what is of interest in it ([observed]); [unseen] says that
    nothing was added.  Two are used: the JSON documents that were written ([saved]), and
    the whole record of BT-05, with its tables and what the monitor's thread read
    ([logged]).  The rules here are those the specifications of BT-05 and BT-06 share, with
    the ones for the testbed around their modes. *)

From Stdlib Require Import Ascii ZArith QArith Lia.
From stdpp Require Import base list strings sets.
From S2P Require Import Prelude PyText Host Json Console Events Testbed.

Open Scope Z_scope.

(** Parts of which nothing is known. *)
Lemma wp_any {St A B} (m : M St A) (k : A → M St B) Q n st :
  (∀ a st', wp True (k a) Q (λ _ _, True) n st') → wp True (m ≫= k) Q (λ _ _, True) n st.
Proof. intros Hk. apply wp_bind. eapply wp_mono; [| |apply wp_trivial]; [|done]. intros a st' _. apply Hk. Qed.

(** ** Observations *)

(** The calls of which something may be recorded. *)
Definition records {A} (e : eff A) : bool :=
  match e with EWriteJson _ _ | EWriteCsv _ _ | EReaderThread _ => true | _ => false end.
(** An observation sees nothing in the others. *)
Class Observes {X} (f : event → list X) : Prop :=
  blind : ∀ A (e : eff A) o, records e = false → f (Ev e o) = [].

(** The JSON documents that were written. *)
Definition doc_of (ev : event) : list (path * json) :=
  match ev_eff ev in eff A return A + exn → list (path * json) with
  | EWriteJson p j => λ o, match o with inl _ => [(p, j)] | inr _ => [] end
  | _ => λ _, []
  end (ev_out ev).
#[global] Instance doc_of_observes : Observes doc_of.
Proof. by intros A [] o. Qed.

(** Documents, tables and what the monitor's thread read. *)
Inductive entry : Type :=
| Doc (p : path) (j : json)
| Table (p : path) (rows : list (list json))
| Reads (items : list read_item).
Definition entry_of (ev : event) : list entry :=
  match ev_eff ev in eff A return A + exn → list entry with
  | EWriteJson p j => λ o, match o with inl _ => [Doc p j] | inr _ => [] end
  | EWriteCsv p rows => λ o, match o with inl _ => [Table p rows] | inr _ => [] end
  | EReaderThread _ => λ o, match o with inl items => [Reads items] | inr _ => [] end
  | _ => λ _, []
  end (ev_out ev).
#[global] Instance entry_of_observes : Observes entry_of.
Proof. by intros A [] o. Qed.

Definition observed {X} (f : event → list X) (l : list event) : list X := l ≫= f.
Lemma observed_app {X} (f : event → list X) l l' : observed f (l ++ l') = observed f l ++ observed f l'.
Proof. apply bind_app. Qed.
Lemma observed_snoc {X} (f : event → list X) l ev : observed f (l ++ [ev]) = observed f l ++ f ev.
Proof. rewrite observed_app. cbn. by rewrite app_nil_r. Qed.

Notation saved := (observed doc_of).
Notation logged := (observed entry_of).

Section observing.
Context {W : Type} `{Host W} {X : Type} (f : event → list X) `{!Observes f}.

Definition unseen (st st' : hst W) : Prop := observed f (trace st') = observed f (trace st).
#[global] Instance unseen_preorder : PreOrder unseen.
Proof. split; unfold unseen; [done|congruence]. Qed.
Lemma keeps_call_unseen {A} (e : eff A) : records e = false → keeps unseen (call e : M (hst W) A).
Proof.
  intros He n st. unfold call, unseen. destruct (handle e (world st)) as [o w']. cbn. rewrite observed_snoc.
  by rewrite blind, app_nil_r.
Qed.

(** A step of which nothing is recorded. *)
Lemma wp_unseen {A B} (m : M (hst W) A) (k : A → M (hst W) B) Q E n D (st : hst W) :
  keeps unseen m → observed f (trace st) = D →
  (∀ x st', observed f (trace st') = D → wp True (k x) Q E n st') →
  (∀ e st', observed f (trace st') = D → E e st') → wp True (m ≫= k) Q E n st.
Proof.
  intros Hm HD Hk HE. apply wp_bind.
  eapply wp_mono; [| |eapply wp_keeps; [exact Hm|apply wp_trivial]].
  - intros x st' [_ Hs]. apply Hk. unfold unseen in Hs. congruence.
  - intros e st' [_ Hs]. apply HE. unfold unseen in Hs. congruence.
Qed.

(** Bringing the testbed up records nothing and completes no mode. *)
Definition preparing (p p' : main_locals * hst W) : Prop :=
  unseen p.2 p'.2 ∧ completed_modes p'.1 = completed_modes p.1.
#[global] Instance preparing_preorder : PreOrder preparing.
Proof.
  split; [intros p; by split|]. intros p q r [H1 H2] [K1 K2]. split; [by etransitivity|congruence].
Qed.
Lemma keeps_preparing_lift {A} (m : M (hst W) A) : keeps unseen m → keeps preparing (lift m).
Proof. intros Hm n [l st]. specialize (Hm n st). unfold lift. cbn. destruct (m n st) as [r st']. by split. Qed.
Lemma keeps_preparing_set g : (∀ l, completed_modes (g l) = completed_modes l) → keeps preparing (set_local g).
Proof. intros Hg n [l st]. by split; [|cbn; apply Hg]. Qed.
End observing.

Notation same_docs := (unseen doc_of).
Notation silent := (unseen entry_of).

#[export] Hint Extern 1 (keeps (unseen _) (call _)) => (apply keeps_call_unseen; [apply _|reflexivity]) : py.
#[export] Hint Extern 1 (keeps (preparing _) (lift _)) => (apply keeps_preparing_lift; solve [keeps_deep]) : py.
#[export] Hint Extern 1 (keeps (preparing _) (set_local _)) =>
  (apply keeps_preparing_set; intros []; reflexivity) : py.
#[export] Hint Extern 1 (keeps (host_only _) (lift _)) => (apply keeps_lift_host_only; solve [keeps_deep]) : py.
#[export] Hint Resolve keeps_set_local keeps_get_local : py.

(** ** The suite's document *)

Definition suite_file (root : string) : path := joinpath root "suite_run.json".

(** Calls that write no document but the suite's. *)
Definition suite_only (root : string) (ev : event) : Prop := Forall (λ d, d.1 = suite_file root) (doc_of ev).
#[export] Hint Extern 1 (keeps (extends (suite_only _)) (call _)) =>
  (apply keeps_call_extends; intros []; repeat constructor) : py.

Lemma saved_suite root l : Forall (suite_only root) l → Forall (λ d, d.1 = suite_file root) (saved l).
Proof. intros Hl. unfold observed. induction Hl as [|ev l Hev Hl IH]; cbn; [done|]. by apply Forall_app. Qed.

(** ** The testbed *)

Section testbed_laws.
Context {W : Type} `{Host W} (PROJECT_ROOT sys_executable : string) {X : Type} (f : event → list X) `{!Observes f}.

Lemma bring_up_preparing require assert_ root :
  keeps (unseen f) require → (∀ c vm, keeps (unseen f) (assert_ c vm)) →
  keeps (preparing f) (bring_up PROJECT_ROOT sys_executable require assert_ root : GM (W:=W) testbed).
Proof. intros. unfold bring_up. keeps_tac; apply keeps_preparing_lift; eauto with py. Qed.

Lemma tear_down_suite keep root root' :
  keeps (host_only (extends (suite_only root'))) (tear_down PROJECT_ROOT keep root : GM (W:=W) unit).
Proof. unfold tear_down. keeps_tac. Qed.
Lemma tear_down_unseen keep root : keeps (host_only (unseen f)) (tear_down PROJECT_ROOT keep root : GM (W:=W) unit).
Proof. unfold tear_down. keeps_tac. Qed.

Lemma begin_run_wp base n (st : hst W) :
  wp True (begin_run base)
    (λ r st', observed f (trace st') = observed f (trace st) ∧ r.1.1.2 = joinpath base r.1.1.1) (λ _ _, True) n st.
Proof.
  eapply wp_mono; [| |eapply (wp_keeps (R:=unseen f) True _ (λ r _, r.1.1.2 = joinpath base r.1.1.1))].
  - intros r st' [Hr Hs]. by split.
  - done.
  - unfold begin_run. keeps_deep.
  - unfold begin_run. do 6 (apply wp_any; intros ? ?). by apply wp_ret.
Qed.
End testbed_laws.
