(* ===== verification/Series.v ===== *)
(** * BT-06: what the orchestrator collects, the analysis accepts

    [collect_and_validate_events] of BT-06/orchestrator.py makes a document of a series;
    [validate_documents] of BT-06/analyze.py checks such a document before it is measured.
    A document the first makes passes the second. *)

From Stdlib Require Import Ascii ZArith QArith Lia.
From stdpp Require Import base list strings sorting sets.
From S2P Require Import Prelude PyNum PyText Host Json Console Events Calibration Latency.

Open Scope Z_scope.

(** ** Identifiers are read in lower case *)

Lemma lower_char_idem c : lower_char (lower_char c) = lower_char c.
Proof. destruct c as [[] [] [] [] [] [] [] []]; reflexivity. Qed.
Lemma lower_idem s : lower (lower s) = lower s.
Proof. induction s as [|c s IH]; [done|]. cbn. by rewrite lower_char_idem, IH. Qed.

Definition lowered (s : series) : Prop := Forall (λ x, lower x = x) (ids (queued s)).

(** The events of two logs. *)
Definition series_of (sender_log receiver_log : string) : series :=
  {| queued := parse_events QUEUE_RE sender_log; received := parse_events RX_RE receiver_log;
     acked := parse_events ACK_RE sender_log; frame_maps := parse_maps sender_log;
     tx_events := parse_tx sender_log |}.

Lemma parse_events_lower r text e : e ∈ parse_events r text → lower e.2 = e.2.
Proof.
  unfold parse_events, parse_lines. intros (line & _ & Hl)%list_elem_of_omap.
  destruct (re_search r line); [|discriminate Hl]. injection Hl as <-. apply lower_idem.
Qed.
Lemma series_of_lowered a b : lowered (series_of a b).
Proof.
  unfold lowered, ids. apply Forall_map, Forall_forall. intros e. apply parse_events_lower.
Qed.

(** ** What the checks of the orchestrator establish *)

(** As many distinct frames as there are: all of them. *)
Lemma transmitted_all fm tx n :
  NoDup (map fst fm) → zlength fm = n → zlength (match_tx fm tx) = n → NoDup (map snd (match_tx fm tx)) →
  map (λ t, (t.2, t.1.2)) (match_tx fm tx) ≡ₚ fm.
Proof.
  intros Hfm Hn Ht Hd. apply submseteq_length_Permutation.
  - apply NoDup_submseteq.
    + apply (NoDup_fmap_1 fst). unfold fmap. rewrite <- list_fmap_compose. exact Hd.
    + intros [h id] Hin. apply list_elem_of_fmap in Hin as ([[ts id'] h'] & [= -> ->] & Hin).
      apply match_tx_elem in Hin as (k & _ & Hg). by apply dict_get_Some in Hg.
  - unfold zlength in *. rewrite length_map. lia.
Qed.

Lemma ack_gated_ok s n controls doc :
  ack_gated_payload s n controls = Ok doc →
  let tr := match_tx (frame_maps s) (tx_events s) in
  consistent s n tr ∧ map (λ t, t.1.2) tr ≡ₚ ids (queued s) ∧
  no_overlap (map swap (queued s)) (map swap (acked s)) (ids (sorted_events (queued s))) = Ok true ∧
  payload_of s tr n controls = Ok doc.
Proof.
  unfold ack_gated_payload. intros Hp. res_inv.
  repeat match goal with H : (_ =? _) = true |- _ => apply Z.eqb_eq in H end.
  match goal with
  | Hq : zlength (queued s) = n, Hr : zlength (received s) = n, Ha : zlength (acked s) = n,
    Hm : zlength (frame_maps s) = n, Dq : distinct (ids (queued s)) = n, Dm : distinct (map fst _) = n,
    Sr : same_set _ (ids (received s)) = true, Sa : same_set _ (ids (acked s)) = true,
    Sm : same_set _ (map snd (frame_maps s)) = true, Ht : zlength (match_tx _ _) = n,
    Dt : distinct (map snd (match_tx _ _)) = n, Hg : no_overlap _ _ _ = Ok _ |- _ =>
      rename Hq into Lq, Hr into Lr, Ha into La, Hm into Lm, Dq into Uq, Dm into Um, Sr into Er, Sa into Ea,
        Sm into Em, Ht into Lt, Dt into Ut, Hg into Gate
  end. subst x.
  rewrite distinct_full in Uq by (unfold ids; by rewrite zlength_map).
  rewrite distinct_full in Um by (by rewrite zlength_map).
  rewrite (dict_of_nodup (frame_maps s)) in Lt, Ut, Hp by done.
  rewrite distinct_full in Ut by (by rewrite zlength_map).
  apply same_set_perm in Er; [|done|unfold ids; rewrite !zlength_map; congruence].
  apply same_set_perm in Ea; [|by rewrite Er|unfold ids; rewrite !zlength_map; congruence].
  apply same_set_perm in Em; [|by rewrite Ea, Er|unfold ids; rewrite !zlength_map; congruence].
  rewrite Er in Ea. rewrite Ea in Em.
  pose proof (transmitted_all _ _ _ Um Lm Lt Ut) as Hall.
  assert (NoDup (dict_keys (map swap (queued s))) ∧ NoDup (dict_keys (map swap (acked s)))) as [N1 N2].
  { unfold dict_keys, ids in *. rewrite !map_map. cbn [swap fst]. split; [exact Uq|].
    change (NoDup (map snd (acked s))). by rewrite Ea. }
  rewrite !dict_of_nodup in Gate by done. split_and!; [split; try done| |done|done].
  - pose proof (fmap_Permutation fst _ _ Hall) as Hf. unfold fmap in Hf. rewrite <- list_fmap_compose in Hf. exact Hf.
  - pose proof (fmap_Permutation snd _ _ Hall) as Hf. unfold fmap in Hf. rewrite <- list_fmap_compose in Hf.
    rewrite <- Em. exact Hf.
Qed.

(** ** Indexing the entries of a document *)

(** An event: its message, its time and its number in the series. *)
Record stamp : Type := Stamp { s_id : string; s_ts : Z; s_seq : Z }.

(** [entry] is an event of the document. *)
Definition describes (entry : json) (t : stamp) : Prop :=
  ∃ fields, entry = JObj fields ∧ dict_get "msg_id" fields = Some (JStr (s_id t)) ∧
    dict_get "timestamp_ns" fields = Some (JInt (s_ts t)) ∧
    dict_get "sequence" fields = Some (JInt (s_seq t)) ∧ lower (s_id t) = s_id t.
(** [x] is what the index holds of it. *)
Definition holds (t : stamp) (x : string * ievent) : Prop :=
  x.1 = s_id t ∧ ie_timestamp_ns x.2 = s_ts t ∧ ie_sequence x.2 = s_seq t ∧ own_id x.2 = Ok (s_id t).

Lemma holds_keys ts d : Forall2 holds ts d → dict_keys d = map s_id ts.
Proof. unfold dict_keys. induction 1 as [|t x ts d Hx _ IH]; [done|]. cbn. rewrite IH. f_equal. apply Hx. Qed.
Lemma holds_seqs ts d : Forall2 holds ts d → map (λ x, ie_sequence x.2) d = map s_seq ts.
Proof. induction 1 as [|t x ts d Hx _ IH]; [done|]. cbn. rewrite IH. f_equal. apply Hx. Qed.

(** ** Events numbered in order *)

#[global] Instance seq_le_total : Total seq_le.
Proof. intros x y. unfold seq_le. lia. Qed.
#[global] Instance seq_le_trans : Transitive seq_le.
Proof. intros x y z. unfold seq_le. lia. Qed.

Lemma zrange_sorted lo hi : StronglySorted Z.lt (zrange lo hi).
Proof.
  unfold zrange. generalize (Z.to_nat (hi - lo)), 0%nat. intros n. induction n as [|n IH]; intros k; cbn; [constructor|].
  constructor; [apply IH|]. apply Forall_map, Forall_forall. intros i Hi. apply list_elem_of_In, in_seq in Hi. lia.
Qed.
(** A list whose numbers ascend is already sorted. *)
Lemma by_sequence_id d :
  StronglySorted Z.lt (map (λ x, ie_sequence x.2) d) → by_sequence d = d.
Proof.
  intros Hd. assert (StronglySorted seq_le d ∧ ∀ x y, x ∈ d → y ∈ d → ie_sequence x.2 = ie_sequence y.2 → x = y) as [Hs Hi].
  { induction d as [|x d IH]; cbn [map] in Hd; [split; [constructor|]; by intros ? ? ?%elem_of_nil|].
    inversion_clear Hd as [|? ? Hd' Hx]. destruct (IH Hd') as [Hs Hi]. rewrite Forall_map, Forall_forall in Hx. split.
    - constructor; [done|]. apply Forall_forall. intros y Hy. apply Hx in Hy. unfold seq_le. lia.
    - intros y z [->|Hy]%elem_of_cons [->|Hz]%elem_of_cons E; [done| | |by apply Hi].
      + apply Hx in Hz. lia.
      + apply Hx in Hy. lia. }
  apply (StronglySorted_unique_strong seq_le); [|apply StronglySorted_merge_sort; apply _|done|apply by_sequence_perm].
  intros x y Hx Hy. unfold seq_le. rewrite by_sequence_perm in Hx. intros. apply Hi; [done|done|lia].
Qed.

Section accepted.
Context (py_repr : json → string).

Lemma describes_indexed entry t :
  describes entry t → ∃ x, indexes py_repr entry x ∧ holds t x.
Proof.
  intros (d & -> & Hm & Ht & Hs & Hl). exists (s_id t, {| ie_fields := d; ie_timestamp_ns := s_ts t; ie_sequence := s_seq t |}).
  split; [split; [|done]|split_and!; [done..|]].
  - unfold event_key, jget. rewrite Hm, Ht, Hs. cbn. by rewrite Hl.
  - unfold own_id. cbn [ie_fields snd]. rewrite Hm. by rewrite Hl.
Qed.

Lemma index_described entries ts label :
  Forall2 describes entries ts → NoDup (map s_id ts) →
  ∃ d, index_events py_repr (JList entries) label = Ok d ∧ Forall2 holds ts d.
Proof.
  intros Hd Hn. assert (∃ d, Forall2 (indexes py_repr) entries d ∧ Forall2 holds ts d) as (d & H1 & H2).
  { clear Hn. induction Hd as [|e t entries ts He _ (d & H1 & H2)]; [by exists []|].
    destruct (describes_indexed e t He) as (x & Hx & Hx'). exists (x :: d). split; by constructor. }
  exists d. split; [|done]. apply index_events_ok. exists entries. split; [done|]. split; [done|].
  by rewrite (holds_keys _ _ H2).
Qed.

(** A document whose events are numbered in the order they were queued, one of each kind
    for each message, and gated, is accepted. *)
Lemma accepted name doc run_meta n q t r a :
  0 < n →
  jget_default "series_policy" JNull doc = Ok (JStr "ack-gated") →
  jget_default "series_policy" JNull run_meta = Ok (JStr "ack-gated") →
  (∃ v, jget_default "validation" (JObj []) doc = Ok v ∧ jget_default "verified_no_overlap" (JBool false) v = Ok (JBool true)) →
  jget_default "messages_requested" (JInt 0) run_meta = Ok (JInt n) →
  (∀ k l, In (k, l) [("queue", q); ("tx", t); ("rx", r); ("ack", a)] →
     ∃ es, jget_default k (JList []) doc = Ok (JList es) ∧ Forall2 describes es l ∧ NoDup (map s_id l) ∧
       map s_id l ≡ₚ map s_id q) →
  map s_seq q = zrange 1 (n + 1) →
  (∀ i x y, q !! i = Some x → q !! S i = Some y → ∃ z, z ∈ a ∧ s_id z = s_id x ∧ s_ts z <= s_ts y) →
  ∃ ix, validate_documents py_repr name doc run_meta = Ok ix.
Proof.
  intros Hn Hp1 Hp2 (v & Hv1 & Hv2) Hreq Hes Hseq Hgate.
  destruct (Hes "queue" q ltac:(set_solver)) as (eq & Eq & Fq & Nq & _).
  destruct (Hes "tx" t ltac:(set_solver)) as (et & Et & Ft & Nt & Pt).
  destruct (Hes "rx" r ltac:(set_solver)) as (er & Er & Fr & Nr & Pr).
  destruct (Hes "ack" a ltac:(set_solver)) as (ea & Ea & Fa & Na & Pa).
  destruct (index_described _ _ "QUEUE" Fq Nq) as (dq & Iq & Hq).
  destruct (index_described _ _ "TX" Ft Nt) as (dt & It & Ht).
  destruct (index_described _ _ "RX" Fr Nr) as (dr & Ir & Hr).
  destruct (index_described _ _ "ACK" Fa Na) as (da & Ia & Ha).
  exists {| ix_queue := dq; ix_tx := dt; ix_rx := dr; ix_ack := da |}.
  assert (∀ l d, Forall2 holds l d → map s_id l ≡ₚ map s_id q → dlen d = n) as Hlen.
  { intros l d Hd Hp. apply Forall2_length in Hd. apply Permutation_length in Hp. rewrite !length_map in Hp.
    pose proof (f_equal length Hseq) as Hl. unfold zrange in Hl. rewrite !length_map, length_seq in Hl. unfold dlen. lia. }
  assert (by_sequence dq = dq) as Hsort.
  { apply by_sequence_id. rewrite (holds_seqs _ _ Hq), Hseq. apply zrange_sorted. }
  unfold validate_documents. apply r_bind_ok. exists (JStr "ack-gated"). split; [done|].
  apply r_bind_ok. exists (JStr "ack-gated"). split; [done|]. apply fail_if_bind_ok. split; [done|].
  apply r_bind_ok. exists v. split; [done|]. apply r_bind_ok. exists (JBool true). split; [done|].
  apply fail_if_bind_ok. split; [done|]. apply r_bind_ok. exists n. split; [by rewrite Hreq|].
  apply fail_if_bind_ok. split; [by apply Z.leb_gt|]. apply r_bind_ok.
  exists {| ix_queue := dq; ix_tx := dt; ix_rx := dr; ix_ack := da |}. split; [apply index_all_ok; split_and!; eexists; by split|].
  cbn [ix_queue ix_tx ix_rx ix_ack]. apply fail_if_bind_ok. split.
  { rewrite (Hlen _ _ Hq), (Hlen _ _ Ht), (Hlen _ _ Hr), (Hlen _ _ Ha) by done. by rewrite !Z.eqb_refl. }
  apply fail_if_bind_ok. split.
  { apply negb_false_iff. rewrite !andb_true_iff, !same_keys_perm; rewrite ?(holds_keys _ _ Hq), ?(holds_keys _ _ Ht),
      ?(holds_keys _ _ Hr), ?(holds_keys _ _ Ha); [|done..]. rewrite Pt, Pr, Pa. done. }
  rewrite Hsort. apply fail_if_bind_ok. split.
  { apply negb_false_iff, bool_decide_eq_true. rewrite map_map, (holds_seqs _ _ Hq). done. }
  apply r_bind_ok. exists tt. split; [|done]. apply check_gating_complete.
  - apply Forall_forall. intros x Hx. split.
    + apply dict_get_Some; [by rewrite (holds_keys _ _ Hq)|by destruct x].
    + apply list_elem_of_lookup in Hx as [i Hi]. destruct (Forall2_lookup_r _ _ _ _ _ Hq Hi) as (u & _ & H1 & _ & _ & H2).
      by rewrite H1.
  - intros i x y Hx Hy. destruct (Forall2_lookup_r _ _ _ _ _ Hq Hx) as (u & Hu & U1 & _).
    destruct (Forall2_lookup_r _ _ _ _ _ Hq Hy) as (w & Hw & _ & W2 & _).
    destruct (Hgate i u w Hu Hw) as (z & Hz & Z1 & Z2). apply list_elem_of_lookup in Hz as [k Hk].
    destruct (Forall2_lookup_l _ _ _ _ _ Ha Hk) as ([m e] & Hm & M1 & M2 & _). exists e. split; [|cbn in M2; lia].
    apply dict_get_Some; [by rewrite (holds_keys _ _ Ha)|]. apply list_elem_of_lookup. exists k. cbn in M1. congruence.
Qed.
End accepted.

(** ** The document of a series *)

Lemma no_overlap_spec q a ordered i x y :
  no_overlap q a ordered = Ok true → ordered !! i = Some x → ordered !! S i = Some y →
  ∃ tq ta, dict_get y q = Some tq ∧ dict_get x a = Some ta ∧ ta <= tq.
Proof.
  revert i. induction ordered as [|u [|v ordered] IH]; intros i Hn Hx Hy; [done|by destruct i|].
  cbn [no_overlap] in Hn. unfold key in Hn.
  destruct (dict_get v q) as [tq|] eqn:Eq; [|done]. destruct (dict_get u a) as [ta|] eqn:Ea; [|done]. cbn in Hn.
  destruct (Z.ltb_spec tq ta); [done|]. destruct i as [|i]; [|by apply (IH i)].
  cbn in Hx, Hy. simplify_eq. eauto.
Qed.

Lemma swap_get (l : list (Z * string)) x ts :
  NoDup (ids l) → dict_get x (map swap l) = Some ts ↔ (ts, x) ∈ l.
Proof.
  intros Hl. rewrite dict_get_Some.
  - split.
    + intros Hin. apply list_elem_of_fmap in Hin as ([t y] & [= -> ->] & Hin). done.
    + intros Hin. apply list_elem_of_fmap. by exists (ts, x).
  - unfold dict_keys. rewrite map_map. exact Hl.
Qed.

(** The numbers of the messages, in their order. *)
Lemma numbers_in_order (l : list string) (ns : list Z) :
  NoDup l → length l = length ns → map (λ x, default 0 (dict_get x (zip l ns))) l = ns.
Proof.
  intros Hl Hn. apply list_eq. intros i.
  set (f := λ x, default 0 (dict_get x (zip l ns))). change (map f l) with (f <$> l). rewrite list_lookup_fmap. subst f.
  destruct (l !! i) as [x|] eqn:Ex; cbn.
  - assert (is_Some (ns !! i)) as [z Hz] by (apply lookup_lt_is_Some; rewrite <- Hn; by eapply lookup_lt_Some).
    rewrite Hz. assert (dict_get x (zip l ns) = Some z) as ->; [|done]. apply dict_get_Some.
    + unfold dict_keys. change (map fst ?u) with (fst <$> u). by rewrite fst_zip by lia.
    + apply list_elem_of_lookup. exists i. rewrite lookup_zip_with, Ex. cbn. by rewrite Hz.
  - apply lookup_ge_None in Ex. symmetry. apply lookup_ge_None. lia.
Qed.

Definition stamp_of (numbers : list (string * Z)) (e : Z * string) : stamp :=
  Stamp e.2 e.1 (default 0 (dict_get e.2 numbers)).

Lemma key_ok {A} k (d : list (string * A)) a : key k d = Ok a ↔ dict_get k d = Some a.
Proof. unfold key, fail. destruct (dict_get k d); cbn; split; congruence. Qed.

Lemma stamp_entries numbers es js :
  Forall (λ x, lower x = x) (ids es) → Forall2 (λ e j, stamp_entry numbers e = Ok j) es js →
  Forall2 describes js (map (stamp_of numbers) es).
Proof.
  intros Hl H2. induction H2 as [|[ts id] j es js Hj _ IH]; cbn [map]; [constructor|].
  apply Forall_cons in Hl as [Hl Hls]. constructor; [|by apply IH].
  unfold stamp_entry in Hj. apply r_bind_ok in Hj as (n & Hn & [= <-]). apply key_ok in Hn.
  eexists. split; [done|]. unfold stamp_of. cbn in Hn |- *. by rewrite Hn.
Qed.
Lemma queue_entries numbers controls es js :
  Forall (λ x, lower x = x) (ids es) → Forall2 (λ e j, queue_entry numbers controls e = Ok j) es js →
  Forall2 describes js (map (stamp_of numbers) es).
Proof.
  intros Hl H2. induction H2 as [|[ts id] j es js Hj _ IH]; cbn [map]; [constructor|].
  apply Forall_cons in Hl as [Hl Hls]. constructor; [|by apply IH].
  unfold queue_entry in Hj. apply r_bind_ok in Hj as (n & Hn & Hj). apply r_bind_ok in Hj as (x & _ & [= <-]).
  apply key_ok in Hn. eexists. split; [done|]. unfold stamp_of. cbn in Hn |- *. by rewrite Hn.
Qed.
Lemma tx_entries numbers (es : list (Z * string * string)) js :
  Forall (λ x, lower x = x) (map (λ t, t.1.2) es) → Forall2 (λ e j, tx_entry numbers e = Ok j) es js →
  Forall2 describes js (map (λ t, stamp_of numbers t.1) es).
Proof.
  intros Hl H2. induction H2 as [|[[ts id] h] j es js Hj _ IH]; cbn [map]; [constructor|].
  apply Forall_cons in Hl as [Hl Hls]. constructor; [|by apply IH].
  unfold tx_entry in Hj. apply r_bind_ok in Hj as (n & Hn & [= <-]). apply key_ok in Hn.
  eexists. split; [done|]. unfold stamp_of. cbn in Hn |- *. by rewrite Hn.
Qed.

Lemma ids_stamps numbers es : map s_id (map (stamp_of numbers) es) = ids es.
Proof. unfold ids. rewrite map_map. done. Qed.
Lemma ids_sorted es : ids (sorted_events es) ≡ₚ ids es.
Proof. unfold ids, sorted_events. apply Permutation_map, merge_sort_Permutation. Qed.
Lemma Forall_perm {A} (P : A → Prop) l l' : l ≡ₚ l' → Forall P l' → Forall P l.
Proof. intros ->. done. Qed.

Lemma stamps_numbered S :
  NoDup (ids S) → map s_seq (map (stamp_of (enumerate1 (ids S))) S) = zrange 1 (zlength S + 1).
Proof.
  intros HS. assert (zlength (ids S) = zlength S) as HL by (unfold ids; apply zlength_map).
  rewrite <- HL, <- (numbers_in_order (ids S) (zrange 1 (zlength (ids S) + 1))); [|done|].
  - unfold ids. rewrite !map_map. done.
  - unfold zrange, zlength. rewrite length_map, length_seq. lia.
Qed.
Lemma stamps_gated numbers q a i x y :
  NoDup (ids q) → ids a ≡ₚ ids q →
  no_overlap (map swap q) (map swap a) (ids (sorted_events q)) = Ok true →
  map (stamp_of numbers) (sorted_events q) !! i = Some x →
  map (stamp_of numbers) (sorted_events q) !! S i = Some y →
  ∃ z, z ∈ map (stamp_of numbers) (sorted_events a) ∧ s_id z = s_id x ∧ s_ts z <= s_ts y.
Proof.
  intros Hq Ha Hgate Hx Hy. apply list_lookup_fmap_Some in Hx as ([tx idx] & -> & Hx), Hy as ([ty idy] & -> & Hy).
  assert (ids (sorted_events q) !! i = Some idx ∧ ids (sorted_events q) !! S i = Some idy) as [Ix Iy].
  { unfold ids. split; apply list_lookup_fmap_Some; eexists; (split; [|done]); done. }
  destruct (no_overlap_spec _ _ _ _ _ _ Hgate Ix Iy) as (tq & ta & Gq & Ga & Hle).
  apply swap_get in Ga; [|by rewrite Ha].
  assert (tq = ty) as ->.
  { assert ((ty, idy) ∈ q) as Hin.
    { rewrite <- (merge_sort_Permutation event_le q). by eapply list_elem_of_lookup_2. }
    apply swap_get in Hin; [|done]. congruence. }
  exists (stamp_of numbers (ta, idx)). split; [|done]. apply list_elem_of_fmap. exists (ta, idx). split; [done|].
  unfold sorted_events. by rewrite merge_sort_Permutation.
Qed.

(** The document made of a series whose identifiers are in lower case is accepted, with
    any [run.json] that names the policy and the number of messages. *)
Lemma payload_accepted py_repr name run_meta s n controls doc :
  0 < n → lowered s → ack_gated_payload s n controls = Ok doc →
  jget_default "series_policy" JNull run_meta = Ok (JStr "ack-gated") →
  jget_default "messages_requested" (JInt 0) run_meta = Ok (JInt n) →
  ∃ ix, validate_documents py_repr name doc run_meta = Ok ix.
Proof.
  intros Hn Hlow Hp Hpol Hreq. apply ack_gated_ok in Hp as (Hc & Htx & Hgate & Hp).
  set (tr := match_tx (frame_maps s) (tx_events s)) in *. destruct Hc as [Lq Uq Pr Pa _ _ _ _].
  pose proof (ids_sorted (queued s)) as Sq. set (S := sorted_events (queued s)) in *.
  assert (NoDup (ids S)) as US by by rewrite Sq.
  unfold payload_of in Hp. fold S in Hp. rewrite dict_of_nodup in Hp; cycle 1.
  { unfold dict_keys, enumerate1. change (map fst ?u) with (fst <$> u). rewrite fst_zip; [done|].
    unfold zrange, zlength. rewrite length_map, length_seq. lia. }
  set (numbers := enumerate1 (ids S)) in *. cbv zeta in Hp.
  apply r_bind_ok in Hp as (jq & Jq & Hp). apply r_bind_ok in Hp as (jt & Jt & Hp).
  apply r_bind_ok in Hp as (jr & Jr & Hp). apply r_bind_ok in Hp as (ja & Ja & [= <-]).
  apply map_res_ok in Jq, Jt, Jr, Ja.
  apply queue_entries in Jq; [|by eapply Forall_perm]. apply stamp_entries in Jr, Ja.
  2,3: eapply Forall_perm; [rewrite ids_sorted; (exact Pr || exact Pa)|done].
  assert (map (λ t, t.1.2) (sorted_tx tr) ≡ₚ ids (queued s)) as St.
  { rewrite <- Htx. apply Permutation_map, merge_sort_Permutation. }
  apply tx_entries in Jt; [|by eapply Forall_perm].
  apply (accepted py_repr name _ run_meta n (map (stamp_of numbers) S) (map (λ t, stamp_of numbers t.1) (sorted_tx tr))
    (map (stamp_of numbers) (sorted_events (received s))) (map (stamp_of numbers) (sorted_events (acked s)))); try done.
  - eexists. split; [done|]. done.
  - assert (∀ es, ids es ≡ₚ ids (queued s) → let l := map (stamp_of numbers) es in
      NoDup (map s_id l) ∧ map s_id l ≡ₚ map s_id (map (stamp_of numbers) S)) as Hids.
    { intros es He. cbv zeta. rewrite !ids_stamps, Sq, He. done. }
    intros k l [[= <- <-]|[[= <- <-]|[[= <- <-]|[[= <- <-]|[]]]]]; eexists; (split; [done|split; [done|]]).
    + by apply Hids.
    + rewrite map_map. change (NoDup (map (λ t, t.1.2) (sorted_tx tr)) ∧
        map (λ t, t.1.2) (sorted_tx tr) ≡ₚ map s_id (map (stamp_of numbers) S)). by rewrite ids_stamps, Sq, St.
    + apply Hids. by rewrite ids_sorted.
    + apply Hids. by rewrite ids_sorted.
  - etransitivity; [exact (stamps_numbered S US)|]. f_equal. unfold zlength in *. subst S. unfold sorted_events.
    by rewrite merge_sort_Permutation, Lq.
  - intros i x y. by apply stamps_gated.
Qed.

(** ** Measuring it *)

(** The times of the message [id], queued as [qe] says, can be measured with the clock
    anchors [c]: each of the four lies in the calibrated window of its clock, and corrected
    to the host's clock they are in the order of a message that was queued, sent, received
    and acknowledged. *)
Definition in_time (c : anchors) (ix : indexed_events) (id : string) (qe : ievent) : Prop :=
  ∃ te re ae q t r a,
    dict_get id (ix_tx ix) = Some te ∧ dict_get id (ix_rx ix) = Some re ∧ dict_get id (ix_ack ix) = Some ae ∧
    correct_vm_time (ie_timestamp_ns qe) (a_pre c) (a_post c) = Ok q ∧
    correct_vm_time (ie_timestamp_ns te) (a_pre c) (a_post c) = Ok t ∧
    correct_vm_time (ie_timestamp_ns re) (b_pre c) (b_post c) = Ok r ∧
    correct_vm_time (ie_timestamp_ns ae) (a_pre c) (a_post c) = Ok a ∧
    host_ns q <= host_ns t <= host_ns r ∧ host_ns q <= host_ns a.

(** The jitter was recorded as a number. *)
Definition jittered (fields : list (string * json)) : Prop :=
  ∃ j, dict_get "prequeue_jitter_seconds" fields = Some (JFloat j).

Lemma build_row_exact mode c ix id qe :
  jittered (ie_fields qe) → (∃ row, build_row mode c ix id qe = Ok row) ↔ in_time c ix id qe.
Proof.
  intros [j Hj]. split.
  - intros [row Hr]. apply build_row_ok in Hr as (te & re & ae & q & t & r & a & Hr).
    exists te, re, ae, q, t, r, a. repeat split; apply Hr.
  - intros (te & re & ae & q & t & r & a & Ht & Hr & Ha & Cq & Ct & Cr & Ca & O1 & O2). unfold build_row.
    apply lookup_ok in Ht, Hr, Ha. rewrite Cq, Ht. cbn [mbind res_mbind r_bind]. rewrite Ct, Hr.
    cbn [mbind res_mbind r_bind]. rewrite Cr, Ha. cbn [mbind res_mbind r_bind]. rewrite Ca, Hj.
    cbn [mbind res_mbind r_bind float_of]. eexists. apply fail_if_bind_ok. split; [apply Z.ltb_ge; lia|].
    apply fail_if_bind_ok. split; [apply Z.ltb_ge; lia|]. reflexivity.
Qed.

Lemma map_res_total {A B} (f : A → res B) l : (∃ ys, map_res f l = Ok ys) ↔ Forall (λ x, ∃ y, f x = Ok y) l.
Proof.
  setoid_rewrite map_res_ok. split.
  - intros [ys H2]. induction H2; constructor; eauto.
  - induction 1 as [|x l [y Hy] _ [ys Hys]]; [by exists []|]. exists (y :: ys). by constructor.
Qed.

(** Of a series whose documents can be read, [build_rows] makes rows exactly if every
    message is in time. *)
Lemma rows_of_exact py_repr name events calibration ix c :
  index_all py_repr jget events = Ok ix → read_anchors calibration = Ok c →
  Forall (λ x, jittered (ie_fields x.2)) (ix_queue ix) →
  (∃ rows, rows_of py_repr name events calibration = Ok rows) ↔ Forall (λ x, in_time c ix x.1 x.2) (ix_queue ix).
Proof.
  intros Hix Hc Hj. unfold rows_of. rewrite Hix, Hc. cbn [mbind res_mbind r_bind].
  transitivity (Forall (λ x, in_time c ix x.1 x.2) (by_sequence (ix_queue ix))); [|by rewrite by_sequence_perm].
  rewrite <- (by_sequence_perm (ix_queue ix)) in Hj.
  transitivity (∃ rows, map_res (λ '(id, qe), build_row name c ix id qe) (by_sequence (ix_queue ix)) = Ok rows).
  - split; [intros [x Hx]; apply r_bind_ok in Hx as (rows & Hr & _); eauto|].
    intros [rows ->]. cbn. by eexists.
  - rewrite map_res_total, !Forall_forall. rewrite Forall_forall in Hj.
    split; intros Hall [id qe] Hin; specialize (Hall _ Hin); specialize (Hj _ Hin);
      by apply (build_row_exact name c ix id qe Hj).
Qed.

Lemma queue_jittered numbers controls es js :
  Forall2 (λ e j, queue_entry numbers controls e = Ok j) es js → Forall (λ j, jittered (entry_fields j)) js.
Proof.
  induction 1 as [|[ts id] j es js Hj _ IH]; constructor; [|done].
  unfold queue_entry in Hj. apply r_bind_ok in Hj as (n & _ & Hj). apply r_bind_ok in Hj as (x & _ & [= <-]).
  by exists x.
Qed.

(** The document made of a series: with a calibration that can be read, the measured times
    alone decide whether it can be analysed. *)
Lemma payload_measured py_repr name run_meta s n controls doc calibration c ix :
  ack_gated_payload s n controls = Ok doc → read_anchors calibration = Ok c →
  validate_documents py_repr name doc run_meta = Ok ix →
  (∃ rows, rows_of py_repr name doc calibration = Ok rows) ↔ Forall (λ x, in_time c ix x.1 x.2) (ix_queue ix).
Proof.
  intros (_ & _ & _ & Hp)%ack_gated_ok Hc Hv. apply validate_documents_sound in Hv as (m & _ & _ & _ & Hix).
  apply rows_of_exact; [done..|]. apply index_all_ok in Hix as [(v & Hv & Hi) _].
  apply index_events_ok in Hi as (l & Hl & H2 & _). unfold payload_of in Hp. cbv zeta in Hp.
  apply r_bind_ok in Hp as (jq & Jq & Hp). apply r_bind_ok in Hp as (jt & _ & Hp).
  apply r_bind_ok in Hp as (jr & _ & Hp). apply r_bind_ok in Hp as (ja & _ & [= <-]).
  apply map_res_ok, queue_jittered in Jq. injection Hv as <-. injection Hl as <-.
  induction H2 as [|e x l d [_ Hf] _ IH]; [constructor|]. apply Forall_cons in Jq as [Je Jq].
  constructor; [by rewrite Hf|by apply IH].
Qed.
