(* ===== verification/Bench.v ===== *)
(** * A simulated testbed, for evaluating the benchmarks

    A relay that greets, a Tor node whose control port answers, two guests that answer the
    commands BT-05 and BT-06 send; what is not a console or the monitor is the loopback
    host's (Loopback.v).  It satisfies the laws of the clock, of consoles and of peers that
    speak in lines, as the loopback host does. *)

From Stdlib Require Import Ascii ZArith QArith Lia Lqa.
From Stdlib Require Import Strings.Byte.
From stdpp Require Import base list strings sets.
From S2P Require Import Prelude PyNum PyText Host Json Loopback Wire Console Events AuthTest Waiting.

Open Scope Z_scope.

(** ** The loopback host *)

Lemma take_line_shorter l : l ≠ [] → (length (take_line l).2 < length l)%nat.
Proof.
  induction l as [|b l IH]; [done|]. intros _. cbn [take_line].
  destruct b; try (cbn; lia); destruct (take_line l) as [x y] eqn:E; cbn in *.
  all: destruct l; [by injection E as <- <-; cbn; lia|]; specialize (IH ltac:(done)); cbn in *; lia.
Qed.
#[global] Instance loopback_lines : LineStream lw.
Proof.
  refine {| unread := λ w s, length (sends (boxes w s)) |}. intros w s b w' Hr Hb. cbn in Hr. unfold lw_readline in Hr.
  destruct (take_line (sends (boxes w s))) as [x y] eqn:E. injection Hr as <- <-. cbn. unfold upd.
  rewrite Nat.eqb_refl. cbn. pose proof (take_line_shorter (sends (boxes w s))) as Hs. rewrite E in Hs. apply Hs.
  intros E'. rewrite E' in E. by injection E as <- <-.
Defined.
#[global] Instance loopback_prompts : Prompts lw.
Proof.
  refine {| prompt_time := console_delay |}; [reflexivity|]. intros c ps t w i w' [= <- <-]. cbn. lra.
Defined.

(** ** The testbed *)

(** The last command typed, the number of commands typed and of messages sent so far; what
    is not a console is the loopback host's. *)
Record bench : Type := Bench { inner : lw; typed : string; ticks : Z; sent : Z }.

Definition WALL : Z := 10 ^ 18.
Definition ONION : string := repeat_str 56 "a".
Definition MNEMONIC : string := join "-" (replicate 24 "word").
Definition CONTACTS : string :=
  replace "'" dq "{'contacts': [{'alias': 'bob', 'initialPfsComplete': true}, {'alias': 'alice', 'initialPfsComplete': true}]}".

(** The lines of message [i], 400 ns apart. *)
Definition message_lines (i : Z) : list string :=
  let t := WALL + 36000 + 400 * i in let id := "a" +:+ str_Z i in let h := "f" +:+ str_Z i in
  ["[info] BT05_EVENT QUEUE timestamp_ns=" +:+ str_Z t +:+ " msg_id=" +:+ id;
   "[info] BT06_EVENT MAP frame_hash=" +:+ h +:+ " msg_id=" +:+ id;
   "[info] BT06_EVENT TX timestamp_ns=" +:+ str_Z (t + 100) +:+ " action=1 bytes=512 frame_hash=" +:+ h;
   "[info] BT05_EVENT RX timestamp_ns=" +:+ str_Z (t + 200) +:+ " msg_id=" +:+ id;
   "[info] BT05_EVENT ACK timestamp_ns=" +:+ str_Z (t + 300) +:+ " msg_id=" +:+ id].

(** What the monitor of the Tor node reads between two polls: the traffic of a relay
    connection, of a local one, and a line of another kind. *)
Definition CONNECTIONS : list read_item :=
  [RLine WALL (encode "650 CONN_BW ID=7 TYPE=OR READ=1500 WRITTEN=900" ++ [x0d; x0a]);
   RLine WALL (encode "650 CONN_BW ID=8 TYPE=AP READ=70 WRITTEN=80" ++ [x0d; x0a]);
   RLine WALL (encode "650 BW 1570 980" ++ [x0d; x0a]);
   RLine WALL (encode "650 CONN_BW ID=9 TYPE=OR READ=20 WRITTEN=4" ++ [x0d; x0a])].

Definition client_log (b : bench) : list string := map message_lines (zrange 1 (sent b + 1)) ≫= id.
Definition MARKERS : list string :=
  ["BT05_EVENT QUEUE"; "BT05_EVENT RX"; "BT05_EVENT ACK"; "BT06_EVENT MAP"; "BT06_EVENT TX"].

(** What the guest prints. *)
Definition guest (b : bench) : string :=
  let c := typed b in
  if contains "grep -F -- " c then "[info] BT06_EVENT CLOCK timestamp_ns=" +:+ str_Z (wall (around (inner b)) - 500)
  else if contains "grep -Fc -- 'BT0" c then str_Z (sent b)
  else if contains "grep -Fc -- " c then str_Z (ticks b)
  else if contains "grep -Eo " c then ONION
  else if contains "tail -n 100 " c then MNEMONIC
  else if contains "cat /etc/blank-chat/contacts.json" c then CONTACTS
  else if contains "cat /tmp/bt05_client.log" c then join nl (client_log b)
  else if contains "grep 'BT0" c
  then join nl (filter (λ line, existsb (λ m, contains m c && contains m line) MARKERS = true) (client_log b))
  else EmptyString.

Definition on_inner {A} (b : bench) (r : (A + exn) * lw) : (A + exn) * bench :=
  (r.1, Bench r.2 (typed b) (ticks b) (sent b)).
(** A client that starts has an empty log. *)
Definition typed_text (text : string) (b : bench) : bench :=
  Bench (inner b) text (ticks b + 1)
    (if contains "rm -f /etc/blank-chat/identity.json" text then 0
     else if contains "send bob " text then sent b + 1 else sent b).
#[global] Instance bench_host : Host bench := λ A e b,
  match e in eff A return (A + exn) * bench with
  | ESend _ text => (inl tt, typed_text text b)
  | EExpect _ pattern _ =>
      (inl (if starts_with "__BC_END" pattern then (guest b, ["0"]) else (EmptyString, [])),
       Bench (advance console_delay (inner b)) (typed b) (ticks b) (sent b))
  | EExists _ => (inl true, b)
  | EIterdir _ => (inl ["000ar"; "008c"], b)
  | EReadText _ => (inl (join nl ["SocksPort 9008"; "ControlPort 8008"]), b)
  | EReaderThread _ => (inl CONNECTIONS, b)
  | EStat _ => (inl (Stat 0 0 4096), b)
  | EStdoutLines _ => (inl ["512" +:+ nl; "60" +:+ nl], b)
  | e' => on_inner b (handle e' (inner b))
  end.
#[global] Instance bench_clock : Clock bench.
Proof.
  refine {| now := λ b, clk (inner b) |}.
  - intros A e [w c t s]. destruct e.
    all: lazymatch goal with
         | |- context [handle (ESend _ _)] => apply Qle_refl
         | |- context [handle (EExists _)] => apply Qle_refl
         | |- context [handle (EIterdir _)] => apply Qle_refl
         | |- context [handle (EReadText _)] => apply Qle_refl
         | |- context [handle (EReaderThread _)] => apply Qle_refl
         | |- context [handle (EStat _)] => apply Qle_refl
         | |- context [handle (EStdoutLines _)] => apply Qle_refl
         | |- context [handle (EExpect _ _ _)] => cbn; unfold console_delay; lra
         | |- context [handle ?e] => exact (now_mono _ e w)
         end.
  - intros [w c t s] x [w' c' t' s'] [= <- <-]. cbn. lra.
  - intros d [w c t s] [w' c' t' s'] [= <- _ _ _]. exact (now_sleep d w _ eq_refl).
Defined.


#[global] Instance bench_lines : LineStream bench.
Proof.
  refine {| unread := λ b s, unread (inner b) s |}. intros [w c t n] s x [w' c' t' n'] Hr Hx.
  change (on_inner (Bench w c t n) (lw_readline s w) = (inl x, Bench w' c' t' n')) in Hr. unfold on_inner in Hr.
  destruct (lw_readline s w) as [o w1] eqn:E. injection Hr as -> -> _ _ _. by apply (readline_law (W:=lw) w s x w').
Defined.
#[global] Instance bench_prompts : Prompts bench.
Proof.
  refine {| prompt_time := console_delay |}; [reflexivity|]. intros c ps t [w x k n] i [w' x' k' n'] [= <- <- _ _ _]. cbn. lra.
Defined.

(** The relay accepts the proxy's request and greets with a challenge. *)
Definition relay : peer := Peer (socks_accepts ++ challenge_frame) false.
(** Every machine has a lease; the other programs succeed. *)
Definition programs (argv : list string) : completed :=
  Completed 0 (if bool_decide ("domifaddr" ∈ argv) then "vnet0 52:54:00:00:00:01 ipv4 192.168.122.10/24" else EmptyString)
    EmptyString.
