(* ===== verification/Bt06.v ===== *)
(** * BT-06/orchestrator.py: the latency benchmark

    One series of messages in which each message is sent after the one before it was
    acknowledged ([run_ack_gated_series]), a mode with its files ([run_mode]) and the whole
    run ([main]).  The helpers of BT-05 are those of Console.v and Calibration.v.  The
    dictionary of an object's attributes stands for a [ModeRun]; the locals that a
    [finally] reads are kept beside the host's state. *)

From Stdlib Require Import Ascii ZArith QArith Qabs Lia Lqa.
From stdpp Require Import base list strings sorting sets.
From S2P Require Import Prelude PyNum Mersenne PyText Host Json Console Events Calibration Latency Waiting Testbed Series.

Open Scope Z_scope.

Definition DEFAULT_MESSAGES : Z := 1000.
Definition DEFAULT_MESSAGE_SIZE : Z := 150.
Definition DEFAULT_CBR_INTERVAL_MS : Z := 10000.
Definition DEFAULT_POISSON_LAMBDA : Q := fl (1 # 10).
Definition DEFAULT_PHASE_JITTER_SEED : Z := 260925.

(** ** The messages *)

Definition exact_payload (sequence size : Z) : res string :=
  let prefix := "BT06_MSG_" in
  let seq := zfill 6 (Z.to_nat sequence) in
  let filler_len := size - Z.of_nat (String.length prefix) - Z.of_nat (String.length seq) - 1 in
  fail_if (filler_len <? 1) Bt06Error "Message size is too small for BT-06 sequence payload";;
  mret (prefix +:+ seq +:+ "_" +:+ repeat_str (Z.to_nat filler_len) "X").

(** The arguments, as [parse_args] returns them. *)
Record bt06_args : Type := {
  a_mode : string; a_messages : Z; a_message_size : Z; a_cbr_interval_ms : Z; a_poisson_lambda : Q;
  a_phase_jitter_seed : Z; a_per_message_timeout_seconds : Q; a_progress_every : Z;
  a_skip_analysis : bool; a_keep_environment : bool }.

(** The checks of [parse_args] after the parser: the message [p.error] gets. *)
Definition args_error (a : bt06_args) : option string :=
  if negb ((1 <=? a_messages a) && (a_messages a <=? 999999)) then Some "--messages must be in [1, 999999]"
  else if a_message_size a <? 32 then Some "--message-size must be >= 32"
  else if (a_cbr_interval_ms a <=? 0) || Qle_bool (a_poisson_lambda a) 0 then Some "scheduler parameters must be > 0"
  else if Qle_bool (a_per_message_timeout_seconds a) 0 || (a_progress_every a <=? 0)
  then Some "timeout/progress parameters must be > 0"
  else None.

(** [cbr_interval_ms / 1000.0 if mode == "cbr" else 1.0 / poisson_lambda] *)
Definition mean_tick (mode : string) (a : bt06_args) : Q :=
  if bool_decide (mode = "cbr") then fdiv (fint (a_cbr_interval_ms a)) 1000 else fdiv 1 (a_poisson_lambda a).

(** The seed of a mode's generator. *)
Definition phase_rng (mode : string) (seed : Z) : mt_state :=
  mt_seed (seed + (if bool_decide (mode = "cbr") then 0 else 1000003)).

(** ** Run metadata *)

(** [ModeRun(started_at=..., ...)] *)
Definition ModeRun (started_at mode commit : string) (dirty : bool) (a : bt06_args)
  (client_a_ip client_b_ip server_ip : string) : list (string * json) :=
  [("started_at", JStr started_at); ("finished_at", JStr EmptyString); ("mode", JStr mode);
   ("commit", JStr commit); ("dirty_worktree", JBool dirty); ("messages_requested", JInt (a_messages a));
   ("message_size", JInt (a_message_size a)); ("cbr_interval_ms", JInt (a_cbr_interval_ms a));
   ("poisson_lambda", JFloat (a_poisson_lambda a)); ("phase_jitter_seed", JInt (a_phase_jitter_seed a));
   ("phase_window_seconds", JFloat (mean_tick mode a)); ("series_policy", JStr "ack-gated");
   ("client_a_ip", JStr client_a_ip); ("client_b_ip", JStr client_b_ip); ("server_ip", JStr server_ip);
   ("onion", JStr EmptyString); ("messages_completed", JInt 0); ("queue_events", JInt 0);
   ("tx_events", JInt 0); ("rx_events", JInt 0); ("ack_events", JInt 0); ("unique_message_ids", JInt 0);
   ("verified_no_overlap", JBool false); ("duration_seconds", JFloat 0); ("result", JStr "incomplete")].

(** What the [finally] of [run_mode] reads: the metadata and the two parts of the
    calibration. *)
Record mode_locals : Type := MLoc {
  run_meta : list (string * json); cal_pre : list (string * json); cal_post : list (string * json) }.
Definition set_meta (k : string) (v : json) (l : mode_locals) : mode_locals :=
  MLoc (dict_set k v (run_meta l)) (cal_pre l) (cal_post l).
Definition set_pre (k : string) (v : json) (l : mode_locals) : mode_locals :=
  MLoc (run_meta l) (dict_set k v (cal_pre l)) (cal_post l).
Definition set_post (k : string) (v : json) (l : mode_locals) : mode_locals :=
  MLoc (run_meta l) (cal_pre l) (dict_set k v (cal_post l)).

Definition METHOD : string :=
  "Each endpoint is sampled against the same host wall clock before and after the measured series; BT-06 linearly interpolates VM-minus-host offset between minimum-RTT calibration samples.".
Definition calibration_doc (l : mode_locals) : json :=
  JObj [("method", JStr METHOD); ("samples_per_point", JInt 9); ("pre", JObj (cal_pre l)); ("post", JObj (cal_post l))].

Section orchestrator.
Context {W : Type} `{Host W} (PROJECT_ROOT sys_executable : string).
(** [f"{x}"] of a float *)
Context (float_repr : Q → string).

Definition RESULTS_DIR : path := joinpath (BENCHMARKS_DIR PROJECT_ROOT) "results/BT-06".
Definition BT06_ANALYZE : path := joinpath (BENCHMARKS_DIR PROJECT_ROOT) "BT-06/analyze.py".

Definition bt06_require_dependencies : M (hst W) unit :=
  missing ← missing_programs ["virsh"; "virt-install"; "qemu-img"; "socat"; "sudo"; "iptables"; "pkill"];
  raise_if (negb (bool_decide (missing = []))) Bt06Error ("Missing host dependencies: " +:+ join ", " missing);;
  require_files Bt06Error [VM_MANAGER PROJECT_ROOT; CHUTNEY_MANAGER PROJECT_ROOT; BT06_ANALYZE].

Definition bt06_assert_diagnostics (child : pid) (vm_name : string) : M (hst W) unit :=
  assert_diagnostics Bt06Error
    " does not contain required BT-06 diagnostics. Run './benchmarks/BT-06/run.sh --prepare --messages 20 --cbr-interval-ms 1000 --poisson-lambda 1.0' first."
    child vm_name.

Definition wait_for_ack_increment (child : pid) (before : Z) (timeout : Q) : M (hst W) unit :=
  try_except (wait_client_log_count child "BT05_EVENT ACK" (before + 1) timeout)
    (except [Exception_] (λ _,
       throw Bt06Error ("Timed out waiting for ACK after " +:+ fmt_fixed 1 timeout +:+ "s"))).

(** One message of the series. *)
Definition series_step (sender receiver : ClientHandle) (mode : string) (a : bt06_args) (series_start : Q)
  (sequence : Z) (acc : list control * mt_state) : M (hst W) (list control * mt_state) :=
  let '(controls, rng) := acc in
  let '(x, rng) := mt_random rng in
  let jitter_s := fmul x (mean_tick mode a) in
  sleep jitter_s;;
  queue_before ← client_log_count (console sender) "BT05_EVENT QUEUE";
  ack_before ← client_log_count (console sender) "BT05_EVENT ACK";
  payload ← of_res (exact_payload sequence (a_message_size a));
  client_command (console sender) ("send " +:+ peer_alias sender +:+ " " +:+ payload);;
  wait_client_log_count (console sender) "BT05_EVENT QUEUE" (queue_before + 1)
    (Qmin_py 60 (a_per_message_timeout_seconds a));;
  wait_for_ack_increment (console sender) ack_before (a_per_message_timeout_seconds a);;
  (if (sequence =? 1) || (sequence =? a_messages a) || (sequence mod a_progress_every a =? 0) then
     t ← monotonic;
     info ("Progress: " +:+ str_Z sequence +:+ "/" +:+ str_Z (a_messages a) +:+ " ACKed, elapsed="
             +:+ fmt_fixed 1 (fdiv (fsub t series_start) 60) +:+ " min")
   else mret tt);;
  la ← client_alive (console sender);
  lb ← (if la : bool then client_alive (console receiver) else mret false);
  raise_if (negb lb) Bt06Error "A client exited during the ACK-gated series";;
  mret (controls ++ [{| c_sequence := sequence; c_jitter := jitter_s |}], rng).

Definition run_ack_gated_series (sender receiver : ClientHandle) (mode : string) (a : bt06_args)
  : M (hst W) (list control) :=
  series_start ← monotonic;
  info ("Running ACK-gated BT-06 series: " +:+ str_Z (a_messages a) +:+ " messages, mode=" +:+ mode
          +:+ ", phase window=[0," +:+ fmt_fixed 3 (mean_tick mode a) +:+ ")s");;
  r ← for_acc (zrange 1 (a_messages a + 1)) (series_step sender receiver mode a series_start)
        ([], phase_rng mode (a_phase_jitter_seed a));
  ok ("ACK-gated series complete: " +:+ str_Z (a_messages a) +:+ "/" +:+ str_Z (a_messages a));;
  mret r.1.

Definition save_log (mode_dir : path) (name who : string) (child : pid) (remote : string) : M (hst W) unit :=
  try_except (text ← remote_cat child remote; call (EWriteText (joinpath mode_dir name) text))
    (except [Exception_] (λ exc, warn ("Could not collect " +:+ who +:+ " log: " +:+ ex_msg exc))).
Definition write_mode_logs (mode_dir : path) (sender receiver : ClientHandle) (server_console : pid)
  : M (hst W) unit :=
  save_log mode_dir "client_a.log" "client A" (console sender) REMOTE_CLIENT_LOG;;
  save_log mode_dir "client_b.log" "client B" (console receiver) REMOTE_CLIENT_LOG;;
  save_log mode_dir "server.log" "server" server_console REMOTE_SERVER_LOG.

(** ** One mode *)

Definition LM : Type → Type := M (mode_locals * hst W).

(** What [run_mode] is given beside the arguments. *)
Record mode_setup : Type := {
  s_mode : string; s_commit : string; s_dirty : bool; s_server_ip : string; s_client_a_ip : string;
  s_client_b_ip : string; s_socks_port : Z; s_server_console : pid; s_client_a_console : pid;
  s_client_b_console : pid; s_mode_dir : path }.

Definition sender_of (s : mode_setup) : ClientHandle := handle_a (s_client_a_console s).
Definition receiver_of (s : mode_setup) : ClientHandle := handle_b (s_client_b_console s).

Definition unexpected_events (s : mode_setup) : M (hst W) unit :=
  for_unit [("BT05_EVENT QUEUE", s_client_a_console s); ("BT05_EVENT RX", s_client_b_console s);
            ("BT05_EVENT ACK", s_client_a_console s); ("BT06_EVENT MAP", s_client_a_console s)]
    (λ '(marker, child),
       c ← client_log_count child marker;
       raise_if (negb (c =? 0)) Bt06Error ("Unexpected pre-measurement diagnostic event: " +:+ marker)).

(** The part of the [try] up to the measured series. *)
Definition connect_mode (s : mode_setup) (a : bt06_args) : LM unit :=
  connect_clients float_repr (λ onion, set_meta "onion" (JStr onion)) (s_server_console s) (s_client_a_console s)
    (s_client_b_console s) (s_socks_port s) 180 (s_mode s) (a_cbr_interval_ms a) (a_poisson_lambda a).

Definition calibrate_mode (s : mode_setup) (set : string → json → mode_locals → mode_locals) : LM unit :=
  ca ← lift (calibrate_vm_clock (s_client_a_console s) CLIENT_A_VM 9);
  set_local (set "client_a" (calibration_json ca));;
  cb ← lift (calibrate_vm_clock (s_client_b_console s) CLIENT_B_VM 9);
  set_local (set "client_b" (calibration_json cb)).

Definition events_file (s : mode_setup) : path := joinpath (s_mode_dir s) "message_events.json".
Definition calibration_file (s : mode_setup) : path := joinpath (s_mode_dir s) "clock_calibration.json".
Definition run_file (s : mode_setup) : path := joinpath (s_mode_dir s) "run.json".

Definition write_calibration (s : mode_setup) : LM unit :=
  l ← get_local; lift (call (EWriteJson (calibration_file s) (calibration_doc l))).

(** [run_meta.<name> = validation["<key>"]] *)
Definition copy_count (validation : json) (name key : string) : LM unit :=
  v ← of_res (jget key validation); set_local (set_meta name v).

Definition record_passed (a : bt06_args) (events : json) : LM unit :=
  validation ← of_res (jget "validation" events);
  set_local (set_meta "messages_completed" (JInt (a_messages a)));;
  copy_count validation "queue_events" "queue";;
  copy_count validation "tx_events" "tx";;
  copy_count validation "rx_events" "rx";;
  copy_count validation "ack_events" "ack";;
  copy_count validation "unique_message_ids" "unique_message_ids";;
  v ← of_res (jget "verified_no_overlap" validation);
  set_local (set_meta "verified_no_overlap" (JBool (truthy v)));;
  set_local (set_meta "result" (JStr "passed")).

(** The [try] of [run_mode]. *)
Definition mode_body (s : mode_setup) (a : bt06_args) : LM unit :=
  connect_mode s a;;
  lift (info "Calibrating VM clocks against the host before the measured series...");;
  calibrate_mode s set_pre;;
  lift (unexpected_events s);;
  controls ← lift (run_ack_gated_series (sender_of s) (receiver_of s) (s_mode s) a);
  lift (info "Calibrating VM clocks against the host after the measured series...");;
  calibrate_mode s set_post;;
  events ← lift (collect_and_validate_events (sender_of s) (receiver_of s) (a_messages a) controls);
  lift (call (EWriteJson (events_file s) events));;
  write_calibration s;;
  record_passed a events;;
  lift (ok "QUEUE/TX/RX/ACK sets agree and ACK-gating invariant is verified").

(** The [finally] of [run_mode]. *)
Definition mode_finally (s : mode_setup) (started : Q) : LM unit :=
  finished_at ← lift (call EIsoNow);
  set_local (set_meta "finished_at" (JStr finished_at));;
  t ← lift monotonic;
  set_local (set_meta "duration_seconds" (JFloat (fsub t started)));;
  lift (write_mode_logs (s_mode_dir s) (sender_of s) (receiver_of s) (s_server_console s));;
  write_calibration s;;
  l ← get_local;
  lift (call (EWriteJson (run_file s) (JObj (run_meta l))));;
  lift (stop_all (s_server_console s) (s_client_a_console s) (s_client_b_console s)).

Definition run_mode (s : mode_setup) (a : bt06_args) : M (hst W) unit :=
  call (EMkdir (s_mode_dir s));;
  info ("=== BT-06 mode: " +:+ s_mode s +:+ " (" +:+ str_Z (a_messages a) +:+ " x " +:+ str_Z (a_message_size a)
          +:+ " B, ACK-gated) ===");;
  started_at ← call EIsoNow;
  started ← monotonic;
  with_locals
    (MLoc (ModeRun started_at (s_mode s) (s_commit s) (s_dirty s) a (s_client_a_ip s) (s_client_b_ip s) (s_server_ip s)) [] [])
    (try_finally (mode_body s a) (mode_finally s started)).

(** ** The run *)

(** The two forms of the suite's document. *)
Definition suite_doc (full : bool) (stamp created commit : string) (dirty : bool) (modes : list string)
  (a : bt06_args) (l : main_locals) : json :=
  JObj ([("started_at", JStr stamp); ("created_at", JStr created); ("commit", JStr commit);
         ("dirty_worktree", JBool dirty); ("series_policy", JStr "ack-gated")] ++
        (if full then
           [("primary_latency_definition", JStr "QUEUE(sender) -> RX(receiver)");
            ("decomposition", JList [JStr "QUEUE->TX"; JStr "TX->RX"]);
            ("phase_randomization", JStr "Uniform[0, mean scheduler interval), applied before QUEUE and excluded from latency");
            ("phase_jitter_seed", JInt (a_phase_jitter_seed a))]
         else []) ++
        [("modes_requested", JList (map JStr modes)); ("completed", JList (map JStr (completed_modes l)));
         ("messages", JInt (a_messages a)); ("message_size", JInt (a_message_size a));
         ("cbr_interval_ms", JInt (a_cbr_interval_ms a)); ("poisson_lambda", JFloat (a_poisson_lambda a));
         ("result", JStr (suite_result l))]).

Definition write_suite (full : bool) (root stamp commit : string) (dirty : bool) (modes : list string) (a : bt06_args)
  : GM (W:=W) unit :=
  created ← lift (call EIsoNow);
  l ← get_local;
  lift (call (EWriteJson (joinpath root "suite_run.json") (suite_doc full stamp created commit dirty modes a l))).

Definition setup_of (mode commit : string) (dirty : bool) (t : testbed) (root : string) : mode_setup :=
  {| s_mode := mode; s_commit := commit; s_dirty := dirty; s_server_ip := t_server_ip t;
     s_client_a_ip := t_client_a_ip t; s_client_b_ip := t_client_b_ip t; s_socks_port := node_socks_port (t_client_tor t);
     s_server_console := t_server t; s_client_a_console := t_client_a t; s_client_b_console := t_client_b t;
     s_mode_dir := joinpath root mode |}.

(** The [try] of [main]. *)
Definition main_try (a : bt06_args) (root stamp commit : string) (dirty : bool) (modes : list string) : GM Z :=
  t ← bring_up PROJECT_ROOT sys_executable bt06_require_dependencies bt06_assert_diagnostics root;
  for_unit modes (λ mode,
    lift (run_mode (setup_of mode commit dirty t root) a);;
    set_local (add_completed mode));;
  set_local (set_suite "passed");;
  write_suite true root stamp commit dirty modes a;;
  (if negb (a_skip_analysis a) && both_modes modes then
     proc ← lift (call (ERun [sys_executable; BT06_ANALYZE; root] None));
     raise_if (negb (returncode proc =? 0)) Bt06Error ("BT-06 analysis exited with code " +:+ str_Z (returncode proc))
   else mret tt);;
  lift (print (nl +:+ "BT-06 functional execution: PASS"));;
  lift (print "[i] PASS validates experiment integrity; latency values themselves are experimental observations.");;
  mret 0.

(** Its [finally]. *)
Definition main_finally (a : bt06_args) (root stamp commit : string) (dirty : bool) (modes : list string) : GM unit :=
  there ← lift (call (EExists (joinpath root "suite_run.json")));
  (if negb there then write_suite false root stamp commit dirty modes a else mret tt);;
  tear_down PROJECT_ROOT (a_keep_environment a) root.

Definition main_run (a : bt06_args) (root stamp commit : string) (dirty : bool) (modes : list string) : GM Z :=
  try_finally
    (try_except (main_try a root stamp commit dirty modes)
       (λ exc,
          if isinstance exc KeyboardInterrupt then Some (set_local (set_suite "interrupted");; mret 130)
          else if isinstance exc Exception_ then Some (lift (warn (ex_msg exc));; mret 1)
          else None))
    (main_finally a root stamp commit dirty modes).

Definition modes_of (a : bt06_args) : list string := modes_named (a_mode a).

(** [main] after [parse_args] *)
Definition bt06_main (a : bt06_args) : M (hst W) Z :=
  b ← begin_run RESULTS_DIR;
  let '(stamp, root, commit, dirty) := b in
  with_locals no_locals (main_run a root stamp commit dirty (modes_of a)).
End orchestrator.

(** ** A series and a mode end *)

Section ends.
Context {W : Type} `{Clock W}.

Lemma exact_payload_ends n size : exact_payload n size ≠ NoFuel.
Proof. unfold exact_payload. ends_tac. Qed.
Lemma no_overlap_ends q a l : no_overlap q a l ≠ NoFuel.
Proof.
  induction l as [|x [|y l] IH]; [done|done|]. cbn [no_overlap]. unfold key.
  destruct (dict_get y q) as [tq|]; [|done]. destruct (dict_get x a) as [ta|]; [|done]. cbn.
  destruct (tq <? ta); [done|]. exact IH.
Qed.
Lemma ack_gated_payload_ends s n controls : ack_gated_payload s n controls ≠ NoFuel.
Proof.
  unfold ack_gated_payload, payload_of. ends_tac; try apply no_overlap_ends.
  all: unfold queue_entry, tx_entry, stamp_entry, jitter_of, key; ends_tac.
Qed.

Hint Resolve exact_payload_ends ack_gated_payload_ends : py.

Lemma run_mode_total float_repr s a : total (run_mode float_repr s a : M (hst W) unit).
Proof. total_wait. Qed.
Hint Resolve run_mode_total : py.
Lemma bt06_main_total `{!Prompts W} PROJECT_ROOT sys_executable float_repr a :
  total (bt06_main PROJECT_ROOT sys_executable float_repr a : M (hst W) Z).
Proof. total_wait. Qed.
Lemma run_ack_gated_series_total sender receiver mode a :
  total (run_ack_gated_series sender receiver mode a : M (hst W) (list control)).
Proof. total_wait. Qed.
End ends.
