(* ===== verification/Pacing.v ===== *)
(** * BT-06: the calls of an ACK-gated series

    What [run_ack_gated_series] does on the consoles of the two clients, as a predicate on
    the sequence of calls: for each message a wait, the counts before it, the message
    itself and the counts after it.  A message is sent only after the acknowledgement of
    the one before was seen. *)

From Stdlib Require Import Ascii ZArith QArith Lia.
From stdpp Require Import base list strings.
From S2P Require Import Prelude PyNum PyText Host Json Console Events Mersenne Bt06.

Open Scope Z_scope.

(** ** Exchanges on a console *)

(** One command at the shell's prompt: what it printed and its status. *)
Definition exchange (child : pid) (command output : string) (rc : Z) (l : list event) : Prop :=
  ∃ token t o1 before caps o2,
    l = [Ev EUuidHex (inl token);
         Ev (ESend child (wrap_command token command +:+ chr 13 +:+ chr 10)) (inl tt);
         Ev (EExpect child (begin_marker token) t) (inl o1);
         Ev (EExpect child (end_marker token +:+ ":(\d+)") t) (inl (before, caps));
         Ev (EExpect child PROMPT_RE 10) (inl o2)] ∧
    output = strip (replace (chr 13) EmptyString before) ∧ rc = group_int 1 caps.

(** The lines of the client's log with the marker are counted. *)
Definition count_command (marker : string) : string :=
  "grep -Fc -- '" +:+ marker +:+ "' /tmp/bt05_client.log 2>/dev/null || true".
Definition reads (child : pid) (marker : string) (count : Z) (l : list event) : Prop :=
  ∃ output rc, exchange child (count_command marker) output rc l ∧ count = last_line_count output.
(** The client's process is there. *)
Definition alive_command : string := "kill -0 $(cat /tmp/bt05_client.pid 2>/dev/null) 2>/dev/null".
Definition alive (child : pid) (l : list event) : Prop := ∃ output, exchange child alive_command output 0 l.
(** The client is given a line, and the shell says that it took it. *)
Definition tells (child : pid) (line : string) (l : list event) : Prop :=
  ∃ output, exchange child ("printf '%s\n' " +:+ shlex_quote line +:+ " >&3") output 0 l.

(** A call that gives the clients nothing: what is typed is one of the two questions. *)
Definition question (command : string) : Prop :=
  command = alive_command ∨ ∃ marker, command = count_command marker.
Definition only_asks (ev : event) : Prop :=
  match ev_eff ev with
  | ESend _ text => ∃ token command, question command ∧ text = wrap_command token command +:+ chr 13 +:+ chr 10
  | _ => True
  end.

(** Questions, until a count of at least [minimum]. *)
Definition awaits (child : pid) (marker : string) (minimum : Z) (l : list event) : Prop :=
  ∃ l1 l2 count, l = l1 ++ l2 ∧ Forall only_asks l1 ∧ reads child marker count l2 ∧ minimum <= count.

(** ** The calls for one message *)

(** First the wait; then the events so far are counted, the message is given to the sender,
    and there are questions until one more message is queued and one more acknowledged;
    at last both clients are found alive. *)
Definition paced (sender receiver : ClientHandle) (size : Z) (c : control) (l : list event) : Prop :=
  ∃ payload queued acked l1 l2 l3 l4 l5 l6 l7 l8,
    l = [Ev (ESleep (c_jitter c)) (inl tt)] ++ l1 ++ l2 ++ l3 ++ l4 ++ l5 ++ l6 ++ l7 ++ l8 ∧
    reads (console sender) "BT05_EVENT QUEUE" queued l1 ∧ reads (console sender) "BT05_EVENT ACK" acked l2 ∧
    exact_payload (c_sequence c) size = Ok payload ∧
    tells (console sender) ("send " +:+ peer_alias sender +:+ " " +:+ payload) l3 ∧
    awaits (console sender) "BT05_EVENT QUEUE" (queued + 1) l4 ∧
    awaits (console sender) "BT05_EVENT ACK" (acked + 1) l5 ∧
    Forall only_asks l6 ∧ alive (console sender) l7 ∧ alive (console receiver) l8.

(** The calls of a series: those for its messages, one after the other, with nothing given to
    the clients before or after. *)
Definition series_calls (sender receiver : ClientHandle) (size : Z) (controls : list control) (l : list event) : Prop :=
  ∃ l1 segments l2, l = l1 ++ concat segments ++ l2 ∧ Forall only_asks l1 ∧ Forall only_asks l2 ∧
    Forall2 (paced sender receiver size) controls segments.

(** ** What the code calls *)

Section calls_of.
Context {W : Type} `{Host W}.

Lemma calls_console child command timeout check :
  calls (console_cmd child command timeout check : M (hst W) _)
    (λ l r, exchange child command r.1 r.2 l ∧ (check = true → r.2 = 0)).
Proof.
  unfold console_cmd. apply calls_call_bind. intros token. apply calls_call_bind. intros [].
  apply calls_call_bind. intros o1. apply calls_call_bind. intros [before caps]. cbv zeta. apply calls_call_bind. intros o2.
  eapply calls_bind; [apply (calls_raise_if _ _ _ (λ l _, l = [] ∧ (check = true → group_int 1 caps = 0)))|].
  - intros Hc. split; [done|]. intros ->. cbn in Hc. by apply negb_false_iff, Z.eqb_eq in Hc.
  - intros l [] [-> Hc]. apply calls_ret. split; [|done]. by exists token, timeout, o1, before, caps, o2.
Qed.

(** The marker needs no more than quotes around it. *)
Definition quotable (marker : string) : Prop :=
  "grep -Fc -- " +:+ shlex_quote marker +:+ " " +:+ REMOTE_CLIENT_LOG +:+ " 2>/dev/null || true" = count_command marker.
Lemma calls_log_count child marker :
  quotable marker →
  calls (client_log_count child marker : M (hst W) _) (λ l c, reads child marker c l).
Proof.
  intros Hq. unfold client_log_count. eapply calls_bind; [apply calls_console|]. cbn beta.
  intros l [output rc] [He _]. apply calls_ret. rewrite app_nil_r. exists output, rc. split; [|done].
  unfold quotable in Hq. by rewrite Hq in He.
Qed.

Lemma exchange_asks child command output rc l : question command → exchange child command output rc l → Forall only_asks l.
Proof.
  intros Hq (token & t & o1 & before & caps & o2 & -> & _). repeat constructor. exists token, command. by split.
Qed.
Lemma reads_asks child marker count l : reads child marker count l → Forall only_asks l.
Proof. intros (output & rc & He & _). eapply exchange_asks; [|done]. right. eauto. Qed.

Lemma calls_wait_count child marker minimum timeout :
  quotable marker →
  calls (wait_client_log_count child marker minimum timeout : M (hst W) _) (λ l _, awaits child marker minimum l).
Proof.
  intros Hq. unfold wait_client_log_count, wait_until, monotonic. apply calls_call_bind. intros t.
  eapply calls_bind; [apply (calls_poll_until _ _ _ only_asks (λ l _, ∃ c, reads child marker c l ∧ minimum <= c)); [done..|]|].
  - eapply calls_bind; [by apply calls_log_count|]. cbn beta. intros l c Hl. apply calls_ret. rewrite app_nil_r.
    destruct (Z.leb_spec minimum c); [eauto|]. by eapply reads_asks.
  - cbn beta. intros l [[]|]; [|intros _; apply calls_throw]. intros (l1 & l2 & -> & H1 & c & H2 & Hc).
    apply calls_ret. rewrite app_nil_r. exists (Ev EMonotonic (inl t) :: l1), l2, c. by split_and!; [|constructor| |].
Qed.

Lemma calls_command child line : calls (client_command child line : M (hst W) _) (λ l _, tells child line l).
Proof.
  unfold client_command. eapply calls_bind; [apply calls_console|]. cbn beta. intros l [output rc] [He Hrc].
  specialize (Hrc eq_refl). cbn [fst snd] in *. subst rc. apply calls_ret. rewrite app_nil_r. by exists output.
Qed.
Lemma calls_alive child : calls (client_alive child : M (hst W) _) (λ l b, b = true → alive child l).
Proof.
  unfold client_alive, pid_alive. eapply calls_bind; [apply calls_console|]. cbn beta.
  intros l [output rc] [He _]. apply calls_ret. rewrite app_nil_r. intros Hb%Z.eqb_eq. cbn [fst snd] in *. subst rc.
  by exists output.
Qed.
Lemma calls_both_alive {A} a b c msg (k : M (hst W) A) Q :
  calls k Q →
  calls (la ← client_alive a; lb ← (if la : bool then client_alive b else mret false); raise_if (negb lb) c msg;; k)
    (λ l x, ∃ l1 l2 l3, l = l1 ++ l2 ++ l3 ∧ alive a l1 ∧ alive b l2 ∧ Q l3 x).
Proof.
  intros Hk. eapply calls_bind; [apply calls_alive|]. cbn beta. intros l1 la H1.
  apply (calls_bind _ _ (λ l lb, lb = true → la = true ∧ alive b l)).
  { destruct la; [|by apply calls_ret]. eapply calls_mono; [|apply calls_alive]. auto. }
  intros l2 lb H2. eapply calls_bind; [apply (calls_raise_if _ _ _ (λ l _, l = [] ∧ lb = true))|].
  { intros Hb%negb_false_iff. auto. }
  intros l3 [] [-> Hlb]. destruct (H2 Hlb) as [Hla Hb]. eapply calls_mono; [|exact Hk]. intros l x Hx.
  exists l1, l2, l. split_and!; auto.
Qed.

Lemma calls_asks {A} (m : M (hst W) A) : keeps (extends only_asks) m → calls m (λ l _, Forall only_asks l).
Proof.
  intros Hm n s. eapply wp_mono; [| |eapply wp_keeps; [exact Hm|apply wp_trivial]]; [|done]. by intros a s' [_ He].
Qed.

#[local] Hint Extern 1 (keeps (extends only_asks) (call _)) => (apply keeps_call_extends; intros; exact I) : py.

Lemma calls_series_step sender receiver mode a t0 sq controls rng :
  calls (series_step sender receiver mode a t0 sq (controls, rng) : M (hst W) _) (λ l r,
    ∃ c, r = (controls ++ [c], (mt_random rng).2) ∧ c_sequence c = sq ∧
      c_jitter c = fmul (mt_random rng).1 (mean_tick mode a) ∧ paced sender receiver (a_message_size a) c l).
Proof.
  unfold series_step. destruct (mt_random rng) as [x rng']. cbv zeta. cbn [fst snd]. apply calls_call_bind. intros [].
  eapply calls_bind; [by apply calls_log_count|]. cbn beta. intros l1 queued H1.
  eapply calls_bind; [by apply calls_log_count|]. cbn beta. intros l2 acked H2.
  eapply calls_bind; [apply (calls_of_res _ (λ l payload, l = [] ∧ exact_payload sq (a_message_size a) = Ok payload)); by split|].
  cbn beta. intros ? payload [-> Hp].
  eapply calls_bind; [apply calls_command|].
  cbn beta. intros l3 [] H3. eapply calls_bind; [by apply calls_wait_count|]. cbn beta. intros l4 [] H4.
  eapply calls_bind; [apply calls_try_except; [by apply calls_wait_count|]|].
  { intros e k. unfold except. destruct (isinstance_any _ _); [|done]. intros [= <-]. apply calls_throw. }
  cbn beta. intros l5 [] H5. eapply calls_bind; [apply calls_asks; solve [keeps_deep]|]. cbn beta. intros l6 [] H6.
  set (c := {| c_sequence := sq; c_jitter := fmul x (mean_tick mode a) |}).
  eapply calls_mono; [|apply calls_both_alive, (calls_ret _ (λ l r, l = [] ∧ r = (controls ++ [c], rng'))); by split].
  intros l r (l7 & l8 & l9 & -> & H7 & H8 & -> & ->). exists c. split_and!; [done..|].
  exists payload, queued, acked, l1, l2, l3, l4, l5, l6, l7, l8. rewrite app_nil_r. by split_and!.
Qed.
End calls_of.
