(* ===== verification/Bt06Spec.v ===== *)
(** * BT-06: what a run of the latency benchmark guarantees

    The laws of a series, of a mode ([holds] follows its documents and metadata from step to
    step) and of the whole run; a run on the simulated testbed of Bench.v; and the
    properties of the messages, of a series, of a mode and of the run. *)

From Stdlib Require Import Ascii ZArith QArith Qabs Lia Lqa.
From Stdlib Require Import Strings.Byte Decimal DecimalString DecimalFacts DecimalN.
From stdpp Require Import base list strings sorting sets.
From S2P Require Import Prelude PyNum Mersenne PyText Host Json Loopback Wire Console Events Calibration Latency AuthTest Testbed Documents Series Bench Bt06 Pacing.

Open Scope Z_scope.

(** ** The series *)

(** The controls of a series: messages 1 to [n], each with the wait the generator gives for
    it, within the phase window. *)
Definition series_controls (mode : string) (a : bt06_args) (n : Z) (controls : list control) : Prop :=
  map c_sequence controls = zrange 1 (n + 1) ∧
  map c_jitter controls =
    map (λ x, fmul x (mean_tick mode a)) (mt_stream (Z.to_nat n) (phase_rng mode (a_phase_jitter_seed a))) ∧
  Forall (λ c, 0 <= c_jitter c <= fl (mean_tick mode a))%Q controls.

Lemma jitter_range x w : (0 <= x < 1)%Q → (0 <= w)%Q → (0 <= fmul x w <= fl w)%Q.
Proof.
  intros [H0 H1] Hw. unfold fmul. split.
  - apply fl_nonneg. by apply Qmult_le_0_compat.
  - apply fl_mono. assert (x * w <= 1 * w)%Q by (apply Qmult_le_compat_r; lra). lra.
Qed.

Section series_laws.
Context {W : Type} `{Host W}.

(** The controls after the messages of [pre], from the generator [rng0] on. *)
Definition controls_after (tick : Q) (rng0 : mt_state) (pre : list Z) (r : list control * mt_state) : Prop :=
  map c_sequence r.1 = pre ∧
  (∀ k, map (λ x, fmul x tick) (mt_stream (length pre + k) rng0) =
     map c_jitter r.1 ++ map (λ x, fmul x tick) (mt_stream k r.2)) ∧
  Forall (λ c, 0 <= c_jitter c <= fl tick)%Q r.1.
Lemma controls_after_snoc tick rng0 pre controls rng c :
  (0 <= tick)%Q → controls_after tick rng0 pre (controls, rng) → c_jitter c = fmul (mt_random rng).1 tick →
  controls_after tick rng0 (pre ++ [c_sequence c]) (controls ++ [c], (mt_random rng).2).
Proof.
  intros Hw (H1 & H2 & H3) Hc. unfold controls_after in *. cbn [fst snd] in *. rewrite !map_app, H1.
  destruct (mt_random rng) as [y rng'] eqn:Ey. cbn [fst snd] in *. split_and!; [done| |].
  - intros k. specialize (H2 (S k)). cbn [mt_stream] in H2. rewrite Ey in H2. rewrite length_app, <- app_assoc.
    rewrite <- Nat.add_assoc. cbn [map app]. rewrite Hc. exact H2.
  - apply Forall_app. split; [done|]. apply Forall_singleton. rewrite Hc. apply jitter_range; [by eapply mt_random_range|done].
Qed.

Lemma calls_series sender receiver mode a :
  (0 <= mean_tick mode a)%Q →
  calls (run_ack_gated_series sender receiver mode a : M (hst W) _) (λ l controls,
    series_controls mode a (a_messages a) controls ∧ series_calls sender receiver (a_message_size a) controls l).
Proof.
  intros Hw. unfold run_ack_gated_series. apply calls_call_bind. intros t0. apply calls_call_bind. intros [].
  set (rng0 := phase_rng mode (a_phase_jitter_seed a)). set (tick := mean_tick mode a) in *.
  eapply calls_bind; [apply (calls_for_acc (λ pre l r, controls_after tick rng0 pre r ∧
    ∃ segments, l = concat segments ∧ Forall2 (paced sender receiver (a_message_size a)) r.1 segments))|].
  - intros pre x post l [controls rng] _ [Hc (segments & -> & H2)]. eapply calls_mono; [|apply calls_series_step].
    intros l r (c & -> & <- & Hj & Hp). split; [by apply controls_after_snoc|]. exists (segments ++ [l]).
    rewrite concat_app. cbn. rewrite app_nil_r. split; [done|]. apply Forall2_app; [done|by repeat constructor].
  - split; [|by exists []]. split_and!; [done|done|constructor].
  - cbn beta. intros l [controls rng] [(H1 & H2 & H3) (segments & -> & Hs)]. cbn [fst snd] in *.
    apply calls_call_bind. intros []. apply calls_ret. split.
    + split_and!; [done| |done]. specialize (H2 0%nat). rewrite Nat.add_0_r in H2. cbn in H2.
      rewrite app_nil_r in H2. rewrite <- H2. do 2 f_equal. unfold zrange. rewrite length_map, length_seq. lia.
    + eexists [_; _], segments, [_]. split; [reflexivity|]. by split_and!; [repeat constructor..|].
Qed.
End series_laws.

(** ** The documents of a mode *)

Section mode_laws.
Context {W : Type} `{Host W}.

(** Nothing is written, and what is known of the locals stays. *)
Definition KEYS : list string := ["series_policy"; "messages_requested"; "result"].
Definition steady (p p' : mode_locals * hst W) : Prop :=
  same_docs p.2 p'.2 ∧ (∀ k, k ∈ KEYS → dict_get k (run_meta p'.1) = dict_get k (run_meta p.1)) ∧
  cal_pre p'.1 = cal_pre p.1 ∧ cal_post p'.1 = cal_post p.1.
#[global] Instance steady_preorder : PreOrder steady.
Proof.
  split; [intros p; by split_and!|]. intros p q r (H1 & H2 & H3 & H4) (K1 & K2 & K3 & K4).
  split_and!; [by etransitivity| |congruence|congruence]. intros k Hk. by rewrite K2, H2.
Qed.
Lemma keeps_steady_lift {A} (m : M (hst W) A) : keeps same_docs m → keeps steady (lift m).
Proof.
  intros Hm n [l st]. specialize (Hm n st). unfold lift. cbn. destruct (m n st) as [r st']. by split_and!.
Qed.
Lemma keeps_steady_meta k v : k ∉ KEYS → keeps steady (set_local (set_meta k v)).
Proof.
  intros Hk n [l st]. split_and!; cbn; [done| |done|done]. intros k' Hk'. rewrite dict_get_set.
  rewrite bool_decide_eq_false_2; [done|]. by intros ->.
Qed.
#[local] Hint Extern 1 (keeps steady (lift _)) => (apply keeps_steady_lift; solve [keeps_deep]) : py.
#[local] Hint Extern 1 (keeps steady (set_local (set_meta _ _))) =>
  (apply keeps_steady_meta; apply (bool_decide_unpack (_ ∉ KEYS)); exact I) : py.

Lemma connect_mode_steady float_repr s a : keeps steady (connect_mode float_repr s a).
Proof. unfold connect_mode, connect_clients. keeps_tac. Qed.

(** *** What is written, and the metadata so far *)

(** What the metadata says. *)
Definition says (a : bt06_args) (r : string) (d : list (string * json)) : Prop :=
  dict_get "series_policy" d = Some (JStr "ack-gated") ∧
  dict_get "messages_requested" d = Some (JInt (a_messages a)) ∧ dict_get "result" d = Some (JStr r).
Definition holds (a : bt06_args) (D : list (path * json)) (r : string) (p : mode_locals * hst W) : Prop :=
  saved (trace p.2) = D ∧ says a r (run_meta p.1).

Lemma holds_steady a D r p p' : steady p p' → holds a D r p → holds a D r p'.
Proof.
  intros (H1 & H2 & _) (K1 & K2 & K3 & K4). unfold holds, says, unseen in *.
  rewrite H1, !H2 by (apply (bool_decide_unpack (_ ∈ KEYS)); exact I). done.
Qed.

Lemma wp_steady {A B} (m : M (mode_locals * hst W) A) (k : A → M (mode_locals * hst W) B) Q E n a D r p :
  keeps steady m → holds a D r p →
  (∀ x p', holds a D r p' → cal_pre p'.1 = cal_pre p.1 → cal_post p'.1 = cal_post p.1 → wp True (k x) Q E n p') →
  (∀ e p', holds a D r p' → E e p') → wp True (m ≫= k) Q E n p.
Proof.
  intros Hm Hp Hk HE. apply wp_bind. eapply wp_mono; [| |eapply wp_keeps; [exact Hm|apply wp_trivial]].
  - intros x p' [_ Hs]. apply Hk; [by eapply holds_steady|apply Hs..].
  - intros e p' [_ Hs]. eapply HE, holds_steady; done.
Qed.

Lemma wp_write_doc f j (Q : unit → mode_locals * hst W → Prop) E n a D r l st :
  holds a D r (l, st) →
  (∀ st', holds a (D ++ [(f, j)]) r (l, st') → Q tt (l, st')) →
  (∀ e st', holds a D r (l, st') → E e (l, st')) →
  wp True (lift (call (EWriteJson f j))) Q E n (l, st).
Proof.
  intros [H1 H2] Hk HE. apply wp_lift, wp_call_cases.
  - intros [] w' _. apply Hk. split; [|done]. cbn. rewrite observed_snoc. cbn in *. by rewrite H1.
  - intros e w' _. apply HE. split; [|done]. cbn. rewrite observed_snoc. cbn in *. by rewrite H1, app_nil_r.
Qed.

(** The calibration of both clients, before or after the series. *)
Lemma calibrate_mode_wp s set n a D r l st :
  (∀ k v l', run_meta (set k v l') = run_meta l') → holds a D r (l, st) →
  wp True (calibrate_mode s set)
    (λ _ p', holds a D r p' ∧
       ∃ ca cb, p'.1 = set "client_b" (calibration_json cb) (set "client_a" (calibration_json ca) l))
    (λ _ p', holds a D r p') n (l, st).
Proof.
  intros Hset Hp. unfold calibrate_mode. apply wp_bind, wp_lift.
  assert (∀ child vm, keeps same_docs (calibrate_vm_clock child vm 9 : M (hst W) _)) as Hk by (intros; keeps_deep).
  eapply wp_mono; [| |eapply wp_keeps; [apply Hk|apply wp_trivial]].
  2:{ intros e st' [_ Hs]. unfold holds, unseen in *. cbn in *. by rewrite Hs. }
  intros ca st1 [_ H1]. apply wp_set_local, wp_bind, wp_lift.
  eapply wp_mono; [| |eapply wp_keeps; [apply Hk|apply wp_trivial]].
  2:{ intros e st' [_ Hs]. unfold holds, unseen in *. cbn in *. by rewrite Hs, H1, Hset. }
  intros cb st2 [_ H2]. unfold wp, set_local. cbn. split; [|by eauto].
  unfold holds, unseen in *. cbn in *. by rewrite H2, H1, !Hset.
Qed.

(** A document the checks of the series accept. *)
Definition good_doc (a : bt06_args) (doc : json) : Prop :=
  ∃ s controls, lowered s ∧ ack_gated_payload s (a_messages a) controls = Ok doc.
Lemma collect_wp sender receiver a controls n (st : hst W) :
  wp True (collect_and_validate_events sender receiver (a_messages a) controls)
    (λ doc _, good_doc a doc) (λ _ _, True) n st.
Proof.
  unfold collect_and_validate_events. apply wp_any. intros la st1. apply wp_any. intros lb st2. apply wp_of_res.
  destruct (ack_gated_payload _ _ _) as [doc|e|] eqn:Ep; [|done..].
  exists (series_of la lb), controls. split; [apply series_of_lowered|exact Ep].
Qed.

Lemma record_passed_wp a events n D l st :
  holds a D "incomplete" (l, st) →
  wp True (record_passed a events)
    (λ _ p', holds a D "passed" p' ∧ cal_pre p'.1 = cal_pre l ∧ cal_post p'.1 = cal_post l)
    (λ _ p', holds a D "incomplete" p') n (l, st).
Proof.
  intros Hp. unfold record_passed, copy_count.
  do 9 (eapply wp_steady; [solve [keeps_tac]|eassumption| |auto]; clear Hp; intros ? [? ?] Hp ? ?).
  unfold wp, set_local. cbn in *. split_and!; [|congruence..]. destruct Hp as [K1 (K2 & K3 & K4)].
  split; [done|]. unfold says. cbn. by rewrite !dict_get_set.
Qed.

(** The documents of the body, and what a passed body leaves. *)
Definition body_docs (s : mode_setup) (doc cal : json) : list (path * json) :=
  [(events_file s, doc); (calibration_file s, cal)].
Definition measured (s : mode_setup) (a : bt06_args) (D : list (path * json)) (p : mode_locals * hst W) : Prop :=
  ∃ doc, holds a (D ++ body_docs s doc (calibration_doc p.1)) "passed" p ∧ good_doc a doc ∧
    ∃ c, read_anchors (calibration_doc p.1) = Ok c.
Definition unmeasured (s : mode_setup) (a : bt06_args) (D : list (path * json)) (p : mode_locals * hst W) : Prop :=
  ∃ doc cal ds, ds `prefix_of` body_docs s doc cal ∧ holds a (D ++ ds) "incomplete" p.

Lemma unmeasured_none s a D p : holds a D "incomplete" p → unmeasured s a D p.
Proof. intros Hp. exists JNull, JNull, []. rewrite app_nil_r. split; [apply prefix_nil|done]. Qed.

Lemma anchors_read l p1 p2 q1 q2 :
  cal_pre l = [("client_a", calibration_json p1); ("client_b", calibration_json p2)] →
  cal_post l = [("client_a", calibration_json q1); ("client_b", calibration_json q2)] →
  ∃ c, read_anchors (calibration_doc l) = Ok c.
Proof.
  intros Hp Hq. unfold read_anchors, calibration_doc. rewrite Hp, Hq.
  erewrite !anchor_from_calibration by reflexivity. by eexists.
Qed.

(** The last part of the body: the events are collected, written and recorded. *)
Lemma measure_wp s a controls n D l st :
  holds a D "incomplete" (l, st) → (∃ c, read_anchors (calibration_doc l) = Ok c) →
  wp True (events ← lift (collect_and_validate_events (sender_of s) (receiver_of s) (a_messages a) controls);
           lift (call (EWriteJson (events_file s) events));;
           write_calibration s;;
           record_passed a events;;
           lift (ok "QUEUE/TX/RX/ACK sets agree and ACK-gating invariant is verified"))
    (λ _ p', measured s a D p') (λ _ p', unmeasured s a D p' ∨ measured s a D p') n (l, st).
Proof.
  intros Hp Hc. apply wp_bind, wp_lift.
  eapply wp_mono; [| |eapply (wp_keeps (R:=same_docs)); [solve [keeps_deep]|apply collect_wp]].
  2:{ intros e st' [_ Hs]. left. apply unmeasured_none. unfold holds, unseen in *. cbn in *. by rewrite Hs. }
  intros doc st1 [Hdoc Hs]. assert (holds a D "incomplete" (l, st1)) as Hp1.
  { unfold holds, unseen in *. cbn in *. by rewrite Hs. }
  apply wp_bind. apply (wp_write_doc _ _ _ _ _ _ _ _ _ _ Hp1); [|intros; left; by apply unmeasured_none].
  clear Hp Hp1 Hs. intros st2 Hp. unfold write_calibration. apply wp_bind, wp_get_local.
  apply (wp_write_doc _ _ _ _ _ _ _ _ _ _ Hp).
  2:{ intros e st' He. left. eexists doc, JNull, [_]. split; [|exact He]. by exists [(calibration_file s, JNull)]. }
  clear Hp. intros st3 Hp. rewrite <- app_assoc in Hp. cbn [app] in Hp.
  apply wp_bind. eapply wp_mono; [| |by apply record_passed_wp].
  2:{ intros e p' He. left. exists doc, (calibration_doc l), (body_docs s doc (calibration_doc l)). by split. }
  intros _ [l' st4] (Hm & C1 & C2). cbn [fst] in C1, C2.
  assert (calibration_doc l' = calibration_doc l) as Hl by by (unfold calibration_doc; rewrite C1, C2).
  assert (∀ p', steady (l', st4) p' → measured s a D p') as Hend.
  { intros [l'' st''] Hs. exists doc. destruct (Hs) as (_ & _ & C3 & C4). cbn [fst] in *.
    assert (calibration_doc l'' = calibration_doc l) as -> by by (rewrite <- Hl; unfold calibration_doc; rewrite C3, C4).
    split; [by eapply holds_steady|done]. }
  eapply wp_mono; [| |eapply (wp_keeps (R:=steady)); [solve [eauto with py]|apply wp_trivial]].
  - intros _ p' [_ Hs]. auto.
  - intros e p' [_ Hs]. auto.
Qed.

Lemma mode_body_wp float_repr s a n D l st :
  holds a D "incomplete" (l, st) → cal_pre l = [] → cal_post l = [] →
  wp True (mode_body float_repr s a)
    (λ _ p', measured s a D p') (λ _ p', unmeasured s a D p' ∨ measured s a D p') n (l, st).
Proof.
  intros Hp Hpre Hpost. unfold mode_body.
  assert (∀ (e : exn) p', holds a D "incomplete" p' → unmeasured s a D p' ∨ measured s a D p') as HE.
  { intros. left. by apply unmeasured_none. }
  eapply wp_steady; [apply connect_mode_steady|exact Hp| |exact HE]. clear Hp. intros _ [l1 st1] Hp C1 C2.
  eapply wp_steady; [solve [eauto with py]|exact Hp| |exact HE]. clear Hp. intros _ [l2 st2] Hp C3 C4.
  apply wp_bind. eapply wp_mono; [| |apply (calibrate_mode_wp s set_pre); [done|exact Hp]].
  2:{ intros e p' He. by apply (HE e). }
  clear Hp. intros _ [l3 st3] (Hp & pa & pb & El). cbn [fst snd] in *. subst l3.
  eapply wp_steady; [solve [eauto with py]|exact Hp| |exact HE]. clear Hp. intros _ [l4 st4] Hp C5 C6.
  eapply wp_steady; [solve [eauto with py]|exact Hp| |exact HE]. clear Hp. intros controls [l5 st5] Hp C7 C8.
  eapply wp_steady; [solve [eauto with py]|exact Hp| |exact HE]. clear Hp. intros _ [l6 st6] Hp C9 C10.
  apply wp_bind. eapply wp_mono; [| |apply (calibrate_mode_wp s set_post); [done|exact Hp]].
  2:{ intros e p' He. by apply (HE e). }
  clear Hp. intros _ [l7 st7] (Hp & qa & qb & El). cbn [fst snd] in *. subst l7.
  apply measure_wp; [exact Hp|]. apply (anchors_read _ pa pb qa qb).
  - cbn. rewrite C9, C7, C5. cbn. by rewrite C3, C1, Hpre.
  - cbn. rewrite C10, C8, C6. cbn. by rewrite C4, C2, Hpost.
Qed.

(** The [finally] writes the calibration again and the metadata. *)
Definition end_docs (s : mode_setup) (l : mode_locals) (j : list (string * json)) : list (path * json) :=
  [(calibration_file s, calibration_doc l); (run_file s, JObj j)].
Lemma mode_finally_wp s t n a D r l st :
  holds a D r (l, st) →
  wp True (mode_finally s t)
    (λ _ p', ∃ j, says a r j ∧ saved (trace p'.2) = D ++ end_docs s l j)
    (λ _ p', ∃ j ds, says a r j ∧ ds `prefix_of` end_docs s l j ∧ saved (trace p'.2) = D ++ ds) n (l, st).
Proof.
  intros Hp. unfold mode_finally.
  assert (∀ (e : exn) p', holds a D r p' →
    ∃ j ds, says a r j ∧ ds `prefix_of` end_docs s l j ∧ saved (trace p'.2) = D ++ ds) as HE.
  { intros e p' [H1 H2]. exists (run_meta p'.1), []. rewrite app_nil_r. split_and!; [done|apply prefix_nil|done]. }
  eapply wp_steady; [solve [eauto with py]|exact Hp| |exact HE]. clear Hp. intros at_ [l1 st1] Hp C1 C2.
  eapply wp_steady; [solve [eauto with py]|exact Hp| |exact HE]. clear Hp. intros _ [l2 st2] Hp C3 C4.
  eapply wp_steady; [solve [eauto with py]|exact Hp| |exact HE]. clear Hp. intros t1 [l3 st3] Hp C5 C6.
  eapply wp_steady; [solve [eauto with py]|exact Hp| |exact HE]. clear Hp. intros _ [l4 st4] Hp C7 C8.
  eapply wp_steady; [solve [eauto with py]|exact Hp| |exact HE]. clear Hp. intros _ [l5 st5] Hp C9 C10.
  assert (calibration_doc l5 = calibration_doc l) as Hl.
  { unfold calibration_doc. cbn [fst] in *. by rewrite C9, C10, C7, C8, C5, C6, C3, C4, C1, C2. }
  clear C1 C2 C3 C4 C5 C6 C7 C8 C9 C10. unfold write_calibration. apply wp_bind, wp_get_local.
  rewrite Hl. apply (wp_write_doc _ _ _ _ _ _ _ _ _ _ Hp); [|exact (λ e st' He, HE e _ He)].
  clear Hp HE. intros st6 Hp. apply wp_get_local, wp_bind.
  apply (wp_write_doc _ _ _ _ _ _ _ _ _ _ Hp).
  2:{ intros e st' [H1 H2]. exists (run_meta l5), [(calibration_file s, calibration_doc l)].
      split_and!; [done| |done]. by exists [(run_file s, JObj (run_meta l5))]. }
  assert (says a r (run_meta l5)) as Hj by apply Hp. clear Hp. intros st7 Hp. rewrite <- app_assoc in Hp.
  change (_ ++ [(run_file s, _)]) with (end_docs s l (run_meta l5)) in Hp.
  assert (∀ p', steady (l5, st7) p' → saved (trace p'.2) = D ++ end_docs s l (run_meta l5)) as Hend.
  { intros p' Hs. by destruct (holds_steady _ _ _ _ _ Hs Hp). }
  eapply wp_mono; [| |eapply (wp_keeps (R:=steady)); [|apply wp_trivial]]; [| |solve [keeps_tac]].
  - intros _ p' [_ Hs]. eauto.
  - intros e p' [_ Hs]. eexists _, _. split_and!; [exact Hj| |by apply Hend]. done.
Qed.

(** *** The files of a mode *)

(** The files of a mode that passed: the events, the calibration twice (from the body and
    from the [finally]) and the metadata.  The analysis reads them: [validate_mode]'s checks
    and the reading of the clock anchors pass, and of the checks that [build_rows] makes
    after them only those of the measured times are left. *)
Definition passed_docs (s : mode_setup) (a : bt06_args) (ds : list (path * json)) : Prop :=
  ∃ doc cal j c,
    ds = [(events_file s, doc); (calibration_file s, cal); (calibration_file s, cal); (run_file s, JObj j)] ∧
    dict_get "result" j = Some (JStr "passed") ∧ read_anchors cal = Ok c ∧
    ∀ py_repr name, ∃ ix, validate_documents py_repr name doc (JObj j) = Ok ix ∧
      ((∃ rows, rows_of py_repr name doc cal = Ok rows) ↔ Forall (λ x, in_time c ix x.1 x.2) (ix_queue ix)).
Definition honest (s : mode_setup) (a : bt06_args) (ds : list (path * json)) : Prop :=
  ∀ j, (run_file s, JObj j) ∈ ds → dict_get "result" j = Some (JStr "passed") → passed_docs s a ds.

Lemma says_policy a r j : says a r j →
  jget_default "series_policy" JNull (JObj j) = Ok (JStr "ack-gated") ∧
  jget_default "messages_requested" (JInt 0) (JObj j) = Ok (JInt (a_messages a)).
Proof. intros (H1 & H2 & _). unfold jget_default. by rewrite H1, H2. Qed.

Lemma passed_docs_intro s a doc l j c :
  0 < a_messages a → good_doc a doc → read_anchors (calibration_doc l) = Ok c → says a "passed" j →
  passed_docs s a (body_docs s doc (calibration_doc l) ++ end_docs s l j).
Proof.
  intros Hm (ser & controls & Hlow & Hdoc) Hc Hj. exists doc, (calibration_doc l), j, c.
  split_and!; [done|apply Hj|done|]. intros py_repr name.
  destruct (says_policy _ _ _ Hj) as [H1 H2].
  destruct (payload_accepted py_repr name (JObj j) ser (a_messages a) controls doc) as [ix Hix]; [done..|].
  exists ix. split; [done|]. by eapply payload_measured.
Qed.

Lemma calibration_not_run s : calibration_file s ≠ run_file s.
Proof. unfold calibration_file, run_file, joinpath. by intros [= ?]%(inj _)%(inj _). Qed.
Lemma events_not_run s : events_file s ≠ run_file s.
Proof. unfold events_file, run_file, joinpath. by intros [= ?]%(inj _)%(inj _). Qed.
Lemma run_file_new s doc cal j : (run_file s, j) ∉ body_docs s doc cal.
Proof.
  unfold body_docs. rewrite !elem_of_cons, elem_of_nil.
  intros [[= E _]|[[= E _]|[]]]; symmetry in E; [by apply events_not_run in E|by apply calibration_not_run in E].
Qed.

(** A part of the files of the [finally] that has the metadata has them all. *)
Lemma end_docs_whole s l j j' ds :
  ds `prefix_of` end_docs s l j → (run_file s, j') ∈ ds → ds = end_docs s l j ∧ j' = JObj j.
Proof.
  intros [rest E] Hin. unfold end_docs in *.
  destruct ds as [|d1 [|d2 [|d3 ds]]]; [by apply elem_of_nil in Hin| | |by destruct ds].
  - apply list_elem_of_singleton in Hin as <-. injection E as E _. by apply calibration_not_run in E.
  - injection E as <- <- <-. split; [done|]. rewrite !elem_of_cons, elem_of_nil in Hin.
    destruct Hin as [[= E _]|[[= ->]|[]]]; [|done]. symmetry in E. by apply calibration_not_run in E.
Qed.

Lemma mode_end_wp float_repr s a t n D l st :
  0 < a_messages a → holds a D "incomplete" (l, st) → cal_pre l = [] → cal_post l = [] →
  wp True (try_finally (mode_body float_repr s a) (mode_finally s t))
    (λ _ p', ∃ ds, saved (trace p'.2) = D ++ ds ∧ passed_docs s a ds)
    (λ _ p', ∃ ds, saved (trace p'.2) = D ++ ds ∧ honest s a ds) n (l, st).
Proof.
  intros Hm Hp Hpre Hpost. apply wp_try_finally.
  assert (∀ (Q : unit → mode_locals * hst W → Prop) p', measured s a D p' →
    (∀ u p'' ds, saved (trace p''.2) = D ++ ds → passed_docs s a ds → Q u p'') →
    wp True (mode_finally s t) Q (λ _ p', ∃ ds, saved (trace p'.2) = D ++ ds ∧ honest s a ds) n p') as Hgood.
  { intros Q [l' st'] (doc & Hh & Hdoc & c & Hc) HQ. eapply wp_mono; [| |by apply mode_finally_wp].
    - intros u p'' (j & Hj & Hd). eapply HQ; [by rewrite Hd, <- app_assoc|]. by eapply passed_docs_intro.
    - intros e p'' (j & ds & Hj & Hds & Hd). eexists. split; [by rewrite Hd, <- app_assoc|].
      intros j' [Hin|Hin]%elem_of_app _; [by apply run_file_new in Hin|].
      apply (end_docs_whole _ _ _ _ _ Hds) in Hin as [-> [= ->]]. by eapply passed_docs_intro. }
  eapply wp_mono; [| |by apply mode_body_wp]; cbn beta.
  - intros u p' Hp'. apply (Hgood _ _ Hp'). eauto.
  - intros e p' [Hp'|Hp']; [|apply (Hgood _ _ Hp')].
    2:{ intros u p'' ds Hd Hpd. exists ds. split; [done|]. by intros ? ? ?. }
    destruct p' as [l' st'], Hp' as (doc & cal & bs & Hbs & Hh).
    assert (∀ j ds, says a "incomplete" j → ds `prefix_of` end_docs s l' j → honest s a (bs ++ ds)) as Hbad.
    { intros j ds (_ & _ & Hj) Hds j' [Hin|Hin]%elem_of_app Hr.
      - destruct Hbs as [rest E]. destruct (run_file_new s doc cal (JObj j')). rewrite E. apply elem_of_app. by left.
      - apply (end_docs_whole _ _ _ _ _ Hds) in Hin as [_ [= ->]]. congruence. }
    eapply wp_mono; [| |by apply mode_finally_wp].
    + intros u p'' (j & Hj & Hd). eexists. split; [by rewrite Hd, <- app_assoc|]. by eapply Hbad.
    + intros e' p'' (j & ds & Hj & Hds & Hd). eexists. split; [by rewrite Hd, <- app_assoc|]. by eapply Hbad.
Qed.

Lemma wp_undocumented {A B} (m : M (hst W) A) (k : A → M (hst W) B) Q n D (st : hst W) s a :
  keeps same_docs m → saved (trace st) = D →
  (∀ x st', saved (trace st') = D → wp True (k x) Q (λ _ st', ∃ ds, saved (trace st') = D ++ ds ∧ honest s a ds) n st') →
  wp True (m ≫= k) Q (λ _ st', ∃ ds, saved (trace st') = D ++ ds ∧ honest s a ds) n st.
Proof.
  intros Hm HD Hk. eapply wp_unseen; [done..|]. intros e st' He. exists []. rewrite app_nil_r.
  split; [done|]. intros j Hin. by apply elem_of_nil in Hin.
Qed.

Lemma run_mode_wp float_repr s a n (st : hst W) :
  0 < a_messages a →
  wp True (run_mode float_repr s a)
    (λ _ st', ∃ ds, saved (trace st') = saved (trace st) ++ ds ∧ passed_docs s a ds)
    (λ _ st', ∃ ds, saved (trace st') = saved (trace st) ++ ds ∧ honest s a ds) n st.
Proof.
  intros Hm. unfold run_mode. set (D := saved (trace st)). assert (saved (trace st) = D) as HD by done. clearbody D.
  do 4 (eapply wp_undocumented; [solve [keeps_deep]|exact HD|]; clear st HD; intros ? st HD).
  apply wp_with_locals. by apply mode_end_wp.
Qed.
End mode_laws.

(** ** The whole run *)

Section run_laws.
Context {W : Type} `{Host W} (PROJECT_ROOT sys_executable : string) (float_repr : Q → string).

(** The files of the modes of a run, one list for each mode. *)
Definition mode_files (a : bt06_args) (root : string) : list string → list (list (path * json)) → Prop :=
  Forall2 (λ mode ds, ∃ s, s_mode s = mode ∧ s_mode_dir s = joinpath root mode ∧ passed_docs s a ds).

(** The calls of a run that succeeded, [D] the documents before it: all modes passed and the
    suite's document says so; where it is due, the analysis of the run exited with 0. *)
Definition recorded (a : bt06_args) (root : string) (D : list (path * json)) (l : list event) : Prop :=
  ∃ dss doc rest, saved l = D ++ concat dss ++ (suite_file root, JObj doc) :: rest ∧
    Forall (λ d, d.1 = suite_file root) rest ∧ mode_files a root (modes_of a) dss ∧
    dict_get "result" doc = Some (JStr "passed") ∧
    dict_get "completed" doc = Some (JList (map JStr (modes_of a))).
Definition analysed (a : bt06_args) (root : string) (l : list event) : Prop :=
  a_skip_analysis a = false → both_modes (modes_of a) = true →
  ∃ c, Ev (ERun [sys_executable; BT06_ANALYZE PROJECT_ROOT; root] None) (inl c) ∈ l ∧ returncode c = 0.
Definition succeeded (a : bt06_args) (root : string) (D : list (path * json)) (l : list event) : Prop :=
  recorded a root D l ∧ analysed a root l.

Lemma recorded_app a root D l l' : Forall (suite_only root) l' → recorded a root D l → recorded a root D (l ++ l').
Proof.
  intros Hs (dss & doc & rest & H1 & H2 & H3). exists dss, doc, (rest ++ saved l').
  split_and!; [|by apply Forall_app; split; [|apply saved_suite]|apply H3..].
  unfold observed in *. rewrite bind_app, H1, <- !app_assoc. by rewrite <- app_comm_cons.
Qed.
Lemma succeeded_later a root D (st st' : hst W) :
  extends (suite_only root) st st' → succeeded a root D (trace st) → succeeded a root D (trace st').
Proof.
  intros (l & -> & Hs) [Hr Han]. split; [by apply recorded_app|].
  intros K1 K2. destruct (Han K1 K2) as (c & Hc & Hz). exists c. split; [|done]. apply elem_of_app. by left.
Qed.

Lemma main_finally_suite a root stamp commit dirty modes :
  keeps (host_only (extends (suite_only root))) (main_finally PROJECT_ROOT a root stamp commit dirty modes : GM unit).
Proof. unfold main_finally, write_suite. pose proof (tear_down_suite (W:=W)). keeps_tac. Qed.

(** The modes of [pre] are complete. *)
Definition so_far (a : bt06_args) (root : string) (D : list (path * json)) (pre : list string)
  (p : main_locals * hst W) : Prop :=
  completed_modes p.1 = pre ∧ ∃ dss, saved (trace p.2) = D ++ concat dss ∧ mode_files a root pre dss.

Lemma modes_wp a root commit dirty t D n p :
  0 < a_messages a → so_far a root D [] p →
  wp True (for_unit (modes_of a) (λ mode,
             lift (run_mode float_repr (setup_of mode commit dirty t root) a);; set_local (add_completed mode)) : GM unit)
    (λ _ p', so_far a root D (modes_of a) p') (λ _ _, True) n p.
Proof.
  intros Hm Hp. apply (wp_for_unit True (so_far a root D)); [|done].
  intros pre mode post [l st] _ [H1 (dss & H2 & H3)]. apply wp_bind, wp_lift.
  eapply wp_mono; [| |by apply run_mode_wp]; [|done]. intros [] st' (ds & Hd & Hds).
  unfold wp, set_local. cbn in *. split; [cbn; congruence|]. exists (dss ++ [ds]). split.
  - cbn. by rewrite Hd, H2, concat_app, app_assoc; cbn; rewrite app_nil_r.
  - apply Forall2_app; [done|]. constructor; [|constructor]. eexists. by split_and!; [| |exact Hds].
Qed.

Lemma main_try_wp a root stamp commit dirty n l (st : hst W) :
  0 < a_messages a → completed_modes l = [] →
  wp True (main_try PROJECT_ROOT sys_executable float_repr a root stamp commit dirty (modes_of a))
    (λ z p', z = 0 ∧ succeeded a root (saved (trace st)) (trace p'.2)) (λ _ _, True) n (l, st).
Proof.
  intros Hm Hl. unfold main_try. apply wp_bind.
  eapply wp_mono; [| |eapply wp_keeps; [apply (bring_up_preparing _ _ doc_of); intros; keeps_deep|apply wp_trivial]]; [|done].
  intros t [l1 st1] [_ [Hd Hc]]. unfold unseen in Hd. cbn in Hd, Hc. rewrite Hl in Hc. rewrite <- Hd. clear Hl Hd st l.
  apply wp_bind. eapply wp_mono; [| |apply modes_wp; [done|]]; [|done|].
  2:{ split; [done|]. exists []. cbn. rewrite app_nil_r. by split; [|constructor]. }
  intros [] [l2 st2] [H1 (dss & H2 & H3)]. apply wp_set_local. unfold write_suite. apply wp_bind, wp_bind, wp_lift.
  apply wp_call_cases; [|done]. intros created w _. apply wp_get_local, wp_lift, wp_call_cases; [|done]. intros [] w' _.
  set (doc := suite_doc _ _ _ _ _ _ _ _). cbn [trace fst snd] in *. rewrite <- app_assoc. cbn [app].
  set (tr := trace st2 ++ _). assert (saved tr = saved (trace st1) ++ concat dss ++ [(suite_file root, doc)]) as Htr.
  { unfold tr, observed in *. by rewrite bind_app, H2, <- app_assoc. }
  assert (recorded a root (saved (trace st1)) tr) as Hrec.
  { eexists dss, _, []. split_and!; [exact Htr|done|done|reflexivity|]. by rewrite <- H1. }
  clearbody tr. clear Htr. apply wp_bind.
  eapply (wp_mono True _ (λ _ p', succeeded a root (saved (trace st1)) (trace p'.2)) _ (λ _ _, True)); [|done|].
  - intros [] p' Hs. eapply wp_mono; [| |eapply (wp_keeps (R:=host_only (extends (suite_only root))) _ _ (λ z _, z = 0));
      [solve [keeps_tac]|do 2 (apply wp_any; intros ? ?); by apply wp_ret]]; [|done].
    intros z p'' [Hz He]. split; [exact Hz|by eapply succeeded_later].
  - destruct (negb (a_skip_analysis a) && both_modes (modes_of a)) eqn:Ea.
    + apply wp_bind, wp_lift, wp_call_cases; [|done]. intros c w1 _. apply wp_raise_if.
      destruct (returncode c =? 0) eqn:Ec; [|done]. apply Z.eqb_eq in Ec. split.
      * apply recorded_app; [|done]. repeat constructor.
      * intros _ _. exists c. split; [|done]. cbn. apply elem_of_app. right. by left.
    + apply wp_ret. split; [done|]. intros K1 K2. by rewrite K1, K2 in Ea.
Qed.

Definition run_outcome (a : bt06_args) (root : string) (D : list (path * json)) (z : Z) (st' : hst W) : Prop :=
  (z = 0 ∧ succeeded a root D (trace st')) ∨ z = 1 ∨ z = 130.

Lemma main_run_wp a root stamp commit dirty n (st : hst W) :
  0 < a_messages a →
  wp True (with_locals no_locals
             (main_run PROJECT_ROOT sys_executable float_repr a root stamp commit dirty (modes_of a)))
    (run_outcome a root (saved (trace st))) (λ _ _, True) n st.
Proof.
  intros Hm. apply wp_with_locals. unfold main_run. apply wp_try_finally.
  assert (∀ z p', run_outcome a root (saved (trace st)) z p'.2 →
    wp True (main_finally PROJECT_ROOT a root stamp commit dirty (modes_of a))
      (λ _ p'', run_outcome a root (saved (trace st)) z p''.2) (λ _ _, True) n p') as Hfin.
  { intros z p' Hz. eapply wp_mono; [| |eapply wp_keeps; [apply main_finally_suite|apply wp_trivial]]; [|done].
    intros u p'' [_ He]. destruct Hz as [[Hz Hs]|Hz]; [left|by right]. split; [done|]. by eapply succeeded_later. }
  assert (∀ p' : main_locals * hst W, wp True (main_finally PROJECT_ROOT a root stamp commit dirty (modes_of a))
      (λ _ _, True) (λ _ _, True) n p') as Htriv by (intros; apply wp_trivial).
  apply wp_try_except. eapply wp_mono; [| |by apply main_try_wp].
  - intros z p' Hz. apply Hfin. by left.
  - intros e p' _. destruct (isinstance e KeyboardInterrupt).
    + destruct p' as [l' st1]. apply wp_set_local, wp_ret, Hfin. right. by right.
    + destruct (isinstance e Exception_); [|by apply Htriv]. apply wp_bind.
      eapply wp_mono; [| |apply wp_trivial]; [|intros; by apply Htriv].
      intros ? ? _. apply wp_ret, Hfin. right. by left.
Qed.

Lemma bt06_main_wp a n (st : hst W) :
  0 < a_messages a →
  wp True (bt06_main PROJECT_ROOT sys_executable float_repr a)
    (λ z st', ∃ stamp, run_outcome a (joinpath (RESULTS_DIR PROJECT_ROOT) stamp) (saved (trace st)) z st')
    (λ _ _, True) n st.
Proof.
  intros Hm. unfold bt06_main. apply wp_bind. eapply wp_mono; [| |apply (begin_run_wp doc_of)]; [|done].
  intros [[[stamp root] commit] dirty] st1 [<- Hr]. cbn in Hr. subst root.
  eapply wp_mono; [| |by apply main_run_wp]; [|done]. intros z st' Hz. by exists stamp.
Qed.
End run_laws.

Lemma args_bounds a : args_error a = None →
  1 <= a_messages a <= 999999 ∧ 32 <= a_message_size a ∧ 0 < a_cbr_interval_ms a ∧ (0 < a_poisson_lambda a)%Q.
Proof.
  unfold args_error. destruct (negb _) eqn:E1; [done|]. destruct (a_message_size a <? 32) eqn:E2; [done|].
  destruct (_ || _) eqn:E3; [done|]. intros _.
  apply negb_false_iff, andb_true_iff in E1 as [H1%Z.leb_le H2%Z.leb_le]. apply Z.ltb_ge in E2.
  apply orb_false_iff in E3 as [E3%Z.leb_gt E4]. split_and!; try lia.
  apply Qnot_le_lt. rewrite <- Qle_bool_iff. by rewrite E4.
Qed.

(** ** A run on the testbed *)

Definition sample_bench : hst bench :=
  HSt (Bench (LW (Site [] programs [] [] WALL) 0 0 [relay; relay] (λ _, Peer [] false) (λ _, None))
             EmptyString 0 0) [].
Definition sample_args : bt06_args :=
  {| a_mode := "cbr"; a_messages := 1; a_message_size := 32; a_cbr_interval_ms := 10; a_poisson_lambda := 1;
     a_phase_jitter_seed := DEFAULT_PHASE_JITTER_SEED; a_per_message_timeout_seconds := 60; a_progress_every := 1;
     a_skip_analysis := false; a_keep_environment := false |}.
Definition sample_setup : mode_setup :=
  {| s_mode := "cbr"; s_commit := "c0ffee"; s_dirty := false; s_server_ip := "192.168.122.10";
     s_client_a_ip := "192.168.122.11"; s_client_b_ip := "192.168.122.12"; s_socks_port := 9050;
     s_server_console := 0%nat; s_client_a_console := 1%nat; s_client_b_console := 2%nat; s_mode_dir := "results/cbr" |}.
Definition any_repr (_ : Q) : string := "0.1".
Abbreviation sample_session := (bt06_main "/repo" "python3" any_repr sample_args 300%nat sample_bench).

(** A whole run of one mode on the testbed: it passes, and the analysis accepts its
    documents as they are written. *)
Definition rows_written (mode : string) (ds : list (path * json)) : option (list (Z * string)) :=
  match ds with
  | (_, events) :: (_, calibration) :: _ =>
      match rows_of (λ _, EmptyString) mode events calibration with
      | Ok (rows, _) => Some (map (λ r, (sequence r, message_id r)) rows)
      | _ => None
      end
  | _ => None
  end.
Definition session_result (s : res Z * hst bench) : res Z * list path * option (list (Z * string)) :=
  let ds := saved (trace s.2) in (s.1, map fst ds, rows_written "cbr" ds).
Example sample_session_passes :
  session_result sample_session =
  (Ok 0, map (joinpath "/repo/benchmarks/results/BT-06/")
           ["cbr/message_events.json"; "cbr/clock_calibration.json"; "cbr/clock_calibration.json"; "cbr/run.json";
            "suite_run.json"],
   Some [(1, "a1")]).
Proof. vm_compute. reflexivity. Qed.

(** ** The width of a number *)

Lemma length_string_of_uint u : String.length (NilEmpty.string_of_uint u) = Decimal.nb_digits u.
Proof. induction u; cbn; congruence. Qed.

Lemma of_uint_acc_ge u acc : (N.pos acc * 10 ^ N.of_nat (Decimal.nb_digits u) <= N.pos (Pos.of_uint_acc u acc))%N.
Proof.
  revert acc. induction u; intros acc; [cbn; lia|..].
  all: cbn [Decimal.nb_digits Pos.of_uint_acc]; rewrite Nat2N.inj_succ, N.pow_succ_r'.
  all: match goal with IH : ∀ _, _ |- (_ <= N.pos (Pos.of_uint_acc _ ?a))%N => specialize (IH a) end; nia.
Qed.

(** A number below [10 ^ k] has at most [k] digits. *)
Lemma length_str_N n k : (n < 10 ^ N.of_nat k)%N → (0 < k)%nat → (String.length (str_N n) <= k)%nat.
Proof.
  intros Hn Hk. unfold str_N, NilZero.string_of_uint.
  pose proof (DecimalN.Unsigned.of_to n) as Hof. pose proof (DecimalN.Unsigned.to_of (N.to_uint n)) as Hto.
  rewrite Hof in Hto. set (u := N.to_uint n) in *. clearbody u.
  assert (∀ v acc, N.of_uint u = N.pos (Pos.of_uint_acc v acc) → (Decimal.nb_digits v < k)%nat) as Hlen.
  { intros v acc Hv. pose proof (of_uint_acc_ge v acc) as Hge. rewrite <- Hv, Hof in Hge.
    assert (10 ^ N.of_nat (Decimal.nb_digits v) < 10 ^ N.of_nat k)%N as Hlt by nia.
    apply N.pow_lt_mono_r_iff in Hlt; lia. }
  destruct u as [|u|u|u|u|u|u|u|u|u|u]; [done|..]; cbn [NilEmpty.string_of_uint String.length].
  2-10: rewrite length_string_of_uint; eapply (Hlen u); reflexivity.
  unfold Decimal.unorm in Hto. cbn [Decimal.nzhead] in Hto. destruct (Decimal.nzhead u) eqn:Eu; try discriminate Hto.
  - injection Hto as ->. cbn. lia.
  - by apply nzhead_nonzero in Eu.
Qed.

Lemma int_digits_zeros k s : s ≠ EmptyString → int_digits (repeat_str k "0" +:+ s) = int_digits s.
Proof.
  intros Hs. induction k as [|k IH]; [done|]. rewrite <- IH.
  change (repeat_str (S k) "0" +:+ s) with (String "0" (repeat_str k "0" +:+ s)).
  set (t := repeat_str k "0" +:+ s). assert (t ≠ EmptyString) as Ht.
  { intros [_ ?]%app_str_nil_inv. done. }
  clearbody t. unfold int_digits.
  assert (NilZero.uint_of_string t = NilEmpty.uint_of_string t) as -> by by destruct t.
  change (NilZero.uint_of_string (String "0" t)) with (uint_of_char "0" (NilEmpty.uint_of_string t)).
  by destruct (NilEmpty.uint_of_string t).
Qed.

Lemma zfill_inj w a b : zfill w a = zfill w b → a = b.
Proof.
  unfold zfill. intros E%(f_equal int_digits). rewrite !int_digits_zeros in E by apply str_N_nonempty.
  unfold str_nat in E. rewrite !int_digits_str_N in E. injection E. lia.
Qed.
Lemma length_repeat_char k c : String.length (repeat_str k (String c EmptyString)) = k.
Proof. induction k as [|k IH]; [done|]. cbn [repeat_str]. rewrite length_app_str. cbn. by rewrite IH. Qed.
Lemma length_zfill w a : (N.of_nat a < 10 ^ N.of_nat w)%N → (0 < w)%nat → String.length (zfill w a) = w.
Proof.
  intros Ha Hw. unfold zfill. rewrite length_app_str, length_repeat_char.
  pose proof (length_str_N _ _ Ha Hw). unfold str_nat. lia.
Qed.

Lemma app_str_inj_len s s' t t' : String.length s = String.length s' → s +:+ t = s' +:+ t' → s = s'.
Proof.
  revert s'. induction s as [|c s IH]; intros [|c' s'] Hl; try done. rewrite !app_str_cons.
  intros [= -> E]. f_equal. apply IH; [|done]. by injection Hl.
Qed.

(** ** The properties *)

(** The sequence numbers of a run [parse_args] accepts. *)
Definition admitted (sequence : Z) : Prop := 1 <= sequence <= 999999.

(** The messages of BT-06.  For the sequence numbers and sizes [parse_args] admits,
    [exact_payload] does not raise: the text has exactly the requested size, and texts of
    different messages differ. *)
Theorem payload_exact (sequence size : Z) :
  admitted sequence → 32 <= size →
  ∃ p, exact_payload sequence size = Ok p ∧ Z.of_nat (String.length p) = size ∧
    ∀ sequence', admitted sequence' → exact_payload sequence' size = Ok p → sequence' = sequence.
Proof.
  unfold admitted. intros Hs Hz. assert (∀ q, 1 <= q <= 999999 → String.length (zfill 6 (Z.to_nat q)) = 6%nat) as Hl.
  { intros q Hq. apply length_zfill; [|lia]. change (10 ^ N.of_nat 6)%N with 1000000%N. lia. }
  assert (∀ q, 1 <= q <= 999999 → exact_payload q size =
    Ok ("BT06_MSG_" +:+ zfill 6 (Z.to_nat q) +:+ "_" +:+ repeat_str (Z.to_nat (size - 16)) "X")) as Hp.
  { intros q Hq. unfold exact_payload. rewrite Hl by done. change (Z.of_nat (String.length "BT06_MSG_")) with 9.
    replace (size - 9 - Z.of_nat 6 - 1) with (size - 16) by lia. rewrite (proj2 (Z.ltb_ge _ _)) by lia. done. }
  eexists. split; [by apply Hp|]. split.
  - rewrite !length_app_str, Hl, length_repeat_char by done. cbn [String.length]. lia.
  - intros q Hq. rewrite Hp by done. intros E.
    assert (∀ x y : string, Ok x = Ok y → x = y) as Hok by congruence.
    apply Hok, app_str_inj_l, app_str_inj_len in E; [|by rewrite !Hl]. apply zfill_inj in E. lia.
Qed.

Lemma payload_exact_witness :
  ∃ p, exact_payload 7 40 = Ok p ∧ Z.of_nat (String.length p) = 40 ∧
    ∀ sequence', admitted sequence' → exact_payload sequence' 40 = Ok p → sequence' = 7.
Proof. apply (payload_exact 7 40); unfold admitted; lia. Defined.

Lemma mean_tick_nonneg mode a : args_error a = None → (0 <= mean_tick mode a)%Q.
Proof.
  intros (_ & _ & Hc & Hl)%args_bounds. unfold mean_tick, fdiv, fint. case_bool_decide; apply fl_nonneg.
  - apply Qle_shift_div_l; [done|]. rewrite Qmult_0_l. apply fl_nonneg. rewrite <- Zle_Qle with (x := 0). lia.
  - apply Qle_shift_div_l; [done|]. lra.
Qed.

(** C21: the ACK-gated series.  With arguments [parse_args] accepts the series ends, and when
    it returns, its controls are those of messages 1 to [--messages] in order; the wait
    before each message is a function of the seed and the mode alone - the numbers of
    [random.Random(seed)] scaled to the mean tick - and lies in the phase window.  And what
    it did is what the controls say, message by message ([series_calls]): it slept for the
    wait, counted the queued and acknowledged messages in the sender's log, gave the sender
    the message of that number, and gave the clients nothing more until it had read a
    larger count of queued and then one of acknowledged messages and found both clients
    alive.  So no message is sent before the acknowledgement of the one before was seen. *)
Theorem series_reproducible {W} `{Clock W} sender receiver mode (a : bt06_args) (st : hst W) :
  args_error a = None →
  ∃ r st', returns (run_ack_gated_series sender receiver mode a) st r st' ∧
    ∀ controls, r = Ok controls → series_controls mode a (a_messages a) controls ∧
      ∃ l, trace st' = trace st ++ l ∧ series_calls sender receiver (a_message_size a) controls l.
Proof.
  intros Ha. destruct (total_post (run_ack_gated_series sender receiver mode a) _ _ st
    (run_ack_gated_series_total sender receiver mode a)
    (λ n, calls_series sender receiver mode a (mean_tick_nonneg mode a Ha) n st)) as (r & st' & Hr & Hpost).
  exists r, st'. split; [done|]. intros controls ->. destruct Hpost as (l & Hl & Hc & Hs). eauto.
Qed.

(** On the testbed the series returns. *)
Lemma sample_series_ends n (_ : nat) :
  returns_at (run_ack_gated_series (sender_of sample_setup) (receiver_of sample_setup) "cbr" sample_args)
    (λ controls _, bool_decide (map c_sequence controls = [1])) (60 + n) sample_bench = true.
Proof. vm_compute. reflexivity. Qed.
Lemma series_reproducible_witness :
  ∃ controls st' l,
    returns (run_ack_gated_series (sender_of sample_setup) (receiver_of sample_setup) "cbr" sample_args)
      sample_bench (Ok controls) st' ∧ map c_sequence controls = [1] ∧
    series_controls "cbr" sample_args 1 controls ∧ trace st' = trace sample_bench ++ l ∧
    series_calls (sender_of sample_setup) (receiver_of sample_setup) 32 controls l.
Proof.
  destruct (series_reproducible (sender_of sample_setup) (receiver_of sample_setup) "cbr" sample_args sample_bench eq_refl)
    as (r & st' & Hr & Hpost).
  destruct (returns_evaluated 60 _ _ _ _ _ Hr sample_series_ends) as (controls & -> & Hc).
  destruct (Hpost controls eq_refl) as (H1 & l & Hl & H2). exists controls, st', l.
  split_and!; [done|exact (bool_decide_eq_true_1 _ (Hc 0%nat))|done..].
Defined.


(** On the testbed the mode returns, and rows are made of its documents. *)
Lemma sample_mode_passes n (_ : nat) :
  returns_at (run_mode any_repr sample_setup sample_args)
    (λ _ s, bool_decide (rows_written "cbr" (saved (trace s)) = Some [(1, "a1")])) (300 + n) sample_bench = true.
Proof. vm_compute. reflexivity. Qed.


Lemma session_status s z ps rows : session_result s = (Ok z, ps, rows) → s = (Ok z, s.2).
Proof. destruct s as [r st]. unfold session_result. cbn. by intros [= -> _ _]. Qed.
