(* ===== verification/Volume.v ===== *)
(** * BT-05/analyze.py: the volumes of the two modes compared

    Reading the summaries BT-05/orchestrator.py writes ([load_summary]), the table, the
    comparison and the plot, and the script's [main].  [py_repr] stands for Python's [repr]
    of floats and containers, which only appears in printed lines. *)

From Stdlib Require Import Ascii ZArith QArith Qabs Lia.
From stdpp Require Import base list strings sorting sets.
From S2P Require Import Prelude PyNum PyText Host Json Console Events Latency.

Open Scope Z_scope.

(** The columns of the table; [load_summary] requires the same keys. *)
Definition FIELDS : list string :=
  ["mode"; "messages"; "payload_size"; "V_user"; "V_total"; "overhead_percent"; "expansion_factor"; "duration_seconds";
   "messages_received"; "acks_delivered"; "captured_packets"; "tor_client_node"; "tor_or_event_count";
   "tor_or_read_bytes"; "tor_or_written_bytes"; "server_edge_bytes"].

(** The checks of [load_summary] on the document it read. *)
Definition check_fields (p : path) (data : json) : res unit :=
  match data with
  | JObj d =>
      let missing := merge_sort str_le (filter (λ k, bool_decide (k ∈ dict_keys d) = false) FIELDS) in
      fail_if (negb (bool_decide (missing = []))) AnalysisError (p +:+ " is missing fields: " +:+ join ", " missing)
  | _ => fail AttributeError "object has no attribute 'keys'"
  end.

(** [cbr[k] != poisson[k]] *)
Definition differ (k : string) (cbr poisson : json) : res bool :=
  x ← jget k cbr; y ← jget k poisson; mret (negb (json_eqb x y)).
Definition comparable (cbr poisson : json) : res unit :=
  b ← differ "messages" cbr poisson;
  fail_if b AnalysisError "CBR and Poisson used different message counts";;
  b ← differ "payload_size" cbr poisson;
  fail_if b AnalysisError "CBR and Poisson used different payload sizes";;
  b ← differ "V_user" cbr poisson;
  fail_if b AnalysisError "CBR and Poisson used different V_user".

Definition float_field (k : string) (row : json) : res Q := v ← jget k row; float_of v.
(** [{key: row[key] for key in fields}], as the values in the order of the columns *)
Definition row_values (row : json) : res (list json) := foldr (λ k acc, v ← jget k row; l ← acc; mret (v :: l)) (mret []) FIELDS.
Fixpoint table_rows (rows : list json) : res (list (list json)) :=
  match rows with
  | [] => mret []
  | row :: rest => v ← row_values row; l ← table_rows rest; mret (v :: l)
  end.

Definition NOTE : string :=
  "The absolute difference is |N_CBR - N_Poisson|. No expected winner or target overhead is used as a test criterion.".
Definition overhead_difference (cbr poisson : json) : res Q :=
  x ← float_field "overhead_percent" cbr; y ← float_field "overhead_percent" poisson; mret (Qabs (fsub x y)).
Definition comparison (cbr poisson : json) : res json :=
  delta_abs ← overhead_difference cbr poisson;
  n1 ← jget "overhead_percent" cbr; n2 ← jget "overhead_percent" poisson;
  t1 ← jget "V_total" cbr; t2 ← jget "V_total" poisson;
  e1 ← jget "expansion_factor" cbr; e2 ← jget "expansion_factor" poisson;
  mret (JObj [("N_CBR_percent", n1); ("N_Poisson_percent", n2); ("absolute_difference_percent_points", JFloat delta_abs);
              ("V_total_CBR", t1); ("V_total_Poisson", t2); ("E_CBR", e1); ("E_Poisson", e2); ("note", JStr NOTE)]).

(** What [write_plot] computes of a row: the label, the bar and the text on it. *)
Definition bar_label (row : json) : res unit :=
  m ← jget "mode" row;
  match m with JStr _ => mret tt | _ => fail AttributeError "object has no attribute 'upper'" end.
Definition bar_height (row : json) : res Q := v ← float_field "V_total" row; mret (fdiv v (inject_Z 1048576)).
Definition bar_text (row : json) : res string :=
  n ← float_field "overhead_percent" row;
  e ← float_field "expansion_factor" row;
  mret ("N=" +:+ fmt_fixed 2 n +:+ "%" +:+ nl +:+ "E=" +:+ fmt_fixed 2 e +:+ "x").

Section volume.
Context (py_repr : json → string) {W : Type} `{Host W}.

Definition load_summary (root mode : string) : M (hst W) json :=
  let p := joinpath (joinpath root mode) "volumetric_summary.json" in
  e ← call (EExists p);
  raise_if (negb e) AnalysisError ("Missing " +:+ p);;
  data ← call (EReadJson p);
  of_res (check_fields p data);;
  mret data.

Definition write_csv (root : path) (rows : list json) : M (hst W) path :=
  let p := joinpath root "volumetric_results.csv" in
  values ← of_res (table_rows rows);
  call (EWriteCsv p (map JStr FIELDS :: values));;
  mret p.

Definition write_comparison (root : path) (cbr poisson : json) : M (hst W) path :=
  let p := joinpath root "volumetric_comparison.json" in
  c ← of_res (comparison cbr poisson);
  call (EWriteJson p c);;
  mret p.

Definition write_plot (root : path) (rows : list json) : M (hst W) path :=
  let p := joinpath root "volumetric_comparison.png" in
  for_unit rows (λ row, of_res (bar_label row));;
  for_unit rows (λ row, of_res (bar_height row);; mret tt);;
  for_unit rows (λ row, of_res (bar_text row);; mret tt);;
  call (ESavePlots p);;
  mret p.

Definition print_row (row : json) : M (hst W) unit :=
  line ← of_res (
    mode ← jget "mode" row; messages ← jget "messages" row; u ← jget "V_user" row; t ← jget "V_total" row;
    n ← float_field "overhead_percent" row; e ← float_field "expansion_factor" row;
    d ← float_field "duration_seconds" row;
    mret ("[+] " +:+ py_str py_repr mode +:+ ": messages=" +:+ py_str py_repr messages +:+ ", V_user="
      +:+ py_str py_repr u +:+ " B, Tor_OR_V_total=" +:+ py_str py_repr t +:+ " B, N=" +:+ fmt_fixed 4 n +:+ "%, E="
      +:+ fmt_fixed 4 e +:+ "x, duration=" +:+ fmt_fixed 3 (fdiv d 3600) +:+ " h"));
  print line.

(** [main] after [parse_args] *)
Definition volume_main (result_root : path) : M (hst W) Z :=
  root ← call (EResolve result_root);
  cbr ← load_summary root "cbr";
  poisson ← load_summary root "poisson";
  let rows := [cbr; poisson] in
  of_res (comparable cbr poisson);;
  csv_path ← write_csv root rows;
  comparison_path ← write_comparison root cbr poisson;
  plot_path ← write_plot root rows;
  print ("[+] Wrote " +:+ csv_path);;
  print ("[+] Wrote " +:+ comparison_path);;
  print ("[+] Wrote " +:+ plot_path);;
  for_unit rows print_row;;
  delta ← of_res (overhead_difference cbr poisson);
  print ("[i] |N_CBR - N_Poisson| = " +:+ fmt_fixed 4 delta +:+ " percentage points");;
  mret 0.

(** [raise SystemExit(main())], with the handler around it *)
Definition volume_script (result_root : path) : M (hst W) Z :=
  try_except (volume_main result_root)
    (except [Exception_] (λ exc, eprint ("[!] BT-05 analysis failed: " +:+ ex_msg exc);; mret 1)).
End volume.
