(* ===== verification/Bt05.v ===== *)
(** * BT-05/orchestrator.py: the volumetric benchmark

    What the volume of a mode is measured with - the monitor of the Tor node's
    connections, the capture at the server's edge, the series of messages - a mode with
    its files ([bt05_run_mode]) and the whole run ([bt05_main]).  Consoles, events and clocks
    are in Console.v, Events.v and Calibration.v, the testbed in Testbed.v.

    The monitor's thread is not a process of its own here: what it has read so far is an
    answer of the host ([EReaderThread]), and [poll] does with it what the thread does. *)

From Stdlib Require Import Ascii ZArith QArith Qabs Lia Lqa.
From Stdlib Require Import Strings.Byte.
From stdpp Require Import base list strings sorting sets.
From S2P Require Import Prelude PyNum PyText Host Json Wire Console Events Calibration Waiting Testbed.

Open Scope Z_scope.

(** ** The monitor of the Tor connections *)

Definition non_space (c : ascii) : bool := negb (is_space c).
Definition CONN_BW_RE : re :=
  cats [Bol; Lit "650 CONN_BW ID="; Grp (Plus non_space); Lit " TYPE="; Grp (Plus non_space); Lit " READ=";
        Grp (Plus is_digit); Lit " WRITTEN="; Grp (Plus is_digit)].
(** [r"^\d{3} "] *)
Definition REPLY_RE : re := cats [Bol; Many 3 (Some 3%nat) is_digit; Lit " "].

(** [(time_ns, conn_id, conn_type, read, written)] *)
Record conn_event : Type := ConnEv {
  ce_ns : Z; ce_id : string; ce_type : string; ce_read : Z; ce_written : Z }.

(** The event of a line the thread read at time [ns]. *)
Definition conn_event_of (ns : Z) (raw : bytes) : option conn_event :=
  match re_matches CONN_BW_RE (rstrip_crlf (decode raw)) with
  | Some caps => Some (ConnEv ns (group 1 caps) (group 2 caps) (group_int 3 caps) (group_int 4 caps))
  | None => None
  end.

(** The attributes; [m_running] while the thread reads, [m_error] what ended it. *)
Record monitor : Type := Monitor {
  m_sock : option sock; m_running : bool; m_events : list conn_event; m_error : option exn }.
Definition new_monitor : monitor := Monitor None false [] None.
Definition set_sock (s : sock) (m : monitor) : monitor := Monitor (Some s) (m_running m) (m_events m) (m_error m).
Definition set_running (m : monitor) : monitor := Monitor (m_sock m) true (m_events m) (m_error m).

(** The rounds of [_run], on what its [readline] gave. *)
Fixpoint run_items (items : list read_item) (m : monitor) : monitor :=
  match items with
  | [] => m
  | RLine ns raw :: rest =>
      if bool_decide (raw = []) then Monitor (m_sock m) false (m_events m) (m_error m)
      else run_items rest
             (Monitor (m_sock m) (m_running m)
                (match conn_event_of ns raw with Some e => m_events m ++ [e] | None => m_events m end) (m_error m))
  | RFail x :: _ =>
      Monitor (m_sock m) false (m_events m) (if isinstance x Exception_ then Some x else m_error m)
  end.

Section monitor.
Context {W : Type} `{Host W}.

Definition MM : Type → Type := M (monitor * hst W).

(** What the thread did until now. *)
Definition poll : MM unit :=
  m ← get_local;
  match m_sock m, m_running m with
  | Some s, true => items ← lift (call (EReaderThread s)); set_local (run_items items)
  | _, _ => mret tt
  end.

Definition read_reply_step (raw : bytes) (lines : list string) : M (hst W) (list string + list string) :=
  raise_if (bool_decide (raw = [])) Bt05Error "Tor control connection closed while waiting for reply";;
  let line := rstrip_crlf (decode raw) in
  mret (match re_matches REPLY_RE line with Some _ => inr (lines ++ [line]) | None => inl (lines ++ [line]) end).
Definition read_reply (s : sock) : M (hst W) (list string) :=
  iter (λ lines, raw ← call (EReadLine s); read_reply_step raw lines) [].

(** A command of the control port, which must be answered with 250. *)
Definition control_command (s : sock) (command failure : string) : M (hst W) unit :=
  call (ESendAll s (encode command ++ [x0d; x0a]));;
  reply ← read_reply s;
  raise_if (negb (starts_with "250 " (default EmptyString (last reply)))) Bt05Error
    (failure +:+ join " | " reply).

Definition monitor_start (control_port : Z) : MM unit :=
  s ← lift (call (EConnect "127.0.0.1" control_port 5));
  set_local (set_sock s);;
  lift (call (ESetTimeout s None));;
  lift (control_command s "AUTHENTICATE" "Tor control AUTHENTICATE failed: ");;
  lift (control_command s "SETEVENTS CONN_BW" "Tor does not support CONN_BW events: ");;
  set_local set_running.

Definition monitor_mark : MM nat := poll;; m ← get_local; mret (length (m_events m)).
Definition monitor_since (mark : nat) : MM (list conn_event) := poll;; m ← get_local; mret (drop mark (m_events m)).

(** The stop event is set first: what the thread reads later is not looked at, and an
    exception it raises is not stored. *)
Definition monitor_stop : MM unit :=
  poll;;
  m ← get_local;
  match m_sock m with
  | Some s =>
      lift (try_except (call (EShutdown s)) (except [OSError] (λ _, mret tt)));;
      lift (call (EClose s))
  | None => mret tt
  end;;
  match m_error m with
  | Some x => throw Bt05Error ("Tor CONN_BW monitor failed: " +:+ ex_msg x)
  | None => mret tt
  end.
End monitor.

(** ** The capture at the server's edge *)

(** [path.with_suffix(suffix)], for a name that neither begins nor ends with a dot *)
Fixpoint cut_suffix (s : string) : option string :=
  match s with
  | EmptyString => None
  | String c t =>
      match cut_suffix t with
      | Some u => Some (String c u)
      | None => if bool_decide (c = "."%char) && negb (contains "/" t) then Some EmptyString else None
      end
  end.
Definition with_suffix (p : path) (suffix : string) : path := default p (cut_suffix p) +:+ suffix.

Definition capture_filter (server_ip : string) : string :=
  "tcp and host " +:+ server_ip +:+ " and port " +:+ str_Z SERVER_PORT.
Definition tcpdump_cmd (server_ip : string) (p : path) : list string :=
  ["sudo"; "tcpdump"; "-i"; "virbr0"; "-nn"; "-s"; "0"; "-w"; p; "tcp"; "and"; "host"; server_ip; "and"; "port";
   str_Z SERVER_PORT].
Definition tshark_cmd (server_ip : string) (p : path) : list string :=
  ["sudo"; "tshark"; "-i"; "virbr0"; "-f"; capture_filter server_ip; "-w"; p].

Section measuring.
Context {W : Type} `{Host W}.

Definition start_server_edge_capture (server_ip : string) (p : path) : M (hst W) pid :=
  let log_path := with_suffix p ".capture.log" in
  tcpdump ← call (EWhich "tcpdump");
  let cmd := if tcpdump : bool then tcpdump_cmd server_ip p else tshark_cmd server_ip p in
  info ("Starting supplementary server-edge PCAP capture: " +:+ shlex_join cmd);;
  log_file ← call (EOpenW log_path);
  proc ← call (EPopen cmd (Some log_file));
  call (ECloseFile log_file);;
  sleep 1;;
  rc ← call (EPoll proc);
  match rc with
  | Some _ =>
      text ← call (EReadText log_path);
      let detail := strip text in
      throw Bt05Error ("PCAP capture process exited immediately"
        +:+ (if bool_decide (detail = EmptyString) then EmptyString else ":" +:+ nl +:+ detail))
  | None => mret proc
  end.

Definition stop_capture (proc : option pid) : M (hst W) unit :=
  match proc with
  | None => mret tt
  | Some p =>
      rc ← call (EPoll p);
      match rc with
      | Some _ => mret tt
      | None =>
          call (ESigint p);;
          try_except (call (EWaitProc p (Some 10%Q));; mret tt)
            (except [TimeoutExpired] (λ _,
               call (ETerminate p);;
               try_except (call (EWaitProc p (Some 3%Q));; mret tt)
                 (except [TimeoutExpired] (λ _,
                    call (EKill p);; call (EWaitProc p (Some 2%Q));; mret tt))))
      end
  end.

(** [f"{value!r}"] of a text *)
Context (str_repr : string → string).

(** One line of tshark's output: the packets and bytes so far. *)
Definition frame_len (proc : pid) (raw_line : string) (acc : Z * Z) : M (hst W) (Z * Z) :=
  let value := strip raw_line in
  if bool_decide (value = EmptyString) then mret acc
  else match py_int value with
       | Some z => mret (acc.1 + 1, acc.2 + z)
       | None => call (EKill proc);; throw Bt05Error ("Unexpected frame.len from tshark: " +:+ str_repr value)
       end.

Definition pcap_wire_volume (p : path) : M (hst W) (Z * Z) :=
  there ← call (EExists p);
  empty ← (if there : bool then st ← call (EStat p); mret (st_size st =? 0) else mret true);
  raise_if empty Bt05Error ("Missing or empty PCAP: " +:+ p);;
  proc ← call (EPopen ["tshark"; "-r"; p; "-T"; "fields"; "-e"; "frame.len"] None);
  lines ← call (EStdoutLines proc);
  acc ← for_acc lines (frame_len proc) (0, 0);
  stderr ← call (EStderrText proc);
  return_code ← call (EWaitProc proc None);
  raise_if (negb (return_code =? 0)) Bt05Error ("tshark failed while reading " +:+ p +:+ ": " +:+ strip stderr);;
  raise_if (acc.1 =? 0) Bt05Error ("PCAP contains no packets for the measured server flow: " +:+ p);;
  mret acc.

Definition is_or (e : conn_event) : bool := bool_decide (ce_type e = "OR").
Definition conn_row (e : conn_event) : list json :=
  [JInt (ce_ns e); JStr (ce_id e); JStr (ce_type e); JInt (ce_read e); JInt (ce_written e)].
Definition CONN_HEADER : list json :=
  [JStr "timestamp_ns"; JStr "conn_id"; JStr "type"; JStr "read_bytes"; JStr "written_bytes"].
Definition zsum (l : list Z) : Z := foldr Z.add 0 l.
Definition write_tor_conn_bw (p : path) (events : list conn_event) : M (hst W) (Z * Z * Z) :=
  let or_events := filter (λ e, is_or e = true) events in
  raise_if (bool_decide (or_events = [])) Bt05Error "No Tor CONN_BW TYPE=OR events were captured";;
  call (EWriteCsv p (CONN_HEADER :: map conn_row or_events));;
  mret (zlength or_events, zsum (map ce_read or_events), zsum (map ce_written or_events)).
End measuring.

(** ** The series *)

Definition ACTION_FORMAT (alias : string) (filler_length : Z) : string :=
  "send " +:+ alias +:+ " BT05_MSG_%06d_" +:+ repeat_str (Z.to_nat filler_length) "X" +:+ "\n".
(** The loop of the guest's shell that writes the messages to the client. *)
Definition queue_command (format_string : string) (count : Z) : string :=
  "i=1; while [ " +:+ dq +:+ "$i" +:+ dq +:+ " -le " +:+ str_Z count +:+ " ]; do printf "
    +:+ shlex_quote format_string +:+ " " +:+ dq +:+ "$i" +:+ dq +:+ " >&3; i=$((i+1)); done".

Definition auto_timeout_seconds (messages : Z) (mode : string) (cbr_interval_ms : Z) (poisson_lambda : Q) : Q :=
  let mean_tick := if bool_decide (mode = "cbr") then fdiv (fint cbr_interval_ms) 1000 else fdiv 1 poisson_lambda in
  let expected := fmul (fmul 2 (fint messages)) mean_tick in
  Qmax_py 600 (fadd (fmul expected (3 # 2)) 600).

(** What the loop that waits for the series remembers. *)
Record progress : Type := Progress { next_progress : Q; last_rx : Z; last_ack : Z }.

Section series.
Context {W : Type} `{Host W}.

Definition queue_messages (client : ClientHandle) (count size : Z) : M (hst W) unit :=
  raise_if (999999 <? count) Bt05Error
    "BT-05 message count cannot exceed 999999 with the current sequence format";;
  let filler_length := size - 9 - 6 - 1 in
  raise_if (filler_length <? 1) Bt05Error "Message size is too small for BT-05 sequence prefix";;
  let format_string := ACTION_FORMAT (peer_alias client) filler_length in
  before ← client_log_count (console client) "BT05_EVENT QUEUE";
  info ("Queuing " +:+ str_Z count +:+ " unique messages of exactly " +:+ str_Z size +:+ " B on " +:+ vm client +:+ "...");;
  let timeout := Qmax_py 300 (fmul (fint count) 2) in
  console_cmd (console client) (queue_command format_string count) timeout true;;
  wait_client_log_count (console client) "BT05_EVENT QUEUE" (before + count) timeout;;
  ok ("Queued all " +:+ str_Z count +:+ " benchmark messages").

(** [min(30.0, max(1.0, progress_interval))] *)
Definition round_pause (progress_interval : Q) : Q := Qmin_py 30 (Qmax_py 1 progress_interval).

(** One round, after [time.monotonic() < deadline]; [inr] returns. *)
Definition completion_round (sender receiver : ClientHandle) (expected : Z) (progress_interval : Q) (p : progress)
  : M (hst W) (progress + Z * Z) :=
  now ← monotonic;
  rx_count ← client_log_count (console receiver) "BT05_EVENT RX";
  ack_count ← client_log_count (console sender) "BT05_EVENT ACK";
  if (expected <=? rx_count) && (expected <=? ack_count) then
    ok ("Series complete: RX=" +:+ str_Z rx_count +:+ "/" +:+ str_Z expected +:+ ", ACK=" +:+ str_Z ack_count
          +:+ "/" +:+ str_Z expected);;
    mret (inr (rx_count, ack_count))
  else
    la ← client_alive (console sender);
    lb ← (if la : bool then client_alive (console receiver) else mret false);
    raise_if (negb lb) Bt05Error "A client exited while the BT-05 series was in progress";;
    if Qle_bool (next_progress p) now || negb (rx_count =? last_rx p) || negb (ack_count =? last_ack p) then
      info ("Progress: RX=" +:+ str_Z rx_count +:+ "/" +:+ str_Z expected +:+ ", ACK=" +:+ str_Z ack_count
              +:+ "/" +:+ str_Z expected);;
      mret (inl (Progress (fadd now progress_interval) rx_count ack_count))
    else mret (inl p).

Definition wait_for_series_completion (sender receiver : ClientHandle) (expected : Z) (timeout progress_interval : Q)
  : M (hst W) (Z * Z) :=
  info ("Waiting for " +:+ str_Z expected +:+ " RX events and " +:+ str_Z expected +:+ " end-to-end ACKs (timeout "
          +:+ fmt_fixed 2 (fdiv timeout 3600) +:+ " h)...");;
  t ← monotonic;
  r ← poll_from (fadd t timeout) (round_pause progress_interval)
        (completion_round sender receiver expected progress_interval) (Progress 0 (-1) (-1));
  match r with
  | Some counts => mret counts
  | None =>
      rx ← client_log_count (console receiver) "BT05_EVENT RX";
      ack ← client_log_count (console sender) "BT05_EVENT ACK";
      throw Bt05Error ("Timed out waiting for series completion: RX=" +:+ str_Z rx +:+ "/" +:+ str_Z expected
        +:+ ", ACK=" +:+ str_Z ack +:+ "/" +:+ str_Z expected)
  end.

(** [text + ("\n" if text and not text.endswith("\n") else "")] *)
Definition newline_for (text : string) : string :=
  if negb (bool_decide (text = EmptyString)) && negb (ends_with nl text) then nl else EmptyString.
Definition collect_client_log (child : pid) (destination : path) : M (hst W) unit :=
  text ← remote_cat child REMOTE_CLIENT_LOG;
  call (EWriteText destination (strip_ansi text +:+ newline_for text)).

Definition SNAPSHOT_NOTE : string :=
  "QUEUE is the application enqueue timestamp. TX is sampled immediately before the corresponding serialized frame is submitted to async_write. RX is recorded after receiver decrypt/process/cache. BT-06 uses TX -> RX as end-to-end latency. QUEUE -> TX is retained separately as local queue/scheduler delay. VM system_clock timestamps must be corrected with clock_calibration.json.".
Definition stamp_json (e : Z * string) : json := JObj [("timestamp_ns", JInt e.1); ("msg_id", JStr e.2)].
Definition snapshot_json (s : series) (transmitted : list (Z * string * string)) : json :=
  JObj [("queue", JList (map stamp_json (queued s)));
        ("tx", JList (map (λ t, JObj [("timestamp_ns", JInt t.1.1); ("msg_id", JStr t.1.2); ("frame_hash", JStr t.2)])
                        transmitted));
        ("rx", JList (map stamp_json (received s))); ("ack", JList (map stamp_json (acked s)));
        ("note", JStr SNAPSHOT_NOTE)].
Definition write_event_snapshot (p : path) (s : series) (transmitted : list (Z * string * string)) : M (hst W) unit :=
  call (EWriteJson p (snapshot_json s transmitted)).
End series.

(** ** One mode *)

(** The arguments, as [parse_args] returns them. *)
Record bt05_args : Type := {
  v_mode : string; v_messages : Z; v_message_size : Z; v_cbr_interval_ms : Z; v_poisson_lambda : Q;
  v_timeout_seconds : Q; v_progress_interval_seconds : Q; v_skip_analysis : bool; v_keep_environment : bool }.

(** The checks of [parse_args] after the parser. *)
Definition bt05_args_error (a : bt05_args) : option string :=
  if v_messages a <=? 0 then Some "--messages must be > 0"
  else if 999999 <? v_messages a then Some "--messages must be <= 999999"
  else if v_message_size a <? 32 then Some "--message-size must be >= 32"
  else if v_cbr_interval_ms a <=? 0 then Some "--cbr-interval-ms must be > 0"
  else if Qle_bool (v_poisson_lambda a) 0 then Some "--poisson-lambda must be > 0"
  else if Qlt_bool (v_timeout_seconds a) 0 then Some "--timeout-seconds must be >= 0"
  else if Qle_bool (v_progress_interval_seconds a) 0 then Some "--progress-interval-seconds must be > 0"
  else None.

(** What [run_mode] is given beside the arguments. *)
Record volume_setup : Type := {
  v_name : string; v_commit : string; v_dirty : bool; v_testbed : testbed; v_mode_dir : path }.
Definition v_user (a : bt05_args) : Z := v_messages a * v_message_size a.

(** The attributes of the run's [ModeRun], in their order. *)
Definition VolumeRun (started_at : string) (s : volume_setup) (a : bt05_args) : list (string * json) :=
  let t := v_testbed s in
  [("started_at", JStr started_at); ("finished_at", JStr EmptyString); ("commit", JStr (v_commit s));
   ("dirty_worktree", JBool (v_dirty s)); ("mode", JStr (v_name s)); ("messages_requested", JInt (v_messages a));
   ("message_size", JInt (v_message_size a)); ("v_user_bytes", JInt (v_user a));
   ("cbr_interval_ms", JInt (v_cbr_interval_ms a)); ("poisson_lambda", JFloat (v_poisson_lambda a));
   ("poisson_min_clamp_ms", JInt 100); ("pfs_message_interval", JInt PFS_MESSAGE_INTERVAL);
   ("server_ip", JStr (t_server_ip t)); ("client_a_ip", JStr (t_client_a_ip t)); ("client_b_ip", JStr (t_client_b_ip t));
   ("onion", JStr EmptyString); ("capture_interface", JStr "virbr0");
   ("capture_filter", JStr (capture_filter (t_server_ip t))); ("tor_client_node", JStr (node_name (t_client_tor t)));
   ("tor_client_socks_port", JInt (node_socks_port (t_client_tor t)));
   ("tor_client_control_port", JInt (control_port (t_client_tor t)));
   ("tor_or_read_bytes", JInt 0); ("tor_or_written_bytes", JInt 0); ("tor_or_event_count", JInt 0);
   ("tor_traffic_read_delta", JInt 0); ("tor_traffic_written_delta", JInt 0); ("server_edge_packets", JInt 0);
   ("server_edge_bytes", JInt 0); ("messages_queued", JInt 0); ("messages_transmitted", JInt 0);
   ("messages_received", JInt 0); ("acks_delivered", JInt 0); ("unique_message_ids", JInt 0);
   ("captured_packets", JInt 0); ("v_total_bytes", JInt 0); ("overhead_percent", JNull); ("expansion_factor", JNull);
   ("duration_seconds", JFloat 0); ("client_a_alive_end", JBool false); ("client_b_alive_end", JBool false);
   ("server_alive_end", JBool false); ("result", JStr "incomplete")].

(** The locals that the [except] and the [finally] of [run_mode] read. *)
Record volume_locals : Type := VLoc {
  vmeta : list (string * json); vpre : list (string * json); vpost : list (string * json);
  v_capture : option pid; v_monitor : option monitor; v_started : option Q }.
Definition set_vmeta (k : string) (v : json) (l : volume_locals) : volume_locals :=
  VLoc (dict_set k v (vmeta l)) (vpre l) (vpost l) (v_capture l) (v_monitor l) (v_started l).
Definition set_vpre (k : string) (v : json) (l : volume_locals) : volume_locals :=
  VLoc (vmeta l) (dict_set k v (vpre l)) (vpost l) (v_capture l) (v_monitor l) (v_started l).
Definition set_vpost (k : string) (v : json) (l : volume_locals) : volume_locals :=
  VLoc (vmeta l) (vpre l) (dict_set k v (vpost l)) (v_capture l) (v_monitor l) (v_started l).
Definition set_capture (c : option pid) (l : volume_locals) : volume_locals :=
  VLoc (vmeta l) (vpre l) (vpost l) c (v_monitor l) (v_started l).
Definition set_monitor (m : option monitor) (l : volume_locals) : volume_locals :=
  VLoc (vmeta l) (vpre l) (vpost l) (v_capture l) m (v_started l).
Definition set_started (t : Q) (l : volume_locals) : volume_locals :=
  VLoc (vmeta l) (vpre l) (vpost l) (v_capture l) (v_monitor l) (Some t).

Definition VOLUME_METHOD : string :=
  "Each endpoint is sampled against the single host wall clock before and after the measured series. BT-06 linearly interpolates VM-minus-host offset between the selected minimum-RTT calibration samples.".
Definition volume_calibration (l : volume_locals) : json :=
  JObj [("method", JStr VOLUME_METHOD); ("samples_per_point", JInt 9); ("pre", JObj (vpre l)); ("post", JObj (vpost l))].

Definition volume_events_file (s : volume_setup) : path := joinpath (v_mode_dir s) "message_events.json".
Definition volume_calibration_file (s : volume_setup) : path := joinpath (v_mode_dir s) "clock_calibration.json".
Definition volume_summary_file (s : volume_setup) : path := joinpath (v_mode_dir s) "volumetric_summary.json".
Definition volume_run_file (s : volume_setup) : path := joinpath (v_mode_dir s) "run.json".

(** What was measured. *)
Record volumes : Type := {
  or_count : Z; or_read : Z; or_written : Z; traffic_read : Z; traffic_written : Z; packets : Z; edge_bytes : Z }.
Definition v_total (v : volumes) : Z := or_read v + or_written v.
(** [((v_total - v_user) / v_total) * 100.0] and [v_total / v_user] *)
Definition overhead_percent (total user : Z) : Q := fmul (idiv (total - user) total) 100.
Definition expansion_factor (total user : Z) : Q := idiv total user.

(** What [volumetric_summary.json] holds. *)
Definition summary_doc (s : volume_setup) (a : bt05_args) (v : volumes) (meta : list (string * json)) : json :=
  let t := v_testbed s in
  let attr k := default JNull (dict_get k meta) in
  JObj [("mode", JStr (v_name s)); ("messages", JInt (v_messages a)); ("payload_size", JInt (v_message_size a));
        ("V_user", attr "v_user_bytes"); ("V_total", JInt (v_total v)); ("overhead_percent", attr "overhead_percent");
        ("expansion_factor", attr "expansion_factor"); ("captured_packets", JInt (packets v));
        ("duration_seconds", attr "duration_seconds"); ("messages_received", attr "messages_received");
        ("acks_delivered", attr "acks_delivered"); ("measurement_source", JStr "Tor ControlPort CONN_BW TYPE=OR");
        ("measurement_point",
         JStr "dedicated Chutney client Tor node; encrypted OR-connection bytes at the client-side Tor edge");
        ("tor_client_node", JStr (node_name (t_client_tor t)));
        ("tor_client_socks_port", JInt (node_socks_port (t_client_tor t)));
        ("tor_client_control_port", JInt (control_port (t_client_tor t)));
        ("tor_or_event_count", JInt (or_count v)); ("tor_or_read_bytes", JInt (or_read v));
        ("tor_or_written_bytes", JInt (or_written v)); ("tor_traffic_read_delta", attr "tor_traffic_read_delta");
        ("tor_traffic_written_delta", attr "tor_traffic_written_delta"); ("server_edge_pcap", JStr "server_edge.pcap");
        ("server_edge_packets", JInt (packets v)); ("server_edge_bytes", JInt (edge_bytes v));
        ("server_edge_capture_interface", attr "capture_interface");
        ("server_edge_capture_filter", JStr (capture_filter (t_server_ip t)));
        ("cbr_interval_ms", JInt (v_cbr_interval_ms a)); ("poisson_lambda", JFloat (v_poisson_lambda a))].

Section run_mode.
Context {W : Type} `{Host W} (float_repr : Q → string) (str_repr : string → string).

Definition VM : Type → Type := M (volume_locals * hst W).

(** A method of the monitor the local [tor_monitor] names. *)
Definition of_monitor {A} (m : MM (W:=W) A) : VM A := λ n p,
  match v_monitor p.1 with
  | Some mon => let '(r, p') := m n (mon, p.2) in (r, (set_monitor (Some p'.1) p.1, p'.2))
  | None => (Raise (Exn AssertionError EmptyString), p)
  end.

Definition put_meta (k : string) (v : json) : VM unit := set_local (set_vmeta k v).

Definition volume_calibrate (t : testbed) (set : string → json → volume_locals → volume_locals) : VM unit :=
  ca ← lift (calibrate_vm_clock (t_client_a t) CLIENT_A_VM 9);
  set_local (set "client_a" (calibration_json ca));;
  cb ← lift (calibrate_vm_clock (t_client_b t) CLIENT_B_VM 9);
  set_local (set "client_b" (calibration_json cb)).

Definition volume_unexpected (t : testbed) : M (hst W) unit :=
  for_unit [("QUEUE", "queue", t_client_a t); ("RX", "RX", t_client_b t); ("ACK", "ACK", t_client_a t)]
    (λ '(marker, what, child),
       c ← client_log_count child ("BT05_EVENT " +:+ marker);
       raise_if (negb (c =? 0)) Bt05Error ("Unexpected BT-05 " +:+ what +:+ " events before measurement")).

(** The monitor and the capture are started: the mark and the traffic before. *)
Definition start_measuring (s : volume_setup) : VM (nat * (Z * Z)) :=
  let t := v_testbed s in
  let node := t_client_tor t in
  lift (info ("Starting Tor transport monitor on dedicated Chutney client " +:+ node_name node
                +:+ " (ControlPort " +:+ str_Z (control_port node) +:+ ")"));;
  set_local (set_monitor (Some new_monitor));;
  of_monitor (monitor_start (control_port node));;
  lift (sleep (5 # 4));;
  tor_mark ← of_monitor monitor_mark;
  tor_traffic_before ← lift (tor_getinfo_traffic (control_port node));
  capture ← lift (start_server_edge_capture (t_server_ip t) (joinpath (v_mode_dir s) "server_edge.pcap"));
  set_local (set_capture (Some capture));;
  mret (tor_mark, tor_traffic_before).

(** [timeout_seconds or None], and the timeout derived from the arguments without one. *)
Definition effective_timeout (mode : string) (a : bt05_args) : Q :=
  if Qeq_bool (v_timeout_seconds a) 0
  then auto_timeout_seconds (v_messages a) mode (v_cbr_interval_ms a) (v_poisson_lambda a)
  else v_timeout_seconds a.

(** The series, from the queueing to the event snapshot. *)
Definition measured_series (s : volume_setup) (a : bt05_args) : VM unit :=
  let sender := handle_a (t_client_a (v_testbed s)) in
  let receiver := handle_b (t_client_b (v_testbed s)) in
  lift (queue_messages sender (v_messages a) (v_message_size a));;
  put_meta "messages_queued" (JInt (v_messages a));;
  counts ← lift (wait_for_series_completion sender receiver (v_messages a) (effective_timeout (v_name s) a)
                   (v_progress_interval_seconds a));
  put_meta "messages_received" (JInt counts.1);;
  put_meta "acks_delivered" (JInt counts.2);;
  r ← lift (validate_message_identity_sets sender receiver (v_messages a));
  put_meta "messages_transmitted" (JInt (zlength r.2));;
  put_meta "unique_message_ids" (JInt (distinct (ids (queued r.1))));;
  lift (write_event_snapshot (volume_events_file s) r.1 r.2).

(** What follows it, up to the second calibration. *)
Definition stop_measuring (s : volume_setup) (tor_mark : nat) (before : Z * Z) (started : Q) : VM volumes :=
  t ← lift monotonic;
  put_meta "duration_seconds" (JFloat (fsub t started));;
  lift (sleep (5 # 4));;
  tor_events ← of_monitor (monitor_since tor_mark);
  of_monitor monitor_stop;;
  set_local (set_monitor None);;
  w ← lift (write_tor_conn_bw (joinpath (v_mode_dir s) "tor_conn_bw.csv") tor_events);
  let '(count, tor_read, tor_written) := w in
  put_meta "tor_or_event_count" (JInt count);;
  put_meta "tor_or_read_bytes" (JInt tor_read);;
  put_meta "tor_or_written_bytes" (JInt tor_written);;
  after ← lift (tor_getinfo_traffic (control_port (t_client_tor (v_testbed s))));
  let read_delta := Z.max 0 (after.1 - before.1) in
  let written_delta := Z.max 0 (after.2 - before.2) in
  put_meta "tor_traffic_read_delta" (JInt read_delta);;
  put_meta "tor_traffic_written_delta" (JInt written_delta);;
  put_meta "v_total_bytes" (JInt (tor_read + tor_written));;
  l ← get_local;
  lift (stop_capture (v_capture l));;
  set_local (set_capture None);;
  edge ← lift (pcap_wire_volume str_repr (joinpath (v_mode_dir s) "server_edge.pcap"));
  put_meta "captured_packets" (JInt edge.1);;
  put_meta "server_edge_packets" (JInt edge.1);;
  put_meta "server_edge_bytes" (JInt edge.2);;
  mret {| or_count := count; or_read := tor_read; or_written := tor_written; traffic_read := read_delta;
          traffic_written := written_delta; packets := edge.1; edge_bytes := edge.2 |}.

Definition volume_write_calibration (s : volume_setup) : VM unit :=
  l ← get_local; lift (call (EWriteJson (volume_calibration_file s) (volume_calibration l))).

(** The end of the [try]: the ratios, the processes' state and the summary. *)
Definition conclude (s : volume_setup) (a : bt05_args) (v : volumes) : VM unit :=
  let t := v_testbed s in
  raise_if (v_total v <=? 0) Bt05Error "Tor OR V_total is zero";;
  put_meta "overhead_percent" (JFloat (overhead_percent (v_total v) (v_user a)));;
  raise_if (v_user a =? 0) ZeroDivisionError "division by zero";;
  put_meta "expansion_factor" (JFloat (expansion_factor (v_total v) (v_user a)));;
  la ← lift (client_alive (t_client_a t));
  put_meta "client_a_alive_end" (JBool la);;
  lb ← lift (client_alive (t_client_b t));
  put_meta "client_b_alive_end" (JBool lb);;
  ls ← lift (server_alive (t_server t));
  put_meta "server_alive_end" (JBool ls);;
  raise_if (negb (la && lb && ls)) Bt05Error "Client or server process died during BT-05";;
  l ← get_local;
  lift (call (EWriteJson (volume_summary_file s) (summary_doc s a v (vmeta l)))).

Definition pass (s : volume_setup) (a : bt05_args) (v : volumes) : VM unit :=
  put_meta "result" (JStr "passed");;
  lift (ok (v_name s +:+ ": V_user=" +:+ str_Z (v_user a) +:+ " B, Tor_OR_V_total=" +:+ str_Z (v_total v) +:+ " B, N="
              +:+ fmt_fixed 4 (overhead_percent (v_total v) (v_user a)) +:+ "%, E="
              +:+ fmt_fixed 4 (expansion_factor (v_total v) (v_user a)) +:+ ", server-edge="
              +:+ str_Z (edge_bytes v) +:+ " B")).

(** The [try] of [run_mode]. *)
Definition volume_body (s : volume_setup) (a : bt05_args) : VM unit :=
  let t := v_testbed s in
  connect_clients float_repr (λ onion, set_vmeta "onion" (JStr onion)) (t_server t) (t_client_a t) (t_client_b t)
    (node_socks_port (t_client_tor t)) 60 (v_name s) (v_cbr_interval_ms a) (v_poisson_lambda a);;
  lift (info "Calibrating VM clocks against the host before the measured series...");;
  volume_calibrate t set_vpre;;
  lift (volume_unexpected t);;
  m ← start_measuring s;
  started ← lift monotonic;
  set_local (set_started started);;
  measured_series s a;;
  v ← stop_measuring s m.1 m.2 started;
  lift (info "Calibrating VM clocks against the host after the measured series...");;
  volume_calibrate t set_vpost;;
  volume_write_calibration s;;
  conclude s a v;;
  pass s a v.

(** Its [except Exception]. *)
Definition volume_failed {A} (e : exn) : VM A :=
  l ← get_local;
  (match v_started l with
   | Some t0 => t ← lift monotonic; put_meta "duration_seconds" (JFloat (fsub t t0))
   | None => mret tt
   end);;
  put_meta "result" (JStr "failed");;
  rethrow e.

(** [try: m except Exception as exc: warn(f"... {exc}")] *)
Definition warn_on_error (what : string) (m : VM unit) : VM unit :=
  try_except m (except [Exception_] (λ exc, lift (warn (what +:+ ex_msg exc)))).

(** Its [finally]. *)
Definition volume_finally (s : volume_setup) : VM unit :=
  let t := v_testbed s in
  let file := joinpath (v_mode_dir s) in
  l ← get_local;
  lift (stop_capture (v_capture l));;
  (if v_monitor l then warn_on_error "Could not stop Tor CONN_BW monitor cleanly: " (of_monitor monitor_stop)
   else mret tt);;
  finished_at ← lift (call EIsoNow);
  put_meta "finished_at" (JStr finished_at);;
  warn_on_error "Could not persist clock calibration: " (volume_write_calibration s);;
  warn_on_error "Could not collect client A log: " (lift (collect_client_log (t_client_a t) (file "client_a.log")));;
  warn_on_error "Could not collect client B log: " (lift (collect_client_log (t_client_b t) (file "client_b.log")));;
  warn_on_error "Could not collect server log: "
    (lift (server_log ← remote_cat (t_server t) REMOTE_SERVER_LOG;
           call (EWriteText (file "server.log") (server_log +:+ newline_for server_log))));;
  l ← get_local;
  lift (call (EWriteJson (volume_run_file s) (JObj (vmeta l))));;
  lift (stop_all (t_server t) (t_client_a t) (t_client_b t)).

Definition volume_locals_of (started_at : string) (s : volume_setup) (a : bt05_args) : volume_locals :=
  VLoc (VolumeRun started_at s a) [] [] None None None.

Definition bt05_run_mode (s : volume_setup) (a : bt05_args) : M (hst W) unit :=
  call (EMkdir (v_mode_dir s));;
  info ("=== BT-05 mode: " +:+ v_name s +:+ " (" +:+ str_Z (v_messages a) +:+ " x " +:+ str_Z (v_message_size a)
          +:+ " B) ===");;
  started_at ← call EIsoNow;
  with_locals (volume_locals_of started_at s a)
    (try_finally (try_except (volume_body s a) (except [Exception_] volume_failed)) (volume_finally s)).
End run_mode.

(** ** The run *)

Section main.
Context {W : Type} `{Host W} (PROJECT_ROOT sys_executable : string) (float_repr : Q → string) (str_repr : string → string).

Definition BT05_RESULTS : path := joinpath (BENCHMARKS_DIR PROJECT_ROOT) "results/BT-05".
Definition BT05_ANALYZE : path := joinpath (BENCHMARKS_DIR PROJECT_ROOT) "BT-05/analyze.py".

Definition volume_setup_of (mode commit : string) (dirty : bool) (t : testbed) (root : string) : volume_setup :=
  {| v_name := mode; v_commit := commit; v_dirty := dirty; v_testbed := t; v_mode_dir := joinpath root mode |}.

(** The analysis, when both modes ran. *)
Definition analyse (a : bt05_args) (root : string) (modes : list string) : M (hst W) unit :=
  if v_skip_analysis a then mret tt
  else if both_modes modes then
    info "Running BT-05 aggregate analysis...";;
    result ← call (ERun [sys_executable; BT05_ANALYZE; root] None);
    raise_if (negb (returncode result =? 0)) Bt05Error ("BT-05 analysis exited with code " +:+ str_Z (returncode result))
  else info "Skipping aggregate comparison because only one mode was requested".

Definition bt05_try (a : bt05_args) (root commit : string) (dirty : bool) (modes : list string) : GM Z :=
  t ← bring_up PROJECT_ROOT sys_executable (require_dependencies PROJECT_ROOT) assert_client_binary_has_diagnostics root;
  for_unit modes (λ mode,
    lift (bt05_run_mode float_repr str_repr (volume_setup_of mode commit dirty t root) a);;
    set_local (add_completed mode));;
  lift (analyse a root modes);;
  set_local (set_suite "passed");;
  lift (print (nl +:+ "BT-05 functional execution: PASS"));;
  lift (print "[i] Overhead values are experimental results; no target N is used as a PASS/FAIL gate.");;
  mret 0.

Definition node_json (f : ChutneyTorNode → json) (l : main_locals) : json :=
  match the_client_tor l with Some node => f node | None => JNull end.
Definition bt05_suite (stamp commit : string) (dirty : bool) (modes : list string) (a : bt05_args) (l : main_locals) : json :=
  JObj [("started_at", JStr stamp); ("commit", JStr commit); ("dirty_worktree", JBool dirty);
        ("modes_requested", JList (map JStr modes)); ("completed", JList (map JStr (completed_modes l)));
        ("messages", JInt (v_messages a)); ("message_size", JInt (v_message_size a)); ("V_user", JInt (v_user a));
        ("cbr_interval_ms", JInt (v_cbr_interval_ms a)); ("poisson_lambda", JFloat (v_poisson_lambda a));
        ("tor_client_node", node_json (λ n, JStr (node_name n)) l);
        ("tor_client_socks_port", node_json (λ n, JInt (node_socks_port n)) l);
        ("tor_client_control_port", node_json (λ n, JInt (control_port n)) l);
        ("result", JStr (suite_result l))].

Definition bt05_finally (a : bt05_args) (root stamp commit : string) (dirty : bool) (modes : list string) : GM unit :=
  l ← get_local;
  lift (call (EWriteJson (joinpath root "suite_run.json") (bt05_suite stamp commit dirty modes a l)));;
  tear_down PROJECT_ROOT (v_keep_environment a) root.

Definition bt05_run (a : bt05_args) (root stamp commit : string) (dirty : bool) (modes : list string) : GM Z :=
  try_finally
    (try_except (bt05_try a root commit dirty modes)
       (λ exc,
          if isinstance exc KeyboardInterrupt then Some (set_local (set_suite "interrupted");; mret 130)
          else if isinstance exc Exception_
          then Some (lift (warn (ex_msg exc));; set_local (set_suite "failed");; mret 1)
          else None))
    (bt05_finally a root stamp commit dirty modes).

(** [main] after [parse_args] *)
Definition bt05_main (a : bt05_args) : M (hst W) Z :=
  b ← begin_run BT05_RESULTS;
  let '(stamp, root, commit, dirty) := b in
  with_locals no_locals (bt05_run a root stamp commit dirty (modes_named (v_mode a))).
End main.

(** ** A mode ends *)

Section ends.
Context {W : Type} `{Clock W, !LineStream W}.

Lemma total_of_monitor {A} (m : MM (W:=W) A) : total m → total (of_monitor m).
Proof.
  intros Hm [l st]. unfold of_monitor, returns. cbn [fst snd]. destruct (v_monitor l) as [mon|].
  - destruct (Hm (mon, st)) as (r & p' & Hr & k & Hk). eexists r, _. split; [done|]. exists k. intros n Hn. by rewrite Hk.
  - eexists _, _. split; [|by exists 0%nat]. done.
Qed.
Lemma read_reply_total s : total (read_reply s : M (hst W) (list string)).
Proof.
  apply total_read_lines; unfold read_reply_step.
  - intros raw lines. total_tac.
  - intros raw lines. keeps_tac.
  - intros lines n st. by apply wp_bind, wp_raise_if.
Qed.
Lemma identity_checks_ends s n : identity_checks s n ≠ NoFuel.
Proof. unfold identity_checks, expect_count. ends_tac. Qed.

Lemma round_pause_pos interval : (0 < round_pause interval)%Q.
Proof.
  unfold round_pause, Qmin_py, Qmax_py, Qlt_bool. destruct (Qle_bool interval 1) eqn:E1; cbn; [done|].
  destruct (Qle_bool 30 interval) eqn:E2; cbn; [done|].
  destruct (Qlt_le_dec 1 interval) as [|Hle]; [lra|]. apply Qle_bool_iff in Hle. congruence.
Qed.
Hint Resolve read_reply_total identity_checks_ends : py.

Lemma wait_for_series_completion_total sender receiver expected timeout interval :
  total (wait_for_series_completion sender receiver expected timeout interval : M (hst W) (Z * Z)).
Proof.
  unfold wait_for_series_completion. do 2 (apply total_bind; [total_wait|intros]). apply total_bind.
  - apply total_poll_from; [apply round_pause_pos|apply fl_idem|intros; keeps_deep|intros; total_wait].
  - intros r. total_wait.
Qed.
Hint Resolve wait_for_series_completion_total : py.
Hint Extern 1 (total (of_monitor _)) => (apply total_of_monitor; total_wait) : py.

Lemma bt05_run_mode_total float_repr str_repr s a : total (bt05_run_mode float_repr str_repr s a : M (hst W) unit).
Proof. total_wait. Qed.
Hint Resolve bt05_run_mode_total : py.
Lemma bt05_main_total `{!Prompts W} PROJECT_ROOT sys_executable float_repr str_repr a :
  total (bt05_main PROJECT_ROOT sys_executable float_repr str_repr a : M (hst W) Z).
Proof. total_wait. Qed.
End ends.
