(* ===== verification/Bt05Spec.v ===== *)
(** * BT-05: what a run of the volumetric benchmark guarantees

    The monitor's window against a reference, what the parts of a mode add to the record of
    the run ([logged]), and the properties of a mode, of its analysis and of the run. *)

From Stdlib Require Import Ascii ZArith QArith Qabs Lia Lqa.
From Stdlib Require Import Strings.Byte.
From stdpp Require Import base list strings sorting sets.
From S2P Require Import Prelude PyNum PyText Host Json Loopback Wire Console Events Calibration Latency Waiting Testbed Documents Bench Bt05.

Open Scope Z_scope.

(** ** The monitor *)

(** The lines the thread took from an answer, up to the end of the stream or a failure. *)
Fixpoint lines_read (items : list read_item) : list (Z * bytes) :=
  match items with
  | RLine ns raw :: rest => if bool_decide (raw = []) then [] else (ns, raw) :: lines_read rest
  | _ => []
  end.
Definition window (items : list read_item) : list conn_event := omap (λ l, conn_event_of l.1 l.2) (lines_read items).
(** What stopped the thread. *)
Fixpoint failure (items : list read_item) : option exn :=
  match items with
  | [] => None
  | RLine _ raw :: rest => if bool_decide (raw = []) then None else failure rest
  | RFail x :: _ => Some x
  end.
Fixpoint goes_on (items : list read_item) : bool :=
  match items with
  | [] => true
  | RLine _ raw :: rest => negb (bool_decide (raw = [])) && goes_on rest
  | RFail _ :: _ => false
  end.

Lemma run_items_spec items m :
  run_items items m =
  Monitor (m_sock m) (m_running m && goes_on items) (m_events m ++ window items)
    (match failure items with
     | Some x => if isinstance x Exception_ then Some x else m_error m
     | None => m_error m
     end).
Proof.
  revert m. induction items as [|[ns raw|x] items IH]; intros m; unfold window in *; cbn [run_items lines_read goes_on failure].
  - destruct m. cbn. by rewrite andb_true_r, app_nil_r.
  - case_bool_decide as Hr; [cbn; by rewrite andb_false_r, app_nil_r|]. rewrite IH. cbn.
    destruct (conn_event_of ns raw); [by rewrite <- app_assoc|done].
  - cbn. by rewrite andb_false_r, app_nil_r.
Qed.

(** *** What the Tor node reports *)

(** A line the node sends, with the time it is read at: the traffic of a connection, or
    anything else. *)
Inductive report : Type :=
| Traffic (ns : Z) (id type : string) (read written : N)
| OtherLine (ns : Z) (raw : bytes).
Definition conn_fields : fields :=
  [("650 CONN_BW ID=", non_space); (" TYPE=", non_space); (" READ=", is_digit); (" WRITTEN=", is_digit)].
Definition report_item (r : report) : read_item :=
  match r with
  | Traffic ns id type read written =>
      RLine ns (encode (fields_text conn_fields [id; type; str_N read; str_N written]) ++ [x0d; x0a])
  | OtherLine ns raw => RLine ns raw
  end.
Definition report_event (r : report) : option conn_event :=
  match r with
  | Traffic ns id type read written => Some (ConnEv ns id type (Z.of_N read) (Z.of_N written))
  | OtherLine _ _ => None
  end.
Definition report_ok (r : report) : Prop :=
  match r with
  | Traffic _ id type _ _ =>
      id ≠ EmptyString ∧ all_chars non_space id = true ∧ type ≠ EmptyString ∧ all_chars non_space type = true
  | OtherLine _ raw => raw ≠ [] ∧ starts_with "650 CONN_BW ID=" (rstrip_crlf (decode raw)) = false
  end.

Lemma decode_app x y : decode (x ++ y) = decode x +:+ decode y.
Proof. unfold decode. induction x as [|b x IH]; [by rewrite app_str_nil_l|]. cbn. by rewrite IH. Qed.
Lemma decode_encode s : decode (encode s) = s.
Proof.
  unfold encode, decode. induction s as [|c s IH]; [done|]. cbn. by rewrite IH, ascii_of_byte_of_ascii.
Qed.
(** A text that does not end in a line break. *)
Definition closed (s : string) : Prop := ∃ s' c, s = s' +:+ String c EmptyString ∧ is_crlf c = false.
Lemma closed_app x s : closed s → closed (x +:+ s).
Proof. intros (s' & c & -> & Hc). exists (x +:+ s'), c. by rewrite app_str_assoc. Qed.
Lemma rstrip_closed s : closed s → rstrip_crlf (s +:+ (chr 13 +:+ chr 10)) = s.
Proof.
  intros (s' & c & -> & Hc). rewrite app_str_assoc. induction s' as [|x s' IH].
  - rewrite !app_str_nil_l, app_str_cons, app_str_nil_l. cbn [rstrip_crlf].
    change (rstrip_crlf (chr 13 +:+ chr 10)) with EmptyString. by rewrite Hc.
  - rewrite !(app_str_cons x). cbn [rstrip_crlf]. rewrite IH. by destruct s'.
Qed.
Lemma closed_digits s : s ≠ EmptyString → all_chars is_digit s = true → closed s.
Proof.
  induction s as [|c s IH]; [done|]. intros _ [Hc Hs]%andb_true_iff. destruct (decide (s = EmptyString)) as [->|Hne].
  - exists EmptyString, c. split; [done|]. revert Hc. unfold is_digit, is_crlf, between.
    rewrite orb_false_iff, !andb_false_iff, andb_true_iff, !Nat.leb_le, !Nat.leb_gt. lia.
  - apply (closed_app (String c EmptyString)). by apply IH.
Qed.

Lemma report_parsed r : report_ok r →
  match report_item r with RLine ns raw => raw ≠ [] ∧ conn_event_of ns raw = report_event r | RFail _ => False end.
Proof.
  destruct r as [ns id type read written|ns raw]; intros Hok; cbn [report_item report_event].
  - destruct Hok as (I1 & I2 & T1 & T2). split; [by intros [_ ?]%app_nil|].
    assert (closed (fields_text conn_fields [id; type; str_N read; str_N written])) as Hc.
    { unfold conn_fields, fields_text. rewrite app_str_nil_r. do 7 apply closed_app.
      apply closed_digits; [apply str_N_nonempty|apply all_digits_str_N]. }
    unfold conn_event_of. rewrite decode_app, decode_encode. change (decode [x0d; x0a]) with (chr 13 +:+ chr 10). rewrite (rstrip_closed _ Hc). clear Hc.
    unfold re_matches, re_match_at. change CONN_BW_RE with (Cat Bol (fields_re conn_fields)). rewrite re_match_cat.
    cbn [re_match]. rewrite fields_match; [|done|].
    + cbn. unfold group_int, digits_Z, group. cbn. by rewrite !int_digits_str_N.
    + repeat constructor; try done; first [apply str_N_nonempty|apply all_digits_str_N].
  - destruct Hok as [H1 H2]. split; [done|]. unfold conn_event_of, re_matches, re_match_at.
    change CONN_BW_RE with (Cat Bol (fields_re conn_fields)). rewrite re_match_cat.
    cbn [re_match conn_fields fields_re]. unfold starts_with in H2. by destruct (strip_prefix _ _).
Qed.

Lemma window_reports rs : Forall report_ok rs → window (map report_item rs) = omap report_event rs.
Proof.
  induction 1 as [|r rs Hr _ IH]; [done|]. apply report_parsed in Hr. unfold window in *. cbn [map lines_read].
  destruct (report_item r) as [ns raw|x]; [|done]. destruct Hr as [Hne Hev].
  rewrite bool_decide_eq_false_2 by done. cbn. rewrite Hev. destruct (report_event r); [f_equal|]; exact IH.
Qed.

Lemma goes_on_reports rs : Forall report_ok rs → goes_on (map report_item rs) = true.
Proof.
  induction 1 as [|r rs Hr _ IH]; [done|]. apply report_parsed in Hr. cbn.
  destruct (report_item r) as [ns raw|x]; [|done]. rewrite bool_decide_eq_false_2 by apply Hr. exact IH.
Qed.
Lemma failure_reports rs : Forall report_ok rs → failure (map report_item rs) = None.
Proof.
  induction 1 as [|r rs Hr _ IH]; [done|]. apply report_parsed in Hr. cbn.
  destruct (report_item r) as [ns raw|x]; [|done]. rewrite bool_decide_eq_false_2 by apply Hr. exact IH.
Qed.

(** ** Steps of a run *)

Section steps.
Context {W : Type} `{Host W} {L : Type}.

(** A step that records nothing; what is known of its value. *)
Lemma wp_quiet {A B} (m : M (hst W) A) (k : A → M (L * hst W) B) Q n l (st : hst W) D (P : A → Prop) :
  keeps silent m → (∀ n st, wp True m (λ x _, P x) (λ _ _, True) n st) → logged (trace st) = D →
  (∀ x st', P x → logged (trace st') = D → wp True (k x) Q (λ _ _, True) n (l, st')) →
  wp True (lift m ≫= k) Q (λ _ _, True) n (l, st).
Proof.
  intros Hm HP HD Hk. apply wp_bind, wp_lift. eapply wp_mono; [| |eapply wp_keeps; [exact Hm|apply HP]]; [|done].
  intros x st' [Hx Hs]. apply Hk; [done|]. unfold unseen in Hs. congruence.
Qed.
Lemma wp_silent {A B} (m : M (hst W) A) (k : A → M (L * hst W) B) Q n l (st : hst W) D :
  keeps silent m → logged (trace st) = D →
  (∀ x st', logged (trace st') = D → wp True (k x) Q (λ _ _, True) n (l, st')) →
  wp True (lift m ≫= k) Q (λ _ _, True) n (l, st).
Proof. intros Hm HD Hk. eapply (wp_quiet _ _ _ _ _ _ _ (λ _, True)); [done|intros; apply wp_trivial|done|auto]. Qed.

Lemma wp_silent_last {A} (m : M (hst W) A) (Q : A → L * hst W → Prop) n l (st : hst W) D :
  keeps silent m → logged (trace st) = D → (∀ x st', logged (trace st') = D → Q x (l, st')) →
  wp True (lift m) Q (λ _ _, True) n (l, st).
Proof.
  intros Hm HD HQ. apply wp_lift. eapply wp_mono; [| |eapply wp_keeps; [exact Hm|apply wp_trivial]]; [|done].
  intros x st' [_ Hs]. apply HQ. unfold unseen in Hs. congruence.
Qed.

(** A document is written. *)
Lemma wp_writes f j (Q : unit → L * hst W → Prop) n l (st : hst W) :
  (∀ st', logged (trace st') = logged (trace st) ++ [Doc f j] → Q tt (l, st')) →
  wp True (lift (call (EWriteJson f j))) Q (λ _ _, True) n (l, st).
Proof. intros HQ. apply wp_lift, wp_call_cases; [|done]. intros [] w' _. apply HQ. cbn. by rewrite observed_snoc. Qed.
End steps.

(** The next step records nothing. *)
Ltac quietly H := eapply wp_silent; [solve [keeps_deep]|exact H|]; clear H; intros ? ? H.

Section monitor_laws.
Context {W : Type} `{Host W}.

Lemma poll_wp n (m : monitor) (st : hst W) sk :
  m_sock m = Some sk → m_running m = true →
  wp True poll
    (λ _ p', ∃ items, p'.1 = run_items items m ∧ logged (trace p'.2) = logged (trace st) ++ [Reads items])
    (λ _ _, True) n (m, st).
Proof.
  intros Hs Hr. unfold poll. apply wp_get_local. rewrite Hs, Hr. apply wp_bind, wp_lift, wp_call_cases; [|done].
  intros items w' _. unfold wp, set_local. cbn. exists items. by rewrite observed_snoc.
Qed.
(** A thread that ended reads nothing. *)
Lemma poll_ended n (m : monitor) (st : hst W) Q E :
  m_running m = false → Q tt (m, st) → wp True poll Q E n (m, st).
Proof. intros Hr HQ. unfold poll. apply wp_get_local. rewrite Hr. by destruct (m_sock m); apply wp_ret. Qed.

Lemma monitor_start_wp port n (st : hst W) :
  wp True (monitor_start port)
    (λ _ p', ∃ sk, p'.1 = Monitor (Some sk) true [] None ∧ logged (trace p'.2) = logged (trace st)) (λ _ _, True) n
    (new_monitor, st).
Proof.
  unfold monitor_start. set (D := logged (trace st)). assert (logged (trace st) = D) as HD by done. clearbody D.
  quietly HD. apply wp_set_local. do 3 quietly HD. unfold wp, set_local. cbn. by eexists.
Qed.
Lemma monitor_mark_wp n m sk (st : hst W) :
  m_sock m = Some sk → m_running m = true →
  wp True monitor_mark
    (λ k p', ∃ items, p'.1 = run_items items m ∧ k = length (m_events (run_items items m)) ∧
       logged (trace p'.2) = logged (trace st) ++ [Reads items])
    (λ _ _, True) n (m, st).
Proof.
  intros Hs Hr. unfold monitor_mark. apply wp_bind. eapply wp_mono; [| |by eapply poll_wp]; [|done].
  intros _ [m' st'] (items & Hm & Hl). cbn in Hm, Hl. subst m'. apply wp_get_local, wp_ret. by exists items.
Qed.

(** The events since a mark are those of the lines read after it. *)
Lemma monitor_since_wp n m sk (st : hst W) :
  m_sock m = Some sk →
  wp True (monitor_since (length (m_events m)))
    (λ events p', events = [] ∨ ∃ items, events = window items ∧ p'.1 = run_items items m ∧
       logged (trace p'.2) = logged (trace st) ++ [Reads items])
    (λ _ _, True) n (m, st).
Proof.
  intros Hs. unfold monitor_since. apply wp_bind. destruct (m_running m) eqn:Hr.
  - eapply wp_mono; [| |by eapply poll_wp]; [|done]. intros _ [m' st'] (items & Hm & Hl). cbn in Hm, Hl. subst m'.
    apply wp_get_local, wp_ret. right. exists items. split; [|done]. rewrite run_items_spec. cbn. by rewrite drop_app_length.
  - apply poll_ended; [done|]. apply wp_get_local, wp_ret. left. by rewrite drop_all.
Qed.

(** What a poll does in every case. *)
Lemma poll_any n m (st : hst W) :
  wp True poll
    (λ _ p', ∃ late, logged (trace p'.2) = logged (trace st) ++ late ∧ (late = [] ∨ ∃ items, late = [Reads items]) ∧
       (m_error p'.1 = None → m_error m = None))
    (λ _ _, True) n (m, st).
Proof.
  assert (∃ late, logged (trace st) = logged (trace st) ++ late ∧ (late = [] ∨ ∃ items, late = [Reads items]) ∧
    (m_error m = None → m_error m = None)) as Hno by (exists []; rewrite app_nil_r; auto).
  destruct (m_running m) eqn:Hr; [|by apply poll_ended]. destruct (m_sock m) as [sk|] eqn:Hs.
  - eapply wp_mono; [| |by eapply poll_wp]; [|done]. intros _ [m' st'] (items & Hm & Hl). cbn in Hm, Hl. subst m'.
    exists [Reads items]. split_and!; [done|by eauto|]. cbn. rewrite run_items_spec. cbn. repeat case_match; done.
  - unfold poll. apply wp_get_local. rewrite Hs. by apply wp_ret.
Qed.

Lemma monitor_stop_wp n m (st : hst W) :
  wp True monitor_stop
    (λ _ p', ∃ late, logged (trace p'.2) = logged (trace st) ++ late ∧ (late = [] ∨ ∃ items, late = [Reads items]) ∧
       m_error m = None)
    (λ _ _, True) n (m, st).
Proof.
  unfold monitor_stop. apply wp_bind. eapply wp_mono; [| |apply poll_any]; [|done].
  intros _ [m1 st1] (late & HD & Hlate & He). cbn [fst snd] in *. apply wp_get_local, wp_bind.
  eapply (wp_mono True _ (λ _ p', logged (trace p'.2) = logged (trace st) ++ late)); [|done|].
  - intros _ p' Hp. destruct (m_error m1); [done|]. apply wp_ret. exists late. auto.
  - destruct (m_sock m1); [|by apply wp_ret]. quietly HD. apply wp_lift, wp_call_cases; [|done].
    intros [] w' _. cbn. by rewrite observed_snoc, app_nil_r.
Qed.
End monitor_laws.

(** ** The series *)

Section series_laws.
Context {W : Type} `{Host W}.

Lemma poll_from_wp {S A} deadline d (body : S → M (hst W) (S + A)) s0 (P : A → Prop) n st :
  (∀ s n st, wp True (body s) (λ r _, ∀ a, r = inr a → P a) (λ _ _, True) n st) →
  wp True (poll_from deadline d body s0) (λ r _, ∀ a, r = Some a → P a) (λ _ _, True) n st.
Proof.
  intros Hb. apply (wp_iter_partial True (λ _ _, True)); [done| |done]. intros s st1 _. apply wp_any. intros t st2.
  destruct (Qlt_bool t deadline); [|by apply wp_ret]. apply wp_bind. eapply wp_mono; [| |apply Hb]; [|done].
  intros [s'|a] st3 HP; [apply wp_any; intros; by apply wp_ret|]. apply wp_ret. intros a' [= <-]. by apply HP.
Qed.

(** The counts the wait returns are at least the number of messages. *)
Lemma completion_wp sender receiver expected timeout interval n (st : hst W) :
  wp True (wait_for_series_completion sender receiver expected timeout interval)
    (λ counts _, expected <= counts.1 ∧ expected <= counts.2) (λ _ _, True) n st.
Proof.
  unfold wait_for_series_completion. apply wp_any. intros _ st1. apply wp_any. intros t st2. apply wp_bind.
  eapply wp_mono; [| |apply (poll_from_wp _ _ _ _ (λ counts, expected <= counts.1 ∧ expected <= counts.2))]; [|done|].
  - intros [counts|] st3 HP; [by apply wp_ret, HP|]. do 2 (apply wp_any; intros ? ?). done.
  - intros p n' st3. unfold completion_round. do 3 (apply wp_any; intros ? ?). destruct (_ && _) eqn:E.
    + apply wp_any. intros _ st4. apply wp_ret. intros ? [= <-]. apply andb_true_iff in E as [E1%Z.leb_le E2%Z.leb_le]. done.
    + do 3 (apply wp_any; intros ? ?). destruct (_ || _); [apply wp_any; intros ? ?|]; by apply wp_ret.
Qed.

Lemma validate_wp sender receiver expected n (st : hst W) :
  wp True (validate_message_identity_sets sender receiver expected)
    (λ r _, consistent r.1 expected r.2) (λ _ _, True) n st.
Proof.
  unfold validate_message_identity_sets. apply wp_any. intros ser st1. apply wp_bind, wp_of_res.
  destruct (identity_checks ser expected) as [tr|e|] eqn:E; [|done..]. apply identity_checks_ok in E.
  apply wp_any. intros _ st2. by apply wp_ret.
Qed.

Lemma conn_bw_wp p events n (st : hst W) :
  wp True (write_tor_conn_bw p events)
    (λ r st', let or_events := filter (λ e, is_or e = true) events in
       or_events ≠ [] ∧ r = (zlength or_events, zsum (map ce_read or_events), zsum (map ce_written or_events)) ∧
       logged (trace st') = logged (trace st) ++ [Table p (CONN_HEADER :: map conn_row or_events)])
    (λ _ _, True) n st.
Proof.
  unfold write_tor_conn_bw. cbv zeta. apply wp_bind, wp_raise_if. case_bool_decide as He; [done|].
  apply wp_bind, wp_call_cases; [|done]. intros [] w' _. apply wp_ret. split_and!; [done|done|]. cbn. by rewrite observed_snoc.
Qed.
End series_laws.

(** ** The phases of a mode *)

(** The keys of the metadata that a phase sets; the other locals stay. *)
Definition same_but (keys : list string) (l l' : volume_locals) : Prop :=
  l' = VLoc (vmeta l') (vpre l) (vpost l) (v_capture l) (v_monitor l) (v_started l) ∧
  ∀ k, k ∉ keys → dict_get k (vmeta l') = dict_get k (vmeta l).
Ltac same_but_tac :=
  split; [reflexivity|]; intros k Hk; cbn; rewrite !dict_get_set;
  rewrite !bool_decide_eq_false_2; [reflexivity|intros ->; apply Hk; apply (bool_decide_unpack (_ ∈ _)); exact I..].

Section phases.
Context {W : Type} `{Host W} (float_repr : Q → string) (str_repr : string → string).

(** A method of the monitor, when there is one. *)
Lemma wp_of_monitor {A B} (m : MM (W:=W) A) (k : A → M (volume_locals * hst W) B) Q n l st mon :
  v_monitor l = Some mon →
  wp True m (λ x p', wp True (k x) Q (λ _ _, True) n (set_monitor (Some p'.1) l, p'.2)) (λ _ _, True) n (mon, st) →
  wp True (of_monitor m ≫= k) Q (λ _ _, True) n (l, st).
Proof.
  intros Hl Hm. apply wp_bind. unfold wp, of_monitor in *. cbn [fst snd]. rewrite Hl.
  destruct (m n (mon, st)) as [[x|e|] p']; done.
Qed.

Lemma calibrate_wp t set n l (st : hst W) D :
  logged (trace st) = D →
  wp True (volume_calibrate t set)
    (λ _ p', logged (trace p'.2) = D ∧
       ∃ ca cb, p'.1 = set "client_b" (calibration_json cb) (set "client_a" (calibration_json ca) l))
    (λ _ _, True) n (l, st).
Proof.
  intros HD. unfold volume_calibrate. quietly HD. apply wp_set_local. quietly HD. unfold wp, set_local. cbn. by eauto.
Qed.

Lemma start_measuring_wp s n l (st : hst W) :
  wp True (start_measuring s)
    (λ m p', ∃ i0 sk c, let mon := run_items i0 (Monitor (Some sk) true [] None) in
       p'.1 = set_capture (Some c) (set_monitor (Some mon) l) ∧ m.1 = length (m_events mon) ∧
       logged (trace p'.2) = logged (trace st) ++ [Reads i0])
    (λ _ _, True) n (l, st).
Proof.
  unfold start_measuring. set (D := logged (trace st)). assert (logged (trace st) = D) as HD by done. clearbody D.
  quietly HD. apply wp_set_local. eapply wp_of_monitor; [done|].
  eapply wp_mono; [| |apply monitor_start_wp]; [|done]. intros _ [mon st1] (sk & Hm & Hl). cbn [fst snd] in *. subst mon.
  rewrite HD in Hl. quietly Hl. eapply wp_of_monitor; [done|]. eapply wp_mono; [| |by apply (monitor_mark_wp _ _ sk)]; [|done].
  intros k [mon st2] (i0 & -> & -> & HD2). rewrite Hl in HD2. cbn [fst snd] in *. quietly HD2. quietly HD2.
  apply wp_set_local, wp_ret. by eexists i0, sk, _.
Qed.

Definition SERIES_KEYS : list string :=
  ["messages_queued"; "messages_received"; "acks_delivered"; "messages_transmitted"; "unique_message_ids"].
Lemma measured_series_wp s a n l (st : hst W) :
  wp True (measured_series s a)
    (λ _ p', ∃ ser sent rx ack, consistent ser (v_messages a) sent ∧ v_messages a <= rx ∧ v_messages a <= ack ∧
       same_but SERIES_KEYS l p'.1 ∧ dict_get "messages_received" (vmeta p'.1) = Some (JInt rx) ∧
       dict_get "acks_delivered" (vmeta p'.1) = Some (JInt ack) ∧
       logged (trace p'.2) = logged (trace st) ++ [Doc (volume_events_file s) (snapshot_json ser sent)])
    (λ _ _, True) n (l, st).
Proof.
  unfold measured_series, put_meta. set (D := logged (trace st)). assert (logged (trace st) = D) as HD by done. clearbody D.
  quietly HD. apply wp_set_local.
  eapply wp_quiet; [solve [keeps_deep]|intros; apply completion_wp|exact HD|]. clear HD. intros [rx ack] st1 [Hrx Hack] HD.
  do 2 apply wp_set_local. eapply wp_quiet; [solve [keeps_deep]|intros; apply validate_wp|exact HD|]. clear HD.
  intros [ser sent] st2 Hc HD. do 2 apply wp_set_local. cbn [fst snd] in *. apply wp_writes. intros st3 Hl.
  exists ser, sent, rx, ack. cbn [fst snd]. rewrite Hl, HD. split_and!; try done; [same_but_tac|..]; cbn; by rewrite !dict_get_set.
Qed.

(** What a window of the monitor amounts to. *)
Definition or_events (items : list read_item) : list conn_event := filter (λ e, is_or e = true) (window items).
Definition conn_bw_file (s : volume_setup) : path := joinpath (v_mode_dir s) "tor_conn_bw.csv".
Definition volumes_of (items : list read_item) (v : volumes) : Prop :=
  or_events items ≠ [] ∧ or_count v = zlength (or_events items) ∧
  or_read v = zsum (map ce_read (or_events items)) ∧ or_written v = zsum (map ce_written (or_events items)).

Definition VOLUME_KEYS : list string :=
  ["duration_seconds"; "tor_or_event_count"; "tor_or_read_bytes"; "tor_or_written_bytes"; "tor_traffic_read_delta";
   "tor_traffic_written_delta"; "v_total_bytes"; "captured_packets"; "server_edge_packets"; "server_edge_bytes"].
Lemma stop_measuring_wp s before started n l mon sk (st : hst W) :
  v_monitor l = Some mon → m_sock mon = Some sk →
  wp True (stop_measuring str_repr s (length (m_events mon)) before started)
    (λ v p', ∃ items late d, volumes_of items v ∧ m_error (run_items items mon) = None ∧
       (late = [] ∨ ∃ i, late = [Reads i]) ∧ same_but VOLUME_KEYS (set_capture None (set_monitor None l)) p'.1 ∧
       dict_get "v_total_bytes" (vmeta p'.1) = Some (JInt (v_total v)) ∧
       dict_get "duration_seconds" (vmeta p'.1) = Some (JFloat d) ∧
       logged (trace p'.2) = logged (trace st) ++ [Reads items] ++ late ++
         [Table (conn_bw_file s) (CONN_HEADER :: map conn_row (or_events items))])
    (λ _ _, True) n (l, st).
Proof.
  intros Hl Hs. unfold stop_measuring, put_meta. set (D := logged (trace st)).
  assert (logged (trace st) = D) as HD by done. clearbody D. quietly HD. apply wp_set_local. quietly HD.
  eapply wp_of_monitor; [exact Hl|]. eapply wp_mono; [| |by eapply monitor_since_wp]; [|done].
  intros events [mon1 st1] Hev. cbn [fst snd] in *.
  eapply wp_of_monitor; [done|]. eapply wp_mono; [| |apply monitor_stop_wp]; [|done].
  intros _ [mon2 st2] (late & Hl2 & Hlate & He). cbn [fst snd] in *. apply wp_set_local, wp_bind, wp_lift.
  eapply wp_mono; [| |apply conn_bw_wp]; [|done]. intros w st3 (Hne & -> & Hl3).
  destruct Hev as [->|(items & -> & -> & Hl1)]; [done|]. fold (or_events items) in *.
  do 3 apply wp_set_local.
  assert (logged (trace st3) = D ++ [Reads items] ++ late ++ [Table (conn_bw_file s) (CONN_HEADER :: map conn_row (or_events items))])
    as HE by by rewrite Hl3, Hl2, Hl1, HD, <- !app_assoc.
  clear Hl1 Hl2 Hl3. quietly HE. do 3 apply wp_set_local. apply wp_get_local. quietly HE. apply wp_set_local. quietly HE.
  do 3 apply wp_set_local. apply wp_ret. exists items, late. eexists. split_and!; try done; [same_but_tac|..].
  all: cbn; by rewrite !dict_get_set.
Qed.

Definition ALIVE_KEYS : list string := ["client_a_alive_end"; "client_b_alive_end"; "server_alive_end"].
Definition END_KEYS : list string := "overhead_percent" :: "expansion_factor" :: ALIVE_KEYS.
Lemma conclude_wp s a v n l (st : hst W) :
  wp True (conclude s a v)
    (λ _ p', 0 < v_total v ∧ same_but END_KEYS l p'.1 ∧
       dict_get "overhead_percent" (vmeta p'.1) = Some (JFloat (overhead_percent (v_total v) (v_user a))) ∧
       dict_get "expansion_factor" (vmeta p'.1) = Some (JFloat (expansion_factor (v_total v) (v_user a))) ∧
       (∀ k, k ∈ ALIVE_KEYS → dict_get k (vmeta p'.1) = Some (JBool true)) ∧
       logged (trace p'.2) = logged (trace st) ++ [Doc (volume_summary_file s) (summary_doc s a v (vmeta p'.1))])
    (λ _ _, True) n (l, st).
Proof.
  unfold conclude, put_meta. set (D := logged (trace st)). assert (logged (trace st) = D) as HD by done. clearbody D.
  apply wp_bind, wp_raise_if. destruct (Z.leb_spec (v_total v) 0) as [|Hv]; [done|]. apply wp_set_local.
  apply wp_bind, wp_raise_if. destruct (v_user a =? 0); [done|]. apply wp_set_local.
  do 3 (quietly HD; apply wp_set_local). apply wp_bind, wp_raise_if. destruct x, x0, x1; try done.
  apply wp_get_local, wp_writes. intros st1 Hl. cbn [fst snd]. split_and!; [done|same_but_tac|..].
  1,2: cbn; by rewrite !dict_get_set.
  - intros k Hk. unfold ALIVE_KEYS in Hk. rewrite !elem_of_cons, elem_of_nil in Hk.
    destruct Hk as [->|[->|[->|[]]]]; cbn; by rewrite !dict_get_set.
  - by rewrite Hl, HD.
Qed.

(** *** What a mode that fails leaves *)

(** The metadata is not written, and says what it said. *)
Definition no_run (s : volume_setup) (ev : event) : Prop := Forall (λ x, ∀ j, x ≠ Doc (volume_run_file s) j) (entry_of ev).
Definition working (s : volume_setup) (p p' : volume_locals * hst W) : Prop :=
  extends (no_run s) p.2 p'.2 ∧ dict_get "result" (vmeta p'.1) = dict_get "result" (vmeta p.1).
#[global] Instance working_preorder s : PreOrder (working s).
Proof.
  split; [intros p; split; [reflexivity|done]|]. intros p q r [H1 H2] [K1 K2]. split; [by etransitivity|congruence].
Qed.
Lemma keeps_working_lift {A} s (m : M (hst W) A) : keeps (extends (no_run s)) m → keeps (working s) (lift m).
Proof. intros Hm n [l st]. specialize (Hm n st). unfold lift. cbn. destruct (m n st) as [r st']. by split. Qed.
Lemma keeps_working_set s f :
  (∀ l, dict_get "result" (vmeta (f l)) = dict_get "result" (vmeta l)) → keeps (working s) (set_local f).
Proof. intros Hf n [l st]. split; [cbn; reflexivity|apply Hf]. Qed.
Lemma keeps_working_monitor {A} s (m : MM (W:=W) A) :
  keeps (host_only (extends (no_run s))) m → keeps (working s) (of_monitor m).
Proof.
  intros Hm n [l st]. unfold of_monitor. cbn. destruct (v_monitor l) as [mon|]; [|by split; [cbn; reflexivity|]].
  specialize (Hm n (mon, st)). destruct (m n (mon, st)) as [r p']. by split.
Qed.
End phases.

Lemma joinpath_inj d x y : joinpath d x = joinpath d y → x = y.
Proof. unfold joinpath. by intros ?%(inj _)%(inj _). Qed.
(** A call that does not write the metadata. *)
Ltac no_run_tac :=
  apply keeps_call_extends; intros []; unfold no_run; repeat constructor; intros ? Hrun; first
    [ discriminate Hrun
    | injection Hrun as Hrun _;
      unfold volume_events_file, volume_calibration_file, volume_summary_file, volume_run_file in Hrun;
      apply joinpath_inj in Hrun; discriminate Hrun ].
#[export] Hint Extern 1 (keeps (extends (no_run _)) (call _)) => no_run_tac : py.
#[export] Hint Extern 1 (keeps (working _) (lift _)) => (apply keeps_working_lift; solve [keeps_deep]) : py.
#[export] Hint Extern 1 (keeps (working _) (of_monitor _)) => (apply keeps_working_monitor; solve [keeps_deep]) : py.
#[export] Hint Extern 1 (keeps (working _) (set_local (set_vmeta _ _))) =>
  (apply keeps_working_set; intros ?; cbn; rewrite dict_get_set; reflexivity) : py.
#[export] Hint Extern 2 (keeps (working _) (set_local _)) => (apply keeps_working_set; intros ?; reflexivity) : py.

Section mode_laws.
Context {W : Type} `{Host W} (float_repr : Q → string) (str_repr : string → string).

Lemma connect_working s server a b port t mode cbr lam :
  keeps (working s) (connect_clients float_repr (λ onion, set_vmeta "onion" (JStr onion)) server a b port t mode cbr lam
    : M (volume_locals * hst W) unit).
Proof. unfold connect_clients. keeps_tac. Qed.
Lemma calibrate_working s t set :
  (∀ k v l, vmeta (set k v l) = vmeta l) → keeps (working s) (volume_calibrate t set : VM (W:=W) unit).
Proof. intros Hs. unfold volume_calibrate. keeps_tac; apply keeps_working_set; intros l; by rewrite Hs. Qed.
Lemma start_working s : keeps (working s) (start_measuring s : VM (W:=W) _).
Proof. unfold start_measuring. keeps_tac. Qed.
Lemma series_working s a : keeps (working s) (measured_series s a : VM (W:=W) _).
Proof. unfold measured_series, put_meta. keeps_tac. Qed.
Lemma stop_working s k before t0 : keeps (working s) (stop_measuring str_repr s k before t0 : VM (W:=W) _).
Proof. unfold stop_measuring, put_meta. keeps_tac. Qed.
Lemma conclude_working s a v : keeps (working s) (conclude s a v : VM (W:=W) _).
Proof. unfold conclude, put_meta. keeps_tac. Qed.

(** *** What a mode that passed leaves *)

(** What the metadata says of the volumes. *)
Record volume_facts (a : bt05_args) (v : volumes) (meta : list (string * json)) : Prop := {
  vf_positive : 0 < v_total v;
  vf_total : dict_get "v_total_bytes" meta = Some (JInt (v_total v));
  vf_user : dict_get "v_user_bytes" meta = Some (JInt (v_user a));
  vf_overhead : dict_get "overhead_percent" meta = Some (JFloat (overhead_percent (v_total v) (v_user a)));
  vf_expansion : dict_get "expansion_factor" meta = Some (JFloat (expansion_factor (v_total v) (v_user a)));
  vf_received : ∃ rx, dict_get "messages_received" meta = Some (JInt rx) ∧ v_messages a <= rx;
  vf_acked : ∃ ack, dict_get "acks_delivered" meta = Some (JInt ack) ∧ v_messages a <= ack;
  vf_duration : ∃ d, dict_get "duration_seconds" meta = Some (JFloat d);
  vf_alive : ∀ k, k ∈ ALIVE_KEYS → dict_get k meta = Some (JBool true) }.

(** The record of the [try]: what the monitor read until the mark, the events, what it read
    until the end of the window, the table of that window, the calibration, the summary. *)
Definition measured_log (s : volume_setup) (a : bt05_args) (meta : list (string * json)) (cal : json) (l : list entry)
  : Prop :=
  ∃ i0 ser sent items late v,
    l = [Reads i0; Doc (volume_events_file s) (snapshot_json ser sent); Reads items] ++ late ++
        [Table (conn_bw_file s) (CONN_HEADER :: map conn_row (or_events items)); Doc (volume_calibration_file s) cal;
         Doc (volume_summary_file s) (summary_doc s a v meta)] ∧
    (late = [] ∨ ∃ i, late = [Reads i]) ∧ consistent ser (v_messages a) sent ∧
    volumes_of items v ∧ (∀ x, failure items = Some x → isinstance x Exception_ = false) ∧
    volume_facts a v meta ∧ ∃ c, read_anchors cal = Ok c.

Definition passed_state (s : volume_setup) (a : bt05_args) (D : list entry) (p : volume_locals * hst W) : Prop :=
  ∃ l, logged (trace p.2) = D ++ l ∧ measured_log s a (vmeta p.1) (volume_calibration p.1) l ∧
    v_monitor p.1 = None ∧ v_capture p.1 = None ∧ dict_get "result" (vmeta p.1) = Some (JStr "passed").

(** Two keys that neither the summary nor the facts read. *)
Definition OWN_KEYS : list string := ["result"; "finished_at"].
Lemma facts_set a v k x meta : k ∈ OWN_KEYS → volume_facts a v meta → volume_facts a v (dict_set k x meta).
Proof.
  unfold OWN_KEYS. rewrite !elem_of_cons, elem_of_nil. intros Hk [].
  destruct Hk as [->|[->|[]]]; split; rewrite ?dict_get_set; try done.
  all: intros k Hk; rewrite dict_get_set, bool_decide_eq_false_2; [auto|].
  all: intros ->; by apply (bool_decide_pack (_ ∈ ALIVE_KEYS)) in Hk.
Qed.
Lemma summary_set s a v k x meta : k ∈ OWN_KEYS → summary_doc s a v (dict_set k x meta) = summary_doc s a v meta.
Proof.
  unfold OWN_KEYS. rewrite !elem_of_cons, elem_of_nil. intros [->|[->|[]]]; unfold summary_doc; by rewrite !dict_get_set.
Qed.
Lemma measured_log_set s a k x meta cal l :
  k ∈ OWN_KEYS → measured_log s a meta cal l → measured_log s a (dict_set k x meta) cal l.
Proof.
  intros Hk (i0 & ser & sent & items & late & v & -> & H1 & H2 & H3 & H4 & H5 & H6).
  exists i0, ser, sent, items, late, v. split_and!; try done; [by rewrite summary_set|by apply facts_set].
Qed.

Lemma volume_anchors l p1 p2 q1 q2 :
  vpre l = [("client_a", calibration_json p1); ("client_b", calibration_json p2)] →
  vpost l = [("client_a", calibration_json q1); ("client_b", calibration_json q2)] →
  ∃ c, read_anchors (volume_calibration l) = Ok c.
Proof.
  intros Hp Hq. unfold read_anchors, volume_calibration. rewrite Hp, Hq.
  erewrite !anchor_from_calibration by reflexivity. by eexists.
Qed.

(** A step of the [try]. *)
Lemma wp_work {A B} s (m : VM (W:=W) A) (k : A → VM B) (Q0 : A → _ → Prop) Q (E : exn → _ → Prop) n p0 p :
  keeps (working s) m → working s p0 p → wp True m Q0 (λ _ _, True) n p →
  (∀ x p', Q0 x p' → working s p0 p' → wp True (k x) Q E n p') →
  (∀ e p', working s p0 p' → E e p') → wp True (m ≫= k) Q E n p.
Proof.
  intros Hm Hp HQ Hk HE. apply wp_bind. eapply wp_mono; [| |eapply wp_keeps; [exact Hm|exact HQ]].
  - intros x p' [Hx Hw]. apply Hk; [done|by etransitivity].
  - intros e p' [_ Hw]. eapply HE. by etransitivity.
Qed.
Lemma wp_work_silent {A B} s (m : M (hst W) A) (k : A → VM B) Q (E : exn → _ → Prop) n p0 l st :
  keeps (extends (no_run s)) m → keeps silent m → working s p0 (l, st) →
  (∀ x st', logged (trace st') = logged (trace st) → working s p0 (l, st') → wp True (k x) Q E n (l, st')) →
  (∀ e p', working s p0 p' → E e p') → wp True (lift m ≫= k) Q E n (l, st).
Proof.
  intros H1 H2 Hp Hk HE. eapply (wp_work s _ _ (λ _ p', p'.1 = l ∧ logged (trace p'.2) = logged (trace st)));
    [by apply keeps_working_lift|done| | |done].
  - apply wp_lift. eapply wp_mono; [| |eapply wp_keeps; [exact H2|apply wp_trivial]]; [|done]. intros x st' [_ Hs]. by split.
  - intros x [l' st'] [Hl Hd] Hw. cbn in Hl, Hd. subst l'. by apply Hk.
Qed.

Lemma connect_wp server a b port t mode cbr lam n l (st : hst W) D :
  logged (trace st) = D →
  wp True (connect_clients float_repr (λ onion, set_vmeta "onion" (JStr onion)) server a b port t mode cbr lam)
    (λ _ p', same_but ["onion"] l p'.1 ∧ logged (trace p'.2) = D) (λ _ _, True) n (l, st).
Proof.
  intros HD. unfold connect_clients. do 4 quietly HD. apply wp_set_local. do 10 quietly HD.
  eapply wp_silent_last; [solve [keeps_deep]|exact HD|]. intros ? st9 HD9. split; [same_but_tac|done].
Qed.

(** The metadata after the phases, for the keys of the facts. *)
Lemma facts_intro a v l0 l1 l2 l3 rx ack d :
  dict_get "v_user_bytes" (vmeta l0) = Some (JInt (v_user a)) →
  same_but SERIES_KEYS l0 l1 → dict_get "messages_received" (vmeta l1) = Some (JInt rx) →
  dict_get "acks_delivered" (vmeta l1) = Some (JInt ack) → v_messages a <= rx → v_messages a <= ack →
  (∀ k, k ∉ VOLUME_KEYS → dict_get k (vmeta l2) = dict_get k (vmeta l1)) →
  dict_get "v_total_bytes" (vmeta l2) = Some (JInt (v_total v)) → dict_get "duration_seconds" (vmeta l2) = Some (JFloat d) →
  (∀ k, k ∉ END_KEYS → dict_get k (vmeta l3) = dict_get k (vmeta l2)) → 0 < v_total v →
  dict_get "overhead_percent" (vmeta l3) = Some (JFloat (overhead_percent (v_total v) (v_user a))) →
  dict_get "expansion_factor" (vmeta l3) = Some (JFloat (expansion_factor (v_total v) (v_user a))) →
  (∀ k, k ∈ ALIVE_KEYS → dict_get k (vmeta l3) = Some (JBool true)) → volume_facts a v (vmeta l3).
Proof.
  intros Hu [_ H1] Hrx Hack Lrx Lack H2 Ht Hd H3 Hv Ho Hx Ha.
  assert (∀ (keys : list string) (k : string), bool_decide (k ∈ keys) = false → k ∉ keys) as Hdec by (intros ? ?; apply bool_decide_eq_false).
  split; try done.
  - by rewrite H3 by by apply Hdec.
  - by rewrite H3, H2, H1 by by apply Hdec.
  - exists rx. by rewrite H3, H2 by by apply Hdec.
  - exists ack. by rewrite H3, H2 by by apply Hdec.
  - exists d. by rewrite H3 by by apply Hdec.
Qed.

Lemma write_calibration_wp s n l (st : hst W) D :
  logged (trace st) = D →
  wp True (volume_write_calibration s)
    (λ _ p', p'.1 = l ∧ logged (trace p'.2) = D ++ [Doc (volume_calibration_file s) (volume_calibration l)])
    (λ _ _, True) n (l, st).
Proof. intros HD. unfold volume_write_calibration. apply wp_get_local, wp_writes. intros st' Hl. cbn. by rewrite Hl, HD. Qed.

(** Once the mode is recorded as passed, a line is printed. *)
Lemma pass_wp s a v n l (st : hst W) D :
  (∀ p', vmeta p'.1 = dict_set "result" (JStr "passed") (vmeta l) → volume_calibration p'.1 = volume_calibration l →
     v_monitor p'.1 = v_monitor l → v_capture p'.1 = v_capture l → logged (trace p'.2) = logged (trace st) →
     passed_state s a D p') →
  wp True (pass s a v) (λ _ p', passed_state s a D p') (λ _ p', passed_state s a D p') n (l, st).
Proof.
  intros HP. unfold pass, put_meta. apply wp_set_local, wp_lift.
  eapply wp_mono; [| |eapply (wp_keeps (R:=silent)); [solve [keeps_deep]|apply wp_trivial]].
  all: intros ? st' [_ Hs]; by apply HP.
Qed.

(** The [try] from the measured series on, after the mark and the first calibration. *)
Lemma volume_measure_wp s a before t0 n p0 l (st : hst W) D i0 sk pa pb :
  let mon := run_items i0 (Monitor (Some sk) true [] None) in
  v_monitor l = Some mon → vpre l = [("client_a", calibration_json pa); ("client_b", calibration_json pb)] → vpost l = [] →
  dict_get "v_user_bytes" (vmeta l) = Some (JInt (v_user a)) → logged (trace st) = D ++ [Reads i0] →
  working s p0 (l, st) →
  wp True (measured_series s a;;
           v ← stop_measuring str_repr s (length (m_events mon)) before t0;
           lift (info "Calibrating VM clocks against the host after the measured series...");;
           volume_calibrate (v_testbed s) set_vpost;;
           volume_write_calibration s;;
           conclude s a v;;
           pass s a v : VM (W:=W) unit)
    (λ _ p', passed_state s a D p') (λ _ p', working s p0 p' ∨ passed_state s a D p') n (l, st).
Proof.
  intros mon Hmon Hpre Hpost Hu HD Hw.
  assert (∀ (e : exn) p', working s p0 p' → working s p0 p' ∨ passed_state s a D p') as HE by auto.
  eapply wp_work; [apply series_working|exact Hw|apply measured_series_wp| |exact HE].
  clear Hw. intros _ [l1 st1] (ser & sent & rx & ack & Hc & Lrx & Lack & Hs1 & Hrx & Hack & HD1) Hw.
  rewrite HD in HD1. clear HD. destruct (Hs1) as [El1 _]. cbn [fst snd] in *.
  eapply wp_work; [apply stop_working|exact Hw|by apply (stop_measuring_wp _ _ _ _ _ _ mon sk); [rewrite El1|unfold mon; rewrite run_items_spec]| |exact HE].
  clear Hw. intros v [l2 st2] (items & late & d & Hv & Herr & Hlate & [El2 Hl2] & Ht & Hd & HD) Hw.
  rewrite HD1 in HD. clear HD1. cbn [fst snd] in *.
  eapply wp_work_silent; [solve [keeps_deep]|solve [keeps_deep]|exact Hw| |exact HE].
  clear Hw. intros _ st3 HD1 Hw. rewrite HD in HD1. clear HD.
  eapply wp_work; [by apply calibrate_working|exact Hw|by apply calibrate_wp| |exact HE].
  clear Hw HD1. intros _ [l3 st4] [HD (qa & qb & El3)] Hw. cbn [fst snd] in *.
  eapply wp_work; [solve [keeps_deep]|exact Hw|by apply write_calibration_wp| |exact HE].
  clear Hw HD. intros _ [l3' st5] [El HD] Hw. cbn [fst snd] in *. subst l3'.
  eapply wp_work; [apply conclude_working|exact Hw|apply conclude_wp| |exact HE].
  clear Hw. intros _ [l4 st6] (Hpos & [El4 Hl4] & Ho & Hx & Ha & HD1) Hw. rewrite HD in HD1. clear HD. cbn [fst snd] in *.
  eapply wp_mono; [| |apply (pass_wp s a v n l4 st6 D)]; [done|by right|].
  intros [l5 st7] Em Ecal Emon Ecap HD. cbn [fst snd] in *. rewrite HD1 in HD. clear HD1.
  assert (volume_calibration l5 = volume_calibration l3) as Ec.
  { rewrite Ecal. unfold volume_calibration. by rewrite El4. }
  eexists. split; [cbn [fst snd]; rewrite HD, <- !app_assoc; reflexivity|]. cbn [fst snd].
  split_and!; [|by rewrite Emon, El4, El3, El2|by rewrite Ecap, El4, El3, El2|by rewrite Em, dict_get_set].
  rewrite Em, Ec. apply measured_log_set; [by left|]. exists i0, ser, sent, items, late, v.
  split_and!; [by cbn [app]; rewrite <- ?app_assoc|done|done|done| |..].
  - intros x Hx'. rewrite run_items_spec in Herr. cbn [m_error] in Herr. rewrite Hx' in Herr. by destruct (isinstance x Exception_).
  - eapply (facts_intro a v l l1 l3 l4); try done.
    + intros k Hk. rewrite El3. cbn. by apply Hl2.
    + by rewrite El3.
    + by rewrite El3.
  - apply (volume_anchors l3 pa pb qa qb); rewrite El3; cbn; [by rewrite El2; cbn; rewrite El1|].
    rewrite El2. cbn. rewrite El1. cbn. by rewrite Hpost.
Qed.

Lemma volume_body_wp s a n p0 l (st : hst W) :
  vpre l = [] → vpost l = [] → dict_get "v_user_bytes" (vmeta l) = Some (JInt (v_user a)) → working s p0 (l, st) →
  wp True (volume_body float_repr str_repr s a)
    (λ _ p', passed_state s a (logged (trace st)) p')
    (λ _ p', working s p0 p' ∨ passed_state s a (logged (trace st)) p') n (l, st).
Proof.
  intros Hpre Hpost Hu Hw. unfold volume_body. set (D := logged (trace st)).
  assert (logged (trace st) = D) as HD by done. clearbody D.
  assert (∀ (e : exn) p', working s p0 p' → working s p0 p' ∨ passed_state s a D p') as HE by auto.
  eapply wp_work; [apply connect_working|exact Hw|by apply connect_wp| |exact HE].
  clear Hw HD. intros _ [l1 st1] [[El1 Hl1] HD] Hw. cbn [fst snd] in *.
  eapply wp_work_silent; [solve [keeps_deep]|solve [keeps_deep]|exact Hw| |exact HE].
  clear Hw. intros _ st2 HD2 Hw. rewrite HD in HD2. clear HD.
  eapply wp_work; [by apply calibrate_working|exact Hw|by apply calibrate_wp| |exact HE].
  clear Hw HD2. intros _ [l2 st3] [HD (pa & pb & El2)] Hw. cbn [fst snd] in *.
  eapply wp_work_silent; [solve [keeps_deep]|solve [keeps_deep]|exact Hw| |exact HE].
  clear Hw. intros _ st4 HD2 Hw. rewrite HD in HD2. clear HD.
  eapply wp_work; [apply start_working|exact Hw|apply start_measuring_wp| |exact HE].
  clear Hw. intros [k before] [l3 st5] (i0 & sk & c & El3 & Hk & HD) Hw. cbn [fst snd] in *. rewrite HD2 in HD. clear HD2.
  eapply wp_work_silent; [solve [keeps_deep]|solve [keeps_deep]|exact Hw| |exact HE].
  clear Hw. intros t0 st6 HD2 Hw. rewrite HD in HD2. clear HD. apply wp_set_local. subst k l3 l2.
  apply (volume_measure_wp s a before t0 n p0 _ st6 D i0 sk pa pb); cbn; [done| | | |done|by split; apply Hw].
  - by rewrite El1; cbn; rewrite Hpre.
  - by rewrite El1.
  - rewrite Hl1; [done|]. apply (bool_decide_unpack (_ ∉ _)). exact I.
Qed.

(** *** The end of a mode *)

Definition failed_state (s : volume_setup) (D : list entry) (p : volume_locals * hst W) : Prop :=
  ∃ l, logged (trace p.2) = D ++ l ∧ Forall (λ x, ∀ j, x ≠ Doc (volume_run_file s) j) l ∧
    dict_get "result" (vmeta p.1) ≠ Some (JStr "passed").

Lemma run_not_measured s a meta cal l :
  measured_log s a meta cal l → Forall (λ x, ∀ j, x ≠ Doc (volume_run_file s) j) l.
Proof.
  intros (i0 & ser & sent & items & late & v & -> & Hlate & _).
  assert (∀ name j x, name ≠ "run.json" → Doc (joinpath (v_mode_dir s) name) x ≠ Doc (volume_run_file s) j) as Hne.
  { intros name j x Hn [= E _]. by apply joinpath_inj in E. }
  rewrite !Forall_app, !Forall_cons, !Forall_nil. split_and!; try done; try (intros j; by apply Hne).
  by destruct Hlate as [->|[i ->]]; repeat constructor.
Qed.
Lemma observed_no_run s (st st' : hst W) :
  extends (no_run s) st st' →
  ∃ l, logged (trace st') = logged (trace st) ++ l ∧ Forall (λ x, ∀ j, x ≠ Doc (volume_run_file s) j) l.
Proof.
  intros (l & E & Hl). exists (logged l). rewrite E, observed_app. split; [done|]. unfold observed. clear E.
  induction Hl as [|ev l Hev Hl IH]; [constructor|]. change ((ev :: l) ≫= entry_of) with (entry_of ev ++ (l ≫= entry_of)).
  apply Forall_app. split; [exact Hev|]. apply IH.
Qed.


(** The state of the mode when its [try] is left. *)
Definition left (s : volume_setup) (a : bt05_args) (D : list entry) (p : volume_locals * hst W) : Prop :=
  failed_state s D p ∨ passed_state s a D p.
Lemma left_silent s a D l (st st' : hst W) : silent st st' → left s a D (l, st) → left s a D (l, st').
Proof. unfold unseen, left, failed_state, passed_state. cbn. by intros ->. Qed.
Lemma left_log s a D p : left s a D p →
  ∃ l, logged (trace p.2) = D ++ l ∧ Forall (λ x, ∀ j, x ≠ Doc (volume_run_file s) j) l.
Proof. intros [(l & H1 & H2 & _)|(l & H1 & H2 & _)]; exists l; [done|]. split; [done|by eapply run_not_measured]. Qed.

Lemma volume_failed_wp s a e n D l (st : hst W) :
  left s a D (l, st) → wp True (volume_failed e : VM unit) (λ _ _, False) (λ _ p', left s a D p') n (l, st).
Proof.
  intros Hl. destruct (left_log _ _ _ _ Hl) as (l0 & HD & Hno).
  assert (∀ meta st', silent st st' →
    left s a D (VLoc (dict_set "result" (JStr "failed") meta) (vpre l) (vpost l) (v_capture l) (v_monitor l) (v_started l), st')) as Hf.
  { intros meta st' Hs. left. exists l0. unfold unseen in Hs. cbn in *. by rewrite Hs, dict_get_set. }
  unfold volume_failed, put_meta. apply wp_get_local. apply wp_bind. destruct (v_started l) as [t0|] eqn:Et.
  - apply wp_bind, wp_lift. eapply wp_mono; [| |eapply (wp_keeps (R:=silent)); [solve [keeps_deep]|apply wp_trivial]].
    + intros t st1 [_ Hs]. unfold wp at 1, set_local. cbn. apply (Hf _ st1 Hs).
    + intros e' st1 [_ Hs]. by eapply left_silent.
  - apply wp_ret, wp_set_local. apply (Hf _ st). reflexivity.
Qed.

Lemma volume_try_wp s a n l (st : hst W) :
  vpre l = [] → vpost l = [] → dict_get "v_user_bytes" (vmeta l) = Some (JInt (v_user a)) →
  dict_get "result" (vmeta l) = Some (JStr "incomplete") →
  wp True (try_except (volume_body float_repr str_repr s a) (except [Exception_] volume_failed))
    (λ _ p', passed_state s a (logged (trace st)) p') (λ _ p', left s a (logged (trace st)) p') n (l, st).
Proof.
  intros Hpre Hpost Hu Hr. apply wp_try_except.
  eapply wp_mono; [| |apply (volume_body_wp s a n (l, st)); [done..|reflexivity]]; [done|].
  intros e [l' st'] Hp. assert (left s a (logged (trace st)) (l', st')) as Hl.
  { destruct Hp as [[Hw Hk]|Hp]; [left|by right]. destruct (observed_no_run _ _ _ Hw) as (l0 & H1 & H2).
    exists l0. cbn in *. by rewrite Hk, Hr. }
  unfold except. destruct (isinstance_any e _); [|done].
  eapply wp_mono; [| |by apply volume_failed_wp]; done.
Qed.

(** *** The [finally] *)

(** Every [run.json] written has the result of the metadata. *)
Definition run_says (s : volume_setup) (r : option json) (x : entry) : Prop :=
  ∀ d, x = Doc (volume_run_file s) (JObj d) → dict_get "result" d = r.
Definition closing (s : volume_setup) (p p' : volume_locals * hst W) : Prop :=
  dict_get "result" (vmeta p'.1) = dict_get "result" (vmeta p.1) ∧
  extends (λ ev, Forall (run_says s (dict_get "result" (vmeta p.1))) (entry_of ev)) p.2 p'.2.
#[global] Instance closing_preorder s : PreOrder (closing s).
Proof.
  split; [intros p; split; [done|reflexivity]|]. intros p q r [H1 H2] [K1 K2]. split; [congruence|].
  rewrite H1 in K2. by etransitivity.
Qed.
Lemma working_closing s p p' : working s p p' → closing s p p'.
Proof.
  intros [(l & E & Hl) Hr]. split; [done|]. exists l. split; [done|]. eapply Forall_impl; [exact Hl|].
  intros ev Hev. eapply Forall_impl; [exact Hev|]. intros x Hx d ->. by destruct (Hx (JObj d)).
Qed.
Lemma keeps_closing {A} s (m : VM (W:=W) A) : keeps (working s) m → keeps (closing s) m.
Proof. intros Hm n p. apply working_closing, Hm. Qed.
Lemma keeps_closing_write {A} s (k : unit → VM (W:=W) A) :
  (∀ x, keeps (closing s) (k x)) →
  keeps (closing s) (l ← get_local; lift (call (EWriteJson (volume_run_file s) (JObj (vmeta l)))) ≫= k).
Proof.
  intros Hk n [l st]. change (closing s (l, st) ((lift (call (EWriteJson (volume_run_file s) (JObj (vmeta l)))) ≫= k) n (l, st)).2).
  set (e := EWriteJson _ _). assert (∀ o w, closing s (l, st) (l, HSt w (trace st ++ [Ev e o]))) as H1.
  { intros o w. split; [done|]. exists [Ev e o]. split; [done|]. constructor; [|done].
    destruct o; repeat constructor. by intros d [= <-]. }
  unfold mbind, M_mbind, m_bind, lift, call. cbn [fst snd].
  destruct (handle e (world st)) as [[x|y] w']; cbn; [|apply H1].
  etransitivity; [apply (H1 (inl x) w')|]. apply (Hk x n (l, HSt w' _)).
Qed.
Lemma volume_finally_closing s : keeps (closing s) (volume_finally s : VM (W:=W) unit).
Proof.
  unfold volume_finally, put_meta, warn_on_error.
  apply keeps_bind; [solve [eauto with py]|]. intros l.
  do 8 (apply keeps_bind; [apply keeps_closing; solve [keeps_deep]|intros ?]).
  apply keeps_closing_write. intros x. apply keeps_closing. keeps_deep.
Qed.

(** The record of a mode that passed: that of the [try], the calibration again unless it
    could not be written, and the metadata. *)
Definition passed_log (s : volume_setup) (a : bt05_args) (l : list entry) : Prop :=
  ∃ meta cal l0 again, l = l0 ++ again ++ [Doc (volume_run_file s) (JObj meta)] ∧ measured_log s a meta cal l0 ∧
    (again = [] ∨ again = [Doc (volume_calibration_file s) cal]) ∧ dict_get "result" meta = Some (JStr "passed").
Definition honest_log (s : volume_setup) (a : bt05_args) (l : list entry) : Prop :=
  ∀ d, Doc (volume_run_file s) (JObj d) ∈ l → dict_get "result" d = Some (JStr "passed") → passed_log s a l.

Lemma no_run_honest s a l : Forall (λ x, ∀ j, x ≠ Doc (volume_run_file s) j) l → honest_log s a l.
Proof. intros Hl d Hin. rewrite Forall_forall in Hl. by destruct (Hl _ Hin (JObj d)). Qed.

Lemma finally_failed_wp s a n D p :
  failed_state s D p →
  wp True (volume_finally s) (λ _ p', ∃ l, logged (trace p'.2) = D ++ l ∧ honest_log s a l)
    (λ _ p', ∃ l, logged (trace p'.2) = D ++ l ∧ honest_log s a l) n p.
Proof.
  intros (l & HD & Hno & Hr).
  assert (∀ p', closing s p p' → ∃ l, logged (trace p'.2) = D ++ l ∧ honest_log s a l) as Hc.
  { intros p' [_ (evs & E & Hevs)]. exists (l ++ logged evs). rewrite E, observed_app, HD, <- app_assoc. split; [done|].
    intros d [Hin|Hin]%elem_of_app Hp; [rewrite Forall_forall in Hno; by destruct (Hno _ Hin (JObj d))|].
    apply list_elem_of_bind in Hin as (ev & Hin & Hev). rewrite Forall_forall in Hevs.
    specialize (Hevs _ Hev). rewrite Forall_forall in Hevs. specialize (Hevs _ Hin d eq_refl). congruence. }
  eapply wp_mono; [| |eapply wp_keeps; [apply volume_finally_closing|apply wp_trivial]].
  all: intros ? p' [_ Hp]; by apply Hc.
Qed.

(** The calibration is written again, or a warning is printed. *)
Lemma write_again_wp s what n l (st : hst W) D :
  logged (trace st) = D →
  wp True (warn_on_error what (volume_write_calibration s))
    (λ _ p', p'.1 = l ∧ ∃ again, logged (trace p'.2) = D ++ again ∧
       (again = [] ∨ again = [Doc (volume_calibration_file s) (volume_calibration l)]))
    (λ _ _, True) n (l, st).
Proof.
  intros HD. unfold warn_on_error, volume_write_calibration. apply wp_try_except, wp_get_local, wp_lift, wp_call_cases.
  - intros [] w' _. split; [done|]. eexists. cbn. rewrite observed_snoc, HD. split; [done|by right].
  - intros e w' _. unfold except. destruct (isinstance_any e _); [|done].
    apply (wp_silent_last _ _ _ _ _ D); [keeps_deep|cbn; rewrite observed_snoc, HD; by rewrite app_nil_r|].
    intros [] st' HD'. split; [done|]. exists []. rewrite app_nil_r. auto.
Qed.

(** A file that is copied, or a warning. *)
Lemma wp_copied {B} s what (m : M (hst W) unit) (k : unit → VM B) Q (E : exn → _ → Prop) n p0 l st :
  keeps (extends (no_run s)) m → keeps silent m → working s p0 (l, st) →
  (∀ x st', logged (trace st') = logged (trace st) → working s p0 (l, st') → wp True (k x) Q E n (l, st')) →
  (∀ e p', working s p0 p' → E e p') → wp True (warn_on_error what (lift m) ≫= k) Q E n (l, st).
Proof.
  intros H1 H2 Hp Hk HE. unfold warn_on_error.
  eapply (wp_work s _ _ (λ _ p', p'.1 = l ∧ logged (trace p'.2) = logged (trace st))); [|exact Hp| | |exact HE].
  - apply keeps_try; [by apply keeps_working_lift|]. intros e. apply keeps_working_lift. keeps_deep.
  - eapply wp_mono; [| |eapply (wp_keeps (R:=frame_local silent)); [|apply wp_trivial]]; [by intros ? ? [_ ?]|done|].
    apply keeps_try; [by apply keeps_lift|]. intros e. apply keeps_lift. keeps_deep.
  - intros x [l' st'] [Hl Hd] Hw. cbn in Hl, Hd. subst l'. by apply Hk.
Qed.

Lemma finally_passed_wp s a n D l (st : hst W) :
  passed_state s a D (l, st) →
  wp True (volume_finally s) (λ _ p', ∃ l, logged (trace p'.2) = D ++ l ∧ passed_log s a l)
    (λ _ p', ∃ l, logged (trace p'.2) = D ++ l ∧ honest_log s a l) n (l, st).
Proof.
  intros (l0 & HD & Hlog & Hmon & Hcap & Hr). cbn [fst snd] in *.
  assert (∀ (e : exn) p', working s (l, st) p' → ∃ l, logged (trace p'.2) = D ++ l ∧ honest_log s a l) as HE.
  { intros e p' [Hw _]. destruct (observed_no_run _ _ _ Hw) as (l1 & -> & Hl1). cbn. rewrite HD. exists (l0 ++ l1).
    rewrite app_assoc. split; [done|]. apply no_run_honest, Forall_app. split; [by eapply run_not_measured|done]. }
  assert (working s (l, st) (l, st)) as Hw by reflexivity.
  unfold volume_finally, put_meta. apply wp_get_local. rewrite Hmon, Hcap.
  apply wp_bind, wp_lift, wp_ret. apply wp_bind, wp_ret.
  eapply wp_work_silent; [solve [keeps_deep]|solve [keeps_deep]|exact Hw| |exact HE]. clear Hw. intros at_ st1 H1 Hw.
  rewrite HD in H1. apply wp_set_local. set (l' := set_vmeta _ _ l).
  assert (working s (l, st) (l', st1)) as Hw1 by (split; [apply Hw|cbn; by rewrite dict_get_set]). clear Hw.
  eapply wp_work; [solve [keeps_deep]|exact Hw1|by apply write_again_wp| |exact HE].
  clear Hw1 H1. intros _ [l2 st2] [El (again & H1 & Hag)] Hw. cbn [fst snd] in El, H1. subst l2.
  do 3 (eapply wp_copied; [solve [keeps_deep]|solve [keeps_deep]|exact Hw| |exact HE]; clear Hw; intros _ ? Hs Hw;
    rewrite H1 in Hs; rename Hs into Hnext; clear H1; rename Hnext into H1).
  apply wp_get_local, wp_bind, wp_lift, wp_call_cases.
  2:{ intros e w' _. apply (HE e (l', _)). destruct Hw as [Hx Hy]. split; [|done]. etransitivity; [exact Hx|].
      eexists. split; [reflexivity|]. apply Forall_singleton. apply Forall_nil. done. }
  intros [] w' _. set (l1 := l0 ++ again ++ [Doc (volume_run_file s) (JObj (vmeta l'))]).
  assert (passed_log s a l1) as Hpass.
  { exists (vmeta l'), (volume_calibration l), l0, again. split_and!; [done| |done|cbn; by rewrite dict_get_set].
    apply measured_log_set; [by right; left|done]. }
  apply wp_lift. eapply wp_mono; [| |eapply (wp_keeps (R:=silent)); [solve [keeps_deep]|apply wp_trivial]].
  all: intros ? st9 [_ Hs]; unfold unseen in Hs; cbn in Hs; rewrite observed_snoc, H1 in Hs; exists l1; cbn.
  all: split; [by rewrite Hs; unfold l1; rewrite <- !app_assoc|].
  - done.
  - by intros ? ? ?.
Qed.

Lemma bt05_run_mode_wp s a n (st : hst W) :
  wp True (bt05_run_mode float_repr str_repr s a)
    (λ _ st', ∃ l, logged (trace st') = logged (trace st) ++ l ∧ passed_log s a l)
    (λ _ st', ∃ l, logged (trace st') = logged (trace st) ++ l ∧ honest_log s a l) n st.
Proof.
  unfold bt05_run_mode. set (D := logged (trace st)). assert (logged (trace st) = D) as HD by done. clearbody D.
  assert (∀ (e : exn) (st' : hst W), logged (trace st') = D →
    ∃ l, logged (trace st') = D ++ l ∧ honest_log s a l) as HE.
  { intros e st' He. exists []. rewrite app_nil_r. split; [done|]. by apply no_run_honest. }
  do 3 (eapply (wp_unseen entry_of); [solve [keeps_deep]|exact HD| |exact HE]; clear st HD; intros ? st HD).
  apply wp_with_locals, wp_try_finally. rewrite <- HD. clear HE.
  eapply wp_mono; [| |apply volume_try_wp; reflexivity].
  - intros _ [l' st'] Hp. by apply finally_passed_wp.
  - intros e [l' st'] [Hp|Hp].
    + eapply wp_mono; [| |by apply (finally_failed_wp s a)]; done.
    + eapply wp_mono; [| |by apply (finally_passed_wp s a)]; [|done].
      intros _ p' (l1 & H1 & H2). exists l1. split; [done|]. by intros ? ? ?.
Qed.
End mode_laws.

(** ** A mode on the testbed *)

Definition volume_args : bt05_args :=
  {| v_mode := "all"; v_messages := 1; v_message_size := 32; v_cbr_interval_ms := 10; v_poisson_lambda := 1;
     v_timeout_seconds := 60; v_progress_interval_seconds := 1; v_skip_analysis := false; v_keep_environment := false |}.
Definition volume_testbed : testbed :=
  {| t_server_ip := "192.168.122.10"; t_client_a_ip := "192.168.122.11"; t_client_b_ip := "192.168.122.12";
     t_client_tor := {| node_name := "008c"; node_socks_port := 9008; control_port := 8008 |};
     t_server := 0%nat; t_client_a := 1%nat; t_client_b := 2%nat |}.
Definition sample_volume : volume_setup :=
  {| v_name := "cbr"; v_commit := "c0ffee"; v_dirty := false; v_testbed := volume_testbed; v_mode_dir := "results/cbr" |}.

(** The peers of the connections: the relay, then the control port of the Tor node. *)
Definition control_peer (lines : list string) : peer := Peer (lines ≫= λ x, encode x ++ [x0d; x0a]) false.
Definition volume_peers : list peer :=
  [relay; control_peer ["250 OK"; "250 OK"];
   control_peer ["250 OK"; "250-traffic/read=5000"; "250-traffic/written=4000"; "250 OK"];
   control_peer ["250 OK"; "250-traffic/read=6600"; "250-traffic/written=4900"; "250 OK"]].
Definition volume_bench : hst bench :=
  HSt (Bench (LW (Site [] programs [] [] WALL) 0 0 volume_peers (λ _, Peer [] false) (λ _, None)) EmptyString 0 0) [].
Definition plain (s : string) : string := s.
Definition any_float (_ : Q) : string := "0.1".

Definition summary_values (l : list entry) : list (list json) :=
  omap (λ x, match x with
             | Doc p (JObj d) =>
                 if ends_with "volumetric_summary.json" p
                 then Some (omap (λ k, dict_get k d) ["V_user"; "V_total"; "overhead_percent"; "tor_or_event_count"])
                 else None
             | _ => None
             end) l.
Definition volume_run : res unit * hst bench := bt05_run_mode any_float plain sample_volume volume_args 1000%nat volume_bench.
Definition volume_result (r : res unit * hst bench) : res unit * list path * list (list json) :=
  (r.1, map fst (saved (trace r.2)), summary_values (logged (trace r.2))).
(** The mode passes; V_total is what the two relay connections read and wrote. *)
Example volume_run_passes :
  volume_result volume_run =
  (Ok tt, map (joinpath "results/cbr")
            ["message_events.json"; "clock_calibration.json"; "volumetric_summary.json"; "clock_calibration.json";
             "run.json"],
   [[JInt 32; JInt 2424; JFloat (overhead_percent 2424 32); JInt 2]]).
Proof. vm_compute. reflexivity. Qed.

(** *** A capture that cannot be signalled *)

(** A host on which [send_signal] fails, as it does for a child that runs as another user. *)
Record guarded : Type := Guarded { behind : lw }.
#[global] Instance guarded_host : Host guarded := λ A e g,
  match e in eff A return (A + exn) * guarded with
  | ESigint _ => (inr (Exn OSError "Operation not permitted"), g)
  | e' => let '(o, w) := handle e' (behind g) in (o, Guarded w)
  end.
Definition watching : volume_locals :=
  VLoc (VolumeRun EmptyString sample_volume volume_args) [] [] (Some 0%nat) (Some (Monitor (Some 3%nat) true [] None)) None.
Definition closes (ev : event) : bool :=
  match ev_eff ev with EClose _ | EShutdown _ => true | _ => false end.
(** The [finally] is left at once: no [run.json], and the monitor's socket stays open. *)
Example capture_failure_skips_cleanup :
  (let r := volume_finally sample_volume 10%nat (watching, HSt (Guarded (world (fresh []))) []) in
   (r.1, saved (trace r.2.2), existsb closes (trace r.2.2))) =
  (Raise (Exn OSError "Operation not permitted"), [], false).
Proof. vm_compute. reflexivity. Qed.

(** ** The properties *)

(** C37: the monitor of the Tor node.  Whatever the node sends - reports of a connection's
    traffic and other lines - and in whatever pieces the thread has read it when it is looked
    at, the monitor's events grow by exactly the reported connections, in order, with their
    identifiers, types and byte counts; the thread goes on and no error is recorded. *)
Theorem monitor_reads_reports (m : monitor) (pieces : list (list report)) :
  Forall (Forall report_ok) pieces →
  foldl (λ m p, run_items (map report_item p) m) m pieces =
  Monitor (m_sock m) (m_running m) (m_events m ++ omap report_event (concat pieces)) (m_error m).
Proof.
  intros Hp. revert m. induction Hp as [|p pieces Hok _ IH]; intros m; cbn [foldl concat].
  - destruct m. cbn. by rewrite app_nil_r.
  - rewrite run_items_spec, IH, window_reports, omap_app, goes_on_reports, failure_reports by done. cbn.
    by rewrite app_assoc, andb_true_r.
Qed.

Lemma monitor_reads_reports_witness :
  foldl (λ m p, run_items (map report_item p) m) new_monitor
    [[Traffic 1 "7" "OR" 1500 900; OtherLine 2 (encode "650 BW 1 2")]; []; [Traffic 3 "9" "OR" 20 4]] =
  Monitor None false ([] ++ [ConnEv 1 "7" "OR" 1500 900; ConnEv 3 "9" "OR" 20 4]) None.
Proof.
  apply (monitor_reads_reports new_monitor
    [[Traffic 1 "7" "OR" 1500 900; OtherLine 2 (encode "650 BW 1 2")]; []; [Traffic 3 "9" "OR" 20 4]]).
  repeat constructor; done.
Defined.

(** C7: one mode of BT-05, from its set-up to its files.  [run_mode] ends.  When it returns,
    the record of the run grew by: the events of a series in which each of the requested
    messages was queued, sent, received and acknowledged once; the table of the relay
    connections (TYPE=OR) the monitor read between the mark and the end of the series, not
    empty; the clock calibration, whose anchors can be read; the summary; and [run.json], which says
    passed.  In the summary and the metadata V_total is positive and is the sum of the bytes
    read and written in that table, V_user is messages times size, overhead and expansion are
    computed from the two, received and acknowledged counts reach the number of messages,
    and clients and server were alive.  Whatever happens, a [run.json] that says passed was
    written only with all of these. *)
Theorem volume_documents {W} `{Clock W, !LineStream W} float_repr str_repr (s : volume_setup) (a : bt05_args) (st : hst W) :
  ∃ r st' l, returns (bt05_run_mode float_repr str_repr s a) st r st' ∧ logged (trace st') = logged (trace st) ++ l ∧
    (r = Ok tt → passed_log s a l) ∧ honest_log s a l.
Proof.
  destruct (total_post (bt05_run_mode float_repr str_repr s a) _ _ st (bt05_run_mode_total float_repr str_repr s a)
    (λ n, bt05_run_mode_wp float_repr str_repr s a n st)) as (r & st' & Hr & Hpost).
  exists r, st'. destruct r as [[]|e|]; [| |done]; destruct Hpost as (l & Hd & Hl); exists l; split_and!; try done.
  by intros ? ? ?.
Qed.
Lemma volume_documents_witness :
  ∃ r (st' : hst bench) l, returns (bt05_run_mode any_float plain sample_volume volume_args) volume_bench r st' ∧
    logged (trace st') = logged (trace volume_bench) ++ l ∧
    (r = Ok tt → passed_log sample_volume volume_args l) ∧ honest_log sample_volume volume_args l.
Proof. exact (volume_documents any_float plain sample_volume volume_args volume_bench). Defined.
