(* ===== verification/Bt05Suite.v ===== *)
(** * BT-05: the analysis of its modes, and the whole run

    The documents a mode writes (Bt05Spec.v) are what BT-05/analyze.py (Volume.v) asks for;
    what an exit status of the whole run says; and that the runs of BT-05 and BT-06 end. *)

From Stdlib Require Import Ascii ZArith QArith Qabs Lia Lqa.
From Stdlib Require Import Strings.Byte.
From stdpp Require Import base list strings sorting sets.
From S2P Require Import Prelude PyNum PyText Host Json Loopback Wire Console Events Calibration Latency Waiting Testbed Documents Bench Volume Bt06 Bt05 Bt05Spec.

Open Scope Z_scope.

(** ** The analysis accepts the summaries *)

(** The summary of a mode that passed. *)
Definition summary_of (a : bt05_args) (mode : string) (d : json) : Prop :=
  ∃ s v meta, v_name s = mode ∧ d = summary_doc s a v meta ∧ volume_facts a v meta.

Lemma passed_summary s a l : passed_log s a l → ∃ d, Doc (volume_summary_file s) d ∈ l.
Proof.
  intros (meta & cal & l0 & again & -> & (i0 & ser & sent & items & late & v & -> & _) & _).
  eexists. rewrite !elem_of_app, !elem_of_cons. tauto.
Qed.
(** A mode writes one summary. *)
Lemma passed_summary_of s a l d : passed_log s a l → Doc (volume_summary_file s) d ∈ l → summary_of a (v_name s) d.
Proof.
  intros (meta & cal & l0 & again & -> & (i0 & ser & sent & items & late & v & -> & Hlate & _ & _ & _ & Hv & _) & Hag & _) Hin.
  assert (∀ name j, name ≠ "volumetric_summary.json" → Doc (volume_summary_file s) d ≠ Doc (joinpath (v_mode_dir s) name) j) as Hne.
  { intros name j Hn [= E _]. by apply joinpath_inj in E. }
  rewrite !elem_of_app, !elem_of_cons, !elem_of_nil in Hin.
  destruct Hin as [[[?|[?|[?|[]]]]|[Hin|[?|[?|[E|[]]]]]]|[Hin|[?|[]]]]; try done; try (exfalso; eapply Hne; [|eassumption]; done).
  - by destruct Hlate as [->|[i ->]]; [apply elem_of_nil in Hin|apply list_elem_of_singleton in Hin].
  - injection E as ->. by exists s, v, meta.
  - destruct Hag as [->| ->]; [by apply elem_of_nil in Hin|]. apply list_elem_of_singleton in Hin.
    exfalso. eapply Hne; [|exact Hin]. done.
Qed.

(** What the analysis reads in a summary, [t] its V_total. *)
Record readable (a : bt05_args) (mode : string) (d : json) (t : Z) : Prop := {
  rd_fields : ∀ p, check_fields p d = Ok tt;
  rd_mode : jget "mode" d = Ok (JStr mode);
  rd_messages : jget "messages" d = Ok (JInt (v_messages a));
  rd_size : jget "payload_size" d = Ok (JInt (v_message_size a));
  rd_user : jget "V_user" d = Ok (JInt (v_user a));
  rd_total : jget "V_total" d = Ok (JInt t);
  rd_overhead : jget "overhead_percent" d = Ok (JFloat (overhead_percent t (v_user a)));
  rd_expansion : jget "expansion_factor" d = Ok (JFloat (expansion_factor t (v_user a)));
  rd_duration : ∃ x, jget "duration_seconds" d = Ok (JFloat x);
  rd_row : ∃ vs, row_values d = Ok vs }.

Lemma summary_readable a mode d : summary_of a mode d → ∃ t, 0 < t ∧ readable a mode d t.
Proof.
  intros (s & v & meta & <- & -> & Hf). destruct Hf as [Hp Ht Hu Ho He _ _ (dd & Hd) _].
  exists (v_total v). split; [done|]. split; try reflexivity.
  - unfold summary_doc. by rewrite Hu.
  - unfold summary_doc. by rewrite Ho.
  - unfold summary_doc. by rewrite He.
  - exists dd. unfold summary_doc. by rewrite Hd.
  - eexists. reflexivity.
Qed.

Lemma float_of_ends j : float_of j ≠ NoFuel.
Proof. destruct j; try done. cbn. by destruct (py_float s). Qed.
Lemma table_rows_ends rows : table_rows rows ≠ NoFuel.
Proof.
  induction rows as [|row rows IH]; cbn [table_rows]; [done|]. apply ends_bind; [|intros; by apply ends_bind].
  unfold row_values. induction FIELDS as [|k ks IHk]; cbn [foldr]; [done|].
  apply ends_bind; [apply jget_ends|]. intros v. by apply ends_bind.
Qed.
Lemma volume_script_total {W} `{Host W} py_repr root : total (volume_script py_repr root : M (hst W) Z).
Proof.
  pose proof float_of_ends. pose proof jget_ends. pose proof table_rows_ends. total_deep.
  all: unfold check_fields, comparable, differ, comparison, overhead_difference, bar_label, bar_height, bar_text, float_field.
  all: ends_tac; auto.
Qed.

(** The comparison of two modes. *)
Definition comparison_of (a : bt05_args) (t1 t2 : Z) : json :=
  let n1 := overhead_percent t1 (v_user a) in
  let n2 := overhead_percent t2 (v_user a) in
  JObj [("N_CBR_percent", JFloat n1); ("N_Poisson_percent", JFloat n2);
        ("absolute_difference_percent_points", JFloat (Qabs (fsub n1 n2)));
        ("V_total_CBR", JInt t1); ("V_total_Poisson", JInt t2);
        ("E_CBR", JFloat (expansion_factor t1 (v_user a))); ("E_Poisson", JFloat (expansion_factor t2 (v_user a)));
        ("note", JStr NOTE)].

Lemma json_eqb_int z : json_eqb (JInt z) (JInt z) = true.
Proof. apply Qeq_bool_iff. reflexivity. Qed.

Section analysis.
Context (a : bt05_args) (m1 m2 : string) (d1 d2 : json) (t1 t2 : Z) (R1 : readable a m1 d1 t1) (R2 : readable a m2 d2 t2).

Lemma summaries_comparable : comparable d1 d2 = Ok tt.
Proof.
  unfold comparable, differ. destruct R1, R2. rewrite rd_messages0, rd_messages1, rd_size0, rd_size1, rd_user0, rd_user1.
  cbn [mbind res_mbind r_bind mret res_mret]. by rewrite !json_eqb_int.
Qed.
Lemma summaries_difference :
  overhead_difference d1 d2 = Ok (Qabs (fsub (overhead_percent t1 (v_user a)) (overhead_percent t2 (v_user a)))).
Proof. unfold overhead_difference, float_field. by rewrite (rd_overhead _ _ _ _ R1), (rd_overhead _ _ _ _ R2). Qed.
Lemma summaries_comparison : comparison d1 d2 = Ok (comparison_of a t1 t2).
Proof.
  unfold comparison. rewrite summaries_difference. destruct R1, R2.
  by rewrite rd_overhead0, rd_overhead1, rd_total0, rd_total1, rd_expansion0, rd_expansion1.
Qed.
End analysis.

Lemma readable_bar a mode d t : readable a mode d t →
  bar_label d = Ok tt ∧ (∃ h, bar_height d = Ok h) ∧ (∃ x, bar_text d = Ok x).
Proof.
  intros []. unfold bar_label, bar_height, bar_text, float_field. rewrite rd_mode0, rd_total0, rd_overhead0, rd_expansion0.
  cbn. by eauto.
Qed.

(** ** The analysis on a host that serves the summaries *)

Section serving.
Context {W : Type} `{Host W}.

(** The call succeeds with [x], and what the host holds stays. *)
Definition answers (P : W → Prop) {A} (e : eff A) (x : A) : Prop :=
  ∀ w, P w → ∃ w', handle e w = (inl x, w') ∧ P w'.
Definition summary_path (root mode : string) : path := joinpath (joinpath root mode) "volumetric_summary.json".

(** A host that holds the two summaries of the run at [root] and on which the analysis can
    write its files and print. *)
Record serving (P : W → Prop) (root : path) (d1 d2 : json) : Prop := {
  sv_resolve : answers P (EResolve root) root;
  sv_exists : ∀ mode, mode = "cbr" ∨ mode = "poisson" → answers P (EExists (summary_path root mode)) true;
  sv_cbr : answers P (EReadJson (summary_path root "cbr")) d1;
  sv_poisson : answers P (EReadJson (summary_path root "poisson")) d2;
  sv_table : ∀ rows, answers P (EWriteCsv (joinpath root "volumetric_results.csv") rows) tt;
  sv_comparison : ∀ j, answers P (EWriteJson (joinpath root "volumetric_comparison.json") j) tt;
  sv_plot : answers P (ESavePlots (joinpath root "volumetric_comparison.png")) tt;
  sv_print : ∀ err s, answers P (EPrint err s) tt }.

(** A call whose answer is known. *)
Lemma wp_answers {A B} (P : W → Prop) (e : eff A) x (k : A → M (hst W) B) Q E n D (st : hst W) :
  answers P e x → P (world st) → logged (trace st) = D →
  (∀ st', P (world st') → logged (trace st') = D ++ entry_of (Ev e (inl x)) → wp True (k x) Q E n st') →
  wp True (call e ≫= k) Q E n st.
Proof.
  intros Ha Hp HD Hk. apply wp_bind, wp_call. destruct (Ha _ Hp) as (w' & -> & Hp').
  apply Hk; [done|]. cbn. by rewrite observed_snoc, HD.
Qed.
(** The same of a call that records nothing. *)
Lemma wp_answers_silent {A B} (P : W → Prop) (e : eff A) x (k : A → M (hst W) B) Q E n D (st : hst W) :
  answers P e x → records e = false → P (world st) → logged (trace st) = D →
  (∀ st', P (world st') → logged (trace st') = D → wp True (k x) Q E n st') →
  wp True (call e ≫= k) Q E n st.
Proof.
  intros Ha He Hp HD Hk. eapply wp_answers; [done..|]. intros st' Hp' Hl. apply Hk; [done|].
  by rewrite Hl, (blind (f:=entry_of)), app_nil_r.
Qed.
Lemma wp_res {A B} (r : res A) x (k : A → M (hst W) B) Q E n st :
  r = Ok x → wp True (k x) Q E n st → wp True (of_res r ≫= k) Q E n st.
Proof. intros ->. intros Hk. by apply wp_bind, wp_of_res. Qed.
(** A loop that only computes. *)
Lemma wp_for_pure {X B} (l : list X) (body : X → M (hst W) unit) (k : unit → M (hst W) B) Q E n st :
  (∀ x, x ∈ l → ∀ n st, body x n st = (Ok tt, st)) → wp True (k tt) Q E n st → wp True (for_unit l body ≫= k) Q E n st.
Proof.
  intros Hb Hk. apply wp_bind. induction l as [|x l IH]; cbn [for_unit]; [by apply wp_ret|].
  apply wp_bind. unfold wp at 1. rewrite Hb by by left. apply IH. intros y Hy. apply Hb. by right.
Qed.
End serving.

Section script.
Context {W : Type} `{Host W} (py_repr : json → string) (P : W → Prop) (root : path) (a : bt05_args)
  (m1 m2 : string) (d1 d2 : json) (t1 t2 : Z).
Context (SV : serving P root d1 d2) (R1 : readable a m1 d1 t1) (R2 : readable a m2 d2 t2).

Lemma load_summary_wp {B} mode m d t (k : json → M (hst W) B) Q E n D (st : hst W) :
  (mode = "cbr" ∧ d = d1) ∨ (mode = "poisson" ∧ d = d2) → readable a m d t →
  P (world st) → logged (trace st) = D →
  (∀ st', P (world st') → logged (trace st') = D → wp True (k d) Q E n st') →
  wp True (load_summary root mode ≫= k) Q E n st.
Proof.
  intros Hm Hr Hp HD Hk. apply wp_bind. unfold load_summary.
  eapply wp_answers_silent; [apply (sv_exists _ _ _ _ SV mode); naive_solver|done|done|done|]. clear st Hp HD. intros st Hp HD.
  apply wp_bind, wp_raise_if. assert (answers P (EReadJson (summary_path root mode)) d) as Ha.
  { destruct Hm as [[-> ->]|[-> ->]]; [apply (sv_cbr _ _ _ _ SV)|apply (sv_poisson _ _ _ _ SV)]. }
  eapply wp_answers_silent; [exact Ha|done|done|done|]. clear st Hp HD. intros st Hp HD.
  eapply wp_res; [apply Hr|]. apply wp_ret. by apply Hk.
Qed.

Lemma print_row_wp mode d t n D (st : hst W) :
  readable a mode d t → P (world st) → logged (trace st) = D →
  wp True (print_row py_repr d) (λ _ st', P (world st') ∧ logged (trace st') = D) (λ _ _, False) n st.
Proof.
  intros [? ? ? ? ? ? ? ? [x Hx] ?] Hp HD. unfold print_row, float_field.
  rewrite rd_mode0, rd_messages0, rd_user0, rd_total0, rd_overhead0, rd_expansion0, Hx.
  eapply wp_res; [reflexivity|]. unfold print. apply wp_call.
  edestruct (sv_print _ _ _ _ SV) as (w' & -> & Hp'); [exact Hp|]. split; [done|]. cbn. by rewrite observed_snoc, HD, app_nil_r.
Qed.

Definition analysis_entries (v1 v2 : list json) : list entry :=
  [Table (joinpath root "volumetric_results.csv") (map JStr FIELDS :: [v1; v2]);
   Doc (joinpath root "volumetric_comparison.json") (comparison_of a t1 t2)].

Lemma write_plot_wp {B} (k : path → M (hst W) B) Q E n D (st : hst W) :
  P (world st) → logged (trace st) = D →
  (∀ st', P (world st') → logged (trace st') = D → wp True (k (joinpath root "volumetric_comparison.png")) Q E n st') →
  wp True (write_plot root [d1; d2] ≫= k) Q E n st.
Proof.
  intros Hp HD Hk. apply wp_bind. unfold write_plot.
  destruct (readable_bar _ _ _ _ R1) as (L1 & [h1 H1] & [x1 X1]), (readable_bar _ _ _ _ R2) as (L2 & [h2 H2] & [x2 X2]).
  do 3 (apply wp_for_pure; [intros d Hd m s; rewrite !elem_of_cons, elem_of_nil in Hd; destruct Hd as [->|[->|[]]];
    rewrite ?L1, ?L2, ?H1, ?H2, ?X1, ?X2; reflexivity|]).
  eapply wp_answers_silent; [apply SV|done|exact Hp|exact HD|]. clear st Hp HD. intros st Hp HD. apply wp_ret. by apply Hk.
Qed.

Lemma volume_main_wp n (st : hst W) :
  P (world st) →
  wp True (volume_main py_repr root)
    (λ z st', z = 0 ∧ ∃ v1 v2, row_values d1 = Ok v1 ∧ row_values d2 = Ok v2 ∧
       logged (trace st') = logged (trace st) ++ analysis_entries v1 v2) (λ _ _, False) n st.
Proof.
  intros Hp. unfold volume_main. set (D := logged (trace st)). assert (logged (trace st) = D) as HD by done. clearbody D.
  eapply wp_answers_silent; [apply SV|done|exact Hp|exact HD|]. clear st Hp HD. intros st Hp HD.
  eapply load_summary_wp; [by left|exact R1|exact Hp|exact HD|]. clear st Hp HD. intros st Hp HD.
  eapply load_summary_wp; [by right|exact R2|exact Hp|exact HD|]. clear st Hp HD. intros st Hp HD.
  eapply wp_res; [by eapply summaries_comparable|].
  destruct (rd_row _ _ _ _ R1) as [v1 V1], (rd_row _ _ _ _ R2) as [v2 V2].
  apply wp_bind. unfold write_csv. eapply wp_res; [by cbn [table_rows]; rewrite V1, V2|].
  eapply wp_answers; [apply SV|exact Hp|exact HD|]. clear st Hp HD. intros st Hp HD. apply wp_ret.
  apply wp_bind. unfold write_comparison. eapply wp_res; [by eapply summaries_comparison|].
  eapply wp_answers; [apply SV|exact Hp|exact HD|]. clear st Hp HD. intros st Hp HD. apply wp_ret.
  rewrite <- app_assoc in HD. cbn [entry_of ev_eff ev_out app] in HD. fold (analysis_entries v1 v2) in HD.
  eapply write_plot_wp; [exact Hp|exact HD|]. clear st Hp HD. intros st Hp HD.
  do 3 (eapply wp_answers_silent; [apply SV|done|exact Hp|exact HD|]; clear st Hp HD; intros st Hp HD).
  apply wp_bind. eapply (wp_mono True _ (λ _ st', P (world st') ∧ logged (trace st') = D ++ analysis_entries v1 v2) _ (λ _ _, False));
    [|done|].
  - clear st Hp HD. intros _ st [Hp HD]. eapply wp_res; [by eapply summaries_difference|].
    eapply wp_answers_silent; [apply SV|done|exact Hp|exact HD|]. clear st Hp HD. intros st Hp HD. apply wp_ret. eauto 8.
  - apply (wp_for_unit True (λ _ st', P (world st') ∧ logged (trace st') = D ++ analysis_entries v1 v2)); [|done].
    clear st Hp HD. intros pre d post st Hl [Hp HD].
    assert (d = d1 ∨ d = d2) as [->| ->].
    { assert (d ∈ [d1; d2]) as Hd by (rewrite Hl; apply elem_of_app; right; by left).
      rewrite !elem_of_cons, elem_of_nil in Hd. tauto. }
    all: by eapply print_row_wp.
Qed.
End script.

(** ** The whole run *)

Section run_laws.
Context {W : Type} `{Host W} (PROJECT_ROOT sys_executable : string) (float_repr : Q → string) (str_repr : string → string).

(** The records of the modes of a run, one for each mode. *)
Definition mode_logs (a : bt05_args) (root : string) : list string → list (list entry) → Prop :=
  Forall2 (λ mode l, ∃ s, v_name s = mode ∧ v_mode_dir s = joinpath root mode ∧ passed_log s a l).

(** The analysis of the run's directory exited with 0, where it is due. *)
Definition volume_analysed (a : bt05_args) (root : string) (l : list event) : Prop :=
  v_skip_analysis a = false → both_modes (modes_named (v_mode a)) = true →
  ∃ c, Ev (ERun [sys_executable; BT05_ANALYZE PROJECT_ROOT; root] None) (inl c) ∈ l ∧ returncode c = 0.
Lemma volume_analysed_app a root l l' : volume_analysed a root l → volume_analysed a root (l ++ l').
Proof. intros Hl H1 H2. destruct (Hl H1 H2) as (c & Hc & Hz). exists c. split; [|done]. apply elem_of_app. by left. Qed.
Lemma volume_analysed_later {Pe} a root (st st' : hst W) :
  extends Pe st st' → volume_analysed a root (trace st) → volume_analysed a root (trace st').
Proof. intros (l & -> & _). apply volume_analysed_app. Qed.

(** The state of [main] when its modes passed. *)
Definition all_passed (a : bt05_args) (root : string) (D : list entry) (p : main_locals * hst W) : Prop :=
  completed_modes p.1 = modes_named (v_mode a) ∧
  (∃ ls, logged (trace p.2) = D ++ concat ls ∧ mode_logs a root (modes_named (v_mode a)) ls) ∧
  volume_analysed a root (trace p.2).

Definition done_so_far (a : bt05_args) (root : string) (D : list entry) (pre : list string) (p : main_locals * hst W) : Prop :=
  completed_modes p.1 = pre ∧ ∃ ls, logged (trace p.2) = D ++ concat ls ∧ mode_logs a root pre ls.
Lemma volume_modes_wp a root commit dirty t D modes n p :
  done_so_far a root D [] p →
  wp True (for_unit modes (λ mode,
             lift (bt05_run_mode float_repr str_repr (volume_setup_of mode commit dirty t root) a);;
             set_local (add_completed mode)) : GM unit)
    (λ _ p', done_so_far a root D modes p') (λ _ _, True) n p.
Proof.
  intros Hp. apply (wp_for_unit True (done_so_far a root D)); [|done].
  intros pre mode post [l st] _ [H1 (ls & H2 & H3)]. apply wp_bind, wp_lift.
  eapply wp_mono; [| |apply bt05_run_mode_wp]; [|done]. intros [] st' (l1 & Hd & Hl1).
  unfold wp, set_local. cbn in *. split; [cbn; congruence|]. exists (ls ++ [l1]). split.
  - cbn. by rewrite Hd, H2, concat_app, app_assoc; cbn; rewrite app_nil_r.
  - apply Forall2_app; [done|]. constructor; [|constructor]. eexists. by split_and!; [| |exact Hl1].
Qed.

Lemma analyse_wp a root n (st : hst W) :
  wp True (analyse PROJECT_ROOT sys_executable a root (modes_named (v_mode a)))
    (λ _ st', logged (trace st') = logged (trace st) ∧ volume_analysed a root (trace st')) (λ _ _, True) n st.
Proof.
  eapply wp_mono; [| |eapply (wp_keeps (R:=silent) True _ (λ _ st', volume_analysed a root (trace st')))];
    [by intros ? ? [? ?]|done|unfold analyse; keeps_deep|].
  unfold analyse. destruct (v_skip_analysis a) eqn:E1; [apply wp_ret; intros Hs; congruence|].
  destruct (both_modes (modes_named (v_mode a))) eqn:E2.
  - apply wp_any. intros _ st1. apply wp_bind, wp_call_cases; [|done]. intros c w' _. apply wp_raise_if.
    destruct (returncode c =? 0) eqn:Ec; [|done]. apply Z.eqb_eq in Ec. intros _ _. exists c. split; [|done].
    cbn. apply elem_of_app. right. by left.
  - eapply wp_mono; [| |apply wp_trivial]; [|done]. intros _ st' _ _ Hb. by rewrite E2 in Hb.
Qed.

Lemma bt05_try_wp a root commit dirty n l (st : hst W) :
  completed_modes l = [] →
  wp True (bt05_try PROJECT_ROOT sys_executable float_repr str_repr a root commit dirty (modes_named (v_mode a)))
    (λ z p', z = 0 ∧ suite_result p'.1 = "passed" ∧ all_passed a root (logged (trace st)) p') (λ _ _, True) n (l, st).
Proof.
  intros Hl. unfold bt05_try. apply wp_bind.
  eapply wp_mono; [| |eapply wp_keeps; [apply (bring_up_preparing _ _ entry_of); intros; keeps_deep|apply wp_trivial]]; [|done].
  intros t [l1 st1] [_ [Hd Hc]]. unfold unseen in Hd. cbn in Hd, Hc. rewrite Hl in Hc. rewrite <- Hd. clear Hl Hd st l.
  apply wp_bind. eapply wp_mono; [| |apply (volume_modes_wp a root commit dirty t (logged (trace st1)))]; [|done|].
  2:{ split; [done|]. exists []. cbn. rewrite app_nil_r. by split; [|constructor]. }
  intros [] [l2 st2] [H1 (ls & H2 & H3)]. apply wp_bind, wp_lift. eapply wp_mono; [| |apply analyse_wp]; [|done].
  intros [] st3 [H4 H5]. apply wp_set_local. cbn [fst snd] in *.
  unfold print. do 2 (apply wp_bind, wp_lift, wp_call_cases; [|done]; intros [] ? _). apply wp_ret.
  split_and!; [done|done|]. split_and!; [done| |by do 2 apply volume_analysed_app].
  exists ls. split; [|done]. cbn. by rewrite !observed_snoc, !app_nil_r, H4, H2.
Qed.

Lemma bt05_finally_suite a root stamp commit dirty modes :
  keeps (host_only (extends (suite_only root)))
    (bt05_finally PROJECT_ROOT a root stamp commit dirty modes : GM (W:=W) unit).
Proof. unfold bt05_finally. pose proof (tear_down_suite (W:=W)). keeps_tac. Qed.
(** The [finally] writes the suite's document last. *)
Lemma bt05_finally_wp a root stamp commit dirty modes n l (st : hst W) :
  wp True (bt05_finally PROJECT_ROOT a root stamp commit dirty modes)
    (λ _ p', logged (trace p'.2) = logged (trace st) ++ [Doc (suite_file root) (bt05_suite stamp commit dirty modes a l)])
    (λ _ _, True) n (l, st).
Proof.
  unfold bt05_finally. apply wp_get_local, wp_bind, wp_writes. intros st1 H1.
  eapply wp_mono; [| |eapply wp_keeps; [apply (tear_down_unseen _ entry_of)|apply wp_trivial]]; [|done].
  intros [] p' [_ Hs]. unfold host_only, unseen in Hs. cbn in Hs. by rewrite Hs, H1.
Qed.

(** What [suite_run.json] says for each exit status. *)
Definition suite_status (z : Z) : string :=
  if z =? 0 then "passed" else if z =? 130 then "interrupted" else "failed".
Definition suite_says (a : bt05_args) (root : string) (z : Z) (completed : option (list string)) (x : entry) : Prop :=
  ∃ doc, x = Doc (suite_file root) (JObj doc) ∧ dict_get "result" doc = Some (JStr (suite_status z)) ∧
    (∀ modes, completed = Some modes → dict_get "completed" doc = Some (JList (map JStr modes))).

Definition volume_outcome (a : bt05_args) (root : string) (D : list entry) (z : Z) (st' : hst W) : Prop :=
  (z = 0 ∧ volume_analysed a root (trace st') ∧
   ∃ ls x, logged (trace st') = D ++ concat ls ++ [x] ∧ mode_logs a root (modes_named (v_mode a)) ls ∧
     suite_says a root 0 (Some (modes_named (v_mode a))) x) ∨
  ((z = 1 ∨ z = 130) ∧ ∃ rest x, logged (trace st') = rest ++ [x] ∧ suite_says a root z None x).

Lemma bt05_run_wp a root stamp commit dirty n (st : hst W) :
  wp True (with_locals no_locals
      (bt05_run PROJECT_ROOT sys_executable float_repr str_repr a root stamp commit dirty (modes_named (v_mode a))))
    (volume_outcome a root (logged (trace st))) (λ _ _, True) n st.
Proof.
  apply wp_with_locals. unfold bt05_run. set (D := logged (trace st)). apply wp_try_finally.
  set (fin := bt05_finally _ _ _ _ _ _ _).
  assert (∀ z p', (z = 1 ∨ z = 130) → suite_result p'.1 = suite_status z →
    wp True fin (λ _ p'', volume_outcome a root D z p''.2) (λ _ _, True) n p') as Hbad.
  { intros z [l' st'] Hz Hs. eapply wp_mono; [| |apply bt05_finally_wp]; [|done]. intros [] p'' Hl.
    right. split; [done|]. eexists _, _. split; [exact Hl|]. eexists. split_and!; [reflexivity|cbn in *; by rewrite Hs|done]. }
  assert (∀ p', wp True fin (λ _ _, True) (λ _ _, True) n p') as Htriv by (intros; apply wp_trivial).
  apply wp_try_except. eapply wp_mono; [| |by apply bt05_try_wp].
  - intros z [l' st'] (-> & Hs & Hc & (ls & H1 & H2) & H3). cbn [fst snd] in *.
    eapply wp_mono; [| |eapply wp_keeps; [apply bt05_finally_suite|apply bt05_finally_wp]]; [|done].
    intros [] p'' [Hl He]. left. split_and!; [done|by eapply volume_analysed_later|].
    eexists ls, _. split_and!; [by rewrite Hl, H1, <- app_assoc|done|]. eexists. split_and!; [reflexivity|cbn; by rewrite Hs|].
    intros ? [= <-]. cbn. by rewrite Hc.
  - intros e [l' st'] _. destruct (isinstance e KeyboardInterrupt).
    + apply wp_set_local, wp_ret, Hbad; [by right|done].
    + destruct (isinstance e Exception_); [|by apply Htriv]. apply wp_bind, wp_lift.
      eapply wp_mono; [| |apply wp_trivial]; [|intros; by apply Htriv].
      intros ? ? _. apply wp_set_local, wp_ret, Hbad; [by left|done].
Qed.

Lemma bt05_main_wp a n (st : hst W) :
  wp True (bt05_main PROJECT_ROOT sys_executable float_repr str_repr a)
    (λ z st', ∃ stamp, volume_outcome a (joinpath (BT05_RESULTS PROJECT_ROOT) stamp) (logged (trace st)) z st')
    (λ _ _, True) n st.
Proof.
  unfold bt05_main. apply wp_bind. eapply wp_mono; [| |apply (begin_run_wp entry_of)]; [|done].
  intros [[[stamp root] commit] dirty] st1 [<- Hr]. cbn in Hr. subst root.
  eapply wp_mono; [| |by apply bt05_run_wp]; [|done]. intros z st' Hz. by exists stamp.
Qed.
End run_laws.

(** ** A host with the summaries *)

(** The run's directory and what the loopback host holds in it. *)
Definition RUN : path := "/repo/benchmarks/results/BT-05/run".
Definition stored (d1 d2 : json) (w : lw) : Prop :=
  (∀ mode, mode = "cbr" ∨ mode = "poisson" → ∃ x, assoc (summary_path RUN mode) (texts (around w)) = Some x) ∧
  assoc (summary_path RUN "cbr") (docs (around w)) = Some d1 ∧ assoc (summary_path RUN "poisson") (docs (around w)) = Some d2.
Definition store (d1 d2 : json) : hst lw :=
  HSt (LW (Site [] (λ _, Completed 0 EmptyString EmptyString)
             [(summary_path RUN "cbr", EmptyString); (summary_path RUN "poisson", EmptyString)]
             [(summary_path RUN "cbr", d1); (summary_path RUN "poisson", d2)] 0) 0 0 [] (λ _, Peer [] false) (λ _, None)) [].

Lemma stored_store d1 d2 : stored d1 d2 (world (store d1 d2)).
Proof. split; [intros mode [->| ->]; by eexists|done]. Qed.
Lemma stored_serving d1 d2 : serving (stored d1 d2) RUN d1 d2.
Proof.
  split; [intros w Hw|intros mode Hm w Hw|intros w Hw|intros w Hw|intros rows w Hw|intros j w Hw|intros w Hw|intros err s w Hw];
    pose proof Hw as (H1 & H2 & H3).
  - by eexists.
  - destruct (H1 mode Hm) as [x Hx]. eexists. split; [|exact Hw]. cbn. by rewrite Hx.
  - eexists. split; [|exact Hw]. cbn. unfold read_table. by rewrite H2.
  - eexists. split; [|exact Hw]. cbn. unfold read_table. by rewrite H3.
  - by eexists.
  - eexists. split; [reflexivity|]. by split_and!.
  - by eexists.
  - by eexists.
Qed.
(** The record of the mode that was run on the testbed. *)
Definition sample_log : list entry := logged (trace volume_run.2).
Lemma run_log_passed r ps vs :
  bt05_run_mode any_float plain sample_volume volume_args 1000%nat volume_bench = r → volume_result r = (Ok tt, ps, vs) →
  passed_log sample_volume volume_args (logged (trace r.2)).
Proof.
  destruct r as [o st']. intros Hrun [= -> _ _].
  destruct (wp_run _ _ _ _ _ _ _ _ (bt05_run_mode_wp any_float plain sample_volume volume_args 1000 volume_bench) Hrun)
    as (l & Hl & Hp). cbn [snd]. rewrite Hl. exact Hp.
Qed.
Lemma sample_log_passed : passed_log sample_volume volume_args sample_log.
Proof. exact (run_log_passed volume_run _ _ eq_refl volume_run_passes). Qed.

(** ** The properties *)

(** C8: BT-05's modes and its analysis fit together.  Take the summaries of two modes that
    passed under the same arguments.  On a host that holds them in the run's directory, and where the analysis
    can write its files and print, the analysis exits with 0: no field is missing, the runs
    are comparable and every number can be read.  It writes one table with the two summaries
    and a comparison with their volumes and ratios and the absolute difference of the two
    overheads. *)
Theorem volume_analysis_succeeds {W} `{Host W} py_repr (P : W → Prop) root (a : bt05_args) s1 s2 l1 l2 d1 d2 (st : hst W) :
  passed_log s1 a l1 → passed_log s2 a l2 →
  Doc (volume_summary_file s1) d1 ∈ l1 → Doc (volume_summary_file s2) d2 ∈ l2 →
  serving P root d1 d2 → P (world st) →
  ∃ st' t1 t2 v1 v2, returns (volume_script py_repr root) st (Ok 0) st' ∧ 0 < t1 ∧ 0 < t2 ∧
    jget "V_total" d1 = Ok (JInt t1) ∧ jget "V_total" d2 = Ok (JInt t2) ∧
    row_values d1 = Ok v1 ∧ row_values d2 = Ok v2 ∧
    logged (trace st') = logged (trace st) ++ analysis_entries root a t1 t2 v1 v2.
Proof.
  intros P1 P2 D1 D2 SV Hp. pose proof (passed_summary_of _ _ _ _ P1 D1) as (t1 & T1 & R1)%summary_readable.
  pose proof (passed_summary_of _ _ _ _ P2 D2) as (t2 & T2 & R2)%summary_readable.
  destruct (total_post (volume_script py_repr root) (λ z st', z = 0 ∧ ∃ v1 v2, row_values d1 = Ok v1 ∧ row_values d2 = Ok v2 ∧
    logged (trace st') = logged (trace st) ++ analysis_entries root a t1 t2 v1 v2) (λ _ _, False) st) as (r & st' & Hr & Hpost).
  - apply volume_script_total.
  - intros n. apply wp_try_except. eapply wp_mono; [| |by eapply volume_main_wp]; [done|]. by intros e st' ?.
  - destruct r as [z|e|]; [|done|done]. destruct Hpost as (-> & v1 & v2 & V1 & V2 & Hl).
    exists st', t1, t2, v1, v2. split_and!; try done; [apply R1|apply R2].
Qed.

Lemma volume_analysis_succeeds_witness :
  ∃ d st' t1 t2 v1 v2, Doc (volume_summary_file sample_volume) d ∈ sample_log ∧
    returns (volume_script no_repr RUN) (store d d) (Ok 0) st' ∧ 0 < t1 ∧ 0 < t2 ∧
    jget "V_total" d = Ok (JInt t1) ∧ jget "V_total" d = Ok (JInt t2) ∧ row_values d = Ok v1 ∧ row_values d = Ok v2 ∧
    logged (trace st') = logged (trace (store d d)) ++ analysis_entries RUN volume_args t1 t2 v1 v2.
Proof.
  destruct (passed_summary _ _ _ sample_log_passed) as [d Hd]. exists d.
  destruct (volume_analysis_succeeds no_repr (stored d d) RUN volume_args sample_volume sample_volume sample_log sample_log d d
    (store d d) sample_log_passed sample_log_passed Hd Hd (stored_serving d d) (stored_store d d))
    as (st' & t1 & t2 & v1 & v2 & Hall). exists st', t1, t2, v1, v2. exact (conj Hd Hall).
Defined.

(** C19: the whole run of BT-05.  [main] ends.  When it returns, its status is 0, 1 (an error)
    or 130 (interrupted), and the last document it wrote is [suite_run.json], whose result is
    passed, failed or interrupted accordingly.  The status is 0 only when every requested mode
    passed, in order - the record of the run is that of the modes followed by the suite's
    document, which lists exactly the requested modes as completed - and, when both modes were
    run and [--skip-analysis] was not given, when the analysis of the run's directory was
    started and exited with 0. *)
Theorem bt05_exit_status {W} `{Clock W, !LineStream W, !Prompts W} PROJECT_ROOT sys_executable float_repr str_repr
  (a : bt05_args) (st : hst W) :
  ∃ r st', returns (bt05_main PROJECT_ROOT sys_executable float_repr str_repr a) st r st' ∧
    ∀ z, r = Ok z → ∃ stamp,
      volume_outcome PROJECT_ROOT sys_executable a (joinpath (BT05_RESULTS PROJECT_ROOT) stamp) (logged (trace st)) z st'.
Proof.
  destruct (total_post (bt05_main PROJECT_ROOT sys_executable float_repr str_repr a) _ _ st
    (bt05_main_total PROJECT_ROOT sys_executable float_repr str_repr a)
    (λ n, bt05_main_wp PROJECT_ROOT sys_executable float_repr str_repr a n st)) as (r & st' & Hr & Hpost).
  exists r, st'. split; [done|]. by intros z ->.
Qed.
Lemma bt05_exit_status_witness :
  ∃ r (st' : hst bench), returns (bt05_main "/repo" "python3" any_float plain volume_args) volume_bench r st' ∧
    ∀ z, r = Ok z → ∃ stamp,
      volume_outcome "/repo" "python3" volume_args (joinpath (BT05_RESULTS "/repo") stamp) (logged (trace volume_bench)) z st'.
Proof. exact (bt05_exit_status "/repo" "python3" any_float plain volume_args volume_bench). Defined.

Definition latency_args : bt06_args :=
  {| a_mode := "all"; a_messages := 1; a_message_size := 32; a_cbr_interval_ms := 10; a_poisson_lambda := 1;
     a_phase_jitter_seed := DEFAULT_PHASE_JITTER_SEED; a_per_message_timeout_seconds := 60; a_progress_every := 1;
     a_skip_analysis := false; a_keep_environment := false |}.
